(* ===== verification/_CoqProject ===== *)
-Q . S2P
Prelude.v
StdNet.v
StdText.v
Net.v
Config.v
NetText.v
Socks.v
Tune.v
Logging.v
Stats.v
Format.v
FormatBounds.v
Metrics.v
Reload.v
Platform.v
Device.v
Command.v
MacDns.v
MacRoute.v
LinuxTun.v
MacOwn.v
MacRetry.v
MacTun.v
WinRoute.v
WinOwn.v
WinRetry.v
WinTun.v
Bridge.v
Accept.v
TcpRelay.v
LinuxDns.v
UnitTests.v
Netlink.v
LinuxRoute.v
LinuxError.v
LinuxRestart.v
DnsPool.v
DnsLive.v
DnsSystem.v
DnsTests.v
DnsAnswers.v
Udp.v
UdpNat.v
DnsRelay.v
UdpEnd.v
App.v
Signals.v
Main.v
Controller.v
LinuxRun.v
MacRun.v
WinRun.v
