(* ===== verification/Prelude.v ===== *)
(** * Cortado: a verification development

    Cortado is a transparent proxy: it creates a tunnel device, routes the
    host's traffic into it, terminates TCP and UDP in a user-space network
    stack, and relays both through a SOCKS5 proxy, except for the networks
    the configuration lets bypass it. This library models the program in
    [src/src] and proves what makes it correct.

    ** The program and its parts

    [main.rs] and [lib.rs] load the configuration, tune the program to the
    host, probe the proxy, create the device, let the platform's route
    controller set up routes and DNS, and then run tasks until a signal: the
    packet bridge, the TCP accept loop, the UDP relay, the metrics endpoint
    and the reporter. A reload signal computes a plan from the old and the
    new configuration and hands it to the controller, to the shared cells the
    relays read, and to the DNS pool. At the end the controller tears down
    what it set up.

    ** Files

    - [Prelude], [StdNet], [StdText]: machine integers, bytes, results with
      error chains; addresses of [std::net] with their printing and the parser
      of [core::net]; the text functions of [str] the program uses.
    - [Net] ([net.rs]): masks, networks, the bypass table.
    - [Config] ([config.rs]): the configuration and its validation; a panic
      of an [expect] is [None]. [NetText]: the text of addresses and networks
      reads back, so a route command names the network it is meant for.
    - [Socks] ([socks.rs]): the UDP encapsulation, authentication and UDP
      ASSOCIATE, as programs over a byte stream whose reads can end or stall
      and whose writes can fail or block after any part of their bytes.
    - [Tune] ([tune.rs]): buffer sizes and limits from the host's resources.
    - [Logging], [Stats], [Format], [Metrics] ([logging.rs], [stats.rs],
      [metrics.rs]): messages, counters and gauges, [format_bytes] in
      double precision ([FormatBounds]: how exact it is), the exposition text
      and its HTTP endpoint.
    - [Reload] ([reload.rs]): the shared cells and the plan of a reload.
    - [Platform] ([platform/mod.rs]): the traits [DnsConfigurator] and
      [RouteController] as classes, over a state-and-error monad with its
      notations and rules for what a computation keeps even when it fails;
      the calls made of a controller, and when a plan fits it.
    - [Device] ([platform/mod.rs]): the trait [TunDevice] over [AsyncRead] and
      [AsyncWrite], and the contract of a packet device, [PacketIo], that the
      bridge relies on; instances in [LinuxTun], [MacTun] and [WinTun].
    - [LinuxDns], [Netlink], [LinuxRoute], [LinuxTun] ([platform/linux]): the
      override of [resolv.conf] over files whose operations can fail; the
      kernel's routing table; the route manager and the link detection; the
      device. [LinuxError] and [LinuxRestart] hold what is proved of the
      manager when calls fail, and of reloads against restarts.
    - [Command], [MacDns], [MacRoute], [MacTun] ([platform/macos]),
      [WinRoute], [WinTun] ([platform/windows]): the back ends that run
      system tools, over a host that answers commands in any way and keeps
      the trace of them; the opening and the framing of utun and the read
      buffer of Wintun. [MacOwn] and [WinOwn]: which networks the commands of
      a controller name, over all calls, whatever the host answers. [MacRetry]
      and [WinRetry]: repeating a reload that failed.
    - [Bridge] ([lib.rs]): the two packet tasks between any device and the
      stack, one poll at a time. [Accept]: the TCP accept loop with its
      semaphore; its two loads of the shared cells and a reload's two stores
      are moves of their own. [TcpRelay]: the relay of one accepted
      connection, composed with the bypass table and the connection through
      the proxy.
    - [DnsPool] ([dns.rs]): DNS over TCP through the proxy: identifiers,
      framing, the reader task, and the pool over a heap of connections.
      [DnsLive]: what becomes of a query that waits. [DnsSystem]: the whole
      pool as one machine, in which every query, every reader, a change of
      the proxy and the pruner move in any order; a query writes under the
      writer lock of its connection, and its write ends only when the proxy
      takes it or the connection breaks. [DnsAnswers]: its answers.
    - [Udp] ([udp.rs]): the UDP relay as an executable machine of tasks with
      its outputs, run on any sequence of actions. [UdpNat]: its refinement to
      an address translator. [UdpEnd]: the pruner and the end of the relay.
      [DnsRelay]: the relay and the DNS pool as one machine.
    - [App] ([lib.rs]): configuration files, reload, the main loop and the
      stages of a run. [Signals]: the streams of signals and how the loop
      takes them. [Main] ([main.rs]): the two commands and the exit code.
    - [Controller], [LinuxRun], [MacRun], [WinRun]: what a run needs of a
      controller as the class [Accounted], the promise of a run proved once
      over it, and its instances for the three platforms.
    - [UnitTests], [DnsTests]: the program's own tests, run on the model.

    ** What is proved

    - The host is left as it was: [LinuxRun.linux_run_restores],
      [MacRun.mac_run_restores], [WinRun.win_run_restores], each from
      [Controller.run_clean]; under them the sets of routes an apply installs
      and the restoring of the DNS settings. A run is one whose reloads
      succeed ([Controller.untroubled]); on Linux the table is restored when
      no network of the tunnel's had a route before ([LinuxRoute.fresh]), on
      macOS and Windows, where commands may be refused, every deletion has
      been asked for.
    - Errors and reloads on Linux: routes that are not the program's are never
      touched ([LinuxError.foreign_routes_kept]); a reload that failed
      anywhere can be tried again ([LinuxError.reload_retry_recovers]); the
      table after reloads is the one of a fresh start with the same
      configuration ([LinuxRestart.reload_is_restart]), for configurations
      that do not get in each other's way ([LinuxRestart.apart]).
    - On macOS and Windows, where the host answers as it likes, every command
      of every sequence of calls names networks of the program's own only
      ([MacOwn.mac_commands_own], [WinOwn.win_commands_own]), and the text in
      it denotes exactly one network ([NetText.net_text_roundtrip]). A failed
      reload can be repeated there too ([MacRetry.mac_reload_retry],
      [WinRetry.win_reload_retry]).
    - Relays: the UDP relay translates addresses, message for message, in
      every interleaving ([UdpNat.udp_translates]); a TCP connection goes the
      way the configuration says and is counted once
      ([TcpRelay.tcp_relay_follows_config]).
    - DNS end to end: with the relay and the pool run together, a DNS packet
      handed to the stack is the right answer of the server its addressee
      asked ([DnsRelay.dns_end_to_end]), and every query gives its permit back
      unless a write is not taken or the queue of replies is full
      ([DnsRelay.dns_permits_return]). In every interleaving of the pool an
      answer of [resolve] is the asked server's answer to the asked question
      ([DnsAnswers.dns_answers_right]), and a query ends after at most 25
      moves unless a write on its connection is not taken
      ([DnsSystem.dns_queries_end]). Under them, on one connection and against
      any server, answers go to the query that sent their identifier
      ([DnsPool.answers_match_queries]), and a reply that arrives completes
      its query ([DnsLive.reply_completes_query]), with identifiers that are
      always found below the limit ([DnsPool.allocate_id_spec]) and a bounded
      pool ([DnsPool.acquire_bounded]).
    - Load is bounded in every interleaving ([Udp.udp_load_bounded],
      [Accept.tcp_relays_bounded]) and nothing waits for ever that need not
      ([Accept.tcp_waiting_served], [Bridge.uplink_delivers],
      [UdpEnd.udp_end_returns_iff], which also says when it does).
    - Reloads are coherent or without effect ([App.reload_coherent],
      [App.failed_reload_keeps_state]) and no signal for one is lost
      ([Signals.hangup_not_lost]).
    - Packets: the bridge is two lossless queues over any device that meets
      the contract ([Bridge.bridge_conserves]), which the three devices do;
      [WinTun.wintun_reads_stream], [MacTun.utun_roundtrip],
      [MacTun.utun_created].
    - Protocols: the frames of [Socks] decode to what was encoded, no
      credential is sent before the proxy asks for it, and the dialogues that
      succeed are those of the protocol, but for a version byte that is not
      checked ([Socks.negotiate_auth_iff]); [Metrics.scrape_exact] reads
      every counter back from the response.
    - The bypass table refines the meaning of a prefix
      ([Net.route_decide_spec]); [Config.validate_iff_valid] characterises
      what is accepted, and nothing that was accepted panics; tuned values
      stay in bounds without overflow; the amounts in the log are right to
      half a hundredth of their unit and the error of double precision
      ([FormatBounds.format_bytes_accurate]).

    Some theorems state a behaviour that is not what one would want; they are
    next to the operation they are about (for instance
    [LinuxRoute.apply_takes_over], [LinuxRoute.reload_drops_proxy_route],
    [LinuxRoute.reload_drops_alias],
    [LinuxRestart.Interrupted.interrupted_reload_leaks],
    [MacRoute.mac_failed_reload_leaks], [DnsPool.reader_desync],
    [DnsPool.stale_dial_kept], [DnsLive.late_query_stranded],
    [DnsSystem.stalled_write_blocks], [Accept.TcpExample.mixed_pair],
    [LinuxDns.dns_backup_lost]).

    ** Parameters and hypotheses

    Code of other crates and of the system is never defined here. The kernel
    is the class [Netlink.Netlink] with the documented effect of its requests
    as [Netlink.RouteLaws], of which a simulated kernel is an instance; it
    keeps a route under the masked prefix for IPv6 ([Netlink.kernel_key]). A
    host of commands is an arbitrary function of the commands run before;
    only the DNS theorems of macOS suppose that [networksetup] reports the
    servers it has. Files are a map with a script of faults. The TOML codec,
    the CONNECT handshake of [tokio_socks], the styles of the log, the
    constants of [libc] and the answers of the system calls that open a utun
    socket are variables of the sections that use them; the device of
    [tokio-tun] is any instance of the traits. What a
    peer sends, when a timer fires and which task moves next are arguments,
    events or steps of a relation. [DnsAnswers.honest] supposes servers that
    reply to messages they were sent, [DnsAnswers.orderly] a network that
    takes nothing after a failed write and no idle timeout inside a length;
    the theorem holds for connections that carried at most 65536 queries,
    after which identifiers come round again.

    ** Bounds and fuel

    [DnsPool.alloc_loop] searches the 65536 identifiers once round, as the
    loop of the source can at most; fewer than 256 being in use, a free one is
    met, which [allocate_id_spec] proves. The reply of the metrics endpoint is
    read back by [Metrics.http_head] with fuel for eight header lines, more
    than the reply has. Poll loops run on scripts of events and wait when the
    script is used up. The machines run on any list of moves; that the moves
    of a query are bounded is proved of every such list, not supposed.
    Integers have the width of the source; every wrap-around and saturation is
    written out.

    ** What is not modelled

    The network stack, the copying of relayed bytes, the device of
    [tokio-tun], the opening of a Wintun session, socket buffer sizes and the
    parsing of the command line are other crates' work and enter as outcomes
    or parameters. Of the tests, those in [tests/] against real sockets, the
    two of the TOML codec and the benchmarks are left out. *)

From Stdlib Require Import ZArith Lia.
From Stdlib Require Import Strings.Byte Strings.Ascii Strings.String.
From stdpp Require Import base decidable countable list strings pretty gmap.

#[local] Open Scope Z_scope.

(** ** Machine integers

    An unsigned integer of width [w] is a [Z] in [0, 2^w); the arithmetic
    that can leave that range is written with its wrap-around or
    saturation. *)

Definition uint (w : Z) (z : Z) : Prop := 0 <= z < 2 ^ w.

#[global] Instance uint_dec w z : Decision (uint w z).
Proof. unfold uint. apply _. Defined.

Definition umax (w : Z) : Z := 2 ^ w - 1.

Definition wrapping_add (w a b : Z) : Z := (a + b) mod 2 ^ w.
Definition wrapping_sub (w a b : Z) : Z := (a - b) mod 2 ^ w.
Definition saturating_sub (a b : Z) : Z := Z.max 0 (a - b).
Definition saturating_mul (w a b : Z) : Z := Z.min (umax w) (a * b).

(** [Ord::clamp]; its [assert!(min <= max)] holds at every call site. *)
Definition clamp (x lo hi : Z) : Z :=
  if x <? lo then lo else if hi <? x then hi else x.

(** [usize] is 64 bits wide on every supported target. *)
Definition usize_w : Z := 64.

Lemma clamp_bounds x lo hi : lo <= hi -> lo <= clamp x lo hi <= hi.
Proof. unfold clamp. intros. repeat case_match; lia. Qed.

Lemma clamp_id x lo hi : lo <= x <= hi -> clamp x lo hi = x.
Proof. unfold clamp. intros. repeat case_match; lia. Qed.

Lemma clamp_mono x y lo hi : lo <= hi -> x <= y -> clamp x lo hi <= clamp y lo hi.
Proof. unfold clamp. intros. repeat case_match; lia. Qed.

Lemma uint_mod w z : 0 <= w -> uint w (z mod 2 ^ w).
Proof. intros. unfold uint. apply Z.mod_pos_bound. lia. Qed.

Lemma uint_land w a b : 0 <= w -> 0 <= a -> uint w b -> uint w (Z.land a b).
Proof.
  intros Hw Ha [Hb1 Hb2]. split; [apply Z.land_nonneg; auto |].
  destruct (decide (b = 0)) as [-> | Hb0]; [rewrite Z.land_0_r; lia |].
  destruct (decide (Z.land a b = 0)) as [-> | Hl]; [lia |].
  apply Z.log2_lt_pow2; [pose proof (proj2 (Z.land_nonneg a b) (or_introl Ha)); lia |].
  eapply Z.le_lt_trans; [apply Z.log2_land; lia |].
  eapply Z.le_lt_trans; [apply Z.le_min_r |].
  apply Z.log2_lt_pow2; lia.
Qed.

(** ** Bytes *)

Abbreviation byte := Byte.byte.

#[global] Instance byte_eq_dec : EqDecision byte := Byte.byte_eq_dec.

(** [z as u8]: the low eight bits. *)
Definition byte_of_Z (z : Z) : byte :=
  default Byte.x00 (Byte.of_N (Z.to_N (z mod 256))).

Definition Z_of_byte (b : byte) : Z := Z.of_N (Byte.to_N b).

Lemma Z_of_byte_range b : 0 <= Z_of_byte b < 256.
Proof. unfold Z_of_byte. pose proof (Byte.to_N_bounded b). lia. Qed.

Lemma Z_of_byte_of_Z z : Z_of_byte (byte_of_Z z) = z mod 256.
Proof.
  unfold Z_of_byte, byte_of_Z. pose proof (Z.mod_pos_bound z 256 ltac:(lia)) as Hz.
  destruct (Byte.of_N _) as [b |] eqn:Hb; simpl.
  - apply Byte.to_of_N in Hb. lia.
  - apply Byte.of_N_None_iff in Hb. lia.
Qed.

Lemma byte_of_Z_of_byte b : byte_of_Z (Z_of_byte b) = b.
Proof.
  unfold byte_of_Z. rewrite Z.mod_small by apply Z_of_byte_range.
  unfold Z_of_byte. rewrite N2Z.id, Byte.of_to_N. done.
Qed.

#[global] Instance Z_of_byte_inj : Inj (=) (=) Z_of_byte.
Proof. intros x y H. rewrite <- (byte_of_Z_of_byte x), H. apply byte_of_Z_of_byte. Qed.

#[global] Program Instance byte_countable : Countable byte :=
  inj_countable' Z_of_byte byte_of_Z _.
Next Obligation. apply byte_of_Z_of_byte. Qed.

(** *** Big-endian encoding: [to_be_bytes] and [from_be_bytes] *)

Fixpoint be_bytes (n : nat) (z : Z) : list byte :=
  match n with
  | O => []
  | S n => byte_of_Z (z / 256 ^ Z.of_nat n) :: be_bytes n z
  end.

Fixpoint of_be_bytes_acc (acc : Z) (l : list byte) : Z :=
  match l with
  | [] => acc
  | b :: l => of_be_bytes_acc (acc * 256 + Z_of_byte b) l
  end.

Definition of_be_bytes (l : list byte) : Z := of_be_bytes_acc 0 l.

Lemma length_be_bytes n z : length (be_bytes n z) = n.
Proof. induction n; simpl; congruence. Qed.

Lemma of_be_bytes_acc_spec acc l :
  of_be_bytes_acc acc l = acc * 256 ^ Z.of_nat (length l) + of_be_bytes l.
Proof.
  unfold of_be_bytes. revert acc. induction l as [| b l IH]; intros acc; simpl.
  - lia.
  - rewrite IH, (IH (0 * 256 + Z_of_byte b)).
    replace (Z.of_nat (S (length l))) with (Z.of_nat (length l) + 1) by lia.
    rewrite Z.pow_add_r by lia. lia.
Qed.

Lemma of_be_bytes_cons b l :
  of_be_bytes (b :: l) = Z_of_byte b * 256 ^ Z.of_nat (length l) + of_be_bytes l.
Proof. unfold of_be_bytes at 1. simpl. apply of_be_bytes_acc_spec. Qed.

Lemma of_be_bytes_bound l : 0 <= of_be_bytes l < 256 ^ Z.of_nat (length l).
Proof.
  induction l as [| b l IH]; [done |]. rewrite of_be_bytes_cons.
  pose proof (Z_of_byte_range b). simpl length.
  replace (Z.of_nat (S (length l))) with (Z.of_nat (length l) + 1) by lia.
  rewrite Z.pow_add_r by lia. nia.
Qed.

Lemma of_be_bytes_be_bytes n z : of_be_bytes (be_bytes n z) = z mod 256 ^ Z.of_nat n.
Proof.
  induction n as [| n IH]; [by rewrite Z.mod_1_r |].
  simpl be_bytes. rewrite of_be_bytes_cons, Z_of_byte_of_Z, length_be_bytes, IH.
  replace (Z.of_nat (S n)) with (Z.of_nat n + 1) by lia.
  rewrite Z.pow_add_r by lia. change (256 ^ 1) with 256.
  rewrite Z.rem_mul_r by lia. lia.
Qed.

Lemma be_bytes_mod n k z :
  (n <= k)%nat -> be_bytes n (z mod 256 ^ Z.of_nat k) = be_bytes n z.
Proof.
  revert k. induction n as [| n IH]; intros k Hk; [done |]. simpl. f_equal.
  - apply (inj Z_of_byte). rewrite !Z_of_byte_of_Z.
    replace (Z.of_nat k) with (Z.of_nat n + (1 + (Z.of_nat k - Z.of_nat n - 1))) by lia.
    rewrite !Z.pow_add_r, Z.rem_mul_r by lia.
    rewrite (Z.mul_comm (256 ^ Z.of_nat n) (_ mod _)), Z.div_add by lia.
    rewrite (Z.div_small (z mod _)) by (apply Z.mod_pos_bound; lia).
    change (256 ^ 1) with 256. rewrite Z.add_0_l, <- Znumtheory.Zmod_div_mod; try lia.
    apply Z.divide_factor_l.
  - apply IH. lia.
Qed.

Lemma be_bytes_of_be_bytes l : be_bytes (length l) (of_be_bytes l) = l.
Proof.
  induction l as [| b l IH]; [done |]. simpl. f_equal.
  - rewrite of_be_bytes_cons. pose proof (of_be_bytes_bound l).
    rewrite Z.add_comm, Z.div_add, Z.div_small by lia. apply byte_of_Z_of_byte.
  - etransitivity; [| exact IH].
    rewrite <- (be_bytes_mod _ (length l) (of_be_bytes (b :: l))) by lia.
    f_equal. rewrite of_be_bytes_cons, Z.add_comm, Z.mod_add by lia.
    apply Z.mod_small, of_be_bytes_bound.
Qed.

(** ** Errors

    An [anyhow::Error] is its chain of messages, outermost context first:
    [Display] prints the first one and the alternate form [{e:#}] the whole
    chain joined with [": "]. *)

Inductive Result (E A : Type) : Type :=
| Ok (a : A)
| Err (e : E).
Arguments Ok {E A} a.
Arguments Err {E A} e.

Abbreviation Error := (list string).
Abbreviation result A := (Result Error A).

Definition rbind {E A B} (r : Result E A) (k : A -> Result E B) : Result E B :=
  match r with Ok a => k a | Err e => Err e end.

Definition context {A} (msg : string) (r : result A) : result A :=
  match r with Ok a => Ok a | Err e => Err (msg :: e) end.

(** [Option::context]: [None] becomes an error holding just the message. *)
Definition opt_context {A} (msg : string) (o : option A) : result A :=
  match o with Some a => Ok a | None => Err [msg] end.

Definition bail {A} (msg : string) : result A := Err [msg].

Definition is_ok {E A} (r : Result E A) : bool := match r with Ok _ => true | Err _ => false end.

Definition ok {E A} (r : Result E A) : option A := match r with Ok a => Some a | Err _ => None end.

(** [format!("{err:#}")] *)
Fixpoint error_chain (e : Error) : string :=
  match e with
  | [] => ""
  | [m] => m
  | m :: e => m +:+ ": " +:+ error_chain e
  end.

Declare Scope rust_scope.
Delimit Scope rust_scope with rust.
(** Rust's [?] operator. *)
Notation "'let?' x ':=' e 'in' k" := (rbind e (fun x => k))
  (at level 200, x pattern, e at level 200, k at level 200) : rust_scope.
Notation "'try?' e 'in' k" := (rbind e (fun _ => k))
  (at level 200, e at level 200, k at level 200) : rust_scope.
#[global] Open Scope rust_scope.

Lemma context_ok {A} m (r : result A) a : context m r = Ok a <-> r = Ok a.
Proof. destruct r; simpl; naive_solver. Qed.

Lemma rbind_ok {E A B} (r : Result E A) (k : A -> Result E B) b :
  rbind r k = Ok b <-> exists a, r = Ok a /\ k a = Ok b.
Proof. destruct r; simpl; naive_solver. Qed.

Lemma opt_context_ok {A} m (o : option A) a : opt_context m o = Ok a <-> o = Some a.
Proof. destruct o; simpl; naive_solver. Qed.

Lemma is_ok_true {E A} (r : Result E A) : is_ok r = true <-> exists a, r = Ok a.
Proof. destruct r; simpl; naive_solver. Qed.

(** ** Lists *)

Lemma filter_nil_iff {A} (P : A -> Prop) `{!forall x, Decision (P x)} (l : list A) :
  filter P l = [] <-> forall x, x ∈ l -> ~ P x.
Proof.
  split.
  - intros Hn x Hx HP. assert (Hf : x ∈ filter P l) by by apply list_elem_of_filter.
    rewrite Hn in Hf. by apply not_elem_of_nil in Hf.
  - intros Hn. destruct (filter P l) as [| x l'] eqn:E; [done |].
    assert (Hf : x ∈ filter P l) by (rewrite E; left). apply list_elem_of_filter in Hf. naive_solver.
Qed.

(** [&l[n..]] and [&l[a..b]]; [None] is the out-of-range panic. *)
Definition slice_from {A} (n : nat) (l : list A) : option (list A) :=
  if decide (n <= length l)%nat then Some (drop n l) else None.
Definition slice {A} (a b : nat) (l : list A) : option (list A) :=
  if decide (a <= b <= length l)%nat then Some (take (b - a) (drop a l)) else None.

(** ** Strings *)

(** [str::as_bytes] *)
Fixpoint as_bytes (s : string) : list byte :=
  match s with
  | EmptyString => []
  | String c s => byte_of_ascii c :: as_bytes s
  end.

Lemma length_as_bytes s : length (as_bytes s) = String.length s.
Proof. induction s; simpl; congruence. Qed.

#[global] Instance as_bytes_inj : Inj (=) (=) as_bytes.
Proof.
  intros s. induction s as [| c s IH]; intros [| d t] H; simplify_eq/=; [done |].
  f_equal; [| by apply IH].
  rewrite <- (ascii_of_byte_of_ascii c), <- (ascii_of_byte_of_ascii d). by f_equal.
Qed.

Lemma as_bytes_app s t : as_bytes (s +:+ t) = as_bytes s ++ as_bytes t.
Proof. induction s as [| c s IH]; [done |]. simpl. by rewrite <- IH. Qed.

(** ** Hints and tactics *)

Create HintDb cortado.
#[export] Hint Resolve clamp_bounds uint_mod length_be_bytes : cortado.
#[export] Hint Rewrite @context_ok @rbind_ok @opt_context_ok @is_ok_true : cortado.

(** Split every [match]/[if] of the goal, then close what is immediate. *)
Ltac split_cases := repeat (case_match; simplify_eq/=); try done.

(** Turn boolean tests in hypotheses and goal into propositions. *)
Ltac bool_to_prop :=
  repeat match goal with
  | H : _ && _ = true |- _ => apply andb_true_iff in H as [? ?]
  | H : _ || _ = false |- _ => apply orb_false_iff in H as [? ?]
  | H : negb _ = true |- _ => apply negb_true_iff in H
  | H : negb _ = false |- _ => apply negb_false_iff in H
  | H : (_ <? _) = true |- _ => apply Z.ltb_lt in H
  | H : (_ <? _) = false |- _ => apply Z.ltb_ge in H
  | H : (_ <=? _) = true |- _ => apply Z.leb_le in H
  | H : (_ <=? _) = false |- _ => apply Z.leb_gt in H
  | H : (_ =? _) = true |- _ => apply Z.eqb_eq in H
  | H : (_ =? _) = false |- _ => apply Z.eqb_neq in H
  | H : bool_decide _ = true |- _ => apply bool_decide_eq_true in H
  | H : bool_decide _ = false |- _ => apply bool_decide_eq_false in H
  end.

Lemma filter_all {A} (P : A -> Prop) `{!forall x, Decision (P x)} l : Forall P l -> filter P l = l.
Proof. induction 1 as [| x l Hx Hl IH]; [done |]. by rewrite filter_cons_True, IH. Qed.
