(* ===== verification/StdNet.v ===== *)
(** * The addresses of [std::net] and the standard library's text forms

    What the program uses of Rust's standard library on addresses and
    numbers: [IpAddr] and [SocketAddr] as values, [octets], [Display], and
    the parser behind [str::parse] for IPv4, IPv6, socket addresses and
    unsigned integers. *)

From Stdlib Require Import ZArith Lia.
From Stdlib Require Import Strings.Ascii Strings.String.
From stdpp Require Import base decidable countable list strings pretty gmap.
From S2P Require Import Prelude.
#[local] Open Scope Z_scope.

(** ** Addresses

    An IPv4 address is the [u32] that [u32::from] gives, an IPv6 address the
    [u128]; their octets are the big-endian bytes of these. *)

Abbreviation Ipv4Addr := Z (only parsing).
Abbreviation Ipv6Addr := Z (only parsing).

Inductive IpAddr : Type :=
| V4 (a : Ipv4Addr)
| V6 (a : Ipv6Addr).

#[global] Instance IpAddr_eq_dec : EqDecision IpAddr.
Proof. solve_decision. Defined.

#[global] Program Instance IpAddr_countable : Countable IpAddr :=
  inj_countable' (fun i => match i with V4 a => inl a | V6 a => inr a end)
                 (fun s => match s with inl a => V4 a | inr a => V6 a end) _.
Next Obligation. by intros []. Qed.

Definition ip_wf (i : IpAddr) : Prop :=
  match i with V4 a => uint 32 a | V6 a => uint 128 a end.

#[global] Instance ip_wf_dec i : Decision (ip_wf i).
Proof. destruct i; simpl; apply _. Defined.

Definition is_ipv4 (i : IpAddr) : bool := match i with V4 _ => true | V6 _ => false end.
Definition is_ipv6 (i : IpAddr) : bool := match i with V4 _ => false | V6 _ => true end.

Definition octets (i : IpAddr) : list byte :=
  match i with V4 a => be_bytes 4 a | V6 a => be_bytes 16 a end.

(** [is_unspecified]: all octets zero. *)
Definition is_unspecified (i : IpAddr) : bool :=
  match i with V4 a => a =? 0 | V6 a => a =? 0 end.

(** A socket address; [scope_id] is the IPv6 zone, 0 for IPv4 and unless a
    parsed text names one. The flow label of [SocketAddrV6] is 0 in every
    address the program makes, so it is left out. *)
Record SocketAddr : Type := mkSocketAddr {
  sa_ip : IpAddr;
  sa_port : Z;
  sa_scope_id : Z;
}.

#[global] Instance SocketAddr_eq_dec : EqDecision SocketAddr.
Proof. solve_decision. Defined.

#[global] Program Instance SocketAddr_countable : Countable SocketAddr :=
  inj_countable' (fun s => (sa_ip s, sa_port s, sa_scope_id s))
                 (fun t => mkSocketAddr t.1.1 t.1.2 t.2) _.
Next Obligation. by intros []. Qed.

(** [SocketAddr::new] *)
Definition SocketAddr_new (i : IpAddr) (p : Z) : SocketAddr := mkSocketAddr i p 0.

Definition sockaddr_wf (s : SocketAddr) : Prop :=
  ip_wf (sa_ip s) /\ uint 16 (sa_port s) /\ uint 32 (sa_scope_id s).

#[global] Instance sockaddr_wf_dec s : Decision (sockaddr_wf s).
Proof. unfold sockaddr_wf. apply _. Defined.

(** ** [Display] *)

Definition show_dec (z : Z) : string := pretty (Z.to_N z).

Definition hex_digit (d : Z) : ascii :=
  default "0"%char (String.get (Z.to_nat d) "0123456789abcdef").

(** [format!("{:x}", z)] for a [u16] *)
Definition show_hex16 (z : Z) : string :=
  let d k := String (hex_digit ((z / 16 ^ k) mod 16)) "" in
  if z <? 16 then d 0
  else if z <? 256 then d 1 +:+ d 0
  else if z <? 4096 then d 2 +:+ d 1 +:+ d 0
  else d 3 +:+ d 2 +:+ d 1 +:+ d 0.

Definition v4_octet (a : Z) (k : Z) : Z := (a / 256 ^ k) mod 256.

Definition show_v4 (a : Ipv4Addr) : string :=
  show_dec (v4_octet a 3) +:+ "." +:+ show_dec (v4_octet a 2) +:+ "." +:+
  show_dec (v4_octet a 1) +:+ "." +:+ show_dec (v4_octet a 0).

(** [Ipv6Addr::segments] *)
Definition segments (a : Ipv6Addr) : list Z :=
  (fun k => (a / 65536 ^ k) mod 65536) <$> [7; 6; 5; 4; 3; 2; 1; 0].

Definition of_segments (l : list Z) : Ipv6Addr := foldl (fun acc s => acc * 65536 + s) 0 l.

(** The longest run of zero segments, the first one among equals:
    [(start, len)]. *)
Fixpoint zero_span (i : nat) (cur best : nat * nat) (l : list Z) : nat * nat :=
  match l with
  | [] => best
  | s :: l =>
      if s =? 0 then
        let cur := if decide (cur.2 = 0%nat) then (i, 1%nat) else (cur.1, S cur.2) in
        zero_span (S i) cur (if decide (best.2 < cur.2)%nat then cur else best) l
      else zero_span (S i) (0%nat, 0%nat) best l
  end.

Definition fmt_subslice (l : list Z) : string :=
  String.concat ":" (show_hex16 <$> l).

Definition show_v6 (a : Ipv6Addr) : string :=
  if a / 2 ^ 32 =? 65535 then "::ffff:" +:+ show_v4 (a mod 2 ^ 32)
  else
    let segs := segments a in
    let '(start, len) := zero_span 0 (0, 0)%nat (0, 0)%nat segs in
    if decide (1 < len)%nat
    then fmt_subslice (take start segs) +:+ "::" +:+ fmt_subslice (drop (start + len) segs)
    else fmt_subslice segs.

Definition show_ip (i : IpAddr) : string := match i with V4 a => show_v4 a | V6 a => show_v6 a end.

Definition show_sockaddr (s : SocketAddr) : string :=
  match sa_ip s with
  | V4 a => show_v4 a +:+ ":" +:+ show_dec (sa_port s)
  | V6 a =>
      "[" +:+ show_v6 a +:+
      (if sa_scope_id s =? 0 then "" else "%" +:+ show_dec (sa_scope_id s)) +:+
      "]:" +:+ show_dec (sa_port s)
  end.

(** ** Parsing

    [core::net::parser]: a parser consumes a prefix of its input and returns
    the rest; on [None] nothing is consumed. *)

Definition parser (A : Type) : Type := string -> option (A * string).

Definition char_code (c : ascii) : Z := Z.of_N (N_of_ascii c).

(** [char::to_digit] *)
Definition to_digit (radix : Z) (c : ascii) : option Z :=
  let n := char_code c in
  let d := if (48 <=? n) && (n <=? 57) then n - 48
           else if (97 <=? n) && (n <=? 122) then n - 87
           else if (65 <=? n) && (n <=? 90) then n - 55
           else radix in
  if d <? radix then Some d else None.

Definition read_given_char (target : ascii) : parser unit := fun s =>
  match s with
  | String c s' => if decide (c = target) then Some (tt, s') else None
  | "" => None
  end.

(** The digit loop of [read_number]; [limit] bounds the value (the type's
    maximum, checked as each digit is added) and [max_digits] the number of
    digits. *)
Fixpoint read_digits (radix limit : Z) (max_digits : option nat) (acc : Z) (count : nat)
    (s : string) : option (Z * nat * string) :=
  match s with
  | "" => Some (acc, count, s)
  | String c s' =>
      match to_digit radix c with
      | None => Some (acc, count, s)
      | Some d =>
          let acc' := acc * radix + d in
          match max_digits with
          | Some m =>
              if decide (m < S count)%nat then None
              else read_digits radix limit max_digits acc' (S count) s'
          | None =>
              if limit <? acc' then None
              else read_digits radix limit max_digits acc' (S count) s'
          end
      end
  end.

Definition read_number (radix limit : Z) (max_digits : option nat) (allow_zero_prefix : bool)
    : parser Z := fun s =>
  let has_leading_zero := match s with String "0"%char _ => true | _ => false end in
  match read_digits radix limit max_digits 0 0 s with
  | None => None
  | Some (v, count, rest) =>
      if decide (count = 0%nat) then None
      else if negb allow_zero_prefix && has_leading_zero && bool_decide (1 < count)%nat then None
      else if limit <? v then None
      else Some (v, rest)
  end.

(** [read_separator]: groups after the first are preceded by [sep]. *)
Definition read_separator {A} (sep : ascii) (index : nat) (inner : parser A) : parser A := fun s =>
  match index with
  | O => inner s
  | S _ => match read_given_char sep s with Some (_, s') => inner s' | None => None end
  end.

Definition read_octet (i : nat) : parser Z :=
  read_separator "."%char i (read_number 10 255 (Some 3%nat) false).

Definition read_ipv4_addr : parser Ipv4Addr := fun s =>
  match read_octet 0 s with None => None | Some (a, s) =>
  match read_octet 1 s with None => None | Some (b, s) =>
  match read_octet 2 s with None => None | Some (c, s) =>
  match read_octet 3 s with None => None | Some (d, s) =>
  Some (((a * 256 + b) * 256 + c) * 256 + d, s)
  end end end end.

(** [read_groups]: up to [limit] colon-separated groups from index [i] on,
    with an optional trailing embedded IPv4 address. Returns the groups, and
    whether they end with an IPv4 address. [n] counts the slots left. *)
Fixpoint read_groups (limit n : nat) (i : nat) (acc : list Z) (s : string)
    : list Z * bool * string :=
  match n with
  | O => (acc, false, s)
  | S n' =>
      let ipv4 := if decide (S i < limit)%nat
                  then read_separator ":"%char i read_ipv4_addr s else None in
      match ipv4 with
      | Some (a, s') => (acc ++ [a / 65536; a mod 65536], true, s')
      | None =>
          match read_separator ":"%char i (read_number 16 65535 (Some 4%nat) true) s with
          | Some (g, s') => read_groups limit n' (S i) (acc ++ [g]) s'
          | None => (acc, false, s)
          end
      end
  end.

Definition read_ipv6_addr : parser Ipv6Addr := fun s =>
  let '(hd, hd_ipv4, s1) := read_groups 8 8 0 [] s in
  if decide (length hd = 8%nat) then Some (of_segments hd, s1)
  else if hd_ipv4 : bool then None
  else match read_given_char ":"%char s1 with None => None | Some (_, s2) =>
       match read_given_char ":"%char s2 with None => None | Some (_, s3) =>
       let limit := (8 - (length hd + 1))%nat in
       let '(tl, _, s4) := read_groups limit limit 0 [] s3 in
       Some (of_segments (hd ++ replicate (8 - length hd - length tl) 0 ++ tl), s4)
       end end.

Definition read_ip_addr : parser IpAddr := fun s =>
  match read_ipv4_addr s with
  | Some (a, s') => Some (V4 a, s')
  | None => match read_ipv6_addr s with Some (a, s') => Some (V6 a, s') | None => None end
  end.

Definition read_port : parser Z := fun s =>
  match read_given_char ":"%char s with
  | Some (_, s') => read_number 10 65535 None true s'
  | None => None
  end.

Definition read_scope_id : parser Z := fun s =>
  match read_given_char "%"%char s with
  | Some (_, s') => read_number 10 (umax 32) None true s'
  | None => None
  end.

Definition read_socket_addr_v4 : parser SocketAddr := fun s =>
  match read_ipv4_addr s with None => None | Some (a, s) =>
  match read_port s with None => None | Some (p, s) =>
  Some (SocketAddr_new (V4 a) p, s) end end.

Definition read_socket_addr_v6 : parser SocketAddr := fun s =>
  match read_given_char "["%char s with None => None | Some (_, s) =>
  match read_ipv6_addr s with None => None | Some (a, s) =>
  let '(scope, s) := default (0, s) (read_scope_id s) in
  match read_given_char "]"%char s with None => None | Some (_, s) =>
  match read_port s with None => None | Some (p, s) =>
  Some (mkSocketAddr (V6 a) p scope, s) end end end end.

Definition read_socket_addr : parser SocketAddr := fun s =>
  match read_socket_addr_v4 s with
  | Some r => Some r
  | None => read_socket_addr_v6 s
  end.

(** [parse_with]: the whole input must be consumed. *)
Definition parse_with {A} (p : parser A) (s : string) : option A :=
  match p s with Some (a, "") => Some a | _ => None end.

Definition parse_ipv4 (s : string) : option Ipv4Addr :=
  if decide (15 < String.length s)%nat then None else parse_with read_ipv4_addr s.
Definition parse_ip (s : string) : option IpAddr := parse_with read_ip_addr s.
Definition parse_sockaddr (s : string) : option SocketAddr := parse_with read_socket_addr s.

(** [str::parse] for an unsigned integer of width [w], with the messages of
    [ParseIntError]: an optional [+], then one or more decimal digits whose
    value stays in range. *)
Fixpoint parse_digits (w acc : Z) (s : string) : Result string Z :=
  match s with
  | "" => Ok acc
  | String c s' =>
      match to_digit 10 c with
      | None => Err "invalid digit found in string"
      | Some d =>
          if umax w <? acc * 10 + d then Err "number too large to fit in target type"
          else parse_digits w (acc * 10 + d) s'
      end
  end.

Definition parse_uint (w : Z) (s : string) : Result string Z :=
  match s with
  | "" => Err "cannot parse integer from empty string"
  | "+" | "-" => Err "invalid digit found in string"
  | String "+"%char s' => parse_digits w 0 s'
  | _ => parse_digits w 0 s
  end.

(** [str::split_once] *)
Fixpoint split_once (c : ascii) (s : string) : option (string * string) :=
  match s with
  | "" => None
  | String d s' =>
      if decide (d = c) then Some ("", s')
      else match split_once c s' with
           | Some (l, r) => Some (String d l, r)
           | None => None
           end
  end.

(** [Duration], in nanoseconds. *)
Definition from_secs (s : Z) : Z := s * 1000000000.

(** ** The parser's results are well formed *)

Lemma to_digit_range radix c d : 0 <= radix -> to_digit radix c = Some d -> 0 <= d < radix.
Proof.
  unfold to_digit, char_code. intros Hr H.
  destruct (_ && _) eqn:?; [| destruct (_ && _) eqn:?; [| destruct (_ && _) eqn:?]];
    simplify_option_eq; bool_to_prop; split_cases; bool_to_prop; lia.
Qed.

Lemma read_digits_nonneg radix limit md acc n s v m r :
  0 <= radix -> 0 <= acc ->
  read_digits radix limit md acc n s = Some (v, m, r) -> 0 <= v.
Proof.
  revert acc n. induction s as [| c s IH]; intros acc n Hr Ha H; simpl in H; [by simplify_eq |].
  destruct (to_digit radix c) as [d |] eqn:Hd; [| by simplify_eq].
  pose proof (to_digit_range _ _ _ Hr Hd).
  destruct md; case_match; try done; apply IH in H; nia.
Qed.

Lemma read_number_range radix limit md z s v r :
  0 <= radix -> read_number radix limit md z s = Some (v, r) -> 0 <= v <= limit.
Proof.
  unfold read_number. intros Hr H.
  destruct (read_digits _ _ _ _ _ _) as [[[v' n] r'] |] eqn:E; [| done].
  apply read_digits_nonneg in E; [| lia..].
  split_cases; bool_to_prop; lia.
Qed.

Lemma read_separator_inv {A} sep i (p : parser A) s r :
  read_separator sep i p s = Some r -> exists s', p s' = Some r.
Proof. unfold read_separator. split_cases; eauto. Qed.

Lemma read_octet_range i s v r : read_octet i s = Some (v, r) -> 0 <= v < 256.
Proof. intros [s' H]%read_separator_inv. apply read_number_range in H; lia. Qed.

Lemma read_ipv4_addr_wf s a r : read_ipv4_addr s = Some (a, r) -> uint 32 a.
Proof.
  unfold read_ipv4_addr, uint. intros H.
  repeat match type of H with
  | context [read_octet ?i ?s] =>
      let E := fresh "E" in
      destruct (read_octet i s) as [[? ?] |] eqn:E; [apply read_octet_range in E | done]
  end. simplify_eq. lia.
Qed.

Lemma of_segments_snoc l s : of_segments (l ++ [s]) = of_segments l * 65536 + s.
Proof. unfold of_segments. by rewrite foldl_app. Qed.

Lemma of_segments_bound l :
  Forall (uint 16) l -> 0 <= of_segments l < 65536 ^ Z.of_nat (length l).
Proof.
  induction l as [| s l IH] using rev_ind; intros H; [done |].
  apply Forall_app in H as [Hl [Hs _]%Forall_cons]. specialize (IH Hl).
  rewrite of_segments_snoc, length_app. simpl.
  replace (Z.of_nat (length l + 1)) with (Z.of_nat (length l) + 1) by lia.
  rewrite Z.pow_add_r by lia. unfold uint in Hs. nia.
Qed.

Lemma read_groups_wf limit n i acc s gs b r :
  Forall (uint 16) acc -> length acc = i -> (i + n = limit)%nat ->
  read_groups limit n i acc s = (gs, b, r) ->
  Forall (uint 16) gs /\ (length gs <= limit)%nat.
Proof.
  revert i acc s. induction n as [| n IH]; intros i acc s Hacc Hi Hn H; simpl in H.
  { simplify_eq. split; [done | lia]. }
  destruct (if decide _ then _ else _) as [[a s'] |] eqn:E; simplify_eq.
  - case_decide; [| done]. apply read_separator_inv in E as [s'' E].
    apply read_ipv4_addr_wf in E. unfold uint in *. rewrite length_app. simpl. split; [| lia].
    apply Forall_app; split; [done |]. repeat constructor; unfold uint.
    + apply Z.div_pos; lia.
    + apply Z.div_lt_upper_bound; lia.
    + apply Z.mod_pos_bound; lia.
    + apply Z.mod_pos_bound; lia.
  - clear E. destruct (read_separator _ _ (read_number _ _ _ _) s) as [[g s'] |] eqn:E'; simplify_eq;
      [| split; [done | lia]].
    eapply IH in H; [done | | rewrite length_app; simpl; lia | lia].
    apply Forall_app; split; [done |]. repeat constructor.
    + apply read_separator_inv in E' as [? E']. apply read_number_range in E'; lia.
    + apply read_separator_inv in E' as [? E']. apply read_number_range in E'; unfold uint; lia.
Qed.

Lemma read_ipv6_addr_wf s a r : read_ipv6_addr s = Some (a, r) -> uint 128 a.
Proof.
  unfold read_ipv6_addr. intros H.
  destruct (read_groups 8 8 0 [] s) as [[hd b] s1] eqn:E1.
  apply read_groups_wf in E1 as [Hhd Hl]; [| done..].
  change (uint 128 a) with (0 <= a < 65536 ^ Z.of_nat 8).
  case_decide as Hd; simplify_eq; [rewrite <- Hd; by apply of_segments_bound |].
  destruct b; [done |]. destruct (read_given_char _ s1) as [[? s2] |]; [| done].
  destruct (read_given_char _ s2) as [[? s3] |]; [| done].
  destruct (read_groups _ _ 0 [] s3) as [[tl ?] s4] eqn:E2. simplify_eq.
  apply read_groups_wf in E2 as [Htl Hl2]; [| done | done | lia].
  set (l := hd ++ _ ++ tl).
  assert (Hlen : length l = 8%nat).
  { unfold l. rewrite !length_app, length_replicate. lia. }
  rewrite <- Hlen. apply of_segments_bound. unfold l. rewrite !Forall_app.
  split; [done |]. split; [| done]. by apply Forall_replicate.
Qed.

Lemma parse_with_inv {A} (p : parser A) s a : parse_with p s = Some a -> p s = Some (a, "").
Proof. unfold parse_with. by destruct (p s) as [[? []] |]; intros; simplify_eq. Qed.

Lemma parse_ipv4_wf s a : parse_ipv4 s = Some a -> uint 32 a.
Proof. unfold parse_ipv4. case_decide; [done |]. intros Hp%parse_with_inv. by eapply read_ipv4_addr_wf. Qed.

Lemma parse_ip_wf s i : parse_ip s = Some i -> ip_wf i.
Proof.
  intros H%parse_with_inv. unfold read_ip_addr in H.
  destruct (read_ipv4_addr s) as [[] |] eqn:E; simplify_eq/=; [by eapply read_ipv4_addr_wf |].
  destruct (read_ipv6_addr s) as [[] |] eqn:E'; simplify_eq/=. by eapply read_ipv6_addr_wf.
Qed.

Lemma read_port_range s p r : read_port s = Some (p, r) -> uint 16 p.
Proof.
  unfold read_port. destruct (read_given_char _ _) as [[]|]; [| done].
  intros H%read_number_range; unfold uint; lia.
Qed.

Lemma parse_sockaddr_wf s a : parse_sockaddr s = Some a -> sockaddr_wf a.
Proof.
  intros H%parse_with_inv. unfold read_socket_addr in H. unfold sockaddr_wf.
  destruct (read_socket_addr_v4 s) as [[a' r] |] eqn:E.
  - unfold read_socket_addr_v4 in E. simplify_eq.
    destruct (read_ipv4_addr s) as [[ip s1] |] eqn:E1; [| done].
    destruct (read_port s1) as [[p s2] |] eqn:E2; simplify_eq/=.
    split_and!; [by eapply read_ipv4_addr_wf | by eapply read_port_range | done].
  - clear E. unfold read_socket_addr_v6 in H.
    destruct (read_given_char _ s) as [[? s1] |]; [| done].
    destruct (read_ipv6_addr s1) as [[ip s2] |] eqn:E1; [| done].
    destruct (default _ _) as [sc s3] eqn:E2.
    destruct (read_given_char _ s3) as [[? s4] |]; [| done].
    destruct (read_port s4) as [[p s5] |] eqn:E3; simplify_eq/=.
    split_and!; [by eapply read_ipv6_addr_wf | by eapply read_port_range |].
    destruct (read_scope_id s2) as [[sc' s6] |] eqn:E4; simplify_eq/=; [| done].
    unfold read_scope_id in E4. destruct (read_given_char _ s2) as [[]|]; [| done].
    apply read_number_range in E4; unfold uint, umax in *; lia.
Qed.

Lemma parse_digits_range w acc s v :
  0 <= acc <= umax w -> parse_digits w acc s = Ok v -> 0 <= v <= umax w.
Proof.
  revert acc. induction s as [| c s IH]; intros acc Ha H; simpl in H; [by simplify_eq |].
  destruct (to_digit 10 c) as [d |] eqn:Hd; [| done].
  apply to_digit_range in Hd; [| lia].
  case_match; bool_to_prop; [done |]. eapply IH; [| done]. lia.
Qed.

Lemma parse_uint_range w s v : 0 <= w -> parse_uint w s = Ok v -> uint w v.
Proof.
  intros Hw H. unfold uint. enough (0 <= v <= umax w) by (unfold umax in *; lia).
  assert (0 <= 0 <= umax w) by (unfold umax; lia).
  unfold parse_uint in H. repeat case_match; simplify_eq; eauto using parse_digits_range.
Qed.

#[export] Hint Resolve parse_ipv4_wf parse_ip_wf parse_sockaddr_wf : cortado.

(** ** Printing and parsing decimal numbers and IPv4 addresses *)

Lemma to_digit_char x : (x < 10)%N -> to_digit 10 (pretty_N_char x) = Some (Z.of_N x).
Proof.
  intros Hx.
  assert (x = 0 \/ x = 1 \/ x = 2 \/ x = 3 \/ x = 4 \/ x = 5 \/ x = 6 \/ x = 7 \/ x = 8 \/ x = 9)%N
    as Hc by lia.
  by repeat destruct Hc as [-> | Hc]; [.. | subst].
Qed.

Lemma N_div10 n : Z.of_N (n `div` 10) * 10 + Z.of_N (n `mod` 10) = Z.of_N n.
Proof. rewrite N2Z.inj_div, N2Z.inj_mod. pose proof (Z.div_mod (Z.of_N n) 10). lia. Qed.

Lemma parse_digits_pretty w n t :
  Z.of_N n <= umax w -> parse_digits w 0 (pretty_N_go n t) = parse_digits w (Z.of_N n) t.
Proof.
  revert t. induction (N.lt_wf_0 n) as [n _ IH]. intros t Hle.
  assert (n = 0 \/ 0 < n)%N as [-> | Hn] by lia; [done |].
  assert (Hlt : (n `div` 10 < n)%N) by by apply N.div_lt.
  rewrite pretty_N_go_step, IH by (done || lia). simpl. rewrite to_digit_char by (apply N.mod_lt; lia).
  rewrite N_div10. by rewrite (proj2 (Z.ltb_ge _ _)) by lia.
Qed.

(** The digit loop of the address parser on printed digits. *)
Lemma read_digits_pretty limit m n t :
  exists k, (String.length (pretty_N_go n t) = k + String.length t)%nat /\
    ((k <= m)%nat ->
     read_digits 10 limit (Some m) 0 0 (pretty_N_go n t) =
     read_digits 10 limit (Some m) (Z.of_N n) k t).
Proof.
  revert t. induction (N.lt_wf_0 n) as [n _ IH]. intros t.
  assert (n = 0 \/ 0 < n)%N as [-> | Hn] by lia; [by exists 0%nat |].
  rewrite pretty_N_go_step by done.
  destruct (IH (n `div` 10)%N ltac:(by apply N.div_lt) (String (pretty_N_char (n `mod` 10)) t))
    as (k & Hk & Hr).
  exists (S k). split; [rewrite Hk; simpl; lia |]. intros Hm. rewrite Hr by lia. simpl.
  rewrite to_digit_char by (apply N.mod_lt; lia). rewrite decide_False by lia.
  by rewrite N_div10.
Qed.

Lemma pretty_go_head n t :
  (0 < n)%N -> exists d s, (d < 10)%N /\ (d <> 0)%N /\ pretty_N_go n t = String (pretty_N_char d) s.
Proof.
  revert t. induction (N.lt_wf_0 n) as [n _ IH]. intros t Hn. rewrite pretty_N_go_step by done.
  destruct (N.eq_0_gt_0_cases (n `div` 10)) as [H0 | H0].
  - rewrite H0. exists (n `mod` 10)%N, t. pose proof (N.div_mod n 10) as Hdm.
    rewrite H0 in Hdm. split_and!; [apply N.mod_lt; lia | lia | done].
  - apply IH; [by apply N.div_lt | done].
Qed.

Lemma parse_show_dec w z : uint w z -> parse_uint w (show_dec z) = Ok z.
Proof.
  intros Hz. unfold show_dec, pretty, pretty_N. case_decide as H0.
  { replace z with 0 by (unfold uint in Hz; lia).
    unfold parse_uint, parse_digits. change (to_digit 10 "0"%char) with (Some 0). cbv iota.
    by rewrite (proj2 (Z.ltb_ge _ _)) by (unfold umax, uint in *; lia). }
  transitivity (parse_digits w 0 (pretty_N_go (Z.to_N z) "")).
  - destruct (pretty_go_head (Z.to_N z) "") as (d & s & Hd & Hd0 & ->); [lia |].
    assert (d = 1 \/ d = 2 \/ d = 3 \/ d = 4 \/ d = 5 \/ d = 6 \/ d = 7 \/ d = 8 \/ d = 9)%N
      as Hc by lia.
    by repeat destruct Hc as [-> | Hc]; [.. | subst].
  - rewrite parse_digits_pretty by (unfold umax, uint in *; lia). simpl.
    by rewrite Z2N.id by (unfold uint in Hz; lia).
Qed.

Lemma string_length_app s t : String.length (s +:+ t) = (String.length s + String.length t)%nat.
Proof. induction s as [| c s IH]; [done |]. change (String c s +:+ t) with (String c (s +:+ t)). simpl. by rewrite IH. Qed.

Lemma string_app_nil_l s : "" +:+ s = s.
Proof. done. Qed.

Lemma string_app_assoc s t u : s +:+ t +:+ u = (s +:+ t) +:+ u.
Proof. induction s as [| c s IH]; [done |]. change (String c s +:+ t +:+ u) with (String c (s +:+ t +:+ u)). by rewrite IH. Qed.

Definition non_digit (s : string) : Prop :=
  match s with "" => True | String c _ => to_digit 10 c = None end.

Lemma read_digits_stop limit md acc k s :
  non_digit s -> read_digits 10 limit md acc k s = Some (acc, k, s).
Proof. destruct s as [| c s]; simpl; [done |]. by intros ->. Qed.

Lemma show_octet_length z : uint 8 z -> (String.length (show_dec z) <= 3)%nat.
Proof.
  intros Hz. assert (Hall : Forall (fun z => (String.length (show_dec z) <= 3)%nat) (seqZ 0 256)).
  { refine (proj1 (bool_decide_eq_true _) _). by vm_compute. }
  rewrite Forall_forall in Hall. apply Hall, elem_of_seqZ. unfold uint in Hz. lia.
Qed.

(** A printed octet followed by anything but a digit reads back. *)
Lemma read_show_octet z s :
  uint 8 z -> non_digit s -> read_number 10 255 (Some 3%nat) false (show_dec z +:+ s) = Some (z, s).
Proof.
  intros Hz Hs. pose proof (show_octet_length z Hz) as Hlen. unfold uint in Hz.
  unfold show_dec, pretty, pretty_N in *. case_decide as H0.
  { replace z with 0 by lia. unfold read_number. change ("0" +:+ s) with (String "0" s).
    simpl. rewrite read_digits_stop by done. done. }
  assert (Happ : forall n t, pretty_N_go n "" +:+ t = pretty_N_go n t).
  { intros n t. change t with ("" +:+ t) at 2. generalize "". clear.
    induction (N.lt_wf_0 n) as [n _ IH]. intros u.
    destruct (N.eq_0_gt_0_cases n) as [-> | Hn]; [done |].
    rewrite !(pretty_N_go_step n) by done. by rewrite IH by by apply N.div_lt. }
  rewrite Happ. unfold read_number.
  destruct (read_digits_pretty 255 3 (Z.to_N z) s) as (k & Hk & Hr).
  rewrite <- Happ, string_length_app in Hk. rewrite Hr by lia. rewrite read_digits_stop by done.
  assert (k <> 0%nat).
  { destruct (pretty_go_head (Z.to_N z) "") as (d & u & _ & _ & Hh); [lia |].
    rewrite Hh in Hk. simpl in Hk. lia. }
  destruct (pretty_go_head (Z.to_N z) s) as (d & u & Hd & Hd0 & Hh); [lia |]. rewrite Hh.
  rewrite Z2N.id by lia. rewrite (proj2 (Z.ltb_ge _ _)) by lia. rewrite decide_False by done.
  assert (d = 1 \/ d = 2 \/ d = 3 \/ d = 4 \/ d = 5 \/ d = 6 \/ d = 7 \/ d = 8 \/ d = 9)%N
    as Hc by lia.
  by repeat destruct Hc as [-> | Hc]; [.. | subst].
Qed.

Lemma v4_octet_range a k : uint 8 (v4_octet a k).
Proof. unfold v4_octet, uint. apply Z.mod_pos_bound. lia. Qed.

Lemma v4_octets_sum a :
  uint 32 a ->
  ((v4_octet a 3 * 256 + v4_octet a 2) * 256 + v4_octet a 1) * 256 + v4_octet a 0 = a.
Proof.
  unfold uint, v4_octet. intros Ha. change (256 ^ 0) with 1. rewrite Z.div_1_r.
  rewrite (Z.mod_small (a / 256 ^ 3)) by (split; [apply Z.div_pos | apply Z.div_lt_upper_bound]; lia).
  replace (256 ^ 3) with (256 * (256 * 256)) by lia. replace (256 ^ 2) with (256 * 256) by lia.
  change (256 ^ 1) with 256. rewrite <- !Z.div_div by lia.
  pose proof (Z.div_mod a 256). pose proof (Z.div_mod (a / 256) 256).
  pose proof (Z.div_mod (a / 256 / 256) 256). lia.
Qed.

(** Printing an IPv4 address and parsing it gives it back. *)
Lemma read_show_v4 a s :
  uint 32 a -> non_digit s -> read_ipv4_addr (show_v4 a +:+ s) = Some (a, s).
Proof.
  intros Ha Hs. unfold read_ipv4_addr, show_v4, read_octet, read_separator.
  rewrite <- !string_app_assoc.
  do 3 (rewrite read_show_octet by (done || apply v4_octet_range); simpl; rewrite string_app_nil_l).
  rewrite read_show_octet by (done || apply v4_octet_range). by rewrite v4_octets_sum.
Qed.

Lemma show_v4_length a : (String.length (show_v4 a) <= 15)%nat.
Proof.
  unfold show_v4. rewrite !string_length_app. simpl.
  pose proof (show_octet_length _ (v4_octet_range a 3)).
  pose proof (show_octet_length _ (v4_octet_range a 2)).
  pose proof (show_octet_length _ (v4_octet_range a 1)).
  pose proof (show_octet_length _ (v4_octet_range a 0)). lia.
Qed.

Lemma string_app_nil_r s : s +:+ "" = s.
Proof. induction s as [| c s IH]; [done |]. change (String c s +:+ "") with (String c (s +:+ "")). by rewrite IH. Qed.

Lemma parse_show_v4 a : uint 32 a -> parse_ipv4 (show_v4 a) = Some a.
Proof.
  intros Ha. unfold parse_ipv4, parse_with. rewrite decide_False by (pose proof (show_v4_length a); lia).
  rewrite <- (string_app_nil_r (show_v4 a)). by rewrite read_show_v4.
Qed.

Lemma parse_show_ip_v4 a : uint 32 a -> parse_ip (show_v4 a) = Some (V4 a).
Proof.
  intros Ha. unfold parse_ip, parse_with, read_ip_addr.
  rewrite <- (string_app_nil_r (show_v4 a)). by rewrite read_show_v4.
Qed.
