(* ===== verification/StdText.v ===== *)
(** * Text functions of the standard library

    The methods of [str] the program parses command output and [/proc]
    files with. White space and letter case are those of ASCII, which is all
    that these texts contain. *)

From Stdlib Require Import ZArith Lia.
From Stdlib Require Import Strings.Ascii Strings.String.
From stdpp Require Import base decidable list strings pretty.
From S2P Require Import Prelude StdNet.
#[local] Open Scope Z_scope.

Definition LF : ascii := "010"%char.
Definition CR : ascii := "013"%char.

(** [str::split] at a character: always at least one piece. *)
Fixpoint split_char (c : ascii) (s : string) : string * list string :=
  match s with
  | "" => ("", [])
  | String d s' =>
      let '(h, t) := split_char c s' in
      if decide (d = c) then ("", h :: t) else (String d h, t)
  end.

Fixpoint strip_cr (s : string) : string :=
  match s with
  | "" => ""
  | String c "" => if decide (c = CR) then "" else s
  | String c s' => String c (strip_cr s')
  end.

(** [str::lines]: each line without its line feed and a carriage return
    before it; a last line without a line feed is kept as it is, an empty
    one is not a line. *)
Fixpoint lines_of (h : string) (t : list string) : list string :=
  match t with
  | [] => if decide (h = "") then [] else [h]
  | h' :: t' => strip_cr h :: lines_of h' t'
  end.

Definition lines (s : string) : list string := let '(h, t) := split_char LF s in lines_of h t.

Fixpoint strip_prefix (p s : string) : option string :=
  match p, s with
  | "", _ => Some s
  | String c p', String d s' => if decide (c = d) then strip_prefix p' s' else None
  | String _ _, "" => None
  end.

Definition starts_with (s p : string) : bool :=
  match strip_prefix p s with Some _ => true | None => false end.

(** [str::contains] *)
Fixpoint contains_str (s p : string) : bool :=
  starts_with s p || match s with "" => false | String _ s' => contains_str s' p end.

Fixpoint trim_start (s : string) : string :=
  match s with
  | "" => ""
  | String c s' => if Ascii.is_space c then trim_start s' else s
  end.

Definition trim (s : string) : string := String.rev (trim_start (String.rev (trim_start s))).

(** [str::split_whitespace]: the word a text starts with (empty when it
    starts with white space) and the words after it. *)
Fixpoint split_ws (s : string) : string * list string :=
  match s with
  | "" => ("", [])
  | String c s' =>
      let '(h, t) := split_ws s' in
      if Ascii.is_space c then ("", if decide (h = "") then t else h :: t) else (String c h, t)
  end.

Definition split_whitespace (s : string) : list string :=
  let '(h, t) := split_ws s in if decide (h = "") then t else h :: t.

(** [str::split] at a text [p] that is not empty: the pieces between its
    occurrences, found from left to right; [skip] counts the characters of an
    occurrence still to be passed over. *)
Fixpoint split_str_go (p : string) (skip : nat) (s : string) : string * list string :=
  match s with
  | "" => ("", [])
  | String c s' =>
      match skip with
      | S k => split_str_go p k s'
      | O =>
          if starts_with s p
          then let '(h, t) := split_str_go p (pred (String.length p)) s' in ("", h :: t)
          else let '(h, t) := split_str_go p O s' in (String c h, t)
      end
  end.

Definition split_str (p s : string) : list string := let '(h, t) := split_str_go p O s in h :: t.

(** [str::split] at a character, as the iterator it returns. *)
Definition split_at_char (c : ascii) (s : string) : list string := let '(h, t) := split_char c s in h :: t.

Definition lower (c : ascii) : ascii :=
  let n := nat_of_ascii c in
  if decide (65 <= n <= 90)%nat then ascii_of_nat (n + 32) else c.

Fixpoint to_lowercase (s : string) : string :=
  match s with "" => "" | String c s' => String (lower c) (to_lowercase s') end.

(** ** Lemmas *)

Lemma strip_prefix_app p s : strip_prefix p (p +:+ s) = Some s.
Proof. induction p as [| c p IH]; [done |]. simpl. by rewrite decide_True. Qed.

Lemma strip_prefix_Some p s r : strip_prefix p s = Some r <-> s = p +:+ r.
Proof.
  split; [| intros ->; apply strip_prefix_app].
  revert s. induction p as [| c p IH]; intros s H; simpl in H; [by simplify_eq |].
  destruct s as [| d s]; [done |]. case_decide; [| done]. subst. by rewrite (IH _ H).
Qed.

(** A text in which the character does not occur. *)
Definition free_of (c : ascii) (s : string) : Prop := c ∉ String.list_ascii_of_string s.

Lemma free_of_forallb c s :
  forallb (fun d => negb (Ascii.eqb d c)) (String.list_ascii_of_string s) = true -> free_of c s.
Proof.
  unfold free_of. intros H Hin. rewrite forallb_forall in H.
  apply list_elem_of_In, H in Hin. by rewrite Ascii.eqb_refl in Hin.
Qed.

Lemma split_char_free c s : free_of c s -> split_char c s = (s, []).
Proof.
  unfold free_of. induction s as [| d s IH]; simpl; [done |]. intros [Hd Hs]%not_elem_of_cons.
  rewrite IH by done. by rewrite decide_False by congruence.
Qed.

Lemma split_char_app c l s :
  free_of c l ->
  split_char c (l +:+ String c s) = (l, let '(h, t) := split_char c s in h :: t).
Proof.
  unfold free_of. induction l as [| d l IH]; simpl.
  - intros _. destruct (split_char c s) as [h t]. by rewrite decide_True.
  - intros [Hd Hs]%not_elem_of_cons.
    change (String d l +:+ String c s) with (String d (l +:+ String c s)). simpl.
    rewrite IH by done. by rewrite decide_False by congruence.
Qed.

(** The first line of a text, and its other lines. *)
Lemma lines_cons l s :
  free_of LF l -> lines (l +:+ String LF s) = strip_cr l :: lines s.
Proof.
  intros H. unfold lines. rewrite split_char_app by done.
  by destruct (split_char LF s) as [h t].
Qed.

Lemma strip_cr_last s c : c <> CR -> strip_cr (s +:+ String c "") = s +:+ String c "".
Proof.
  intros Hc. induction s as [| d s IH]; [simpl; by rewrite decide_False |].
  change (String d s +:+ String c "") with (String d (s +:+ String c "")). simpl. rewrite IH.
  by destruct s.
Qed.

Definition no_space (s : string) : Prop :=
  Forall (fun c => Ascii.is_space c = false) (String.list_ascii_of_string s).

Lemma split_ws_word w s :
  no_space w -> split_ws (w +:+ String " " s) = (w, split_whitespace s).
Proof.
  unfold no_space. induction w as [| c w IH]; simpl.
  - intros _. unfold split_whitespace. destruct (split_ws s) as [h t]. by case_decide.
  - intros [Hc Hw]%Forall_cons. change (String c w +:+ ?x) with (String c (w +:+ x)). simpl.
    rewrite IH by done. by rewrite Hc.
Qed.

Lemma split_whitespace_word w s :
  no_space w -> w <> "" -> split_whitespace (w +:+ String " " s) = w :: split_whitespace s.
Proof. intros. unfold split_whitespace at 1. rewrite split_ws_word by done. by rewrite decide_False. Qed.

Lemma split_whitespace_space s : split_whitespace (String " " s) = split_whitespace s.
Proof. unfold split_whitespace. simpl. destruct (split_ws s). simpl. by case_decide. Qed.

(** Decimal digits are not white space, nor line feeds. *)
Lemma pretty_go_chars (P : ascii -> Prop) n t :
  (forall d, (d < 10)%N -> P (pretty_N_char d)) ->
  Forall P (String.list_ascii_of_string t) ->
  Forall P (String.list_ascii_of_string (pretty_N_go n t)).
Proof.
  intros HP. revert t. induction (N.lt_wf_0 n) as [n _ IH]. intros t Ht.
  destruct (N.eq_0_gt_0_cases n) as [-> | Hn]; [done |].
  rewrite pretty_N_go_step by done. apply IH; [by apply N.div_lt |]. simpl. constructor; [| done].
  apply HP, N.mod_lt. lia.
Qed.

Lemma pretty_chars (P : ascii -> Prop) (n : N) :
  (forall d, (d < 10)%N -> P (pretty_N_char d)) ->
  Forall P (String.list_ascii_of_string (pretty n)).
Proof.
  intros HP. unfold pretty, pretty_N. case_decide; [| by apply pretty_go_chars].
  repeat constructor. by apply (HP 0%N).
Qed.

Lemma digit_chars (P : ascii -> bool) d :
  forallb P ["0"; "1"; "2"; "3"; "4"; "5"; "6"; "7"; "8"; "9"]%char = true ->
  P (pretty_N_char d) = true.
Proof.
  intros H. rewrite forallb_forall in H. apply H. unfold pretty_N_char.
  repeat case_match; simpl; tauto.
Qed.

Lemma show_dec_chars (P : ascii -> bool) z :
  forallb P ["0"; "1"; "2"; "3"; "4"; "5"; "6"; "7"; "8"; "9"]%char = true ->
  Forall (fun c => P c = true) (String.list_ascii_of_string (show_dec z)).
Proof. intros H. apply pretty_chars. intros d _. by apply digit_chars. Qed.

Lemma show_dec_no_space z : no_space (show_dec z).
Proof.
  unfold no_space. eapply Forall_impl; [apply (show_dec_chars (fun c => negb (Ascii.is_space c))) |].
  - done.
  - intros c H. by apply negb_true_iff.
Qed.

Lemma show_dec_free z c :
  forallb (fun d => negb (Ascii.eqb d c)) ["0"; "1"; "2"; "3"; "4"; "5"; "6"; "7"; "8"; "9"]%char = true ->
  free_of c (show_dec z).
Proof.
  intros H Hin. pose proof (show_dec_chars (fun d => negb (Ascii.eqb d c)) z H) as HF.
  rewrite Forall_forall in HF. apply HF in Hin. by rewrite Ascii.eqb_refl in Hin.
Qed.

Lemma show_dec_nonempty z : show_dec z <> "".
Proof.
  unfold show_dec, pretty, pretty_N. case_decide; [done |].
  destruct (pretty_go_head (Z.to_N z) "") as (d & s & _ & _ & ->); [lia | done].
Qed.

Lemma free_of_app c s t : free_of c s -> free_of c t -> free_of c (s +:+ t).
Proof.
  unfold free_of. intros Hs Ht. induction s as [| d s IH]; [done |].
  change (String d s +:+ t) with (String d (s +:+ t)). simpl in *.
  apply not_elem_of_cons in Hs as [H1 H2]. apply not_elem_of_cons. split; [done | by apply IH].
Qed.

(** *** Trimming *)

Lemma rev_app_app s t u : String.rev_app (s +:+ t) u = String.rev_app t (String.rev_app s u).
Proof. revert u. induction s as [| c s IH]; intros u; [done |]. change (String c s +:+ t) with (String c (s +:+ t)). apply IH. Qed.

Lemma rev_app_rev_app s u v : String.rev_app (String.rev_app s u) v = String.rev_app u (s +:+ v).
Proof. revert u. induction s as [| c s IH]; intros u; [done |]. simpl. by rewrite IH. Qed.

(** A text that neither starts nor ends with white space. *)
Definition trimmed (s : string) : Prop :=
  trim_start s = s /\ exists p c, s = p +:+ String c "" /\ Ascii.is_space c = false.

Lemma trim_trimmed s : trimmed s -> trim s = s.
Proof.
  intros [H (p & c & -> & Hc)]. unfold trim. rewrite H. unfold String.rev at 2.
  rewrite rev_app_app. simpl. rewrite Hc. unfold String.rev. simpl. by rewrite rev_app_rev_app.
Qed.

Lemma trimmed_cons c s : Ascii.is_space c = false -> trimmed s -> trimmed (String c s).
Proof.
  intros Hc [_ (p & d & -> & Hd)]. split; [simpl; by rewrite Hc |]. by exists (String c p), d.
Qed.

Lemma trimmed_after c a s : Ascii.is_space c = false -> trimmed s -> trimmed (String c a +:+ s).
Proof.
  intros Hc [_ (p & d & -> & Hd)]. split.
  - change (String c a +:+ (p +:+ String d "")) with (String c (a +:+ p +:+ String d "")). simpl. by rewrite Hc.
  - exists (String c a +:+ p), d. by rewrite string_app_assoc.
Qed.

(** *** Splitting at a blank line *)

Definition BLANK : string := String LF (String LF "").

Lemma split_str_line l s :
  free_of LF l -> split_str_go BLANK 0 (l +:+ s) = let '(h, t) := split_str_go BLANK 0 s in (l +:+ h, t).
Proof.
  unfold free_of. induction l as [| c l IH]; intros H; [rewrite string_app_nil_l; by destruct (split_str_go BLANK 0 s) as [h t] |].
  simpl in H. apply not_elem_of_cons in H as [Hc Hl]. change (String c l +:+ s) with (String c (l +:+ s)).
  cbn [split_str_go]. assert (Hs : starts_with (String c (l +:+ s)) BLANK = false).
  { unfold starts_with, BLANK. cbn [strip_prefix]. by rewrite decide_False by congruence. }
  rewrite Hs, IH by done. by destruct (split_str_go BLANK 0 s).
Qed.

(** A line feed that is not followed by another. *)
Lemma split_str_lf s :
  match s with String c _ => c <> LF | "" => True end ->
  split_str_go BLANK 0 (String LF s) = let '(h, t) := split_str_go BLANK 0 s in (String LF h, t).
Proof.
  intros Hc. cbn [split_str_go]. assert (Hs : starts_with (String LF s) BLANK = false).
  { unfold starts_with, BLANK. cbn [strip_prefix]. rewrite decide_True by done.
    destruct s; [done |]. by rewrite decide_False by congruence. }
  by rewrite Hs.
Qed.

Lemma split_str_blank s :
  split_str_go BLANK 0 (BLANK +:+ s) = let '(h, t) := split_str_go BLANK 0 s in ("", h :: t).
Proof. reflexivity. Qed.

Lemma contains_str_app a p b : contains_str (a +:+ p +:+ b) p = true.
Proof.
  induction a as [| c a IH].
  - rewrite string_app_nil_l. unfold contains_str. destruct (p +:+ b) eqn:E; rewrite <- E;
      unfold starts_with; by rewrite strip_prefix_app.
  - change (String c a +:+ p +:+ b) with (String c (a +:+ p +:+ b)). cbn [contains_str]. rewrite IH. apply orb_true_r.
Qed.
