(* ===== verification/Net.v ===== *)
(** * CIDR arithmetic and the bypass route table ([src/net.rs])

    Masks are computed on the 32- and 128-bit integers of the addresses, as
    the code does; the specification they are proved against is the textual
    meaning of a prefix: two addresses of one family share their leading
    bits. *)

From Stdlib Require Import ZArith Lia ZifyBool.
From stdpp Require Import base decidable list sets gmap sorting.
From S2P Require Import Prelude StdNet.
#[local] Open Scope Z_scope.

Abbreviation CidrList := (list (IpAddr * Z)) (only parsing).

(** ** Definitions *)

(** [u32::MAX << (32 - prefix)] drops the bits shifted out of the word. *)
Definition prefix_mask_v4 (prefix : Z) : Z :=
  if prefix =? 0 then 0
  else if 32 <=? prefix then umax 32
  else (Z.shiftl (umax 32) (32 - prefix)) mod 2 ^ 32.

Definition prefix_mask_v6 (prefix : Z) : Z :=
  if prefix =? 0 then 0
  else if 128 <=? prefix then umax 128
  else (Z.shiftl (umax 128) (128 - prefix)) mod 2 ^ 128.

Definition mask_v4 (addr : Ipv4Addr) (prefix : Z) : Ipv4Addr := Z.land addr (prefix_mask_v4 prefix).
Definition mask_v6 (addr : Ipv6Addr) (prefix : Z) : Ipv6Addr := Z.land addr (prefix_mask_v6 prefix).

Record Cidr : Type := mkCidr { base : IpAddr; prefix : Z }.

#[global] Instance Cidr_eq_dec : EqDecision Cidr.
Proof. solve_decision. Defined.

Module Cidr.
Definition new (addr : IpAddr) (prefix : Z) : Cidr :=
  mkCidr (match addr with
          | V4 v4 => V4 (mask_v4 v4 prefix)
          | V6 v6 => V6 (mask_v6 v6 prefix)
          end) prefix.

Definition is_ipv6 (c : Cidr) : bool := StdNet.is_ipv6 (base c).

Definition contains (c : Cidr) (addr : IpAddr) : bool :=
  match base c, addr with
  | V4 b, V4 a => mask_v4 a (prefix c) =? b
  | V6 b, V6 a => mask_v6 a (prefix c) =? b
  | _, _ => false
  end.
End Cidr.

Definition diff_cidrs (old new : CidrList) : CidrList * CidrList :=
  (filter (.∉ old) new, filter (.∉ new) old).

Inductive RouteDecision : Type := Direct | Proxy.

#[global] Instance RouteDecision_eq_dec : EqDecision RouteDecision.
Proof. solve_decision. Defined.

Record RouteTable : Type := mkRouteTable {
  v4 : list (Z * Z);
  v6 : list (Z * Z);
  len : Z;
}.

#[global] Instance RouteTable_eq_dec : EqDecision RouteTable.
Proof. solve_decision. Defined.

(** [sort_by_key(|c| Reverse(c.prefix))]: the stable sort by descending
    prefix length. *)
Fixpoint insert_by_prefix (c : Cidr) (l : list Cidr) : list Cidr :=
  match l with
  | [] => [c]
  | d :: l' => if prefix d <=? prefix c then c :: l else d :: insert_by_prefix c l'
  end.

Definition sort_by_prefix (l : list Cidr) : list Cidr := foldr insert_by_prefix [] l.

Module RouteTable.
(** [RouteTable::default()] *)
Definition empty : RouteTable := mkRouteTable [] [] 0.

(** The [for c in cidrs] loop that pushes each network on the vector of its
    family. *)
Fixpoint push_all (cidrs : list Cidr) (v4 v6 : list (Z * Z)) : list (Z * Z) * list (Z * Z) :=
  match cidrs with
  | [] => (v4, v6)
  | c :: cidrs =>
      match base c with
      | V4 b => push_all cidrs (v4 ++ [(b, prefix_mask_v4 (prefix c))]) v6
      | V6 b => push_all cidrs v4 (v6 ++ [(b, prefix_mask_v6 (prefix c))])
      end
  end.

Definition new (direct : CidrList) : RouteTable :=
  let cidrs := (fun '(addr, prefix) => Cidr.new addr prefix) <$> direct in
  let cidrs := sort_by_prefix cidrs in
  let len := Z.of_nat (length cidrs) in
  let '(v4, v6) := push_all cidrs [] [] in
  mkRouteTable v4 v6 len.

Definition any_match (bits : Z) (l : list (Z * Z)) : bool :=
  existsb (fun '(base, mask) => Z.land bits mask =? base) l.

Definition decide (t : RouteTable) (addr : IpAddr) : RouteDecision :=
  let matched := match addr with
                 | V4 a => any_match a (v4 t)
                 | V6 a => any_match a (v6 t)
                 end in
  if matched then Direct else Proxy.

Definition is_empty (t : RouteTable) : bool := len t =? 0.
End RouteTable.

(** ** Specification *)

(** The two [w]-bit integers agree on their [p] most significant bits. *)
Definition same_prefix (w p a b : Z) : Prop :=
  a / 2 ^ (w - Z.min p w) = b / 2 ^ (w - Z.min p w).

(** The network [addr/p] covers the address [b]. *)
Definition covers (addr : IpAddr) (p : Z) (b : IpAddr) : Prop :=
  match addr, b with
  | V4 a, V4 b => same_prefix 32 p a b
  | V6 a, V6 b => same_prefix 128 p a b
  | _, _ => False
  end.

#[global] Instance covers_dec addr p b : Decision (covers addr p b).
Proof. destruct addr, b; simpl; unfold same_prefix; apply _. Defined.

(** ** Masks *)

Definition prefix_mask (w p : Z) : Z :=
  if p =? 0 then 0 else if w <=? p then umax w else (Z.shiftl (umax w) (w - p)) mod 2 ^ w.

Lemma prefix_mask_ones w p :
  0 < w -> 0 <= p ->
  prefix_mask w p = Z.shiftl (Z.ones (Z.min p w)) (w - Z.min p w).
Proof.
  intros Hw Hp. unfold prefix_mask, umax.
  replace (2 ^ w - 1) with (Z.ones w) by (rewrite Z.ones_equiv; lia).
  destruct (p =? 0) eqn:E0; bool_to_prop.
  { subst. rewrite Z.min_l by lia. by rewrite Z.shiftl_0_l. }
  destruct (w <=? p) eqn:E1; bool_to_prop.
  { rewrite Z.min_r by lia. rewrite Z.sub_diag. by rewrite Z.shiftl_0_r. }
  rewrite Z.min_l by lia. apply Z.bits_inj'. intros i Hi.
  rewrite <- Z.land_ones, Z.land_spec by lia.
  rewrite !Z.shiftl_spec by lia. rewrite !Z.testbit_ones by lia. lia.
Qed.

Lemma land_prefix_mask w p a :
  0 < w -> 0 <= p -> uint w a ->
  Z.land a (prefix_mask w p) = a / 2 ^ (w - Z.min p w) * 2 ^ (w - Z.min p w).
Proof.
  intros Hw Hp Ha. rewrite prefix_mask_ones by done.
  rewrite <- Z.shiftr_div_pow2, <- Z.shiftl_mul_pow2 by lia.
  apply Z.bits_inj'. intros i Hi.
  rewrite Z.land_spec, !Z.shiftl_spec, Z.testbit_ones by lia.
  destruct (decide (i < w - Z.min p w)) as [Hlt | Hge].
  - rewrite (Z.testbit_neg_r (Z.shiftr _ _)) by lia. destruct (Z.testbit a i); lia.
  - rewrite Z.shiftr_spec by lia. replace (i - (w - Z.min p w) + (w - Z.min p w)) with i by lia.
    destruct (decide (i < w)); [destruct (Z.testbit a i); lia |].
    rewrite <- (Z.mod_small a (2 ^ w)) by done. rewrite Z.mod_pow2_bits_high by lia. done.
Qed.

Lemma mask_same_prefix w p a b :
  0 < w -> 0 <= p -> uint w a -> uint w b ->
  Z.land a (prefix_mask w p) = Z.land b (prefix_mask w p) <-> same_prefix w p a b.
Proof.
  intros. rewrite !land_prefix_mask by done. unfold same_prefix.
  rewrite Z.mul_cancel_r; [done |]. apply Z.pow_nonzero; lia.
Qed.

Lemma uint_prefix_mask w p : 0 < w -> 0 <= p -> uint w (prefix_mask w p).
Proof.
  intros. unfold prefix_mask, umax. unfold uint.
  repeat case_match; [lia | lia |]. apply Z.mod_pos_bound. lia.
Qed.

Lemma prefix_mask_v4_eq p : prefix_mask_v4 p = prefix_mask 32 p. Proof. done. Qed.
Lemma prefix_mask_v6_eq p : prefix_mask_v6 p = prefix_mask 128 p. Proof. done. Qed.

Lemma Cidr_new_wf addr p : ip_wf addr -> 0 <= p -> ip_wf (base (Cidr.new addr p)).
Proof.
  intros Ha Hp. destruct addr as [a | a]; simpl in *; unfold mask_v4, mask_v6.
  - rewrite prefix_mask_v4_eq. apply uint_land; [lia | apply Ha | by apply uint_prefix_mask].
  - rewrite prefix_mask_v6_eq. apply uint_land; [lia | apply Ha | by apply uint_prefix_mask].
Qed.

Lemma contains_covers addr p b :
  ip_wf addr -> ip_wf b -> 0 <= p ->
  Cidr.contains (Cidr.new addr p) b = true <-> covers addr p b.
Proof.
  intros Ha Hb Hp.
  destruct addr as [a | a], b as [b | b]; simpl in *; try naive_solver;
    unfold Cidr.contains; simpl; rewrite Z.eqb_eq;
    unfold mask_v4, mask_v6; rewrite ?prefix_mask_v4_eq, ?prefix_mask_v6_eq;
    rewrite mask_same_prefix by (done || lia); unfold same_prefix; naive_solver.
Qed.

(** ** The table *)

Lemma insert_by_prefix_perm c l : insert_by_prefix c l ≡ₚ c :: l.
Proof.
  induction l as [| d l IH]; simpl; [done |]. case_match; [done |].
  rewrite IH. constructor.
Qed.

Lemma sort_by_prefix_perm l : sort_by_prefix l ≡ₚ l.
Proof.
  induction l as [| c l IH]; simpl; [done |].
  unfold sort_by_prefix in *. by rewrite insert_by_prefix_perm, IH.
Qed.

Lemma insert_by_prefix_sorted c l :
  StronglySorted (fun a b => prefix b <= prefix a) l ->
  StronglySorted (fun a b => prefix b <= prefix a) (insert_by_prefix c l).
Proof.
  induction 1 as [| d l Hl IH Hd]; simpl; [by repeat constructor |].
  destruct (prefix d <=? prefix c) eqn:E; bool_to_prop.
  - constructor; [by constructor |]. constructor; [done |].
    eapply Forall_impl; [done |]. simpl. lia.
  - constructor; [done |]. rewrite insert_by_prefix_perm. constructor; [lia | done].
Qed.

Lemma sort_by_prefix_sorted l :
  StronglySorted (fun a b => prefix b <= prefix a) (sort_by_prefix l).
Proof. induction l; simpl; [constructor | by apply insert_by_prefix_sorted]. Qed.

Definition v4_entry (c : Cidr) : list (Z * Z) :=
  match base c with V4 b => [(b, prefix_mask_v4 (prefix c))] | V6 _ => [] end.
Definition v6_entry (c : Cidr) : list (Z * Z) :=
  match base c with V4 _ => [] | V6 b => [(b, prefix_mask_v6 (prefix c))] end.

Lemma push_all_spec cs l4 l6 :
  RouteTable.push_all cs l4 l6 = (l4 ++ (cs ≫= v4_entry), l6 ++ (cs ≫= v6_entry)).
Proof.
  revert l4 l6. induction cs as [| c cs IH]; intros; simpl; [by rewrite !app_nil_r |].
  unfold v4_entry at 1, v6_entry at 1. destruct (base c); simpl; rewrite IH; simpl;
    by rewrite <- ?app_assoc.
Qed.

Lemma any_match_v4 a cs :
  RouteTable.any_match a (cs ≫= v4_entry) = existsb (fun c => Cidr.contains c (V4 a)) cs.
Proof.
  unfold RouteTable.any_match. induction cs as [| c cs IH]; [done |]. rewrite bind_cons. simpl.
  rewrite existsb_app, IH. f_equal. unfold v4_entry, Cidr.contains.
  destruct (base c); simpl; [by rewrite orb_false_r | done].
Qed.

Lemma any_match_v6 a cs :
  RouteTable.any_match a (cs ≫= v6_entry) = existsb (fun c => Cidr.contains c (V6 a)) cs.
Proof.
  unfold RouteTable.any_match. induction cs as [| c cs IH]; [done |]. rewrite bind_cons. simpl.
  rewrite existsb_app, IH. f_equal. unfold v6_entry, Cidr.contains.
  destruct (base c); simpl; [done | by rewrite orb_false_r].
Qed.

Lemma existsb_Exists {A} (f : A -> bool) l : existsb f l = true <-> Exists (fun x => f x = true) l.
Proof.
  rewrite existsb_exists, Exists_exists. by setoid_rewrite list_elem_of_In.
Qed.

Lemma decide_contains l addr :
  RouteTable.decide (RouteTable.new l) addr = Direct <->
  Exists (fun '(a, p) => Cidr.contains (Cidr.new a p) addr = true) l.
Proof.
  unfold RouteTable.new, RouteTable.decide. rewrite push_all_spec. simpl.
  set (cs := _ <$> l).
  transitivity (existsb (fun c => Cidr.contains c addr) (sort_by_prefix cs) = true).
  - destruct addr; rewrite ?any_match_v4, ?any_match_v6; case_match; naive_solver.
  - rewrite existsb_Exists, sort_by_prefix_perm. unfold cs.
    rewrite Exists_fmap.
    split; intros H; (eapply Exists_impl; [exact H |]); by intros [].
Qed.

Lemma covers_mask addr p b :
  ip_wf addr -> ip_wf b -> 0 <= p -> covers addr p b <-> Cidr.new b p = Cidr.new addr p.
Proof.
  intros Ha Hb Hp. rewrite <- contains_covers by done.
  destruct addr as [a | a], b as [b | b]; unfold Cidr.contains, Cidr.new; simpl; rewrite ?Z.eqb_eq;
    split; intros; simplify_eq; congruence.
Qed.

Lemma mask_idemp w p a : Z.land (Z.land a (prefix_mask w p)) (prefix_mask w p) = Z.land a (prefix_mask w p).
Proof. by rewrite <- Z.land_assoc, Z.land_diag. Qed.

Lemma push_all_length cs :
  (length (cs ≫= v4_entry) + length (cs ≫= v6_entry) = length cs)%nat.
Proof.
  induction cs as [| c cs IH]; [done |]. rewrite !bind_cons, !length_app. simpl.
  unfold v4_entry at 1, v6_entry at 1. destruct (base c); simpl; lia.
Qed.

(** The compiled table decides by cover. *)
Lemma decide_covers (direct : CidrList) (addr : IpAddr) :
  Forall (fun '(a, p) => ip_wf a /\ 0 <= p) direct -> ip_wf addr ->
  RouteTable.decide (RouteTable.new direct) addr = Direct <->
  Exists (fun '(a, p) => covers a p addr) direct.
Proof.
  intros Hwf Ha. rewrite decide_contains, !Exists_exists.
  rewrite Forall_forall in Hwf.
  split; intros [[a p] [Hin H]]; exists (a, p); (split; [done |]);
    destruct (Hwf _ Hin); by apply contains_covers.
Qed.

(** ** Properties *)

(** C9. [RouteTable::new] followed by [decide] implements the bypass policy:
    an address is routed directly exactly when some configured network, read
    as a prefix of leading bits, covers it, whatever the order, nesting or
    family of the networks and whatever host bits they carry. *)
Theorem route_decide_spec (direct : CidrList) (addr : IpAddr) :
  Forall (fun '(a, p) => ip_wf a /\ 0 <= p) direct -> ip_wf addr ->
  RouteTable.decide (RouteTable.new direct) addr = Direct <->
  Exists (fun '(a, p) => covers a p addr) direct.
Proof. apply decide_covers. Qed.

Lemma route_decide_spec_witness :
  RouteTable.decide (RouteTable.new [(V4 167837953, 8); (V6 0, 3)]) (V4 184549375) = Direct <->
  Exists (fun '(a, p) => covers a p (V4 184549375)) [(V4 167837953, 8); (V6 0, 3)].
Proof.
  apply (route_decide_spec [(V4 167837953, 8); (V6 0, 3)] (V4 184549375)).
  - repeat constructor; vm_compute; congruence.
  - vm_compute; split; congruence.
Defined.

(** [Cidr::new] puts a network in canonical form: the base is an address
    of the same width, masking it again changes nothing, two spellings give
    the same network exactly when they agree on the prefix, and [contains]
    decides membership in it. *)
Theorem cidr_new_canonical (addr : IpAddr) (p : Z) :
  ip_wf addr -> 0 <= p ->
  ip_wf (base (Cidr.new addr p)) /\
  Cidr.new (base (Cidr.new addr p)) p = Cidr.new addr p /\
  (forall b, ip_wf b ->
     (Cidr.contains (Cidr.new addr p) b = true <-> covers addr p b) /\
     (covers addr p b <-> Cidr.new b p = Cidr.new addr p)).
Proof.
  intros Ha Hp. split_and!; [by apply Cidr_new_wf | |].
  - destruct addr; unfold Cidr.new; simpl; f_equal; f_equal; apply mask_idemp.
  - intros b Hb. split; [by apply contains_covers | by apply covers_mask].
Qed.

Lemma cidr_new_canonical_witness :
  Cidr.new (base (Cidr.new (V4 167837953) 8)) 8 = Cidr.new (V4 167837953) 8 /\
  base (Cidr.new (V4 167837953) 8) = V4 167772160.
Proof.
  split; [| reflexivity].
  apply (cidr_new_canonical (V4 167837953) 8); vm_compute; try split; congruence.
Defined.

(** The two lists [diff_cidrs] returns are exactly the changes between
    the configurations: adding the first to, and taking the second from, the
    old set of networks gives the new set; nothing already present is added,
    nothing wanted is removed, and both are empty exactly when the two
    configurations name the same networks. *)
Theorem diff_cidrs_exact (old new : CidrList) :
  let '(to_add, to_remove) := diff_cidrs old new in
  (forall x, x ∈ new <-> (x ∈ old /\ x ∉ to_remove) \/ x ∈ to_add) /\
  (forall x, x ∈ to_add -> x ∉ old) /\
  (forall x, x ∈ to_remove -> x ∈ old /\ x ∉ new) /\
  (to_add = [] /\ to_remove = [] <-> forall x, x ∈ old <-> x ∈ new).
Proof.
  unfold diff_cidrs. split_and!; try (intros x; rewrite !list_elem_of_filter).
  - destruct (decide (x ∈ old)), (decide (x ∈ new)); naive_solver.
  - naive_solver.
  - naive_solver.
  - rewrite !filter_nil_iff. split.
    + intros [H1 H2] x. split; intros Hx; apply dec_stable; naive_solver.
    + intros H. split; intros x Hx ?; naive_solver.
Qed.

(** The table [RouteTable::new] builds: it records the number of networks
    it was given, every network of a family is one entry of that family's
    vector (so [is_empty] means that no network was configured), and the
    networks are laid out by descending prefix length. *)
Theorem route_table_shape (direct : CidrList) :
  let t := RouteTable.new direct in
  let cidrs := (fun '(a, p) => Cidr.new a p) <$> direct in
  len t = Z.of_nat (length direct) /\
  Z.of_nat (length (v4 t)) + Z.of_nat (length (v6 t)) = len t /\
  (RouteTable.is_empty t = true <-> direct = []) /\
  exists sorted, sorted ≡ₚ cidrs /\
    StronglySorted (fun a b => prefix b <= prefix a) sorted /\
    v4 t = sorted ≫= v4_entry /\ v6 t = sorted ≫= v6_entry.
Proof.
  unfold RouteTable.new. set (cs := _ <$> direct). rewrite push_all_spec. simpl.
  assert (Hlen : length (sort_by_prefix cs) = length direct).
  { rewrite sort_by_prefix_perm. apply length_fmap. }
  pose proof (push_all_length (sort_by_prefix cs)).
  split_and!; [lia | lia | |].
  - unfold RouteTable.is_empty. simpl. rewrite Hlen, Z.eqb_eq. destruct direct; simpl; naive_solver lia.
  - exists (sort_by_prefix cs). split_and!; auto using sort_by_prefix_perm, sort_by_prefix_sorted.
Qed.
