(* ===== verification/Config.v ===== *)
(** * Configuration ([src/config.rs])

    The configuration as it is read, its validation with every error path,
    and the accessors, which call [expect("already validated")]: they return
    [option], [None] standing for the panic. *)

From Stdlib Require Import ZArith Lia ZifyBool.
From Stdlib Require Import Strings.Ascii Strings.String.
From stdpp Require Import base decidable list strings pretty gmap.
From S2P Require Import Prelude StdNet.
#[local] Open Scope Z_scope.

(** ** Definitions *)

Definition parse_cidr (spec : string) : result (IpAddr * Z) :=
  let? (addr_part, prefix_part) :=
    opt_context ("cidr " +:+ spec +:+ " is missing a prefix length") (split_once "/"%char spec) in
  let? addr :=
    context ("cidr " +:+ spec +:+ " has an invalid address")
      (opt_context "invalid IP address syntax" (parse_ip addr_part)) in
  let? prefix :=
    context ("cidr " +:+ spec +:+ " has an invalid prefix length")
      (match parse_uint 8 prefix_part with Ok p => Ok p | Err m => Err [m] end) in
  let max := if is_ipv4 addr then 32 else 128 in
  if max <? prefix
  then bail ("cidr " +:+ spec +:+ " prefix length exceeds " +:+ show_dec max)
  else Ok (addr, prefix).

Definition default_dns_server : string := "1.1.1.1".
Definition default_override_dns : bool := true.
Definition default_dns_over_tcp : bool := true.
Definition default_bypass_cidrs : list string := [].
Definition DEFAULT_CONNECT_TIMEOUT : Z := from_secs 10.

Record Config : Type := mkConfig {
  proxy_addr : string;
  username : option string;
  password : option string;
  tun_name : string;
  tun_ip : string;
  verbose : bool;
  dns_server : string;
  override_dns : bool;
  dns_over_tcp : bool;
  bypass_cidrs : list string;
  metrics_addr : option string;
}.

#[global] Instance Config_eq_dec : EqDecision Config.
Proof. solve_decision. Defined.

Definition default_config : Config := {|
  proxy_addr := "127.0.0.1:1080";
  username := None;
  password := None;
  tun_name := "cortado0";
  tun_ip := "10.0.0.1";
  verbose := false;
  dns_server := default_dns_server;
  override_dns := default_override_dns;
  dns_over_tcp := default_dns_over_tcp;
  bypass_cidrs := default_bypass_cidrs;
  metrics_addr := None;
|}.

(** The [for cidr in &self.bypass_cidrs] loop: the first bad entry ends it. *)
Fixpoint validate_cidrs (l : list string) : result unit :=
  match l with
  | [] => Ok tt
  | c :: l => let? _ := parse_cidr c in validate_cidrs l
  end.

Definition str_len (s : string) : Z := Z.of_nat (String.length s).

Definition validate (c : Config) : result unit :=
  let? _ := context "proxy_addr is not a valid socket address (expected ip:port)"
              (opt_context "invalid socket address syntax" (parse_sockaddr (proxy_addr c))) in
  let? _ := context "tun_ip is not a valid IPv4 address"
              (opt_context "invalid IPv4 address syntax" (parse_ipv4 (tun_ip c))) in
  let? _ := (if override_dns c
             then let? _ := context "dns_server is not a valid IP address"
                              (opt_context "invalid IP address syntax" (parse_ip (dns_server c))) in
                  Ok tt
             else Ok tt) in
  let? _ := validate_cidrs (bypass_cidrs c) in
  let? _ := (match metrics_addr c with
             | Some a =>
                 let? _ := context "metrics_addr is not a valid socket address (expected ip:port)"
                             (opt_context "invalid socket address syntax" (parse_sockaddr a)) in
                 Ok tt
             | None => Ok tt
             end) in
  match username c, password c with
  | Some _, None | None, Some _ =>
      bail "username and password must both be set or both be absent"
  | Some u, Some p =>
      if (str_len u =? 0) || (255 <? str_len u)
      then bail "username length must be between 1 and 255"
      else if (str_len p =? 0) || (255 <? str_len p)
      then bail "password length must be between 1 and 255"
      else Ok tt
  | None, None => Ok tt
  end.

Definition proxy_socket_addr (c : Config) : option SocketAddr := parse_sockaddr (proxy_addr c).

Definition tun_ipv4 (c : Config) : option Ipv4Addr := parse_ipv4 (tun_ip c).

Definition dns_addr (c : Config) : option (option IpAddr) :=
  if override_dns c
  then match parse_ip (dns_server c) with Some i => Some (Some i) | None => None end
  else Some None.

Definition bypass_routes (c : Config) : option (list (IpAddr * Z)) :=
  mapM (fun s => ok (parse_cidr s)) (bypass_cidrs c).

Definition metrics_socket_addr (c : Config) : option (option SocketAddr) :=
  match metrics_addr c with
  | Some a => match parse_sockaddr a with Some s => Some (Some s) | None => None end
  | None => Some None
  end.

Record ProxyConfig : Type := mkProxyConfig {
  pc_addr : SocketAddr;
  pc_username : option string;
  pc_password : option string;
  pc_connect_timeout : Z;
  pc_tcp_nodelay : bool;
}.

#[global] Instance ProxyConfig_eq_dec : EqDecision ProxyConfig.
Proof. solve_decision. Defined.

Module ProxyConfig.
Definition from_config (cfg : Config) : option ProxyConfig :=
  match proxy_socket_addr cfg with
  | None => None
  | Some a => Some {| pc_addr := a;
                      pc_username := username cfg;
                      pc_password := password cfg;
                      pc_connect_timeout := DEFAULT_CONNECT_TIMEOUT;
                      pc_tcp_nodelay := true |}
  end.
End ProxyConfig.

(** ** Specification of a valid configuration *)

Definition host_width (a : IpAddr) : Z := if is_ipv4 a then 32 else 128.

(** A text names a network: address, slash, prefix length within the width. *)
Definition cidr_text (s : string) (a : IpAddr) (p : Z) : Prop :=
  exists l r, split_once "/"%char s = Some (l, r) /\ parse_ip l = Some a /\
              parse_uint 8 r = Ok p /\ p <= host_width a.

Definition credentials_ok (u p : option string) : Prop :=
  match u, p with
  | None, None => True
  | Some u, Some p => 1 <= str_len u <= 255 /\ 1 <= str_len p <= 255
  | _, _ => False
  end.

Definition config_valid (c : Config) : Prop :=
  is_Some (parse_sockaddr (proxy_addr c)) /\
  is_Some (parse_ipv4 (tun_ip c)) /\
  (override_dns c = true -> is_Some (parse_ip (dns_server c))) /\
  Forall (fun s => exists a p, cidr_text s a p) (bypass_cidrs c) /\
  (forall m, metrics_addr c = Some m -> is_Some (parse_sockaddr m)) /\
  credentials_ok (username c) (password c).

(** ** Lemmas *)

Lemma parse_cidr_ok s a p : parse_cidr s = Ok (a, p) <-> cidr_text s a p.
Proof.
  unfold parse_cidr, cidr_text, host_width. split.
  - intros H. apply rbind_ok in H as ([l r] & H1%opt_context_ok & H).
    apply rbind_ok in H as (a' & H2%context_ok%opt_context_ok & H).
    apply rbind_ok in H as (p' & H3%context_ok & H).
    destruct (parse_uint 8 r) as [q |] eqn:E; simplify_eq.
    case_match eqn:E'; simplify_eq; bool_to_prop. by exists l, r.
  - intros (l & r & -> & H2 & H3 & Hle). simpl. rewrite H2. simpl. rewrite H3. simpl.
    destruct (is_ipv4 a); case_match; bool_to_prop; try done; lia.
Qed.

Lemma validate_cidrs_ok l :
  validate_cidrs l = Ok tt <-> Forall (fun s => exists a p, cidr_text s a p) l.
Proof.
  induction l as [| s l IH]; simpl; [by split; constructor |].
  rewrite rbind_ok, Forall_cons. setoid_rewrite IH. split.
  - intros ([a p] & H%parse_cidr_ok & Hl). eauto.
  - intros ((a & p & H%parse_cidr_ok) & Hl). eauto.
Qed.

Lemma credentials_check u p :
  (match u, p with
   | Some _, None | None, Some _ =>
       bail "username and password must both be set or both be absent"
   | Some u, Some p =>
       if (str_len u =? 0) || (255 <? str_len u)
       then bail "username length must be between 1 and 255"
       else if (str_len p =? 0) || (255 <? str_len p)
       then bail "password length must be between 1 and 255"
       else Ok tt
   | None, None => Ok tt
   end : result unit) = Ok tt <-> credentials_ok u p.
Proof.
  destruct u as [u |], p as [p |]; simpl; try done. unfold str_len.
  case_match eqn:E1; [| case_match eqn:E2]; split; try done; intros H; lia.
Qed.

Lemma validate_valid c : validate c = Ok tt <-> config_valid c.
Proof.
  unfold validate, config_valid. split.
  - intros H.
    apply rbind_ok in H as (pa & H1%context_ok%opt_context_ok & H).
    apply rbind_ok in H as (ti & H2%context_ok%opt_context_ok & H).
    apply rbind_ok in H as ([] & H3 & H).
    apply rbind_ok in H as ([] & H4%validate_cidrs_ok & H).
    apply rbind_ok in H as ([] & H5 & H6%credentials_check).
    split_and!; eauto.
    + intros Ho. rewrite Ho in H3. apply rbind_ok in H3 as (d & H3%context_ok%opt_context_ok & _). eauto.
    + intros m Hm. rewrite Hm in H5. apply rbind_ok in H5 as (d & H5%context_ok%opt_context_ok & _). eauto.
  - intros ([pa ->] & [ti ->] & H3 & H4%validate_cidrs_ok & H5 & H6%credentials_check).
    simpl. rewrite H4.
    destruct (override_dns c); [destruct (H3 eq_refl) as [d ->] |]; simpl;
      (destruct (metrics_addr c) as [m |]; [destruct (H5 m eq_refl) as [ms ->] |]); exact H6.
Qed.

Lemma bypass_routes_valid c :
  config_valid c -> exists l, bypass_routes c = Some l /\
    Forall2 (fun s '(a, p) => cidr_text s a p) (bypass_cidrs c) l.
Proof.
  intros (_ & _ & _ & H & _). unfold bypass_routes.
  induction H as [| s l (a & p & Hs) Hl (r & IH & Hr)]; [by exists []; split; constructor |].
  exists ((a, p) :: r). split; [| by constructor].
  simpl. rewrite (proj2 (parse_cidr_ok s a p) Hs). simpl. rewrite IH. done.
Qed.

(** The networks of a usable configuration are well formed. *)
Lemma bypass_routes_wf c l :
  config_valid c -> bypass_routes c = Some l -> Forall (fun '(a, p) => ip_wf a /\ 0 <= p) l.
Proof.
  intros Hv Hl. destruct (bypass_routes_valid c Hv) as (l' & Hl' & Hf). simplify_eq.
  clear Hv Hl. induction Hf as [| s [a p] ss l Hs _ IH]; [constructor |]. constructor; [| done].
  destruct Hs as (x & r & _ & Ha & Hp & _). split; [by eapply parse_ip_wf |].
  apply parse_uint_range in Hp; unfold uint in *; lia.
Qed.

Lemma cidr_text_wf s a p : cidr_text s a p -> ip_wf a /\ 0 <= p <= host_width a.
Proof.
  intros (l & r & _ & Ha%parse_ip_wf & Hp & Hle). apply parse_uint_range in Hp; [| lia].
  unfold uint in Hp. split; [done | lia].
Qed.

(** What the rest of the program reads from a validated configuration. *)
Record config_view : Type := mkView {
  view_proxy : ProxyConfig;
  view_tun : Ipv4Addr;
  view_dns : option IpAddr;
  view_bypass : list (IpAddr * Z);
  view_metrics : option SocketAddr;
}.

Definition view_of (c : Config) : option config_view :=
  match ProxyConfig.from_config c, tun_ipv4 c, dns_addr c, bypass_routes c, metrics_socket_addr c with
  | Some p, Some t, Some d, Some b, Some m => Some (mkView p t d b m)
  | _, _, _, _, _ => None
  end.

Lemma accessors_valid c :
  config_valid c ->
  exists p t d b m, proxy_socket_addr c = Some p /\ tun_ipv4 c = Some t /\ dns_addr c = Some d /\
    bypass_routes c = Some b /\ metrics_socket_addr c = Some m /\
    sockaddr_wf p /\ uint 32 t /\ (forall i, d = Some i -> ip_wf i) /\
    Forall (fun '(a, p) => ip_wf a /\ 0 <= p <= host_width a) b /\
    (forall s, m = Some s -> sockaddr_wf s).
Proof.
  intros Hv. destruct (bypass_routes_valid c Hv) as (b & Hb & HF).
  destruct Hv as ([p Hp] & [t Ht] & Hd & _ & Hm & _).
  assert (exists d, dns_addr c = Some d /\ forall i, d = Some i -> ip_wf i) as (d & Hd1 & Hd2).
  { unfold dns_addr. destruct (override_dns c); [| by exists None].
    destruct (Hd eq_refl) as [i Hi]. rewrite Hi. exists (Some i). split; [done |].
    intros ? [= <-]. by eapply parse_ip_wf. }
  assert (exists m, metrics_socket_addr c = Some m /\ forall s, m = Some s -> sockaddr_wf s)
    as (m & Hm1 & Hm2).
  { unfold metrics_socket_addr. destruct (metrics_addr c) as [a |]; [| by exists None].
    destruct (Hm _ eq_refl) as [s Hs]. rewrite Hs. exists (Some s). split; [done |].
    intros ? [= <-]. by eapply parse_sockaddr_wf. }
  exists p, t, d, b, m. split_and!; eauto with cortado.
  clear -HF. induction HF as [| s [a p] ? ? H HF IH]; constructor; [| done].
  by eapply cidr_text_wf.
Qed.

(** ** Properties *)


(** C32. No accessor of a validated configuration panics: each of the
    [expect("already validated")] calls succeeds, and what it returns is in
    range (ports, addresses, prefix lengths at most the family's width). *)
Theorem validated_accessors_total (c : Config) :
  validate c = Ok tt ->
  exists v, view_of c = Some v /\
    sockaddr_wf (pc_addr (view_proxy v)) /\
    credentials_ok (pc_username (view_proxy v)) (pc_password (view_proxy v)) /\
    uint 32 (view_tun v) /\
    (forall i, view_dns v = Some i -> ip_wf i) /\
    Forall (fun '(a, p) => ip_wf a /\ 0 <= p <= host_width a) (view_bypass v) /\
    (forall s, view_metrics v = Some s -> sockaddr_wf s).
Proof.
  intros Hv%validate_valid.
  destruct (accessors_valid c Hv) as (p & t & d & b & m & Hp & Ht & Hd & Hb & Hm & H).
  unfold view_of, ProxyConfig.from_config. rewrite Hp, Ht, Hd, Hb, Hm.
  eexists. split; [done |]. destruct Hv as (_ & _ & _ & _ & _ & Hc). simpl. tauto.
Qed.

Lemma validated_accessors_total_witness :
  exists v, view_of default_config = Some v /\ view_tun v = 167772161 /\
            sockaddr_wf (pc_addr (view_proxy v)).
Proof.
  destruct (validated_accessors_total default_config ltac:(vm_compute; reflexivity))
    as (v & Hv & Hs & _).
  exists v. split; [exact Hv |]. split; [| exact Hs].
  assert (E : view_tun <$> view_of default_config = Some 167772161) by (vm_compute; reflexivity).
  rewrite Hv in E. simpl in E. congruence.
Defined.
