(* ===== verification/NetText.v ===== *)
(** * The text of addresses and networks

    [Display] and [FromStr] of [std::net] are inverse: every address the
    program prints, IPv6 with its shortened runs of zeros included, parses
    back to itself. With it the text of a network, as it is given to the
    system's tools and read from the configuration, names one network. *)

From Stdlib Require Import ZArith Lia.
From Stdlib Require Import Strings.Ascii Strings.String.
From stdpp Require Import base decidable list strings pretty.
From S2P Require Import Prelude StdNet Config.
#[local] Open Scope Z_scope.

(** ** Hexadecimal groups *)

(** A text at which a group of digits ends and no IPv4 address goes on. *)
Definition hex_end (t : string) : Prop :=
  match t with "" => True | String c _ => to_digit 16 c = None /\ c <> "."%char end.

Fixpoint all_hex (s : string) : Prop :=
  match s with "" => True | String c s => is_Some (to_digit 16 c) /\ all_hex s end.

Lemma string_one_app c t : String c "" +:+ t = String c t.
Proof. done. Qed.

Lemma string_cons_app c s t : String c s +:+ t = String c (s +:+ t).
Proof. done. Qed.

Lemma to_digit_hex d : 0 <= d < 16 -> to_digit 16 (hex_digit d) = Some d.
Proof.
  intros Hd. assert (H : Forall (fun d => to_digit 16 (hex_digit d) = Some d) (seqZ 0 16)).
  { refine (proj1 (bool_decide_eq_true _) _). by vm_compute. }
  rewrite Forall_forall in H. apply H, elem_of_seqZ. lia.
Qed.

Lemma hex_digit_ok z k : to_digit 16 (hex_digit ((z / 16 ^ k) mod 16)) = Some ((z / 16 ^ k) mod 16).
Proof. apply to_digit_hex, Z.mod_pos_bound. lia. Qed.

Lemma to_digit_10_16 c : to_digit 16 c = None -> to_digit 10 c = None.
Proof. unfold to_digit. intros H. repeat (case_match; try done); bool_to_prop; lia. Qed.

Lemma dot_not_hex : to_digit 16 "."%char = None.
Proof. done. Qed.

(** Reading digits stops before the text that follows them. *)
Lemma read_digits_end radix limit md acc k t :
  (forall c u, t = String c u -> to_digit radix c = None) -> read_digits radix limit md acc k t = Some (acc, k, t).
Proof. destruct t as [| c t]; [done |]. intros H. simpl. by rewrite (H c t). Qed.

Lemma hex_stop t : hex_end t -> forall c u, t = String c u -> to_digit 16 c = None.
Proof. intros H c u ->. apply H. Qed.

Definition hex_text (ds : list Z) : string := foldr (fun d s => String (hex_digit d) s) "" ds.
Definition hex_value (acc : Z) (ds : list Z) : Z := foldl (fun acc d => acc * 16 + d) acc ds.

Lemma show_hex16_digits z :
  uint 16 z ->
  exists ds, show_hex16 z = hex_text ds /\ (0 < length ds <= 4)%nat /\ Forall (fun d => 0 <= d < 16) ds /\
    hex_value 0 ds = z.
Proof.
  unfold uint. intros Hz. assert (Hd : forall k, 0 <= (z / 16 ^ k) mod 16 < 16) by (intros; apply Z.mod_pos_bound; lia).
  set (d k := (z / 16 ^ k) mod 16). unfold show_hex16. fold (d 0) (d 1) (d 2) (d 3).
  assert (H0 : d 0 = z mod 16) by (unfold d; change (16 ^ 0) with 1; by rewrite Z.div_1_r).
  assert (H1 : d 1 = (z / 16) mod 16) by done.
  assert (H2 : d 2 = (z / 16 / 16) mod 16) by (unfold d; by rewrite Z.div_div by lia).
  assert (H3 : d 3 = (z / 16 / 16 / 16) mod 16) by (unfold d; by rewrite !Z.div_div by lia).
  destruct (z <? 16) eqn:?; [exists [d 0] | destruct (z <? 256) eqn:?; [exists [d 1; d 0] |
    destruct (z <? 4096) eqn:?; [exists [d 2; d 1; d 0] | exists [d 3; d 2; d 1; d 0]]]]; bool_to_prop.
  all: split; [done |]; split; [simpl; lia |]; split; [repeat constructor; apply Hd |].
  all: unfold hex_value; simpl; rewrite ?H3, ?H2, ?H1, H0; Z.to_euclidean_division_equations; lia.
Qed.

Lemma read_digits_hex limit m acc k ds t :
  Forall (fun d => 0 <= d < 16) ds -> (k + length ds <= m)%nat ->
  read_digits 16 limit (Some m) acc k (hex_text ds +:+ t) =
  read_digits 16 limit (Some m) (hex_value acc ds) (k + length ds) t.
Proof.
  intros H. revert acc k. induction H as [| d ds Hd _ IH]; intros acc k Hk; simpl in *.
  { by rewrite Nat.add_0_r. }
  rewrite to_digit_hex by done. rewrite decide_False by lia.
  rewrite IH by lia. f_equal. lia.
Qed.

(** A printed group followed by anything but a digit reads back. *)
Lemma read_show_hex z t :
  uint 16 z -> hex_end t -> read_number 16 65535 (Some 4%nat) true (show_hex16 z +:+ t) = Some (z, t).
Proof.
  intros Hz Ht. destruct (show_hex16_digits z Hz) as (ds & -> & Hl & Hd & Hv). unfold read_number.
  rewrite read_digits_hex by (done || lia). rewrite read_digits_end by by apply hex_stop.
  rewrite decide_False by lia. cbn [negb andb]. rewrite Hv. unfold uint in Hz.
  by rewrite (proj2 (Z.ltb_ge _ _)) by lia.
Qed.

(** *** No IPv4 address begins there *)

Lemma all_hex_text ds : Forall (fun d => 0 <= d < 16) ds -> all_hex (hex_text ds).
Proof. induction 1 as [| d ds Hd _ IH]; [done |]. simpl. by rewrite to_digit_hex. Qed.

Lemma show_hex16_all z : uint 16 z -> all_hex (show_hex16 z) /\ show_hex16 z <> "".
Proof.
  intros Hz. destruct (show_hex16_digits z Hz) as (ds & -> & Hl & Hd & _). split; [by apply all_hex_text |].
  by destruct ds; simpl in Hl; [lia |].
Qed.

Definition no_dot_next (r : string) : Prop := forall u, r <> String "." u.

Lemma read_digits_no_dot limit md acc k s t v n r :
  all_hex s -> hex_end t -> read_digits 10 limit md acc k (s +:+ t) = Some (v, n, r) -> no_dot_next r.
Proof.
  intros Hs Ht. revert acc k. induction s as [| c s IH]; intros acc k H.
  - change ("" +:+ t) with t in H.
    rewrite read_digits_end in H by (intros; subst; by apply to_digit_10_16, Ht).
    simplify_eq. intros u ->. by destruct Ht.
  - rewrite string_cons_app in H. destruct Hs as [Hc Hs]. simpl in H.
    destruct (to_digit 10 c) eqn:?; [| simplify_eq; intros u [= -> _]; by apply is_Some_None in Hc].
    by destruct md; case_match; [done | eapply IH | done | eapply IH].
Qed.

Lemma read_ipv4_hex s t : all_hex s -> hex_end t -> read_ipv4_addr (s +:+ t) = None.
Proof.
  intros Hs Ht. unfold read_ipv4_addr. destruct (read_octet 0 (s +:+ t)) as [[a r] |] eqn:E; [| done].
  unfold read_octet, read_separator, read_number in E.
  destruct (read_digits _ _ _ _ _ _) as [[[v n] r'] |] eqn:E'; [| done].
  apply read_digits_no_dot in E'; [| done | done]. assert (r' = r) as -> by (repeat case_match; naive_solver).
  destruct r as [| c r]; [done |]. destruct (decide (c = "."%char)) as [-> | Hc]; [by destruct (E' r) |].
  unfold read_octet, read_separator, read_given_char. by rewrite decide_False.
Qed.

(** ** Sequences of groups *)

Definition seg_tail (l : list Z) : string := foldr (fun z s => ":" +:+ show_hex16 z +:+ s) "" l.

(** The text of groups where [i] have been read before them. *)
Definition seg_text (i : nat) (l : list Z) : string :=
  match i with O => fmt_subslice l | S _ => seg_tail l end.

Lemma concat_tail l : forall x, String.concat ":" (show_hex16 <$> x :: l) = show_hex16 x +:+ seg_tail l.
Proof.
  induction l as [| y l IH]; intros x; [simpl; by rewrite string_app_nil_r |].
  change (String.concat ":" (show_hex16 <$> x :: y :: l))
    with (show_hex16 x +:+ (":" +:+ String.concat ":" (show_hex16 <$> y :: l))).
  by rewrite IH.
Qed.

Lemma fmt_cons x l : fmt_subslice (x :: l) = show_hex16 x +:+ seg_tail l.
Proof. apply concat_tail. Qed.

Lemma hex_end_tail l t : hex_end t -> hex_end (seg_tail l +:+ t).
Proof. by destruct l. Qed.

(** No further group is read from [t] when [i] have been. *)
Definition stops (i : nat) (t : string) : Prop :=
  read_separator ":" i read_ipv4_addr t = None /\
  read_separator ":" i (read_number 16 65535 (Some 4%nat) true) t = None.

Lemma read_groups_text limit n i acc l t :
  Forall (uint 16) l -> hex_end t -> (length l <= n)%nat -> (length l = n \/ stops (i + length l) t) ->
  read_groups limit n i acc (seg_text i l +:+ t) = (acc ++ l, false, t).
Proof.
  intros Hl Ht. revert n i acc. induction Hl as [| x l Hx _ IH]; intros n i acc Hn Hstop.
  - assert (E : seg_text i [] +:+ t = t) by by destruct i. rewrite E, app_nil_r.
    destruct n as [| n]; [done |]. simpl. destruct Hstop as [Hs | [Hs1 Hs2]]; [done |].
    rewrite Nat.add_0_r in Hs1, Hs2. rewrite Hs1, Hs2. by destruct (decide (S i < limit)%nat).
  - destruct n as [| n]; simpl in Hn; [lia |].
    assert (E : forall A (p : parser A), read_separator ":" i p (seg_text i (x :: l) +:+ t) =
      p (show_hex16 x +:+ (seg_tail l +:+ t))).
    { intros A p. unfold read_separator, seg_text. destruct i.
      - by rewrite fmt_cons, <- string_app_assoc.
      - simpl. by rewrite <- !string_app_assoc. }
    cbn [read_groups]. rewrite !E. rewrite read_ipv4_hex by (apply show_hex16_all || apply hex_end_tail; done).
    rewrite read_show_hex by (done || by apply hex_end_tail).
    replace (if decide (S i < limit)%nat then None else None : option (Z * string)) with (None : option (Z * string))
      by (by case_decide).
    change (seg_tail l) with (seg_text (S i) l). rewrite (IH n (S i) (acc ++ [x])); [by rewrite <- app_assoc | lia |].
    destruct Hstop as [Hs | Hs]; [left; simpl in Hs; lia | right].
    by replace (S i + length l)%nat with (i + length (x :: l))%nat by (simpl; lia).
Qed.

(** ** Runs of zeros *)

(** [(start, len)] is a run of zeros of [l]. *)
Definition zero_run (l : list Z) (span : nat * nat) : Prop :=
  (span.1 + span.2 <= length l)%nat /\ take span.2 (drop span.1 l) = replicate span.2 0.

Lemma zero_run_app l k span : zero_run l span -> zero_run (l ++ k) span.
Proof.
  intros [Hl Hr]. split; [rewrite length_app; lia |]. rewrite drop_app_le by lia.
  rewrite take_app_le by (rewrite length_drop; lia). done.
Qed.

(** A run that ends at the end of the list goes on with a zero. *)
Lemma zero_run_snoc l start len :
  zero_run l (start, len) -> (start + len)%nat = length l -> zero_run (l ++ [0]) (start, S len).
Proof.
  intros [Hl Hr] He. unfold zero_run in *. cbn [fst snd] in *. rewrite length_app. simpl. split; [lia |].
  rewrite drop_app_le by lia. rewrite take_ge in Hr by (rewrite length_drop; lia). rewrite Hr.
  rewrite take_ge by (rewrite length_app, length_replicate; simpl; lia).
  change [0] with (replicate 1 0). rewrite <- replicate_add. by rewrite Nat.add_1_r.
Qed.

Lemma zero_span_run pre l cur best :
  zero_run pre best -> (cur.2 = 0%nat \/ zero_run pre cur /\ (cur.1 + cur.2)%nat = length pre) ->
  zero_run (pre ++ l) (zero_span (length pre) cur best l).
Proof.
  revert pre cur best. induction l as [| x l IH]; intros pre cur best Hb Hc; [by rewrite app_nil_r |].
  cbn [zero_span]. rewrite cons_middle, app_assoc.
  assert (Hlen : S (length pre) = length (pre ++ [x])) by (rewrite length_app; simpl; lia). rewrite Hlen.
  destruct (x =? 0) eqn:Hx; [| apply IH; [by apply zero_run_app | by left]].
  apply Z.eqb_eq in Hx as ->.
  set (cur' := if decide (cur.2 = 0%nat) then (length pre, 1%nat) else (cur.1, S cur.2)).
  assert (Hcur : zero_run (pre ++ [0]) cur' /\ (cur'.1 + cur'.2)%nat = length (pre ++ [0])).
  { rewrite <- Hlen. subst cur'. case_decide as H0; cbn [fst snd].
    - split; [| lia]. apply (zero_run_snoc pre (length pre) 0); [| lia]. split; [simpl; lia | done].
    - destruct Hc as [Hc | [Hc He]]; [done |]. split; [| lia]. apply zero_run_snoc; [by destruct cur | done]. }
  apply IH; [| by right]. case_decide; [apply Hcur | by apply zero_run_app].
Qed.

Lemma zero_span_zero_run l : zero_run l (zero_span 0 (0, 0)%nat (0, 0)%nat l).
Proof. apply (zero_span_run [] l); [split; [simpl; lia | done] | by left]. Qed.

(** A list is what is before a run of zeros, the zeros, and what is after. *)
Lemma zero_run_split l start len :
  zero_run l (start, len) -> l = take start l ++ replicate len 0 ++ drop (start + len) l.
Proof.
  intros [Hl Hr]. cbn [fst snd] in *. rewrite <- Hr, <- drop_drop, take_drop. by rewrite take_drop.
Qed.

(** ** Segments *)

Lemma segments_wf a : Forall (uint 16) (segments a).
Proof. unfold segments. rewrite Forall_fmap. apply Forall_forall. intros k _. apply Z.mod_pos_bound. lia. Qed.

Lemma length_segments a : length (segments a) = 8%nat.
Proof. done. Qed.

Lemma segments_step a k : 0 <= k -> a / 65536 ^ (k + 1) * 65536 + (a / 65536 ^ k) mod 65536 = a / 65536 ^ k.
Proof.
  intros Hk. rewrite Z.pow_add_r, <- Z.div_div by lia. change (65536 ^ 1) with 65536.
  pose proof (Z.div_mod (a / 65536 ^ k) 65536). lia.
Qed.

Lemma of_segments_segments a : uint 128 a -> of_segments (segments a) = a.
Proof.
  intros Ha. unfold of_segments, segments. cbn [fmap list_fmap foldl].
  assert (H7 : (a / 65536 ^ 7) mod 65536 = a / 65536 ^ 7).
  { unfold uint in Ha. apply Z.mod_small. split; [apply Z.div_pos; lia | apply Z.div_lt_upper_bound; lia]. }
  rewrite H7, Z.add_0_l. change 7 with (6 + 1) at 1. rewrite segments_step by lia.
  change 6 with (5 + 1) at 1. rewrite segments_step by lia. change 5 with (4 + 1) at 1. rewrite segments_step by lia.
  change 4 with (3 + 1) at 1. rewrite segments_step by lia. change 3 with (2 + 1) at 1. rewrite segments_step by lia.
  change 2 with (1 + 1) at 1. rewrite segments_step by lia. change 1 with (0 + 1) at 1. rewrite segments_step by lia.
  change (65536 ^ 0) with 1. apply Z.div_1_r.
Qed.

(** ** IPv6 addresses *)

(** A text at which an address ends. *)
Definition addr_end (t : string) : Prop :=
  match t with "" => True | String c _ => to_digit 16 c = None /\ c <> "."%char /\ c <> ":"%char end.

Lemma addr_end_hex t : addr_end t -> hex_end t.
Proof. destruct t as [| c t]; [done |]. intros (? & ? & ?). done. Qed.

Lemma addr_end_digit t : addr_end t -> non_digit t.
Proof. destruct t as [| c t]; [done |]. intros (? & ? & ?). by apply to_digit_10_16. Qed.

Lemma stops_colons i t : stops i (String ":" (String ":" t)).
Proof. split; by destruct i. Qed.

Lemma stops_end i t : addr_end t -> stops i t.
Proof.
  intros Ht. destruct t as [| c t]; [split; by destruct i |]. destruct Ht as (Hc & Hdot & Hcol). split; destruct i.
  - exact (read_ipv4_hex "" (String c t) I (conj Hc Hdot)).
  - unfold read_separator, read_given_char. by rewrite decide_False.
  - unfold read_separator, read_number. rewrite read_digits_end by naive_solver. done.
  - unfold read_separator, read_given_char. by rewrite decide_False.
Qed.

Lemma read_char c t : read_given_char c (String c t) = Some (tt, t).
Proof. unfold read_given_char. by rewrite decide_True. Qed.

(** The two halves around [::]. *)
Lemma read_halves hd tl t :
  Forall (uint 16) hd -> Forall (uint 16) tl -> (length hd + length tl < 8)%nat -> addr_end t ->
  read_ipv6_addr (fmt_subslice hd +:+ "::" +:+ fmt_subslice tl +:+ t) =
  Some (of_segments (hd ++ replicate (8 - length hd - length tl) 0 ++ tl), t).
Proof.
  intros Hh Hl Hlen Ht. unfold read_ipv6_addr. change (fmt_subslice hd) with (seg_text 0 hd).
  rewrite read_groups_text; [| done | done | lia | right; apply stops_colons].
  cbn [app]. rewrite decide_False by lia.
  change ("::" +:+ fmt_subslice tl +:+ t) with (String ":" (String ":" (fmt_subslice tl +:+ t))). rewrite read_char.
  cbv beta iota zeta. rewrite read_char. cbv beta iota zeta. change (fmt_subslice tl) with (seg_text 0 tl).
  rewrite read_groups_text; [done | done | by apply addr_end_hex | lia | right; by apply stops_end].
Qed.

Lemma read_full l t :
  Forall (uint 16) l -> length l = 8%nat -> addr_end t ->
  read_ipv6_addr (fmt_subslice l +:+ t) = Some (of_segments l, t).
Proof.
  intros Hl Hlen Ht. unfold read_ipv6_addr. change (fmt_subslice l) with (seg_text 0 l).
  rewrite read_groups_text; [| done | by apply addr_end_hex | lia | by left]. cbn [app]. by rewrite decide_True.
Qed.

(** An IPv4-mapped address. *)
Lemma read_mapped v t :
  uint 32 v -> addr_end t -> read_ipv6_addr ("::ffff:" +:+ show_v4 v +:+ t) = Some (65535 * 2 ^ 32 + v, t).
Proof.
  intros Hv Ht. unfold read_ipv6_addr.
  assert (E : read_groups 8 8 0 [] ("::ffff:" +:+ show_v4 v +:+ t) = ([] ++ [], false, "::ffff:" +:+ show_v4 v +:+ t)).
  { apply (read_groups_text 8 8 0 [] []); [done | done | simpl; lia | right; apply stops_colons]. }
  rewrite E. change ("::ffff:" +:+ show_v4 v +:+ t) with (String ":" (String ":" ("ffff:" +:+ show_v4 v +:+ t))).
  rewrite decide_False by (simpl; lia). rewrite read_char. cbv beta iota zeta. rewrite read_char. cbv beta iota zeta.
  change ("ffff:" +:+ show_v4 v +:+ t) with (show_hex16 65535 +:+ String ":" (show_v4 v +:+ t)).
  change (8 - (length (@nil Z ++ []) + 1))%nat with 7%nat. cbn [read_groups].
  rewrite decide_True by lia. unfold read_separator at 1 2. rewrite read_ipv4_hex by (done || apply show_hex16_all; done).
  rewrite read_show_hex by done. cbv beta iota zeta. rewrite decide_True by lia. unfold read_separator at 1. rewrite read_char.
  cbv beta iota zeta. rewrite read_show_v4 by (done || by apply addr_end_digit).
  do 2 f_equal. unfold of_segments. cbn [app length Nat.sub replicate foldl]. unfold uint in Hv.
  pose proof (Z.div_mod v 65536). lia.
Qed.

Lemma read_show_v6 a t : uint 128 a -> addr_end t -> read_ipv6_addr (show_v6 a +:+ t) = Some (a, t).
Proof.
  intros Ha Ht. unfold show_v6. destruct (a / 2 ^ 32 =? 65535) eqn:Hm.
  - apply Z.eqb_eq in Hm. rewrite <- string_app_assoc, read_mapped by (done || apply uint_mod; lia).
    pose proof (Z.div_mod a (2 ^ 32)). do 2 f_equal. lia.
  - pose proof (zero_span_zero_run (segments a)) as Hz. destruct (zero_span 0 _ _ (segments a)) as [start len].
    pose proof (segments_wf a) as Hwf. case_decide as Hlen.
    + pose proof (zero_run_split _ _ _ Hz) as Hsplit. destruct Hz as [Hle _]. cbn [fst snd] in Hle.
      rewrite length_segments in Hle. rewrite <- !string_app_assoc.
      assert (Hl1 : length (take start (segments a)) = start) by (rewrite length_take, length_segments; lia).
      assert (Hl2 : length (drop (start + len) (segments a)) = (8 - (start + len))%nat) by by rewrite length_drop.
      rewrite read_halves by (done || lia || by (apply Forall_take || apply Forall_drop)).
      rewrite Hl1, Hl2. replace (8 - start - (8 - (start + len)))%nat with len by lia.
      rewrite <- Hsplit. by rewrite of_segments_segments.
    + rewrite read_full by done. by rewrite of_segments_segments.
Qed.

(** No IPv4 address is read from the text of an IPv6 one. *)
Lemma read_ipv4_groups x l t : uint 16 x -> hex_end t -> read_ipv4_addr (fmt_subslice (x :: l) +:+ t) = None.
Proof.
  intros Hx Ht. rewrite fmt_cons, <- string_app_assoc. apply read_ipv4_hex; [by apply show_hex16_all | by apply hex_end_tail].
Qed.

Lemma read_ipv4_show_v6 a t : hex_end t -> read_ipv4_addr (show_v6 a +:+ t) = None.
Proof.
  intros Ht. unfold show_v6. case_match; [done |]. pose proof (segments_wf a) as Hwf.
  destruct (zero_span 0 _ _ (segments a)) as [start len]. case_decide.
  - rewrite <- !string_app_assoc. destruct (take start (segments a)) as [| x l] eqn:E; [done |].
    apply read_ipv4_groups; [| done]. apply (Forall_take _ start) in Hwf. rewrite E in Hwf. by apply Forall_cons in Hwf as [? _].
  - destruct (segments a) as [| x l] eqn:E; [done |]. apply Forall_cons in Hwf as [? _]. by apply read_ipv4_groups.
Qed.

Lemma read_show_ip i t : ip_wf i -> addr_end t -> read_ip_addr (show_ip i +:+ t) = Some (i, t).
Proof.
  intros Hi Ht. unfold read_ip_addr. destruct i as [a | a]; cbn [show_ip].
  - by rewrite read_show_v4 by (done || by apply addr_end_digit).
  - rewrite read_ipv4_show_v6 by by apply addr_end_hex. by rewrite read_show_v6.
Qed.

Lemma parse_show_ip i : ip_wf i -> parse_ip (show_ip i) = Some i.
Proof. intros Hi. unfold parse_ip, parse_with. rewrite <- (string_app_nil_r (show_ip i)). by rewrite read_show_ip. Qed.

(** ** Ports and socket addresses *)

Lemma pretty_go_app n t u : pretty_N_go n t +:+ u = pretty_N_go n (t +:+ u).
Proof.
  revert t. induction (N.lt_wf_0 n) as [n _ IH]. intros t.
  destruct (N.eq_0_gt_0_cases n) as [-> | Hn]; [done |].
  rewrite !(pretty_N_go_step n) by done. by rewrite IH by by apply N.div_lt.
Qed.

Lemma read_digits_dec limit n k t :
  Z.of_N n <= limit ->
  exists m, ((0 < n)%N -> (0 < m)%nat) /\
    read_digits 10 limit None 0 k (pretty_N_go n t) = read_digits 10 limit None (Z.of_N n) (k + m) t.
Proof.
  revert t. induction (N.lt_wf_0 n) as [n _ IH]. intros t Hn.
  destruct (N.eq_0_gt_0_cases n) as [-> | Hp]; [exists 0%nat; by rewrite Nat.add_0_r |].
  rewrite pretty_N_go_step by done.
  assert (Hlt : (n `div` 10 < n)%N) by by apply N.div_lt.
  destruct (IH (n `div` 10)%N Hlt (String (pretty_N_char (n `mod` 10)) t) ltac:(lia)) as (m & _ & Hr).
  exists (S m). split; [lia |]. rewrite Hr. simpl. rewrite to_digit_char by (apply N.mod_lt; lia).
  rewrite N_div10. rewrite (proj2 (Z.ltb_ge _ _)) by lia. f_equal. lia.
Qed.

Lemma read_show_dec limit z t :
  0 <= z <= limit -> non_digit t -> read_number 10 limit None true (show_dec z +:+ t) = Some (z, t).
Proof.
  intros Hz Ht. unfold read_number, show_dec, pretty, pretty_N. case_decide as H0.
  - assert (z = 0) as -> by lia. change ("0" +:+ t) with (String "0" t). cbn [read_digits].
    change (to_digit 10 "0"%char) with (Some 0). cbv beta iota zeta. rewrite (proj2 (Z.ltb_ge _ _)) by lia.
    rewrite read_digits_stop by done. cbn [negb andb]. rewrite decide_False by lia.
    by rewrite (proj2 (Z.ltb_ge _ _)) by lia.
  - rewrite pretty_go_app, string_app_nil_l.
    destruct (read_digits_dec limit (Z.to_N z) 0 t ltac:(lia)) as (m & Hm & ->).
    rewrite Z2N.id by lia. rewrite read_digits_stop by done. rewrite decide_False by lia. cbn [negb andb].
    by rewrite (proj2 (Z.ltb_ge _ _)) by lia.
Qed.

Lemma read_show_port p : uint 16 p -> read_port (String ":" (show_dec p)) = Some (p, "").
Proof.
  intros Hp. unfold read_port. rewrite read_char. cbv beta iota. rewrite <- (string_app_nil_r (show_dec p)).
  apply read_show_dec; [unfold uint in Hp; lia | done].
Qed.

Lemma parse_show_sockaddr s :
  sockaddr_wf s -> (is_ipv4 (sa_ip s) = true -> sa_scope_id s = 0) -> parse_sockaddr (show_sockaddr s) = Some s.
Proof.
  destruct s as [i p scope]. intros (Hi & Hp & Hs) H4. cbn [sa_ip sa_port sa_scope_id] in *.
  unfold parse_sockaddr, parse_with, read_socket_addr, read_socket_addr_v4, show_sockaddr. cbn [sa_ip sa_port sa_scope_id].
  destruct i as [a | a]; cbn [is_ipv4] in H4.
  - rewrite H4 by done. change (":" +:+ show_dec p) with (String ":" (show_dec p)).
    rewrite read_show_v4 by done. by rewrite read_show_port.
  - change (read_ipv4_addr ("[" +:+ _)) with (@None (Z * string)). cbv beta iota zeta.
    unfold read_socket_addr_v6. rewrite (string_one_app "["), read_char. cbv beta iota.
    change ("]:" +:+ show_dec p) with (String "]" (String ":" (show_dec p))).
    rewrite read_show_v6; [cbv beta iota zeta | done | by case_match].
    destruct (scope =? 0) eqn:E; [apply Z.eqb_eq in E as -> |].
    + change ("" +:+ String "]" (String ":" (show_dec p))) with (String "]" (String ":" (show_dec p))).
      change (read_scope_id (String "]" (String ":" (show_dec p)))) with (@None (Z * string)).
      cbn [from_option id]. cbv beta iota zeta. rewrite read_char. cbv beta iota. by rewrite read_show_port.
    + assert (Hr : read_scope_id (("%" +:+ show_dec scope) +:+ String "]" (String ":" (show_dec p))) =
        Some (scope, String "]" (String ":" (show_dec p)))).
      { unfold read_scope_id. rewrite <- string_app_assoc, (string_one_app "%"), read_char. cbv beta iota.
        apply read_show_dec; [unfold uint, umax in *; lia | done]. }
      rewrite Hr. cbn [from_option id]. cbv beta iota zeta. rewrite read_char. cbv beta iota. by rewrite read_show_port.
Qed.

(** ** Networks *)

(** [format!("{dst}/{prefix}")] *)
Definition show_net (dst : IpAddr) (prefix : Z) : string := show_ip dst +:+ "/" +:+ show_dec prefix.

Definition net_wf (net : IpAddr * Z) : Prop :=
  ip_wf net.1 /\ 0 <= net.2 <= (if is_ipv4 net.1 then 32 else 128).

#[global] Instance net_wf_dec net : Decision (net_wf net).
Proof. unfold net_wf. apply _. Defined.

(** The halves of the two address spaces. *)
Definition halves : list (IpAddr * Z) := [(V4 0, 1); (V4 (2 ^ 31), 1); (V6 0, 1); (V6 (2 ^ 127), 1)].

(** *** No slash in an address *)

Fixpoint no_slash (s : string) : Prop :=
  match s with "" => True | String c s => c <> "/"%char /\ no_slash s end.

Lemma no_slash_app s t : no_slash s -> no_slash t -> no_slash (s +:+ t).
Proof. induction s as [| c s IH]; [done |]. intros [Hc Hs] Ht. rewrite string_cons_app. split; auto. Qed.

Lemma no_slash_hex s : all_hex s -> no_slash s.
Proof. induction s as [| c s IH]; [done |]. intros [[d Hc] Hs]. split; [| auto]. by intros ->. Qed.

Lemma no_slash_dec z : no_slash (show_dec z).
Proof.
  unfold show_dec, pretty, pretty_N. case_decide; [by split |].
  assert (H' : forall n t, no_slash t -> no_slash (pretty_N_go n t)); [| by apply H'].
  intros n. induction (N.lt_wf_0 n) as [n _ IH]. intros t Ht.
  destruct (N.eq_0_gt_0_cases n) as [-> | Hn]; [done |]. rewrite pretty_N_go_step by done.
  apply IH; [by apply N.div_lt |]. split; [| done]. intros E.
  pose proof (to_digit_char (n `mod` 10)%N ltac:(apply N.mod_lt; lia)) as Hd. by rewrite E in Hd.
Qed.

Lemma no_slash_v4 a : no_slash (show_v4 a).
Proof. unfold show_v4. repeat (apply no_slash_app; [apply no_slash_dec || by split |]). apply no_slash_dec. Qed.

Lemma no_slash_group x : uint 16 x -> no_slash (show_hex16 x).
Proof. intros Hx. by apply no_slash_hex, show_hex16_all. Qed.

Lemma no_slash_tail l : Forall (uint 16) l -> no_slash (seg_tail l).
Proof.
  induction 1 as [| x l Hx _ IH]; [done |].
  change (seg_tail (x :: l)) with (":" +:+ show_hex16 x +:+ seg_tail l).
  apply no_slash_app; [by split |]. apply no_slash_app; [by apply no_slash_group | done].
Qed.

Lemma no_slash_groups l : Forall (uint 16) l -> no_slash (fmt_subslice l).
Proof.
  destruct 1 as [| x l Hx Hl]; [done |]. rewrite fmt_cons.
  apply no_slash_app; [by apply no_slash_group | by apply no_slash_tail].
Qed.

Lemma no_slash_ip i : no_slash (show_ip i).
Proof.
  destruct i as [a | a]; cbn [show_ip]; [apply no_slash_v4 |]. unfold show_v6. case_match.
  - apply no_slash_app; [by repeat split | apply no_slash_v4].
  - pose proof (segments_wf a) as Hwf. destruct (zero_span 0 _ _ (segments a)) as [start len]. case_decide.
    + apply no_slash_app; [by apply no_slash_groups, Forall_take |]. apply no_slash_app; [by repeat split |].
      by apply no_slash_groups, Forall_drop.
    + by apply no_slash_groups.
Qed.

Lemma split_once_slash s t : no_slash s -> split_once "/" (s +:+ String "/" t) = Some (s, t).
Proof.
  induction s as [| c s IH]; intros H; [done |]. destruct H as [Hc Hs]. rewrite string_cons_app. cbn [split_once].
  rewrite decide_False by done. by rewrite IH.
Qed.

(** The text of a network parses back to it. *)
Lemma parse_show_net dst prefix : net_wf (dst, prefix) -> parse_cidr (show_net dst prefix) = Ok (dst, prefix).
Proof.
  intros [Hd Hp]. cbn [fst snd] in *. unfold parse_cidr, show_net.
  change ("/" +:+ show_dec prefix) with (String "/" (show_dec prefix)).
  rewrite split_once_slash by apply no_slash_ip. cbn. rewrite parse_show_ip by done. cbn.
  rewrite parse_show_dec by (unfold uint; destruct (is_ipv4 dst); lia). cbn.
  by rewrite (proj2 (Z.ltb_ge _ _)) by lia.
Qed.

(** ** Properties *)

(** C39. Printing and parsing are inverse on everything the program prints
    and reads back: the text of a network, as it is logged and given to
    [route] and [netsh], parses as a bypass network to the same address and
    prefix, for IPv4 and for IPv6 in its shortened form; so does the text of
    a socket address with its scope; and so the text of a network names one
    network only. *)
Theorem net_text_roundtrip :
  (forall dst prefix, net_wf (dst, prefix) -> parse_cidr (show_net dst prefix) = Ok (dst, prefix)) /\
  (forall s, sockaddr_wf s -> (is_ipv4 (sa_ip s) = true -> sa_scope_id s = 0) ->
     parse_sockaddr (show_sockaddr s) = Some s) /\
  (forall d p d' p', net_wf (d, p) -> net_wf (d', p') -> show_net d p = show_net d' p' -> (d, p) = (d', p')).
Proof.
  split_and!.
  - exact parse_show_net.
  - exact parse_show_sockaddr.
  - intros d p d' p' H H' E. apply parse_show_net in H. rewrite E, parse_show_net in H by done. by simplify_eq.
Qed.

(** ** Examples *)

Example shown_net : show_net (V6 (0x20010db8 * 2 ^ 96)) 32 = "2001:db8::/32".
Proof. vm_compute. reflexivity. Qed.

Example shown_mapped : show_net (V6 (65535 * 2 ^ 32 + 2130706433)) 128 = "::ffff:127.0.0.1/128".
Proof. vm_compute. reflexivity. Qed.

Lemma net_text_roundtrip_witness :
  parse_cidr "2001:db8::/32" = Ok (V6 (0x20010db8 * 2 ^ 96), 32) /\
  parse_sockaddr "[fe80::1%4]:1080" = Some (mkSocketAddr (V6 (0xfe80 * 2 ^ 112 + 1)) 1080 4).
Proof.
  destruct net_text_roundtrip as (H1 & H2 & _). split.
  - exact (H1 (V6 (0x20010db8 * 2 ^ 96)) 32 ltac:(vm_compute; intuition congruence)).
  - exact (H2 (mkSocketAddr (V6 (0xfe80 * 2 ^ 112 + 1)) 1080 4) ltac:(vm_compute; intuition congruence) ltac:(discriminate)).
Defined.
