(* ===== verification/Socks.v ===== *)
(** * The SOCKS5 client ([src/socks.rs])

    The UDP encapsulation of RFC 1928 as functions on bytes, and the
    handshake of UDP ASSOCIATE as programs over a byte stream. What the peer
    sends is the stream's input; a read past its end either meets the end of
    the stream or waits for ever, which only an enclosing [timeout] ends. *)

From Stdlib Require Import ZArith Lia.
From Stdlib Require Import Strings.Byte Strings.Ascii Strings.String.
From stdpp Require Import base decidable option list strings pretty gmap.
From S2P Require Import Prelude StdNet Config.
#[local] Open Scope Z_scope.

(** ** UDP encapsulation *)

(** [out] is cleared first: its old contents do not survive. *)
Definition encode_udp (target : SocketAddr) (payload : list byte) (out : list byte) : list byte :=
  let out := [] in
  let out := out ++ [x00] in
  let out := out ++ [x00] in
  let out := out ++ [x00] in
  let out := match sa_ip target with
             | V4 v4 => (out ++ [x01]) ++ be_bytes 4 v4
             | V6 v6 => (out ++ [x04]) ++ be_bytes 16 v6
             end in
  let out := out ++ be_bytes 2 (sa_port target) in
  out ++ payload.

(** The outer [option] is the panic of an index or a slice out of range, the
    inner one the function's own [Option]. *)
Definition decode_udp (buf : list byte) : option (option (SocketAddr * list byte)) :=
  if decide (length buf < 4)%nat then Some None
  else
    b2 ← buf !! 2%nat;
    if decide (b2 ≠ x00) then Some None
    else
      b3 ← buf !! 3%nat;
      r ← (if decide (b3 = x01) then
             if decide (length buf < 10)%nat then Some None
             else
               b4 ← buf !! 4%nat; b5 ← buf !! 5%nat; b6 ← buf !! 6%nat; b7 ← buf !! 7%nat;
               rest ← slice_from 8 buf;
               Some (Some (V4 (of_be_bytes [b4; b5; b6; b7]), rest))
           else if decide (b3 = x04) then
             if decide (length buf < 22)%nat then Some None
             else
               octets ← slice 4 20 buf;
               rest ← slice_from 20 buf;
               Some (Some (V6 (of_be_bytes octets), rest))
           else Some None);
      match r with
      | None => Some None
      | Some (ip, rest) =>
          if decide (length rest < 2)%nat then Some None
          else
            r0 ← rest !! 0%nat; r1 ← rest !! 1%nat;
            data ← slice_from 2 rest;
            Some (Some (SocketAddr_new ip (of_be_bytes [r0; r1]), data))
      end.

(** ** Byte streams *)

Inductive rx_end : Type := Eof | Stall.

(** How a [write_all] goes: all of it is taken, it fails after some bytes, or
    the peer takes no more than some bytes and it waits for ever. *)
Inductive WriteOutcome : Type :=
| Written
| Broken (n : nat) (e : string)
| Blocked (n : nat).

(** [rx] is what the peer will have sent, [rx_tail] what follows it, [tx] what
    was written so far and [wr] the outcome of the coming [write_all] calls
    (all succeed once it is empty). *)
Record Stream : Type := mkStream {
  rx : list byte;
  rx_tail : rx_end;
  tx : list byte;
  wr : list WriteOutcome;
}.

Inductive Outcome (A : Type) : Type :=
| Done (a : A)
| Fail (e : Error)
| Hang.
Arguments Done {A} a.
Arguments Fail {A} e.
Arguments Hang {A}.

Definition M (A : Type) : Type := Stream -> Outcome A * Stream.

Definition mret {A} (a : A) : M A := fun s => (Done a, s).
Definition mfail {A} (e : Error) : M A := fun s => (Fail e, s).
Definition mbail {A} (m : string) : M A := mfail [m].
Definition mbindM {A B} (m : M A) (k : A -> M B) : M B := fun s =>
  match m s with
  | (Done a, s') => k a s'
  | (Fail e, s') => (Fail e, s')
  | (Hang, s') => (Hang, s')
  end.
Definition mcontext {A} (msg : string) (m : M A) : M A := fun s =>
  match m s with (Fail e, s') => (Fail (msg :: e), s') | r => r end.

(** A [?] on a [Result] computed without touching the stream. *)
Definition lift {A} (r : result A) : M A := fun s =>
  match r with Ok a => (Done a, s) | Err e => (Fail e, s) end.

Declare Scope io_scope.
Delimit Scope io_scope with io.
Notation "'await' x ':=' m 'in' k" := (mbindM m (fun x => k))
  (at level 200, x pattern, m at level 200, k at level 200) : io_scope.
#[local] Open Scope io_scope.

Definition read_exact (n : nat) : M (list byte) := fun s =>
  if decide (n <= length (rx s))%nat
  then (Done (take n (rx s)), mkStream (drop n (rx s)) (rx_tail s) (tx s) (wr s))
  else match rx_tail s with
       | Eof => (Fail ["early eof"], mkStream [] Eof (tx s) (wr s))
       | Stall => (Hang, mkStream [] Stall (tx s) (wr s))
       end.

Definition write_all (bytes : list byte) : M unit := fun s =>
  match wr s with
  | Broken n e :: w => (Fail [e], mkStream (rx s) (rx_tail s) (tx s ++ take n bytes) w)
  | Blocked n :: w => (Hang, mkStream (rx s) (rx_tail s) (tx s ++ take n bytes) w)
  | Written :: w => (Done tt, mkStream (rx s) (rx_tail s) (tx s ++ bytes) w)
  | [] => (Done tt, mkStream (rx s) (rx_tail s) (tx s ++ bytes) [])
  end.

(** [timeout(d, fut).await.context(msg)??]: a future that never completes is
    cut off after [d]. *)
Definition with_timeout {A} (msg : string) (m : M A) : M A := fun s =>
  match m s with
  | (Hang, s') => (Fail [msg; "deadline has elapsed"], s')
  | r => r
  end.

(** ** The handshake *)

Definition show_byte (b : byte) : string := show_dec (Z_of_byte b).

Definition auth_offer (proxy : ProxyConfig) : list byte :=
  match pc_username proxy with
  | Some _ => [x05; x02; x00; x02]
  | None => [x05; x01; x00]
  end.

Definition credentials_frame (user pass : string) : list byte :=
  let buf := [x01] in
  let buf := buf ++ [byte_of_Z (str_len user)] in
  let buf := buf ++ as_bytes user in
  let buf := buf ++ [byte_of_Z (str_len pass)] in
  buf ++ as_bytes pass.

Definition negotiate_auth (proxy : ProxyConfig) : M unit :=
  await _ := mcontext "failed to send SOCKS5 method selection" (write_all (auth_offer proxy)) in
  await resp := mcontext "failed to read SOCKS5 method selection reply" (read_exact 2) in
  let resp0 := default x00 (resp !! 0%nat) in
  let resp1 := default x00 (resp !! 1%nat) in
  if decide (resp0 ≠ x05)
  then mbail ("invalid SOCKS5 version in method reply: " +:+ show_byte resp0)
  else if decide (resp1 = x00) then mret tt
  else if decide (resp1 = x02) then
    await user := lift (opt_context "proxy requires username/password authentication"
                          (pc_username proxy)) in
    await pass := lift (opt_context "proxy requires username/password authentication"
                          (pc_password proxy)) in
    await _ := mcontext "failed to send SOCKS5 credentials"
                 (write_all (credentials_frame user pass)) in
    await auth_resp := mcontext "failed to read SOCKS5 auth reply" (read_exact 2) in
    if decide (default x00 (auth_resp !! 1%nat) ≠ x00)
    then mbail "SOCKS5 authentication rejected by proxy"
    else mret tt
  else if decide (resp1 = xff)
  then mbail "SOCKS5 proxy offered no acceptable authentication method"
  else mbail ("SOCKS5 proxy selected unsupported auth method " +:+ show_byte resp1).

(** The [match head[3]] of [read_bind_address]. *)
Definition read_bind_ip (atyp : byte) : M IpAddr :=
  if decide (atyp = x01) then
    await octets := mcontext "failed to read SOCKS5 IPv4 bind address" (read_exact 4) in
    mret (V4 (of_be_bytes octets))
  else if decide (atyp = x04) then
    await octets := mcontext "failed to read SOCKS5 IPv6 bind address" (read_exact 16) in
    mret (V6 (of_be_bytes octets))
  else if decide (atyp = x03) then
    await len := mcontext "failed to read SOCKS5 domain length" (read_exact 1) in
    await _ := mcontext "failed to read SOCKS5 domain bind address"
                 (read_exact (Z.to_nat (Z_of_byte (default x00 (len !! 0%nat))))) in
    mbail "SOCKS5 proxy returned a domain bind address which is not supported for UDP"
  else mbail ("SOCKS5 reply used unsupported address type " +:+ show_byte atyp).

Definition read_bind_address : M SocketAddr :=
  await head := mcontext "failed to read SOCKS5 reply header" (read_exact 4) in
  let head0 := default x00 (head !! 0%nat) in
  let head1 := default x00 (head !! 1%nat) in
  let head3 := default x00 (head !! 3%nat) in
  if decide (head0 ≠ x05)
  then mbail ("invalid SOCKS5 version in reply: " +:+ show_byte head0)
  else if decide (head1 ≠ x00)
  then mbail ("SOCKS5 request failed with reply code " +:+ show_byte head1)
  else
    await ip := read_bind_ip head3 in
    await port := mcontext "failed to read SOCKS5 bind port" (read_exact 2) in
    mret (SocketAddr_new ip (of_be_bytes port)).

Definition normalize_relay (reply proxy : SocketAddr) : SocketAddr :=
  let unspecified := match sa_ip reply with
                     | V4 v4 => is_unspecified (V4 v4)
                     | V6 v6 => is_unspecified (V6 v6)
                     end in
  if unspecified then SocketAddr_new (sa_ip proxy) (sa_port reply) else reply.

(** [TcpStream::connect] is the runtime's: what it does for an address is a
    parameter. *)
Inductive connect_result : Type :=
| Connected (s : Stream)
| Refused (e : string)
| NoAnswer.

Definition associate_request : list byte := [x05; x03; x00; x01; x00; x00; x00; x00; x00; x00].

(** The exchange on the control connection once it is open. *)
Definition associate_on (proxy : ProxyConfig) : M SocketAddr :=
  await _ := with_timeout "SOCKS5 UDP associate handshake timed out" (negotiate_auth proxy) in
  await _ := mcontext "failed to send SOCKS5 UDP associate request" (write_all associate_request) in
  await reply := with_timeout "SOCKS5 UDP associate reply timed out" read_bind_address in
  mret (normalize_relay reply (pc_addr proxy)).

Definition udp_associate (connect : SocketAddr -> connect_result) (proxy : ProxyConfig)
    : Outcome (Stream * SocketAddr) :=
  match connect (pc_addr proxy) with
  | NoAnswer => Fail ["timed out connecting to SOCKS5 proxy for UDP associate"; "deadline has elapsed"]
  | Refused e => Fail ["failed to connect to SOCKS5 proxy for UDP associate"; e]
  | Connected control =>
      match associate_on proxy control with
      | (Done relay, control') => Done (control', relay)
      | (Fail e, _) => Fail e
      | (Hang, _) => Hang
      end
  end.

(** [tcp_connect]: the CONNECT handshake itself is [tokio_socks]'s, a
    parameter that is given the credentials the code selects. *)
Definition tcp_connect (socks5 : SocketAddr -> SocketAddr -> option (string * string) -> connect_result)
    (set_nodelay : Stream -> Result string unit) (proxy : ProxyConfig) (target : SocketAddr)
    : result Stream :=
  let? stream :=
    match pc_username proxy, pc_password proxy with
    | Some user, Some pass =>
        match socks5 (pc_addr proxy) target (Some (user, pass)) with
        | NoAnswer => Err ["SOCKS5 authenticated connect timed out"; "deadline has elapsed"]
        | Refused e => Err ["SOCKS5 authenticated connect failed"; e]
        | Connected s => Ok s
        end
    | _, _ =>
        match socks5 (pc_addr proxy) target None with
        | NoAnswer => Err ["SOCKS5 connect timed out"; "deadline has elapsed"]
        | Refused e => Err ["SOCKS5 connect failed"; e]
        | Connected s => Ok s
        end
    end in
  if pc_tcp_nodelay proxy
  then match set_nodelay stream with
       | Ok _ => Ok stream
       | Err e => Err ["failed to set TCP_NODELAY on outbound socket"; e]
       end
  else Ok stream.

(** ** Lemmas: UDP encapsulation *)

(** The SOCKS5 UDP header and payload after its two reserved bytes. *)
Definition udp_frame (a : SocketAddr) (data : list byte) : list byte :=
  x00 :: (if is_ipv4 (sa_ip a) then x01 else x04) :: octets (sa_ip a) ++ be_bytes 2 (sa_port a) ++ data.

Lemma encode_udp_frame a data out : encode_udp a data out = x00 :: x00 :: udp_frame a data.
Proof.
  unfold encode_udp, udp_frame, octets. destruct (sa_ip a); simpl;
    by rewrite <- ?app_assoc.
Qed.

Lemma slice_from_app {A} (l k : list A) n : length l = n -> slice_from n (l ++ k) = Some k.
Proof.
  intros <-. unfold slice_from. rewrite decide_True by (rewrite length_app; lia).
  by rewrite drop_app_length.
Qed.

Lemma slice_mid {A} (p l k : list A) a b :
  length p = a -> (length p + length l = b)%nat -> slice a b (p ++ l ++ k) = Some l.
Proof.
  intros <- <-. unfold slice. rewrite decide_True by (rewrite !length_app; lia).
  rewrite drop_app_length. replace (_ + _ - _)%nat with (length l) by lia.
  by rewrite take_app_length.
Qed.

Lemma of_be_bytes_port p : uint 16 p -> of_be_bytes (be_bytes 2 p) = p.
Proof. intros. rewrite of_be_bytes_be_bytes. by apply Z.mod_small. Qed.

Lemma of_be_bytes_v4 a : uint 32 a -> of_be_bytes (be_bytes 4 a) = a.
Proof. intros. rewrite of_be_bytes_be_bytes. by apply Z.mod_small. Qed.

Lemma of_be_bytes_v6 a : uint 128 a -> of_be_bytes (be_bytes 16 a) = a.
Proof. intros. rewrite of_be_bytes_be_bytes. by apply Z.mod_small. Qed.

(** The second half of [decode_udp]: port and payload. *)
Definition decode_tail (ip : IpAddr) (rest : list byte) : option (option (SocketAddr * list byte)) :=
  if decide (length rest < 2)%nat then Some None
  else
    r0 ← rest !! 0%nat; r1 ← rest !! 1%nat;
    data ← slice_from 2 rest;
    Some (Some (SocketAddr_new ip (of_be_bytes [r0; r1]), data)).

Lemma decode_tail_frame ip p data :
  uint 16 p -> decode_tail ip (be_bytes 2 p ++ data) = Some (Some (SocketAddr_new ip p, data)).
Proof.
  intros Hp. unfold decode_tail.
  rewrite decide_False by (rewrite length_app, length_be_bytes; lia).
  rewrite slice_from_app by apply length_be_bytes.
  simpl. by rewrite <- (of_be_bytes_port p) at 3.
Qed.

Lemma decode_tail_inv ip rest a data :
  decode_tail ip rest = Some (Some (a, data)) ->
  sa_ip a = ip /\ sa_scope_id a = 0 /\ uint 16 (sa_port a) /\ rest = be_bytes 2 (sa_port a) ++ data.
Proof.
  unfold decode_tail. destruct rest as [| r0 [| r1 rest]]; [done.. |].
  rewrite decide_False by (simpl; lia).
  rewrite (slice_from_app [r0; r1] rest 2 eq_refl : slice_from 2 (r0 :: r1 :: rest) = _). simpl. intros [= <- <-]. simpl.
  split_and!; [done | done | apply (of_be_bytes_bound [r0; r1]) |].
  exact (f_equal (.++ rest) (eq_sym (be_bytes_of_be_bytes [r0; r1]))).
Qed.

Lemma decode_tail_total ip rest : is_Some (decode_tail ip rest).
Proof.
  unfold decode_tail. destruct rest as [| r0 [| r1 rest]]; [by eexists.. |].
  rewrite decide_False by (simpl; lia).
  rewrite (slice_from_app [r0; r1] rest 2 eq_refl : slice_from 2 (r0 :: r1 :: rest) = _). by eexists.
Qed.

(** [decode_udp] case by case on the shape of the buffer. *)
Lemma decode_udp_short buf : (length buf < 4)%nat -> decode_udp buf = Some None.
Proof. intros. unfold decode_udp. by rewrite decide_True. Qed.

Lemma decode_udp_v4 r0 r1 o rest :
  length o = 4%nat ->
  decode_udp (r0 :: r1 :: x00 :: x01 :: o ++ rest) =
  (if decide (length rest < 2)%nat then Some None else decode_tail (V4 (of_be_bytes o)) rest).
Proof.
  intros Ho. do 5 (destruct o as [| ? o]; simplify_eq/=).
  unfold decode_udp. rewrite decide_False by (simpl; lia).
  cbn [lookup list_lookup mbind option_bind]. rewrite decide_False by naive_solver.
  destruct (decide (length rest < 2)%nat).
  - simpl. by rewrite decide_True by lia.
  - rewrite decide_True, decide_False by (simpl; lia || done).
    match goal with |- context [slice_from 8 ?l] => assert (slice_from 8 l = Some rest) as ->; [| done] end.
    by apply (slice_from_app [_; _; _; _; _; _; _; _]).
Qed.

Lemma decode_udp_v6 r0 r1 o rest :
  length o = 16%nat ->
  decode_udp (r0 :: r1 :: x00 :: x04 :: o ++ rest) =
  (if decide (length rest < 2)%nat then Some None else decode_tail (V6 (of_be_bytes o)) rest).
Proof.
  intros Ho. unfold decode_udp. rewrite decide_False by (simpl; lia).
  cbn [lookup list_lookup mbind option_bind]. rewrite decide_False by naive_solver.
  rewrite (decide_False (P := x04 = x01)), decide_True by done.
  destruct (decide (length rest < 2)%nat).
  - rewrite decide_True by (simpl; rewrite length_app; lia). done.
  - rewrite decide_False by (simpl; rewrite length_app; lia).
    change (r0 :: r1 :: x00 :: x04 :: o ++ rest) with ([r0; r1; x00; x04] ++ o ++ rest).
    rewrite slice_mid by (simpl; lia).
    rewrite app_assoc, slice_from_app by (simpl; lia). done.
Qed.

Lemma decode_udp_v4_short r0 r1 b :
  (length b < 6)%nat -> decode_udp (r0 :: r1 :: x00 :: x01 :: b) = Some None.
Proof.
  intros. unfold decode_udp. rewrite decide_False by (simpl; lia).
  cbn [lookup list_lookup mbind option_bind]. rewrite decide_False by naive_solver.
  by rewrite (decide_True (P := x01 = x01)), decide_True by (simpl; lia || done).
Qed.

Lemma decode_udp_v6_short r0 r1 b :
  (length b < 18)%nat -> decode_udp (r0 :: r1 :: x00 :: x04 :: b) = Some None.
Proof.
  intros. unfold decode_udp. rewrite decide_False by (simpl; lia).
  cbn [lookup list_lookup mbind option_bind]. rewrite decide_False by naive_solver.
  rewrite (decide_False (P := x04 = x01)), (decide_True (P := x04 = x04)) by done.
  by rewrite decide_True by (simpl; lia).
Qed.

Lemma decode_udp_other r0 r1 f t b :
  f ≠ x00 \/ (t ≠ x01 /\ t ≠ x04) -> decode_udp (r0 :: r1 :: f :: t :: b) = Some None.
Proof.
  intros H. unfold decode_udp. rewrite decide_False by (simpl; lia).
  cbn [lookup list_lookup mbind option_bind].
  destruct H as [H | [H1 H2]]; [by rewrite decide_True |]. case_decide; [done |].
  by rewrite !decide_False by done.
Qed.

Lemma decode_udp_frame r0 r1 a data :
  sockaddr_wf a ->
  decode_udp (r0 :: r1 :: udp_frame a data) = Some (Some (SocketAddr_new (sa_ip a) (sa_port a), data)).
Proof.
  intros (Hi & Hp & _). unfold udp_frame, octets. destruct (sa_ip a) as [v | v]; simpl is_ipv4; cbv iota.
  - rewrite decode_udp_v4 by apply length_be_bytes.
    rewrite decide_False by (rewrite length_app, length_be_bytes; lia).
    by rewrite decode_tail_frame, of_be_bytes_v4.
  - rewrite decode_udp_v6 by apply length_be_bytes.
    rewrite decide_False by (rewrite length_app, length_be_bytes; lia).
    by rewrite decode_tail_frame, of_be_bytes_v6.
Qed.

(** The shapes a buffer can have; the last two carry the parts of a frame. *)
Inductive udp_shape : list byte -> Prop :=
| shape_short buf : (length buf < 4)%nat -> udp_shape buf
| shape_other r0 r1 f t b : f ≠ x00 \/ (t ≠ x01 /\ t ≠ x04) -> udp_shape (r0 :: r1 :: f :: t :: b)
| shape_v4_short r0 r1 b : (length b < 6)%nat -> udp_shape (r0 :: r1 :: x00 :: x01 :: b)
| shape_v6_short r0 r1 b : (length b < 18)%nat -> udp_shape (r0 :: r1 :: x00 :: x04 :: b)
| shape_v4 r0 r1 o b : length o = 4%nat -> (2 <= length b)%nat -> udp_shape (r0 :: r1 :: x00 :: x01 :: o ++ b)
| shape_v6 r0 r1 o b : length o = 16%nat -> (2 <= length b)%nat -> udp_shape (r0 :: r1 :: x00 :: x04 :: o ++ b).

Lemma udp_shape_all buf : udp_shape buf.
Proof.
  destruct buf as [| r0 [| r1 [| f [| t b]]]]; [apply shape_short; simpl; lia.. |].
  destruct (decide (f = x00)) as [-> |]; [| by apply shape_other; left].
  destruct (decide (t = x01)) as [-> |].
  { destruct (decide (length b < 6)%nat); [by apply shape_v4_short |].
    rewrite <- (take_drop 4 b). apply shape_v4; [rewrite length_take | rewrite length_drop]; lia. }
  destruct (decide (t = x04)) as [-> |]; [| by apply shape_other; right].
  destruct (decide (length b < 18)%nat); [by apply shape_v6_short |].
  rewrite <- (take_drop 16 b). apply shape_v6; [rewrite length_take | rewrite length_drop]; lia.
Qed.

Ltac decode_shapes buf :=
  destruct (udp_shape_all buf);
  [ rewrite decode_udp_short by done
  | rewrite decode_udp_other by done
  | rewrite decode_udp_v4_short by done
  | rewrite decode_udp_v6_short by done
  | rewrite decode_udp_v4, decide_False by (done || lia)
  | rewrite decode_udp_v6, decide_False by (done || lia) ].

Lemma decode_udp_total buf : is_Some (decode_udp buf).
Proof. decode_shapes buf; eauto using decode_tail_total. Qed.

Lemma be_bytes_of_be_bytes' l n : length l = n -> be_bytes n (of_be_bytes l) = l.
Proof. intros <-. apply be_bytes_of_be_bytes. Qed.

Lemma decode_udp_inv buf a data :
  decode_udp buf = Some (Some (a, data)) ->
  sockaddr_wf a /\ sa_scope_id a = 0 /\ exists r0 r1, buf = r0 :: r1 :: udp_frame a data.
Proof.
  unfold sockaddr_wf, udp_frame, octets.
  decode_shapes buf; intros Hd; try done; apply decode_tail_inv in Hd as (Hi & Hs & Hp & ->);
    rewrite Hi, Hs; simpl is_ipv4; cbv iota; rewrite be_bytes_of_be_bytes' by done;
    (split_and!; [simpl | done | done | done | eauto]).
  - pose proof (of_be_bytes_bound o) as Hb. by rewrite H in Hb.
  - pose proof (of_be_bytes_bound o) as Hb. by rewrite H in Hb.
Qed.

(** ** Lemmas: streams *)

Lemma read_exact_app l rest t o w :
  read_exact (length l) (mkStream (l ++ rest) t o w) = (Done l, mkStream rest t o w).
Proof.
  unfold read_exact. simpl. rewrite decide_True by (rewrite length_app; lia).
  by rewrite take_app_length, drop_app_length.
Qed.

Lemma read_exact_done n s l s' :
  read_exact n s = (Done l, s') ->
  length l = n /\ rx s = l ++ rx s' /\ tx s' = tx s /\ wr s' = wr s /\ rx_tail s' = rx_tail s.
Proof.
  unfold read_exact. case_decide; [| by destruct (rx_tail s)].
  intros [= <- <-]. simpl. rewrite length_take, take_drop. split_and!; done || lia.
Qed.

Lemma mcontext_done {A} msg (m : M A) s a s' : mcontext msg m s = (Done a, s') <-> m s = (Done a, s').
Proof. unfold mcontext. destruct (m s) as [[] ?]; naive_solver. Qed.

Lemma mbindM_done {A B} (m : M A) (k : A -> M B) s b s' :
  mbindM m k s = (Done b, s') <-> exists a s1, m s = (Done a, s1) /\ k a s1 = (Done b, s').
Proof. unfold mbindM. destruct (m s) as [[] ?]; naive_solver. Qed.

Lemma lift_done {A} (r : result A) s a s' : lift r s = (Done a, s') <-> r = Ok a /\ s' = s.
Proof. unfold lift. destruct r; naive_solver. Qed.

Lemma write_all_done b s u s' :
  write_all b s = (Done u, s') -> rx s' = rx s /\ rx_tail s' = rx_tail s /\ tx s' = tx s ++ b.
Proof. unfold write_all. destruct (wr s) as [| [] ?]; naive_solver. Qed.

(** However a write ends, a prefix of its bytes is out. *)
Lemma write_all_prefix msg b s o s' :
  mcontext msg (write_all b) s = (o, s') -> exists k, k `prefix_of` b /\ tx s' = tx s ++ k.
Proof.
  assert (Hk : forall n, take n b `prefix_of` b) by (intros n; exists (drop n b); symmetry; apply take_drop).
  unfold mcontext, write_all. destruct (wr s) as [| [] ?]; intros [= <- <-]; cbn [tx]; eauto.
Qed.

Lemma with_timeout_done {A} msg (m : M A) s a s' :
  with_timeout msg m s = (Done a, s') <-> m s = (Done a, s').
Proof. unfold with_timeout. destruct (m s) as [[] ?]; naive_solver. Qed.

(** A future under a [timeout] never hangs. *)
Lemma with_timeout_returns {A} msg (m : M A) s : (with_timeout msg m s).1 ≠ Hang.
Proof. unfold with_timeout. by destruct (m s) as [[] ?]. Qed.

(** The reply of a server to UDP ASSOCIATE, RFC 1928 section 6. *)
Definition reply_bytes (rsv : byte) (a : SocketAddr) : list byte :=
  [x05; x00; rsv; if is_ipv4 (sa_ip a) then x01 else x04] ++
  octets (sa_ip a) ++ be_bytes 2 (sa_port a).

Lemma list_len2 {A} (l : list A) : length l = 2%nat -> exists a b, l = [a; b].
Proof. destruct l as [| a [| b []]]; try done. eauto. Qed.

Lemma list_len4 {A} (l : list A) : length l = 4%nat -> exists a b c d, l = [a; b; c; d].
Proof. destruct l as [| a [| b [| c [| d []]]]]; try done. eauto. Qed.

(** What a successful read does to a stream, and what a write does. *)
Definition after_read (s : Stream) (l : list byte) (s' : Stream) : Prop :=
  rx s = l ++ rx s' /\ tx s' = tx s /\ wr s' = wr s /\ rx_tail s' = rx_tail s.

Lemma read_exact_after msg n s l s' :
  mcontext msg (read_exact n) s = (Done l, s') -> length l = n /\ after_read s l s'.
Proof. intros H%mcontext_done%read_exact_done. unfold after_read. tauto. Qed.

Lemma read_exact_run msg n s l rest :
  rx s = l ++ rest -> length l = n ->
  mcontext msg (read_exact n) s = (Done l, mkStream rest (rx_tail s) (tx s) (wr s)).
Proof.
  intros Hr <-. apply mcontext_done. destruct s as [r t o w]. simpl in *. subst. apply read_exact_app.
Qed.

Lemma after_read_app s l1 s1 l2 s2 :
  after_read s l1 s1 -> after_read s1 l2 s2 -> after_read s (l1 ++ l2) s2.
Proof.
  intros (H1 & H2 & H3 & H4) (H1' & H2' & H3' & H4'). unfold after_read.
  rewrite <- app_assoc. split_and!; congruence.
Qed.

Lemma after_read_eq s l s' :
  after_read s l s' <-> s' = mkStream (rx s') (rx_tail s) (tx s) (wr s) /\ rx s = l ++ rx s'.
Proof. unfold after_read. destruct s, s'; simpl. naive_solver. Qed.

Lemma read_bind_ip_done t s ip s' :
  read_bind_ip t s = (Done ip, s') <->
  after_read s (octets ip) s' /\ ip_wf ip /\ t = (if is_ipv4 ip then x01 else x04).
Proof.
  unfold read_bind_ip. split.
  - case_decide as Ht; [| case_decide as Ht'; [| case_decide]].
    + intros (o & s1 & [Hl Ha]%read_exact_after & [= <- <-])%mbindM_done.
      pose proof (of_be_bytes_bound o) as Hb. rewrite Hl in Hb.
      unfold octets. rewrite be_bytes_of_be_bytes' by done. done.
    + intros (o & s1 & [Hl Ha]%read_exact_after & [= <- <-])%mbindM_done.
      pose proof (of_be_bytes_bound o) as Hb. rewrite Hl in Hb.
      unfold octets. rewrite be_bytes_of_be_bytes' by done. done.
    + intros (? & ? & _ & (? & ? & _ & [=])%mbindM_done)%mbindM_done.
    + intros [=].
  - intros ([-> Hr]%after_read_eq & Hw & ->). destruct ip as [a | a]; unfold octets in Hr; simpl in Hw |- *.
    + apply mbindM_done.
      eexists _, _. split; [apply read_exact_run; [exact Hr | apply length_be_bytes] |].
      unfold mret. by rewrite of_be_bytes_v4.
    + apply mbindM_done.
      eexists _, _. split; [apply read_exact_run; [exact Hr | apply length_be_bytes] |].
      unfold mret. by rewrite of_be_bytes_v6.
Qed.

Lemma read_bind_address_done s a s' :
  read_bind_address s = (Done a, s') <->
  sockaddr_wf a /\ sa_scope_id a = 0 /\ exists rsv, after_read s (reply_bytes rsv a) s'.
Proof.
  unfold read_bind_address, reply_bytes, sockaddr_wf. split.
  - intros (h & s1 & [Hl Ha]%read_exact_after & H)%mbindM_done.
    destruct (list_len4 h Hl) as (b0 & b1 & b2 & b3 & ->). simpl in H.
    case_decide as H0; [by inversion H |]. case_decide as H1; [by inversion H |].
    subst.
    apply mbindM_done in H as (ip & s2 & (Hip & Hw & ->)%read_bind_ip_done & H).
    apply mbindM_done in H as (p & s3 & [Hp Hap]%read_exact_after & [= <- <-]).
    unfold SocketAddr_new. cbn [sa_ip sa_port sa_scope_id].
    pose proof (of_be_bytes_bound p) as Hb. rewrite Hp in Hb.
    split_and!; try done. exists b2.
    rewrite be_bytes_of_be_bytes' by done. eauto using after_read_app.
  - intros ((Hw & Hp & _) & Hs & rsv & [-> Hr]%after_read_eq).
    apply mbindM_done. eexists _, _. split.
    { eapply (read_exact_run _ 4 _ [_; _; _; _]); [| done]. rewrite Hr, <- app_assoc. done. }
    simpl. apply mbindM_done.
    exists (sa_ip a), (mkStream (be_bytes 2 (sa_port a) ++ rx s') (rx_tail s) (tx s) (wr s)).
    split.
    { apply read_bind_ip_done. split_and!; [| done | done]. apply after_read_eq. simpl.
      split; [done |]. by rewrite <- app_assoc. }
    apply mbindM_done. eexists _, _. split.
    { apply read_exact_run; [done | apply length_be_bytes]. }
    unfold mret. rewrite of_be_bytes_port by done. destruct a; simpl in *. by subst.
Qed.

(** The exchanges that authenticate, RFC 1928 section 3 and RFC 1929: what is
    received and what is sent. [v] is the version in the reply to the
    credentials; those of the protocol have [x01]. *)
Inductive auth_dialogue (v : byte) (proxy : ProxyConfig) : list byte -> list byte -> Prop :=
| auth_none : auth_dialogue v proxy [x05; x00] (auth_offer proxy)
| auth_userpass u p :
    pc_username proxy = Some u -> pc_password proxy = Some p ->
    auth_dialogue v proxy [x05; x02; v; x00] (auth_offer proxy ++ credentials_frame u p).

Definition protocol_dialogue : ProxyConfig -> list byte -> list byte -> Prop := auth_dialogue x01.

Lemma write_all_run msg b s :
  wr s = [] -> mcontext msg (write_all b) s = (Done tt, mkStream (rx s) (rx_tail s) (tx s ++ b) []).
Proof. intros H. apply mcontext_done. unfold write_all. by rewrite H. Qed.

Lemma negotiate_auth_sound proxy s s' :
  negotiate_auth proxy s = (Done tt, s') ->
  exists v recv sent, auth_dialogue v proxy recv sent /\
    rx s = recv ++ rx s' /\ tx s' = tx s ++ sent /\ rx_tail s' = rx_tail s.
Proof.
  intros ([] & s1 & (Hr1 & Ht1 & Hx1)%mcontext_done%write_all_done & H)%mbindM_done.
  apply mbindM_done in H as (r & s2 & [Hl (Hr2 & Hx2 & _ & Ht2)]%read_exact_after & H).
  destruct (list_len2 r Hl) as (r0 & r1 & ->). simpl in H.
  case_decide; [by inversion H | subst]. case_decide; [| case_decide; [| by case_decide; inversion H]].
  - inversion H. subst. exists x01, [x05; x00], (auth_offer proxy). split_and!; [constructor | congruence..].
  - subst. apply mbindM_done in H as (u & s3 & [Hu ->]%lift_done & H).
    apply mbindM_done in H as (p & s4 & [Hp ->]%lift_done & H).
    apply mbindM_done in H as ([] & s5 & (Hr5 & Ht5 & Hx5)%mcontext_done%write_all_done & H).
    apply mbindM_done in H as (a & s6 & [Hla (Hr6 & Hx6 & _ & Ht6)]%read_exact_after & H).
    destruct (list_len2 a Hla) as (v & st & ->). simpl in H.
    case_decide; [by inversion H | subst]. inversion H. subst.
    apply opt_context_ok in Hu, Hp.
    exists v, [x05; x02; v; x00], (auth_offer proxy ++ credentials_frame u p).
    split_and!; [by constructor | | rewrite app_assoc; congruence | congruence].
    rewrite <- Hr1, Hr2, <- Hr5, Hr6. done.
Qed.

Lemma negotiate_auth_complete v proxy s recv sent rest :
  auth_dialogue v proxy recv sent -> rx s = recv ++ rest -> wr s = [] ->
  negotiate_auth proxy s = (Done tt, mkStream rest (rx_tail s) (tx s ++ sent) []).
Proof.
  intros Hd Hr Hw. unfold negotiate_auth. apply mbindM_done.
  eexists _, _. split; [by apply write_all_run |].
  destruct Hd as [| u p Hu Hp]; apply mbindM_done; eexists _, _.
  - split; [apply (read_exact_run _ 2 _ [x05; x00] rest); done |]. done.
  - split; [apply (read_exact_run _ 2 _ [x05; x02] (v :: x00 :: rest)); done |].
    simpl. rewrite Hu, Hp. apply mbindM_done. eexists _, _. split; [done |].
    apply mbindM_done. eexists _, _. split; [done |].
    apply mbindM_done. eexists _, _. split; [by apply write_all_run |].
    apply mbindM_done. eexists _, _. split; [apply (read_exact_run _ 2 _ [v; x00] rest); done |].
    simpl. by rewrite app_assoc.
Qed.

(** How far an exchange that ends anyhow has got. *)
Lemma negotiate_auth_sends proxy s o s' :
  negotiate_auth proxy s = (o, s') ->
  (exists k, k `prefix_of` auth_offer proxy /\ tx s' = tx s ++ k) \/
  (exists u p k rest, rx s = [x05; x02] ++ rest /\ pc_username proxy = Some u /\ pc_password proxy = Some p /\
     k `prefix_of` credentials_frame u p /\ tx s' = tx s ++ auth_offer proxy ++ k).
Proof.
  unfold negotiate_auth, mbindM at 1. intros H.
  destruct (mcontext _ (write_all (auth_offer proxy)) s) as [[[] | |] s1] eqn:E1.
  2,3: left; injection H as <- <-; by eapply write_all_prefix.
  apply mcontext_done, write_all_done in E1 as (Hr1 & Ht1 & Hx1). unfold mbindM at 1 in H.
  assert (Hoffer : tx s' = tx s1 -> exists k, k `prefix_of` auth_offer proxy /\ tx s' = tx s ++ k).
  { intros ->. by exists (auth_offer proxy). }
  destruct (mcontext _ (read_exact 2) s1) as [[r | |] s2] eqn:E2.
  2,3: left; apply Hoffer; unfold mcontext, read_exact in E2;
    destruct (decide (2 <= length (rx s1))%nat), (rx_tail s1); naive_solver.
  apply read_exact_after in E2 as [Hl (Hr2 & Hx2 & _ & Ht2)].
  destruct (list_len2 r Hl) as (r0 & r1 & ->). simpl in H.
  case_decide; [inversion H; subst; left; by apply Hoffer | subst].
  case_decide; [inversion H; subst; left; by apply Hoffer |].
  case_decide; [subst | left; apply Hoffer; case_decide; inversion H; congruence].
  unfold mbindM at 1 in H. destruct (pc_username proxy) as [u |] eqn:Hu; simpl in H;
    [| inversion H; subst; left; by apply Hoffer].
  unfold mbindM at 1 in H. destruct (pc_password proxy) as [p |] eqn:Hp; simpl in H;
    [| inversion H; subst; left; by apply Hoffer].
  right. unfold mbindM at 1 in H.
  destruct (mcontext _ (write_all (credentials_frame u p)) s2) as [o3 s3] eqn:E3.
  destruct (write_all_prefix _ _ _ _ _ E3) as (k & Hk & Hx3). exists u, p, k, (rx s2).
  assert (tx s' = tx s3) as ->; [| split_and!; [congruence | done | done | done | rewrite app_assoc; congruence]].
  destruct o3 as [[] | |]; [| by inversion H ..].
  unfold mbindM, mcontext, read_exact in H.
  destruct (decide (2 <= length (rx s3))%nat), (rx_tail s3); simpl in H;
    try case_decide; inversion H; done.
Qed.

(** A server's reading of the username/password sub-negotiation (RFC 1929). *)
Definition rfc1929_parse (l : list byte) : option (list byte * list byte) :=
  match l with
  | ver :: ulen :: l =>
      if decide (ver = x01) then
        let n := Z.to_nat (Z_of_byte ulen) in
        match drop n l with
        | plen :: p =>
            if decide (n <= length l /\ length p = Z.to_nat (Z_of_byte plen))%nat
            then Some (take n l, p) else None
        | [] => None
        end
      else None
  | _ => None
  end.



(** ** Properties *)

(** Round trip of the SOCKS5 UDP encapsulation: what [encode_udp] writes
    for a target and a payload, [decode_udp] reads back as that address and
    exactly that payload, whatever the output buffer held before. *)
Theorem decode_encode_udp (target : SocketAddr) (payload out : list byte) :
  sockaddr_wf target ->
  decode_udp (encode_udp target payload out) =
  Some (Some (SocketAddr_new (sa_ip target) (sa_port target), payload)).
Proof. intros H. rewrite encode_udp_frame. by apply decode_udp_frame. Qed.

Lemma decode_encode_udp_witness :
  decode_udp (encode_udp (SocketAddr_new (V4 134744072) 53) [xab; xcd] [xff]) =
  Some (Some (SocketAddr_new (V4 134744072) 53, [xab; xcd])).
Proof. apply (decode_encode_udp (SocketAddr_new (V4 134744072) 53)). vm_compute. intuition congruence. Defined.

(** [decode_udp] is total and exact: no input makes it index or slice out
    of range, and it accepts a buffer exactly when it is a two-byte reserved
    field followed by an unfragmented frame with an IPv4 or IPv6 address, in
    which case it returns that frame's address and payload. *)
Theorem decode_udp_exact (buf : list byte) :
  is_Some (decode_udp buf) /\
  forall a data, decode_udp buf = Some (Some (a, data)) <->
    sockaddr_wf a /\ sa_scope_id a = 0 /\ exists r0 r1, buf = r0 :: r1 :: udp_frame a data.
Proof.
  split; [apply decode_udp_total |]. intros a data. split; [apply decode_udp_inv |].
  intros (Hw & Hs & r0 & r1 & ->). rewrite decode_udp_frame by done.
  destruct a; simpl in *; by subst.
Qed.

(** C28. Credentials are sent only to a proxy that asked for them: whatever the
    proxy sends and however the negotiation ends, a write that fails or stops
    halfway included, the client has written its method offer or the
    beginning of it, or the offer and the configured username and password or
    the beginning of that message, the last only when the proxy's reply
    selected method 2. *)
Theorem negotiate_auth_no_leak (proxy : ProxyConfig) (s : Stream) :
  let s' := (negotiate_auth proxy s).2 in
  (exists k, k `prefix_of` auth_offer proxy /\ tx s' = tx s ++ k) \/
  (exists u p k rest, rx s = [x05; x02] ++ rest /\ pc_username proxy = Some u /\ pc_password proxy = Some p /\
     k `prefix_of` credentials_frame u p /\ tx s' = tx s ++ auth_offer proxy ++ k).
Proof. destruct (negotiate_auth proxy s) as [o s'] eqn:E. by eapply negotiate_auth_sends. Qed.

(** C29. [negotiate_auth] succeeds on the two exchanges the protocol allows,
    no authentication or accepted username/password, and on nothing else but
    for one byte: where the proxy accepts the credentials, the version in its
    reply, which RFC 1929 fixes at 1, may be any. It has then consumed and
    written exactly that exchange. *)
Theorem negotiate_auth_iff (proxy : ProxyConfig) (s s' : Stream) :
  wr s = [] ->
  (forall recv sent rest, protocol_dialogue proxy recv sent -> rx s = recv ++ rest ->
     negotiate_auth proxy s = (Done tt, mkStream rest (rx_tail s) (tx s ++ sent) [])) /\
  (negotiate_auth proxy s = (Done tt, s') <->
   exists v recv sent, auth_dialogue v proxy recv sent /\ rx s = recv ++ rx s' /\
     s' = mkStream (rx s') (rx_tail s) (tx s ++ sent) []).
Proof.
  intros Hw. split; [intros recv sent rest Hd Hr; by eapply negotiate_auth_complete |]. split.
  - intros H. pose proof H as H'. apply negotiate_auth_sound in H as (v & recv & sent & Hd & Hr & _).
    exists v, recv, sent. split_and!; [done.. |].
    rewrite (negotiate_auth_complete _ _ _ _ _ _ Hd Hr Hw) in H'. by simplify_eq.
  - intros (v & recv & sent & Hd & Hr & ->). by eapply negotiate_auth_complete.
Qed.

Definition example_proxy : ProxyConfig :=
  mkProxyConfig (SocketAddr_new (V4 2130706433) 1080) (Some "user") (Some "pass") (from_secs 10) true.

Lemma negotiate_auth_iff_witness :
  negotiate_auth example_proxy (mkStream [x05; x02; x01; x00; xaa] Eof [] []) =
  (Done tt, mkStream [xaa] Eof (auth_offer example_proxy ++ credentials_frame "user" "pass") []).
Proof.
  apply (proj1 (negotiate_auth_iff example_proxy (mkStream [x05; x02; x01; x00; xaa] Eof [] [])
    (mkStream [] Eof [] []) eq_refl) [x05; x02; x01; x00]); [| reflexivity].
  exact (auth_userpass x01 example_proxy "user" "pass" eq_refl eq_refl).
Defined.

(** The version in the reply to the credentials is not looked at. *)
Example auth_version_ignored :
  (negotiate_auth example_proxy (mkStream [x05; x02; x05; x00] Eof [] [])).1 = Done tt /\
  forall sent, ~ protocol_dialogue example_proxy [x05; x02; x05; x00] sent.
Proof. split; [reflexivity |]. intros sent H. inversion H. Qed.

(** The username/password message the client sends is the one RFC 1929
    means: a server that parses it finds exactly the configured username and
    password, provided they passed [Config::validate] (whose 255-byte limit
    is what keeps the one-byte lengths from wrapping). *)
Theorem credentials_frame_roundtrip (u p : string) :
  credentials_ok (Some u) (Some p) ->
  rfc1929_parse (credentials_frame u p) = Some (as_bytes u, as_bytes p).
Proof.
  intros [Hu Hp].
  assert (Hb : forall t, 1 <= str_len t <= 255 ->
    Z.to_nat (Z_of_byte (byte_of_Z (str_len t))) = length (as_bytes t)).
  { intros t Ht. rewrite Z_of_byte_of_Z, Z.mod_small by lia.
    unfold str_len. by rewrite Nat2Z.id, length_as_bytes. }
  change (credentials_frame u p) with
    (x01 :: byte_of_Z (str_len u) :: (as_bytes u ++ [byte_of_Z (str_len p)]) ++ as_bytes p).
  rewrite <- app_assoc. simpl. rewrite Hb, drop_app_length, take_app_length by done.
  simpl. rewrite Hb by done. rewrite decide_True; [done |]. rewrite length_app. lia.
Qed.

Lemma credentials_frame_roundtrip_witness :
  rfc1929_parse (credentials_frame "user" "pass") = Some (as_bytes "user", as_bytes "pass").
Proof. apply (credentials_frame_roundtrip "user" "pass"). vm_compute. intuition congruence. Defined.

(** [read_bind_address] accepts exactly a success reply that carries an
    IPv4 or IPv6 address and port, returns that address, and leaves the
    stream right behind the reply. *)
Theorem read_bind_address_iff (s s' : Stream) (a : SocketAddr) :
  read_bind_address s = (Done a, s') <->
  sockaddr_wf a /\ sa_scope_id a = 0 /\
  exists rsv, rx s = reply_bytes rsv a ++ rx s' /\
    s' = mkStream (rx s') (rx_tail s) (tx s) (wr s).
Proof.
  rewrite read_bind_address_done. setoid_rewrite after_read_eq. naive_solver.
Qed.



(** UDP ASSOCIATE returns, whatever the proxy does, unless it does not take
    the request: the two timeouts cut off every wait for a reply and every
    write of the negotiation, but the request is written outside of them. *)
Theorem udp_associate_returns connect (proxy : ProxyConfig) :
  udp_associate connect proxy = Hang ->
  exists s s1 n w, connect (pc_addr proxy) = Connected s /\ negotiate_auth proxy s = (Done tt, s1) /\ wr s1 = Blocked n :: w.
Proof.
  unfold udp_associate, associate_on. destruct (connect (pc_addr proxy)) as [s | |]; [| done..].
  unfold mbindM at 1. pose proof (with_timeout_returns "SOCKS5 UDP associate handshake timed out" (negotiate_auth proxy) s).
  destruct (with_timeout _ _ s) as [[[] | |] s1] eqn:E1; [| done..]. apply with_timeout_done in E1.
  unfold mbindM at 1.
  destruct (mcontext _ (write_all associate_request) s1) as [[[] | |] s2] eqn:E; [| done |].
  - unfold mbindM. pose proof (with_timeout_returns "SOCKS5 UDP associate reply timed out" read_bind_address s2).
    by destruct (with_timeout _ _ s2) as [[] ?].
  - intros _. unfold mcontext, write_all in E. destruct (wr s1) as [| [| n e | n] w] eqn:Ew; try done. by exists s, s1, n, w.
Qed.

(** A proxy that takes nothing of the request. *)
Lemma udp_associate_returns_witness :
  exists s s1 n w, Connected (mkStream [x05; x00] Stall [] [Written; Blocked 0]) = Connected s /\
    negotiate_auth example_proxy s = (Done tt, s1) /\ wr s1 = Blocked n :: w.
Proof. apply (udp_associate_returns (fun _ => Connected (mkStream [x05; x00] Stall [] [Written; Blocked 0]))). reflexivity. Defined.
