(* ===== verification/Tune.v ===== *)
(** * Automatic tuning ([src/tune.rs])

    [usize] is 64 bits wide, so that the [as usize] and [as u64] casts of the
    code change nothing; [tune_no_overflow] shows that none of its unchecked
    products and sums leaves that width. *)

From Stdlib Require Import ZArith Lia.
From Stdlib Require Import Strings.Ascii Strings.String.
From stdpp Require Import base decidable list strings pretty.
From S2P Require Import Prelude StdNet StdText.
#[local] Open Scope Z_scope.

(** ** Definitions *)

Definition FALLBACK_MTU : Z := 1500.
Definition MIN_MTU : Z := 576.
Definition MAX_MTU : Z := 65535.
Definition DEFAULT_MEMORY : Z := 2 * 1024 * 1024 * 1024.
Definition DEFAULT_FD_LIMIT : Z := 1024.
Definition RELAY_BUF_PER_MTU : Z := 176.
Definition RELAY_BUF_MIN : Z := 128 * 1024.
Definition RELAY_BUF_MAX : Z := 4 * 1024 * 1024.
Definition COPY_BUF_PER_MTU : Z := 16.
Definition COPY_BUF_MIN : Z := 32 * 1024.
Definition COPY_BUF_MAX : Z := 256 * 1024.
Definition STACK_BUF_MIN : Z := 512.
Definition STACK_BUF_MAX : Z := 4096.
Definition STACK_BUF_PER_BYTES : Z := 2 * 1024 * 1024.
Definition FD_RESERVE : Z := 64.
Definition FDS_PER_CONN : Z := 2.
Definition MEM_FRACTION_FOR_RELAY : Z := 4.
Definition TCP_CONN_MIN : Z := 128.
Definition TCP_CONN_MAX : Z := 65536.
Definition UDP_PER_TCP : Z := 4.
Definition UDP_SESSION_MIN : Z := 64.
Definition UDP_SESSION_MAX : Z := 16384.
Definition UDP_IDLE_TIMEOUT : Z := from_secs 60.

Record SystemProbe : Type := mkProbe {
  link_mtu : option Z;
  has_ipv6_gateway : bool;
  total_memory_bytes : option Z;
  fd_limit : option Z;
}.

Record Tuning : Type := mkTuning {
  mtu : Z;
  relay_buf_size : Z;
  relay_copy_buf_size : Z;
  stack_buf_size : Z;
  udp_idle_timeout : Z;
  max_tcp_connections : Z;
  max_udp_sessions : Z;
  capture_ipv6 : bool;
}.

Module Tuning.
Definition compute (probe : SystemProbe) : Tuning :=
  let mtu := clamp (default FALLBACK_MTU (link_mtu probe)) MIN_MTU MAX_MTU in
  let mtu_bytes := mtu in
  let memory := default DEFAULT_MEMORY (total_memory_bytes probe) in
  let fds := default DEFAULT_FD_LIMIT (fd_limit probe) in
  let relay_buf_size := clamp (mtu_bytes * RELAY_BUF_PER_MTU) RELAY_BUF_MIN RELAY_BUF_MAX in
  let relay_copy_buf_size := clamp (mtu_bytes * COPY_BUF_PER_MTU) COPY_BUF_MIN COPY_BUF_MAX in
  let stack_buf_size := clamp (memory / STACK_BUF_PER_BYTES) STACK_BUF_MIN STACK_BUF_MAX in
  let per_conn := 2 * relay_buf_size + relay_copy_buf_size in
  let mem_conns := Z.max (memory / MEM_FRACTION_FOR_RELAY / Z.max per_conn 1) 1 in
  let fd_conns := Z.max (saturating_sub fds FD_RESERVE / FDS_PER_CONN) 1 in
  let max_tcp_connections := clamp (Z.min mem_conns fd_conns) TCP_CONN_MIN TCP_CONN_MAX in
  let max_udp_sessions :=
    clamp (max_tcp_connections / UDP_PER_TCP) UDP_SESSION_MIN UDP_SESSION_MAX in
  {| Tune.mtu := mtu;
     Tune.relay_buf_size := relay_buf_size;
     Tune.relay_copy_buf_size := relay_copy_buf_size;
     Tune.stack_buf_size := stack_buf_size;
     Tune.udp_idle_timeout := UDP_IDLE_TIMEOUT;
     Tune.max_tcp_connections := max_tcp_connections;
     Tune.max_udp_sessions := max_udp_sessions;
     Tune.capture_ipv6 := has_ipv6_gateway probe |}.

Definition summary (t : Tuning) : string :=
  "auto-tuned: mtu=" +:+ show_dec (mtu t) +:+
  " relay_buf=" +:+ show_dec (relay_buf_size t) +:+
  " copy_buf=" +:+ show_dec (relay_copy_buf_size t) +:+
  " stack_depth=" +:+ show_dec (stack_buf_size t) +:+
  " max_tcp=" +:+ show_dec (max_tcp_connections t) +:+
  " max_udp=" +:+ show_dec (max_udp_sessions t) +:+
  " udp_idle=" +:+ show_dec (udp_idle_timeout t / 1000000000) +:+
  "s capture_ipv6=" +:+ (if capture_ipv6 t then "true" else "false").
End Tuning.

(** The [for line in content.lines()] loop of [read_total_memory]; [?] on a
    missing or malformed number ends the whole function. *)
Fixpoint mem_total (l : list string) : option Z :=
  match l with
  | [] => None
  | line :: l =>
      match strip_prefix "MemTotal:" line with
      | Some rest =>
          match split_whitespace rest with
          | [] => None
          | w :: _ =>
              match parse_uint 64 w with
              | Ok kb => Some (saturating_mul 64 kb 1024)
              | Err _ => None
              end
          end
      | None => mem_total l
      end
  end.

(** [meminfo] is the content of [/proc/meminfo], [None] when unreadable. *)
Definition read_total_memory (meminfo : option string) : option Z :=
  match meminfo with
  | None => None
  | Some content => mem_total (lines content)
  end.

(** [getrlimit] and [setrlimit] are the operating system's: the limits it
    reports and whether it accepts the raised ones. [None] is "unlimited". *)
Record Rlimit : Type := mkRlimit { current : option Z; maximum : option Z }.

Definition raise_and_read_fd_limit (getrlimit : Rlimit) (setrlimit : Rlimit -> bool) : option Z :=
  match current getrlimit, maximum getrlimit with
  | Some c, Some m =>
      if c <? m
      then if setrlimit (mkRlimit (Some m) (Some m)) then Some m else Some c
      else Some c
  | c, _ => c
  end.

(** [LinkInfo], the result of the platform's [detect_link]. *)
Record LinkInfo : Type := mkLinkInfo { li_mtu : option Z; li_has_ipv6_gateway : bool }.

Definition probe (link : LinkInfo) (meminfo : option string) (getrlimit : Rlimit)
    (setrlimit : Rlimit -> bool) : SystemProbe :=
  {| link_mtu := li_mtu link;
     has_ipv6_gateway := li_has_ipv6_gateway link;
     total_memory_bytes := read_total_memory meminfo;
     fd_limit := raise_and_read_fd_limit getrlimit setrlimit |}.

(** ** Specification and lemmas *)

(** The values are those of the Rust types: [u32], [u64], [u64]. *)
Definition probe_wf (p : SystemProbe) : Prop :=
  (forall m, link_mtu p = Some m -> uint 32 m) /\
  (forall m, total_memory_bytes p = Some m -> uint 64 m) /\
  (forall f, fd_limit p = Some f -> uint 64 f).

Definition memory_of (p : SystemProbe) : Z := default DEFAULT_MEMORY (total_memory_bytes p).
Definition fds_of (p : SystemProbe) : Z := default DEFAULT_FD_LIMIT (fd_limit p).

(** The memory one TCP connection can pin: a send and a receive window and
    the relay's copy buffer. *)
Definition per_conn (t : Tuning) : Z := 2 * relay_buf_size t + relay_copy_buf_size t.

#[local] Ltac unfold_consts :=
  unfold FALLBACK_MTU, MIN_MTU, MAX_MTU, DEFAULT_MEMORY, DEFAULT_FD_LIMIT, RELAY_BUF_PER_MTU,
    RELAY_BUF_MIN, RELAY_BUF_MAX, COPY_BUF_PER_MTU, COPY_BUF_MIN, COPY_BUF_MAX, STACK_BUF_MIN,
    STACK_BUF_MAX, STACK_BUF_PER_BYTES, FD_RESERVE, FDS_PER_CONN, MEM_FRACTION_FOR_RELAY,
    TCP_CONN_MIN, TCP_CONN_MAX, UDP_PER_TCP, UDP_SESSION_MIN, UDP_SESSION_MAX in *.

Lemma probe_wf_memory p : probe_wf p -> uint 64 (memory_of p).
Proof. intros (_ & H & _). unfold memory_of. destruct (total_memory_bytes p); simpl; [by apply H | done]. Qed.

Lemma probe_wf_fds p : probe_wf p -> uint 64 (fds_of p).
Proof. intros (_ & _ & H). unfold fds_of. destruct (fd_limit p); simpl; [by apply H | done]. Qed.

Lemma mtu_range p : MIN_MTU <= mtu (Tuning.compute p) <= MAX_MTU.
Proof. apply clamp_bounds. done. Qed.

Lemma copy_lt_relay m :
  MIN_MTU <= m <= MAX_MTU ->
  clamp (m * COPY_BUF_PER_MTU) COPY_BUF_MIN COPY_BUF_MAX <
  clamp (m * RELAY_BUF_PER_MTU) RELAY_BUF_MIN RELAY_BUF_MAX.
Proof. unfold clamp. unfold_consts. intros. repeat case_match; bool_to_prop; lia. Qed.

Lemma udp_le_tcp n :
  TCP_CONN_MIN <= n -> clamp (n / UDP_PER_TCP) UDP_SESSION_MIN UDP_SESSION_MAX <= n.
Proof.
  unfold clamp. unfold_consts. intros. pose proof (Z.mul_div_le n 4 ltac:(lia)).
  repeat case_match; bool_to_prop; lia.
Qed.

(** The number of connections the memory and the descriptors allow. *)
Definition mem_conns (memory pc : Z) : Z := Z.max (memory / MEM_FRACTION_FOR_RELAY / Z.max pc 1) 1.
Definition fd_conns (fds : Z) : Z := Z.max (saturating_sub fds FD_RESERVE / FDS_PER_CONN) 1.

Lemma max_tcp_eq p :
  max_tcp_connections (Tuning.compute p) =
  clamp (Z.min (mem_conns (memory_of p) (per_conn (Tuning.compute p))) (fd_conns (fds_of p)))
    TCP_CONN_MIN TCP_CONN_MAX.
Proof. done. Qed.

Lemma mem_conns_le memory pc n :
  0 < pc -> 1 < n <= mem_conns memory pc -> n * pc <= memory / MEM_FRACTION_FOR_RELAY.
Proof.
  unfold mem_conns. intros Hp Hn. rewrite (Z.max_l pc 1) in Hn by lia.
  set (q := memory / MEM_FRACTION_FOR_RELAY) in *.
  pose proof (Z.mul_div_le q pc Hp). nia.
Qed.

Lemma fd_conns_le fds n :
  1 < n <= fd_conns fds -> FDS_PER_CONN * n + FD_RESERVE <= fds.
Proof.
  unfold fd_conns, saturating_sub. unfold_consts. intros Hn.
  pose proof (Z.mul_div_le (Z.max 0 (fds - 64)) 2 ltac:(lia)). lia.
Qed.

Lemma mem_conns_mono m m' pc : m <= m' -> mem_conns m pc <= mem_conns m' pc.
Proof.
  intros. unfold mem_conns. apply Z.max_le_compat_r, Z.div_le_mono; [lia |].
  apply Z.div_le_mono; [done | lia].
Qed.

Lemma fd_conns_mono f f' : f <= f' -> fd_conns f <= fd_conns f'.
Proof.
  intros. unfold fd_conns, saturating_sub. apply Z.max_le_compat_r, Z.div_le_mono; [done | lia].
Qed.

Lemma mem_total_line kb rest :
  uint 64 kb ->
  mem_total (lines ("MemTotal:        " +:+ show_dec kb +:+ " kB" +:+ String LF rest)) =
  Some (Z.min (umax 64) (kb * 1024)).
Proof.
  intros Hk.
  replace ("MemTotal:        " +:+ show_dec kb +:+ " kB" +:+ String LF rest)
    with (("MemTotal:        " +:+ show_dec kb +:+ " kB") +:+ String LF rest)
    by by rewrite <- !string_app_assoc.
  rewrite lines_cons.
  2:{ repeat apply free_of_app; [| by apply show_dec_free |]; by apply free_of_forallb. }
  replace ("MemTotal:        " +:+ show_dec kb +:+ " kB")
    with (("MemTotal:        " +:+ show_dec kb +:+ " k") +:+ String "B" "") by by rewrite <- !string_app_assoc.
  rewrite strip_cr_last by done. rewrite <- !string_app_assoc.
  change ("MemTotal:        " +:+ ?s) with ("MemTotal:" +:+ "        " +:+ s).
  cbn [mem_total]. rewrite strip_prefix_app.
  change ("        " +:+ ?s) with (String " " (String " " (String " " (String " " (String " " (String " " (String " " (String " " s)))))))).
  rewrite !split_whitespace_space. change (" k" +:+ ?s) with (String " " ("k" +:+ s)). rewrite split_whitespace_word by (apply show_dec_no_space || apply show_dec_nonempty).
  rewrite parse_show_dec by done. done.
Qed.

(** ** Properties *)

(** C35. Whatever the host reports, or fails to report, the tuned values stay
    within the limits the constants set, the sizes the code multiplies and
    adds without checks fit in the 64-bit integers it uses, there are never
    more UDP sessions than TCP connections, and the copy buffer is smaller
    than the socket window. *)
Theorem tune_bounds (p : SystemProbe) :
  let t := Tuning.compute p in
  MIN_MTU <= mtu t <= MAX_MTU /\
  RELAY_BUF_MIN <= relay_buf_size t <= RELAY_BUF_MAX /\
  COPY_BUF_MIN <= relay_copy_buf_size t <= COPY_BUF_MAX /\
  STACK_BUF_MIN <= stack_buf_size t <= STACK_BUF_MAX /\
  TCP_CONN_MIN <= max_tcp_connections t <= TCP_CONN_MAX /\
  UDP_SESSION_MIN <= max_udp_sessions t <= UDP_SESSION_MAX /\
  max_udp_sessions t <= max_tcp_connections t /\
  relay_copy_buf_size t < relay_buf_size t /\
  uint usize_w (mtu t * RELAY_BUF_PER_MTU) /\ uint usize_w (mtu t * COPY_BUF_PER_MTU) /\
  uint usize_w (per_conn t).
Proof.
  cbn zeta. pose proof (mtu_range p) as Hm.
  assert (Hr : RELAY_BUF_MIN <= relay_buf_size (Tuning.compute p) <= RELAY_BUF_MAX)
    by by apply clamp_bounds.
  assert (Hc : COPY_BUF_MIN <= relay_copy_buf_size (Tuning.compute p) <= COPY_BUF_MAX)
    by by apply clamp_bounds.
  split_and!; try apply Hm; try apply Hr; try apply Hc; try (by apply clamp_bounds);
    [by apply udp_le_tcp, clamp_bounds | by apply copy_lt_relay | ..].
  all: unfold per_conn, uint, usize_w; unfold_consts; lia.
Qed.

(** The connection cap is one the host can sustain: unless it sits at the
    floor of 128, all connections together pin at most a quarter of the
    memory in their windows and copy buffers, and with two descriptors each
    they leave the reserved ones free. *)
Theorem tune_cap_sustainable (p : SystemProbe) :
  let t := Tuning.compute p in
  max_tcp_connections t = TCP_CONN_MIN \/
  (max_tcp_connections t * per_conn t <= memory_of p / MEM_FRACTION_FOR_RELAY /\
   FDS_PER_CONN * max_tcp_connections t + FD_RESERVE <= fds_of p).
Proof.
  cbn zeta. rewrite max_tcp_eq.
  assert (Hpc : 0 < per_conn (Tuning.compute p)).
  { unfold per_conn, Tuning.compute. simpl. unfold clamp. unfold_consts.
    repeat case_match; bool_to_prop; lia. }
  set (pc := per_conn _) in *. set (n := Z.min _ _).
  destruct (decide (n <= TCP_CONN_MIN)) as [Hn | Hn].
  - left. unfold clamp. unfold_consts. repeat case_match; bool_to_prop; lia.
  - right. assert (Hc : 1 < clamp n TCP_CONN_MIN TCP_CONN_MAX <= n).
    { unfold clamp. unfold_consts. repeat case_match; bool_to_prop; lia. }
    split; [apply mem_conns_le | apply fd_conns_le]; lia.
Qed.

(** More resources never lower a limit: with the same link, more memory
    and more descriptors give at least as many connections, sessions and
    stack buffers. *)
Theorem tune_monotone (p p' : SystemProbe) :
  link_mtu p = link_mtu p' -> memory_of p <= memory_of p' -> fds_of p <= fds_of p' ->
  max_tcp_connections (Tuning.compute p) <= max_tcp_connections (Tuning.compute p') /\
  max_udp_sessions (Tuning.compute p) <= max_udp_sessions (Tuning.compute p') /\
  stack_buf_size (Tuning.compute p) <= stack_buf_size (Tuning.compute p').
Proof.
  intros Hl Hm Hf.
  assert (Hpc : per_conn (Tuning.compute p) = per_conn (Tuning.compute p')).
  { unfold per_conn, Tuning.compute. simpl. by rewrite Hl. }
  assert (Ht : max_tcp_connections (Tuning.compute p) <= max_tcp_connections (Tuning.compute p')).
  { rewrite !max_tcp_eq, Hpc. apply clamp_mono; [done |].
    apply Z.min_le_compat; [by apply mem_conns_mono | by apply fd_conns_mono]. }
  split_and!; [done | |]; apply clamp_mono; try done; by apply Z.div_le_mono.
Qed.

Lemma tune_monotone_witness :
  max_tcp_connections (Tuning.compute (mkProbe (Some 1500) false (Some (2 ^ 33)) (Some 1024))) <=
  max_tcp_connections (Tuning.compute (mkProbe (Some 1500) false (Some (2 ^ 33)) (Some 4096))).
Proof.
  apply (tune_monotone (mkProbe (Some 1500) false (Some (2 ^ 33)) (Some 1024))
           (mkProbe (Some 1500) false (Some (2 ^ 33)) (Some 4096))); vm_compute; congruence.
Defined.

(** [read_total_memory] reads the kernel's report: after lines about
    other things, the [MemTotal] line's count of kibibytes is returned in
    bytes, saturating at the 64-bit maximum. *)
Theorem read_total_memory_spec (before : list string) (kb : Z) (rest : string) :
  Forall (fun l => free_of LF l /\ strip_prefix "MemTotal:" (strip_cr l) = None) before ->
  uint 64 kb ->
  read_total_memory (Some (foldr (fun l s => l +:+ String LF s)
    ("MemTotal:        " +:+ show_dec kb +:+ " kB" +:+ String LF rest) before)) =
  Some (Z.min (umax 64) (kb * 1024)).
Proof.
  intros Hb Hk. unfold read_total_memory. revert Hb. set (line := "MemTotal:        " +:+ _).
  assert (Hl : mem_total (lines line) = Some (Z.min (umax 64) (kb * 1024))) by by apply mem_total_line.
  intros Hb. induction Hb as [| l before [Hlf Hp] _ IH]; [exact Hl |].
  cbn [foldr]. rewrite lines_cons by done. cbn [mem_total]. rewrite Hp. exact IH.
Qed.

Lemma read_total_memory_spec_witness :
  read_total_memory (Some ("Buffers: 1 kB" +:+ String LF
    ("MemTotal:        " +:+ show_dec 16384 +:+ " kB" +:+ String LF "SwapTotal: 0 kB"))) = Some 16777216.
Proof.
  apply (read_total_memory_spec ["Buffers: 1 kB"] 16384 "SwapTotal: 0 kB").
  - repeat constructor. by apply free_of_forallb.
  - vm_compute. split; congruence.
Defined.

(** Raising the descriptor limit never loses any: the limit tuning works
    with is at least the soft limit and at most the hard one, and it is the
    hard limit whenever the system accepts the raise. *)
Theorem fd_limit_raised (r : Rlimit) (setrlimit : Rlimit -> bool) (c m : Z) :
  current r = Some c -> maximum r = Some m -> c <= m ->
  exists f, raise_and_read_fd_limit r setrlimit = Some f /\ c <= f <= m /\
    (setrlimit (mkRlimit (Some m) (Some m)) = true -> f = m).
Proof.
  intros Hc Hm Hle. unfold raise_and_read_fd_limit. rewrite Hc, Hm.
  destruct (c <? m) eqn:E; bool_to_prop.
  - destruct (setrlimit _); eexists; (split; [done |]); split; done || lia.
  - exists c. split; [done |]. split; [lia |]. intros _. lia.
Qed.

Lemma fd_limit_raised_witness :
  exists f, raise_and_read_fd_limit (mkRlimit (Some 1024) (Some 4096)) (fun _ => true) = Some f /\
    1024 <= f <= 4096 /\ (true = true -> f = 4096).
Proof.
  apply (fd_limit_raised (mkRlimit (Some 1024) (Some 4096)) (fun _ => true) 1024 4096);
    reflexivity || lia.
Defined.
