(* ===== verification/Logging.v ===== *)
(** * Logging ([src/logging.rs])

    A [Logger] is the sending half of an unbounded channel; what was sent is
    the list of messages, oldest first, which the components that log thread
    through their state. The worker drains the channel and writes one line
    per message. *)

From Stdlib Require Import ZArith Lia.
From Stdlib Require Import Strings.Ascii Strings.String.
From stdpp Require Import base decidable list strings.
From S2P Require Import Prelude.
#[local] Open Scope Z_scope.

(** ** Definitions *)

Inductive LogMessage : Type :=
| Info (s : string)
| Warn (s : string)
| Error_ (s : string)
| Debug_ (s : string).

#[global] Instance LogMessage_eq_dec : EqDecision LogMessage.
Proof. solve_decision. Defined.

Abbreviation Log := (list LogMessage).

Module Logger.
Record t : Type := mk { verbose : bool }.

Definition new (verbose : bool) : t * Log := (mk verbose, []).

Definition info (msg : string) (log : Log) : Log := log ++ [Info msg].
Definition warn (msg : string) (log : Log) : Log := log ++ [Warn msg].
Definition error (msg : string) (log : Log) : Log := log ++ [Error_ msg].

(** The message is only built when the logger is verbose. *)
Definition debug (l : t) (msg : unit -> string) (log : Log) : Log :=
  if verbose l then log ++ [Debug_ (msg tt)] else log.
End Logger.

Section Worker.
(** Styles come from [clap]'s [anstyle]: the text that switches a level's
    style on and the text that resets it. *)
Variable Style : Type.
Variable INFO_STYLE WARN_STYLE ERROR_STYLE DEBUG_STYLE : Style.
Variable render render_reset : Style -> string.

Definition level_of (m : LogMessage) : string * string * Style :=
  match m with
  | Info s => ("INFO ", s, INFO_STYLE)
  | Warn s => ("WARN ", s, WARN_STYLE)
  | Error_ s => ("ERROR", s, ERROR_STYLE)
  | Debug_ s => ("DEBUG", s, DEBUG_STYLE)
  end.

(** One iteration of the worker's loop; [t] is the elapsed time as printed. *)
Definition log_line (t : string) (m : LogMessage) : string :=
  let '(level, body, style) := level_of m in
  "[" +:+ t +:+ "] " +:+ render style +:+ level +:+ render_reset style +:+ " " +:+ body
    +:+ String (ascii_of_nat 10) "".

(** The lines written for the messages received, in order, each with the
    time read when it is received. *)
Definition run_log_worker (rx : list (string * LogMessage)) : list string :=
  (fun '(t, m) => log_line t m) <$> rx.
End Worker.
