(* ===== verification/Stats.v ===== *)
(** * Counters ([src/stats.rs])

    The process-wide [AtomicU64] counters, their wrapping updates, and the
    guard that keeps a gauge equal to the number of live sessions. *)

From Stdlib Require Import ZArith Lia.
From Stdlib Require Import Strings.Ascii Strings.String.
From stdpp Require Import base decidable list strings gmap functions fin_sets.
From S2P Require Import Prelude StdNet.
#[local] Open Scope Z_scope.

(** ** Definitions *)

Inductive Counter : Type :=
| TCP_OPENED | TCP_CLOSED | TCP_ERRORS | TCP_ACTIVE
| UDP_PACKETS | UDP_ERRORS | UDP_ACTIVE
| BYTES_TX | BYTES_RX | BYTES_V4 | BYTES_V6
| DNS_REQUESTS | DNS_FAILURES | DNS_POOL_HITS | DNS_POOL_MISSES
| ROUTE_DIRECT | ROUTE_PROXY
| CONN_FAILURES | SOCKS_HANDSHAKE_FAILURES
| CONFIG_RELOADS.

#[global] Instance Counter_eq_dec : EqDecision Counter.
Proof. solve_decision. Defined.

(** The statics: every counter has a value. *)
Definition Counters : Type := Counter -> Z.

Definition zero_counters : Counters := fun _ => 0.

(** [fetch_add] wraps around, as atomics do in Rust. *)
Definition add (k : Counter) (v : Z) (s : Counters) : Counters :=
  <[k := wrapping_add 64 (s k) v]> s.
Definition inc (k : Counter) (s : Counters) : Counters := add k 1 s.
Definition dec (k : Counter) (s : Counters) : Counters :=
  <[k := wrapping_sub 64 (s k) 1]> s.
Definition get (k : Counter) (s : Counters) : Z := s k.

Definition record_traffic (addr : IpAddr) (bytes : Z) (s : Counters) : Counters :=
  match addr with
  | V4 _ => add BYTES_V4 bytes s
  | V6 _ => add BYTES_V6 bytes s
  end.

(** A guard adds one to its gauge when it is made and takes it away when it
    is dropped. *)
Module GaugeGuard.
Definition new (gauge : Counter) (s : Counters) : Counters := <[gauge := wrapping_add 64 (s gauge) 1]> s.
Definition drop (gauge : Counter) (s : Counters) : Counters := <[gauge := wrapping_sub 64 (s gauge) 1]> s.
End GaugeGuard.

(** ** Guards in flight

    Any number of tasks make and drop guards of the two gauges in any order;
    ownership lets each live guard be dropped once. [live] holds the guards
    alive, each with the gauge it counts. *)

Record gstate : Type := mkG { live : gmap nat Counter; cells : Counters }.

Inductive gauge_step : gstate -> gstate -> Prop :=
| step_new i k s : live s !! i = None ->
    gauge_step s (mkG (<[i := k]> (live s)) (GaugeGuard.new k (cells s)))
| step_drop i k s : live s !! i = Some k ->
    gauge_step s (mkG (delete i (live s)) (GaugeGuard.drop k (cells s))).

Definition live_on (k : Counter) (m : gmap nat Counter) : Z :=
  Z.of_nat (size (filter (fun p => p.2 = k) m)).

(** ** Lemmas *)

Lemma get_add k k' v s :
  get k (add k' v s) = if decide (k = k') then (get k s + v) mod 2 ^ 64 else get k s.
Proof.
  unfold get, add, insert, fn_insert. repeat case_decide; subst; done.
Qed.

Lemma get_inc k k' s :
  get k (inc k' s) = if decide (k = k') then (get k s + 1) mod 2 ^ 64 else get k s.
Proof. apply get_add. Qed.

Lemma get_guard_new k k' s :
  get k (GaugeGuard.new k' s) = if decide (k = k') then (get k s + 1) mod 2 ^ 64 else get k s.
Proof. apply get_add. Qed.

Lemma get_guard_drop k k' s :
  get k (GaugeGuard.drop k' s) = if decide (k = k') then (get k s - 1) mod 2 ^ 64 else get k s.
Proof.
  unfold get, GaugeGuard.drop, insert, fn_insert. repeat case_decide; subst; done.
Qed.

(** The same where it is known whether the counters are equal. *)
Lemma get_add_eq k v s : get k (add k v s) = (get k s + v) mod 2 ^ 64.
Proof. rewrite get_add. by rewrite decide_True. Qed.
Lemma get_add_ne k k' v s : k <> k' -> get k (add k' v s) = get k s.
Proof. intros. rewrite get_add. by rewrite decide_False. Qed.
Lemma get_new_eq k s : get k (GaugeGuard.new k s) = (get k s + 1) mod 2 ^ 64.
Proof. rewrite get_guard_new. by rewrite decide_True. Qed.
Lemma get_new_ne k k' s : k <> k' -> get k (GaugeGuard.new k' s) = get k s.
Proof. intros. rewrite get_guard_new. by rewrite decide_False. Qed.
Lemma get_drop_eq k s : get k (GaugeGuard.drop k s) = (get k s - 1) mod 2 ^ 64.
Proof. rewrite get_guard_drop. by rewrite decide_True. Qed.
Lemma get_drop_ne k k' s : k <> k' -> get k (GaugeGuard.drop k' s) = get k s.
Proof. intros. rewrite get_guard_drop. by rewrite decide_False. Qed.

(** Reads counters through a chain of updates. *)
Ltac read_counters :=
  unfold inc;
  repeat first
    [ rewrite get_add_eq | rewrite get_add_ne by discriminate
    | rewrite get_new_eq | rewrite get_new_ne by discriminate
    | rewrite get_drop_eq | rewrite get_drop_ne by discriminate ].

Lemma live_on_insert i k k' m :
  m !! i = None ->
  live_on k (<[i := k']> m) = live_on k m + (if decide (k = k') then 1 else 0).
Proof.
  intros Hi. unfold live_on. rewrite map_filter_insert. simpl.
  destruct (decide (k' = k)) as [-> | Hk].
  - rewrite decide_True by done. rewrite map_size_insert_None; [lia |].
    apply map_lookup_filter_None. by left.
  - rewrite decide_False by done. rewrite delete_id by done. lia.
Qed.

Lemma live_on_delete i k k' m :
  m !! i = Some k' ->
  live_on k (delete i m) = live_on k m - (if decide (k = k') then 1 else 0).
Proof.
  intros Hi. rewrite <- (insert_delete_id m i k') at 2 by done.
  rewrite live_on_insert by apply lookup_delete_eq. lia.
Qed.

(** ** Properties *)

(** Gauges count live sessions: however guards are made and dropped by
    the concurrent tasks, each gauge reads what it read at the start plus
    the number of guards of it that are alive (modulo 2^64), so it returns
    to its first value when all are dropped and never underflows below it. *)
Theorem gauge_counts_live (s0 : Counters) (s : gstate) (k : Counter) :
  uint 64 (s0 k) ->
  rtc gauge_step (mkG ∅ s0) s ->
  get k (cells s) = (s0 k + live_on k (live s)) mod 2 ^ 64.
Proof.
  intros H0 Hs. pattern s. eapply rtc_ind_r; [| clear s Hs | exact Hs].
  - unfold live_on. simpl. rewrite map_filter_empty, map_size_empty, Z.add_0_r.
    unfold get. simpl. rewrite Z.mod_small; [done | exact H0].
  - intros s s' _ Hstep IH. destruct Hstep as [i k' s Hi | i k' s Hi]; simpl.
    + rewrite get_guard_new, live_on_insert, IH by done. case_decide.
      * rewrite Zplus_mod_idemp_l. f_equal. lia.
      * by rewrite Z.add_0_r.
    + rewrite get_guard_drop, (live_on_delete _ _ k'), IH by done. case_decide.
      * rewrite Zminus_mod_idemp_l. f_equal. lia.
      * by rewrite Z.sub_0_r.
Qed.

Lemma gauge_counts_live_witness :
  get TCP_ACTIVE (GaugeGuard.drop UDP_ACTIVE (GaugeGuard.new TCP_ACTIVE (GaugeGuard.new UDP_ACTIVE zero_counters))) = 1.
Proof.
  etransitivity; [apply (gauge_counts_live zero_counters
    (mkG (delete 0%nat (<[1%nat := TCP_ACTIVE]> (<[0%nat := UDP_ACTIVE]> ∅)))
      (GaugeGuard.drop UDP_ACTIVE (GaugeGuard.new TCP_ACTIVE (GaugeGuard.new UDP_ACTIVE zero_counters)))) TCP_ACTIVE) | vm_compute; reflexivity].
  - vm_compute. split; congruence.
  - eapply rtc_l; [apply (step_new 0%nat UDP_ACTIVE (mkG ∅ zero_counters)); reflexivity |].
    eapply rtc_l; [apply (step_new 1%nat TCP_ACTIVE (mkG _ _)); reflexivity |].
    apply rtc_once. apply (step_drop 0%nat UDP_ACTIVE (mkG _ _)). reflexivity.
Defined.
