(* ===== verification/Format.v ===== *)
(** * Byte counts in the log ([format_bytes] of [src/stats.rs], the report of [src/lib.rs])

    Double-precision arithmetic is that of the standard library's
    specification of IEEE 754, with 53 bits of precision, rounded to nearest
    even. *)

From Stdlib Require Import ZArith Lia SpecFloat.
From Stdlib Require Import Strings.Ascii Strings.String.
From stdpp Require Import base decidable list strings.
From S2P Require Import Prelude StdNet Logging Stats.
#[local] Open Scope Z_scope.

(** ** Definitions *)

Definition UNITS : list string := ["B"; "KB"; "MB"; "GB"; "TB"].

(** [as f64] *)
Definition f64_of (z : Z) : spec_float := binary_normalize 53 1024 z 0 false.
Definition f64_div (x y : spec_float) : spec_float := SFdiv 53 1024 x y.
Definition STEP : spec_float := f64_of 1000.

(** The loop: [above] counts the units above the present one. *)
Fixpoint scale_down (above : nat) (value : spec_float) (unit : nat) : spec_float * nat :=
  match above with
  | O => (value, unit)
  | S above => if SFleb STEP value then scale_down above (f64_div value STEP) (S unit) else (value, unit)
  end.

(** The quotient rounded to nearest, ties to even. *)
Definition round_div (a b : Z) : Z :=
  let q := a / b in
  let r := a mod b in
  if 2 * r <? b then q else if b <? 2 * r then q + 1 else if Z.even q then q else q + 1.

(** [{:.2}] of a number that is not negative: its exact value in hundredths,
    rounded. *)
Definition hundredths (x : spec_float) : Z :=
  match x with
  | S754_finite _ m e => if 0 <=? e then Zpos m * 2 ^ e * 100 else round_div (Zpos m * 100) (2 ^ (- e))
  | _ => 0
  end.

Definition show_fixed2 (x : spec_float) : string :=
  let n := hundredths x in
  let frac := n mod 100 in
  show_dec (n / 100) +:+ "." +:+ show_dec (frac / 10) +:+ show_dec (frac mod 10).

Definition format_bytes (bytes : Z) : string :=
  if bytes <? 1000 then show_dec bytes +:+ " " +:+ nth 0 UNITS ""
  else
    let '(value, unit) := scale_down (length UNITS - 1) (f64_of bytes) 0 in
    show_fixed2 value +:+ " " +:+ nth unit UNITS "".

(** One line of [run_stats_reporter]. *)
Definition stats_line (s : Counters) : string :=
  "stats: tcp_active=" +:+ show_dec (get TCP_ACTIVE s) +:+ " tcp_open=" +:+ show_dec (get TCP_OPENED s) +:+
  " tcp_err=" +:+ show_dec (get TCP_ERRORS s) +:+ " udp_active=" +:+ show_dec (get UDP_ACTIVE s) +:+
  " udp_pkts=" +:+ show_dec (get UDP_PACKETS s) +:+ " udp_err=" +:+ show_dec (get UDP_ERRORS s) +:+
  " dns_req=" +:+ show_dec (get DNS_REQUESTS s) +:+ " dns_fail=" +:+ show_dec (get DNS_FAILURES s) +:+
  " tx=" +:+ format_bytes (get BYTES_TX s) +:+ " rx=" +:+ format_bytes (get BYTES_RX s).

(** The reporter wakes at every interval; [snapshots] are the counters it
    finds. *)
Definition run_stats_reporter (snapshots : list Counters) (log : Log) : Log :=
  fold_left (fun log s => Logger.info (stats_line s) log) snapshots log.

(** ** Properties *)

(** The cases of the program's own tests. *)
Theorem format_bytes_cases :
  format_bytes <$> [0; 512; 999; 1000; 1500; 2340000; 1100000000; 3000000000000; 5000000000000000] =
  ["0 B"; "512 B"; "999 B"; "1.00 KB"; "1.50 KB"; "2.34 MB"; "1.10 GB"; "3.00 TB"; "5000.00 TB"].
Proof. vm_compute. reflexivity. Qed.

(** The unit is chosen before the rounding: just below a million the text
    reads a thousand of the smaller unit. *)
Theorem format_bytes_carry : format_bytes 999999 = "1000.00 KB" /\ format_bytes 1000000 = "1.00 MB".
Proof. vm_compute. done. Qed.

(** The loop ends with a value below a thousand or at the last unit. *)
Lemma scale_down_ends above value unit v u :
  scale_down above value unit = (v, u) -> (u <= unit + above)%nat /\ (SFleb STEP v = false \/ u = (unit + above)%nat).
Proof.
  revert value unit. induction above as [| n IH]; intros value unit H; simpl in H.
  - injection H as <- <-. split; [lia | right; lia].
  - destruct (SFleb STEP value) eqn:E.
    + apply IH in H as [H1 H2]. split; [lia |]. destruct H2; [by left | right; lia].
    + injection H as <- <-. split; [lia | by left].
Qed.

(** [format_bytes] never indexes outside its units. *)
Theorem format_bytes_unit (bytes : Z) :
  exists v u, scale_down (length UNITS - 1) (f64_of bytes) 0 = (v, u) /\
    (u < length UNITS)%nat /\ (SFleb STEP v = false \/ u = 4%nat).
Proof.
  destruct (scale_down (length UNITS - 1) (f64_of bytes) 0) as [v u] eqn:E. exists v, u. split; [done |].
  apply scale_down_ends in E. simpl in *. split; [lia | tauto].
Qed.
