(* ===== verification/FormatBounds.v ===== *)
(** * How exact byte counts in the log are ([format_bytes] of [src/stats.rs])

    [format_bytes] divides a double by a thousand up to four times and prints
    two decimals. The errors of the conversion and of the divisions are
    bounded from the definitions of the standard library's specification of
    IEEE 754; what is printed is the right number of hundredths of the unit,
    but for an error of less than 900 bytes in 2^51. *)

From Stdlib Require Import ZArith Lia SpecFloat.
From Stdlib Require Import Strings.Ascii Strings.String.
From stdpp Require Import base decidable list strings.
From S2P Require Import Prelude StdNet StdText Format.
#[local] Open Scope Z_scope.

(** ** Lemmas: digits and shifts *)

Lemma pow2_S k : 0 <= k -> 2 ^ (k + 1) = 2 * 2 ^ k.
Proof. intros. rewrite Z.pow_add_r by lia. lia. Qed.

Lemma digits2_bounds p : 2 ^ (Zpos (digits2_pos p) - 1) <= Zpos p < 2 ^ Zpos (digits2_pos p).
Proof.
  assert (Hs : forall p, Zpos (Pos.succ p) = Zpos p + 1) by lia.
  induction p as [p IH | p IH |]; cbn [digits2_pos]; [| | cbn; lia]; rewrite Hs;
    replace (Zpos (digits2_pos p) + 1 - 1) with (Zpos (digits2_pos p) - 1 + 1) by lia;
    set (k := Zpos (digits2_pos p)) in *; assert (Hk : 1 <= k) by lia; clearbody k;
    rewrite (pow2_S (k - 1)), (pow2_S k) by lia; lia.
Qed.

(** A number is between two powers of two: so many digits has it. *)
Lemma digits2_eq q d : 0 < d -> 2 ^ (d - 1) <= q < 2 ^ d -> Zdigits2 q = d.
Proof.
  intros Hd Hq. assert (0 < 2 ^ (d - 1)) by (apply Z.pow_pos_nonneg; lia). destruct q as [| p |]; [lia | | lia].
  pose proof (digits2_bounds p) as Hp. cbn [Zdigits2]. set (k := Zpos (digits2_pos p)) in *.
  destruct (Z.lt_trichotomy k d) as [Hlt | [-> | Hlt]]; [| done |].
  - assert (2 ^ k <= 2 ^ (d - 1)) by (apply Z.pow_le_mono_r; lia). lia.
  - assert (2 ^ d <= 2 ^ (k - 1)) by (apply Z.pow_le_mono_r; lia). lia.
Qed.

Lemma digits2_pos_bounds q : 0 < q -> 0 < Zdigits2 q /\ 2 ^ (Zdigits2 q - 1) <= q < 2 ^ Zdigits2 q.
Proof. destruct q as [| p |]; try lia. intros _. split; [cbn; lia | apply digits2_bounds]. Qed.

Lemma shr_1_half r : 0 <= shr_m r -> shr_m (shr_1 r) = shr_m r / 2.
Proof.
  destruct r as [m b s]. cbn [shr_m]. intros Hm. rewrite <- Z.div2_div.
  by destruct m as [| [p | p |] |]; [.. | lia].
Qed.

Lemma iter_shr p r : 0 <= shr_m r -> shr_m (SpecFloat.iter_pos shr_1 p r) = shr_m r / 2 ^ Zpos p.
Proof.
  revert r. induction p as [p IH | p IH |]; intros r Hr; cbn [SpecFloat.iter_pos].
  - assert (H1 : 0 <= shr_m (shr_1 r)) by (rewrite shr_1_half by done; apply Z.div_pos; lia).
    assert (H2 : 0 <= shr_m (SpecFloat.iter_pos shr_1 p (shr_1 r))) by (rewrite IH by done; apply Z.div_pos; lia).
    rewrite (IH _ H2), (IH _ H1), (shr_1_half r Hr), !Z.div_div by lia. f_equal.
    replace (Zpos p~1) with (1 + Zpos p + Zpos p) by lia. rewrite !Z.pow_add_r by lia. lia.
  - assert (H2 : 0 <= shr_m (SpecFloat.iter_pos shr_1 p r)) by (rewrite IH by done; apply Z.div_pos; lia).
    rewrite (IH _ H2), (IH _ Hr), !Z.div_div by lia. f_equal.
    replace (Zpos p~0) with (Zpos p + Zpos p) by lia. rewrite !Z.pow_add_r by lia. lia.
  - by apply shr_1_half.
Qed.

Lemma shr_value r e n : 0 <= shr_m r -> 0 <= n -> shr_m (shr r e n).1 = shr_m r / 2 ^ n /\ (shr r e n).2 = e + n.
Proof.
  intros Hr Hn. destruct n as [| p |]; [| | lia]; cbn [shr fst snd].
  - change (2 ^ 0) with 1. rewrite Z.div_1_r. split; [done | lia].
  - by rewrite iter_shr.
Qed.

Lemma shr_m_of_loc m l : shr_m (shr_record_of_loc m l) = m.
Proof. by destruct l as [| []]. Qed.

(** ** Lemmas: rounding *)

Lemma fexp_normal e : -1000 <= e -> fexp 53 1024 e = e - 53.
Proof. unfold fexp, emin. lia. Qed.

(** To [53] digits, by dropping the others. *)
Lemma shr_fexp_value q e l :
  2 ^ 52 <= q -> -500 <= e ->
  let k := Zdigits2 q - 53 in
  0 <= k /\ (exists r, shr_fexp 53 1024 q e l = (r, e + k) /\ shr_m r = q / 2 ^ k) /\ 2 ^ 52 <= q / 2 ^ k < 2 ^ 53.
Proof.
  intros Hq He. cbv zeta. destruct (digits2_pos_bounds q) as [Hd Hb]; [lia |].
  assert (Hk : 53 <= Zdigits2 q).
  { destruct (Z.le_gt_cases 53 (Zdigits2 q)) as [? | Hlt]; [done |]. exfalso.
    assert (2 ^ Zdigits2 q <= 2 ^ 52) by (apply Z.pow_le_mono_r; lia). lia. }
  split; [lia |]. split.
  - unfold shr_fexp. rewrite fexp_normal by lia. replace (Zdigits2 q + e - 53 - e) with (Zdigits2 q - 53) by lia.
    destruct (shr_value (shr_record_of_loc q l) e (Zdigits2 q - 53)) as [H1 H2]; [rewrite shr_m_of_loc; lia | lia |].
    destruct (shr _ _ _) as [r e']. cbn in H1, H2. subst e'. exists r. by rewrite H1, shr_m_of_loc.
  - set (d := Zdigits2 q) in *. assert (Hp : 0 < 2 ^ (d - 53)) by (apply Z.pow_pos_nonneg; lia). split.
    + apply Z.div_le_lower_bound; [done |]. rewrite <- Z.pow_add_r by lia. replace (d - 53 + 52) with (d - 1) by lia. apply Hb.
    + apply Z.div_lt_upper_bound; [done |]. rewrite <- Z.pow_add_r by lia. replace (d - 53 + 53) with d by lia. apply Hb.
Qed.

Lemma rounds_to m l : round_nearest_even m l = m \/ round_nearest_even m l = m + 1.
Proof. destruct l as [| []]; cbn; auto. destruct (Z.even m); auto. Qed.

(** The value of a double in units of [2 ^ -60]. *)
Definition value_of (m : Z) (e : Z) : Z := m * 2 ^ (e + 60).

Lemma value_shift m e k : 0 <= k -> -60 <= e -> value_of (m * 2 ^ k) e = value_of m (e + k).
Proof.
  intros Hk He. unfold value_of. replace (e + k + 60) with (k + (e + 60)) by lia.
  rewrite (Z.pow_add_r 2 k) by lia. by rewrite Z.mul_assoc.
Qed.

(** Rounding to a double is off by less than one in [2 ^ 52]. *)
Lemma round_aux_value q e l :
  2 ^ 52 <= q -> -60 <= e -> e + Zdigits2 q <= 500 ->
  exists m e', binary_round_aux 53 1024 false q e l = S754_finite false m e' /\ 2 ^ 52 <= Zpos m < 2 ^ 53 /\
    e <= e' <= e + Zdigits2 q /\ Z.abs (value_of (Zpos m) e' - value_of q e) * 2 ^ 52 <= value_of q e.
Proof.
  intros Hq He Hd. destruct (shr_fexp_value q e l Hq ltac:(lia)) as (Hk & (r & Hr & Hm) & Hb).
  set (k := Zdigits2 q - 53) in *. set (m := q / 2 ^ k) in *. unfold binary_round_aux. rewrite Hr, Hm.
  set (m' := round_nearest_even m (loc_of_shr_record r)).
  assert (Hm' : m' = m \/ m' = m + 1) by apply rounds_to. clearbody m'.
  destruct (shr_fexp_value m' (e + k) loc_Exact ltac:(lia) ltac:(lia)) as (Hk2 & (r2 & -> & Hm2) & Hb2).
  set (k2 := Zdigits2 m' - 53) in *.
  assert (Hexact : m' / 2 ^ k2 * 2 ^ k2 = m' /\ k2 <= 1).
  { destruct (Z.eq_dec m' (2 ^ 53)) as [E | E].
    - assert (Hk1 : k2 = 1) by (unfold k2; rewrite E; reflexivity). rewrite Hk1, E. split; [reflexivity | lia].
    - assert (Hk0 : k2 = 0) by (unfold k2; rewrite (digits2_eq m' 53) by lia; reflexivity). rewrite Hk0.
      change (2 ^ 0) with 1. rewrite Z.div_1_r. lia. }
  destruct Hexact as [Hex Hk3]. rewrite Hm2. destruct (m' / 2 ^ k2) as [| p |] eqn:Ep; [lia | | lia].
  rewrite (proj2 (Z.leb_le _ _)) by lia. exists p, (e + k + k2). split; [done |]. split; [lia |]. split; [lia |].
  rewrite <- value_shift, Hex by lia. rewrite <- (value_shift m' e k) by lia. unfold value_of.
  assert (Hp : 0 < 2 ^ (e + 60)) by (apply Z.pow_pos_nonneg; lia). assert (Hpk : 0 < 2 ^ k) by (apply Z.pow_pos_nonneg; lia).
  assert (Hdiv : m * 2 ^ k <= q < m * 2 ^ k + 2 ^ k).
  { pose proof (Z.div_mod q (2 ^ k) ltac:(lia)). pose proof (Z.mod_pos_bound q (2 ^ k) Hpk). unfold m. lia. }
  rewrite <- Z.mul_sub_distr_r, Z.abs_mul, (Z.abs_eq (2 ^ (e + 60))) by lia.
  assert (Hab : Z.abs (m' * 2 ^ k - q) <= 2 ^ k) by (destruct Hm' as [-> | ->]; lia).
  assert (Hq2 : 2 ^ k * 2 ^ 52 <= q) by nia. nia.
Qed.

(** ** Lemmas: the operations *)

(** A normal double in the range of the program's values. *)
Definition normal (m : positive) (e : Z) : Prop := 2 ^ 52 <= Zpos m < 2 ^ 53 /\ -55 <= e <= 400.

Lemma iter_xO p d : Zpos (Pos.iter xO p d) = Zpos p * 2 ^ Zpos d.
Proof.
  induction d as [| d IH] using Pos.peano_ind.
  { change (Pos.iter xO p 1) with (xO p). change (2 ^ 1) with 2. lia. }
  rewrite Pos.iter_succ, Pos2Z.inj_succ, Z.pow_succ_r by lia.
  rewrite Pos2Z.inj_xO, IH. ring.
Qed.

Lemma f64_of_value b :
  1000 <= b < 2 ^ 64 ->
  exists m e, f64_of b = S754_finite false m e /\ 2 ^ 52 <= Zpos m < 2 ^ 53 /\ -43 <= e <= 100 /\
    Z.abs (value_of (Zpos m) e - value_of b 0) * 2 ^ 52 <= value_of b 0.
Proof.
  intros Hb. destruct b as [| p |]; [lia | | lia]. unfold f64_of, binary_normalize, binary_round.
  pose proof (digits2_bounds p) as Hd. set (d := Zpos (digits2_pos p)) in *.
  assert (Hd1 : 10 <= d).
  { destruct (Z.le_gt_cases 10 d) as [? | Hlt]; [done |]. assert (2 ^ d <= 2 ^ 9) by (apply Z.pow_le_mono_r; lia). lia. }
  assert (Hd2 : d <= 64).
  { destruct (Z.le_gt_cases d 64) as [? | Hlt]; [done |]. assert (2 ^ 64 <= 2 ^ (d - 1)) by (apply Z.pow_le_mono_r; lia). lia. }
  rewrite fexp_normal, Z.add_0_r by lia. unfold shl_align. rewrite Z.sub_0_r. destruct (d - 53) as [| k | k] eqn:Ek.
  - destruct (round_aux_value (Zpos p) 0 loc_Exact) as (m & e & -> & Hm & He & Hv); [| lia | cbn [Zdigits2]; fold d; lia |].
    { replace (d - 1) with 52 in Hd by lia. lia. }
    exists m, e. cbn [Zdigits2] in He. fold d in He. split_and!; [done | lia .. | done].
  - destruct (round_aux_value (Zpos p) 0 loc_Exact) as (m & e & -> & Hm & He & Hv); [| lia | cbn [Zdigits2]; fold d; lia |].
    { assert (2 ^ 52 <= 2 ^ (d - 1)) by (apply Z.pow_le_mono_r; lia). lia. }
    exists m, e. cbn [Zdigits2] in He. fold d in He. split_and!; [done | lia .. | done].
  - assert (Hq : Zpos (Pos.iter xO p k) = Zpos p * 2 ^ Zpos k) by apply iter_xO.
    assert (Hqb : 2 ^ 52 <= Zpos p * 2 ^ Zpos k < 2 ^ 53).
    { assert (E1 : 2 ^ 52 = 2 ^ (d - 1) * 2 ^ Zpos k) by (rewrite <- Z.pow_add_r by lia; f_equal; lia).
      assert (E2 : 2 ^ 53 = 2 ^ d * 2 ^ Zpos k) by (rewrite <- Z.pow_add_r by lia; f_equal; lia).
      assert (0 < 2 ^ Zpos k) by (apply Z.pow_pos_nonneg; lia). rewrite E1, E2. nia. }
    assert (Hd53 : Zdigits2 (Zpos p * 2 ^ Zpos k) = 53) by (apply digits2_eq; lia).
    rewrite Hq. destruct (round_aux_value (Zpos p * 2 ^ Zpos k) (Z.neg k) loc_Exact) as (m & e & -> & Hm & He & Hv); [lia | lia | lia |].
    rewrite value_shift in Hv by lia. replace (Z.neg k + Zpos k) with 0 in Hv by lia.
    exists m, e. split_and!; [done | lia .. | done].
Qed.

Lemma STEP_eq : STEP = S754_finite false 8796093022208000 (-43).
Proof. vm_compute. reflexivity. Qed.

Lemma step_le m e : normal m e -> SFleb STEP (S754_finite false m e) = (1000 * 2 ^ 60 <=? value_of (Zpos m) e).
Proof.
  intros [Hm He]. rewrite STEP_eq. assert (Hc : Zpos 8796093022208000 = 1000 * 2 ^ 43) by reflexivity.
  generalize dependent 8796093022208000%positive. intros c Hc. unfold SFleb, SFcompare, value_of. symmetry.
  destruct (Z.compare_spec (-43) e) as [<- | Hlt | Hgt].
  - pose proof (Pos.compare_spec c m) as Hs. unfold Pos.compare in Hs. change (-43 + 60) with 17.
    destruct (Pos.compare_cont Eq c m); inversion Hs; [apply Z.leb_le | apply Z.leb_le | apply Z.leb_gt]; lia.
  - apply Z.leb_le. assert (2 ^ 18 <= 2 ^ (e + 60)) by (apply Z.pow_le_mono_r; lia). nia.
  - apply Z.leb_gt. assert (2 ^ (e + 60) <= 2 ^ 16) by (apply Z.pow_le_mono_r; lia).
    assert (0 < 2 ^ (e + 60)) by (apply Z.pow_pos_nonneg; lia). nia.
Qed.

Lemma f64_div_value m e :
  normal m e -> -44 <= e <= 300 ->
  exists m' e', f64_div (S754_finite false m e) STEP = S754_finite false m' e' /\ 2 ^ 52 <= Zpos m' < 2 ^ 53 /\
    e - 10 <= e' <= e + 60 /\ Z.abs (1000 * value_of (Zpos m') e' - value_of (Zpos m) e) * 2 ^ 51 <= value_of (Zpos m) e.
Proof.
  intros [Hm _] He. rewrite STEP_eq. unfold f64_div, SFdiv, SFdiv_core_binary. cbn [xorb].
  rewrite (digits2_eq (Zpos m) 53) by lia. change (Zdigits2 8796093022208000) with 53.
  rewrite fexp_normal by lia. replace (Z.min _ _) with (e - 10) by lia. replace (e - -43 - (e - 10)) with 53 by lia.
  change (match 53 with Z0 => _ | Zpos _ => ?x | Zneg _ => _ end) with x. rewrite Z.shiftl_mul_pow2 by lia.
  pose proof (Z_div_mod (Zpos m * 2 ^ 53) 8796093022208000 ltac:(lia)) as Hqr. destruct (Z.div_eucl _ _) as [q r].
  destruct Hqr as [Hq Hr].
  assert (Hqb : 2 ^ 52 <= q < 2 ^ 54) by lia.
  assert (Hdq : Zdigits2 q <= 54).
  { destruct (digits2_pos_bounds q) as [_ Hd]; [lia |]. destruct (Z.le_gt_cases (Zdigits2 q) 54) as [? | Hlt]; [done |].
    assert (2 ^ 54 <= 2 ^ (Zdigits2 q - 1)) by (apply Z.pow_le_mono_r; lia). lia. }
  destruct (round_aux_value q (e - 10) (new_location 8796093022208000 r)) as (m' & e' & -> & Hm' & He' & Hv); [lia .. |].
  exists m', e'. split; [done |]. split; [done |]. split; [lia |].
  assert (Hp : 0 < 2 ^ (e + 50)) by (apply Z.pow_pos_nonneg; lia).
  assert (E1 : value_of q (e - 10) = q * 2 ^ (e + 50)) by (unfold value_of; do 2 f_equal; lia).
  assert (E2 : value_of (Zpos m) e = Zpos m * 1024 * 2 ^ (e + 50)).
  { unfold value_of. replace (e + 60) with (10 + (e + 50)) by lia. rewrite Z.pow_add_r by lia. change (2 ^ 10) with 1024. lia. }
  rewrite E1 in Hv. rewrite E2. set (P := 2 ^ (e + 50)) in *. set (V := value_of (Zpos m') e') in *.
  assert (H1 : 1000 * q <= Zpos m * 1024 < 1000 * q + 1000) by lia. nia.
Qed.

(** ** Lemmas: the loop *)

Section Loop.
Context (bytes : Z) (Hbytes : 1000 <= bytes < 2 ^ 64).

(** After [k] divisions the value is [bytes / 1000 ^ k], but for [1 + 2 k]
    errors of one in [2 ^ 51]; after the first it is not below one. *)
Record scaled (k : nat) (m : positive) (e : Z) : Prop := {
  sc_mantissa : 2 ^ 52 <= Zpos m < 2 ^ 53;
  sc_exponent : -55 <= e <= 100 + 60 * Z.of_nat k;
  sc_error : Z.abs (1000 ^ Z.of_nat k * value_of (Zpos m) e - value_of bytes 0) * 2 ^ 51 <=
    (1 + 2 * Z.of_nat k) * value_of bytes 0;
  sc_lower : (0 < k)%nat -> 2 ^ 60 - 2 ^ 10 <= value_of (Zpos m) e;
}.

Lemma scaled_start : exists m e, f64_of bytes = S754_finite false m e /\ scaled 0 m e /\ 1000 * 2 ^ 60 <= value_of (Zpos m) e.
Proof.
  destruct (Z.eq_dec bytes 1000) as [E | Hne].
  { exists 8796093022208000%positive, (-43). split; [rewrite E; apply STEP_eq |].
    split; [| vm_compute; discriminate].
    constructor; [split | split | rewrite E | by intros ?%Nat.lt_irrefl]; vm_compute; (discriminate || reflexivity). }
  destruct (f64_of_value bytes Hbytes) as (m & e & Hf & Hm & He & Hv). exists m, e. split; [done |].
  unfold value_of at 2 3 in Hv. change (2 ^ (0 + 60)) with (2 ^ 60) in Hv. split; [| lia].
  constructor; [done | lia | | lia]. change (1000 ^ Z.of_nat 0) with 1. unfold value_of at 2 3. change (2 ^ (0 + 60)) with (2 ^ 60). lia.
Qed.

Lemma scaled_normal k m e : (k <= 4)%nat -> scaled k m e -> normal m e.
Proof. intros Hk [H1 H2 _ _]. split; [done | lia]. Qed.

Lemma scaled_step k m e :
  (k < 4)%nat -> scaled k m e -> 1000 * 2 ^ 60 <= value_of (Zpos m) e ->
  exists m' e', f64_div (S754_finite false m e) STEP = S754_finite false m' e' /\ scaled (S k) m' e'.
Proof.
  intros Hk Hs Hv. pose proof Hs as [Hm He Herr _].
  assert (He44 : -44 <= e).
  { destruct (Z.le_gt_cases (-44) e) as [? | Hlt]; [done |]. unfold value_of in Hv.
    assert (2 ^ (e + 60) <= 2 ^ 15) by (apply Z.pow_le_mono_r; lia). assert (0 < 2 ^ (e + 60)) by (apply Z.pow_pos_nonneg; lia). nia. }
  destruct (f64_div_value m e) as (m' & e' & Hd & Hm' & He' & Herr'); [by apply (scaled_normal k); [lia |] | lia |].
  exists m', e'. split; [done |]. set (V := value_of (Zpos m) e) in *. set (V' := value_of (Zpos m') e') in *.
  set (B := value_of bytes 0) in *. assert (HB : 0 < B) by (unfold B, value_of; change (2 ^ (0 + 60)) with (2 ^ 60); lia).
  constructor; [done | lia | | fold V'; lia].
  rewrite Nat2Z.inj_succ, Z.pow_succ_r by lia. fold V' B. set (T := 1000 ^ Z.of_nat k) in *.
  assert (HT : 0 < T) by (apply Z.pow_pos_nonneg; lia).
  assert (H1 : Z.abs (T * (1000 * V' - V)) * 2 ^ 51 <= T * V) by (rewrite Z.abs_mul, (Z.abs_eq T) by lia; nia).
  assert (Hc : (1 + 2 * Z.of_nat k) * B <= 9 * B) by nia. assert (H2 : T * V <= 2 * B) by lia.
  replace (1000 * T * V' - B) with (T * (1000 * V' - V) + (T * V - B)) by ring.
  replace ((1 + 2 * Z.succ (Z.of_nat k)) * B) with ((1 + 2 * Z.of_nat k) * B + 2 * B) by ring. lia.
Qed.

Lemma scaled_loop above k m e :
  (k + above = 4)%nat -> scaled k m e ->
  exists u m' e', scale_down above (S754_finite false m e) k = (S754_finite false m' e', u) /\ scaled u m' e' /\
    (k <= u <= 4)%nat /\ (u = 4%nat \/ value_of (Zpos m') e' < 1000 * 2 ^ 60) /\
    ((k < 4)%nat -> 1000 * 2 ^ 60 <= value_of (Zpos m) e -> (k < u)%nat).
Proof.
  revert k m e. induction above as [| above IH]; intros k m e Hk Hs; cbn [scale_down].
  { exists k, m, e. split_and!; try done; lia || (left; lia). }
  rewrite step_le by (apply (scaled_normal k); [lia | done]).
  destruct (Z.leb_spec (1000 * 2 ^ 60) (value_of (Zpos m) e)) as [Hv | Hv].
  - destruct (scaled_step k m e ltac:(lia) Hs Hv) as (m1 & e1 & -> & Hs1).
    destruct (IH (S k) m1 e1 ltac:(lia) Hs1) as (u & m' & e' & -> & Hu & Hku & Hend & _).
    exists u, m', e'. split_and!; [done | done | lia | lia | done | lia].
  - exists k, m, e. split_and!; [done | done | lia | lia | by right | lia].
Qed.
End Loop.

(** ** Lemmas: two decimals *)

Lemma round_div_near a b : 0 < b -> Z.abs (b * round_div a b - a) * 2 <= b.
Proof.
  intros Hb. unfold round_div. pose proof (Z.div_mod a b ltac:(lia)) as Hd. pose proof (Z.mod_pos_bound a b Hb) as Hr.
  cbv zeta. destruct (Z.ltb_spec (2 * (a mod b)) b); [nia |]. destruct (Z.ltb_spec b (2 * (a mod b))); [nia |].
  destruct (Z.even (a / b)); nia.
Qed.

Lemma hundredths_near m e :
  -60 <= e -> Z.abs (hundredths (S754_finite false m e) * 2 ^ 60 - 100 * value_of (Zpos m) e) * 2 <= 2 ^ 60.
Proof.
  intros He. unfold hundredths, value_of. destruct (Z.leb_spec 0 e) as [H0 | H0].
  - rewrite (Z.pow_add_r 2 e 60) by lia. replace (_ - _) with 0 by ring. cbn. lia.
  - assert (Hb : 0 < 2 ^ (- e)) by (apply Z.pow_pos_nonneg; lia). pose proof (round_div_near (Zpos m * 100) (2 ^ - e) Hb) as Hr.
    set (h := round_div _ _) in *. assert (E : 2 ^ 60 = 2 ^ (- e) * 2 ^ (e + 60)) by (rewrite <- Z.pow_add_r by lia; f_equal; lia).
    assert (Hp : 0 < 2 ^ (e + 60)) by (apply Z.pow_pos_nonneg; lia). rewrite E.
    replace (_ - _) with ((2 ^ (- e) * h - Zpos m * 100) * 2 ^ (e + 60)) by ring. rewrite Z.abs_mul, (Z.abs_eq (2 ^ _)) by lia. nia.
Qed.

(** [n] hundredths of the unit [u]. *)
Definition amount (n : Z) (u : nat) : string :=
  show_dec (n / 100) +:+ "." +:+ show_dec (n mod 100 / 10) +:+ show_dec (n mod 100 mod 10) +:+ " " +:+ nth u UNITS "".

(** ** Properties *)

(** C40. The amounts in the log are right: a count of a thousand bytes or more
    is printed as a whole number of hundredths of one of the units above the
    byte, from 1.00 to 1000.00 of it unless the unit is the last; that number
    is the exact one rounded to the nearest, but for an error of 900 bytes in
    [2 ^ 51] from the conversion and the divisions in double precision. *)
Theorem format_bytes_accurate (bytes : Z) :
  1000 <= bytes < 2 ^ 64 ->
  exists (n : Z) (u : nat),
    format_bytes bytes = amount n u /\
    (1 <= u <= 4)%nat /\ 100 <= n /\ (n <= 100000 \/ u = 4%nat) /\
    2 ^ 51 * Z.abs (2 * (n * 1000 ^ Z.of_nat u - 100 * bytes)) <= 2 ^ 51 * 1000 ^ Z.of_nat u + 1800 * bytes.
Proof.
  intros Hb. destruct (scaled_start bytes Hb) as (m0 & e0 & Hf & Hs0 & Hv0).
  destruct (scaled_loop bytes Hb 4 0 m0 e0 eq_refl Hs0) as (u & m & e & Hl & Hs & Hu & Hend & Hpos).
  pose proof (hundredths_near m e) as Hh. pose proof Hs as [_ He Herr Hlow]. set (n := hundredths (S754_finite false m e)) in *.
  specialize (Hpos ltac:(lia) Hv0). specialize (Hlow Hpos). specialize (Hh ltac:(lia)).
  exists n, u. split_and!; [| lia | lia | lia | |].
  - unfold format_bytes. rewrite (proj2 (Z.ltb_ge _ _)) by lia. rewrite Hf. change (length UNITS - 1)%nat with 4%nat. rewrite Hl.
    unfold show_fixed2, amount. fold n. cbv zeta. by rewrite !string_app_assoc.
  - destruct Hend as [-> | Hend]; [by right | left; lia].
  - set (T := 1000 ^ Z.of_nat u) in *. assert (HT : 0 < T) by (apply Z.pow_pos_nonneg; lia).
    set (V := value_of (Zpos m) e) in *. unfold value_of in Herr. change (2 ^ (0 + 60)) with (2 ^ 60) in Herr.
    assert (H1 : Z.abs (T * (n * 2 ^ 60 - 100 * V)) * 2 <= T * 2 ^ 60) by (rewrite Z.abs_mul, (Z.abs_eq T) by lia; nia).
    assert (H2 : Z.abs (T * V - bytes * 2 ^ 60) * 2 ^ 51 <= 9 * (bytes * 2 ^ 60)) by nia.
    assert (E : (n * T - 100 * bytes) * 2 ^ 60 = T * (n * 2 ^ 60 - 100 * V) + 100 * (T * V - bytes * 2 ^ 60)) by ring. lia.
Qed.

Lemma format_bytes_accurate_witness :
  format_bytes 2345678 = "2.35 MB" /\
  exists (n : Z) (u : nat), format_bytes 2345678 = amount n u /\ (1 <= u <= 4)%nat /\ 100 <= n /\
    2 ^ 51 * Z.abs (2 * (n * 1000 ^ Z.of_nat u - 100 * 2345678)) <= 2 ^ 51 * 1000 ^ Z.of_nat u + 1800 * 2345678.
Proof.
  split; [vm_compute; reflexivity |].
  destruct (format_bytes_accurate 2345678) as (n & u & H0 & H1 & H2 & _ & H3); [lia |].
  exists n, u. exact (conj H0 (conj H1 (conj H2 H3))).
Defined.
