(* ===== verification/Metrics.v ===== *)
(** * Metrics endpoint ([src/metrics.rs])

    The text exposition of the counters, the HTTP response that carries it
    and the accept loop, with a scraper to state what a client reads. *)

From Stdlib Require Import ZArith Lia.
From Stdlib Require Import Strings.Ascii Strings.String.
From stdpp Require Import base decidable list strings gmap.
From S2P Require Import Prelude StdNet StdText Stats Logging.
#[local] Open Scope Z_scope.

(** ** Definitions *)

Definition nl : string := String LF "".
Definition crlf : string := String CR (String LF "").

Definition metric (out name help kind : string) (value : Z) : string :=
  out +:+ "# HELP " +:+ name +:+ " " +:+ help +:+ nl +:+
  "# TYPE " +:+ name +:+ " " +:+ kind +:+ nl +:+
  name +:+ " " +:+ show_dec value +:+ nl.

Definition counters : list (string * string * Counter) := [
  ("cortado_tcp_opened_total", "TCP connections opened", TCP_OPENED);
  ("cortado_tcp_closed_total", "TCP connections closed", TCP_CLOSED);
  ("cortado_tcp_errors_total", "TCP relay errors", TCP_ERRORS);
  ("cortado_udp_packets_total", "UDP packets ingested", UDP_PACKETS);
  ("cortado_udp_errors_total", "UDP relay errors", UDP_ERRORS);
  ("cortado_bytes_tx_total", "Bytes sent to proxy", BYTES_TX);
  ("cortado_bytes_rx_total", "Bytes received from proxy", BYTES_RX);
  ("cortado_bytes_ipv4_total", "Bytes relayed for IPv4 destinations", BYTES_V4);
  ("cortado_bytes_ipv6_total", "Bytes relayed for IPv6 destinations", BYTES_V6);
  ("cortado_dns_requests_total", "DNS requests handled", DNS_REQUESTS);
  ("cortado_dns_failures_total", "DNS requests that failed", DNS_FAILURES);
  ("cortado_dns_pool_hits_total", "DNS queries served by a reused connection", DNS_POOL_HITS);
  ("cortado_dns_pool_misses_total", "DNS queries that opened a new connection", DNS_POOL_MISSES);
  ("cortado_route_direct_total", "Flows classified as direct", ROUTE_DIRECT);
  ("cortado_route_proxy_total", "Flows classified as proxied", ROUTE_PROXY);
  ("cortado_conn_failures_total", "Outbound connection failures", CONN_FAILURES);
  ("cortado_socks_handshake_failures_total", "SOCKS5 handshake failures", SOCKS_HANDSHAKE_FAILURES)].

Definition gauges : list (string * string * Counter) := [
  ("cortado_tcp_sessions_active", "Active TCP sessions", TCP_ACTIVE);
  ("cortado_udp_sessions_active", "Active UDP sessions", UDP_ACTIVE)].

Definition render (s : Counters) : string :=
  let out := "" in
  let out := fold_left (fun out '(name, help, counter) =>
               metric out name help "counter" (get counter s)) counters out in
  let out := metric out "cortado_config_reloads_total" "Configuration reloads applied" "counter"
               (get CONFIG_RELOADS s) in
  fold_left (fun out '(name, help, gauge) => metric out name help "gauge" (get gauge s)) gauges out.

Definition response (body : string) : string :=
  "HTTP/1.1 200 OK" +:+ crlf +:+ "Content-Type: text/plain; version=0.0.4" +:+ crlf +:+
  "Content-Length: " +:+ show_dec (Z.of_nat (String.length body)) +:+ crlf +:+
  "Connection: close" +:+ crlf +:+ crlf +:+ body.

(** The client's connection: what it has received and whether the stream was
    shut down. The request is read once, up to 1024 bytes, and not looked at;
    [write_ok] says whether the write went through. *)
Record Client : Type := mkClient { received : string; shut : bool }.

Definition handle_client (write_ok : bool) (s : Counters) (c : Client) : Client :=
  let body := render s in
  let c := if write_ok then mkClient (received c +:+ response body) (shut c) else c in
  mkClient (received c) true.

(** The accept loop, on the results of [accept] so far: the connections for
    which a task was spawned, and the log. *)
Fixpoint accept_loop {C : Type} (accepts : list (Result string C)) (log : Log) : list C * Log :=
  match accepts with
  | [] => ([], log)
  | Ok c :: accepts => let '(l, log) := accept_loop accepts log in (c :: l, log)
  | Err e :: accepts => accept_loop accepts (Logger.warn ("metrics accept error: " +:+ e) log)
  end.

Definition serve {C : Type} (addr : SocketAddr) (bind : Result string unit)
    (accepts : list (Result string C)) (log : Log) : list C * Log :=
  match bind with
  | Err e => ([], Logger.error ("failed to bind metrics endpoint " +:+ show_sockaddr addr +:+ ": " +:+ e) log)
  | Ok _ => accept_loop accepts (Logger.info ("metrics endpoint listening on " +:+ show_sockaddr addr) log)
  end.

(** ** Specification: a scraping client *)

(** The text up to the first CR LF and what follows it. *)
Fixpoint split_crlf (s : string) : option (string * string) :=
  match s with
  | "" => None
  | String c s' =>
      match strip_prefix crlf s with
      | Some rest => Some ("", rest)
      | None => match split_crlf s' with Some (l, r) => Some (String c l, r) | None => None end
      end
  end.

Fixpoint http_head (fuel : nat) (s : string) : option (list string * string) :=
  match fuel with
  | O => None
  | S fuel =>
      match split_crlf s with
      | None => None
      | Some (l, r) =>
          if decide (l = "") then Some ([], r)
          else match http_head fuel r with Some (h, b) => Some (l :: h, b) | None => None end
      end
  end.

(** The body of a 200 response whose declared length is the length received. *)
Definition http_body (s : string) : option string :=
  match http_head 8 s with
  | Some (status :: headers, body) =>
      if decide (starts_with status "HTTP/1.1 200 " = true /\
                 ("Content-Length: " +:+ show_dec (Z.of_nat (String.length body))) ∈ headers)
      then Some body else None
  | _ => None
  end.

(** The value of the first sample line of a metric. *)
Fixpoint sample (name : string) (l : list string) : option Z :=
  match l with
  | [] => None
  | line :: l =>
      match strip_prefix (name +:+ " ") line with
      | Some v => ok (parse_uint 64 v)
      | None => sample name l
      end
  end.

Definition scrape (name : string) (s : string) : option Z :=
  match http_body s with Some b => sample name (lines b) | None => None end.

(** All metrics, in the order they are rendered. *)
Definition all_metrics : list (string * string * Counter) :=
  counters ++ [("cortado_config_reloads_total", "Configuration reloads applied", CONFIG_RELOADS)] ++ gauges.

(** ** Lemmas *)

Definition block (kind : string) (s : Counters) (m : string * string * Counter) : list string :=
  let '(name, help, k) := m in
  ["# HELP " +:+ name +:+ " " +:+ help; "# TYPE " +:+ name +:+ " " +:+ kind;
   name +:+ " " +:+ show_dec (get k s)].

Definition join_lines (l : list string) : string := foldr (fun x s => x +:+ String LF s) "" l.

Lemma join_lines_app l l' : join_lines (l ++ l') = join_lines l +:+ join_lines l'.
Proof.
  induction l as [| x l IH]; [done |]. simpl. rewrite IH, <- string_app_assoc.
  change (String LF (join_lines l) +:+ ?t) with (String LF (join_lines l +:+ t)). done.
Qed.

Lemma metric_block out name help kind s k :
  metric out name help kind (get k s) = out +:+ join_lines (block kind s (name, help, k)).
Proof.
  unfold metric, nl. simpl. f_equal. by rewrite <- !string_app_assoc.
Qed.

Lemma fold_metrics kind s l out :
  fold_left (fun out '(name, help, k) => metric out name help kind (get k s)) l out =
  out +:+ join_lines (l ≫= block kind s).
Proof.
  revert out. induction l as [| [[name help] k] l IH]; intros out; [by rewrite string_app_nil_r |].
  cbn [fold_left]. rewrite IH, metric_block, bind_cons, join_lines_app. by rewrite string_app_assoc.
Qed.

(** Every metric with its type. *)
Definition typed_metrics : list (string * (string * string * Counter)) :=
  ((fun m => ("counter", m)) <$>
     counters ++ [("cortado_config_reloads_total", "Configuration reloads applied", CONFIG_RELOADS)]) ++
  ((fun m => ("gauge", m)) <$> gauges).

Definition typed_block (s : Counters) (m : string * (string * string * Counter)) : list string :=
  block m.1 s m.2.

Lemma render_lines s : render s = join_lines (typed_metrics ≫= typed_block s).
Proof.
  unfold render. rewrite !fold_metrics, metric_block.
  unfold typed_metrics. rewrite bind_app, fmap_app, bind_app, !join_lines_app.
  rewrite string_app_nil_l. reflexivity.
Qed.

Definition text_ok (s : string) : bool :=
  forallb (fun c => negb (Ascii.eqb c LF) && negb (Ascii.eqb c CR)) (String.list_ascii_of_string s).

Definition line_ok (s : string) : Prop := free_of LF s /\ free_of CR s.

Lemma text_ok_line s : text_ok s = true -> line_ok s.
Proof.
  unfold text_ok. rewrite forallb_forall. intros H. split; apply free_of_forallb, forallb_forall;
    intros c Hc; apply H in Hc; by apply andb_true_iff in Hc as [? ?].
Qed.

Lemma line_ok_app s t : line_ok s -> line_ok t -> line_ok (s +:+ t).
Proof. intros [] []. split; by apply free_of_app. Qed.

Lemma line_ok_dec z : line_ok (show_dec z).
Proof. split; by apply show_dec_free. Qed.

Lemma strip_cr_free s : free_of CR s -> strip_cr s = s.
Proof.
  unfold free_of. induction s as [| c s IH]; [done |]. simpl.
  intros [Hc Hs]%not_elem_of_cons. rewrite IH by done. destruct s; [| done].
  by rewrite decide_False by congruence.
Qed.

Lemma lines_join l : Forall line_ok l -> lines (join_lines l) = l.
Proof.
  induction 1 as [| x l [Hx1 Hx2] Hl IH]; [done |]. cbn [join_lines foldr].
  fold (join_lines l). rewrite lines_cons, IH, strip_cr_free by done. done.
Qed.

(** What a metric's name must be for its sample to be found. *)
Definition name_ok (n : string) : bool :=
  text_ok n && forallb (fun c => negb (Ascii.eqb c " ")) (String.list_ascii_of_string n) &&
  match n with String c _ => negb (Ascii.eqb c "#") | "" => false end.

Definition metric_ok (m : string * (string * string * Counter)) : bool :=
  let '(kind, (name, help, _)) := m in text_ok kind && name_ok name && text_ok help.

Lemma typed_block_ok s m : metric_ok m = true -> Forall line_ok (typed_block s m).
Proof.
  destruct m as [kind [[name help] k]]. unfold metric_ok, name_ok. intros H. bool_to_prop.
  unfold typed_block, block. simpl.
  repeat constructor; repeat apply line_ok_app; try (by apply text_ok_line); apply line_ok_dec.
Qed.

Lemma app_space_inj n n' v v' :
  free_of " " n -> free_of " " n' -> n +:+ String " " v = n' +:+ String " " v' -> n = n'.
Proof.
  unfold free_of. revert n'. induction n as [| c n IH]; intros [| c' n'] H H' E;
    rewrite ?string_app_nil_l in *; try done.
  - change (String c' n' +:+ ?t) with (String c' (n' +:+ t)) in E. simplify_eq. simpl in H'.
    by apply not_elem_of_cons in H' as [? ?].
  - change (String c n +:+ ?t) with (String c (n +:+ t)) in E. simplify_eq. simpl in H.
    by apply not_elem_of_cons in H as [? ?].
  - change (String c n +:+ ?t) with (String c (n +:+ t)) in E.
    change (String c' n' +:+ ?t) with (String c' (n' +:+ t)) in E. simplify_eq. simpl in H, H'.
    apply not_elem_of_cons in H as [? ?], H' as [? ?]. f_equal. by eapply IH.
Qed.

Lemma name_ok_spec n :
  name_ok n = true -> line_ok n /\ free_of " " n /\ forall t, strip_prefix (n +:+ " ") (String "#" t) = None.
Proof.
  unfold name_ok. intros H. bool_to_prop. split; [by apply text_ok_line |].
  split; [by apply free_of_forallb |]. intros t. destruct n as [| c n]; [done |].
  change (String c n +:+ " ") with (String c (n +:+ " ")). cbn [strip_prefix].
  rewrite decide_False; [done |]. intros ->. by rewrite Ascii.eqb_refl in *.
Qed.

Lemma sample_block s kind name help k n rest :
  name_ok n = true -> name_ok name = true ->
  sample n (block kind s (name, help, k) ++ rest) =
  if decide (n = name) then ok (parse_uint 64 (show_dec (get k s))) else sample n rest.
Proof.
  intros (_ & Hn & Hh)%name_ok_spec (_ & Hn' & _)%name_ok_spec.
  cbn [block app sample].
  change ("# HELP " +:+ ?t) with (String "#" (" HELP " +:+ t)).
  change ("# TYPE " +:+ ?t) with (String "#" (" TYPE " +:+ t)). rewrite !Hh.
  case_decide as E.
  - subst. by rewrite string_app_assoc, strip_prefix_app.
  - destruct (strip_prefix _ _) as [r |] eqn:Hr; [| done].
    apply strip_prefix_Some in Hr. rewrite <- !string_app_assoc in Hr.
    by apply (app_space_inj name n _ r) in Hr.
Qed.

Lemma sample_metrics s l n :
  name_ok n = true -> forallb metric_ok l = true ->
  NoDup ((fun m => m.2.1.1) <$> l) ->
  forall kind help k, (kind, (n, help, k)) ∈ l ->
  sample n (l ≫= typed_block s) = ok (parse_uint 64 (show_dec (get k s))).
Proof.
  intros Hn. induction l as [| [kind' [[name' help'] k']] l IH]; intros Hok Hnd kind help k Hin;
    [by apply not_elem_of_nil in Hin |].
  simpl in Hok. apply andb_true_iff in Hok as [Hm Hok].
  rewrite bind_cons. unfold typed_block at 1. cbn [fst snd].
  rewrite sample_block by (done || (bool_to_prop; done)). simpl in Hnd.
  apply NoDup_cons in Hnd as [Hni Hnd].
  apply elem_of_cons in Hin as [Hin | Hin]; [simplify_eq; by rewrite decide_True |].
  rewrite decide_False; [by eapply IH |]. intros ->. apply Hni.
  apply list_elem_of_fmap. by exists (kind, (name', help, k)).
Qed.

Lemma split_crlf_app l r : free_of CR l -> split_crlf (l +:+ crlf +:+ r) = Some (l, r).
Proof.
  unfold free_of. induction l as [| c l IH]; [done |]. simpl. intros [Hc Hl]%not_elem_of_cons.
  change (String c l +:+ ?t) with (String c (l +:+ t)).
  cbn [split_crlf]. rewrite decide_False by done. by rewrite IH.
Qed.

Lemma http_body_response body : http_body (response body) = Some body.
Proof.
  unfold http_body, response. set (len := show_dec _).
  assert (Hlen : free_of CR ("Content-Length: " +:+ len)).
  { apply free_of_app; [by apply free_of_forallb | by apply show_dec_free]. }
  rewrite (string_app_assoc "Content-Length: "). cbn [http_head].
  rewrite split_crlf_app by by apply free_of_forallb. rewrite decide_False by done.
  rewrite split_crlf_app by by apply free_of_forallb. rewrite decide_False by done.
  rewrite split_crlf_app by done. rewrite decide_False by done.
  rewrite split_crlf_app by by apply free_of_forallb. rewrite decide_False by done.
  change (crlf +:+ body) with ("" +:+ crlf +:+ body).
  rewrite split_crlf_app by by apply free_of_forallb. rewrite decide_True by done.
  rewrite decide_True; [done |]. split; [done |]. right. left.
Qed.

(** ** Properties *)

(** C36. A scrape of the endpoint is exact: the client receives a well-formed
    HTTP response whose declared length is the body's, the stream is shut
    down, and each of the twenty counters is found under its own name with
    its current value. *)
Theorem scrape_exact (s : Counters) :
  (forall k, uint 64 (get k s)) ->
  let c := handle_client true s (mkClient "" false) in
  shut c = true /\ http_body (received c) = Some (render s) /\
  (forall k, exists name help, (name, help, k) ∈ all_metrics /\
     scrape name (received c) = Some (get k s)).
Proof.
  intros Hu. cbn zeta. unfold handle_client. cbn [received shut]. rewrite string_app_nil_l.
  split; [done |]. split; [apply http_body_response |]. intros k.
  assert (Hk : exists kind name help, (kind, (name, help, k)) ∈ typed_metrics).
  { destruct k; do 3 eexists; repeat (left || right). }
  destruct Hk as (kind & name & help & Hin). exists name, help. split.
  - change all_metrics with (typed_metrics.*2). apply list_elem_of_fmap. by exists (kind, (name, help, k)).
  - unfold scrape. rewrite http_body_response, render_lines, lines_join.
    + rewrite (sample_metrics s _ name) with (kind := kind) (help := help) (k := k); try done.
      * by rewrite parse_show_dec.
      * assert (Hm : forallb metric_ok typed_metrics = true) by by vm_compute.
        rewrite forallb_forall in Hm. apply list_elem_of_In, Hm in Hin. simpl in Hin.
        by bool_to_prop.
      * refine (proj1 (bool_decide_eq_true _) _). by vm_compute.
    + apply Forall_bind. assert (Hm : Forall (fun m => metric_ok m = true) typed_metrics)
        by (apply Forall_forall; intros m Hi%list_elem_of_In;
            apply (proj1 (forallb_forall metric_ok typed_metrics)); [by vm_compute | done]).
      eapply Forall_impl; [exact Hm | intros m; apply typed_block_ok].
Qed.

Lemma scrape_exact_witness :
  let c := handle_client true (add BYTES_TX 1500 (inc TCP_OPENED zero_counters)) (mkClient "" false) in
  scrape "cortado_bytes_tx_total" (received c) = Some 1500 /\ shut c = true.
Proof.
  cbn zeta. split; [vm_compute; reflexivity |].
  apply (scrape_exact (add BYTES_TX 1500 (inc TCP_OPENED zero_counters))).
  intros []; vm_compute; split; congruence.
Defined.
