(* ===== verification/Reload.v ===== *)
(** * Configuration reload ([src/reload.rs])

    The shared cells the relay tasks read, the report of the fields that
    need a restart, and the plan a reload carries out. *)

From Stdlib Require Import ZArith Lia.
From Stdlib Require Import Strings.Ascii Strings.String.
From stdpp Require Import base decidable list strings gmap.
From S2P Require Import Prelude StdNet Net Config.
#[local] Open Scope Z_scope.

(** ** Definitions *)

Module Shared.
(** Two [ArcSwap] cells: each is read and replaced whole. *)
Record t : Type := mk { proxy : ProxyConfig; routes : RouteTable }.

Definition new (proxy : ProxyConfig) (routes : RouteTable) : t := mk proxy routes.
Definition store_proxy (p : ProxyConfig) (s : t) : t := mk p (routes s).
Definition store_routes (r : RouteTable) (s : t) : t := mk (proxy s) r.
End Shared.

Definition IMMUTABLE_FIELDS : list string := ["tun_name"; "tun_ip"; "metrics_addr"].

Definition immutable_changes (old new : Config) : list string :=
  let changed := [] in
  let changed := if decide (tun_name old <> tun_name new) then changed ++ ["tun_name"] else changed in
  let changed := if decide (tun_ip old <> tun_ip new) then changed ++ ["tun_ip"] else changed in
  if decide (metrics_addr old <> metrics_addr new) then changed ++ ["metrics_addr"] else changed.

Record ReloadPlan : Type := mkPlan {
  rp_proxy : ProxyConfig;
  rp_route_table : RouteTable;
  rp_new_bypass : CidrList;
  rp_bypass_add : CidrList;
  rp_bypass_remove : CidrList;
  rp_dns : option IpAddr;
  rp_dns_changed : bool;
  rp_proxy_route_change : option (IpAddr * IpAddr);
  rp_proxy_changed : bool;
}.

Module ReloadPlan.
(** [None] is the panic of an accessor on a configuration that was not
    validated. *)
Definition compute (old new : Config) : option ReloadPlan :=
  match bypass_routes old, bypass_routes new, proxy_socket_addr old, proxy_socket_addr new,
        dns_addr old, dns_addr new, ProxyConfig.from_config new with
  | Some old_bypass, Some new_bypass, Some old_proxy, Some new_proxy, Some old_dns, Some new_dns, Some proxy =>
      let '(bypass_add, bypass_remove) := diff_cidrs old_bypass new_bypass in
      let proxy_route_change :=
        if decide (sa_ip old_proxy <> sa_ip new_proxy) then Some (sa_ip old_proxy, sa_ip new_proxy) else None in
      let proxy_changed :=
        bool_decide (old_proxy <> new_proxy) || bool_decide (username old <> username new)
        || bool_decide (password old <> password new) in
      Some {| rp_proxy := proxy;
              rp_route_table := RouteTable.new new_bypass;
              rp_new_bypass := new_bypass;
              rp_bypass_add := bypass_add;
              rp_bypass_remove := bypass_remove;
              rp_dns := new_dns;
              rp_dns_changed := bool_decide (old_dns <> new_dns);
              rp_proxy_route_change := proxy_route_change;
              rp_proxy_changed := proxy_changed |}
  | _, _, _, _, _, _, _ => None
  end.

Definition is_noop (p : ReloadPlan) : bool :=
  match rp_bypass_add p with [] => true | _ => false end
  && match rp_bypass_remove p with [] => true | _ => false end
  && negb (rp_dns_changed p)
  && match rp_proxy_route_change p with None => true | Some _ => false end
  && negb (rp_proxy_changed p).
End ReloadPlan.

(** ** Lemmas *)

Lemma diff_cidrs_nil old new :
  diff_cidrs old new = ([], []) <-> forall x, x ∈ old <-> x ∈ new.
Proof.
  unfold diff_cidrs. split.
  - intros [= H1 H2] x. rewrite filter_nil_iff in H1. rewrite filter_nil_iff in H2.
    split; intros Hx; apply dec_stable; eauto.
  - intros H. f_equal; apply filter_nil_iff; intros x Hx; rewrite H in *; tauto.
Qed.

(** Decisions depend on the set of networks only. *)
Lemma decide_same_set l l' addr :
  (forall x, x ∈ l <-> x ∈ l') ->
  RouteTable.decide (RouteTable.new l) addr = RouteTable.decide (RouteTable.new l') addr.
Proof.
  intros H.
  assert (HD : RouteTable.decide (RouteTable.new l) addr = Direct <->
               RouteTable.decide (RouteTable.new l') addr = Direct).
  { rewrite !decide_contains, !Exists_exists. by setoid_rewrite H. }
  destruct (RouteTable.decide (RouteTable.new l) addr), (RouteTable.decide (RouteTable.new l') addr);
    tauto || (exfalso; naive_solver).
Qed.

Lemma compute_valid old new :
  config_valid old -> config_valid new ->
  exists ob nb op np od nd,
    bypass_routes old = Some ob /\ bypass_routes new = Some nb /\
    proxy_socket_addr old = Some op /\ proxy_socket_addr new = Some np /\
    dns_addr old = Some od /\ dns_addr new = Some nd /\
    ReloadPlan.compute old new = Some
      {| rp_proxy := mkProxyConfig np (username new) (password new) DEFAULT_CONNECT_TIMEOUT true;
         rp_route_table := RouteTable.new nb;
         rp_new_bypass := nb;
         rp_bypass_add := (diff_cidrs ob nb).1;
         rp_bypass_remove := (diff_cidrs ob nb).2;
         rp_dns := nd;
         rp_dns_changed := bool_decide (od <> nd);
         rp_proxy_route_change := if decide (sa_ip op <> sa_ip np) then Some (sa_ip op, sa_ip np) else None;
         rp_proxy_changed := bool_decide (op <> np) || bool_decide (username old <> username new)
                             || bool_decide (password old <> password new) |}.
Proof.
  intros Ho Hn. destruct (accessors_valid old Ho) as (op & _ & od & ob & _ & Hop & _ & Hod & Hob & _).
  destruct (accessors_valid new Hn) as (np & _ & nd & nb & _ & Hnp & _ & Hnd & Hnb & _).
  exists ob, nb, op, np, od, nd. split_and!; try done.
  unfold ReloadPlan.compute, ProxyConfig.from_config. by rewrite Hop, Hod, Hob, Hnp, Hnd, Hnb.
Qed.

(** The configurations agree on what a running tunnel takes from them at a
    reload. *)
Definition same_effect (old new : Config) : Prop :=
  ProxyConfig.from_config old = ProxyConfig.from_config new /\
  dns_addr old = dns_addr new /\
  (forall ob nb, bypass_routes old = Some ob -> bypass_routes new = Some nb -> forall x, x ∈ ob <-> x ∈ nb).

(** ** Properties *)

(** Between two validated configurations the plan is always computed (no
    accessor panics), and it is a no-op exactly when they agree on the proxy
    and its credentials, on the DNS override and on the set of bypass
    networks. *)
Theorem plan_noop_iff (old new : Config) :
  validate old = Ok tt -> validate new = Ok tt ->
  exists p, ReloadPlan.compute old new = Some p /\
    (ReloadPlan.is_noop p = true <-> same_effect old new).
Proof.
  intros Ho%validate_valid Hn%validate_valid.
  destruct (compute_valid old new Ho Hn) as (ob & nb & op & np & od & nd & Hob & Hnb & Hop & Hnp & Hod & Hnd & Hc).
  eexists. split; [exact Hc |]. unfold ReloadPlan.is_noop, same_effect, ProxyConfig.from_config. simpl.
  rewrite Hop, Hnp, Hod, Hnd. split.
  - intros H. bool_to_prop.
    assert (op = np) as -> by by apply dec_stable. assert (od = nd) as -> by by apply dec_stable.
    split; [| split; [done |]].
    + do 2 f_equal; by apply dec_stable.
    + intros ob' nb' Hob' Hnb'. simplify_eq. apply diff_cidrs_nil.
      unfold diff_cidrs in *. simpl in *. by repeat case_match.
  - intros (Hp & Hd & Hb). simplify_eq. specialize (Hb ob nb Hob Hnb). apply diff_cidrs_nil in Hb.
    injection Hb as Hb1 Hb2. rewrite Hb1, Hb2, !bool_decide_false by naive_solver.
    by rewrite decide_False by naive_solver.
Qed.

Lemma plan_noop_iff_witness :
  exists p, ReloadPlan.compute default_config default_config = Some p /\ ReloadPlan.is_noop p = true.
Proof.
  destruct (plan_noop_iff default_config default_config ltac:(vm_compute; reflexivity)
    ltac:(vm_compute; reflexivity)) as (p & Hp & Hn).
  exists p. split; [exact Hp |]. apply Hn. split; [reflexivity |]. split; [reflexivity |].
  intros ob nb H1 H2 x. rewrite H1 in H2. injection H2 as ->. reflexivity.
Defined.

(** A plan carries the routing from one configuration to the other: the
    bypass routes in force minus the removed ones plus the added ones are
    those of the new configuration, no route is both added and removed or
    added again, the proxy's host route moves exactly when its address
    changes, and the plan's table decides every address as the new
    configuration says. *)
Theorem plan_moves_routes (old new : Config) :
  validate old = Ok tt -> validate new = Ok tt ->
  exists p ob np op, ReloadPlan.compute old new = Some p /\ bypass_routes old = Some ob /\
    proxy_socket_addr old = Some op /\ proxy_socket_addr new = Some np /\
    bypass_routes new = Some (rp_new_bypass p) /\
    (forall x, x ∈ rp_new_bypass p <-> (x ∈ ob /\ x ∉ rp_bypass_remove p) \/ x ∈ rp_bypass_add p) /\
    (forall x, x ∈ rp_bypass_add p -> x ∉ ob /\ x ∉ rp_bypass_remove p) /\
    (rp_proxy_route_change p = None <-> sa_ip op = sa_ip np) /\
    (forall o n, rp_proxy_route_change p = Some (o, n) -> o = sa_ip op /\ n = sa_ip np /\ o <> n) /\
    (forall addr, ip_wf addr ->
       RouteTable.decide (rp_route_table p) addr = Direct <->
       Exists (fun '(a, l) => covers a l addr) (rp_new_bypass p)).
Proof.
  intros Ho%validate_valid Hn%validate_valid.
  destruct (compute_valid old new Ho Hn) as (ob & nb & op & np & od & nd & Hob & Hnb & Hop & Hnp & Hod & Hnd & Hc).
  destruct (accessors_valid new Hn) as (_ & _ & _ & nb' & _ & _ & _ & _ & Hnb' & _ & _ & _ & _ & Hwf & _).
  simplify_eq.
  eexists _, ob, np, op. split; [exact Hc |]. simpl. split_and!; try done.
  - intros x. rewrite !list_elem_of_filter. destruct (decide (x ∈ ob)), (decide (x ∈ nb)); tauto.
  - intros x. rewrite !list_elem_of_filter. tauto.
  - case_decide; split; tauto || done.
  - intros o n. case_decide; [| done]. intros [= <- <-]. tauto.
  - intros addr Haddr. rewrite decide_contains, !Exists_exists.
    rewrite Forall_forall in Hwf.
    split; intros ([a l] & Hin & H); exists (a, l); (split; [done |]);
      apply contains_covers; try done; try (apply Hwf in Hin as [? ?]; (done || lia)).
Qed.

Lemma plan_moves_routes_witness :
  exists p, ReloadPlan.compute default_config
    (mkConfig "203.0.113.9:1080" None None "cortado0" "10.0.0.1" false "1.1.1.1" true true ["10.0.0.0/8"] None) = Some p /\
    rp_proxy_route_change p = Some (V4 2130706433, V4 3405803785) /\
    (RouteTable.decide (rp_route_table p) (V4 167772161) = Direct <->
     Exists (fun '(a, l) => covers a l (V4 167772161)) (rp_new_bypass p)).
Proof.
  destruct (plan_moves_routes default_config
    (mkConfig "203.0.113.9:1080" None None "cortado0" "10.0.0.1" false "1.1.1.1" true true ["10.0.0.0/8"] None)
    ltac:(vm_compute; reflexivity) ltac:(vm_compute; reflexivity))
    as (p & ob & np & op & Hp & _ & _ & _ & _ & _ & _ & _ & _ & Hd).
  exists p. split; [exact Hp |]. split; [| apply Hd; vm_compute; split; congruence].
  vm_compute in Hp. injection Hp as <-. reflexivity.
Defined.

(** The report of fields that need a restart is exact for the three
    fields it knows: it lists one exactly when it changed, in the order of
    [IMMUTABLE_FIELDS], and nothing else. *)
Theorem immutable_changes_exact (old new : Config) :
  (forall f, f ∈ immutable_changes old new -> f ∈ IMMUTABLE_FIELDS) /\
  ("tun_name" ∈ immutable_changes old new <-> tun_name old <> tun_name new) /\
  ("tun_ip" ∈ immutable_changes old new <-> tun_ip old <> tun_ip new) /\
  ("metrics_addr" ∈ immutable_changes old new <-> metrics_addr old <> metrics_addr new) /\
  immutable_changes old new `sublist_of` IMMUTABLE_FIELDS.
Proof.
  unfold immutable_changes, IMMUTABLE_FIELDS.
  repeat case_decide; simpl; (split; [set_solver | split_and!; [set_solver .. |]]);
    repeat (apply sublist_nil_l || apply sublist_skip || apply sublist_cons).
Qed.

(** Two fields are neither applied by a reload nor reported: changing
    only [dns_over_tcp] and [verbose] in a validated configuration gives a
    plan that does nothing and an empty report. *)
Theorem unreported_changes (c : Config) (d v : bool) :
  validate c = Ok tt ->
  let c' := mkConfig (proxy_addr c) (username c) (password c) (tun_name c) (tun_ip c) v
              (dns_server c) (override_dns c) d (bypass_cidrs c) (metrics_addr c) in
  validate c' = Ok tt /\ immutable_changes c c' = [] /\
  exists p, ReloadPlan.compute c c' = Some p /\ ReloadPlan.is_noop p = true.
Proof.
  intros Hc c'. assert (Hc' : validate c' = Ok tt) by exact Hc.
  split; [done |]. split; [unfold immutable_changes; simpl; by repeat case_decide |].
  apply validate_valid in Hc, Hc'.
  destruct (compute_valid c c' Hc Hc') as (ob & nb & op & np & od & nd & Hob & Hnb & Hop & Hnp & Hod & Hnd & Hp).
  eexists. split; [exact Hp |].
  change (bypass_routes c') with (bypass_routes c) in Hnb.
  change (proxy_socket_addr c') with (proxy_socket_addr c) in Hnp.
  change (dns_addr c') with (dns_addr c) in Hnd. simplify_eq.
  unfold ReloadPlan.is_noop. simpl.
  pose proof (proj2 (diff_cidrs_nil ob ob) ltac:(done)) as [= Hb _].
  rewrite !Hb, !bool_decide_false by naive_solver. by rewrite decide_False by naive_solver.
Qed.

Lemma unreported_changes_witness :
  let c' := mkConfig "127.0.0.1:1080" None None "cortado0" "10.0.0.1" true "1.1.1.1" true false [] None in
  validate c' = Ok tt /\ immutable_changes default_config c' = [] /\
  exists p, ReloadPlan.compute default_config c' = Some p /\ ReloadPlan.is_noop p = true.
Proof. apply (unreported_changes default_config false true). vm_compute. reflexivity. Defined.
