(* ===== verification/Platform.v ===== *)
(** * Platform interfaces ([src/platform/mod.rs])

    The methods of the platform traits take [&mut self] and may fail after
    they have changed something: they are state transformers that return a
    result together with the state they leave. The traits are type classes
    over the type of that state. *)

From Stdlib Require Import ZArith Lia.
From Stdlib Require Import Strings.Ascii Strings.String.
From stdpp Require Import base decidable list strings gmap.
From S2P Require Import Prelude StdNet Net Logging Reload.
#[local] Open Scope Z_scope.

(** ** State with errors *)

Definition SE (S A : Type) : Type := S -> result A * S.

Definition se_ret {S A} (a : A) : SE S A := fun s => (Ok a, s).

Definition se_bind {S A B} (m : SE S A) (k : A -> SE S B) : SE S B := fun s =>
  match m s with
  | (Ok a, s') => k a s'
  | (Err e, s') => (Err e, s')
  end.

Definition se_context {S A} (msg : string) (m : SE S A) : SE S A := fun s =>
  let '(r, s') := m s in (context msg r, s').

(** A statement that cannot fail. *)
Definition se_do {S} (f : S -> S) : SE S unit := fun s => (Ok tt, f s).

Notation "'let!' x ':=' m 'in' k" := (se_bind m (fun x => k))
  (at level 200, x pattern, m at level 200, k at level 200) : rust_scope.
Notation "'do!' m 'in' k" := (se_bind m (fun _ => k))
  (at level 200, m at level 200, k at level 200) : rust_scope.

(** [for x in l { body }], where the body may leave the function with [?]. *)
Fixpoint se_for {S A} (l : list A) (body : A -> SE S unit) : SE S unit :=
  match l with
  | [] => se_ret tt
  | x :: l => do! body x in se_for l body
  end.

Lemma se_bind_ok {S A B} (m : SE S A) (k : A -> SE S B) s b s' :
  se_bind m k s = (Ok b, s') <-> exists a s1, m s = (Ok a, s1) /\ k a s1 = (Ok b, s').
Proof.
  unfold se_bind. destruct (m s) as [[a | e] s1]; split.
  - intros H. by exists a, s1.
  - intros (a' & s1' & [= <- <-] & H). done.
  - done.
  - intros (a' & s1' & ? & _). done.
Qed.

Lemma se_context_ok {S A} msg (m : SE S A) s a s' :
  se_context msg m s = (Ok a, s') <-> m s = (Ok a, s').
Proof. unfold se_context. destruct (m s) as [[? | ?] ?]; simpl; naive_solver. Qed.

(** Rule for a loop: an invariant indexed by what is left to do. *)
Lemma se_for_ind {S A} (I : list A -> S -> Prop) (body : A -> SE S unit) :
  (forall x l s s', I (x :: l) s -> body x s = (Ok tt, s') -> I l s') ->
  forall l s s', I l s -> se_for l body s = (Ok tt, s') -> I [] s'.
Proof.
  intros Hstep l. induction l as [| x l IH]; intros s s' HI H; simpl in H; [by injection H as <- |].
  apply se_bind_ok in H as ([] & s1 & H1 & H2). eauto.
Qed.

(** What a computation keeps, whether it ends well or fails. *)
Definition preserves {S A} (I : S -> Prop) (m : SE S A) : Prop := forall s, I s -> I (m s).2.

Create HintDb preserves.

Lemma preserves_ret {S A} (I : S -> Prop) (a : A) : preserves I (se_ret a).
Proof. by intros s. Qed.

Lemma preserves_bind {S A B} (I : S -> Prop) (m : SE S A) (k : A -> SE S B) :
  preserves I m -> (forall a, preserves I (k a)) -> preserves I (se_bind m k).
Proof.
  intros Hm Hk s Hs. specialize (Hm s Hs). unfold se_bind. destruct (m s) as [[a | e] s1]; [by apply Hk | done].
Qed.

Lemma preserves_context {S A} (I : S -> Prop) msg (m : SE S A) : preserves I m -> preserves I (se_context msg m).
Proof. intros Hm s Hs. specialize (Hm s Hs). unfold se_context. by destruct (m s). Qed.

Lemma preserves_do {S} (I : S -> Prop) (f : S -> S) : (forall s, I s -> I (f s)) -> preserves I (se_do f).
Proof. intros Hf s. apply Hf. Qed.

Lemma preserves_for {S A} (I : S -> Prop) (l : list A) (body : A -> SE S unit) :
  (forall x, x ∈ l -> preserves I (body x)) -> preserves I (se_for l body).
Proof.
  induction l as [| x l IH]; intros Hb; [apply preserves_ret |]. simpl. apply preserves_bind.
  - apply Hb. left.
  - intros _. apply IH. intros y Hy. apply Hb. by right.
Qed.

(** The same of a loop that cannot fail. *)
Lemma fold_keep {S A} (I : S -> Prop) (f : S -> A -> S) l s :
  (forall x s, x ∈ l -> I s -> I (f s x)) -> I s -> I (fold_left f l s).
Proof.
  revert s. induction l as [| x l IH]; intros s Hf Hs; [done |]. cbn [fold_left].
  apply IH; [| apply Hf; [left | done]]. intros y s' Hy. apply Hf. by right.
Qed.

#[export] Hint Resolve preserves_ret preserves_bind preserves_context preserves_do preserves_for : preserves.

(** ** The traits *)

Class DnsConfigurator (S : Type) := {
  dns_apply : option IpAddr -> SE S unit;
  dns_reload : option IpAddr -> SE S unit;
  dns_restore : S -> S;
}.

Class RouteController (S : Type) := {
  rc_apply : SE S unit;
  rc_reload : ReloadPlan -> SE S unit;
  rc_teardown : S -> S;
}.

(** The calls of a controller in any order, whatever they return. *)
Inductive Call : Type := Apply | Reload (plan : ReloadPlan) | Teardown.

Section Calls.
Context {S : Type} `{!RouteController S}.

Definition rc_call (c : Call) (s : S) : S :=
  match c with
  | Apply => (rc_apply s).2
  | Reload plan => (rc_reload plan s).2
  | Teardown => rc_teardown s
  end.

Fixpoint rc_calls (cs : list Call) (s : S) : S :=
  match cs with [] => s | c :: cs => rc_calls cs (rc_call c s) end.

(** What every call keeps, a sequence of calls keeps. *)
Lemma calls_keep (I : S -> Prop) cs s : (forall c s, c ∈ cs -> I s -> I (rc_call c s)) -> I s -> I (rc_calls cs s).
Proof.
  revert s. induction cs as [| c cs IH]; intros s Hc Hs; [done |]. cbn [rc_calls].
  apply IH; [| apply Hc; [left | done]]. intros c' s' Hin. apply Hc. by right.
Qed.

(** Failed attempts at a reload, one after the other. *)
Inductive attempts (plan : ReloadPlan) : S -> S -> Prop :=
| attempts_none s : attempts plan s s
| attempts_fail s s1 s2 e : rc_reload plan s = (Err e, s1) -> attempts plan s1 s2 -> attempts plan s s2.

Lemma attempts_keep (I : S -> Prop) plan s s' : preserves I (rc_reload plan) -> attempts plan s s' -> I s -> I s'.
Proof.
  intros HI. induction 1 as [| s s1 s2 e He _ IH]; [done |]. intros Hs. apply IH.
  specialize (HI s Hs). by rewrite He in HI.
Qed.
End Calls.

(** The plan is about networks of the list only. *)
Definition plan_within (host_prefix : IpAddr -> Z) (nets : CidrList) (plan : ReloadPlan) : Prop :=
  (forall o n, rp_proxy_route_change plan = Some (o, n) -> (o, host_prefix o) ∈ nets /\ (n, host_prefix n) ∈ nets) /\
  rp_bypass_remove plan ⊆ nets /\ rp_bypass_add plan ⊆ nets /\ rp_new_bypass plan ⊆ nets.

Definition call_within (host_prefix : IpAddr -> Z) (nets : CidrList) (c : Call) : Prop :=
  match c with Reload plan => plan_within host_prefix nets plan | Apply | Teardown => True end.

(** A plan computed for a controller with this proxy and these networks. *)
Definition plan_fits (proxy : IpAddr) (bypass : CidrList) (plan : ReloadPlan) : Prop :=
  (forall o n, rp_proxy_route_change plan = Some (o, n) -> o = proxy) /\
  (forall x, x ∈ bypass -> x ∈ rp_new_bypass plan \/ x ∈ rp_bypass_remove plan) /\
  (forall x, x ∈ rp_bypass_remove plan -> x ∈ bypass) /\
  (forall x, x ∈ rp_bypass_add plan -> x ∈ rp_new_bypass plan).
