(* ===== verification/Device.v ===== *)
(** * Tunnel devices ([TunDevice] of [src/platform/mod.rs])

    The trait asks a device for [AsyncRead] and [AsyncWrite], its name and
    its MTU. The bridge of [src/lib.rs] is written against the trait alone
    and relies on more than the trait says: that a device moves packets, one
    for each read and each write. That contract is [PacketIo]; every
    platform's device is an instance, and the bridge's theorems are proved
    from the contract. *)

From Stdlib Require Import ZArith Lia.
From Stdlib Require Import Strings.Byte Strings.Ascii Strings.String.
From stdpp Require Import base decidable list strings.
From S2P Require Import Prelude StdNet.
#[local] Open Scope Z_scope.

(** ** Polling *)

Inductive Poll (A : Type) : Type := Ready (a : A) | Pending.
Arguments Ready {A}.
Arguments Pending {A}.

(** What one turn of a poll loop meets: the file is not ready, waiting for
    it fails, or the system call is made and would block, fails, or
    succeeds; a read then yields a datagram. *)
Inductive IoEvent (A : Type) : Type :=
| NotReady
| ReadyErr (e : string)
| WouldBlock
| IoErr (e : string)
| Done (a : A).
Arguments NotReady {A}.
Arguments ReadyErr {A}.
Arguments WouldBlock {A}.
Arguments IoErr {A}.
Arguments Done {A}.

(** ** The traits *)

(** One [poll_read] into a buffer with room for so many bytes: the bytes put
    there; [None] is a panic. *)
Class AsyncRead (D : Type) := poll_read : nat -> D -> option (Poll (Result string (list byte)) * D).

Class AsyncWrite (D : Type) := {
  poll_write : list byte -> D -> Poll (Result string nat) * D;
  poll_flush : D -> Poll (Result string unit) * D;
  poll_shutdown : D -> Poll (Result string unit) * D;
}.

Class TunDevice (D : Type) `{!AsyncRead D, !AsyncWrite D} := {
  tun_device_name : D -> string;
  tun_device_mtu : D -> Z;
}.

(** ** The contract *)

(** A packet as the network stack makes it: it is not empty and its length
    fits sixteen bits, the width of the length fields of IP. *)
Definition wire (p : list byte) : Prop := p <> [] /\ Z.of_nat (length p) <= umax 16.

#[global] Instance wire_dec p : Decision (wire p).
Proof. unfold wire. apply _. Defined.

(** A device holds the packets that arrived and were not read, and those it
    was given to send. A read with room for the next packet returns it
    whole; one that waits or fails takes none. A write takes its packet
    whole, or not at all. [delay] bounds how often reads still wait before
    the next packet. *)
Class PacketIo (D : Type) `{!AsyncRead D, !AsyncWrite D} := {
  arriving : D -> list (list byte);
  sent : D -> list (list byte);
  delay : D -> nat;
  device_ok : D -> Prop;
  packet_read : forall room d, device_ok d ->
    exists r d', poll_read room d = Some (r, d') /\ device_ok d' /\ sent d' = sent d /\ (delay d' <= delay d)%nat /\
      match r with
      | Pending => arriving d' = arriving d /\ (arriving d <> [] -> (delay d' < delay d)%nat)
      | Ready (Err _) => arriving d' = arriving d
      | Ready (Ok data) =>
          match arriving d with
          | [] => data = [] /\ arriving d' = []
          | p :: l => (length p <= room)%nat -> data = p /\ arriving d' = l
          end
      end;
  packet_write : forall buf d, device_ok d -> wire buf ->
    let '(r, d') := poll_write buf d in
    device_ok d' /\ arriving d' = arriving d /\ delay d' = delay d /\
    match r with
    | Ready (Ok n) => n = length buf /\ sent d' = sent d ++ [buf]
    | _ => sent d' = sent d
    end;
}.
