(* ===== verification/Command.v ===== *)
(** * External commands

    The macOS and Windows back ends work by running the system's own tools.
    Those tools are not part of the program: a host is any function that
    answers a command line, given every command that was run on it before.
    The host keeps the trace of commands and answers, and the specifications
    of these back ends are statements about that trace. *)

From Stdlib Require Import ZArith Lia.
From Stdlib Require Import Strings.Ascii Strings.String.
From stdpp Require Import base decidable list strings.
From S2P Require Import Prelude StdNet StdText Platform.
#[local] Open Scope Z_scope.

(** ** [std::process::Command] *)

(** An exit status: whether it is zero, and how it prints. *)
Record ExitStatus : Type := mkExit { success : bool; status_text : string }.

(** [Output], with what the tool printed after [from_utf8_lossy]. *)
Record Output : Type := mkOutput { status : ExitStatus; stdout : string }.

Record Cmd : Type := mkCmd { program : string; args : list string }.

#[global] Instance Cmd_eq_dec : EqDecision Cmd.
Proof. solve_decision. Defined.

(** [Err] when the program could not be started. *)
Abbreviation Reply := (Result string Output).

Record Host : Type := mkHost {
  answer : list (Cmd * Reply) -> Cmd -> Reply;
  trace : list (Cmd * Reply);
}.

(** [.status()] and [.output()] both run the command to its end. *)
Definition spawn (c : Cmd) (h : Host) : Reply * Host :=
  let r := answer h (trace h) c in (r, mkHost (answer h) (trace h ++ [(c, r)])).

Definition succeeded (r : Reply) : bool :=
  match r with Ok out => success (status out) | Err _ => false end.

(** ** [{:?}] of a slice of strings *)

Definition QUOTE : ascii := "034"%char.

Definition debug_char (c : ascii) : string :=
  let n := nat_of_ascii c in
  if decide (n = 0%nat) then "\0"
  else if decide (n = 9%nat) then "\t"
  else if decide (n = 10%nat) then "\n"
  else if decide (n = 13%nat) then "\r"
  else if decide (c = QUOTE) then String "\" (String QUOTE "")
  else if decide (c = "\"%char) then "\\"
  else if decide (n < 32 \/ n = 127)%nat then "\u{" +:+ show_hex16 (Z.of_nat n) +:+ "}"
  else String c "".

Definition debug_str (s : string) : string :=
  String QUOTE (String.concat "" (debug_char <$> String.list_ascii_of_string s)) +:+ String QUOTE "".

Definition debug_list (l : list string) : string :=
  "[" +:+ String.concat ", " (debug_str <$> l) +:+ "]".

(** ** What may be run *)

(** Since the trace [t] only commands that [may] holds of were run. *)
Definition confined (may : Cmd -> Prop) (t : list (Cmd * Reply)) (h : Host) : Prop :=
  exists t', trace h = t ++ t' /\ Forall (fun e => may e.1) t'.

Lemma confined_refl may h : confined may (trace h) h.
Proof. exists []. by rewrite app_nil_r. Qed.

Lemma confined_spawn may t c h : may c -> confined may t h -> confined may t (spawn c h).2.
Proof.
  intros Hc (t' & Ht & Hall). exists (t' ++ [(c, (spawn c h).1)]). cbn. rewrite Ht, <- app_assoc. split; [done |].
  apply Forall_app. split; [done |]. by constructor.
Qed.

(** ** Routes in a trace *)

(** A route as the tools name it: family, network and target. *)
Abbreviation Route := (list string).

Inductive Effect : Type := Adds (r : Route) | Deletes (r : Route) | NoEffect.

Section Ledger.
Context (effect : Cmd -> Effect).

Definition ledger_step (live : list Route) (e : Cmd * Reply) : list Route :=
  match effect e.1 with
  | Adds r => if succeeded e.2 then r :: live else live
  | Deletes r => filter (fun r' => r' <> r) live
  | NoEffect => live
  end.

(** The routes a trace has added and not asked to be deleted since: a deletion
    counts when it was asked for, whether the tool did it or not. *)
Definition outstanding (t : list (Cmd * Reply)) : list Route := fold_left ledger_step t [].

(** The outstanding routes after one more command. *)
Lemma outstanding_spawn c h :
  outstanding (trace (spawn c h).2) = ledger_step (outstanding (trace h)) (c, (spawn c h).1).
Proof. unfold outstanding, spawn. simpl. by rewrite fold_left_app. Qed.

Lemma outstanding_none c h :
  effect c = NoEffect -> outstanding (trace (spawn c h).2) = outstanding (trace h).
Proof. intros H. rewrite outstanding_spawn. unfold ledger_step. simpl. by rewrite H. Qed.

Lemma outstanding_add c h r :
  effect c = Adds r ->
  forall x, x ∈ outstanding (trace (spawn c h).2) -> x = r \/ x ∈ outstanding (trace h).
Proof.
  intros H x. rewrite outstanding_spawn. unfold ledger_step. simpl. rewrite H.
  case_match; [rewrite elem_of_cons |]; tauto.
Qed.

Lemma outstanding_added c h r :
  effect c = Adds r -> succeeded (spawn c h).1 = true ->
  r ∈ outstanding (trace (spawn c h).2) /\
  forall x, x ∈ outstanding (trace h) -> x ∈ outstanding (trace (spawn c h).2).
Proof.
  intros H Hs. rewrite outstanding_spawn. unfold ledger_step. cbn [fst snd]. rewrite H, Hs.
  split; [left | intros x Hx; by right].
Qed.

Lemma outstanding_delete c h r :
  effect c = Deletes r ->
  forall x, x ∈ outstanding (trace (spawn c h).2) <-> x <> r /\ x ∈ outstanding (trace h).
Proof. intros H x. rewrite outstanding_spawn. unfold ledger_step. simpl. rewrite H. by rewrite list_elem_of_filter. Qed.
End Ledger.
