(* ===== verification/MacDns.v ===== *)
(** * macOS DNS override ([src/platform/macos/dns.rs])

    [NetworkSetupDns] reads and sets the DNS servers of the primary network
    service with [networksetup]. *)

From Stdlib Require Import ZArith Lia.
From Stdlib Require Import Strings.Ascii Strings.String.
From stdpp Require Import base decidable list strings.
From S2P Require Import Prelude StdNet StdText Logging Platform Command.
#[local] Open Scope Z_scope.

(** ** Definitions *)

Definition NETWORKSETUP : string := "/usr/sbin/networksetup".

Definition SP : ascii := " "%char.

(** The name in a line such as [(1) Wi-Fi]. *)
Definition service_name (line : string) : option string :=
  match strip_prefix "(" (trim line) with
  | None => None
  | Some rest =>
      match split_at_char ")" rest !! 1%nat with
      | None => None
      | Some name => let name := trim name in if decide (name = "") then None else Some name
      end
  end.

Fixpoint find_map {A B} (f : A -> option B) (l : list A) : option B :=
  match l with
  | [] => None
  | x :: l => match f x with Some b => Some b | None => find_map f l end
  end.

(** The loops of [primary_service] over the text it is given. *)
Definition find_service (text : string) : option string :=
  find_map (fun block => if contains_str block "Device:" then find_map service_name (lines block) else None)
    (split_str (String LF (String LF "")) text).

Definition primary_service (h : Host) : result string * Host :=
  let '(r, h) := spawn (mkCmd NETWORKSETUP ["-listnetworkserviceorder"]) h in
  (match r with
   | Err e => context "failed to run networksetup" (Err [e])
   | Ok out => match find_service (stdout out) with
               | Some name => Ok name
               | None => bail "could not determine primary network service"
               end
   end, h).

Definition get_cmd (service : string) : Cmd := mkCmd NETWORKSETUP ["-getdnsservers"; service].

(** What [get_servers] makes of the tool's answer. *)
Definition servers_of (r : Reply) : list string :=
  match r with
  | Err _ => []
  | Ok out =>
      let text := stdout out in
      if contains_str text "There aren't any" then []
      else filter (fun l => l <> "") (trim <$> lines text)
  end.

Definition get_servers (service : string) (h : Host) : list string * Host :=
  let '(r, h) := spawn (get_cmd service) h in (servers_of r, h).

Definition set_cmd (service : string) (servers : list string) : Cmd :=
  mkCmd NETWORKSETUP (["-setdnsservers"; service] ++ if decide (servers = []) then ["Empty"] else servers).

Record NetworkSetupDns : Type := mkNsd {
  service : string;
  current : option IpAddr;
  original : option (list string);
}.

Record NsState : Type := mkNs { ns_host : Host; ns_dns : NetworkSetupDns; ns_log : Log }.

Definition set_host (h : Host) (s : NsState) : NsState := mkNs h (ns_dns s) (ns_log s).
Definition set_current (c : option IpAddr) (s : NsState) : NsState :=
  mkNs (ns_host s) (mkNsd (service (ns_dns s)) c (original (ns_dns s))) (ns_log s).
Definition set_original (o : option (list string)) (s : NsState) : NsState :=
  mkNs (ns_host s) (mkNsd (service (ns_dns s)) (current (ns_dns s)) o) (ns_log s).
Definition add_log (f : Log -> Log) (s : NsState) : NsState := mkNs (ns_host s) (ns_dns s) (f (ns_log s)).

Definition set_servers (service : string) (servers : list string) : SE NsState unit := fun s =>
  let '(r, h) := spawn (set_cmd service servers) (ns_host s) in
  (match r with
   | Err e => context "failed to run networksetup -setdnsservers" (Err [e])
   | Ok out => if success (status out) then Ok tt
               else bail ("networksetup -setdnsservers exited with " +:+ status_text (status out))
   end, set_host h s).

Module NetworkSetupDns.
Definition discover (h : Host) : result NetworkSetupDns * Host :=
  let '(r, h) := primary_service h in
  (match r with Ok service => Ok (mkNsd service None None) | Err e => Err e end, h).

Definition ensure_backup (s : NsState) : NsState :=
  match original (ns_dns s) with
  | None =>
      let '(l, h) := get_servers (service (ns_dns s)) (ns_host s) in
      set_original (Some l) (set_host h s)
  | Some _ => s
  end.

Definition apply (server : option IpAddr) : SE NsState unit :=
  match server with
  | None => se_ret tt
  | Some dns =>
      do! se_do ensure_backup in
      fun s => let svc := service (ns_dns s) in
      (do! set_servers svc [show_ip dns] in
       do! se_do (set_current (Some dns)) in
       se_do (add_log (Logger.info ("DNS set to " +:+ show_ip dns +:+ " on " +:+ svc)))) s
  end.

Definition reload (server : option IpAddr) : SE NsState unit := fun s =>
  if decide (server = current (ns_dns s)) then (Ok tt, s)
  else
    let svc := service (ns_dns s) in
    (do! (match server with
          | Some dns =>
              do! se_do ensure_backup in
              do! set_servers svc [show_ip dns] in
              se_do (add_log (Logger.info ("DNS set to " +:+ show_ip dns +:+ " on " +:+ svc +:+ " (reload)")))
          | None =>
              match original (ns_dns s) with
              | Some orig =>
                  do! set_servers svc orig in
                  se_do (add_log (Logger.info "DNS override disabled (reload)"))
              | None => se_ret tt
              end
          end) in
     se_do (set_current server)) s.

Definition restore (s : NsState) : NsState :=
  match current (ns_dns s) with
  | None => s
  | Some _ =>
      let s :=
        match original (ns_dns s) with
        | Some orig =>
            let s := set_original None s in
            match set_servers (service (ns_dns s)) orig s with
            | (Err e, s) => add_log (Logger.warn ("failed to restore DNS: " +:+ hd "" e)) s
            | (Ok _, s) => add_log (Logger.info "DNS restored") s
            end
        | None => s
        end in
      set_current None s
  end.
End NetworkSetupDns.

#[global] Instance NetworkSetupDns_configurator : DnsConfigurator NsState := {|
  dns_apply := NetworkSetupDns.apply;
  dns_reload := NetworkSetupDns.reload;
  dns_restore := NetworkSetupDns.restore;
|}.

(** ** Specification *)

(** The servers a trace has set for a service: the arguments of its last
    [-setdnsservers] that succeeded; [None] when there is none, and the host
    still has its own. *)
Definition setting_step (svc : string) (o : option (list string)) (e : Cmd * Reply) : option (list string) :=
  match e with
  | (mkCmd p ("-setdnsservers" :: svc' :: l), r) =>
      if decide (p = NETWORKSETUP /\ svc' = svc) then if succeeded r then Some l else o else o
  | _ => o
  end.

Definition setting (svc : string) (t : list (Cmd * Reply)) : option (list string) :=
  fold_left (setting_step svc) t None.

(** How a list of servers is passed to the tool. *)
Definition set_args (l : list string) : list string := if decide (l = []) then ["Empty"] else l.

(** The host has the servers [l0] for the service, and says so until they
    are changed. *)
Definition reports (svc : string) (l0 : list string) (h : Host) : Prop :=
  forall t, setting svc t = None -> servers_of (answer h t (get_cmd svc)) = l0.

Inductive DnsCall : Type := CallApply (server : option IpAddr) | CallReload (server : option IpAddr).

Definition call (c : DnsCall) (s : NsState) : NsState :=
  match c with
  | CallApply server => snd (dns_apply server s)
  | CallReload server => snd (dns_reload server s)
  end.

Definition calls (l : list DnsCall) (s : NsState) : NsState := fold_left (fun s c => call c s) l s.

Record ns_inv (svc : string) (l0 : list string) (s : NsState) : Prop := {
  ni_service : service (ns_dns s) = svc;
  ni_reports : reports svc l0 (ns_host s);
  ni_original : match original (ns_dns s) with
                | None => current (ns_dns s) = None /\ setting svc (trace (ns_host s)) = None
                | Some o => o = l0
                end;
  ni_current : match current (ns_dns s) with
               | None => setting svc (trace (ns_host s)) = None \/
                         setting svc (trace (ns_host s)) = Some (set_args l0)
               | Some d => setting svc (trace (ns_host s)) = Some [show_ip d]
               end;
}.

(** ** Lemmas *)

Lemma setting_snoc svc t e : setting svc (t ++ [e]) = setting_step svc (setting svc t) e.
Proof. unfold setting. by rewrite fold_left_app. Qed.

(** [networksetup -getdnsservers] changes nothing. *)
Lemma get_setting svc svc' t r : setting svc (t ++ [(get_cmd svc', r)]) = setting svc t.
Proof. by rewrite setting_snoc. Qed.

Lemma set_setting svc l t r :
  setting svc (t ++ [(set_cmd svc l, r)]) =
    if succeeded r then Some (set_args l) else setting svc t.
Proof. rewrite setting_snoc. simpl. by rewrite decide_True. Qed.

Section Invariant.
Context (svc : string) (l0 : list string).

Lemma mac_dns_ensure_backup_inv s :
  ns_inv svc l0 s ->
  let s' := NetworkSetupDns.ensure_backup s in
  ns_inv svc l0 s' /\ original (ns_dns s') = Some l0 /\ current (ns_dns s') = current (ns_dns s).
Proof.
  intros [Hs Hr Ho Hc]. unfold NetworkSetupDns.ensure_backup.
  destruct (original (ns_dns s)) as [o |] eqn:E.
  - subst o. split; [| done]. constructor; try done. by rewrite E.
  - destruct Ho as [Ec Ht]. rewrite Hs. unfold get_servers, spawn. simpl. rewrite Hr by done.
    split; [| done]. constructor; simpl; [done .. |].
    rewrite Ec, get_setting. by left.
Qed.

(** Setting the servers while the host's own are kept; the caller then
    records [cur]. *)
Lemma set_servers_inv s l cur :
  ns_inv svc l0 s -> original (ns_dns s) = Some l0 ->
  l = match cur with Some d => [show_ip d] | None => l0 end ->
  exists r s', set_servers svc l s = (r, s') /\ ns_dns s' = ns_dns s /\ ns_log s' = ns_log s /\
    match r with
    | Ok _ => ns_inv svc l0 (set_current cur s') /\
              setting svc (trace (ns_host s')) = Some (set_args l)
    | Err _ => ns_inv svc l0 s'
    end.
Proof.
  intros [Hs Hr Ho Hc] E Hl. unfold set_servers, spawn.
  set (r := answer _ _ _). do 2 eexists. split; [done |]. split; [done |]. split; [done |].
  assert (Hset : setting svc (trace (ns_host s) ++ [(set_cmd svc l, r)]) =
            if succeeded r then Some (set_args l) else setting svc (trace (ns_host s))) by apply set_setting.
  destruct r as [out | e]; [simpl in Hset; destruct (success (status out)) |].
  - split; [| done]. constructor; simpl; try done; [by rewrite E |]. rewrite Hset, Hl.
    destruct cur; [done | by right].
  - constructor; simpl; try done; by rewrite Hset.
  - constructor; simpl; try done; by rewrite Hset.
Qed.

Lemma ns_inv_log f s : ns_inv svc l0 s -> ns_inv svc l0 (add_log f s).
Proof. intros [Hs Hr Ho Hc]. by constructor. Qed.

Lemma mac_dns_apply_inv server s : ns_inv svc l0 s -> ns_inv svc l0 (snd (dns_apply server s)).
Proof.
  intros Hi. destruct server as [d |]; [| done].
  destruct (mac_dns_ensure_backup_inv s Hi) as (Hi1 & Ho1 & _). simpl. unfold se_bind, se_do.
  set (s1 := NetworkSetupDns.ensure_backup s) in *. rewrite (ni_service _ _ _ Hi1).
  destruct (set_servers_inv s1 [show_ip d] (Some d) Hi1 Ho1 eq_refl) as (r & s2 & -> & _ & _ & Hr).
  destruct r as [[] | e]; [destruct Hr as [Hr _]; by apply ns_inv_log | done].
Qed.

Lemma mac_dns_reload_inv server s : ns_inv svc l0 s -> ns_inv svc l0 (snd (dns_reload server s)).
Proof.
  intros Hi. simpl. unfold NetworkSetupDns.reload. case_decide as Hd; [done |].
  rewrite (ni_service _ _ _ Hi). destruct server as [d |]; unfold se_bind, se_do.
  - destruct (mac_dns_ensure_backup_inv s Hi) as (Hi1 & Ho1 & _).
    set (s1 := NetworkSetupDns.ensure_backup s) in *.
    destruct (set_servers_inv s1 [show_ip d] (Some d) Hi1 Ho1 eq_refl) as (r & s2 & -> & _ & _ & Hr).
    destruct r as [[] | e]; [| done]. destruct Hr as [Hr _]. apply ns_inv_log with (f := Logger.info
      ("DNS set to " +:+ show_ip d +:+ " on " +:+ svc +:+ " (reload)")) in Hr. exact Hr.
  - destruct (original (ns_dns s)) as [o |] eqn:Eo.
    + pose proof (ni_original _ _ _ Hi) as Ho. rewrite Eo in Ho. subst o.
      destruct (set_servers_inv s l0 None Hi Eo eq_refl) as (r & s2 & -> & _ & _ & Hr).
      destruct r as [[] | e]; [| done]. destruct Hr as [Hr _].
      apply ns_inv_log with (f := Logger.info "DNS override disabled (reload)") in Hr. exact Hr.
    + pose proof (ni_original _ _ _ Hi) as Ho. rewrite Eo in Ho. destruct Ho as [Ec _]. by rewrite Ec in Hd.
Qed.

Lemma mac_dns_calls_inv l s : ns_inv svc l0 s -> ns_inv svc l0 (calls l s).
Proof.
  revert s. induction l as [| c l IH]; intros s Hi; [done |]. apply IH.
  destruct c; [by apply mac_dns_apply_inv | by apply mac_dns_reload_inv].
Qed.

(** What a restore leaves. *)
Lemma mac_dns_restore_inv s :
  ns_inv svc l0 s ->
  let s' := dns_restore s in
  current (ns_dns s') = None /\
  (setting svc (trace (ns_host s')) = None \/ setting svc (trace (ns_host s')) = Some (set_args l0) \/
   exists e, Warn ("failed to restore DNS: " +:+ e) ∈ ns_log s').
Proof.
  intros Hi. simpl. unfold NetworkSetupDns.restore.
  destruct (current (ns_dns s)) as [d |] eqn:Ec.
  - pose proof (ni_original _ _ _ Hi) as Ho. destruct (original (ns_dns s)) as [o |] eqn:Eo.
    2: { destruct Ho as [Ho _]. congruence. } subst o. cbv zeta.
    change (service (ns_dns (set_original None s))) with (service (ns_dns s)). rewrite (ni_service _ _ _ Hi).
    destruct (set_servers_inv s l0 None Hi Eo eq_refl) as (r & s2 & E & _ & _ & Hr).
    assert (E' : set_servers svc l0 (set_original None s) = (r, set_original None s2)).
    { unfold set_servers, spawn in *. simpl in *. injection E as <- <-. done. }
    rewrite E'. split; [by destruct r |]. destruct r as [[] | e].
    + right. left. apply Hr.
    + right. right. exists (hd "" e). simpl. apply elem_of_app. right. left.
  - split; [done |]. pose proof (ni_current _ _ _ Hi) as Hc. rewrite Ec in Hc. tauto.
Qed.
End Invariant.

(** ** Lemmas: the list of services *)

(** An entry of [networksetup -listnetworkserviceorder]: the place of the
    service in the order, or [*] for one that is disabled, its name, and its
    port and device. *)
Record Service : Type := mkService { place : string; name : string; port : string; device : string }.

Definition name_line (e : Service) : string := "(" +:+ place e +:+ ") " +:+ name e.
Definition port_line (e : Service) : string :=
  "(Hardware Port: " +:+ port e +:+ ", Device: " +:+ device e +:+ ")".

Definition service_entry (e : Service) : string := name_line e +:+ String LF (port_line e).

Definition ORDER_HEADER : string := "An asterisk (*) denotes that a network service is disabled.".

(** Names the tool can print and the parser can tell from the rest. *)
Definition service_ok (e : Service) : Prop :=
  trimmed (name e) /\ free_of ")" (name e) /\ free_of LF (name e) /\
  free_of ")" (place e) /\ free_of LF (place e) /\ free_of LF (port e) /\ free_of LF (device e).

Lemma name_line_trimmed e : trimmed (name e) -> trimmed (name_line e).
Proof.
  intros H. unfold name_line. rewrite (string_app_assoc (place e)), (string_app_assoc "(").
  by apply (trimmed_after "(").
Qed.

Lemma entry_free e :
  free_of LF (name e) -> free_of LF (place e) -> free_of LF (port e) -> free_of LF (device e) ->
  free_of LF (name_line e) /\ free_of LF (port_line e).
Proof. intros. split; repeat apply free_of_app; try done; by apply free_of_forallb. Qed.

(** The header and the first entry are one block. *)
Lemma header_block e rest :
  free_of LF (name_line e) -> free_of LF (port_line e) ->
  split_str BLANK (ORDER_HEADER +:+ String LF (service_entry e +:+ BLANK +:+ rest)) =
  (ORDER_HEADER +:+ String LF (service_entry e)) :: split_str BLANK rest.
Proof.
  intros F2 F3. unfold split_str, service_entry. destruct (split_str_go BLANK 0 rest) as [h t] eqn:E.
  assert (H : split_str_go BLANK 0 (ORDER_HEADER +:+ String LF (name_line e +:+ String LF (port_line e +:+ BLANK +:+ rest)))
    = (ORDER_HEADER +:+ String LF (name_line e +:+ String LF (port_line e)), h :: t)).
  { rewrite split_str_line by by apply free_of_forallb.
    rewrite split_str_lf by done. rewrite (split_str_line (name_line e)) by done.
    rewrite split_str_lf by done. rewrite (split_str_line (port_line e)) by done.
    rewrite split_str_blank, E. by rewrite string_app_nil_r. }
  rewrite <- (string_app_assoc (name_line e)). change (String LF (port_line e) +:+ BLANK +:+ rest) with
    (String LF (port_line e +:+ BLANK +:+ rest)). by rewrite H.
Qed.

Lemma service_name_entry pl n :
  free_of ")" pl -> free_of ")" n -> trimmed n -> service_name ("(" +:+ pl +:+ ") " +:+ n) = Some n.
Proof.
  intros Hp Hn Ht. unfold service_name.
  rewrite trim_trimmed by by apply (name_line_trimmed (mkService pl n "" "")).
  rewrite strip_prefix_app. unfold split_at_char.
  change (") " +:+ n) with (String ")" (String " " n)). rewrite split_char_app by done.
  rewrite split_char_free. 2: { unfold free_of in *. simpl. by apply not_elem_of_cons. }
  cbn [lookup list_lookup]. change (trim (String " " n)) with (trim n). rewrite trim_trimmed by done.
  rewrite decide_False; [done |]. intros ->. by destruct Ht as [_ (p & c & E & _)], p.
Qed.

Lemma strip_cr_trimmed s : trimmed s -> strip_cr s = s.
Proof. intros [_ (p & c & -> & Hc)]. apply strip_cr_last. by intros ->. Qed.

(** ** Properties *)

(** The DNS servers come back on macOS: after any applies and reloads,
    whichever of them [networksetup] carries out, [restore] leaves the
    primary service with the servers it had at first (never changed, or set
    back to exactly those), unless [networksetup] refused and the log says
    so. *)
Theorem mac_dns_restored (svc : string) (l0 : list string) (h : Host) (log : Log) (l : list DnsCall) :
  setting svc (trace h) = None -> reports svc l0 h ->
  let s := dns_restore (calls l (mkNs h (mkNsd svc None None) log)) in
  current (ns_dns s) = None /\
  (setting svc (trace (ns_host s)) = None \/ setting svc (trace (ns_host s)) = Some (set_args l0) \/
   exists e, Warn ("failed to restore DNS: " +:+ e) ∈ ns_log s).
Proof.
  intros Ht Hr. apply mac_dns_restore_inv, mac_dns_calls_inv. constructor; simpl; auto.
Qed.

(** The service is found where the tool lists it: in the answer of
    [networksetup -listnetworkserviceorder], its header and then an entry
    for each service with its device, the name of the first entry is taken,
    whether its place is a number or the asterisk of a disabled service. *)
Theorem find_service_first (e : Service) (rest : string) :
  service_ok e ->
  find_service (ORDER_HEADER +:+ String LF (service_entry e +:+ BLANK +:+ rest)) = Some (name e).
Proof.
  intros (Ht & Hn & Hnl & Hp & Hpl & Hpo & Hd).
  destruct (entry_free e) as [F2 F3]; [done .. |].
  unfold find_service. fold BLANK. rewrite header_block by done. cbn [find_map].
  assert (Hdev : contains_str (ORDER_HEADER +:+ String LF (service_entry e)) "Device:" = true).
  { unfold service_entry, port_line.
    replace (ORDER_HEADER +:+ _) with
      ((ORDER_HEADER +:+ String LF (name_line e +:+ String LF ("(Hardware Port: " +:+ port e +:+ ", "))) +:+
       "Device:" +:+ (" " +:+ device e +:+ ")")); [apply contains_str_app |].
    repeat change (String LF (?a +:+ ?x)) with (String LF "" +:+ (a +:+ x)). by rewrite <- !string_app_assoc. }
  rewrite Hdev, lines_cons by by apply free_of_forallb. cbn [find_map].
  change (service_name (strip_cr ORDER_HEADER)) with (@None string). cbn [find_map].
  unfold service_entry. rewrite lines_cons by done. cbn [find_map].
  rewrite strip_cr_trimmed by by apply name_line_trimmed.
  unfold name_line. by rewrite service_name_entry.
Qed.

(** ** Witnesses *)

Module MacExample.
Definition done_ : ExitStatus := mkExit true "exit status: 0".

(** A host with one server on its service; it obeys every command. *)
Definition reply (t : list (Cmd * Reply)) (c : Cmd) : Reply :=
  Ok (mkOutput done_
    (if decide (c = get_cmd "Wi-Fi")
     then match setting "Wi-Fi" t with
          | None => "9.9.9.9" +:+ String LF ""
          | Some l => String.concat (String LF "") l
          end
     else "")).

Definition host : Host := mkHost reply [].

Lemma mac_dns_host_reports : reports "Wi-Fi" ["9.9.9.9"] host.
Proof.
  intros t Ht. change (servers_of (reply t (get_cmd "Wi-Fi")) = ["9.9.9.9"]). unfold reply.
  rewrite decide_True by done. by rewrite Ht.
Qed.

Definition wifi : Service := mkService "1" "Wi-Fi" "Wi-Fi" "en0".
End MacExample.

Lemma mac_dns_restored_witness :
  let s := dns_restore (calls [CallApply (Some (V4 16843009)); CallReload (Some (V4 134744072))]
             (mkNs MacExample.host (mkNsd "Wi-Fi" None None) [])) in
  setting "Wi-Fi" (trace (ns_host s)) = Some ["9.9.9.9"] /\
  (setting "Wi-Fi" (trace (ns_host s)) = None \/
   setting "Wi-Fi" (trace (ns_host s)) = Some (set_args ["9.9.9.9"]) \/
   exists e, Warn ("failed to restore DNS: " +:+ e) ∈ ns_log s).
Proof.
  split; [vm_compute; reflexivity |].
  apply (mac_dns_restored "Wi-Fi" ["9.9.9.9"] MacExample.host []
    [CallApply (Some (V4 16843009)); CallReload (Some (V4 134744072))]);
    [reflexivity | apply MacExample.mac_dns_host_reports].
Defined.

Lemma find_service_first_witness :
  find_service (ORDER_HEADER +:+ String LF (service_entry MacExample.wifi +:+ BLANK +:+ "")) = Some "Wi-Fi".
Proof.
  apply (find_service_first MacExample.wifi ""). split.
  - split; [reflexivity |]. exists "Wi-F", "i"%char. split; reflexivity.
  - repeat split; apply free_of_forallb; reflexivity.
Defined.
