(* ===== verification/MacRoute.v ===== *)
(** * macOS routing ([src/platform/macos/route.rs], [macos/mod.rs], [macos/detect.rs])

    [MacosRoutes] drives [/sbin/route]: gateway discovery from its output,
    the routes it adds and deletes, and the DNS override it owns. *)

From Stdlib Require Import ZArith Lia.
From Stdlib Require Import Strings.Ascii Strings.String.
From stdpp Require Import base decidable list strings gmap.
From S2P Require Import Prelude StdNet StdText Net Config NetText Logging Reload Platform Command MacDns Tune.
#[local] Open Scope Z_scope.

(** ** Definitions *)

Definition V4_SPLIT : list string := ["0.0.0.0/1"; "128.0.0.0/1"].
Definition V6_SPLIT : list string := ["::/1"; "8000::/1"].

Definition host_prefix (addr : IpAddr) : Z := if is_ipv4 addr then 32 else 128.

Definition ROUTE : string := "/sbin/route".

Record MacosRoutes : Type := mkMR {
  proxy_ip : IpAddr;
  tun_name : string;
  bypass : CidrList;
  capture_ipv6 : bool;
  v4_gateway : option IpAddr;
  v6_gateway : option IpAddr;
  mr_dns : NetworkSetupDns;
  mr_dns_server : option IpAddr;
  applied : bool;
}.

(** What a call can change: the manager, the host and the log. *)
Record MS : Type := mkMS { ms_mr : MacosRoutes; ms_host : Host; ms_log : Log }.

Definition set_mr (f : MacosRoutes -> MacosRoutes) (s : MS) : MS := mkMS (f (ms_mr s)) (ms_host s) (ms_log s).
Definition set_ms_host (h : Host) (s : MS) : MS := mkMS (ms_mr s) h (ms_log s).
Definition ms_info (m : string) (s : MS) : MS := mkMS (ms_mr s) (ms_host s) (Logger.info m (ms_log s)).
Definition ms_warn (m : string) (s : MS) : MS := mkMS (ms_mr s) (ms_host s) (Logger.warn m (ms_log s)).

Definition with_v4_gateway (g : option IpAddr) (m : MacosRoutes) : MacosRoutes :=
  mkMR (proxy_ip m) (tun_name m) (bypass m) (capture_ipv6 m) g (v6_gateway m) (mr_dns m) (mr_dns_server m) (applied m).
Definition with_v6_gateway (g : option IpAddr) (m : MacosRoutes) : MacosRoutes :=
  mkMR (proxy_ip m) (tun_name m) (bypass m) (capture_ipv6 m) (v4_gateway m) g (mr_dns m) (mr_dns_server m) (applied m).
Definition with_proxy_ip (ip : IpAddr) (m : MacosRoutes) : MacosRoutes :=
  mkMR ip (tun_name m) (bypass m) (capture_ipv6 m) (v4_gateway m) (v6_gateway m) (mr_dns m) (mr_dns_server m) (applied m).
Definition with_bypass (l : CidrList) (m : MacosRoutes) : MacosRoutes :=
  mkMR (proxy_ip m) (tun_name m) l (capture_ipv6 m) (v4_gateway m) (v6_gateway m) (mr_dns m) (mr_dns_server m) (applied m).
Definition with_dns (d : NetworkSetupDns) (m : MacosRoutes) : MacosRoutes :=
  mkMR (proxy_ip m) (tun_name m) (bypass m) (capture_ipv6 m) (v4_gateway m) (v6_gateway m) d (mr_dns_server m) (applied m).
Definition with_dns_server (d : option IpAddr) (m : MacosRoutes) : MacosRoutes :=
  mkMR (proxy_ip m) (tun_name m) (bypass m) (capture_ipv6 m) (v4_gateway m) (v6_gateway m) (mr_dns m) d (applied m).
Definition with_applied (b : bool) (m : MacosRoutes) : MacosRoutes :=
  mkMR (proxy_ip m) (tun_name m) (bypass m) (capture_ipv6 m) (v4_gateway m) (v6_gateway m) (mr_dns m) (mr_dns_server m) b.

(** The manager's [dns] field with the host and the log it works on. *)
Definition dns_view (s : MS) : NsState := mkNs (ms_host s) (mr_dns (ms_mr s)) (ms_log s).
Definition dns_put (d : NsState) (s : MS) : MS := mkMS (with_dns (ns_dns d) (ms_mr s)) (ns_host d) (ns_log d).
Definition on_dns {A} (m : SE NsState A) : SE MS A := fun s =>
  let '(r, d) := m (dns_view s) in (r, dns_put d s).

Definition route (l : list string) : SE MS unit := fun s =>
  let '(r, h) := spawn (mkCmd ROUTE l) (ms_host s) in
  (match r with
   | Err e => context "failed to run route" (Err [e])
   | Ok out => if success (status out) then Ok tt
               else bail ("route " +:+ debug_list l +:+ " exited with " +:+ status_text (status out))
   end, set_ms_host h s).

Definition route_quiet (l : list string) (s : MS) : MS :=
  let '(_, h) := spawn (mkCmd ROUTE l) (ms_host s) in set_ms_host h s.

(** The loop of [default_gateway]: the first line that gives an address. *)
Definition find_gateway (text : string) : option IpAddr :=
  find_map (fun line => match strip_prefix "gateway:" (trim line) with
                        | Some gw => parse_ip (trim gw)
                        | None => None
                        end) (lines text).

Definition default_gateway (family : string) (h : Host) : option IpAddr * Host :=
  let '(r, h) := spawn (mkCmd ROUTE ["-n"; "get"; family; "default"]) h in
  (match r with Err _ => None | Ok out => find_gateway (stdout out) end, h).

Definition inet_of (addr : IpAddr) : string := if is_ipv4 addr then "-inet" else "-inet6".

(** [None] is the panic of an accessor of [cfg]. *)
Definition MacosRoutes_new (cfg : Config) (proxy_ip : IpAddr) (tun_name : string) (capture_ipv6 : bool) (h : Host)
    : option (result MacosRoutes * Host) :=
  match bypass_routes cfg with
  | None => None
  | Some bypass =>
      let '(r, h) := NetworkSetupDns.discover h in
      match r with
      | Err e => Some (Err e, h)
      | Ok dns =>
          match dns_addr cfg with
          | None => None
          | Some dns_server =>
              Some (Ok {| proxy_ip := proxy_ip; tun_name := tun_name; bypass := bypass;
                          capture_ipv6 := capture_ipv6; v4_gateway := None; v6_gateway := None;
                          mr_dns := dns; mr_dns_server := dns_server; applied := false |}, h)
          end
      end
  end.

Definition new_route_controller := MacosRoutes_new.

Definition gateway_for (m : MacosRoutes) (addr : IpAddr) : option IpAddr :=
  match addr with V4 _ => v4_gateway m | V6 _ => v6_gateway m end.

Definition add_host_via_gateway (dst : IpAddr) (prefix : Z) (gw : IpAddr) : SE MS unit :=
  route ["add"; inet_of dst; "-net"; show_net dst prefix; show_ip gw].

(** [if let Some(gw) = self.gateway_for(dst) { route_quiet(delete ...) }] *)
Definition delete_via_gateway (dst : IpAddr) (prefix : Z) (s : MS) : MS :=
  match gateway_for (ms_mr s) dst with
  | Some gw => route_quiet ["delete"; inet_of dst; "-net"; show_net dst prefix; show_ip gw] s
  | None => s
  end.

(** Adding the networks of a loop: [suffix] ends the message and [skip] is
    what happens to a network without a gateway. *)
Definition add_bypass (suffix : string) (skip : string -> MS -> MS) (net : IpAddr * Z) : SE MS unit := fun s =>
  let '(dst, prefix) := net in
  match gateway_for (ms_mr s) dst with
  | Some g =>
      (do! add_host_via_gateway dst prefix g in
       se_do (ms_info ("bypass route " +:+ show_net dst prefix +:+ " via " +:+ show_ip g +:+ " added" +:+ suffix))) s
  | None => (Ok tt, skip (show_net dst prefix) s)
  end.

Definition add_split (inet net : string) : SE MS unit := fun s =>
  route ["add"; inet; "-net"; net; "-interface"; tun_name (ms_mr s)] s.

Definition delete_split (inet : string) (s : MS) (net : string) : MS :=
  route_quiet ["delete"; inet; "-net"; net; "-interface"; tun_name (ms_mr s)] s.

Definition find_gateways (s : MS) : MS :=
  let '(g4, h) := default_gateway "-inet" (ms_host s) in
  let s := set_mr (with_v4_gateway g4) (set_ms_host h s) in
  let '(g6, h) := default_gateway "-inet6" (ms_host s) in
  set_mr (with_v6_gateway g6) (set_ms_host h s).

Definition apply : SE MS unit :=
  do! se_do find_gateways in
  fun s =>
  let m := ms_mr s in
  match gateway_for m (proxy_ip m) with
  | None => (Err ["no default gateway for proxy " +:+ show_ip (proxy_ip m)], s)
  | Some gw =>
      (do! se_context "failed to pin proxy host route"
             (add_host_via_gateway (proxy_ip m) (host_prefix (proxy_ip m)) gw) in
       do! se_do (ms_info ("proxy host route " +:+ show_ip (proxy_ip m) +:+ " via " +:+ show_ip gw +:+ " added")) in
       do! se_for (bypass m) (add_bypass "" (fun n => ms_warn ("skipping bypass " +:+ n +:+ ": no gateway"))) in
       do! se_for V4_SPLIT (add_split "-inet") in
       do! se_do (ms_info "IPv4 split-default routes into tun added") in
       do! (if capture_ipv6 m && (bool_decide (is_Some (v6_gateway m)) || is_ipv6 (proxy_ip m))
            then do! se_for V6_SPLIT (add_split "-inet6") in
                 se_do (ms_info "IPv6 split-default routes into tun added")
            else se_ret tt) in
       do! on_dns (dns_apply (mr_dns_server m)) in
       se_do (set_mr (with_applied true))) s
  end.

Definition move_proxy_route (change : option (IpAddr * IpAddr)) : SE MS unit :=
  match change with
  | None => se_ret tt
  | Some (old_ip, new_ip) =>
      do! se_do (delete_via_gateway old_ip (host_prefix old_ip)) in
      fun s =>
      match gateway_for (ms_mr s) new_ip with
      | None => (Err ["no gateway for new proxy " +:+ show_ip new_ip], s)
      | Some gw =>
          (do! add_host_via_gateway new_ip (host_prefix new_ip) gw in
           do! se_do (set_mr (with_proxy_ip new_ip)) in
           se_do (ms_info ("proxy host route moved to " +:+ show_ip new_ip +:+ " via " +:+ show_ip gw))) s
      end
  end.

Definition remove_bypass (l : CidrList) (s : MS) : MS :=
  fold_left (fun s '(dst, prefix) => delete_via_gateway dst prefix s) l s.

Definition reload (plan : ReloadPlan) : SE MS unit := fun s =>
  if negb (applied (ms_mr s)) then (Ok tt, s)
  else
    (do! move_proxy_route (rp_proxy_route_change plan) in
     do! se_do (remove_bypass (rp_bypass_remove plan)) in
     do! se_for (rp_bypass_add plan) (add_bypass " (reload)" (fun _ s => s)) in
     do! se_do (set_mr (with_bypass (rp_new_bypass plan))) in
     if rp_dns_changed plan
     then do! on_dns (dns_reload (rp_dns plan)) in
          se_do (set_mr (with_dns_server (rp_dns plan)))
     else se_ret tt) s.

Definition teardown (s : MS) : MS :=
  if negb (applied (ms_mr s)) then s
  else
    let s := set_mr (with_applied false) s in
    let s := delete_via_gateway (proxy_ip (ms_mr s)) (host_prefix (proxy_ip (ms_mr s))) s in
    let s := remove_bypass (bypass (ms_mr s)) s in
    let s := fold_left (delete_split "-inet") V4_SPLIT s in
    let s := if capture_ipv6 (ms_mr s) then fold_left (delete_split "-inet6") V6_SPLIT s else s in
    let s := ms_info "routes removed" s in
    dns_put (dns_restore (dns_view s)) s.

#[global] Instance MacosRoutes_controller : RouteController MS := {|
  rc_apply := apply;
  rc_reload := reload;
  rc_teardown := teardown;
|}.

(** *** Link detection *)

Definition find_interface (text : string) : option string :=
  find_map (fun line => trim <$> strip_prefix "interface:" (trim line)) (lines text).

Definition default_interface (h : Host) : option string * Host :=
  let '(r, h) := spawn (mkCmd ROUTE ["-n"; "get"; "-inet"; "default"]) h in
  (match r with Err _ => None | Ok out => find_interface (stdout out) end, h).

(** The word after the first [mtu]; [?] ends the search when it is the last. *)
Fixpoint find_mtu (tokens : list string) : option Z :=
  match tokens with
  | [] => None
  | token :: rest =>
      if decide (token = "mtu")
      then match rest with [] => None | n :: _ => ok (parse_uint 32 n) end
      else find_mtu rest
  end.

Definition interface_mtu (iface : string) (h : Host) : option Z * Host :=
  let '(r, h) := spawn (mkCmd "/sbin/ifconfig" [iface]) h in
  (match r with Err _ => None | Ok out => find_mtu (split_whitespace (stdout out)) end, h).

Definition has_gateway_line (text : string) : bool :=
  existsb (fun line => starts_with (trim line) "gateway:") (lines text).

Definition has_default_gateway (family : string) (h : Host) : bool * Host :=
  let '(r, h) := spawn (mkCmd ROUTE ["-n"; "get"; family; "default"]) h in
  (match r with Err _ => false | Ok out => has_gateway_line (stdout out) end, h).

Definition detect_link (h : Host) : LinkInfo * Host :=
  let '(iface, h) := default_interface h in
  let '(mtu, h) := match iface with Some i => interface_mtu i h | None => (None, h) end in
  let '(v6, h) := has_default_gateway "-inet6" h in
  (mkLinkInfo mtu v6, h).

(** ** Specification *)

Definition mac_effect (c : Cmd) : Effect :=
  if decide (program c = ROUTE)
  then match args c with
       | "add" :: r => Adds r
       | "delete" :: r => Deletes r
       | _ => NoEffect
       end
  else NoEffect.

(** The routes the program has on the host. *)
Abbreviation live s := (outstanding mac_effect (trace (ms_host s))).

Definition gw_route (m : MacosRoutes) (net : IpAddr * Z) : option Route :=
  (fun gw => [inet_of net.1; "-net"; show_net net.1 net.2; show_ip gw]) <$> gateway_for m net.1.

Definition split_route (m : MacosRoutes) (inet net : string) : Route :=
  [inet; "-net"; net; "-interface"; tun_name m].

Definition proxy_net (m : MacosRoutes) : IpAddr * Z := (proxy_ip m, host_prefix (proxy_ip m)).

Definition via_gateways (m : MacosRoutes) : list Route := omap (gw_route m) (proxy_net m :: bypass m).

(** The routes of an applied manager, and those a teardown deletes. *)
Definition installed (m : MacosRoutes) : list Route :=
  via_gateways m ++ (split_route m "-inet" <$> V4_SPLIT) ++
  (if capture_ipv6 m && (bool_decide (is_Some (v6_gateway m)) || is_ipv6 (proxy_ip m))
   then split_route m "-inet6" <$> V6_SPLIT else []).

Definition removal (m : MacosRoutes) : list Route :=
  via_gateways m ++ (split_route m "-inet" <$> V4_SPLIT) ++
  (if capture_ipv6 m then split_route m "-inet6" <$> V6_SPLIT else []).

Lemma elem_of_via_gateways m x :
  x ∈ via_gateways m <-> gw_route m (proxy_net m) = Some x \/ x ∈ omap (gw_route m) (bypass m).
Proof.
  unfold via_gateways. rewrite !list_elem_of_omap. setoid_rewrite elem_of_cons. naive_solver.
Qed.

(** A run of the tunnel on a host whose primary service had the DNS servers
    [l0]: an apply and any number of reloads, all successful. *)
Inductive session (svc : string) (l0 : list string) : MS -> Prop :=
| session_apply s s' :
    live s = [] -> mr_dns (ms_mr s) = mkNsd svc None None ->
    setting svc (trace (ms_host s)) = None -> reports svc l0 (ms_host s) ->
    rc_apply s = (Ok tt, s') -> session svc l0 s'
| session_reload s s' plan :
    session svc l0 s -> plan_fits (proxy_ip (ms_mr s)) (bypass (ms_mr s)) plan ->
    rc_reload plan s = (Ok tt, s') -> session svc l0 s'.

(** ** Lemmas: what running [route] changes *)

(** Everything but the routes is as before. *)
Definition same_but_routes (s s' : MS) : Prop :=
  ms_mr s' = ms_mr s /\ answer (ms_host s') = answer (ms_host s) /\
  forall svc, setting svc (trace (ms_host s')) = setting svc (trace (ms_host s)).

Lemma same_refl s : same_but_routes s s.
Proof. done. Qed.

Lemma same_trans s1 s2 s3 : same_but_routes s1 s2 -> same_but_routes s2 s3 -> same_but_routes s1 s3.
Proof.
  intros (H1 & H2 & H3) (H1' & H2' & H3'). split_and!; [congruence .. |]. intros svc. by rewrite H3'.
Qed.

Lemma route_setting svc t l r : setting svc (t ++ [(mkCmd ROUTE l, r)]) = setting svc t.
Proof. rewrite setting_snoc. unfold setting_step. repeat case_match; naive_solver. Qed.

Lemma same_spawn l s : same_but_routes s (set_ms_host (spawn (mkCmd ROUTE l) (ms_host s)).2 s).
Proof. split_and!; [done .. |]. intros svc. apply route_setting. Qed.

Lemma route_ok l s s' :
  route l s = (Ok tt, s') ->
  same_but_routes s s' /\ ms_host s' = (spawn (mkCmd ROUTE l) (ms_host s)).2 /\
  succeeded (spawn (mkCmd ROUTE l) (ms_host s)).1 = true.
Proof.
  unfold route. destruct (spawn _ (ms_host s)) as [r h] eqn:E. intros H.
  destruct r as [out | e]; [| done]. simpl. destruct (success (status out)) eqn:Hs; [| done].
  injection H as <-. split; [| done]. pose proof (same_spawn l s) as Hsame. by rewrite E in Hsame.
Qed.

Lemma route_add_ok r s s' :
  route ("add" :: r) s = (Ok tt, s') ->
  same_but_routes s s' /\ forall x, x ∈ live s' <-> x = r \/ x ∈ live s.
Proof.
  intros (Hsame & Hh & Hs)%route_ok. split; [done |]. intros x. rewrite Hh. split.
  - by apply outstanding_add.
  - destruct (outstanding_added mac_effect (mkCmd ROUTE ("add" :: r)) (ms_host s) r) as [H1 H2]; [done .. |].
    intros [-> | ?]; auto.
Qed.

Lemma route_delete r s :
  same_but_routes s (route_quiet ("delete" :: r) s) /\
  forall x, x ∈ live (route_quiet ("delete" :: r) s) <-> x <> r /\ x ∈ live s.
Proof.
  pose proof (same_spawn ("delete" :: r) s) as Hsame. unfold route_quiet.
  destruct (spawn _ _) as [o h] eqn:E. simpl in Hsame. split; [done |]. simpl.
  replace h with (spawn (mkCmd ROUTE ("delete" :: r)) (ms_host s)).2 by (by rewrite E).
  by apply outstanding_delete.
Qed.

(** ** Lemmas: adding *)

(** [adds P s s']: the routes in [P] have been added, and nothing else. *)
Definition adds (P : Route -> Prop) (s s' : MS) : Prop :=
  same_but_routes s s' /\ forall x, x ∈ live s' <-> P x \/ x ∈ live s.

Lemma adds_trans P Q s1 s2 s3 : adds P s1 s2 -> adds Q s2 s3 -> adds (fun x => P x \/ Q x) s1 s3.
Proof.
  intros [H1 H2] [H3 H4]. split; [by eapply same_trans |]. intros x. rewrite H4, H2. tauto.
Qed.

Lemma adds_ext (P Q : Route -> Prop) s s' : (forall x, P x <-> Q x) -> adds P s s' -> adds Q s s'.
Proof. intros H [H1 H2]. split; [done |]. intros x. by rewrite H2, H. Qed.

Lemma adds_info P m s s' : adds P s s' -> adds P s (ms_info m s').
Proof. done. Qed.

Lemma mac_add_via_gateway_ok d p gw s s' :
  gateway_for (ms_mr s) d = Some gw -> add_host_via_gateway d p gw s = (Ok tt, s') ->
  adds (fun x => gw_route (ms_mr s) (d, p) = Some x) s s'.
Proof.
  intros Hg H. apply route_add_ok in H as [H1 H2]. split; [done |]. intros x. rewrite H2.
  unfold gw_route. simpl. rewrite Hg. simpl. naive_solver.
Qed.

Lemma mac_add_bypass_ok sf skip net s s' :
  (forall n s, same_but_routes s (skip n s) /\ live (skip n s) = live s) ->
  add_bypass sf skip net s = (Ok tt, s') -> adds (fun x => gw_route (ms_mr s) net = Some x) s s'.
Proof.
  intros Hskip. destruct net as [d p]. unfold add_bypass.
  destruct (gateway_for (ms_mr s) d) as [g |] eqn:E.
  - intros ([] & s1 & H1 & H2)%se_bind_ok. injection H2 as <-. apply adds_info. by eapply mac_add_via_gateway_ok.
  - intros [= <-]. destruct (Hskip (show_net d p) s) as [H1 H2]. split; [done |]. intros x. rewrite H2.
    unfold gw_route. simpl. rewrite E. naive_solver.
Qed.

Lemma mac_for_bypass_ok sf skip l s s' :
  (forall n s, same_but_routes s (skip n s) /\ live (skip n s) = live s) ->
  se_for l (add_bypass sf skip) s = (Ok tt, s') -> adds (fun x => x ∈ omap (gw_route (ms_mr s)) l) s s'.
Proof.
  intros Hskip. revert s. induction l as [| net l IH]; intros s H.
  - injection H as <-. split; [done |]. intros x. simpl. rewrite elem_of_nil. tauto.
  - apply se_bind_ok in H as ([] & s1 & H1%mac_add_bypass_ok & H2%IH); [| done]. destruct H1 as [Hs H1].
    rewrite (proj1 Hs) in H2. eapply adds_ext; [| eapply adds_trans; [exact (conj Hs H1) | exact H2]]. intros x.
    rewrite !list_elem_of_omap. setoid_rewrite elem_of_cons. naive_solver.
Qed.

Lemma for_split_ok inet l s s' :
  se_for l (add_split inet) s = (Ok tt, s') -> adds (fun x => x ∈ split_route (ms_mr s) inet <$> l) s s'.
Proof.
  revert s. induction l as [| net l IH]; intros s H.
  - injection H as <-. split; [done |]. intros x. simpl. rewrite elem_of_nil. tauto.
  - apply se_bind_ok in H as ([] & s1 & H1 & H2%IH). apply route_add_ok in H1 as [Hs H1].
    rewrite (proj1 Hs) in H2. eapply adds_ext; [| eapply adds_trans; [exact (conj Hs H1) | exact H2]]. intros x. simpl.
    rewrite elem_of_cons. done.
Qed.

(** ** Lemmas: removing *)

(** [deletes P s s']: the routes in [P] have been deleted, and nothing else. *)
Definition deletes (P : Route -> Prop) (s s' : MS) : Prop :=
  same_but_routes s s' /\ forall x, x ∈ live s' <-> ~ P x /\ x ∈ live s.

Lemma deletes_trans P Q s1 s2 s3 :
  deletes P s1 s2 -> deletes Q s2 s3 -> deletes (fun x => P x \/ Q x) s1 s3.
Proof.
  intros [H1 H2] [H3 H4]. split; [by eapply same_trans |]. intros x. rewrite H4, H2. tauto.
Qed.

Lemma deletes_ext (P Q : Route -> Prop) s s' : (forall x, P x <-> Q x) -> deletes P s s' -> deletes Q s s'.
Proof. intros H [H1 H2]. split; [done |]. intros x. by rewrite H2, H. Qed.

Lemma deletes_none (P : Route -> Prop) s : (forall x, ~ P x) -> deletes P s s.
Proof. intros H. split; [done |]. intros x. specialize (H x). tauto. Qed.

Lemma delete_via_gateway_ok d p s :
  deletes (fun x => gw_route (ms_mr s) (d, p) = Some x) s (delete_via_gateway d p s).
Proof.
  unfold delete_via_gateway, gw_route. simpl. destruct (gateway_for (ms_mr s) d) as [g |]; simpl.
  - destruct (route_delete [inet_of d; "-net"; show_net d p; show_ip g] s) as [H1 H2].
    split; [done |]. intros x. rewrite H2. naive_solver.
  - by apply deletes_none.
Qed.

Lemma remove_bypass_ok l s : deletes (fun x => x ∈ omap (gw_route (ms_mr s)) l) s (remove_bypass l s).
Proof.
  unfold remove_bypass. revert s. induction l as [| [d p] l IH]; intros s.
  - apply deletes_none. intros x. apply not_elem_of_nil.
  - cbn [fold_left]. pose proof (delete_via_gateway_ok d p s) as H1. specialize (IH (delete_via_gateway d p s)).
    rewrite (proj1 (proj1 H1)) in IH. eapply deletes_ext; [| eapply deletes_trans; [exact H1 | exact IH]].
    intros x. rewrite !list_elem_of_omap. setoid_rewrite elem_of_cons. naive_solver.
Qed.

Lemma delete_splits_ok inet l s :
  deletes (fun x => x ∈ split_route (ms_mr s) inet <$> l) s (fold_left (delete_split inet) l s).
Proof.
  revert s. induction l as [| net l IH]; intros s.
  - apply deletes_none. intros x. apply not_elem_of_nil.
  - cbn [fold_left]. specialize (IH (delete_split inet s net)).
    destruct (route_delete (split_route (ms_mr s) inet net) s) as [H1 H2].
    change (route_quiet ("delete" :: split_route (ms_mr s) inet net) s) with (delete_split inet s net) in H1, H2.
    rewrite (proj1 H1) in IH. eapply deletes_ext; [| eapply deletes_trans; [exact (conj H1 H2) | exact IH]].
    intros x. rewrite fmap_cons, elem_of_cons. done.
Qed.

(** ** Lemmas: the DNS override leaves the routes alone *)

Lemma live_networksetup c h :
  program c = NETWORKSETUP -> outstanding mac_effect (trace (spawn c h).2) = outstanding mac_effect (trace h).
Proof. intros H. apply outstanding_none. unfold mac_effect. by rewrite H. Qed.

Lemma live_set_servers svc l s :
  outstanding mac_effect (trace (ns_host (set_servers svc l s).2)) = outstanding mac_effect (trace (ns_host s)).
Proof.
  pose proof (live_networksetup (set_cmd svc l) (ns_host s) eq_refl) as H. unfold set_servers.
  by destruct (spawn _ _) as [r h].
Qed.

Lemma live_ensure_backup s :
  outstanding mac_effect (trace (ns_host (NetworkSetupDns.ensure_backup s))) = outstanding mac_effect (trace (ns_host s)).
Proof.
  unfold NetworkSetupDns.ensure_backup. destruct (original (ns_dns s)); [done |].
  pose proof (live_networksetup (get_cmd (service (ns_dns s))) (ns_host s) eq_refl) as H. unfold get_servers.
  by destruct (spawn _ _) as [r h].
Qed.

(** A step that leaves the routes alone, whether it fails or not. *)
Definition keeps_live {A} (m : SE NsState A) : Prop :=
  forall s, outstanding mac_effect (trace (ns_host (m s).2)) = outstanding mac_effect (trace (ns_host s)).

Lemma keeps_bind {A B} (m : SE NsState A) (k : A -> SE NsState B) :
  keeps_live m -> (forall a, keeps_live (k a)) -> keeps_live (se_bind m k).
Proof.
  intros Hm Hk s. unfold se_bind. specialize (Hm s). destruct (m s) as [[a | e] s1]; simpl in *; [| done].
  by rewrite Hk.
Qed.

Lemma keeps_do (f : NsState -> NsState) :
  (forall s, outstanding mac_effect (trace (ns_host (f s))) = outstanding mac_effect (trace (ns_host s))) ->
  keeps_live (se_do f).
Proof. intros H s. apply H. Qed.

Lemma live_dns_apply server : keeps_live (dns_apply server).
Proof.
  destruct server as [d |]; [| done]. simpl. apply keeps_bind; [apply keeps_do, live_ensure_backup |]. intros [] s.
  apply keeps_bind; [intros s1; apply live_set_servers |]. intros []. by apply keeps_bind.
Qed.

Lemma live_dns_reload server : keeps_live (dns_reload server).
Proof.
  intros s. simpl. unfold NetworkSetupDns.reload. case_decide; [done |]. apply keeps_bind; [| done].
  destruct server as [d |].
  - apply keeps_bind; [apply keeps_do, live_ensure_backup |]. intros []. by apply keeps_bind; [intros s1; apply live_set_servers |].
  - destruct (original (ns_dns s)); [| done]. by apply keeps_bind; [intros s1; apply live_set_servers |].
Qed.

Lemma live_dns_restore s :
  outstanding mac_effect (trace (ns_host (dns_restore s))) = outstanding mac_effect (trace (ns_host s)).
Proof.
  simpl. unfold NetworkSetupDns.restore. destruct (MacDns.current (ns_dns s)); [| done].
  destruct (original (ns_dns s)) as [o |]; [| done]. cbv zeta.
  pose proof (live_set_servers (service (ns_dns (set_original None s))) o (set_original None s)) as H.
  by destruct (set_servers _ _ _) as [[[] | e] s1].
Qed.

(** ** Lemmas: the operations *)

Lemma find_gateways_ok s :
  exists g4 g6, ms_mr (find_gateways s) = with_v6_gateway g6 (with_v4_gateway g4 (ms_mr s)) /\
    answer (ms_host (find_gateways s)) = answer (ms_host s) /\
    (forall svc, setting svc (trace (ms_host (find_gateways s))) = setting svc (trace (ms_host s))) /\
    live (find_gateways s) = live s.
Proof.
  unfold find_gateways, default_gateway.
  pose proof (same_spawn ["-n"; "get"; "-inet"; "default"] s) as (_ & H1 & H2).
  pose proof (outstanding_none mac_effect (mkCmd ROUTE ["-n"; "get"; "-inet"; "default"]) (ms_host s) eq_refl) as H3.
  destruct (spawn _ (ms_host s)) as [r h]. cbn [set_mr set_ms_host ms_host fst snd] in *.
  pose proof (same_spawn ["-n"; "get"; "-inet6"; "default"] (mkMS (ms_mr s) h (ms_log s))) as (_ & H4 & H5).
  pose proof (outstanding_none mac_effect (mkCmd ROUTE ["-n"; "get"; "-inet6"; "default"]) h eq_refl) as H6.
  cbn [set_mr set_ms_host ms_host fst snd] in *. destruct (spawn _ h) as [r' h']. cbn [fst snd] in *.
  do 2 eexists. cbn [set_mr set_ms_host ms_host ms_mr]. split_and!; [done | congruence | | congruence]. intros svc. by rewrite H5.
Qed.

Lemma mac_on_dns_ok (m : SE NsState unit) s s' :
  on_dns m s = (Ok tt, s') -> exists d, m (dns_view s) = (Ok tt, d) /\ s' = dns_put d s.
Proof. unfold on_dns. destruct (m (dns_view s)) as [r d] eqn:E. intros [= -> <-]. by exists d. Qed.

(** The DNS override's invariant depends on the host only. *)
Lemma ns_inv_host svc l0 s h log :
  ns_inv svc l0 s -> answer h = answer (ns_host s) -> setting svc (trace h) = setting svc (trace (ns_host s)) ->
  ns_inv svc l0 (mkNs h (ns_dns s) log).
Proof.
  intros [Hs Hr Ho Hc] Ha Ht. constructor; simpl; rewrite ?Ht; try done.
  unfold reports. by rewrite Ha.
Qed.

Lemma ns_inv_same svc l0 s s' :
  same_but_routes s s' -> ns_inv svc l0 (dns_view s) -> ns_inv svc l0 (dns_view s').
Proof. intros (H1 & H2 & H3) Hi. unfold dns_view. rewrite H1. by apply (ns_inv_host svc l0 (dns_view s)). Qed.

Lemma mac_apply_ok s s' :
  apply s = (Ok tt, s') ->
  exists g4 g6 s1 d, let m := with_v6_gateway g6 (with_v4_gateway g4 (ms_mr s)) in
    ms_mr s1 = m /\ answer (ms_host s1) = answer (ms_host s) /\
    (forall svc, setting svc (trace (ms_host s1)) = setting svc (trace (ms_host s))) /\
    dns_apply (mr_dns_server m) (dns_view s1) = (Ok tt, d) /\
    s' = set_mr (with_applied true) (dns_put d s1) /\
    is_Some (gateway_for m (proxy_ip m)) /\
    (forall x, x ∈ live s' <-> x ∈ installed m \/ x ∈ live s).
Proof.
  unfold apply. intros H. apply se_bind_ok in H as ([] & s0 & H0 & H). injection H0 as <-.
  destruct (find_gateways_ok s) as (g4 & g6 & Hm & Ha & Hset & Hl).
  set (m := with_v6_gateway g6 (with_v4_gateway g4 (ms_mr s))) in *. rewrite Hm in H.
  destruct (gateway_for m (proxy_ip m)) as [gw |] eqn:Hgw; [| done].
  apply se_bind_ok in H as ([] & s1 & H1%se_context_ok & H).
  apply mac_add_via_gateway_ok in H1; [| by rewrite Hm].
  apply se_bind_ok in H as ([] & s2 & H2 & H). injection H2 as H2. rewrite Hm in H1.
  assert (H1' : adds (fun x => gw_route m (proxy_net m) = Some x) (find_gateways s) s2)
    by (subst s2; by apply adds_info).
  assert (E2 : ms_mr s2 = m) by by rewrite (proj1 (proj1 H1')).
  apply se_bind_ok in H as ([] & s3 & H3 & H). apply mac_for_bypass_ok in H3; [| done].
  apply se_bind_ok in H as ([] & s4 & H4 & H). apply for_split_ok in H4.
  apply se_bind_ok in H as ([] & s5 & H5 & H). injection H5 as <-.
  apply se_bind_ok in H as ([] & s6 & H6 & H).
  assert (H6' : adds (fun x => x ∈ if capture_ipv6 m && (bool_decide (is_Some (v6_gateway m)) || is_ipv6 (proxy_ip m))
                     then split_route (ms_mr s4) "-inet6" <$> V6_SPLIT else []) s4 s6).
  { destruct (_ && _).
    - apply se_bind_ok in H6 as ([] & s7 & H7%for_split_ok & H6). by injection H6 as <-.
    - injection H6 as <-. split; [done |]. intros x. rewrite elem_of_nil. simpl. tauto. }
  apply se_bind_ok in H as ([] & s7 & H7 & H). injection H as <-. apply mac_on_dns_ok in H7 as (d & Hd & ->).
  rewrite E2 in H3. assert (E3 : ms_mr s3 = m) by by rewrite (proj1 (proj1 H3)).
  rewrite E3 in H4. assert (E4 : ms_mr s4 = m) by by rewrite (proj1 (proj1 H4)). rewrite E4 in H6'.
  pose proof (adds_trans _ _ _ _ _ (adds_trans _ _ _ _ _ (adds_trans _ _ _ _ _ H1' H3) H4) H6') as [(Hmr & Hans & Hse) Hlive].
  exists g4, g6, s6, d. cbv zeta. fold m. split_and!.
  - congruence.
  - congruence.
  - intros svc. by rewrite Hse.
  - done.
  - done.
  - rewrite Hgw. by eexists.
  - intros x. change (live (set_mr _ _)) with (outstanding mac_effect (trace (ns_host d))).
    pose proof (live_dns_apply (mr_dns_server m) (dns_view s6)) as Hd'. rewrite Hd in Hd'.
    change (outstanding mac_effect (trace (ns_host (Ok tt, d).2))) with (outstanding mac_effect (trace (ns_host d))) in Hd'.
    rewrite Hd'. change (outstanding mac_effect (trace (ns_host (dns_view s6)))) with (live s6).
    rewrite Hlive, Hl. unfold installed. rewrite !elem_of_app, elem_of_via_gateways. tauto.
Qed.

Definition splits (m : MacosRoutes) : list Route :=
  (split_route m "-inet" <$> V4_SPLIT) ++ (if capture_ipv6 m then split_route m "-inet6" <$> V6_SPLIT else []).

Lemma mac_elem_of_removal m x :
  x ∈ removal m <-> gw_route m (proxy_net m) = Some x \/ x ∈ omap (gw_route m) (bypass m) \/ x ∈ splits m.
Proof. unfold removal. rewrite elem_of_app, elem_of_via_gateways. unfold splits. tauto. Qed.

Lemma installed_removal m x : x ∈ installed m -> x ∈ removal m.
Proof.
  unfold installed, removal. rewrite !elem_of_app. intros [H | [H | H]]; auto. right. right.
  destruct (capture_ipv6 m); simpl in H; [| done]. by case_match; [| apply not_elem_of_nil in H].
Qed.

(** The program's routes are all ones a teardown would delete. *)
Definition covered (s : MS) : Prop := forall x, x ∈ live s -> x ∈ removal (ms_mr s).

(** Nothing but the routes and the fields [f] sets. *)
Definition only (f : MacosRoutes -> MacosRoutes) (s s' : MS) : Prop :=
  ms_mr s' = f (ms_mr s) /\ answer (ms_host s') = answer (ms_host s) /\
  forall svc, setting svc (trace (ms_host s')) = setting svc (trace (ms_host s)).

(** The manager a plan leads to, but for the DNS server. *)
Definition planned (plan : ReloadPlan) (m : MacosRoutes) : MacosRoutes :=
  with_bypass (rp_new_bypass plan)
    (with_proxy_ip (match rp_proxy_route_change plan with Some (_, n) => n | None => proxy_ip m end) m).

Lemma mac_moved ch s s1 :
  move_proxy_route ch s = (Ok tt, s1) ->
  only (with_proxy_ip (match ch with Some (_, n) => n | None => proxy_ip (ms_mr s) end)) s s1 /\
  forall x, x ∈ live s1 ->
    match ch with
    | Some (o, n) => gw_route (ms_mr s) (n, host_prefix n) = Some x \/
                     (gw_route (ms_mr s) (o, host_prefix o) <> Some x /\ x ∈ live s)
    | None => x ∈ live s
    end.
Proof.
  intros H. destruct ch as [[o n] |].
  2: { injection H as <-. split; [| done]. split; [by destruct (ms_mr s) | done]. }
  apply se_bind_ok in H as ([] & s0 & H0 & H). injection H0 as H0.
  pose proof (delete_via_gateway_ok o (host_prefix o) s) as Hdel. rewrite H0 in Hdel. clear H0.
  destruct Hdel as [(Hm0 & Ha0 & Hs0) Hl0]. destruct (gateway_for (ms_mr s0) n) as [gw |] eqn:Hg; [| done].
  apply se_bind_ok in H as ([] & s2 & H2 & H). apply mac_add_via_gateway_ok in H2 as [(Hm2 & Ha2 & Hs2) Hl2]; [| done].
  apply se_bind_ok in H as ([] & s3 & H3 & H). injection H3 as <-. injection H as <-.
  split; [split_and!; simpl; [congruence .. |]; intros svc; by rewrite Hs2 |].
  intros x. simpl. by rewrite Hl2, Hm0, Hl0.
Qed.

(** The routes a reload that ends well leaves of those before it, or adds. *)
Definition remains (plan : ReloadPlan) (s : MS) (x : Route) : Prop :=
  x ∈ omap (gw_route (ms_mr s)) (rp_bypass_add plan) \/
  (x ∉ omap (gw_route (ms_mr s)) (rp_bypass_remove plan) /\
   match rp_proxy_route_change plan with
   | Some (o, n) => gw_route (ms_mr s) (n, host_prefix n) = Some x \/
                    (gw_route (ms_mr s) (o, host_prefix o) <> Some x /\ x ∈ live s)
   | None => x ∈ live s
   end).

(** What a reload that ends well does. *)
Lemma mac_reload_stages plan s s' :
  reload plan s = (Ok tt, s') -> applied (ms_mr s) = true ->
  (exists d srv, ms_mr s' = with_dns_server srv (with_dns d (planned plan (ms_mr s)))) /\
  (forall svc l0, ns_inv svc l0 (dns_view s) -> ns_inv svc l0 (dns_view s')) /\
  forall x, x ∈ live s' -> remains plan s x.
Proof.
  unfold reload. intros H Ha. rewrite Ha in H. cbn [negb] in H.
  apply se_bind_ok in H as ([] & s1 & H1 & H). apply mac_moved in H1 as [(Hm1 & Ha1 & Hs1) Hl1].
  apply se_bind_ok in H as ([] & s2 & H2 & H). injection H2 as H2.
  pose proof (remove_bypass_ok (rp_bypass_remove plan) s1) as Hdel. rewrite H2 in Hdel. clear H2.
  destruct Hdel as [(Hm2 & Ha2 & Hs2) Hl2].
  apply se_bind_ok in H as ([] & s3 & H3 & H). apply mac_for_bypass_ok in H3 as [(Hm3 & Ha3 & Hs3) Hl3]; [| done].
  apply se_bind_ok in H as ([] & s4 & H4 & H). injection H4 as H4.
  assert (Hm4 : ms_mr s4 = planned plan (ms_mr s)) by (subst s4; simpl; unfold planned; congruence).
  assert (Hl4 : forall x, x ∈ live s4 -> remains plan s x).
  { subst s4. intros x. simpl. rewrite Hl3, Hl2, Hm2, Hm1. intros [Hx | [Hn Hx]]; [left; exact Hx |].
    right. exact (conj Hn (Hl1 x Hx)). }
  assert (Hi4 : forall svc l0, ns_inv svc l0 (dns_view s) -> ns_inv svc l0 (dns_view s4)).
  { intros svc l0 Hi. replace (dns_view s4) with (mkNs (ms_host s4) (ns_dns (dns_view s)) (ms_log s4)).
    - apply ns_inv_host; [done | ..]; subst s4; simpl; [congruence |]. by rewrite Hs3, Hs2, Hs1.
    - unfold dns_view. by rewrite Hm4. }
  clear H4. destruct (rp_dns_changed plan).
  - apply se_bind_ok in H as ([] & s5 & H5 & H). injection H as <-. apply mac_on_dns_ok in H5 as (d & Hd & ->).
    split_and!; [exists (ns_dns d), (rp_dns plan); simpl; by rewrite Hm4 | |].
    + intros svc l0 Hi%Hi4. pose proof (mac_dns_reload_inv svc l0 (rp_dns plan) _ Hi) as Hid. rewrite Hd in Hid.
      cbn [snd] in Hid. unfold dns_view. simpl. by destruct Hid.
    + intros x. simpl. pose proof (live_dns_reload (rp_dns plan) (dns_view s4)) as Hl. rewrite Hd in Hl.
      cbn [snd] in Hl. rewrite Hl. apply Hl4.
  - injection H as <-. split_and!; [| done | done]. exists (mr_dns (ms_mr s)), (mr_dns_server (ms_mr s)). by rewrite Hm4.
Qed.

Lemma mac_reload_ok plan s s' :
  reload plan s = (Ok tt, s') -> applied (ms_mr s) = true ->
  plan_fits (proxy_ip (ms_mr s)) (bypass (ms_mr s)) plan -> covered s ->
  applied (ms_mr s') = true /\ covered s' /\
  (forall svc l0, ns_inv svc l0 (dns_view s) -> ns_inv svc l0 (dns_view s')) /\
  bypass (ms_mr s') = rp_new_bypass plan /\
  proxy_ip (ms_mr s') = match rp_proxy_route_change plan with Some (_, n) => n | None => proxy_ip (ms_mr s) end.
Proof.
  intros H Ha (Hpc & Hnew & _ & Hadd) Hc. apply mac_reload_stages in H as ((d & srv & Hm) & Hi & Hl); [| done].
  split_and!; [by rewrite Hm | | done | by rewrite Hm ..]. intros x Hx. rewrite Hm. apply mac_elem_of_removal.
  change (gw_route _) with (gw_route (ms_mr s)). change (splits _) with (splits (ms_mr s)).
  assert (Hold : x ∈ omap (gw_route (ms_mr s)) (bypass (ms_mr s)) -> x ∉ omap (gw_route (ms_mr s)) (rp_bypass_remove plan) ->
    x ∈ omap (gw_route (ms_mr s)) (rp_new_bypass plan)).
  { rewrite !list_elem_of_omap. intros (net & Hin & Hx') Hn. destruct (Hnew net Hin) as [? | Hr]; [eauto |].
    destruct Hn. eauto. }
  apply Hl in Hx as [Hx | [Hn Hx]].
  { right. left. apply list_elem_of_omap in Hx as (net & Hin & Hx). apply list_elem_of_omap. eauto. }
  unfold proxy_net, planned. simpl. destruct (rp_proxy_route_change plan) as [[o n] |].
  - destruct Hx as [Hx | [Hno Hx]]; [by left |]. apply Hc, mac_elem_of_removal in Hx as [Hx | [Hx | Hx]]; auto.
    unfold proxy_net in Hx. by rewrite <- (Hpc o n eq_refl) in Hx.
  - apply Hc, mac_elem_of_removal in Hx as [Hx | [Hx | Hx]]; auto.
Qed.

Lemma mac_session_inv svc l0 s :
  session svc l0 s -> applied (ms_mr s) = true /\ covered s /\ ns_inv svc l0 (dns_view s).
Proof.
  induction 1 as [s s' Hl Hd Ht Hr Hok | s s' plan Hs (Ha & Hc & Hi) Hp Hok].
  - apply mac_apply_ok in Hok as (g4 & g6 & s1 & d & Hm & Ha & Hset & Hdns & -> & _ & Hlive).
    split_and!; [done | |].
    + intros x Hx. apply Hlive in Hx as [Hx | Hx]; [| rewrite Hl in Hx; by apply not_elem_of_nil in Hx].
      apply installed_removal in Hx. simpl. by rewrite Hm.
    + assert (Hi : ns_inv svc l0 (dns_view s1)).
      { unfold dns_view. rewrite Hm. simpl. rewrite Hd.
        apply (ns_inv_host svc l0 (mkNs (ms_host s) (mkNsd svc None None) [])); simpl; auto.
        constructor; simpl; auto. }
      apply (MacDns.mac_dns_apply_inv svc l0 (mr_dns_server (with_v6_gateway g6 (with_v4_gateway g4 (ms_mr s))))) in Hi.
      rewrite Hdns in Hi. by destruct Hi.
  - apply mac_reload_ok in Hok as (H1 & H2 & H3 & _); auto.
Qed.

Lemma mac_teardown_ok s :
  applied (ms_mr s) = true ->
  exists s1, teardown s = dns_put (dns_restore (dns_view s1)) s1 /\
    only (with_applied false) s s1 /\
    forall x, x ∈ live s1 <-> x ∉ removal (ms_mr s) /\ x ∈ live s.
Proof.
  intros Ha. unfold teardown. rewrite Ha. cbn [negb].
  set (s1 := set_mr (with_applied false) s).
  pose proof (delete_via_gateway_ok (proxy_ip (ms_mr s1)) (host_prefix (proxy_ip (ms_mr s1))) s1) as H2.
  set (s2 := delete_via_gateway _ _ s1) in *. assert (E2 : ms_mr s2 = ms_mr s1) by apply H2.
  pose proof (remove_bypass_ok (bypass (ms_mr s2)) s2) as H3.
  set (s3 := remove_bypass _ s2) in *. assert (E3 : ms_mr s3 = ms_mr s1) by (rewrite <- E2; apply H3).
  pose proof (delete_splits_ok "-inet" V4_SPLIT s3) as H4.
  set (s4 := fold_left _ V4_SPLIT s3) in *. assert (E4 : ms_mr s4 = ms_mr s1) by (rewrite <- E3; apply H4).
  set (s5 := if capture_ipv6 (ms_mr s4) then _ else s4).
  assert (H5 : deletes (fun x => x ∈ if capture_ipv6 (ms_mr s) then split_route (ms_mr s) "-inet6" <$> V6_SPLIT else []) s4 s5).
  { subst s5. rewrite E4. change (capture_ipv6 (ms_mr s1)) with (capture_ipv6 (ms_mr s)).
    destruct (capture_ipv6 (ms_mr s)); [| apply deletes_none; intros x; apply not_elem_of_nil].
    pose proof (delete_splits_ok "-inet6" V6_SPLIT s4) as H. rewrite E4 in H. exact H. }
  exists (ms_info "routes removed" s5). rewrite E2 in H3. rewrite E3 in H4.
  pose proof (deletes_trans _ _ _ _ _ (deletes_trans _ _ _ _ _ (deletes_trans _ _ _ _ _ H2 H3) H4) H5)
    as [(Hm & Han & Hse) Hl].
  split; [done |]. split.
  - split; [simpl; by rewrite Hm | done].
  - intros x. etransitivity; [apply (Hl x) |]. rewrite mac_elem_of_removal. unfold splits. rewrite elem_of_app.
    subst s1. simpl. unfold proxy_net. tauto.
Qed.

(** The teardown of a manager that knows all its routes. *)
Lemma mac_covered_teardown (svc : string) (l0 : list string) (s : MS) :
  applied (ms_mr s) = true -> covered s -> ns_inv svc l0 (dns_view s) ->
  let s' := rc_teardown s in
  live s' = [] /\ applied (ms_mr s') = false /\
  (setting svc (trace (ms_host s')) = None \/ setting svc (trace (ms_host s')) = Some (set_args l0) \/
   exists e, Warn ("failed to restore DNS: " +:+ e) ∈ ms_log s').
Proof.
  intros Ha Hc Hi. cbv zeta. cbn [rc_teardown MacosRoutes_controller].
  destruct (mac_teardown_ok s Ha) as (s1 & -> & (Hm & Han & Hse) & Hl). split; [| split].
  - pose proof (live_dns_restore (dns_view s1)) as E. simpl in E |- *. rewrite E.
    destruct (outstanding mac_effect (trace (ms_host s1))) as [| x l] eqn:El; [done |]. exfalso.
    destruct (proj1 (Hl x)) as [Hn Hx]; [left |]. by apply Hn, Hc.
  - simpl. by rewrite Hm.
  - assert (Hi1 : ns_inv svc l0 (dns_view s1)).
    { replace (dns_view s1) with (mkNs (ms_host s1) (ns_dns (dns_view s)) (ms_log s1)).
      - by apply ns_inv_host.
      - unfold dns_view. by rewrite Hm. }
    apply MacDns.mac_dns_restore_inv in Hi1 as [_ Hr]. exact Hr.
Qed.

(** The teardown after a session. *)
Lemma mac_session_teardown (svc : string) (l0 : list string) (s : MS) :
  session svc l0 s ->
  let s' := rc_teardown s in
  live s' = [] /\ applied (ms_mr s') = false /\
  (setting svc (trace (ms_host s')) = None \/ setting svc (trace (ms_host s')) = Some (set_args l0) \/
   exists e, Warn ("failed to restore DNS: " +:+ e) ∈ ms_log s').
Proof. intros (Ha & Hc & Hi)%mac_session_inv. by apply mac_covered_teardown. Qed.

(** ** Properties *)

(** C26. On macOS a successful [apply] adds exactly the routes of the
    configuration: the proxy's host route, which always finds a gateway, the
    bypass networks whose family has one, and the halves of the address
    space into the tunnel. *)
Theorem mac_apply_installs (s s' : MS) :
  rc_apply s = (Ok tt, s') ->
  applied (ms_mr s') = true /\
  (exists gw, gateway_for (ms_mr s') (proxy_ip (ms_mr s')) = Some gw) /\
  forall r, r ∈ live s' <-> r ∈ installed (ms_mr s') \/ r ∈ live s.
Proof.
  intros H. apply mac_apply_ok in H as (g4 & g6 & s1 & d & Hm & _ & _ & _ & -> & Hg & Hl).
  split; [done |]. split; [simpl; by rewrite Hm |].
  intros r. rewrite Hl. simpl. by rewrite Hm.
Qed.

(** Teardown leaves nothing behind on macOS: after an apply and any
    reloads that succeeded, with plans computed for the manager's routes,
    every route the program added has been deleted or asked to be, with the
    very arguments it was added with, and the primary service has the DNS
    servers it had at first, unless the log says that [networksetup]
    refused. *)
Theorem mac_teardown_clean (svc : string) (l0 : list string) (s : MS) :
  session svc l0 s ->
  let s' := rc_teardown s in
  live s' = [] /\ applied (ms_mr s') = false /\
  (setting svc (trace (ms_host s')) = None \/ setting svc (trace (ms_host s')) = Some (set_args l0) \/
   exists e, Warn ("failed to restore DNS: " +:+ e) ∈ ms_log s').
Proof. apply mac_session_teardown. Qed.

(** ** Witnesses *)

Module MacRouteExample.
(** A host behind 192.168.1.1 that obeys every command except those in
    [refused]. *)
Definition reply (refused : list string) (t : list (Cmd * Reply)) (c : Cmd) : Reply :=
  if decide (program c = ROUTE)
  then if decide (args c = ["-n"; "get"; "-inet"; "default"])
       then Ok (mkOutput MacExample.done_
         ("   route to: default" +:+ String LF ("    gateway: 192.168.1.1" +:+ String LF "  interface: en0")))
       else if existsb (fun n => bool_decide (n ∈ refused)) (args c)
            then Ok (mkOutput (mkExit false "exit status: 1") "")
            else Ok (mkOutput MacExample.done_ "")
  else MacExample.reply t c.

Definition host (refused : list string) : Host := mkHost (reply refused) [].

Definition manager (l : CidrList) : MacosRoutes :=
  mkMR (V4 3405803785) "utun4" l true None None (mkNsd "Wi-Fi" None None) (Some (V4 16843009)) false.

Definition start (refused : list string) (l : CidrList) : MS := mkMS (manager l) (host refused) [].
Definition running (refused : list string) (l : CidrList) : MS := snd (apply (start refused l)).

Lemma mac_host_reports refused : reports "Wi-Fi" ["9.9.9.9"] (host refused).
Proof.
  intros t Ht. change (servers_of (MacExample.reply t (get_cmd "Wi-Fi")) = ["9.9.9.9"]).
  by apply (MacExample.mac_dns_host_reports t).
Qed.

Lemma mac_running_ok refused l :
  is_ok (rc_apply (start refused l)).1 = true -> rc_apply (start refused l) = (Ok tt, running refused l).
Proof. unfold running. cbn [rc_apply MacosRoutes_controller]. by destruct (apply _) as [[[] |] ?]. Qed.

Lemma mac_running_session : session "Wi-Fi" ["9.9.9.9"] (running [] [(V4 167772160, 8)]).
Proof.
  apply (session_apply _ _ (start [] [(V4 167772160, 8)])); [done .. | apply mac_host_reports |].
  apply mac_running_ok. vm_compute. reflexivity.
Qed.

(** From the network 10.0.0.0/8 to 10.0.0.0/8, 172.16.0.0/12 and
    192.168.0.0/16. *)
Definition more : ReloadPlan :=
  mkPlan (mkProxyConfig (SocketAddr_new (V4 3405803785) 1080) None None DEFAULT_CONNECT_TIMEOUT true)
    RouteTable.empty [(V4 167772160, 8); (V4 2886729728, 12); (V4 3232235520, 16)]
    [(V4 2886729728, 12); (V4 3232235520, 16)] [] None false None false.
End MacRouteExample.

Lemma mac_apply_installs_witness :
  rc_apply (MacRouteExample.start [] [(V4 167772160, 8)]) = (Ok tt, MacRouteExample.running [] [(V4 167772160, 8)]) /\
  (["-inet"; "-net"; "203.0.113.9/32"; "192.168.1.1"] ∈ live (MacRouteExample.running [] [(V4 167772160, 8)])) /\
  applied (ms_mr (MacRouteExample.running [] [(V4 167772160, 8)])) = true.
Proof.
  assert (E : rc_apply (MacRouteExample.start [] [(V4 167772160, 8)]) =
              (Ok tt, MacRouteExample.running [] [(V4 167772160, 8)])) by (apply MacRouteExample.mac_running_ok; vm_compute; reflexivity).
  destruct (mac_apply_installs _ _ E) as (H1 & _ & _). split; [exact E |]. split; [| exact H1].
  refine (proj1 (bool_decide_eq_true _) _). vm_compute. reflexivity.
Defined.

Lemma mac_teardown_clean_witness :
  live (rc_teardown (MacRouteExample.running [] [(V4 167772160, 8)])) = [].
Proof.
  apply (mac_teardown_clean "Wi-Fi" ["9.9.9.9"] (MacRouteExample.running [] [(V4 167772160, 8)])).
  apply MacRouteExample.mac_running_session.
Defined.

(** A reload that fails half-way leaks: the networks it added before the
    failure are not recorded in [bypass], and no later teardown deletes
    them. *)
Theorem mac_failed_reload_leaks :
  let r := rc_reload MacRouteExample.more (MacRouteExample.running ["192.168.0.0/16"] [(V4 167772160, 8)]) in
  is_ok r.1 = false /\
  live (rc_teardown r.2) = [["-inet"; "-net"; "172.16.0.0/12"; "192.168.1.1"]].
Proof. split; vm_compute; reflexivity. Qed.

(** The address of a gateway with a scope, such as the link-local ones IPv6
    default routes have, does not parse: [detect_link] sees the gateway and
    [apply] does not. *)
Theorem mac_scoped_gateway_unseen :
  has_gateway_line "    gateway: fe80::1%en0" = true /\ find_gateway "    gateway: fe80::1%en0" = None.
Proof. split; vm_compute; reflexivity. Qed.
