(* ===== verification/LinuxTun.v ===== *)
(** * The Linux tunnel device ([src/platform/linux/tun.rs])

    The device of the [tokio-tun] crate with the name and the MTU it was made
    with; reads, writes, flushes and shutdowns are passed on. The crate's
    device is any type with those operations, and its builder any function
    of the settings. *)

From Stdlib Require Import ZArith Lia.
From Stdlib Require Import Strings.Byte Strings.Ascii Strings.String.
From stdpp Require Import base decidable list strings.
From S2P Require Import Prelude StdNet StdText Net Config Tune Device.
#[local] Open Scope Z_scope.

(** ** Definitions *)

Definition TUN_PEER_ADDR : string := "10.0.0.2".
Definition TUN_NETMASK : string := "255.255.255.0".

(** [x as i32] *)
Definition as_i32 (x : Z) : Z := let y := x mod 2 ^ 32 in if y <? 2 ^ 31 then y else y - 2 ^ 32.

(** What the builder is told. *)
Record TunSettings : Type := mkSettings {
  set_name : string;
  address : Z;
  destination : Z;
  netmask : Z;
  set_mtu : Z;
  packet_info : bool;
  up : bool;
}.

Record LinuxTun (T : Type) : Type := mkLinuxTun { inner : T; name : string; mtu : Z }.
Arguments mkLinuxTun {T}.
Arguments inner {T}.
Arguments name {T}.
Arguments mtu {T}.

Definition into_inner {T} (t : LinuxTun T) : T := inner t.

(** [None] is a panic: of [expect] on the literals, or of [tun_ipv4]. *)
Definition create_tun {T} (try_build : TunSettings -> Result string T) (cfg : Config) (mtu : Z)
    : option (result (LinuxTun T)) :=
  match parse_ipv4 TUN_PEER_ADDR, parse_ipv4 TUN_NETMASK, tun_ipv4 cfg with
  | Some peer, Some netmask, Some addr =>
      Some match try_build (mkSettings (tun_name cfg) addr peer netmask (as_i32 mtu) false true) with
           | Err e => context "failed to create TUN device, is cortado running as root?" (Err [e])
           | Ok inner => Ok (mkLinuxTun inner (tun_name cfg) mtu)
           end
  | _, _, _ => None
  end.

Section Device.
Context {T : Type} `{!AsyncRead T, !AsyncWrite T}.

Definition with_inner (t : LinuxTun T) (i : T) : LinuxTun T := mkLinuxTun i (name t) (mtu t).

#[global] Instance LinuxTun_read : AsyncRead (LinuxTun T) := fun room t =>
  match poll_read room (inner t) with
  | None => None
  | Some (r, i) => Some (r, with_inner t i)
  end.

#[global] Instance LinuxTun_write : AsyncWrite (LinuxTun T) := {|
  poll_write buf t := let '(r, i) := poll_write buf (inner t) in (r, with_inner t i);
  poll_flush t := let '(r, i) := poll_flush (inner t) in (r, with_inner t i);
  poll_shutdown t := let '(r, i) := poll_shutdown (inner t) in (r, with_inner t i);
|}.

#[global] Instance LinuxTun_device : TunDevice (LinuxTun T) := {|
  tun_device_name := name;
  tun_device_mtu := mtu;
|}.

(** ** Lemmas *)

(** The wrapper meets the contract whenever the crate's device does. *)
#[global] Program Instance LinuxTun_packets `{!PacketIo T} : PacketIo (LinuxTun T) := {|
  arriving t := arriving (inner t);
  sent t := sent (inner t);
  delay t := delay (inner t);
  device_ok t := device_ok (inner t);
|}.
Next Obligation.
  intros H room t Hok. unfold poll_read, LinuxTun_read.
  destruct (packet_read room (inner t) Hok) as (r & i & -> & Hi). by exists r, (with_inner t i).
Qed.
Next Obligation.
  intros H buf t Hok Hw. unfold poll_write, LinuxTun_write. pose proof (packet_write buf (inner t) Hok Hw) as Hp.
  by destruct (poll_write buf (inner t)) as [r i].
Qed.
End Device.

Lemma as_i32_small x : 0 <= x < 2 ^ 31 -> as_i32 x = x.
Proof.
  intros H. unfold as_i32. rewrite Z.mod_small by lia. cbv zeta. destruct (Z.ltb_spec x (2 ^ 31)); [done | lia].
Qed.

(** ** Properties *)

(** The device is asked for what the configuration and the tuning say:
    for a valid configuration and any tuned MTU creation does not panic, the
    builder is given the configured name and address, the fixed peer and
    netmask and the MTU without loss in the conversion to a signed number,
    and the device made answers with that name and that MTU. *)
Theorem linux_tun_created {T} (try_build : TunSettings -> Result string T) (cfg : Config) (p : SystemProbe) :
  validate cfg = Ok tt ->
  let m := Tune.mtu (Tuning.compute p) in
  exists addr, parse_ipv4 (tun_ip cfg) = Some addr /\
    let settings := mkSettings (tun_name cfg) addr 167772162 4294967040 m false true in
    match create_tun try_build cfg m, try_build settings with
    | Some (Ok t), Ok i => inner t = i /\ name t = tun_name cfg /\ mtu t = m
    | Some (Err e), Err e' => e = ["failed to create TUN device, is cortado running as root?"; e']
    | _, _ => False
    end.
Proof.
  intros Hv%validate_valid m. destruct (accessors_valid cfg Hv) as (_ & addr & _ & _ & _ & _ & Ha & _).
  exists addr. split; [exact Ha |]. intros settings. unfold create_tun.
  change (parse_ipv4 TUN_PEER_ADDR) with (Some 167772162). change (parse_ipv4 TUN_NETMASK) with (Some 4294967040).
  rewrite Ha, as_i32_small; [| pose proof (mtu_range p); unfold m, MIN_MTU, MAX_MTU in *; lia].
  fold settings. by destruct (try_build settings).
Qed.

Lemma linux_tun_created_witness :
  exists t, create_tun (fun s => Ok s) default_config 9000 = Some (Ok t) /\ set_name (inner t) = "cortado0" /\ set_mtu (inner t) = 9000.
Proof.
  destruct (linux_tun_created (fun s => Ok s) default_config (mkProbe (Some 9000) false None None))
    as (addr & Ha & H); [vm_compute; reflexivity |].
  change (Tune.mtu (Tuning.compute _)) with 9000 in H.
  destruct (create_tun (fun s => Ok s) default_config 9000) as [[t | e] |] eqn:E; [| contradiction ..].
  destruct H as (H1 & _). exists t. rewrite H1. by split_and!.
Defined.
