(* ===== verification/MacOwn.v ===== *)
(** * What the macOS controller may run ([src/platform/macos/route.rs], [macos/dns.rs])

    Every command of the controller, in any sequence of calls and whatever
    the tools answer, is a query, a change of a route to one of the program's
    own networks, or a change of the DNS servers of its own service. *)

From Stdlib Require Import ZArith Lia.
From Stdlib Require Import Strings.Ascii Strings.String.
From stdpp Require Import base decidable list strings gmap.
From S2P Require Import Prelude StdNet StdText Net Config NetText Logging Reload Platform Command MacDns MacRoute.
#[local] Open Scope Z_scope.

(** ** Specification *)

Section Own.
Context (nets : CidrList) (svc tun : string).

Definition verb (v : string) : Prop := v = "add" \/ v = "delete".

(** The commands that are the program's own: the networks they name are read
    from their text. *)
Inductive mac_own : Cmd -> Prop :=
| own_query family :
    mac_own (mkCmd ROUTE ["-n"; "get"; family; "default"])
| own_gateway v net text gw :
    verb v -> parse_cidr text = Ok net -> net ∈ nets ->
    mac_own (mkCmd ROUTE [v; inet_of net.1; "-net"; text; show_ip gw])
| own_tunnel v net text :
    verb v -> parse_cidr text = Ok net -> net ∈ halves ->
    mac_own (mkCmd ROUTE [v; inet_of net.1; "-net"; text; "-interface"; tun])
| own_dns_query :
    mac_own (mkCmd NETWORKSETUP ["-getdnsservers"; svc])
| own_dns_set servers :
    mac_own (mkCmd NETWORKSETUP ("-setdnsservers" :: svc :: servers)).

(** The manager knows of no other network, interface and service, and since
    the trace [t] only such commands were run. *)
Record owned (t : list (Cmd * Reply)) (s : MS) : Prop := {
  ow_trace : confined mac_own t (ms_host s);
  ow_service : service (mr_dns (ms_mr s)) = svc;
  ow_tun : tun_name (ms_mr s) = tun;
  ow_proxy : proxy_net (ms_mr s) ∈ nets;
  ow_bypass : bypass (ms_mr s) ⊆ nets;
}.

(** ** Lemmas *)

Context (Hwf : Forall net_wf nets) (t : list (Cmd * Reply)).

Lemma verb_add : verb "add".
Proof. by left. Qed.
Lemma verb_delete : verb "delete".
Proof. by right. Qed.

(** The program's text of a network is right. *)
Lemma own_net v d p gw :
  verb v -> (d, p) ∈ nets -> mac_own (mkCmd ROUTE [v; inet_of d; "-net"; show_net d p; show_ip gw]).
Proof.
  intros Hv Hn. apply (own_gateway v (d, p)); [done | | done]. apply parse_show_net.
  rewrite Forall_forall in Hwf. by apply Hwf.
Qed.

Lemma own_v4_half v text : verb v -> text ∈ V4_SPLIT -> mac_own (mkCmd ROUTE [v; "-inet"; "-net"; text; "-interface"; tun]).
Proof.
  unfold V4_SPLIT. rewrite !elem_of_cons, elem_of_nil. intros Hv [-> | [-> | []]];
    [apply (own_tunnel v (V4 0, 1)) | apply (own_tunnel v (V4 (2 ^ 31), 1))]; try done; by repeat constructor.
Qed.

Lemma own_v6_half v text : verb v -> text ∈ V6_SPLIT -> mac_own (mkCmd ROUTE [v; "-inet6"; "-net"; text; "-interface"; tun]).
Proof.
  unfold V6_SPLIT. rewrite !elem_of_cons, elem_of_nil. intros Hv [-> | [-> | []]];
    [apply (own_tunnel v (V6 0, 1)) | apply (own_tunnel v (V6 (2 ^ 127), 1))]; try done; by repeat constructor.
Qed.

Lemma owned_host c s : mac_own c -> owned t s -> owned t (set_ms_host (spawn c (ms_host s)).2 s).
Proof. intros Hc []. constructor; try done. by apply confined_spawn. Qed.

Lemma owned_route l : mac_own (mkCmd ROUTE l) -> preserves (owned t) (route l).
Proof. intros Hc s Hs. unfold route. by apply (owned_host _ s Hc). Qed.

Lemma owned_quiet l s : mac_own (mkCmd ROUTE l) -> owned t s -> owned t (route_quiet l s).
Proof. intros Hc. by apply owned_host. Qed.

Lemma owned_log f s : owned t s -> owned t (mkMS (ms_mr s) (ms_host s) (f (ms_log s))).
Proof. by intros []. Qed.

Lemma owned_add d p g : (d, p) ∈ nets -> preserves (owned t) (add_host_via_gateway d p g).
Proof. intros. apply owned_route, own_net; [apply verb_add | done]. Qed.

Lemma owned_delete d p s : (d, p) ∈ nets -> owned t s -> owned t (delete_via_gateway d p s).
Proof.
  intros Hn Hs. unfold delete_via_gateway. case_match; [| done]. apply owned_quiet; [| done].
  apply own_net; [apply verb_delete | done].
Qed.

Lemma owned_gateways s : owned t s -> owned t (find_gateways s).
Proof.
  intros Hs. unfold find_gateways, default_gateway.
  pose proof (owned_host _ s (own_query "-inet") Hs) as H1.
  destruct (spawn _ (ms_host s)) as [r1 h1]. cbn [snd] in H1.
  set (s1 := set_mr _ (set_ms_host h1 s)). assert (H2 : owned t s1) by (by destruct H1). clearbody s1.
  pose proof (owned_host _ s1 (own_query "-inet6") H2) as H3.
  destruct (spawn _ (ms_host s1)) as [r2 h2]. by destruct H3.
Qed.

Lemma owned_bypass suffix skip net :
  (forall n s, owned t s -> owned t (skip n s)) -> net ∈ nets -> preserves (owned t) (add_bypass suffix skip net).
Proof.
  intros Hskip Hn s Hs. unfold add_bypass. destruct net as [d p]. destruct (gateway_for (ms_mr s) d) as [g |]; [| by apply Hskip].
  revert s Hs. apply preserves_bind; [by apply owned_add |]. intros _. apply preserves_do. intros s. apply owned_log.
Qed.

Lemma owned_split4 net : net ∈ V4_SPLIT -> preserves (owned t) (add_split "-inet" net).
Proof. intros Hn s Hs. unfold add_split. rewrite (ow_tun _ _ Hs). apply owned_route; [| done]. by apply own_v4_half; [left |]. Qed.

Lemma owned_split6 net : net ∈ V6_SPLIT -> preserves (owned t) (add_split "-inet6" net).
Proof. intros Hn s Hs. unfold add_split. rewrite (ow_tun _ _ Hs). apply owned_route; [| done]. by apply own_v6_half; [left |]. Qed.

(** *** The DNS override *)

Definition ns_owned (d : NsState) : Prop := confined mac_own t (ns_host d) /\ service (ns_dns d) = svc.

Lemma ns_owned_set l : preserves ns_owned (set_servers svc l).
Proof.
  intros d [Hd Hs]. unfold set_servers. cbn. split; [| done]. apply confined_spawn; [| done]. apply own_dns_set.
Qed.

Lemma ns_owned_backup d : ns_owned d -> ns_owned (NetworkSetupDns.ensure_backup d).
Proof.
  intros [Hd Hs]. unfold NetworkSetupDns.ensure_backup. case_match; [done |]. unfold get_servers, get_cmd. rewrite Hs.
  cbn. split; [| done]. apply confined_spawn; [apply own_dns_query | done].
Qed.

Lemma ns_owned_log f d : ns_owned d -> ns_owned (add_log f d).
Proof. done. Qed.
Lemma ns_owned_current c d : ns_owned d -> ns_owned (set_current c d).
Proof. done. Qed.

Lemma ns_owned_apply server : preserves ns_owned (dns_apply server).
Proof.
  cbn [dns_apply NetworkSetupDns_configurator]. unfold NetworkSetupDns.apply.
  destruct server as [dns |]; [| apply preserves_ret]. apply preserves_bind; [apply preserves_do, ns_owned_backup |].
  intros [] d Hd. rewrite (proj2 Hd). revert d Hd. apply preserves_bind; [apply ns_owned_set |]. intros [].
  apply preserves_bind; [by apply preserves_do |]. intros []. by apply preserves_do.
Qed.

Lemma ns_owned_reload server : preserves ns_owned (dns_reload server).
Proof.
  intros d Hd. cbn [dns_reload NetworkSetupDns_configurator]. unfold NetworkSetupDns.reload.
  destruct (decide (server = current (ns_dns d))); [done |]. rewrite (proj2 Hd). set (orig := original (ns_dns d)).
  clearbody orig. clear n. revert d Hd.
  apply preserves_bind; [| intros []; by apply preserves_do]. destruct server as [dns |].
  - apply preserves_bind; [apply preserves_do, ns_owned_backup |]. intros [].
    apply preserves_bind; [apply ns_owned_set |]. intros []. by apply preserves_do.
  - destruct orig; [| apply preserves_ret]. apply preserves_bind; [apply ns_owned_set |]. intros []. by apply preserves_do.
Qed.

Lemma ns_owned_restore d : ns_owned d -> ns_owned (dns_restore d).
Proof.
  intros Hd. cbn. unfold NetworkSetupDns.restore. case_match; [| done]. apply ns_owned_current.
  case_match; [| done]. change (service (ns_dns (set_original None d))) with (service (ns_dns d)). rewrite (proj2 Hd).
  pose proof (ns_owned_set l (set_original None d) Hd) as H'. by destruct (set_servers svc l _) as [[] d'].
Qed.

Lemma owned_view s : owned t s -> ns_owned (dns_view s).
Proof. by intros []. Qed.

Lemma owned_put s d : owned t s -> ns_owned d -> owned t (dns_put d s).
Proof. intros [] []. by constructor. Qed.

Lemma owned_on_dns (m : SE NsState unit) : preserves ns_owned m -> preserves (owned t) (on_dns m).
Proof.
  intros Hm s Hs. unfold on_dns. specialize (Hm _ (owned_view s Hs)). destruct (m (dns_view s)) as [r d].
  by apply owned_put.
Qed.

(** *** The calls *)

Lemma owned_apply : preserves (owned t) apply.
Proof.
  unfold apply. apply preserves_bind; [apply preserves_do, owned_gateways |]. intros [] s Hs.
  pose proof (ow_proxy _ _ Hs) as Hp. pose proof (ow_bypass _ _ Hs) as Hb. cbv zeta.
  set (m := ms_mr s) in *. clearbody m. destruct (gateway_for m (proxy_ip m)) as [gw |]; [| done].
  revert s Hs. apply preserves_bind; [by apply preserves_context, owned_add |]. intros [].
  apply preserves_bind; [apply preserves_do; intros s; apply owned_log |]. intros [].
  apply preserves_bind.
  { apply preserves_for. intros x Hx. apply owned_bypass; [intros n s; apply owned_log | by apply Hb]. }
  intros []. apply preserves_bind; [apply preserves_for; apply owned_split4 |]. intros [].
  apply preserves_bind; [apply preserves_do; intros s; apply owned_log |]. intros [].
  apply preserves_bind.
  { case_match; [| apply preserves_ret]. apply preserves_bind; [apply preserves_for; apply owned_split6 |].
    intros []. apply preserves_do. intros s. apply owned_log. }
  intros []. apply preserves_bind; [apply owned_on_dns, ns_owned_apply |]. intros [].
  apply preserves_do. by intros s [].
Qed.

Lemma owned_move change :
  (forall o n, change = Some (o, n) -> (o, host_prefix o) ∈ nets /\ (n, host_prefix n) ∈ nets) ->
  preserves (owned t) (move_proxy_route change).
Proof.
  intros Hc. unfold move_proxy_route. destruct change as [[o n] |]; [| apply preserves_ret].
  destruct (Hc o n eq_refl) as [Ho Hn]. apply preserves_bind; [apply preserves_do; intros s; by apply owned_delete |].
  intros [] s Hs. destruct (gateway_for (ms_mr s) n) as [gw |]; [| done]. revert s Hs.
  apply preserves_bind; [by apply owned_add |]. intros [].
  apply preserves_bind; [| intros []; apply preserves_do; intros s; apply owned_log].
  apply preserves_do. intros s []. by constructor.
Qed.

Lemma owned_remove l s : l ⊆ nets -> owned t s -> owned t (remove_bypass l s).
Proof. intros Hl. apply fold_keep. intros [d p] s' Hx. by apply owned_delete, Hl. Qed.

Lemma owned_reload plan : plan_within host_prefix nets plan -> preserves (owned t) (reload plan).
Proof.
  intros (Hc & Hr & Ha & Hn) s Hs. unfold reload. destruct (negb (applied (ms_mr s))); [done |]. revert s Hs.
  apply preserves_bind; [by apply owned_move |]. intros [].
  apply preserves_bind; [apply preserves_do; intros s; by apply owned_remove |]. intros [].
  apply preserves_bind.
  { apply preserves_for. intros x Hx. apply owned_bypass; [done | by apply Ha]. }
  intros []. apply preserves_bind; [apply preserves_do; intros s []; by constructor |]. intros [].
  case_match; [| apply preserves_ret]. apply preserves_bind; [apply owned_on_dns, ns_owned_reload |].
  intros []. apply preserves_do. by intros s [].
Qed.

Lemma owned_unsplit inet l s :
  (forall v text, verb v -> text ∈ l -> mac_own (mkCmd ROUTE [v; inet; "-net"; text; "-interface"; tun])) ->
  owned t s -> owned t (fold_left (delete_split inet) l s).
Proof.
  intros Hl. apply fold_keep. intros x s' Hx Hs. unfold delete_split. rewrite (ow_tun _ _ Hs).
  apply owned_quiet; [| done]. by apply Hl; [right |].
Qed.

Lemma owned_teardown s : owned t s -> owned t (teardown s).
Proof.
  intros Hs. unfold teardown. destruct (negb (applied (ms_mr s))); [done |]. cbv zeta.
  set (s0 := set_mr (with_applied false) s). assert (H0 : owned t s0) by by destruct Hs. clearbody s0.
  set (s1 := delete_via_gateway _ _ s0). assert (H1 : owned t s1) by (apply owned_delete; [apply H0 | done]). clearbody s1.
  set (s2 := remove_bypass _ s1). assert (H2 : owned t s2) by (apply owned_remove; [apply H1 | done]). clearbody s2.
  set (s3 := fold_left _ V4_SPLIT s2).
  assert (H3 : owned t s3) by (apply owned_unsplit; [apply own_v4_half | done]). clearbody s3.
  set (s4 := if capture_ipv6 (ms_mr s3) then _ else s3).
  assert (H4 : owned t s4) by (subst s4; case_match; [apply owned_unsplit; [apply own_v6_half | done] | done]). clearbody s4.
  apply owned_put; [by destruct H4 |]. apply ns_owned_restore, owned_view. by destruct H4.
Qed.

Lemma owned_call c s : call_within host_prefix nets c -> owned t s -> owned t (rc_call c s).
Proof.
  destruct c as [| plan |]; intros Hc Hs; cbn.
  - by apply owned_apply.
  - by apply owned_reload.
  - by apply owned_teardown.
Qed.
End Own.

(** ** Properties *)

(** C16. The controller touches nothing that is not the program's, on macOS:
    through any sequence of applies, reloads and teardowns, whatever the
    system's tools answer and wherever a call fails, every command it runs
    is a query, or adds or deletes a route whose text names one of the
    networks of the proxy and the configurations through a gateway or one of
    the halves of an address space through the tunnel, or sets the DNS
    servers of the program's own service. *)
Theorem mac_commands_own (nets : CidrList) (cs : list Call) (s : MS) :
  Forall net_wf nets -> proxy_net (ms_mr s) ∈ nets -> bypass (ms_mr s) ⊆ nets ->
  Forall (call_within host_prefix nets) cs ->
  confined (mac_own nets (service (mr_dns (ms_mr s))) (tun_name (ms_mr s)))
    (trace (ms_host s)) (ms_host (rc_calls cs s)).
Proof.
  intros Hwf Hp Hb Hcs. eapply ow_trace, calls_keep.
  - intros c s' Hc. apply owned_call; [done |]. rewrite Forall_forall in Hcs. by apply Hcs.
  - constructor; try done. apply confined_refl.
Qed.

(** ** Witness *)

Module MacOwnExample.
Definition nets : CidrList :=
  [(V4 3405803785, 32); (V4 167772160, 8); (V4 2886729728, 12); (V4 3232235520, 16)].

(** The route of 172.16.0.0/12 is refused, so that the reload fails. *)
Definition start : MS := MacRouteExample.start ["172.16.0.0/12"] [(V4 167772160, 8)].
Definition run : list Call := [Apply; Reload MacRouteExample.more; Teardown].

Lemma plan_is_within : plan_within host_prefix nets MacRouteExample.more.
Proof.
  split_and!; [done | ..]; intros x; cbn; rewrite ?elem_of_cons, ?elem_of_nil; unfold nets; rewrite !elem_of_cons; tauto.
Qed.
End MacOwnExample.

Lemma mac_commands_own_witness :
  confined (mac_own MacOwnExample.nets "Wi-Fi" "utun4") [] (ms_host (rc_calls MacOwnExample.run MacOwnExample.start)) /\
  length (trace (ms_host (rc_calls MacOwnExample.run MacOwnExample.start))) = 16%nat.
Proof.
  split; [| vm_compute; reflexivity].
  apply (mac_commands_own MacOwnExample.nets MacOwnExample.run MacOwnExample.start).
  - refine (proj1 (bool_decide_eq_true _) _). vm_compute. reflexivity.
  - left.
  - intros x. cbn. rewrite elem_of_cons, elem_of_nil. intros [-> | []]. right. left.
  - by repeat (apply Forall_cons; split; [try done; try exact MacOwnExample.plan_is_within |]).
Defined.
