(* ===== verification/MacRetry.v ===== *)
(** * Trying a reload again on macOS ([src/platform/macos/route.rs])

    A reload can stop anywhere: when [route] refuses an address, when there
    is no gateway for the new proxy, when [networksetup] fails. The routes it
    has added by then are in no list of the manager; the next attempt with
    the same plan, once it ends well, knows all of them. *)

From Stdlib Require Import ZArith Lia.
From Stdlib Require Import Strings.Ascii Strings.String.
From stdpp Require Import base decidable list strings gmap.
From S2P Require Import Prelude StdNet StdText Net Config NetText Logging Reload Platform Command MacDns MacRoute.
#[local] Open Scope Z_scope.

(** ** Specification *)

(** Nothing of the program is left on the host: no route, and the primary
    service has the DNS servers it had, or the log says why not. *)
Definition mac_left_clean (svc : string) (l0 : list string) (s : MS) : Prop :=
  live s = [] /\ applied (ms_mr s) = false /\
  (setting svc (trace (ms_host s)) = None \/ setting svc (trace (ms_host s)) = Some (set_args l0) \/
   exists e, Warn ("failed to restore DNS: " +:+ e) ∈ ms_log s).

(** The fields that say where routes go. *)
Definition same_host (m m' : MacosRoutes) : Prop :=
  tun_name m' = tun_name m /\ capture_ipv6 m' = capture_ipv6 m /\ applied m' = applied m /\
  v4_gateway m' = v4_gateway m /\ v6_gateway m' = v6_gateway m.

Lemma mac_same_host_route m m' net : same_host m m' -> gw_route m' net = gw_route m net.
Proof. intros (_ & _ & _ & H4 & H6). unfold gw_route, gateway_for. by rewrite H4, H6. Qed.

Lemma mac_same_host_routes m m' (l : CidrList) : same_host m m' -> omap (gw_route m') l = omap (gw_route m) l.
Proof. intros H. induction l as [| x l IH]; [done |]. cbn. by rewrite (mac_same_host_route m m'), IH. Qed.

Lemma mac_same_host_splits m m' : same_host m m' -> splits m' = splits m.
Proof. intros (Ht & Hc & _). unfold splits, split_route. by rewrite Ht, Hc. Qed.

(** ** Between the attempts *)

Section Retry.
Context (svc : string) (l0 : list string) (m0 : MacosRoutes) (plan : ReloadPlan).
Context (Hfit : plan_fits (proxy_ip m0) (bypass m0) plan).

(** The networks the old and the new configuration have routes for. *)
Definition reached : CidrList :=
  proxy_net m0 :: bypass m0 ++ rp_bypass_add plan ++
  match rp_proxy_route_change plan with Some (_, n) => [(n, host_prefix n)] | None => [] end.

Definition allowed (x : Route) : Prop := x ∈ omap (gw_route m0) reached \/ x ∈ splits m0.

Record halfway (s : MS) : Prop := {
  hw_host : same_host m0 (ms_mr s);
  hw_proxy : rp_proxy_route_change plan = None -> proxy_ip (ms_mr s) = proxy_ip m0;
  hw_live : forall x, x ∈ live s -> allowed x;
  hw_dns : ns_inv svc l0 (dns_view s);
}.

Lemma mac_halfway_same s s' : halfway s -> same_but_routes s s' -> (forall x, x ∈ live s' -> allowed x) -> halfway s'.
Proof.
  intros [H1 H2 H3 H4] Hs Hl. constructor; [by rewrite (proj1 Hs) .. | done |]. by eapply ns_inv_same.
Qed.

(** The log and the fields a reload sets do not matter. *)
Lemma mac_halfway_log f s : halfway s -> halfway (mkMS (ms_mr s) (ms_host s) (f (ms_log s))).
Proof. intros Hs. by apply (mac_halfway_same s); [| | apply Hs]. Qed.

Lemma mac_halfway_set f s :
  same_host (ms_mr s) (f (ms_mr s)) -> mr_dns (f (ms_mr s)) = mr_dns (ms_mr s) ->
  (rp_proxy_route_change plan = None -> proxy_ip (f (ms_mr s)) = proxy_ip (ms_mr s)) ->
  halfway s -> halfway (set_mr f s).
Proof.
  intros (T & C & A & G4 & G6) Hd Hp [(T' & C' & A' & G4' & G6') H2 H3 H4].
  constructor; [split_and!; cbn; congruence | | done |].
  - intros E. cbn. by rewrite (Hp E), (H2 E).
  - unfold dns_view, set_mr. cbn. rewrite Hd. exact H4.
Qed.

Lemma mac_halfway_delete d p s : halfway s -> halfway (delete_via_gateway d p s).
Proof.
  intros Hs. destruct (delete_via_gateway_ok d p s) as [Hsame Hl]. apply (mac_halfway_same s); [done .. |].
  intros x [_ Hx]%Hl. by apply Hs.
Qed.

Lemma mac_halfway_add d p g s :
  (d, p) ∈ reached -> gateway_for (ms_mr s) d = Some g -> halfway s -> halfway (add_host_via_gateway d p g s).2.
Proof.
  intros Hin Hg Hs. unfold add_host_via_gateway, route.
  set (r := [inet_of d; "-net"; show_net d p; show_ip g]). change ("add" :: _) with ("add" :: r).
  pose proof (same_spawn ("add" :: r) s) as Hsame.
  pose proof (outstanding_add mac_effect (mkCmd ROUTE ("add" :: r)) (ms_host s) r eq_refl) as Hl.
  destruct (spawn _ (ms_host s)) as [o h]. cbn [snd] in *. apply (mac_halfway_same s); [done .. |]. intros x Hx.
  apply Hl in Hx as [-> | Hx]; [| by apply Hs]. left. apply list_elem_of_omap. exists (d, p). split; [done |].
  rewrite <- (mac_same_host_route m0 (ms_mr s)) by apply Hs. unfold gw_route. cbn. by rewrite Hg.
Qed.

Lemma mac_halfway_bypass sf net :
  net ∈ reached -> preserves halfway (add_bypass sf (fun _ s => s) net).
Proof.
  intros Hin s Hs. destruct net as [d p]. unfold add_bypass. destruct (gateway_for (ms_mr s) d) as [g |] eqn:Hg; [| done].
  pose proof (mac_halfway_add d p g s Hin Hg Hs) as H. unfold se_bind.
  destruct (add_host_via_gateway d p g s) as [[[] | e] s1]; [| done]. by apply (mac_halfway_log (Logger.info _)).
Qed.

Lemma mac_halfway_move : preserves halfway (move_proxy_route (rp_proxy_route_change plan)).
Proof.
  unfold move_proxy_route. destruct (rp_proxy_route_change plan) as [[o n] |] eqn:E; [| apply preserves_ret].
  apply preserves_bind; [apply preserves_do; intros s; apply mac_halfway_delete |]. intros [] s Hs.
  destruct (gateway_for (ms_mr s) n) as [gw |] eqn:Hg; [| done].
  assert (Hin : (n, host_prefix n) ∈ reached).
  { unfold reached. rewrite E. apply elem_of_cons. right. rewrite !elem_of_app. right. right. by left. }
  pose proof (mac_halfway_add n (host_prefix n) gw s Hin Hg Hs) as H. unfold se_bind at 1.
  destruct (add_host_via_gateway _ _ gw s) as [[[] | e] s1]; [| done]. revert H. generalize s1. clear Hs Hg.
  apply preserves_bind; [apply preserves_do; intros s2; apply mac_halfway_set; [done .. | by rewrite E] | intros []].
  apply preserves_do. intros s2. apply (mac_halfway_log (Logger.info _)).
Qed.

Lemma mac_halfway_dns : preserves halfway (on_dns (dns_reload (rp_dns plan))).
Proof.
  intros s [H1 H2 H3 H4]. unfold on_dns. pose proof (live_dns_reload (rp_dns plan) (dns_view s)) as Hl.
  pose proof (mac_dns_reload_inv svc l0 (rp_dns plan) _ H4) as Hi. destruct (dns_reload _ _) as [r d]. cbn [snd] in *.
  constructor; [done .. | |]; cbn [dns_put ms_host]; [by rewrite Hl | by destruct Hi].
Qed.

Lemma mac_halfway_reload : preserves halfway (reload plan).
Proof.
  intros s Hs. unfold reload. destruct (negb (applied (ms_mr s))); [done |]. revert s Hs.
  apply preserves_bind; [apply mac_halfway_move |]. intros [].
  apply preserves_bind; [apply preserves_do; intros s; apply fold_keep; intros [d p] s' _; apply mac_halfway_delete |]. intros [].
  apply preserves_bind.
  { apply preserves_for. intros net Hn. apply mac_halfway_bypass. unfold reached. rewrite elem_of_cons, !elem_of_app. auto. }
  intros []. apply preserves_bind; [apply preserves_do; intros s; by apply mac_halfway_set |]. intros [].
  case_match; [| apply preserves_ret]. apply preserves_bind; [apply mac_halfway_dns |].
  intros []. apply preserves_do. intros s. by apply mac_halfway_set.
Qed.

Lemma mac_halfway_attempts s s' : attempts plan s s' -> halfway s -> halfway s'.
Proof. apply attempts_keep. exact mac_halfway_reload. Qed.

(** Once an attempt ends well, what is left is the new configuration's. *)
Lemma mac_halfway_left x :
  allowed x -> x ∉ omap (gw_route m0) (rp_bypass_remove plan) ->
  (forall o n, rp_proxy_route_change plan = Some (o, n) -> gw_route m0 (o, host_prefix o) <> Some x) ->
  gw_route m0 (proxy_net (planned plan m0)) = Some x \/ x ∈ omap (gw_route m0) (rp_new_bypass plan) \/ x ∈ splits m0.
Proof.
  destruct Hfit as (Hpc & Hnew & _ & Hadd). intros [Hx | Hx] Hn Ho; [| auto].
  apply list_elem_of_omap in Hx as (net & Hin & Hx). unfold reached in Hin. rewrite elem_of_cons, !elem_of_app in Hin.
  rewrite !list_elem_of_omap in *. unfold proxy_net, planned in *. cbn in *.
  destruct Hin as [-> | [Hin | [Hin | Hin]]].
  - destruct (rp_proxy_route_change plan) as [[o n] |]; [| by left]. destruct (Ho o n eq_refl). by rewrite (Hpc o n eq_refl).
  - destruct (Hnew net Hin) as [Hk | Hk]; [right; left; eauto |]. destruct Hn. eauto.
  - right. left. eauto.
  - destruct (rp_proxy_route_change plan) as [[o n] |]; [| by apply not_elem_of_nil in Hin].
    apply list_elem_of_singleton in Hin as ->. by left.
Qed.

Lemma mac_halfway_success s s' :
  halfway s -> applied m0 = true -> reload plan s = (Ok tt, s') ->
  applied (ms_mr s') = true /\ covered s' /\ ns_inv svc l0 (dns_view s') /\
  proxy_ip (ms_mr s') = proxy_ip (planned plan m0) /\ bypass (ms_mr s') = rp_new_bypass plan.
Proof.
  intros [H1 H2 H3 H4] Ha H. assert (Has : applied (ms_mr s) = true) by (by destruct H1 as (_ & _ & -> & _)).
  apply mac_reload_stages in H as ((d & srv & Hm) & Hi & Hl); [| done].
  assert (Hp : proxy_ip (planned plan (ms_mr s)) = proxy_ip (planned plan m0)).
  { unfold planned. cbn. destruct (rp_proxy_route_change plan) as [[] |]; [done | by apply H2]. }
  split_and!; [by rewrite Hm | | by apply Hi | by rewrite Hm | by rewrite Hm].
  intros x Hx. rewrite Hm. apply mac_elem_of_removal. change (gw_route (with_dns_server _ _)) with (gw_route (ms_mr s)).
  change (splits _) with (splits (ms_mr s)). rewrite (mac_same_host_splits m0 (ms_mr s)) by done.
  change (proxy_net _) with (proxy_net (planned plan (ms_mr s))). unfold proxy_net. rewrite Hp.
  change (bypass _) with (rp_new_bypass plan). apply Hl in Hx. unfold remains in Hx. revert Hx.
  rewrite (mac_same_host_route m0 (ms_mr s)), !(mac_same_host_routes m0 (ms_mr s)) by done. intros [Hx | [Hn Hx]].
  - right. left. apply list_elem_of_omap in Hx as (net & Hin & Hx). apply list_elem_of_omap.
    exists net. split; [by apply Hfit | done].
  - destruct (rp_proxy_route_change plan) as [[o n] |] eqn:E.
    + rewrite !(mac_same_host_route m0 (ms_mr s)) in Hx by done. destruct Hx as [Hx | [Ho Hx]].
      * left. unfold planned. rewrite E. done.
      * apply mac_halfway_left; [by apply H3 | done |]. intros o' n' E'. by simplify_eq.
    + apply mac_halfway_left; [by apply H3 | done |]. intros o' n' E'. congruence.
Qed.
End Retry.

(** ** Properties *)

(** C12. A failed reload can be tried again on macOS: after any number of
    attempts that stopped anywhere, whatever the tools answered, an attempt
    with the same plan that ends well leaves a manager with the new proxy and
    the new bypass networks that knows every route of the program: the
    teardown after it asks for each to be deleted (whether the host complies
    or not), and puts the DNS servers back, unless the log says that
    networksetup refused. The plan has to be one computed for the manager's
    proxy and networks, and the service's DNS servers known at the start. *)
Theorem mac_reload_retry (svc : string) (l0 : list string) (plan : ReloadPlan) (s s1 s2 : MS) :
  session svc l0 s -> plan_fits (proxy_ip (ms_mr s)) (bypass (ms_mr s)) plan ->
  attempts plan s s1 -> rc_reload plan s1 = (Ok tt, s2) ->
  proxy_ip (ms_mr s2) = proxy_ip (planned plan (ms_mr s)) /\ bypass (ms_mr s2) = rp_new_bypass plan /\
  mac_left_clean svc l0 (rc_teardown s2).
Proof.
  intros (Ha & Hc & Hi)%mac_session_inv Hfit Hat Hok.
  assert (Hh : halfway svc l0 (ms_mr s) plan s).
  { constructor; [done .. | | done]. intros x Hx. apply Hc, mac_elem_of_removal in Hx. unfold allowed, reached.
    destruct Hx as [Hx | [Hx | Hx]]; [left | left | by right]; apply list_elem_of_omap.
    - exists (proxy_net (ms_mr s)). by split; [left |].
    - apply list_elem_of_omap in Hx as (net & Hin & Hx). exists net. split; [| done]. right. apply elem_of_app. by left. }
  apply (mac_halfway_attempts svc l0 (ms_mr s) plan s s1 Hat) in Hh.
  apply (mac_halfway_success svc l0 (ms_mr s) plan Hfit s1 s2 Hh Ha) in Hok as (H1 & H2 & H3 & H4 & H5).
  split_and!; [done .. |]. by apply mac_covered_teardown.
Qed.

(** ** Witness *)

Module MacRetryExample.
(** The proxy moves to 203.0.113.10 and 172.16.0.0/12 is added, which the
    host refuses the first time. *)
Definition plan : ReloadPlan :=
  mkPlan (mkProxyConfig (SocketAddr_new (V4 3405803786) 1080) None None DEFAULT_CONNECT_TIMEOUT true)
    RouteTable.empty [(V4 167772160, 8); (V4 2886729728, 12); (V4 3232235520, 16)]
    [(V4 3232235520, 16); (V4 2886729728, 12)] [] None false (Some (V4 3405803785, V4 3405803786)) true.

Definition tried (t : list (Cmd * Reply)) : bool := existsb (fun e => bool_decide ("172.16.0.0/12" ∈ args e.1)) t.
Definition reply (t : list (Cmd * Reply)) (c : Cmd) : Reply :=
  MacRouteExample.reply (if tried t then [] else ["172.16.0.0/12"]) t c.

Definition host : Host := mkHost reply [].
Definition start : MS := mkMS (MacRouteExample.manager [(V4 167772160, 8)]) host [].
Definition s : MS := (rc_apply start).2.
Definition s1 : MS := (rc_reload plan s).2.
Definition s2 : MS := (rc_reload plan s1).2.

Lemma mac_first_fails : exists e, (rc_reload plan s).1 = Err e.
Proof. eexists. vm_compute. reflexivity. Qed.

Lemma mac_second_succeeds : (rc_reload plan s1).1 = Ok tt.
Proof. vm_compute. reflexivity. Qed.

Lemma mac_applies : (rc_apply start).1 = Ok tt.
Proof. vm_compute. reflexivity. Qed.

Lemma mac_fields : proxy_ip (ms_mr s) = V4 3405803785 /\ bypass (ms_mr s) = [(V4 167772160, 8)].
Proof. split; vm_compute; reflexivity. Qed.

Lemma mac_retry_reports : reports "Wi-Fi" ["9.9.9.9"] host.
Proof. intros t Ht. change (servers_of (MacExample.reply t (get_cmd "Wi-Fi")) = ["9.9.9.9"]). by apply (MacExample.mac_dns_host_reports t). Qed.

Lemma mac_plan_fits : plan_fits (proxy_ip (ms_mr s)) (bypass (ms_mr s)) plan.
Proof.
  destruct mac_fields as [-> ->]. split_and!; cbn.
  - by intros o n [= <- <-].
  - intros x. rewrite !elem_of_cons. tauto.
  - intros x. by rewrite elem_of_nil.
  - intros x. rewrite !elem_of_cons. tauto.
Qed.
End MacRetryExample.

Lemma mac_reload_retry_witness :
  live MacRetryExample.s1 <> [] /\ bypass (ms_mr MacRetryExample.s2) = rp_new_bypass MacRetryExample.plan /\
  mac_left_clean "Wi-Fi" ["9.9.9.9"] (rc_teardown MacRetryExample.s2).
Proof.
  split; [intros H; apply (f_equal length) in H; vm_compute in H; discriminate H |].
  destruct MacRetryExample.mac_first_fails as [e He].
  refine (proj2 (mac_reload_retry "Wi-Fi" ["9.9.9.9"] MacRetryExample.plan MacRetryExample.s MacRetryExample.s1
    MacRetryExample.s2 _ MacRetryExample.mac_plan_fits _ _)).
  - apply (session_apply _ _ MacRetryExample.start); [reflexivity .. | exact MacRetryExample.mac_retry_reports |].
    rewrite (surjective_pairing (rc_apply _)), MacRetryExample.mac_applies. reflexivity.
  - eapply attempts_fail; [| apply attempts_none].
    rewrite (surjective_pairing (rc_reload _ _)), He. reflexivity.
  - rewrite (surjective_pairing (rc_reload _ _)), MacRetryExample.mac_second_succeeds. reflexivity.
Defined.
