(* ===== verification/MacTun.v ===== *)
(** * The macOS tunnel device ([src/platform/macos/tun.rs])

    A utun socket carries one packet per read and write, each behind four
    bytes that give its address family. The readiness of the socket and the
    outcome of each system call are a script of events. *)

From Stdlib Require Import ZArith Lia.
From Stdlib Require Import Strings.Byte Strings.Ascii Strings.String.
From stdpp Require Import base decidable list strings.
From S2P Require Import Prelude StdNet StdText Config Platform Device Command.
#[local] Open Scope Z_scope.

(** ** Definitions *)

Definition UTUN_PREFIX : nat := 4.
Definition MAX_PACKET : nat := Z.to_nat 65536.
Definition SCRATCH : nat := (UTUN_PREFIX + MAX_PACKET)%nat.

(** The loop shared by [poll_read] and [poll_write]: readiness, then the
    call, again when it would block. The task sleeps when the script is used
    up. *)
Fixpoint poll_loop {A} (evs : list (IoEvent A)) : Poll (Result string A) * list (IoEvent A) :=
  match evs with
  | [] => (Pending, [])
  | NotReady :: evs => (Pending, evs)
  | ReadyErr e :: evs => (Ready (Err e), evs)
  | WouldBlock :: evs => poll_loop evs
  | IoErr e :: evs => (Ready (Err e), evs)
  | Done a :: evs => (Ready (Ok a), evs)
  end.

(** What [poll_read] puts into a buffer with room for [remaining] bytes when
    [read] fills the scratch buffer from the datagram [d]. *)
Definition strip_frame (remaining : nat) (d : list byte) : list byte :=
  let data := take SCRATCH d in
  if decide (UTUN_PREFIX < length data)%nat
  then let payload := drop UTUN_PREFIX data in take (length payload `min` remaining) payload
  else [].

Definition poll_read (remaining : nat) (evs : list (IoEvent (list byte)))
    : Poll (Result string (list byte)) * list (IoEvent (list byte)) :=
  match poll_loop evs with
  | (Ready (Ok d), evs) => (Ready (Ok (strip_frame remaining d)), evs)
  | (Ready (Err e), evs) => (Ready (Err e), evs)
  | (Pending, evs) => (Pending, evs)
  end.

(** [dst[at..at + src.len()].copy_from_slice(src)] *)
Definition copy_at (at_ : nat) (src dst : list byte) : list byte :=
  take at_ dst ++ src ++ drop (at_ + length src) dst.

(** [resize(n, 0)] when the buffer is shorter. *)
Definition grow (n : nat) (l : list byte) : list byte :=
  if decide (length l < n)%nat then l ++ replicate (n - length l) (byte_of_Z 0) else l.

Section Utun.
(** The constants of [libc] and [from_utf8_lossy]. *)
Context (AF_INET AF_INET6 : Z) (from_utf8_lossy : list byte -> string).

Definition family_of (first : byte) : Z :=
  if Z.shiftr (Z_of_byte first) 4 =? 6 then AF_INET6 else AF_INET.

(** The write buffer after both copies, and the frame sent from it. *)
Definition fill_scratch (scratch buf : list byte) (first : byte) : list byte :=
  let total := (UTUN_PREFIX + length buf)%nat in
  copy_at UTUN_PREFIX buf (copy_at 0 (be_bytes 4 (family_of first)) (grow total scratch)).

(** The result, the new write buffer, the frames handed to [write] that it
    took, and the rest of the script. *)
Definition poll_write (scratch buf : list byte) (evs : list (IoEvent unit))
    : Poll (Result string nat) * list byte * list (list byte) * list (IoEvent unit) :=
  match buf with
  | [] => (Ready (Ok 0%nat), scratch, [], evs)
  | first :: _ =>
      let total := (UTUN_PREFIX + length buf)%nat in
      let scratch := fill_scratch scratch buf first in
      match poll_loop evs with
      | (Ready (Ok _), evs) => (Ready (Ok (length buf)), scratch, [take total scratch], evs)
      | (Ready (Err e), evs) => (Ready (Err e), scratch, [], evs)
      | (Pending, evs) => (Pending, scratch, [], evs)
      end
  end.

(** *** Creation *)

(** The device: the readiness and the system calls its file descriptor is
    still to meet, and the frames it has sent, are part of it. *)
Record MacosTun : Type := mkMacosTun {
  fd : Z;
  name : string;
  mtu : Z;
  write_scratch : list byte;
  rx : list (IoEvent (list byte));
  tx : list (IoEvent unit);
  frames : list (list byte);
}.

Fixpoint position_zero (l : list byte) : option nat :=
  match l with
  | [] => None
  | b :: l => if decide (Z_of_byte b = 0) then Some O else S <$> position_zero l
  end.

(** The name in the 32 bytes [getsockopt] filled; [None] is the panic of the
    slice. *)
Definition utun_name (ifname : list byte) (ifname_len : nat) : option string :=
  let end_ := default ifname_len (position_zero ifname) in
  from_utf8_lossy <$> slice 0 end_ ifname.

Definition run_ifconfig (l : list string) : SE Host unit := fun h =>
  let '(r, h) := spawn (mkCmd "/sbin/ifconfig" l) h in
  (match r with
   | Err e => context "failed to run ifconfig" (Err [e])
   | Ok out => if success (status out) then Ok tt
               else bail ("ifconfig " +:+ debug_list l +:+ " exited with " +:+ status_text (status out))
   end, h).

Definition UTUN_CONTROL_NAME : list byte := as_bytes "com.apple.net.utun_control".

Record sockaddr_ctl : Type := mkSockaddr {
  sc_len : Z; sc_family : Z; ss_sysaddr : Z; sc_id : Z; sc_unit : Z;
}.

(** The process, as far as creation is concerned: the commands it runs, its
    open descriptors, and the flags set on them. *)
Record MacSys : Type := mkSys { ms_host : Host; fds : list Z; setfl : list (Z * Z) }.

Definition close (fd : Z) (s : MacSys) : MacSys :=
  mkSys (ms_host s) (filter (fun x => x <> fd) (fds s)) (setfl s).

Definition on_host {A} (m : SE Host A) : SE MacSys A := fun s =>
  let '(r, h) := m (ms_host s) in (r, mkSys h (fds s) (setfl s)).

(** What the system calls answer; an error is the text of
    [last_os_error]. [ioctl] fills in the identifier of the control it is
    given the name of, [getsockopt] the 32 bytes and their length. *)
Context (AF_SYSTEM AF_SYS_CONTROL O_NONBLOCK sizeof_sockaddr_ctl : Z).
Context (sys_socket : list Z -> Result string Z).
Context (sys_ctliocginfo : Z -> list byte -> Result string Z).
Context (sys_connect : Z -> sockaddr_ctl -> Result string unit).
Context (sys_ifname : Z -> Result string (list byte * nat)).
Context (sys_getfl : Z -> Result string Z).
Context (sys_setfl : Z -> Z -> Result string unit).
Context (sys_register : Z -> Result string unit).

Definition os {A} (r : Result string A) : result A := match r with Ok a => Ok a | Err e => Err [e] end.

Definition set_nonblocking (fd : Z) : SE MacSys unit := fun s =>
  match sys_getfl fd with
  | Err e => (Err [e], s)
  | Ok flags =>
      let flags := Z.lor flags O_NONBLOCK in
      match sys_setfl fd flags with
      | Err e => (Err [e], s)
      | Ok _ => (Ok tt, mkSys (ms_host s) (fds s) (setfl s ++ [(fd, flags)]))
      end
  end.

(** [addr.sc_unit = unit + 1] wraps in a release build. *)
Definition control_addr (id unit : Z) : sockaddr_ctl :=
  mkSockaddr (sizeof_sockaddr_ctl mod 2 ^ 8) (AF_SYSTEM mod 2 ^ 8) (AF_SYS_CONTROL mod 2 ^ 16) id (wrapping_add 32 unit 1).

(** [ctl_name] has 96 bytes; the rest of it stays zero. *)
Definition ctl_name : list byte := UTUN_CONTROL_NAME ++ replicate (96 - length UTUN_CONTROL_NAME) (byte_of_Z 0).

(** An [OwnedFd] is closed when an error leaves its scope; [None] is a
    panic. *)
Definition open_utun (unit : Z) (s : MacSys) : option (result (Z * string) * MacSys) :=
  match context "failed to open PF_SYSTEM socket" (os (sys_socket (fds s))) with
  | Err e => Some (Err e, s)
  | Ok fd =>
      let s := mkSys (ms_host s) (fd :: fds s) (setfl s) in
      match context "CTLIOCGINFO ioctl failed" (os (sys_ctliocginfo fd ctl_name)) with
      | Err e => Some (Err e, close fd s)
      | Ok id =>
          match context "failed to connect utun control" (os (sys_connect fd (control_addr id unit))) with
          | Err e => Some (Err e, close fd s)
          | Ok _ =>
              match context "failed to read utun interface name" (os (sys_ifname fd)) with
              | Err e => Some (Err e, close fd s)
              | Ok (ifname, ifname_len) =>
                  match utun_name ifname ifname_len with
                  | None => None
                  | Some name => Some (Ok (fd, name), s)
                  end
              end
          end
      end
  end.

(** The part of [create_tun] after the socket is open. *)
Definition configure (cfg : Config) (mtu : Z) (fd : Z) (name : string) : SE MacSys MacosTun :=
  do! se_context "failed to set utun nonblocking" (set_nonblocking fd) in
  let local := tun_ip cfg in
  do! on_host (run_ifconfig [name; local; local; "up"]) in
  do! on_host (run_ifconfig [name; "mtu"; show_dec mtu]) in
  do! (fun s => (context "failed to register utun with tokio" (os (sys_register fd)), s)) in
  se_ret (mkMacosTun fd name mtu (replicate SCRATCH (byte_of_Z 0)) [] [] []).

Definition create_tun (cfg : Config) (mtu : Z) (s : MacSys) : option (result MacosTun * MacSys) :=
  match open_utun 0 s with
  | None => None
  | Some (Err e, s) => Some (Err e, s)
  | Some (Ok (fd, name), s) =>
      match configure cfg mtu fd name s with
      | (Err e, s) => Some (Err e, close fd s)
      | (Ok t, s) => Some (Ok t, s)
      end
  end.

(** *** The traits *)

#[local] Instance MacosTun_read : AsyncRead MacosTun := fun remaining t =>
  let '(r, evs) := poll_read remaining (rx t) in
  Some (r, mkMacosTun (fd t) (name t) (mtu t) (write_scratch t) evs (tx t) (frames t)).

#[local] Instance MacosTun_write : AsyncWrite MacosTun := {|
  Device.poll_write buf t :=
    let '(r, scratch, fs, evs) := poll_write (write_scratch t) buf (tx t) in
    (r, mkMacosTun (fd t) (name t) (mtu t) scratch (rx t) evs (frames t ++ fs));
  Device.poll_flush t := (Ready (Ok tt), t);
  Device.poll_shutdown t := (Ready (Ok tt), t);
|}.

#[local] Instance MacosTun_device : TunDevice MacosTun := {|
  tun_device_name := name;
  tun_device_mtu := mtu;
|}.

(** ** Specification *)

(** The packets the socket is still to deliver. *)
Definition to_come (evs : list (IoEvent (list byte))) : list (list byte) :=
  omap (fun e => match e with Done f => Some (drop UTUN_PREFIX f) | _ => None end) evs.

(** utun prefixes every packet, and none is longer than the buffer. *)
Definition framed (e : IoEvent (list byte)) : Prop :=
  match e with Done f => (UTUN_PREFIX < length f <= SCRATCH)%nat | _ => True end.

#[global] Instance framed_dec e : Decision (framed e).
Proof. destruct e; simpl; apply _. Defined.

(** ** Lemmas *)

Lemma grow_length n l : (n <= length (grow n l))%nat.
Proof. unfold grow. case_decide; [rewrite length_app, length_replicate |]; lia. Qed.

Lemma fill_scratch_frame scratch buf first :
  take (UTUN_PREFIX + length buf) (fill_scratch scratch buf first) = be_bytes 4 (family_of first) ++ buf.
Proof.
  unfold fill_scratch. set (g := grow _ scratch).
  assert (Hg : (UTUN_PREFIX + length buf <= length g)%nat) by apply grow_length.
  unfold copy_at at 2. rewrite take_0, app_nil_l. rewrite length_be_bytes.
  unfold copy_at. rewrite (take_app_length' (be_bytes 4 _)) by by rewrite length_be_bytes.
  rewrite app_assoc. apply take_app_length'. rewrite length_app, length_be_bytes. done.
Qed.

Lemma strip_frame_packet remaining p buf :
  length p = UTUN_PREFIX -> buf <> [] -> (length buf <= MAX_PACKET)%nat ->
  strip_frame remaining (p ++ buf) = take remaining buf.
Proof.
  intros Hp Hne Hlen. unfold strip_frame.
  rewrite take_ge by (rewrite length_app; unfold SCRATCH; lia). rewrite length_app, Hp.
  rewrite decide_True by (destruct buf; [done | cbn [length]; lia]). cbv zeta.
  rewrite drop_app_length' by done. destruct (decide (length buf <= remaining)%nat).
  - rewrite Nat.min_l by lia. by rewrite !take_ge by lia.
  - by rewrite Nat.min_r by lia.
Qed.

Lemma close_fresh f l h fl : f ∉ l -> fds (close f (mkSys h (f :: l) fl)) = l.
Proof.
  intros Hf. cbn [close fds]. rewrite filter_cons_False by auto. apply filter_all.
  apply Forall_forall. intros x Hx ->. done.
Qed.

Lemma run_ifconfig_spec l s :
  let '(r, s') := on_host (run_ifconfig l) s in
  fds s' = fds s /\ setfl s' = setfl s /\
  exists a, trace (ms_host s') = trace (ms_host s) ++ [(mkCmd "/sbin/ifconfig" l, a)] /\
    (r = Ok tt -> succeeded a = true).
Proof.
  unfold on_host, run_ifconfig. cbn [spawn]. set (a := answer _ _ _).
  destruct a as [out | e] eqn:E; [destruct (success (status out)) eqn:Es |]; cbn [fds setfl ms_host trace];
    split_and!; try done; eexists; (split; [by rewrite E |]); done.
Qed.

(** Nothing opens or closes while the interface is configured, and it ends
    well only when every step did. *)
Lemma configure_spec cfg mtu_ f nm s :
  let '(r, s') := configure cfg mtu_ f nm s in
  fds s' = fds s /\
  match r with
  | Err _ => True
  | Ok t =>
      fd t = f /\ name t = nm /\ mtu t = mtu_ /\
      (exists flags, sys_getfl f = Ok flags /\ setfl s' = setfl s ++ [(f, Z.lor flags O_NONBLOCK)]) /\
      exists r1 r2, trace (ms_host s') = trace (ms_host s) ++
        [(mkCmd "/sbin/ifconfig" [nm; tun_ip cfg; tun_ip cfg; "up"], r1);
         (mkCmd "/sbin/ifconfig" [nm; "mtu"; show_dec mtu_], r2)] /\
        succeeded r1 = true /\ succeeded r2 = true
  end.
Proof.
  unfold configure, se_bind, se_context, set_nonblocking.
  destruct (sys_getfl f) as [flags | e]; [| done]. destruct (sys_setfl f _) as [[] | e]; [| done].
  cbn [context]. set (s1 := mkSys _ _ _).
  pose proof (run_ifconfig_spec [nm; tun_ip cfg; tun_ip cfg; "up"] s1) as H1.
  destruct (on_host _ s1) as [[[] | e] s2]; destruct H1 as (F1 & L1 & a1 & T1 & A1); [| done].
  pose proof (run_ifconfig_spec [nm; "mtu"; show_dec mtu_] s2) as H2.
  destruct (on_host _ s2) as [[[] | e] s3]; destruct H2 as (F2 & L2 & a2 & T2 & A2); [| by rewrite F2, F1].
  destruct (sys_register f) as [[] | e]; cbn [os context se_ret]; [| by rewrite F2, F1].
  cbn [fd name mtu]. split_and!; [by rewrite F2, F1 | done .. | |].
  - exists flags. by rewrite L2, L1.
  - exists a1, a2. rewrite T2, T1, <- app_assoc. auto.
Qed.

(** ** Properties *)

(** What a write sends, a read returns: whatever the write buffer held
    before, a write either reports the whole packet and has sent one frame,
    the packet's family and the packet, or has sent nothing and reports an
    error or waits; and a read that receives that frame returns exactly the
    packet, cut to the room there is. *)
Theorem utun_roundtrip (scratch buf : list byte) (evs : list (IoEvent unit)) (first : byte) (rest : list byte) :
  buf = first :: rest -> (length buf <= MAX_PACKET)%nat ->
  let '(r, _, frames, _) := poll_write scratch buf evs in
  match r with
  | Ready (Ok n) =>
      n = length buf /\ exists f, frames = [f] /\ take 4 f = be_bytes 4 (family_of first) /\
        forall remaining evs', poll_read remaining (Done f :: evs') = (Ready (Ok (take remaining buf)), evs')
  | _ => frames = []
  end.
Proof.
  intros Hb Hlen. unfold poll_write. rewrite Hb. rewrite <- Hb.
  destruct (poll_loop evs) as [[[[] | e] |] evs1]; try done.
  split; [done |]. eexists. split; [done |]. rewrite fill_scratch_frame. split.
  - by apply take_app_length'; rewrite length_be_bytes.
  - intros remaining evs'. change (poll_read remaining (Done ?f :: evs')) with (Ready (Ok (A := list byte) (E := string) (strip_frame remaining f)), evs').
    by rewrite strip_frame_packet by (rewrite ?length_be_bytes; subst; done).
Qed.

(** C37. A tunnel is opened or nothing is: whatever the system calls and
    [ifconfig] answer, a failed creation leaves the open descriptors of the
    process as they were, each error path closing the socket it had opened;
    a successful one leaves one more, which the device owns, set
    non-blocking with its other flags kept, and the interface has been
    brought up and given its MTU under the name the kernel reported. *)
Theorem utun_created (cfg : Config) (mtu_ : Z) (s s' : MacSys) (r : result MacosTun) :
  (forall f, sys_socket (fds s) = Ok f -> f ∉ fds s) ->
  create_tun cfg mtu_ s = Some (r, s') ->
  match r with
  | Err _ => fds s' = fds s
  | Ok t =>
      fds s' = fd t :: fds s /\ mtu t = mtu_ /\
      (exists flags, sys_getfl (fd t) = Ok flags /\ setfl s' = setfl s ++ [(fd t, Z.lor flags O_NONBLOCK)]) /\
      (exists b n, sys_ifname (fd t) = Ok (b, n) /\ utun_name b n = Some (name t)) /\
      exists r1 r2, trace (ms_host s') = trace (ms_host s) ++
        [(mkCmd "/sbin/ifconfig" [name t; tun_ip cfg; tun_ip cfg; "up"], r1);
         (mkCmd "/sbin/ifconfig" [name t; "mtu"; show_dec mtu_], r2)] /\
        succeeded r1 = true /\ succeeded r2 = true
  end.
Proof.
  intros Hfresh. unfold create_tun, open_utun.
  destruct (sys_socket (fds s)) as [f | e] eqn:Es; cbn [os context]; [| by intros [= <- <-]].
  specialize (Hfresh f eq_refl). pose proof (fun h l => close_fresh f (fds s) h l Hfresh) as Hclose.
  destruct (sys_ctliocginfo f ctl_name) as [id | e]; cbn [os context]; [| intros [= <- <-]; by apply Hclose].
  destruct (sys_connect f _) as [[] | e]; cbn [os context]; [| intros [= <- <-]; by apply Hclose].
  destruct (sys_ifname f) as [[b n] | e] eqn:En; cbn [os context]; [| intros [= <- <-]; by apply Hclose].
  destruct (utun_name b n) as [nm |] eqn:Enm; [| done].
  set (s1 := mkSys _ _ _). pose proof (configure_spec cfg mtu_ f nm s1) as H.
  destruct (configure cfg mtu_ f nm s1) as [[t | e] s2]; destruct H as [Hf H]; intros [= <- <-].
  - destruct H as (-> & -> & -> & Hl & Ht). rewrite Hf. split_and!; eauto.
  - cbn [close fds]. rewrite Hf. apply (Hclose (ms_host s) (setfl s)).
Qed.

(** The name is read without leaving the buffer, and ends before the first
    zero byte. *)
Lemma utun_name_total ifname len :
  (len <= length ifname)%nat -> exists n l, utun_name ifname len = Some (from_utf8_lossy l) /\
    l = take n ifname /\ (position_zero ifname = Some n \/ (position_zero ifname = None /\ n = len)).
Proof.
  intros Hlen. assert (Hz : forall k, position_zero ifname = Some k -> (k <= length ifname)%nat).
  { clear. induction ifname as [| b l IH]; intros k; simpl; [done |]. case_decide; [intros [= <-]; lia |].
    intros (j & Hj & ->)%fmap_Some. specialize (IH j Hj). lia. }
  unfold utun_name. destruct (position_zero ifname) as [k |]; simpl.
  - specialize (Hz k eq_refl). exists k, (take k ifname). unfold slice. rewrite decide_True by lia.
    rewrite drop_0, Nat.sub_0_r. auto.
  - exists len, (take len ifname). unfold slice. rewrite decide_True by lia. rewrite drop_0, Nat.sub_0_r. auto.
Qed.
(** A poll takes at least one event of the script, and waits without taking
    a packet. *)
Lemma poll_loop_read evs :
  Forall framed evs ->
  let '(r, evs') := poll_loop evs in
  Forall framed evs' /\ (length evs' <= length evs)%nat /\
  match r with
  | Ready (Ok f) => framed (Done f) /\ to_come evs = drop UTUN_PREFIX f :: to_come evs'
  | Ready (Err _) => to_come evs' = to_come evs
  | Pending => to_come evs' = to_come evs /\ (to_come evs <> [] -> (length evs' < length evs)%nat)
  end.
Proof.
  induction 1 as [| e evs He Hevs IH]; [done |].
  destruct e as [| e | | e | f]; cbn [poll_loop to_come omap list_omap length]; try (by split_and!; auto with lia).
  destruct (poll_loop evs) as [r evs']. destruct IH as (H1 & H2 & H3). split_and!; [done | lia |].
  destruct r as [[f | e] |]; [done .. |]. destruct H3 as [H3 H4]. split; [done |]. intros H. specialize (H4 H). lia.
Qed.

(** utun meets the contract of a packet device. *)
#[local] Program Instance MacosTun_packets : PacketIo MacosTun := {|
  arriving t := to_come (rx t);
  sent t := drop UTUN_PREFIX <$> frames t;
  delay t := length (rx t);
  device_ok t := Forall framed (rx t);
|}.
Next Obligation.
  intros room t Hok. unfold Device.poll_read, MacosTun_read, poll_read.
  pose proof (poll_loop_read (rx t) Hok) as H. destruct (poll_loop (rx t)) as [r evs]. destruct H as (H1 & H2 & H3).
  destruct r as [[f | e] |]; (do 2 eexists; split; [reflexivity |]); cbn [rx frames]; split_and!; try done.
  - destruct H3 as [Hf ->]. intros Hlen. split; [| done]. cbn [framed] in Hf.
    rewrite <- (take_drop UTUN_PREFIX f) at 1. rewrite length_drop in Hlen.
    rewrite strip_frame_packet.
    + apply take_ge. rewrite length_drop. lia.
    + rewrite length_take. lia.
    + intros E. apply (f_equal length) in E. rewrite length_drop in E. simpl in E. lia.
    + rewrite length_drop. unfold SCRATCH in Hf. lia.
  - apply H3.
  - apply H3.
Qed.
Next Obligation.
  intros buf t Hok [Hne Hlen]. unfold Device.poll_write, MacosTun_write, poll_write.
  destruct buf as [| b buf]; [done |].
  destruct (poll_loop (tx t)) as [[[[] | e] |] evs]; cbn [rx frames]; rewrite ?app_nil_r; split_and!; try done.
  by rewrite fill_scratch_frame, fmap_app.
Qed.
End Utun.

Lemma utun_roundtrip_witness :
  let p := [byte_of_Z 69; byte_of_Z 0; byte_of_Z 0; byte_of_Z 20] in
  let '(r, _, frames, _) := poll_write 2 30 [] p [WouldBlock; Done tt] in
  r = Ready (Ok 4%nat) /\ exists f, frames = [f] /\ poll_read 1500 [Done f] = (Ready (Ok p), []).
Proof.
  pose proof (utun_roundtrip 2 30 [] [byte_of_Z 69; byte_of_Z 0; byte_of_Z 0; byte_of_Z 20] [WouldBlock; Done tt]
    (byte_of_Z 69) [byte_of_Z 0; byte_of_Z 0; byte_of_Z 20] eq_refl) as H.
  assert (Hl : (length [byte_of_Z 69; byte_of_Z 0; byte_of_Z 0; byte_of_Z 20] <= MAX_PACKET)%nat)
    by (apply Nat.leb_le; vm_compute; reflexivity).
  specialize (H Hl). cbv beta iota zeta delta [poll_write poll_loop] in H |- *.
  destruct H as (_ & f & Hf & _ & Hr). split; [reflexivity |].
  exists f. split; [exact Hf |]. apply (Hr 1500%nat []).
Defined.

(** A machine on which every call succeeds. *)
Module UtunExample.
Definition ifname : list byte := as_bytes "utun4" ++ replicate 27 (byte_of_Z 0).
Definition lossy (l : list byte) : string := String.string_of_list_ascii (ascii_of_byte <$> l).
Definition reply (t : list (Cmd * Reply)) (c : Cmd) : Reply := Ok (mkOutput (mkExit true "exit status: 0") "").
Definition start : MacSys := mkSys (mkHost reply []) [0; 1; 2] [].
Definition created : option (result MacosTun * MacSys) :=
  create_tun lossy 32 2 4 32 (fun _ => Ok 3) (fun _ _ => Ok 7) (fun _ _ => Ok tt)
    (fun _ => Ok (ifname, 6%nat)) (fun _ => Ok 2) (fun _ _ => Ok tt) (fun _ => Ok tt) default_config 1500 start.
End UtunExample.

Lemma utun_created_witness :
  exists t s', UtunExample.created = Some (Ok t, s') /\ fds s' = fd t :: [0; 1; 2] /\ setfl s' = [(fd t, 6)].
Proof.
  assert (Hok : match UtunExample.created with Some (Ok _, _) => true | _ => false end = true) by (vm_compute; reflexivity).
  destruct UtunExample.created as [[[t | e] s'] |] eqn:E; try discriminate Hok. clear Hok.
  assert (Hf : forall f, Ok (E := string) 3 = Ok f -> f ∉ fds UtunExample.start)
    by (intros f [= <-]; apply (bool_decide_unpack _); vm_compute; exact I).
  pose proof (utun_created _ _ _ _ _ _ _ _ _ _ _ _ default_config 1500 UtunExample.start s' (Ok t) Hf E) as H.
  destruct H as (H1 & _ & (flags & H2 & H3) & _). exists t, s'. split; [reflexivity |]. split; [exact H1 |].
  injection H2 as <-. exact H3.
Defined.
