(* ===== verification/WinRoute.v ===== *)
(** * Windows routing and DNS ([src/platform/windows/route.rs], [windows/dns.rs], [windows/detect.rs], [windows/mod.rs])

    [WindowsRoutes] and [NetshDns] drive [netsh]; the gateway, the MTU and
    the presence of an IPv6 default route are read from [powershell]. *)

From Stdlib Require Import ZArith Lia.
From Stdlib Require Import Strings.Ascii Strings.String.
From stdpp Require Import base decidable list strings gmap.
From S2P Require Import Prelude StdNet StdText Net Config NetText Logging Reload Platform Command Tune.
#[local] Open Scope Z_scope.

(** ** Definitions: commands *)

Definition run_netsh (failed exited : string) (l : list string) (h : Host) : result unit * Host :=
  let '(r, h) := spawn (mkCmd "netsh" l) h in
  (match r with
   | Err e => context failed (Err [e])
   | Ok out => if success (status out) then Ok tt else bail (exited +:+ " exited with " +:+ status_text (status out))
   end, h).

Definition family_of (addr : IpAddr) : string := if is_ipv4 addr then "ipv4" else "ipv6".

(** ** Definitions: DNS *)

Record NetshDns : Type := mkNetsh { interface : string; current : option IpAddr; configured : bool }.

Record NetshState : Type := mkNstate { nt_host : Host; nt_dns : NetshDns; nt_log : Log }.

Definition set_static (iface : string) (dns : IpAddr) : SE NetshState unit := fun s =>
  let '(r, h) := run_netsh "failed to run netsh set dnsservers" "netsh set dnsservers"
    ["interface"; family_of dns; "set"; "dnsservers"; "name=" +:+ iface; "static"; show_ip dns; "primary"] (nt_host s) in
  (r, mkNstate h (nt_dns s) (nt_log s)).

Definition set_dhcp (iface family : string) (s : NetshState) : NetshState :=
  let '(_, h) := spawn (mkCmd "netsh" ["interface"; family; "set"; "dnsservers"; "name=" +:+ iface; "dhcp"]) (nt_host s) in
  mkNstate h (nt_dns s) (nt_log s).

Definition set_nt_current (c : option IpAddr) (s : NetshState) : NetshState :=
  mkNstate (nt_host s) (mkNetsh (interface (nt_dns s)) c (configured (nt_dns s))) (nt_log s).
Definition set_configured (b : bool) (s : NetshState) : NetshState :=
  mkNstate (nt_host s) (mkNetsh (interface (nt_dns s)) (current (nt_dns s)) b) (nt_log s).
Definition nt_info (m : string) (s : NetshState) : NetshState :=
  mkNstate (nt_host s) (nt_dns s) (Logger.info m (nt_log s)).

Module NetshDns.
Definition new (iface : string) : NetshDns := mkNetsh iface None false.

Definition apply (server : option IpAddr) : SE NetshState unit :=
  match server with
  | None => se_ret tt
  | Some dns => fun s =>
      let iface := interface (nt_dns s) in
      (do! set_static iface dns in
       do! se_do (set_nt_current (Some dns)) in
       do! se_do (set_configured true) in
       se_do (nt_info ("DNS set to " +:+ show_ip dns +:+ " on " +:+ iface))) s
  end.

Definition reset (s : NetshState) : NetshState :=
  set_dhcp (interface (nt_dns s)) "ipv6" (set_dhcp (interface (nt_dns s)) "ipv4" s).

Definition reload (server : option IpAddr) : SE NetshState unit := fun s =>
  if decide (server = current (nt_dns s)) then (Ok tt, s)
  else
    let iface := interface (nt_dns s) in
    (do! (match server with
          | Some dns =>
              do! set_static iface dns in
              do! se_do (set_configured true) in
              se_do (nt_info ("DNS set to " +:+ show_ip dns +:+ " on " +:+ iface +:+ " (reload)"))
          | None =>
              do! se_do reset in
              do! se_do (set_configured false) in
              se_do (nt_info "DNS reset to DHCP (reload)")
          end) in
     se_do (set_nt_current server)) s.

Definition restore (s : NetshState) : NetshState :=
  if negb (configured (nt_dns s)) then s
  else nt_info "DNS reset to DHCP" (set_nt_current None (set_configured false (reset s))).
End NetshDns.

#[global] Instance NetshDns_configurator : DnsConfigurator NetshState := {|
  dns_apply := NetshDns.apply;
  dns_reload := NetshDns.reload;
  dns_restore := NetshDns.restore;
|}.

(** ** Definitions: routes *)

Definition V4_SPLIT : list (string * string) := [("0.0.0.0", "128.0.0.0"); ("128.0.0.0", "128.0.0.0")].
Definition V6_SPLIT : list string := ["::/1"; "8000::/1"].

Definition host_prefix (addr : IpAddr) : Z := if is_ipv4 addr then 32 else 128.

(** [u32::count_ones] *)
Definition count_ones (z : Z) : Z := Z.of_nat (length (filter (fun i => Z.testbit z i = true) (seqZ 0 32))).

Definition mask_to_prefix (mask : string) : Z :=
  match parse_ipv4 mask with Some m => count_ones m | None => 1 end.

Definition GATEWAY_QUERY : string :=
  "(Get-NetRoute -DestinationPrefix '0.0.0.0/0' | Sort-Object RouteMetric | Select-Object -First 1).NextHop".

Definition default_gateway (h : Host) : option IpAddr * Host :=
  let '(r, h) := spawn (mkCmd "powershell" ["-NoProfile"; "-Command"; GATEWAY_QUERY]) h in
  (match r with Err _ => None | Ok out => parse_ip (trim (stdout out)) end, h).

Record WindowsRoutes : Type := mkWR {
  proxy_ip : IpAddr;
  wr_interface : string;
  bypass : CidrList;
  capture_ipv6 : bool;
  gateway : option IpAddr;
  wr_dns : NetshDns;
  wr_dns_server : option IpAddr;
  applied : bool;
}.

Record WS : Type := mkWS { ws_wr : WindowsRoutes; ws_host : Host; ws_log : Log }.

Definition set_wr (f : WindowsRoutes -> WindowsRoutes) (s : WS) : WS := mkWS (f (ws_wr s)) (ws_host s) (ws_log s).
Definition set_ws_host (h : Host) (s : WS) : WS := mkWS (ws_wr s) h (ws_log s).
Definition ws_info (m : string) (s : WS) : WS := mkWS (ws_wr s) (ws_host s) (Logger.info m (ws_log s)).
Definition ws_warn (m : string) (s : WS) : WS := mkWS (ws_wr s) (ws_host s) (Logger.warn m (ws_log s)).

Definition with_gateway (g : option IpAddr) (w : WindowsRoutes) : WindowsRoutes :=
  mkWR (proxy_ip w) (wr_interface w) (bypass w) (capture_ipv6 w) g (wr_dns w) (wr_dns_server w) (applied w).
Definition with_proxy_ip (ip : IpAddr) (w : WindowsRoutes) : WindowsRoutes :=
  mkWR ip (wr_interface w) (bypass w) (capture_ipv6 w) (gateway w) (wr_dns w) (wr_dns_server w) (applied w).
Definition with_bypass (l : CidrList) (w : WindowsRoutes) : WindowsRoutes :=
  mkWR (proxy_ip w) (wr_interface w) l (capture_ipv6 w) (gateway w) (wr_dns w) (wr_dns_server w) (applied w).
Definition with_dns (d : NetshDns) (w : WindowsRoutes) : WindowsRoutes :=
  mkWR (proxy_ip w) (wr_interface w) (bypass w) (capture_ipv6 w) (gateway w) d (wr_dns_server w) (applied w).
Definition with_dns_server (d : option IpAddr) (w : WindowsRoutes) : WindowsRoutes :=
  mkWR (proxy_ip w) (wr_interface w) (bypass w) (capture_ipv6 w) (gateway w) (wr_dns w) d (applied w).
Definition with_applied (b : bool) (w : WindowsRoutes) : WindowsRoutes :=
  mkWR (proxy_ip w) (wr_interface w) (bypass w) (capture_ipv6 w) (gateway w) (wr_dns w) (wr_dns_server w) b.

Definition dns_view (s : WS) : NetshState := mkNstate (ws_host s) (wr_dns (ws_wr s)) (ws_log s).
Definition dns_put (d : NetshState) (s : WS) : WS := mkWS (with_dns (nt_dns d) (ws_wr s)) (nt_host d) (nt_log d).
Definition on_dns {A} (m : SE NetshState A) : SE WS A := fun s =>
  let '(r, d) := m (dns_view s) in (r, dns_put d s).

Definition netsh (l : list string) : SE WS unit := fun s =>
  let '(r, h) := run_netsh "failed to run netsh" ("netsh " +:+ debug_list l) l (ws_host s) in (r, set_ws_host h s).

Definition netsh_quiet (l : list string) (s : WS) : WS :=
  let '(_, h) := spawn (mkCmd "netsh" l) (ws_host s) in set_ws_host h s.

Definition nexthop (gw : IpAddr) : string := "nexthop=" +:+ show_ip gw.

(** The argument lists of the two commands. *)
Definition add_args (family net target : string) : list string :=
  ["interface"; family; "add"; "route"; net; target; "store=active"].
Definition delete_args (family net target : string) : list string :=
  ["interface"; family; "delete"; "route"; net; target].

(** [None] is the panic of an accessor of [cfg]. *)
Definition WindowsRoutes_new (cfg : Config) (proxy_ip : IpAddr) (iface : string) (capture_ipv6 : bool)
    : option (result WindowsRoutes) :=
  match bypass_routes cfg, dns_addr cfg with
  | Some bypass, Some dns_server =>
      Some (Ok {| proxy_ip := proxy_ip; wr_interface := iface; bypass := bypass; capture_ipv6 := capture_ipv6;
                  gateway := None; wr_dns := NetshDns.new iface; wr_dns_server := dns_server; applied := false |})
  | _, _ => None
  end.

Definition new_route_controller := WindowsRoutes_new.

Definition split_net (x : string * string) : string := x.1 +:+ "/" +:+ show_dec (mask_to_prefix x.2).
Definition tun_target (w : WindowsRoutes) : string := "interface=" +:+ wr_interface w.

Definition add_split_v4 : SE WS unit :=
  se_for V4_SPLIT (fun x s => netsh (add_args "ipv4" (split_net x) (tun_target (ws_wr s))) s).

(** The loops over bypass networks: added and logged, or deleted, through
    the gateway when there is one; failures are ignored. *)
Definition add_bypass (suffix : string) (s : WS) (net : IpAddr * Z) : WS :=
  let '(dst, prefix) := net in
  match gateway (ws_wr s) with
  | Some gw =>
      ws_info ("bypass route " +:+ show_net dst prefix +:+ " via " +:+ show_ip gw +:+ " added" +:+ suffix)
        (netsh_quiet (add_args (family_of dst) (show_net dst prefix) (nexthop gw)) s)
  | None => s
  end.

Definition delete_bypass (s : WS) (net : IpAddr * Z) : WS :=
  let '(dst, prefix) := net in
  match gateway (ws_wr s) with
  | Some gw => netsh_quiet (delete_args (family_of dst) (show_net dst prefix) (nexthop gw)) s
  | None => s
  end.

Definition pin_proxy (s : WS) : SE WS unit :=
  let w := ws_wr s in
  match gateway w with
  | Some gw =>
      do! se_context "failed to pin proxy host route"
            (netsh (add_args "ipv4" (show_net (proxy_ip w) (host_prefix (proxy_ip w))) (nexthop gw))) in
      se_do (ws_info ("proxy host route " +:+ show_ip (proxy_ip w) +:+ " via " +:+ show_ip gw +:+ " added"))
  | None => se_do (ws_warn "no default gateway found, proxy route not pinned")
  end.

Definition find_gateway (s : WS) : WS :=
  let '(g, h) := default_gateway (ws_host s) in set_wr (with_gateway g) (set_ws_host h s).

Definition apply : SE WS unit :=
  do! se_do find_gateway in
  fun s =>
  let w := ws_wr s in
  (do! pin_proxy s in
   do! se_do (fun s => fold_left (add_bypass "") (bypass w) s) in
   do! add_split_v4 in
   do! se_do (ws_info "IPv4 split-default routes into tun added") in
   do! (if capture_ipv6 w
        then do! se_do (fun s => fold_left (fun s net => netsh_quiet (add_args "ipv6" net (tun_target (ws_wr s))) s) V6_SPLIT s) in
             se_do (ws_info "IPv6 split-default routes into tun added")
        else se_ret tt) in
   do! on_dns (dns_apply (wr_dns_server w)) in
   se_do (set_wr (with_applied true))) s.

Definition move_proxy_route (change : option (IpAddr * IpAddr)) : SE WS unit := fun s =>
  match change with
  | None => (Ok tt, s)
  | Some (old_ip, new_ip) =>
      (do! (match gateway (ws_wr s) with
            | Some gw =>
                do! se_do (netsh_quiet (delete_args "ipv4" (show_net old_ip (host_prefix old_ip)) (nexthop gw))) in
                netsh (add_args "ipv4" (show_net new_ip (host_prefix new_ip)) (nexthop gw))
            | None => se_ret tt
            end) in
       do! se_do (set_wr (with_proxy_ip new_ip)) in
       se_do (ws_info ("proxy host route moved to " +:+ show_ip new_ip))) s
  end.

Definition reload (plan : ReloadPlan) : SE WS unit := fun s =>
  if negb (applied (ws_wr s)) then (Ok tt, s)
  else
    (do! move_proxy_route (rp_proxy_route_change plan) in
     do! se_do (fun s => fold_left delete_bypass (rp_bypass_remove plan) s) in
     do! se_do (fun s => fold_left (add_bypass " (reload)") (rp_bypass_add plan) s) in
     do! se_do (set_wr (with_bypass (rp_new_bypass plan))) in
     if rp_dns_changed plan
     then do! on_dns (dns_reload (rp_dns plan)) in
          se_do (set_wr (with_dns_server (rp_dns plan)))
     else se_ret tt) s.

Definition teardown (s : WS) : WS :=
  if negb (applied (ws_wr s)) then s
  else
    let s := set_wr (with_applied false) s in
    let w := ws_wr s in
    let s := match gateway w with
             | Some gw =>
                 fold_left delete_bypass (bypass w)
                   (netsh_quiet (delete_args "ipv4" (show_net (proxy_ip w) (host_prefix (proxy_ip w))) (nexthop gw)) s)
             | None => s
             end in
    let s := fold_left (fun s x => netsh_quiet (delete_args "ipv4" (split_net x) (tun_target (ws_wr s))) s) V4_SPLIT s in
    let s := if capture_ipv6 w
             then fold_left (fun s net => netsh_quiet (delete_args "ipv6" net (tun_target (ws_wr s))) s) V6_SPLIT s
             else s in
    let s := ws_info "routes removed" s in
    dns_put (dns_restore (dns_view s)) s.

#[global] Instance WindowsRoutes_controller : RouteController WS := {|
  rc_apply := apply;
  rc_reload := reload;
  rc_teardown := teardown;
|}.

(** ** Definitions: link detection *)

Definition powershell (command : string) (h : Host) : option string * Host :=
  let '(r, h) := spawn (mkCmd "powershell" ["-NoProfile"; "-Command"; command]) h in
  (match r with Err _ => None | Ok out => Some (trim (stdout out)) end, h).

Definition MTU_QUERY : string :=
  "$i = (Get-NetRoute -DestinationPrefix '0.0.0.0/0' | Sort-Object RouteMetric | Select-Object -First 1).InterfaceIndex; (Get-NetIPInterface -InterfaceIndex $i -AddressFamily IPv4).NlMtu".

(** [text.lines().next()?.trim().parse::<u32>().ok()] *)
Definition first_number (text : string) : option Z :=
  match lines text with [] => None | l :: _ => ok (parse_uint 32 (trim l)) end.

Definition default_interface_mtu (h : Host) : option Z * Host :=
  let '(t, h) := powershell MTU_QUERY h in
  (match t with None => None | Some text => first_number text end, h).

Definition has_ipv6_default_route (h : Host) : bool * Host :=
  let '(t, h) := powershell "(Get-NetRoute -DestinationPrefix '::/0' | Measure-Object).Count" h in
  (match t with
   | None => false
   | Some text => match first_number text with Some count => 0 <? count | None => false end
   end, h).

Definition detect_link (h : Host) : LinkInfo * Host :=
  let '(mtu, h) := default_interface_mtu h in
  let '(v6, h) := has_ipv6_default_route h in
  (mkLinkInfo mtu v6, h).

(** ** Specification *)

Definition route_effect (c : Cmd) : Effect :=
  if decide (program c = "netsh")
  then match args c with
       | ["interface"; family; "add"; "route"; net; target; "store=active"] => Adds [family; net; target]
       | ["interface"; family; "delete"; "route"; net; target] => Deletes [family; net; target]
       | _ => NoEffect
       end
  else NoEffect.

(** A static server of an adapter and family, kept like a route. *)
Definition dns_effect (c : Cmd) : Effect :=
  if decide (program c = "netsh")
  then match args c with
       | ["interface"; family; "set"; "dnsservers"; name; "static"; _; "primary"] => Adds [family; name]
       | ["interface"; family; "set"; "dnsservers"; name; "dhcp"] => Deletes [family; name]
       | _ => NoEffect
       end
  else NoEffect.

(** The program's routes, and the static DNS servers it has set. *)
Definition routes_of (h : Host) : list Route := outstanding route_effect (trace h).
Definition statics_of (h : Host) : list Route := outstanding dns_effect (trace h).

Definition gw_routes (w : WindowsRoutes) (l : CidrList) : list Route :=
  match gateway w with
  | Some gw => (fun '(d, p) => [family_of d; show_net d p; nexthop gw]) <$> l
  | None => []
  end.

Definition proxy_routes (w : WindowsRoutes) : list Route :=
  match gateway w with
  | Some gw => [["ipv4"; show_net (proxy_ip w) (host_prefix (proxy_ip w)); nexthop gw]]
  | None => []
  end.

Definition v4_splits (w : WindowsRoutes) : list Route := (fun x => ["ipv4"; split_net x; tun_target w]) <$> V4_SPLIT.
Definition v6_splits (w : WindowsRoutes) : list Route :=
  if capture_ipv6 w then (fun net => ["ipv6"; net; tun_target w]) <$> V6_SPLIT else [].

(** The routes a teardown deletes. *)
Definition removal (w : WindowsRoutes) : list Route :=
  proxy_routes w ++ gw_routes w (bypass w) ++ v4_splits w ++ v6_splits w.

Inductive session : WS -> Prop :=
| session_apply s s' :
    routes_of (ws_host s) = [] -> statics_of (ws_host s) = [] -> wr_dns (ws_wr s) = NetshDns.new (wr_interface (ws_wr s)) ->
    rc_apply s = (Ok tt, s') -> session s'
| session_reload s s' plan :
    session s -> plan_fits (proxy_ip (ws_wr s)) (bypass (ws_wr s)) plan ->
    rc_reload plan s = (Ok tt, s') -> session s'.

(** ** Lemmas: commands *)

(** [grows P]: routes were added, all of them in [P]; [shrinks P]: exactly
    those in [P] were deleted. *)
Definition grows (P : Route -> Prop) (s s' : WS) : Prop :=
  ws_wr s' = ws_wr s /\ statics_of (ws_host s') = statics_of (ws_host s) /\
  (forall x, x ∈ routes_of (ws_host s') -> P x \/ x ∈ routes_of (ws_host s)) /\
  (forall x, x ∈ routes_of (ws_host s) -> x ∈ routes_of (ws_host s')).

Definition shrinks (P : Route -> Prop) (s s' : WS) : Prop :=
  ws_wr s' = ws_wr s /\ statics_of (ws_host s') = statics_of (ws_host s) /\
  forall x, x ∈ routes_of (ws_host s') <-> ~ P x /\ x ∈ routes_of (ws_host s).

Lemma grows_trans P Q s1 s2 s3 : grows P s1 s2 -> grows Q s2 s3 -> grows (fun x => P x \/ Q x) s1 s3.
Proof.
  intros (H1 & H2 & H3 & H4) (H1' & H2' & H3' & H4'). split_and!; [congruence .. | | auto].
  intros x Hx. apply H3' in Hx as [? | Hx]; [tauto |]. apply H3 in Hx. tauto.
Qed.

Lemma grows_weaken (P Q : Route -> Prop) s s' : (forall x, P x -> Q x) -> grows P s s' -> grows Q s s'.
Proof. intros H (H1 & H2 & H3 & H4). split_and!; auto. intros x Hx. apply H3 in Hx as [Hx | Hx]; auto. Qed.

Lemma shrinks_trans P Q s1 s2 s3 : shrinks P s1 s2 -> shrinks Q s2 s3 -> shrinks (fun x => P x \/ Q x) s1 s3.
Proof.
  intros (H1 & H2 & H3) (H1' & H2' & H3'). split_and!; [congruence .. |]. intros x. rewrite H3', H3. tauto.
Qed.

Lemma shrinks_ext (P Q : Route -> Prop) s s' : (forall x, P x <-> Q x) -> shrinks P s s' -> shrinks Q s s'.
Proof. intros H (H1 & H2 & H3). split_and!; [done .. |]. intros x. by rewrite H3, H. Qed.

Lemma grows_refl s : grows (fun _ => False) s s.
Proof. split_and!; tauto. Qed.

Lemma shrinks_none (P : Route -> Prop) s : (forall x, ~ P x) -> shrinks P s s.
Proof. intros H. split_and!; [done .. |]. intros x. specialize (H x). tauto. Qed.

Lemma add_spawn family net target s r h :
  spawn (mkCmd "netsh" (add_args family net target)) (ws_host s) = (r, h) ->
  grows (fun x => x = [family; net; target]) s (set_ws_host h s) /\
  (succeeded r = true -> [family; net; target] ∈ routes_of h).
Proof.
  intros E. set (c := mkCmd "netsh" (add_args family net target)) in *.
  assert (He : route_effect c = Adds [family; net; target]) by done.
  pose proof (outstanding_add route_effect c (ws_host s) _ He) as H1.
  pose proof (outstanding_added route_effect c (ws_host s) _ He) as H2.
  pose proof (outstanding_none dns_effect c (ws_host s) eq_refl) as H3.
  assert (H4 : forall x, x ∈ routes_of (ws_host s) -> x ∈ routes_of (spawn c (ws_host s)).2).
  { intros x Hx. unfold routes_of. rewrite outstanding_spawn. unfold ledger_step. cbn [fst]. rewrite He.
    case_match; [by right | done]. }
  rewrite E in H1, H2, H3, H4. cbn [fst snd] in *.
  split; [split_and!; [done | exact H3 | exact H1 | exact H4] | intros Hs; exact (proj1 (H2 Hs))].
Qed.

Lemma netsh_add_ok family net target s s' :
  netsh (add_args family net target) s = (Ok tt, s') ->
  grows (fun x => x = [family; net; target]) s s' /\ [family; net; target] ∈ routes_of (ws_host s').
Proof.
  unfold netsh, run_netsh. destruct (spawn _ _) as [r h] eqn:E. apply add_spawn in E as [H1 H2].
  destruct r as [out | e]; [| done]. cbn [succeeded] in H2. destruct (success (status out)); [| done].
  intros [= <-]. auto.
Qed.

Lemma netsh_quiet_add family net target s :
  grows (fun x => x = [family; net; target]) s (netsh_quiet (add_args family net target) s).
Proof. unfold netsh_quiet. destruct (spawn _ _) as [r h] eqn:E. by apply add_spawn in E as [H _]. Qed.

Lemma netsh_quiet_delete family net target s :
  shrinks (fun x => x = [family; net; target]) s (netsh_quiet (delete_args family net target) s).
Proof.
  set (c := mkCmd "netsh" (delete_args family net target)).
  pose proof (outstanding_delete route_effect c (ws_host s) [family; net; target] eq_refl) as H1.
  pose proof (outstanding_none dns_effect c (ws_host s) eq_refl) as H2.
  unfold netsh_quiet. fold c. destruct (spawn c (ws_host s)) as [r h]. by split_and!.
Qed.

(** A loop of additions or of deletions. *)
Lemma fold_grows {A} (body : WS -> A -> WS) (f : WindowsRoutes -> A -> Route -> Prop) l s :
  (forall s x, grows (f (ws_wr s) x) s (body s x)) ->
  grows (fun r => exists x, x ∈ l /\ f (ws_wr s) x r) s (fold_left body l s).
Proof.
  intros Hb. revert s. induction l as [| x l IH]; intros s.
  - eapply grows_weaken; [| apply grows_refl]. done.
  - cbn [fold_left]. pose proof (Hb s x) as H1. specialize (IH (body s x)). rewrite (proj1 H1) in IH.
    eapply grows_weaken; [| eapply grows_trans; [exact H1 | exact IH]].
    intros r [H | (y & Hy & H)]; [exists x | exists y]; (split; [| done]); [left | by right].
Qed.

Lemma fold_shrinks {A} (body : WS -> A -> WS) (f : WindowsRoutes -> A -> Route -> Prop) l s :
  (forall s x, shrinks (f (ws_wr s) x) s (body s x)) ->
  shrinks (fun r => exists x, x ∈ l /\ f (ws_wr s) x r) s (fold_left body l s).
Proof.
  intros Hb. revert s. induction l as [| x l IH]; intros s.
  - apply shrinks_none. intros r (x & Hx & _). by apply not_elem_of_nil in Hx.
  - cbn [fold_left]. pose proof (Hb s x) as H1. specialize (IH (body s x)). rewrite (proj1 H1) in IH.
    eapply shrinks_ext; [| eapply shrinks_trans; [exact H1 | exact IH]].
    intros r. setoid_rewrite elem_of_cons. naive_solver.
Qed.

Lemma add_bypasses sf l s : grows (fun r => r ∈ gw_routes (ws_wr s) l) s (fold_left (add_bypass sf) l s).
Proof.
  eapply grows_weaken; [| apply (fold_grows (add_bypass sf) (fun w x r => r ∈ gw_routes w [x]))].
  - intros r (x & Hx & Hr). unfold gw_routes in *. destruct (gateway (ws_wr s)) as [gw |]; [| done].
    apply list_elem_of_fmap in Hr as (y & -> & Hy). apply list_elem_of_fmap. exists y. split; [done |].
    by apply list_elem_of_singleton in Hy as ->.
  - intros s1 [d p]. unfold add_bypass, gw_routes. destruct (gateway (ws_wr s1)) as [gw |].
    + eapply grows_weaken; [| apply netsh_quiet_add]. intros x ->. by left.
    + eapply grows_weaken; [| apply grows_refl]. done.
Qed.

Lemma delete_bypasses l s : shrinks (fun r => r ∈ gw_routes (ws_wr s) l) s (fold_left delete_bypass l s).
Proof.
  eapply shrinks_ext; [| apply (fold_shrinks delete_bypass (fun w x r => r ∈ gw_routes w [x]))].
  - intros r. unfold gw_routes. destruct (gateway (ws_wr s)) as [gw |].
    + setoid_rewrite list_elem_of_fmap. setoid_rewrite list_elem_of_singleton. naive_solver.
    + setoid_rewrite elem_of_nil. naive_solver.
  - intros s1 [d p]. unfold delete_bypass, gw_routes. destruct (gateway (ws_wr s1)) as [gw |].
    + eapply shrinks_ext; [| apply netsh_quiet_delete]. intros x. simpl. by rewrite list_elem_of_singleton.
    + apply shrinks_none. intros x. apply not_elem_of_nil.
Qed.

(** ** Lemmas: DNS *)

(** Every static server is one of the adapter's two, and known to the object. *)
Definition nt_inv (s : NetshState) : Prop :=
  forall x, x ∈ statics_of (nt_host s) -> configured (nt_dns s) = true /\
    exists family, (family = "ipv4" \/ family = "ipv6") /\ x = [family; "name=" +:+ interface (nt_dns s)].

Lemma set_static_spec iface d s :
  exists r s', set_static iface d s = (r, s') /\ nt_dns s' = nt_dns s /\ nt_log s' = nt_log s /\
    routes_of (nt_host s') = routes_of (nt_host s) /\
    (forall x, x ∈ statics_of (nt_host s') ->
       (r = Ok tt /\ x = [family_of d; "name=" +:+ iface]) \/ x ∈ statics_of (nt_host s)).
Proof.
  unfold set_static, run_netsh.
  set (c := mkCmd "netsh" ["interface"; family_of d; "set"; "dnsservers"; "name=" +:+ iface; "static"; show_ip d; "primary"]).
  pose proof (outstanding_none route_effect c (nt_host s)) as H1.
  assert (H2 : forall x, x ∈ statics_of (spawn c (nt_host s)).2 ->
    (succeeded (spawn c (nt_host s)).1 = true /\ x = [family_of d; "name=" +:+ iface]) \/ x ∈ statics_of (nt_host s)).
  { intros x. unfold statics_of. rewrite outstanding_spawn. unfold ledger_step.
    change (dns_effect (c, (spawn c (nt_host s)).1).1) with (Adds [family_of d; "name=" +:+ iface]).
    cbn [snd]. destruct (succeeded _); [rewrite elem_of_cons |]; tauto. }
  destruct (spawn c (nt_host s)) as [r h]. cbn [fst snd] in *. do 2 eexists. split; [done |].
  split_and!; [done | done | apply H1; by destruct d |]. intros x Hx. apply H2 in Hx as [[Hs Hx] | Hx]; [left | by right].
  split; [| done]. destruct r as [out | e]; [| done]. simpl in Hs. by rewrite Hs.
Qed.

Lemma reset_spec s :
  let s' := NetshDns.reset s in
  nt_dns s' = nt_dns s /\ nt_log s' = nt_log s /\ routes_of (nt_host s') = routes_of (nt_host s) /\
  forall x, x ∈ statics_of (nt_host s') <->
    x <> ["ipv4"; "name=" +:+ interface (nt_dns s)] /\ x <> ["ipv6"; "name=" +:+ interface (nt_dns s)] /\
    x ∈ statics_of (nt_host s).
Proof.
  unfold NetshDns.reset, set_dhcp.
  set (c f := mkCmd "netsh" ["interface"; f; "set"; "dnsservers"; "name=" +:+ interface (nt_dns s); "dhcp"]).
  pose proof (outstanding_none route_effect (c "ipv4") (nt_host s) eq_refl) as H1.
  pose proof (outstanding_delete dns_effect (c "ipv4") (nt_host s) _ eq_refl) as H2.
  fold (c "ipv4"). destruct (spawn (c "ipv4") (nt_host s)) as [r h]. cbn [fst snd nt_host nt_dns nt_log] in *.
  pose proof (outstanding_none route_effect (c "ipv6") h eq_refl) as H3.
  pose proof (outstanding_delete dns_effect (c "ipv6") h _ eq_refl) as H4.
  fold (c "ipv6"). destruct (spawn (c "ipv6") h) as [r' h']. cbn [fst snd nt_host nt_dns nt_log] in *.
  cbv zeta. split_and!; [done .. | unfold routes_of; congruence |].
  intros x. unfold statics_of. rewrite H4, H2. tauto.
Qed.

Lemma static_inv d s :
  nt_inv s ->
  exists r s', set_static (interface (nt_dns s)) d s = (r, s') /\ nt_dns s' = nt_dns s /\
    routes_of (nt_host s') = routes_of (nt_host s) /\
    match r with Ok _ => nt_inv (set_configured true s') | Err _ => nt_inv s' end.
Proof.
  intros Hi. destruct (set_static_spec (interface (nt_dns s)) d s) as (r & s' & -> & Hd & _ & Hr & Hs).
  exists r, s'. split_and!; [done .. |]. destruct r as [[] | e].
  - intros x Hx. split; [done |]. simpl. rewrite Hd. apply Hs in Hx as [[_ ->] | Hx]; [| by apply Hi].
    exists (family_of d). split; [destruct d; auto | done].
  - intros x Hx. rewrite Hd. apply Hs in Hx as [[? _] | Hx]; [done | by apply Hi].
Qed.

Lemma reset_inv s : nt_inv s -> statics_of (nt_host (NetshDns.reset s)) = [].
Proof.
  intros Hi. destruct (reset_spec s) as (_ & _ & _ & Hs).
  destruct (statics_of (nt_host (NetshDns.reset s))) as [| x l]; [done |]. exfalso.
  destruct (proj1 (Hs x)) as (H4 & H6 & Hx); [left |]. apply Hi in Hx as (_ & f & [-> | ->] & ->); done.
Qed.

Lemma nt_inv_empty s : statics_of (nt_host s) = [] -> nt_inv s.
Proof. intros H x Hx. rewrite H in Hx. by apply not_elem_of_nil in Hx. Qed.

Lemma apply_nt server s :
  nt_inv s -> nt_inv (dns_apply server s).2 /\ routes_of (nt_host (dns_apply server s).2) = routes_of (nt_host s).
Proof.
  intros Hi. destruct server as [d |]; [| done]. simpl. unfold se_bind, se_do.
  destruct (static_inv d s Hi) as (r & s' & -> & Hd & Hr & Hi'). by destruct r as [[] | e].
Qed.

Lemma reload_nt server s :
  nt_inv s -> nt_inv (dns_reload server s).2 /\ routes_of (nt_host (dns_reload server s).2) = routes_of (nt_host s).
Proof.
  intros Hi. simpl. unfold NetshDns.reload. case_decide; [done |]. destruct server as [d |]; unfold se_bind, se_do.
  - destruct (static_inv d s Hi) as (r & s' & -> & Hd & Hr & Hi'). by destruct r as [[] | e].
  - destruct (reset_spec s) as (_ & _ & Hr & _). split; [| exact Hr]. apply nt_inv_empty. apply (reset_inv s Hi).
Qed.

Lemma restore_nt s :
  nt_inv s ->
  statics_of (nt_host (dns_restore s)) = [] /\ routes_of (nt_host (dns_restore s)) = routes_of (nt_host s).
Proof.
  intros Hi. simpl. unfold NetshDns.restore. destruct (configured (nt_dns s)) eqn:E; cbn [negb].
  - destruct (reset_spec s) as (_ & _ & Hr & _). split; [apply (reset_inv s Hi) | exact Hr].
  - split; [| done]. destruct (statics_of (nt_host s)) as [| x l] eqn:El; [done |]. exfalso.
    destruct (Hi x) as [Hc _]; [rewrite El; left | congruence].
Qed.

(** ** Lemmas: the operations *)

Definition covered (s : WS) : Prop := forall x, x ∈ routes_of (ws_host s) -> x ∈ removal (ws_wr s).

Lemma win_elem_of_removal w x :
  x ∈ removal w <-> x ∈ proxy_routes w \/ x ∈ gw_routes w (bypass w) \/ x ∈ v4_splits w \/ x ∈ v6_splits w.
Proof. unfold removal. by rewrite !elem_of_app. Qed.

Lemma find_gateway_ok s :
  exists g, ws_wr (find_gateway s) = with_gateway g (ws_wr s) /\
    routes_of (ws_host (find_gateway s)) = routes_of (ws_host s) /\
    statics_of (ws_host (find_gateway s)) = statics_of (ws_host s).
Proof.
  unfold find_gateway, default_gateway. set (c := mkCmd "powershell" _).
  pose proof (outstanding_none route_effect c (ws_host s) eq_refl) as H1.
  pose proof (outstanding_none dns_effect c (ws_host s) eq_refl) as H2.
  destruct (spawn c (ws_host s)) as [r h]. by eexists.
Qed.

Lemma pin_proxy_ok s s' :
  pin_proxy s s = (Ok tt, s') ->
  grows (fun x => x ∈ proxy_routes (ws_wr s)) s s' /\ forall x, x ∈ proxy_routes (ws_wr s) -> x ∈ routes_of (ws_host s').
Proof.
  unfold pin_proxy, proxy_routes. destruct (gateway (ws_wr s)) as [gw |].
  - intros ([] & s1 & H1%se_context_ok & H2)%se_bind_ok. injection H2 as <-. apply netsh_add_ok in H1 as [H1 H2].
    split; [| intros x ->%list_elem_of_singleton; exact H2].
    eapply grows_weaken; [| exact H1]. intros x ->. by left.
  - intros [= <-]. split; [| intros x Hx; by apply not_elem_of_nil in Hx].
    eapply grows_weaken; [| exact (grows_refl s)]. done.
Qed.

Lemma for_splits l s s' :
  se_for l (fun x s => netsh (add_args "ipv4" (split_net x) (tun_target (ws_wr s))) s) s = (Ok tt, s') ->
  grows (fun x => x ∈ (fun x => ["ipv4"; split_net x; tun_target (ws_wr s)]) <$> l) s s' /\
  forall x, x ∈ (fun x => ["ipv4"; split_net x; tun_target (ws_wr s)]) <$> l -> x ∈ routes_of (ws_host s').
Proof.
  revert s. induction l as [| y l IH]; intros s H.
  - injection H as <-. split; [| intros x Hx; by apply not_elem_of_nil in Hx].
    eapply grows_weaken; [| exact (grows_refl s)]. done.
  - apply se_bind_ok in H as ([] & s1 & H1%netsh_add_ok & H2%IH). destruct H1 as [H1 Hin], H2 as [H2 Hin2].
    rewrite (proj1 H1) in H2, Hin2. split.
    + eapply grows_weaken; [| eapply grows_trans; [exact H1 | exact H2]]. intros x. rewrite fmap_cons, elem_of_cons. tauto.
    + intros x. rewrite fmap_cons, elem_of_cons. intros [-> | Hx]; [by apply H2 | by apply Hin2].
Qed.

Lemma win_on_dns_ok (m : SE NetshState unit) s s' :
  on_dns m s = (Ok tt, s') -> exists d, m (dns_view s) = (Ok tt, d) /\ s' = dns_put d s.
Proof. unfold on_dns. destruct (m (dns_view s)) as [r d] eqn:E. intros [= -> <-]. by exists d. Qed.

Lemma v6_adds s :
  capture_ipv6 (ws_wr s) = true ->
  grows (fun x => x ∈ v6_splits (ws_wr s)) s
    (fold_left (fun s net => netsh_quiet (add_args "ipv6" net (tun_target (ws_wr s))) s) V6_SPLIT s).
Proof.
  intros Hc. unfold v6_splits. rewrite Hc.
  eapply grows_weaken; [| eapply (fold_grows _ (fun w net r => r = ["ipv6"; net; tun_target w]));
    intros s1 x; apply netsh_quiet_add].
  intros r (x & Hx & ->). apply list_elem_of_fmap. by exists x.
Qed.

Lemma win_apply_ok s s' :
  apply s = (Ok tt, s') ->
  exists g s1 d, let w := with_gateway g (ws_wr s) in
    ws_wr s1 = w /\ statics_of (ws_host s1) = statics_of (ws_host s) /\
    dns_apply (wr_dns_server w) (dns_view s1) = (Ok tt, d) /\ s' = set_wr (with_applied true) (dns_put d s1) /\
    (forall x, x ∈ routes_of (ws_host s1) -> x ∈ removal w \/ x ∈ routes_of (ws_host s)) /\
    (forall x, x ∈ proxy_routes w \/ x ∈ v4_splits w \/ x ∈ routes_of (ws_host s) -> x ∈ routes_of (ws_host s1)).
Proof.
  unfold apply. intros H. apply se_bind_ok in H as ([] & s0 & H0 & H). injection H0 as <-.
  destruct (find_gateway_ok s) as (g & Hw & Hr & Hs). set (w := with_gateway g (ws_wr s)) in *.
  set (s0 := find_gateway s) in *. rewrite <- Hr, <- Hs. clear Hr Hs.
  apply se_bind_ok in H as ([] & s1 & H1 & H). apply pin_proxy_ok in H1 as [G1 P1]. rewrite Hw in G1, P1.
  apply se_bind_ok in H as ([] & s2 & H2 & H). injection H2 as H2.
  assert (E1 : ws_wr s1 = w) by (rewrite <- Hw; apply G1).
  pose proof (add_bypasses "" (bypass (ws_wr s)) s1) as G2. rewrite E1 in G2.
  assert (H2' : fold_left (add_bypass "") (bypass (ws_wr s)) s1 = s2) by (rewrite <- H2; reflexivity).
  rewrite H2' in G2. clear H2 H2'.
  assert (E2 : ws_wr s2 = w) by (rewrite <- E1; apply G2).
  apply se_bind_ok in H as ([] & s3 & H3 & H). apply for_splits in H3 as [G3 P3]. rewrite E2 in G3, P3.
  assert (E3 : ws_wr s3 = w) by (rewrite <- E2; apply G3).
  apply se_bind_ok in H as ([] & s4 & H4 & H). injection H4 as H4.
  assert (G4 : grows (fun x => x ∈ v4_splits w) s2 s4) by (subst s4; exact G3).
  assert (E4 : ws_wr s4 = w) by (by subst s4).
  assert (P4 : forall x, x ∈ v4_splits w -> x ∈ routes_of (ws_host s4)) by (subst s4; exact P3).
  apply se_bind_ok in H as ([] & s5 & H5 & H).
  assert (G5 : grows (fun x => x ∈ v6_splits w) s4 s5).
  { rewrite Hw in H5. destruct (capture_ipv6 w) eqn:Hc.
    - apply se_bind_ok in H5 as ([] & s6 & H6 & H5). injection H6 as <-. injection H5 as <-.
      pose proof (v6_adds s4) as G. rewrite E4 in G. by apply G.
    - injection H5 as <-. eapply grows_weaken; [| apply grows_refl]. done. }
  apply se_bind_ok in H as ([] & s6 & H6 & H). injection H as <-. apply win_on_dns_ok in H6 as (d & Hd & ->).
  rewrite Hw in Hd.
  pose proof (grows_trans _ _ _ _ _ (grows_trans _ _ _ _ _ (grows_trans _ _ _ _ _ G1 G2) G4) G5)
    as (Hm & Hst & Hup & Hkeep).
  exists g, s5, d. cbv zeta. fold w. split_and!; [congruence | done .. | |].
  - intros x Hx. apply Hup in Hx. rewrite win_elem_of_removal. tauto.
  - intros x [Hx | [Hx | Hx]]; [| apply G5, P4, Hx | by apply Hkeep]. by apply G5, G4, G2, P1.
Qed.

Lemma apply_good s s' :
  apply s = (Ok tt, s') -> routes_of (ws_host s) = [] -> nt_inv (dns_view s) ->
  applied (ws_wr s') = true /\ covered s' /\ nt_inv (dns_view s').
Proof.
  intros H He Hi. apply win_apply_ok in H as (g & s1 & d & Hw & Hst & Hd & -> & Hup & _).
  assert (Hi1 : nt_inv (dns_view s1)).
  { intros x Hx. unfold dns_view. rewrite Hw. simpl in *. apply Hi. simpl. by rewrite <- Hst. }
  destruct (apply_nt (wr_dns_server (with_gateway g (ws_wr s))) _ Hi1) as [Hi2 Hr]. rewrite Hd in Hi2, Hr.
  cbn [snd] in Hi2, Hr. split_and!; [done | | done].
  intros x Hx. simpl in Hx. rewrite Hr in Hx. apply Hup in Hx as [Hx | Hx].
  - simpl. by rewrite Hw.
  - rewrite He in Hx. by apply not_elem_of_nil in Hx.
Qed.

(** The manager a plan leads to, but for the DNS server. *)
Definition planned (plan : ReloadPlan) (w : WindowsRoutes) : WindowsRoutes :=
  with_bypass (rp_new_bypass plan)
    (with_proxy_ip (match rp_proxy_route_change plan with Some (_, n) => n | None => proxy_ip w end) w).

Lemma win_moved ch s s1 :
  move_proxy_route ch s = (Ok tt, s1) ->
  ws_wr s1 = with_proxy_ip (match ch with Some (_, n) => n | None => proxy_ip (ws_wr s) end) (ws_wr s) /\
  statics_of (ws_host s1) = statics_of (ws_host s) /\
  forall x, x ∈ routes_of (ws_host s1) ->
    match ch with
    | Some (o, n) => x ∈ proxy_routes (with_proxy_ip n (ws_wr s)) \/
                     (x ∉ proxy_routes (with_proxy_ip o (ws_wr s)) /\ x ∈ routes_of (ws_host s))
    | None => x ∈ routes_of (ws_host s)
    end.
Proof.
  intros H. destruct ch as [[o n] |].
  2: { injection H as <-. split; [by destruct (ws_wr s) | done]. }
  apply se_bind_ok in H as ([] & s2 & H1 & H). apply se_bind_ok in H as ([] & s3 & H2 & H).
  injection H2 as <-. injection H as <-. unfold proxy_routes. simpl. destruct (gateway (ws_wr s)) as [gw |] eqn:Hg.
  - apply se_bind_ok in H1 as ([] & s3 & H3 & H1). injection H3 as H3.
    pose proof (netsh_quiet_delete "ipv4" (show_net o (host_prefix o)) (nexthop gw) s) as D.
    rewrite H3 in D. clear H3. destruct D as (Dm & Ds & Dr). apply netsh_add_ok in H1 as [(Gm & Gs & Gr & _) _].
    rewrite Gm, Dm. split_and!; [done | congruence |]. intros x Hx. rewrite !list_elem_of_singleton.
    apply Gr in Hx as [-> | Hx]; [by left | right]. by apply Dr in Hx.
  - injection H1 as <-. split_and!; [done .. |]. intros x Hx. right. split; [apply not_elem_of_nil | done].
Qed.

Lemma gw_routes_elem w l x : x ∈ gw_routes w l <-> exists net, net ∈ l /\ x ∈ gw_routes w [net].
Proof.
  unfold gw_routes. destruct (gateway w) as [gw |].
  - setoid_rewrite list_elem_of_fmap. setoid_rewrite list_elem_of_singleton. naive_solver.
  - setoid_rewrite elem_of_nil. naive_solver.
Qed.

(** The routes a reload that ends well leaves of those before it, or adds. *)
Definition remains (plan : ReloadPlan) (s : WS) (x : Route) : Prop :=
  x ∈ gw_routes (ws_wr s) (rp_bypass_add plan) \/
  (x ∉ gw_routes (ws_wr s) (rp_bypass_remove plan) /\
   match rp_proxy_route_change plan with
   | Some (o, n) => x ∈ proxy_routes (with_proxy_ip n (ws_wr s)) \/
                    (x ∉ proxy_routes (with_proxy_ip o (ws_wr s)) /\ x ∈ routes_of (ws_host s))
   | None => x ∈ routes_of (ws_host s)
   end).

(** What a reload that ends well does. *)
Lemma win_reload_stages plan s s' :
  reload plan s = (Ok tt, s') -> applied (ws_wr s) = true ->
  (exists d srv, ws_wr s' = with_dns_server srv (with_dns d (planned plan (ws_wr s)))) /\
  (nt_inv (dns_view s) -> nt_inv (dns_view s') /\ forall x, x ∈ routes_of (ws_host s') -> remains plan s x).
Proof.
  unfold reload. intros H Ha. rewrite Ha in H. cbn [negb] in H.
  apply se_bind_ok in H as ([] & s1 & H1 & H). apply win_moved in H1 as (Hw1 & Hs1 & Hl1).
  apply se_bind_ok in H as ([] & s2 & H2 & H). injection H2 as H2.
  pose proof (delete_bypasses (rp_bypass_remove plan) s1) as (Dm & Ds & Dr). rewrite H2 in Dm, Ds, Dr. clear H2.
  apply se_bind_ok in H as ([] & s3 & H3 & H). injection H3 as H3.
  pose proof (add_bypasses " (reload)" (rp_bypass_add plan) s2) as (Gm & Gs & Gr & _). rewrite H3 in Gm, Gs, Gr. clear H3.
  apply se_bind_ok in H as ([] & s4 & H4 & H). injection H4 as H4.
  assert (Hw4 : ws_wr s4 = planned plan (ws_wr s)) by (subst s4; simpl; unfold planned; congruence).
  assert (Hl4 : forall x, x ∈ routes_of (ws_host s4) -> remains plan s x).
  { subst s4. intros x [Hx | Hx]%Gr.
    - left. rewrite Dm, Hw1 in Hx. exact Hx.
    - apply Dr in Hx as [Hn Hx]. rewrite Hw1 in Hn. right. exact (conj Hn (Hl1 x Hx)). }
  assert (Hi4 : nt_inv (dns_view s) -> nt_inv (dns_view s4)).
  { intros Hi x Hx. unfold dns_view. rewrite Hw4. apply Hi. simpl.
    assert (E : statics_of (ws_host s4) = statics_of (ws_host s)) by (subst s4; simpl; congruence).
    rewrite <- E. exact Hx. }
  clear H4. destruct (rp_dns_changed plan).
  - apply se_bind_ok in H as ([] & s5 & H5 & H). injection H as <-. apply win_on_dns_ok in H5 as (d & Hd & ->).
    split; [exists (nt_dns d), (rp_dns plan); simpl; by rewrite Hw4 |]. intros Hi%Hi4.
    destruct (reload_nt (rp_dns plan) _ Hi) as [Hi5 Hr]. rewrite Hd in Hi5, Hr. cbn [snd] in Hi5, Hr.
    split; [done |]. intros x. simpl. rewrite Hr. apply Hl4.
  - injection H as <-. split; [| auto]. exists (wr_dns (ws_wr s)), (wr_dns_server (ws_wr s)). by rewrite Hw4.
Qed.

Lemma reload_good plan s s' :
  reload plan s = (Ok tt, s') -> applied (ws_wr s) = true ->
  plan_fits (proxy_ip (ws_wr s)) (bypass (ws_wr s)) plan -> covered s -> nt_inv (dns_view s) ->
  applied (ws_wr s') = true /\ covered s' /\ nt_inv (dns_view s') /\
  bypass (ws_wr s') = rp_new_bypass plan /\
  proxy_ip (ws_wr s') = match rp_proxy_route_change plan with Some (_, n) => n | None => proxy_ip (ws_wr s) end.
Proof.
  intros H Ha (Hpc & Hnew & _ & Hadd) Hc Hi. apply win_reload_stages in H as ((d & srv & Hw) & H); [| done].
  destruct (H Hi) as [Hi' Hl]. split_and!; [by rewrite Hw | | done | by rewrite Hw ..]. intros x Hx.
  rewrite Hw, win_elem_of_removal. change (gw_routes (with_dns_server _ _)) with (gw_routes (ws_wr s)).
  change (v4_splits _) with (v4_splits (ws_wr s)). change (v6_splits _) with (v6_splits (ws_wr s)).
  change (bypass _) with (rp_new_bypass plan). change (proxy_routes _) with (proxy_routes (planned plan (ws_wr s))).
  assert (Hold : x ∈ gw_routes (ws_wr s) (bypass (ws_wr s)) -> x ∉ gw_routes (ws_wr s) (rp_bypass_remove plan) ->
    x ∈ gw_routes (ws_wr s) (rp_new_bypass plan)).
  { rewrite !(gw_routes_elem (ws_wr s)). intros (net & Hin & Hx') Hn. destruct (Hnew net Hin) as [? | Hr]; [eauto |].
    destruct Hn. eauto. }
  apply Hl in Hx as [Hx | [Hn Hx]].
  { right. left. apply gw_routes_elem in Hx as (net & Hin & Hx). apply gw_routes_elem. eauto. }
  unfold planned. destruct (rp_proxy_route_change plan) as [[o n] |].
  - destruct Hx as [Hx | [Hno Hx]]; [by left |]. rewrite (Hpc o n eq_refl) in Hno.
    apply Hc, win_elem_of_removal in Hx as [Hx | [Hx | Hx]]; [by destruct Hno | auto ..].
  - apply Hc, win_elem_of_removal in Hx as [Hx | [Hx | Hx]]; [by left | auto ..].
Qed.

Lemma win_session_inv s : session s -> applied (ws_wr s) = true /\ covered s /\ nt_inv (dns_view s).
Proof.
  induction 1 as [s s' Hl Hst Hd Hok | s s' plan Hs (Ha & Hc & Hi) Hp Hok].
  - apply apply_good in Hok; [done .. |]. by apply nt_inv_empty.
  - by apply reload_good in Hok as (H1 & H2 & H3 & _).
Qed.

Lemma delete_splits s :
  shrinks (fun x => x ∈ v4_splits (ws_wr s)) s
    (fold_left (fun s x => netsh_quiet (delete_args "ipv4" (split_net x) (tun_target (ws_wr s))) s) V4_SPLIT s).
Proof.
  eapply shrinks_ext; [| eapply (fold_shrinks _ (fun w x r => r = ["ipv4"; split_net x; tun_target w]));
    intros s1 x; apply netsh_quiet_delete].
  intros r. unfold v4_splits. rewrite list_elem_of_fmap. naive_solver.
Qed.

Lemma delete_splits6 s :
  shrinks (fun x => x ∈ v6_splits (ws_wr s)) s
    (if capture_ipv6 (ws_wr s)
     then fold_left (fun s net => netsh_quiet (delete_args "ipv6" net (tun_target (ws_wr s))) s) V6_SPLIT s else s).
Proof.
  unfold v6_splits. destruct (capture_ipv6 (ws_wr s)).
  - eapply shrinks_ext; [| eapply (fold_shrinks _ (fun w net r => r = ["ipv6"; net; tun_target w]));
      intros s1 x; apply netsh_quiet_delete].
    intros r. rewrite list_elem_of_fmap. naive_solver.
  - apply shrinks_none. intros x. apply not_elem_of_nil.
Qed.

Lemma win_teardown_ok s :
  applied (ws_wr s) = true ->
  exists s1, teardown s = dns_put (dns_restore (dns_view s1)) s1 /\
    ws_wr s1 = with_applied false (ws_wr s) /\ statics_of (ws_host s1) = statics_of (ws_host s) /\
    forall x, x ∈ routes_of (ws_host s1) <-> x ∉ removal (ws_wr s) /\ x ∈ routes_of (ws_host s).
Proof.
  intros Ha. unfold teardown. rewrite Ha. cbn [negb].
  set (s1 := set_wr (with_applied false) s). set (w := ws_wr s1).
  set (s2 := match gateway w with Some _ => _ | None => s1 end).
  assert (D2 : shrinks (fun x => x ∈ proxy_routes w \/ x ∈ gw_routes w (bypass w)) s1 s2).
  { subst s2. unfold proxy_routes, gw_routes. destruct (gateway w) as [gw |] eqn:Hg.
    - pose proof (netsh_quiet_delete "ipv4" (show_net (proxy_ip w) (host_prefix (proxy_ip w))) (nexthop gw) s1) as D1.
      set (s3 := netsh_quiet _ s1) in *. pose proof (delete_bypasses (bypass w) s3) as D2.
      rewrite (proj1 D1) in D2. fold w in D2. unfold gw_routes in D2. rewrite Hg in D2.
      eapply shrinks_ext; [| eapply shrinks_trans; [exact D1 | exact D2]]. intros x. by rewrite list_elem_of_singleton.
    - apply shrinks_none. intros x. rewrite elem_of_nil. tauto. }
  assert (E2 : ws_wr s2 = w) by apply D2.
  pose proof (delete_splits s2) as D3. rewrite E2 in D3. set (s3 := fold_left _ V4_SPLIT s2) in *.
  assert (E3 : ws_wr s3 = w) by (rewrite <- E2; apply D3).
  pose proof (delete_splits6 s3) as D4. rewrite E3 in D4. set (s4 := if capture_ipv6 w then _ else s3) in *.
  exists (ws_info "routes removed" s4). split; [done |].
  pose proof (shrinks_trans _ _ _ _ _ (shrinks_trans _ _ _ _ _ D2 D3) D4) as (Hm & Hst & Hr).
  split; [exact Hm |]. split; [exact Hst |]. intros x. etransitivity; [apply (Hr x) |]. rewrite win_elem_of_removal.
  change (x ∈ proxy_routes w) with (x ∈ proxy_routes (ws_wr s)). change (routes_of (ws_host s1)) with (routes_of (ws_host s)).
  change (gw_routes w (bypass w)) with (gw_routes (ws_wr s) (bypass (ws_wr s))). tauto.
Qed.

(** The teardown of a manager that knows all its routes. *)
Lemma win_covered_teardown (s : WS) :
  applied (ws_wr s) = true -> covered s -> nt_inv (dns_view s) ->
  let s' := rc_teardown s in
  routes_of (ws_host s') = [] /\ statics_of (ws_host s') = [] /\ applied (ws_wr s') = false.
Proof.
  intros Ha Hc Hi. cbv zeta. cbn [rc_teardown WindowsRoutes_controller].
  destruct (win_teardown_ok s Ha) as (s1 & -> & Hw & Hst & Hr).
  assert (Hi1 : nt_inv (dns_view s1)).
  { intros x Hx. unfold dns_view. rewrite Hw. apply Hi. simpl. by rewrite <- Hst. }
  apply restore_nt in Hi1 as [H1 H2]. simpl. split_and!; [| exact H1 | by rewrite Hw].
  simpl in H2. rewrite H2. destruct (routes_of (ws_host s1)) as [| x l]; [done |]. exfalso.
  destruct (proj1 (Hr x)) as [Hn Hx]; [left |]. by apply Hn, Hc.
Qed.

(** The teardown after a session. *)
Lemma win_session_teardown (s : WS) :
  session s ->
  let s' := rc_teardown s in
  routes_of (ws_host s') = [] /\ statics_of (ws_host s') = [] /\ applied (ws_wr s') = false.
Proof. intros (Ha & Hc & Hi)%win_session_inv. by apply win_covered_teardown. Qed.

(** ** Properties *)

(** On Windows a successful [apply] has put the proxy's host route
    through the gateway, when there is one, and both halves of the IPv4
    space into the tunnel, and every route it added is one a teardown
    deletes. *)
Theorem win_apply_installs (s s' : WS) :
  rc_apply s = (Ok tt, s') -> routes_of (ws_host s) = [] -> nt_inv (dns_view s) ->
  applied (ws_wr s') = true /\
  (forall x, x ∈ proxy_routes (ws_wr s') \/ x ∈ v4_splits (ws_wr s') -> x ∈ routes_of (ws_host s')) /\
  (forall x, x ∈ routes_of (ws_host s') -> x ∈ removal (ws_wr s')).
Proof.
  intros H He Hi. pose proof (apply_good s s' H He Hi) as (Ha & Hc & _). split; [done |]. split; [| done].
  apply win_apply_ok in H as (g & s1 & d & Hw & Hst & Hd & -> & _ & Hin).
  assert (Hi1 : nt_inv (dns_view s1)).
  { intros x Hx. unfold dns_view. rewrite Hw. apply Hi. simpl. by rewrite <- Hst. }
  destruct (apply_nt (wr_dns_server (with_gateway g (ws_wr s))) _ Hi1) as [_ Hr]. rewrite Hd in Hr. cbn [snd] in Hr.
  intros x Hx. simpl. rewrite Hr. apply Hin. simpl in Hx. rewrite Hw in Hx. destruct Hx as [Hx | Hx]; auto.
Qed.

(** Teardown leaves nothing behind on Windows: after an apply and any
    reloads that succeeded, with plans computed for the manager's routes,
    every route the program added has been deleted or asked to be, and no
    static DNS server it set is left on the adapter. *)
Theorem win_teardown_clean (s : WS) :
  session s ->
  let s' := rc_teardown s in
  routes_of (ws_host s') = [] /\ statics_of (ws_host s') = [] /\ applied (ws_wr s') = false.
Proof. apply win_session_teardown. Qed.

(** A proxy with an IPv6 address is pinned with the wrong family: the
    command is [netsh interface ipv4] whatever the address. *)
Theorem win_ipv6_proxy_family (a : Ipv6Addr) (s : WS) (gw : IpAddr) :
  proxy_ip (ws_wr s) = V6 a -> gateway (ws_wr s) = Some gw ->
  exists r, last (trace (ws_host (pin_proxy s s).2)) =
    Some (mkCmd "netsh" (add_args "ipv4" (show_net (V6 a) 128) (nexthop gw)), r).
Proof.
  intros Hp Hg. unfold pin_proxy. rewrite Hp, Hg. unfold se_bind, se_context, netsh, run_netsh, spawn.
  set (c := mkCmd _ _). set (r := answer _ _ _). exists r.
  assert (H : forall l, last (l ++ [(c, r)]) = Some (c, r)) by (intros; apply last_snoc).
  destruct r as [out |]; [destruct (success (status out)) |]; apply H.
Qed.

(** ** Witnesses *)

Module WinExample.
Definition ok_status : ExitStatus := mkExit true "exit code: 0".

(** A host behind 192.168.1.1 that obeys every command. *)
Definition reply (t : list (Cmd * Reply)) (c : Cmd) : Reply :=
  Ok (mkOutput ok_status (if decide (program c = "powershell") then "192.168.1.1" +:+ String CR (String LF "") else "")).

Definition start : WS :=
  mkWS (mkWR (V4 3405803785) "cortado0" [(V4 167772160, 8)] true None (NetshDns.new "cortado0")
          (Some (V4 16843009)) false) (mkHost reply []) [].

Definition running : WS := snd (rc_apply start).

Lemma win_running_ok : rc_apply start = (Ok tt, running).
Proof.
  assert (H : is_ok (rc_apply start).1 = true) by (vm_compute; reflexivity). revert H. unfold running.
  by destruct (rc_apply start) as [[[] |] ?].
Qed.

Lemma win_running_session : session running.
Proof. apply (session_apply start); [done .. |]. apply win_running_ok. Qed.
End WinExample.

Lemma win_apply_installs_witness :
  ["ipv4"; "203.0.113.9/32"; "nexthop=192.168.1.1"] ∈ routes_of (ws_host WinExample.running) /\
  applied (ws_wr WinExample.running) = true.
Proof.
  destruct (win_apply_installs WinExample.start WinExample.running WinExample.win_running_ok) as (H & H2 & _).
  - reflexivity.
  - apply nt_inv_empty. reflexivity.
  - split; [| exact H]. apply H2. left.
    assert (E : proxy_routes (ws_wr WinExample.running) = [["ipv4"; "203.0.113.9/32"; "nexthop=192.168.1.1"]])
      by (vm_compute; reflexivity).
    rewrite E. left.
Defined.

Lemma win_teardown_clean_witness :
  routes_of (ws_host (rc_teardown WinExample.running)) = [] /\ length (routes_of (ws_host WinExample.running)) = 6%nat.
Proof.
  split; [| vm_compute; reflexivity].
  apply (win_teardown_clean WinExample.running). apply WinExample.win_running_session.
Defined.

Lemma win_ipv6_proxy_family_witness :
  let s := mkWS (mkWR (V6 1) "cortado0" [] true (Some (V4 3232235777)) (NetshDns.new "cortado0") None false)
             (mkHost WinExample.reply []) [] in
  exists r, last (trace (ws_host (pin_proxy s s).2)) =
    Some (mkCmd "netsh" (add_args "ipv4" (show_net (V6 1) 128) (nexthop (V4 3232235777))), r).
Proof. cbv zeta. apply win_ipv6_proxy_family; reflexivity. Defined.
