(* ===== verification/WinOwn.v ===== *)
(** * What the Windows controller may run ([src/platform/windows/route.rs], [windows/dns.rs])

    The counterpart for [netsh] of what [MacOwn] shows for [route]. *)

From Stdlib Require Import ZArith Lia.
From Stdlib Require Import Strings.Ascii Strings.String.
From stdpp Require Import base decidable list strings gmap.
From S2P Require Import Prelude StdNet StdText Net Config NetText Logging Reload Platform Command WinRoute.
#[local] Open Scope Z_scope.

(** ** Specification *)

Section Own.
Context (nets : CidrList) (iface : string).

(** The family of the command is that of the network; the route of the proxy
    is always given as an IPv4 one. *)
Definition family_named (family : string) (net : IpAddr * Z) : Prop :=
  family = family_of net.1 \/ family = "ipv4" /\ net.2 = host_prefix net.1.

Inductive win_own : Cmd -> Prop :=
| own_query :
    win_own (mkCmd "powershell" ["-NoProfile"; "-Command"; GATEWAY_QUERY])
| own_add family net text gw :
    family_named family net -> parse_cidr text = Ok net -> net ∈ nets ->
    win_own (mkCmd "netsh" (add_args family text (nexthop gw)))
| own_delete family net text gw :
    family_named family net -> parse_cidr text = Ok net -> net ∈ nets ->
    win_own (mkCmd "netsh" (delete_args family text (nexthop gw)))
| own_tunnel_add net text :
    parse_cidr text = Ok net -> net ∈ halves ->
    win_own (mkCmd "netsh" (add_args (family_of net.1) text ("interface=" +:+ iface)))
| own_tunnel_delete net text :
    parse_cidr text = Ok net -> net ∈ halves ->
    win_own (mkCmd "netsh" (delete_args (family_of net.1) text ("interface=" +:+ iface)))
| own_dns family rest :
    win_own (mkCmd "netsh" ("interface" :: family :: "set" :: "dnsservers" :: ("name=" +:+ iface) :: rest)).

Record win_owned (t : list (Cmd * Reply)) (s : WS) : Prop := {
  wo_trace : confined win_own t (ws_host s);
  wo_dns : interface (wr_dns (ws_wr s)) = iface;
  wo_tun : wr_interface (ws_wr s) = iface;
  wo_proxy : (proxy_ip (ws_wr s), host_prefix (proxy_ip (ws_wr s))) ∈ nets;
  wo_bypass : bypass (ws_wr s) ⊆ nets;
}.

(** ** Lemmas *)

Context (Hwf : Forall net_wf nets) (t : list (Cmd * Reply)).
#[local] Abbreviation own := (win_owned t).

Lemma named_net d p : (d, p) ∈ nets -> parse_cidr (show_net d p) = Ok (d, p).
Proof. intros Hn. apply parse_show_net. rewrite Forall_forall in Hwf. by apply Hwf. Qed.

Lemma named_family d p : family_named (family_of d) (d, p).
Proof. by left. Qed.

Lemma named_host d : family_named "ipv4" (d, host_prefix d).
Proof. by right. Qed.

(** The two halves as the program writes them. *)
Lemma named_v4 x : x ∈ V4_SPLIT -> exists net, parse_cidr (split_net x) = Ok net /\ net ∈ halves /\ family_of net.1 = "ipv4".
Proof.
  unfold V4_SPLIT. rewrite !elem_of_cons, elem_of_nil. intros [-> | [-> | []]].
  - exists (V4 0, 1). split; [vm_compute; reflexivity | split; [by repeat constructor | done]].
  - exists (V4 (2 ^ 31), 1). split; [vm_compute; reflexivity | split; [by repeat constructor | done]].
Qed.

Lemma named_v6 x : x ∈ V6_SPLIT -> exists net, parse_cidr x = Ok net /\ net ∈ halves /\ family_of net.1 = "ipv6".
Proof.
  unfold V6_SPLIT. rewrite !elem_of_cons, elem_of_nil. intros [-> | [-> | []]].
  - exists (V6 0, 1). split; [vm_compute; reflexivity | split; [by repeat constructor | done]].
  - exists (V6 (2 ^ 127), 1). split; [vm_compute; reflexivity | split; [by repeat constructor | done]].
Qed.

Lemma own_v4 x :
  x ∈ V4_SPLIT -> win_own (mkCmd "netsh" (add_args "ipv4" (split_net x) ("interface=" +:+ iface))) /\
  win_own (mkCmd "netsh" (delete_args "ipv4" (split_net x) ("interface=" +:+ iface))).
Proof.
  intros (net & Hp & Hn & <-)%named_v4. split; [by apply own_tunnel_add | by apply own_tunnel_delete].
Qed.

Lemma own_v6 x :
  x ∈ V6_SPLIT -> win_own (mkCmd "netsh" (add_args "ipv6" x ("interface=" +:+ iface))) /\
  win_own (mkCmd "netsh" (delete_args "ipv6" x ("interface=" +:+ iface))).
Proof.
  intros (net & Hp & Hn & <-)%named_v6. split; [by apply own_tunnel_add | by apply own_tunnel_delete].
Qed.

Lemma win_owned_host c s : win_own c -> own s -> own (set_ws_host (spawn c (ws_host s)).2 s).
Proof. intros Hc []. constructor; try done. by apply confined_spawn. Qed.

Lemma win_owned_netsh l : win_own (mkCmd "netsh" l) -> preserves own (netsh l).
Proof. intros Hc s Hs. unfold netsh, run_netsh. by apply (win_owned_host _ s Hc). Qed.

Lemma win_owned_quiet l s : win_own (mkCmd "netsh" l) -> own s -> own (netsh_quiet l s).
Proof. intros Hc. by apply win_owned_host. Qed.

Lemma win_owned_log f s : own s -> own (mkWS (ws_wr s) (ws_host s) (f (ws_log s))).
Proof. by intros []. Qed.

Lemma win_owned_bypass suffix net s : net ∈ nets -> own s -> own (add_bypass suffix s net).
Proof.
  intros Hn Hs. unfold add_bypass. destruct net as [d p]. case_match; [| done]. apply win_owned_log, win_owned_quiet; [| done].
  eapply own_add; [apply (named_family d p) | by apply named_net | done].
Qed.

Lemma win_owned_unbypass net s : net ∈ nets -> own s -> own (delete_bypass s net).
Proof.
  intros Hn Hs. unfold delete_bypass. destruct net as [d p]. case_match; [| done]. apply win_owned_quiet; [| done].
  eapply own_delete; [apply (named_family d p) | by apply named_net | done].
Qed.

Lemma own_host_add d gw : (d, host_prefix d) ∈ nets ->
  win_own (mkCmd "netsh" (add_args "ipv4" (show_net d (host_prefix d)) (nexthop gw))).
Proof. intros Hn. eapply own_add; [apply (named_host d) | by apply named_net | done]. Qed.

Lemma own_host_delete d gw : (d, host_prefix d) ∈ nets ->
  win_own (mkCmd "netsh" (delete_args "ipv4" (show_net d (host_prefix d)) (nexthop gw))).
Proof. intros Hn. eapply own_delete; [apply (named_host d) | by apply named_net | done]. Qed.

(** *** The DNS override *)

Definition nt_owned (d : NetshState) : Prop := confined win_own t (nt_host d) /\ interface (nt_dns d) = iface.

Lemma nt_owned_static dns : preserves nt_owned (set_static iface dns).
Proof. intros d [Hd Hs]. unfold set_static, run_netsh. cbn. split; [| done]. apply confined_spawn; [apply own_dns | done]. Qed.

Lemma nt_owned_dhcp family d : nt_owned d -> nt_owned (set_dhcp iface family d).
Proof. intros [Hd Hs]. unfold set_dhcp. cbn. split; [| done]. apply confined_spawn; [apply own_dns | done]. Qed.

Lemma nt_owned_reset d : nt_owned d -> nt_owned (NetshDns.reset d).
Proof. intros Hd. unfold NetshDns.reset. rewrite (proj2 Hd). by apply nt_owned_dhcp, nt_owned_dhcp. Qed.

Lemma nt_owned_apply server : preserves nt_owned (dns_apply server).
Proof.
  cbn [dns_apply NetshDns_configurator]. unfold NetshDns.apply. destruct server as [dns |]; [| apply preserves_ret].
  intros d Hd. cbv zeta. rewrite (proj2 Hd). revert d Hd. apply preserves_bind; [apply nt_owned_static |]. intros [].
  apply preserves_bind; [by apply preserves_do |]. intros []. apply preserves_bind; [by apply preserves_do |].
  intros []. by apply preserves_do.
Qed.

Lemma nt_owned_reload server : preserves nt_owned (dns_reload server).
Proof.
  intros d Hd. cbn [dns_reload NetshDns_configurator]. unfold NetshDns.reload.
  destruct (decide (server = current (nt_dns d))) as [| _]; [done |]. cbv zeta. rewrite (proj2 Hd). revert d Hd.
  apply preserves_bind; [| intros []; by apply preserves_do]. destruct server as [dns |].
  - apply preserves_bind; [apply nt_owned_static |]. intros []. apply preserves_bind; [by apply preserves_do |].
    intros []. by apply preserves_do.
  - apply preserves_bind; [apply preserves_do, nt_owned_reset |]. intros []. apply preserves_bind; [by apply preserves_do |].
    intros []. by apply preserves_do.
Qed.

Lemma nt_owned_restore d : nt_owned d -> nt_owned (dns_restore d).
Proof.
  intros Hd. cbn [dns_restore NetshDns_configurator]. unfold NetshDns.restore. case_match; [done |].
  by apply nt_owned_reset in Hd.
Qed.

Lemma win_owned_view s : own s -> nt_owned (dns_view s).
Proof. by intros []. Qed.

Lemma win_owned_put s d : own s -> nt_owned d -> own (dns_put d s).
Proof. intros [] []. by constructor. Qed.

Lemma win_owned_on_dns (m : SE NetshState unit) : preserves nt_owned m -> preserves own (on_dns m).
Proof.
  intros Hm s Hs. unfold on_dns. specialize (Hm _ (win_owned_view s Hs)). destruct (m (dns_view s)) as [r d].
  by apply win_owned_put.
Qed.

(** *** The calls *)

Lemma win_owned_find s : own s -> own (find_gateway s).
Proof.
  intros Hs. unfold find_gateway, default_gateway. pose proof (win_owned_host _ s own_query Hs) as H.
  destruct (spawn _ (ws_host s)) as [r h]. by destruct H.
Qed.

Lemma win_owned_pin s : own s -> preserves own (pin_proxy s).
Proof.
  intros Hs. unfold pin_proxy. cbv zeta. destruct (gateway (ws_wr s)) as [gw |].
  - apply preserves_bind; [apply preserves_context, win_owned_netsh, own_host_add, Hs |]. intros [].
    apply preserves_do. intros s'. apply win_owned_log.
  - apply preserves_do. intros s'. apply win_owned_log.
Qed.

Lemma win_owned_split4 : preserves own add_split_v4.
Proof.
  apply preserves_for. intros x Hx s Hs. unfold tun_target. rewrite (wo_tun _ _ Hs).
  apply win_owned_netsh; [| done]. by apply own_v4.
Qed.

Lemma win_owned_apply : preserves own apply.
Proof.
  unfold apply. apply preserves_bind; [apply preserves_do, win_owned_find |]. intros [] s Hs.
  pose proof (wo_bypass _ _ Hs) as Hb. pose proof (win_owned_pin s Hs) as Hpin. cbv zeta.
  set (m := pin_proxy s) in *. set (w := ws_wr s) in *. clearbody m w. revert s Hs.
  apply preserves_bind; [exact Hpin |]. intros [].
  apply preserves_bind; [apply preserves_do; intros s; apply fold_keep; intros x s' Hx; by apply win_owned_bypass, Hb |].
  intros []. apply preserves_bind; [apply win_owned_split4 |]. intros [].
  apply preserves_bind; [apply preserves_do; intros s; apply win_owned_log |]. intros [].
  apply preserves_bind.
  { case_match; [| apply preserves_ret]. apply preserves_bind; [| intros []; apply preserves_do; intros s; apply win_owned_log].
    apply preserves_do. intros s. apply fold_keep. intros x s' Hx Hs'. unfold tun_target. rewrite (wo_tun _ _ Hs').
    apply win_owned_quiet; [by apply own_v6 | done]. }
  intros []. apply preserves_bind; [apply win_owned_on_dns, nt_owned_apply |]. intros [].
  apply preserves_do. by intros s [].
Qed.

Lemma win_owned_move change :
  (forall o n, change = Some (o, n) -> (o, host_prefix o) ∈ nets /\ (n, host_prefix n) ∈ nets) ->
  preserves own (move_proxy_route change).
Proof.
  intros Hc s Hs. unfold move_proxy_route. destruct change as [[o n] |]; [| done].
  destruct (Hc o n eq_refl) as [Ho Hn]. set (g := gateway (ws_wr s)). clearbody g. revert s Hs. apply preserves_bind.
  - destruct g as [gw |]; [| apply preserves_ret]. apply preserves_bind; [| intros []; by apply win_owned_netsh, own_host_add].
    apply preserves_do. intros s. by apply win_owned_quiet, own_host_delete.
  - intros []. apply preserves_bind; [| intros []; apply preserves_do; intros s; apply win_owned_log].
    apply preserves_do. intros s []. by constructor.
Qed.

Lemma win_owned_reload plan : plan_within host_prefix nets plan -> preserves own (reload plan).
Proof.
  intros (Hc & Hr & Ha & Hn) s Hs. unfold reload. destruct (negb (applied (ws_wr s))); [done |]. revert s Hs.
  apply preserves_bind; [by apply win_owned_move |]. intros [].
  apply preserves_bind; [apply preserves_do; intros s; apply fold_keep; intros x s' Hx; by apply win_owned_unbypass, Hr |].
  intros []. apply preserves_bind.
  { apply preserves_do. intros s. apply fold_keep. intros x s' Hx. by apply win_owned_bypass, Ha. }
  intros []. apply preserves_bind; [apply preserves_do; intros s []; by constructor |]. intros [].
  case_match; [| apply preserves_ret]. apply preserves_bind; [apply win_owned_on_dns, nt_owned_reload |].
  intros []. apply preserves_do. by intros s [].
Qed.

Lemma win_owned_teardown s : own s -> own (teardown s).
Proof.
  intros Hs. unfold teardown. destruct (negb (applied (ws_wr s))); [done |]. cbv zeta.
  set (s0 := set_wr (with_applied false) s). assert (H0 : own s0) by by destruct Hs. clearbody s0.
  set (s1 := match gateway (ws_wr s0) with Some _ => _ | None => s0 end). assert (H1 : own s1).
  { subst s1. case_match; [| done]. apply fold_keep.
    - intros x s' Hx. by apply win_owned_unbypass, (wo_bypass _ _ H0).
    - apply win_owned_quiet; [| done]. apply own_host_delete, H0. }
  clearbody s1. set (s2 := fold_left _ V4_SPLIT s1). assert (H2 : own s2).
  { apply fold_keep; [| done]. intros x s' Hx Hs'. unfold tun_target. rewrite (wo_tun _ _ Hs').
    apply win_owned_quiet; [by apply own_v4 | done]. }
  clearbody s2. set (s3 := if capture_ipv6 (ws_wr s0) then _ else s2). assert (H3 : own s3).
  { subst s3. case_match; [| done]. apply fold_keep; [| done]. intros x s' Hx Hs'. unfold tun_target. rewrite (wo_tun _ _ Hs').
    apply win_owned_quiet; [by apply own_v6 | done]. }
  clearbody s3. apply win_owned_put; [by destruct H3 |]. apply nt_owned_restore, win_owned_view. by destruct H3.
Qed.

Lemma win_owned_call c s : call_within host_prefix nets c -> own s -> own (rc_call c s).
Proof.
  destruct c as [| plan |]; intros Hc Hs; cbn.
  - by apply win_owned_apply.
  - by apply win_owned_reload.
  - by apply win_owned_teardown.
Qed.
End Own.

(** ** Properties *)

(** C17. The controller touches nothing that is not the program's, on Windows:
    through any sequence of applies, reloads and teardowns, whatever [netsh]
    and [powershell] answer and wherever a call fails, every command it runs
    is a query, or adds or deletes a route whose text names one of the
    networks of the proxy and the configurations through the gateway or a
    half of an address space through the program's adapter, or sets the DNS
    servers of that adapter. *)
Theorem win_commands_own (nets : CidrList) (cs : list Call) (s : WS) :
  Forall net_wf nets -> (proxy_ip (ws_wr s), host_prefix (proxy_ip (ws_wr s))) ∈ nets -> bypass (ws_wr s) ⊆ nets ->
  interface (wr_dns (ws_wr s)) = wr_interface (ws_wr s) -> Forall (call_within host_prefix nets) cs ->
  confined (win_own nets (wr_interface (ws_wr s))) (trace (ws_host s)) (ws_host (rc_calls cs s)).
Proof.
  intros Hwf Hp Hb Hi Hcs. eapply wo_trace, calls_keep.
  - intros c s' Hc. apply win_owned_call; [done |]. rewrite Forall_forall in Hcs. by apply Hcs.
  - constructor; try done. apply confined_refl.
Qed.

(** ** Witness *)

Module WinOwnExample.
Definition nets : CidrList := [(V4 3405803785, 32); (V4 167772160, 8); (V4 2886729728, 12)].

(** From 10.0.0.0/8 to 172.16.0.0/12. *)
Definition plan : ReloadPlan :=
  mkPlan (mkProxyConfig (SocketAddr_new (V4 3405803785) 1080) None None DEFAULT_CONNECT_TIMEOUT true)
    RouteTable.empty [(V4 2886729728, 12)] [(V4 2886729728, 12)] [(V4 167772160, 8)] None false None false.

Definition run : list Call := [Apply; Reload plan; Teardown].

Lemma win_plan_within : plan_within host_prefix nets plan.
Proof.
  split_and!; [done | ..]; intros x; cbn; rewrite ?elem_of_cons, ?elem_of_nil; unfold nets; rewrite !elem_of_cons; tauto.
Qed.
End WinOwnExample.

Lemma win_commands_own_witness :
  confined (win_own WinOwnExample.nets "cortado0") [] (ws_host (rc_calls WinOwnExample.run WinExample.start)) /\
  length (trace (ws_host (rc_calls WinOwnExample.run WinExample.start))) = 18%nat.
Proof.
  split; [| vm_compute; reflexivity].
  apply (win_commands_own WinOwnExample.nets WinOwnExample.run WinExample.start).
  - refine (proj1 (bool_decide_eq_true _) _). vm_compute. reflexivity.
  - left.
  - intros x. cbn. rewrite elem_of_cons, elem_of_nil. intros [-> | []]. right. left.
  - reflexivity.
  - by repeat (apply Forall_cons; split; [try done; try exact WinOwnExample.win_plan_within |]).
Defined.
