(* ===== verification/WinRetry.v ===== *)
(** * Trying a reload again on Windows ([src/platform/windows/route.rs])

    As on macOS: a reload can stop when [netsh] refuses the host route of the
    new proxy or the DNS server; the next attempt with the same plan that
    ends well knows every route there is. *)

From Stdlib Require Import ZArith Lia.
From Stdlib Require Import Strings.Ascii Strings.String.
From stdpp Require Import base decidable list strings gmap.
From S2P Require Import Prelude StdNet StdText Net Config NetText Logging Reload Platform Command WinRoute.
#[local] Open Scope Z_scope.

(** ** Specification *)

(** No route and no static DNS server of the program is left. *)
Definition win_left_clean (s : WS) : Prop :=
  routes_of (ws_host s) = [] /\ statics_of (ws_host s) = [] /\ applied (ws_wr s) = false.

(** The fields that say where routes go. *)
Definition same_host (w w' : WindowsRoutes) : Prop :=
  wr_interface w' = wr_interface w /\ capture_ipv6 w' = capture_ipv6 w /\ applied w' = applied w /\ gateway w' = gateway w.

Lemma win_same_gw w w' l : same_host w w' -> gw_routes w' l = gw_routes w l.
Proof. intros (_ & _ & _ & H). unfold gw_routes. by rewrite H. Qed.

Lemma win_same_proxy w w' : same_host w w' -> proxy_ip w' = proxy_ip w -> proxy_routes w' = proxy_routes w.
Proof. intros (_ & _ & _ & H) Hp. unfold proxy_routes. by rewrite H, Hp. Qed.

Lemma win_same_splits w w' : same_host w w' -> v4_splits w' = v4_splits w /\ v6_splits w' = v6_splits w.
Proof. intros (Hi & Hc & _). unfold v4_splits, v6_splits, tun_target. by rewrite Hi, Hc. Qed.

(** ** Between the attempts *)

Section Retry.
Context (w0 : WindowsRoutes) (plan : ReloadPlan).
Context (Hfit : plan_fits (proxy_ip w0) (bypass w0) plan).

Definition allowed (x : Route) : Prop :=
  x ∈ proxy_routes w0 \/ x ∈ proxy_routes (planned plan w0) \/ x ∈ gw_routes w0 (bypass w0 ++ rp_bypass_add plan) \/
  x ∈ v4_splits w0 \/ x ∈ v6_splits w0.

Record halfway (s : WS) : Prop := {
  hw_host : same_host w0 (ws_wr s);
  hw_proxy : rp_proxy_route_change plan = None -> proxy_ip (ws_wr s) = proxy_ip w0;
  hw_routes : forall x, x ∈ routes_of (ws_host s) -> allowed x;
  hw_dns : nt_inv (dns_view s);
}.

Lemma win_halfway_same s s' :
  halfway s -> ws_wr s' = ws_wr s -> statics_of (ws_host s') = statics_of (ws_host s) ->
  (forall x, x ∈ routes_of (ws_host s') -> allowed x) -> halfway s'.
Proof.
  intros [H1 H2 H3 H4] Hw Hs Hl. constructor; [by rewrite Hw .. | done |].
  intros x Hx. unfold dns_view. rewrite Hw. apply H4. cbn in *. by rewrite <- Hs.
Qed.

Lemma win_halfway_grows (P : Route -> Prop) s s' : (forall x, P x -> allowed x) -> grows P s s' -> halfway s -> halfway s'.
Proof.
  intros HP (Hw & Hs & Hg & _) Hh. apply (win_halfway_same s); [done .. |]. intros x [Hx | Hx]%Hg; [by apply HP | by apply Hh].
Qed.

Lemma win_halfway_shrinks (P : Route -> Prop) s s' : shrinks P s s' -> halfway s -> halfway s'.
Proof. intros (Hw & Hs & Hg) Hh. apply (win_halfway_same s); [done .. |]. intros x [_ Hx]%Hg. by apply Hh. Qed.

Lemma win_halfway_log f s : halfway s -> halfway (mkWS (ws_wr s) (ws_host s) (f (ws_log s))).
Proof. intros Hs. by apply (win_halfway_same s); [| | | apply Hs]. Qed.

Lemma win_halfway_set f s :
  same_host (ws_wr s) (f (ws_wr s)) -> wr_dns (f (ws_wr s)) = wr_dns (ws_wr s) ->
  (rp_proxy_route_change plan = None -> proxy_ip (f (ws_wr s)) = proxy_ip (ws_wr s)) ->
  halfway s -> halfway (set_wr f s).
Proof.
  intros (T & C & A & G) Hd Hp [(T' & C' & A' & G') H2 H3 H4].
  constructor; [split_and!; cbn; congruence | | done |].
  - intros E. cbn. by rewrite (Hp E), (H2 E).
  - unfold dns_view, set_wr. cbn. rewrite Hd. exact H4.
Qed.

(** The host route of the new proxy, added or refused. *)
Lemma win_halfway_pin o n gw s :
  rp_proxy_route_change plan = Some (o, n) -> gateway (ws_wr s) = Some gw -> halfway s ->
  halfway (netsh (add_args "ipv4" (show_net n (host_prefix n)) (nexthop gw)) s).2.
Proof.
  intros E Hg Hs. unfold netsh, run_netsh. destruct (spawn _ (ws_host s)) as [r h] eqn:Es.
  apply add_spawn in Es as [Hgr _].
  assert (H : halfway (set_ws_host h s)).
  { refine (win_halfway_grows _ _ _ _ Hgr Hs). intros x ->. right. left. unfold proxy_routes, planned. rewrite E. cbn.
    destruct (hw_host _ Hs) as (_ & _ & _ & Hgw). rewrite <- Hgw, Hg. by left. }
  by destruct r.
Qed.

Lemma win_halfway_move : preserves halfway (move_proxy_route (rp_proxy_route_change plan)).
Proof.
  intros s Hs. unfold move_proxy_route. destruct (rp_proxy_route_change plan) as [[o n] |] eqn:E; [| done].
  assert (Hrest : preserves halfway (do! se_do (set_wr (with_proxy_ip n)) in se_do (ws_info ("proxy host route moved to " +:+ show_ip n)))).
  { apply preserves_bind; [apply preserves_do; intros s1; apply win_halfway_set; [done .. | by rewrite E] |]. intros [].
    apply preserves_do. intros s1. apply (win_halfway_log (Logger.info _)). }
  destruct (gateway (ws_wr s)) as [gw |] eqn:Hg; [| by apply Hrest].
  set (s1 := netsh_quiet (delete_args "ipv4" (show_net o (host_prefix o)) (nexthop gw)) s).
  pose proof (netsh_quiet_delete "ipv4" (show_net o (host_prefix o)) (nexthop gw) s) as D. fold s1 in D.
  assert (H1 : halfway s1) by (by eapply win_halfway_shrinks). assert (Hg1 : gateway (ws_wr s1) = Some gw) by (by rewrite (proj1 D)).
  pose proof (win_halfway_pin o n gw s1 E Hg1 H1) as H2. unfold se_bind at 1. unfold se_bind at 1, se_do at 1. fold s1.
  destruct (netsh (add_args _ _ _) s1) as [[[] | e] s2]; [by apply Hrest | done].
Qed.

Lemma win_halfway_dns : preserves halfway (on_dns (dns_reload (rp_dns plan))).
Proof.
  intros s [H1 H2 H3 H4]. unfold on_dns. destruct (reload_nt (rp_dns plan) _ H4) as [Hi Hr].
  destruct (dns_reload _ _) as [r d]. cbn [snd] in *. constructor; [done .. | |]; cbn [dns_put ws_host]; [by rewrite Hr | done].
Qed.

Lemma win_halfway_reload : preserves halfway (reload plan).
Proof.
  intros s Hs. unfold reload. destruct (negb (applied (ws_wr s))); [done |]. revert s Hs.
  apply preserves_bind; [apply win_halfway_move |]. intros [].
  apply preserves_bind; [apply preserves_do; intros s; by eapply win_halfway_shrinks, delete_bypasses |]. intros [].
  apply preserves_bind.
  { apply preserves_do. intros s Hs. refine (win_halfway_grows _ _ _ _ (add_bypasses _ _ s) Hs). intros x Hx.
    rewrite (win_same_gw w0) in Hx by apply Hs. right. right. left. apply gw_routes_elem in Hx as (net & Hin & Hx).
    apply gw_routes_elem. exists net. split; [| done]. apply elem_of_app. by right. }
  intros []. apply preserves_bind; [apply preserves_do; intros s; by apply win_halfway_set |]. intros [].
  case_match; [| apply preserves_ret]. apply preserves_bind; [apply win_halfway_dns |].
  intros []. apply preserves_do. intros s. by apply win_halfway_set.
Qed.

Lemma win_halfway_attempts s s' : attempts plan s s' -> halfway s -> halfway s'.
Proof. apply attempts_keep. exact win_halfway_reload. Qed.

(** Once an attempt ends well, what is left is the new configuration's. *)
Lemma win_halfway_left x :
  allowed x -> x ∉ gw_routes w0 (rp_bypass_remove plan) ->
  (forall o n, rp_proxy_route_change plan = Some (o, n) -> x ∉ proxy_routes (with_proxy_ip o w0)) ->
  x ∈ proxy_routes (planned plan w0) \/ x ∈ gw_routes w0 (rp_new_bypass plan) \/ x ∈ v4_splits w0 \/ x ∈ v6_splits w0.
Proof.
  destruct Hfit as (Hpc & Hnew & _ & Hadd). intros [Hx | [Hx | [Hx | Hx]]] Hn Ho; [| by left | | auto].
  - left. unfold planned. destruct (rp_proxy_route_change plan) as [[o n] |]; [| done].
    destruct (Ho o n eq_refl). by rewrite (Hpc o n eq_refl).
  - right. left. apply gw_routes_elem in Hx as (net & [Hin | Hin]%elem_of_app & Hx); apply gw_routes_elem.
    + destruct (Hnew net Hin) as [Hk | Hk]; [eauto |]. destruct Hn. apply gw_routes_elem. eauto.
    + eauto.
Qed.

Lemma win_halfway_success s s' :
  halfway s -> applied w0 = true -> reload plan s = (Ok tt, s') ->
  applied (ws_wr s') = true /\ covered s' /\ nt_inv (dns_view s') /\
  proxy_ip (ws_wr s') = proxy_ip (planned plan w0) /\ bypass (ws_wr s') = rp_new_bypass plan.
Proof.
  intros [H1 H2 H3 H4] Ha H. assert (Has : applied (ws_wr s) = true) by (by destruct H1 as (_ & _ & -> & _)).
  apply win_reload_stages in H as ((d & srv & Hw) & H); [| done]. destruct (H H4) as [Hi Hl].
  assert (Hp : proxy_ip (planned plan (ws_wr s)) = proxy_ip (planned plan w0)).
  { unfold planned. cbn. destruct (rp_proxy_route_change plan) as [[] |]; [done | by apply H2]. }
  split_and!; [by rewrite Hw | | done | by rewrite Hw | by rewrite Hw].
  intros x Hx. rewrite Hw, win_elem_of_removal. change (gw_routes (with_dns_server _ _)) with (gw_routes (ws_wr s)).
  change (v4_splits _) with (v4_splits (ws_wr s)). change (v6_splits _) with (v6_splits (ws_wr s)).
  change (bypass _) with (rp_new_bypass plan). change (proxy_routes _) with (proxy_routes (planned plan (ws_wr s))).
  destruct (win_same_splits w0 (ws_wr s) H1) as [-> ->]. rewrite (win_same_gw w0 (ws_wr s)) by done.
  assert (Hps : proxy_routes (planned plan (ws_wr s)) = proxy_routes (planned plan w0))
    by (unfold proxy_routes; rewrite Hp; by destruct H1 as (_ & _ & _ & G); cbn; rewrite G).
  assert (Hpr : forall i, proxy_routes (with_proxy_ip i (ws_wr s)) = proxy_routes (with_proxy_ip i w0))
    by (intros i; unfold proxy_routes; cbn; by destruct H1 as (_ & _ & _ & ->)).
  rewrite Hps. apply Hl in Hx. unfold remains in Hx. rewrite !(win_same_gw w0 (ws_wr s)) in Hx by done.
  destruct Hx as [Hx | [Hn Hx]].
  - right. left. apply gw_routes_elem in Hx as (net & Hin & Hx). apply gw_routes_elem.
    exists net. split; [by apply Hfit | done].
  - destruct (rp_proxy_route_change plan) as [[o n] |] eqn:E.
    + rewrite !Hpr in Hx. destruct Hx as [Hx | [Ho Hx]].
      * left. unfold planned. rewrite E. exact Hx.
      * apply win_halfway_left; [by apply H3 | done |]. intros o' n' E'. by simplify_eq.
    + apply win_halfway_left; [by apply H3 | done |]. intros o' n' E'. congruence.
Qed.
End Retry.

(** ** Properties *)

(** A failed reload can be tried again on Windows: after any number of
    attempts that stopped anywhere, whatever [netsh] answered, an attempt
    with the same plan that ends well leaves a manager with the new proxy and
    the new bypass networks that knows every route of the program, so that
    the teardown after it asks for each to be deleted and for every static
    DNS server to be reset. *)
Theorem win_reload_retry (plan : ReloadPlan) (s s1 s2 : WS) :
  session s -> plan_fits (proxy_ip (ws_wr s)) (bypass (ws_wr s)) plan ->
  attempts plan s s1 -> rc_reload plan s1 = (Ok tt, s2) ->
  proxy_ip (ws_wr s2) = proxy_ip (planned plan (ws_wr s)) /\ bypass (ws_wr s2) = rp_new_bypass plan /\
  win_left_clean (rc_teardown s2).
Proof.
  intros (Ha & Hc & Hi)%win_session_inv Hfit Hat Hok.
  assert (Hh : halfway (ws_wr s) plan s).
  { constructor; [done .. | | done]. intros x Hx. apply Hc, win_elem_of_removal in Hx as [Hx | [Hx | Hx]]; [by left | | unfold allowed; tauto].
    right. right. left. apply gw_routes_elem in Hx as (net & Hin & Hx). apply gw_routes_elem. exists net.
    split; [| done]. apply elem_of_app. by left. }
  apply (win_halfway_attempts (ws_wr s) plan s s1 Hat) in Hh.
  apply (win_halfway_success (ws_wr s) plan Hfit s1 s2 Hh Ha) in Hok as (H1 & H2 & H3 & H4 & H5).
  split_and!; [done .. |]. by apply win_covered_teardown.
Qed.

(** ** Witness *)

Module WinRetryExample.
(** The proxy moves to 203.0.113.10, which the host refuses the first time,
    and 172.16.0.0/12 is added. *)
Definition plan : ReloadPlan :=
  mkPlan (mkProxyConfig (SocketAddr_new (V4 3405803786) 1080) None None DEFAULT_CONNECT_TIMEOUT true)
    RouteTable.empty [(V4 167772160, 8); (V4 2886729728, 12)] [(V4 2886729728, 12)] [] None false
    (Some (V4 3405803785, V4 3405803786)) true.

Definition about (c : Cmd) : bool := bool_decide ("203.0.113.10/32" ∈ args c).
Definition reply (t : list (Cmd * Reply)) (c : Cmd) : Reply :=
  if about c && negb (existsb (fun e => about e.1) t) then Ok (mkOutput (mkExit false "exit code: 1") "")
  else WinExample.reply t c.

Definition start : WS := mkWS (ws_wr WinExample.start) (mkHost reply []) [].
Definition s : WS := (rc_apply start).2.
Definition s1 : WS := (rc_reload plan s).2.
Definition s2 : WS := (rc_reload plan s1).2.

Lemma win_first_fails : exists e, (rc_reload plan s).1 = Err e.
Proof. eexists. vm_compute. reflexivity. Qed.

Lemma win_second_succeeds : (rc_reload plan s1).1 = Ok tt.
Proof. vm_compute. reflexivity. Qed.

Lemma win_applies : (rc_apply start).1 = Ok tt.
Proof. vm_compute. reflexivity. Qed.

Lemma win_fields : proxy_ip (ws_wr s) = V4 3405803785 /\ bypass (ws_wr s) = [(V4 167772160, 8)].
Proof. split; vm_compute; reflexivity. Qed.

Lemma win_plan_fits : plan_fits (proxy_ip (ws_wr s)) (bypass (ws_wr s)) plan.
Proof.
  destruct win_fields as [-> ->]. split_and!; cbn.
  - by intros o n [= <- <-].
  - intros x. rewrite !elem_of_cons. tauto.
  - intros x. by rewrite elem_of_nil.
  - intros x. rewrite !elem_of_cons. tauto.
Qed.
End WinRetryExample.

Lemma win_reload_retry_witness :
  length (routes_of (ws_host WinRetryExample.s1)) = 5%nat /\
  bypass (ws_wr WinRetryExample.s2) = rp_new_bypass WinRetryExample.plan /\
  win_left_clean (rc_teardown WinRetryExample.s2).
Proof.
  split; [vm_compute; reflexivity |]. destruct WinRetryExample.win_first_fails as [e He].
  refine (proj2 (win_reload_retry WinRetryExample.plan WinRetryExample.s WinRetryExample.s1
    WinRetryExample.s2 _ WinRetryExample.win_plan_fits _ _)).
  - apply (session_apply WinRetryExample.start); [reflexivity .. |].
    rewrite (surjective_pairing (rc_apply _)), WinRetryExample.win_applies. reflexivity.
  - eapply attempts_fail; [| apply attempts_none].
    rewrite (surjective_pairing (rc_reload _ _)), He. reflexivity.
  - rewrite (surjective_pairing (rc_reload _ _)), WinRetryExample.win_second_succeeds. reflexivity.
Defined.
