(* ===== verification/WinTun.v ===== *)
(** * The Windows tunnel device ([src/platform/windows/tun.rs])

    Two threads move packets between the Wintun session and the program's
    channels; a read that is offered less room than the next packet keeps
    the rest of it for the reads after. *)

From Stdlib Require Import ZArith Lia.
From Stdlib Require Import Strings.Byte Strings.Ascii Strings.String.
From stdpp Require Import base decidable list strings.
From S2P Require Import Prelude StdNet StdText Config Platform Device Command WinRoute.
#[local] Open Scope Z_scope.

(** ** Definitions *)

Definition RING_CAPACITY : Z := 4194304.
Definition CHANNEL_DEPTH : nat := 4096.

(** The receiving half of [incoming]: what is queued, and whether the sender
    is gone. The unbounded [outgoing] is what was sent on it, or closed. *)
Record Incoming : Type := mkIncoming { queue : list (list byte); closed : bool }.

Record WindowsTun : Type := mkWindowsTun {
  name : string;
  mtu : Z;
  incoming : Incoming;
  outgoing : option (list (list byte));
  pending : option (list byte * nat);
}.

Definition with_incoming (i : Incoming) (t : WindowsTun) : WindowsTun :=
  mkWindowsTun (name t) (mtu t) i (outgoing t) (pending t).
Definition with_outgoing (o : option (list (list byte))) (t : WindowsTun) : WindowsTun :=
  mkWindowsTun (name t) (mtu t) (incoming t) o (pending t).
Definition with_pending (p : option (list byte * nat)) (t : WindowsTun) : WindowsTun :=
  mkWindowsTun (name t) (mtu t) (incoming t) (outgoing t) p.

(** [mpsc::Receiver::poll_recv] *)
Definition poll_recv (i : Incoming) : Poll (option (list byte)) * Incoming :=
  match queue i with
  | pkt :: l => (Ready (Some pkt), mkIncoming l (closed i))
  | [] => if closed i then (Ready None, i) else (Pending, i)
  end.

(** The bytes put into a buffer with room for [remaining]; [None] is the
    panic of [&pkt[offset..]]. *)
Definition poll_read (remaining : nat) (t : WindowsTun) : option (Poll (list byte) * WindowsTun) :=
  match pending t with
  | Some (pkt, offset) =>
      match slice_from offset pkt with
      | None => None
      | Some rest =>
          let t := with_pending None t in
          let take_ := (length rest `min` remaining)%nat in
          Some (Ready (take take_ rest),
                if decide (offset + take_ < length pkt)%nat then with_pending (Some (pkt, (offset + take_)%nat)) t else t)
      end
  | None =>
      match poll_recv (incoming t) with
      | (Ready (Some pkt), i) =>
          let t := with_incoming i t in
          let take_ := (length pkt `min` remaining)%nat in
          Some (Ready (take take_ pkt), if decide (take_ < length pkt)%nat then with_pending (Some (pkt, take_)) t else t)
      | (Ready None, i) => Some (Ready [], with_incoming i t)
      | (Pending, i) => Some (Pending, with_incoming i t)
      end
  end.

Definition poll_write (buf : list byte) (t : WindowsTun) : Result string nat * WindowsTun :=
  match outgoing t with
  | Some l => (Ok (length buf), with_outgoing (Some (l ++ [buf])) t)
  | None => (Err "wintun writer closed", t)
  end.

(** The thread that reads the session: each received packet is queued, until
    the session ends or the receiver is gone; [sends] tells for each packet
    whether the channel took it. *)
Fixpoint reader_thread (received : list (list byte)) (sends : list bool) : list (list byte) :=
  match received, sends with
  | p :: received, true :: sends => p :: reader_thread received sends
  | _, _ => []
  end.

(** The thread that writes to the session; [allocated] is the outcome of
    each [allocate_send_packet] it makes. *)
Fixpoint writer_thread (bufs : list (list byte)) (allocated : list bool) : list (list byte) :=
  match bufs with
  | [] => []
  | buf :: bufs =>
      let len := Z.of_nat (length buf) in
      if (len =? 0) || (umax 16 <? len) then writer_thread bufs allocated
      else match allocated with
           | [] => []
           | true :: allocated => buf :: writer_thread bufs allocated
           | false :: allocated => writer_thread bufs allocated
           end
  end.

(** [set address] and [set subinterface]. *)
Definition configure_interface (name : string) (cfg : Config) (mtu : Z) : SE Host unit :=
  do! run_netsh "failed to run netsh to set address" "netsh set address"
        ["interface"; "ipv4"; "set"; "address"; "name=" +:+ name; "static"; tun_ip cfg; "255.255.255.0"] in
  run_netsh "failed to run netsh to set mtu" "netsh set mtu"
    ["interface"; "ipv4"; "set"; "subinterface"; name; "mtu=" +:+ show_dec mtu; "store=active"].

(** [loaded], [created] and [started] are the outcomes of the calls into the
    Wintun library. *)
Definition create_tun (cfg : Config) (mtu : Z) (loaded created started : result unit) : SE Host WindowsTun :=
  do! (fun h => (context "failed to load wintun.dll" loaded, h)) in
  let name := tun_name cfg in
  do! (fun h => (context "failed to create wintun adapter" created, h)) in
  do! (fun h => (context "failed to start wintun session" started, h)) in
  do! configure_interface name cfg mtu in
  se_ret (mkWindowsTun name mtu (mkIncoming [] false) (Some []) None).

(** *** The traits *)

#[global] Instance WindowsTun_read : AsyncRead WindowsTun := fun remaining t =>
  match poll_read remaining t with
  | None => None
  | Some (Ready l, t) => Some (Ready (Ok l), t)
  | Some (Pending, t) => Some (Pending, t)
  end.

#[global] Instance WindowsTun_write : AsyncWrite WindowsTun := {|
  Device.poll_write buf t := let '(r, t) := poll_write buf t in (Ready r, t);
  Device.poll_flush t := (Ready (Ok tt), t);
  Device.poll_shutdown t := (Ready (Ok tt), t);
|}.

#[global] Instance WindowsTun_device : TunDevice WindowsTun := {|
  tun_device_name := name;
  tun_device_mtu := mtu;
|}.

(** ** Specification *)

(** A kept packet always has bytes left. *)
Definition tun_ok (t : WindowsTun) : Prop :=
  match pending t with Some (pkt, offset) => (offset < length pkt)%nat | None => True end.

(** The packets still to be read, the first perhaps in part. *)
Definition unread (t : WindowsTun) : list (list byte) :=
  match pending t with Some (pkt, offset) => [drop offset pkt] | None => [] end ++ queue (incoming t).

(** Reads with the given rooms, one after the other. *)
Fixpoint reads (rooms : list nat) (t : WindowsTun) : option (list (Poll (list byte)) * WindowsTun) :=
  match rooms with
  | [] => Some ([], t)
  | n :: rooms =>
      match poll_read n t with
      | None => None
      | Some (r, t) => match reads rooms t with None => None | Some (l, t) => Some (r :: l, t) end
      end
  end.

Definition bytes_of (r : Poll (list byte)) : list byte := match r with Ready l => l | Pending => [] end.

(** ** Lemmas *)

(** One read: the next packet, as much of it as there is room for. *)
Lemma poll_read_spec n t :
  tun_ok t ->
  exists r t', poll_read n t = Some (r, t') /\ tun_ok t' /\
    match unread t with
    | p :: l => r = Ready (take n p) /\
                unread t' = if decide (length p <= n)%nat then l else drop n p :: l
    | [] => unread t' = [] /\ r = if closed (incoming t) then Ready [] else Pending
    end.
Proof.
  unfold tun_ok, unread, poll_read. intros Hok. destruct (pending t) as [[pkt off] |] eqn:Hp.
  - unfold slice_from. rewrite decide_True by lia. cbv zeta. rewrite length_drop.
    assert (Ht : take ((length pkt - off) `min` n) (drop off pkt) = take n (drop off pkt)).
    { destruct (decide (length pkt - off <= n)%nat); [| by rewrite Nat.min_r by lia].
      rewrite !take_ge; [done | rewrite length_drop; lia ..]. }
    rewrite Ht. do 2 eexists. split; [done |]. cbn [app]. rewrite ?length_drop.
    destruct (decide (length pkt - off <= n)%nat) as [Hle | Hgt].
    + rewrite Nat.min_l by lia. rewrite decide_False by lia. simpl. by split_and!.
    + rewrite Nat.min_r by lia. rewrite decide_True by lia. simpl. split_and!; [lia | done |].
      by rewrite drop_drop.
  - unfold poll_recv. destruct (queue (incoming t)) as [| pkt l] eqn:Hq; simpl app.
    + destruct (closed (incoming t)) eqn:Hc; do 2 eexists; (split; [done |]); simpl; rewrite Hp; by rewrite ?Hq.
    + cbv zeta. assert (Ht : take (length pkt `min` n) pkt = take n pkt).
      { destruct (decide (length pkt <= n)%nat); [| by rewrite Nat.min_r by lia].
        rewrite !take_ge; [done | lia ..]. }
      rewrite Ht. do 2 eexists. split; [done |]. destruct (decide (length pkt <= n)%nat) as [Hle | Hgt].
      * rewrite Nat.min_l by lia. rewrite decide_False by lia. simpl. by rewrite Hp.
      * rewrite Nat.min_r by lia. rewrite decide_True by lia. simpl. split_and!; [lia | done ..].
Qed.

Lemma poll_read_outgoing n t r t' : poll_read n t = Some (r, t') -> outgoing t' = outgoing t.
Proof.
  unfold poll_read. intros H. repeat (case_match || case_decide || simplify_eq); done.
Qed.

(** Reads with room for the packets they meet return them one by one. *)
Lemma packet_per_read (rooms : list nat) (t : WindowsTun) :
  tun_ok t -> length rooms = length (unread t) ->
  (forall i n p, rooms !! i = Some n -> unread t !! i = Some p -> (length p <= n)%nat) ->
  exists t', reads rooms t = Some (Ready <$> unread t, t') /\ unread t' = [].
Proof.
  revert t. induction rooms as [| n rooms IH]; intros t Hok Hlen Hroom.
  - exists t. destruct (unread t); done.
  - destruct (poll_read_spec n t Hok) as (r & t1 & E & Hok1 & Hu). simpl. rewrite E.
    destruct (unread t) as [| p l] eqn:El; [done |]. destruct Hu as [-> Hu].
    rewrite decide_True in Hu by (by apply (Hroom 0%nat)).
    destruct (IH t1) as (t2 & E2 & Hu2); [done | rewrite Hu; simpl in Hlen; lia | |].
    { intros i m q Hi Hq. rewrite Hu in Hq. by apply (Hroom (S i)). }
    rewrite E2, Hu. exists t2. split; [| done]. rewrite take_ge by (by apply (Hroom 0%nat)). done.
Qed.

(** The writer sends, in order, exactly the buffers that are packets. *)
Lemma writer_thread_exact bufs allocated :
  Forall (fun b => b = true) allocated -> (length bufs <= length allocated)%nat ->
  writer_thread bufs allocated = filter (fun b => (1 <= length b)%nat /\ Z.of_nat (length b) <= umax 16) bufs.
Proof.
  revert allocated. induction bufs as [| b bufs IH]; intros al Hal Hlen; [done |]. cbn [writer_thread].
  cbv zeta. destruct (_ || _) eqn:E.
  - rewrite filter_cons_False; [apply IH; [done | simpl in Hlen; lia] |].
    apply orb_true_iff in E as [E%Z.eqb_eq | E%Z.ltb_lt]; lia.
  - apply orb_false_iff in E as [E1%Z.eqb_neq E2%Z.ltb_ge]. rewrite filter_cons_True by lia.
    destruct al as [| a al]; [simpl in Hlen; lia |]. apply Forall_cons in Hal as [-> Hal].
    f_equal. apply IH; [done | simpl in Hlen; lia].
Qed.

(** The adapter meets the contract of a packet device: what it sends is what
    the writer thread sends of the queued buffers. *)
#[global] Program Instance WindowsTun_packets : PacketIo WindowsTun := {|
  arriving := unread;
  sent t := filter wire (default [] (outgoing t));
  delay _ := 0%nat;
  device_ok := tun_ok;
|}.
Next Obligation.
  intros room t Hok. unfold Device.poll_read, WindowsTun_read.
  destruct (poll_read_spec room t Hok) as (r & t' & E & Hok' & Hr). pose proof (poll_read_outgoing _ _ _ _ E) as Ho.
  rewrite E. destruct (unread t) as [| p l]; [destruct Hr as [Hu ->]; destruct (closed (incoming t)) |
    destruct Hr as [-> Hu]]; (do 2 eexists; split; [reflexivity |]); rewrite Ho; split_and!; try done.
  intros Hlen. rewrite decide_True in Hu by done. by rewrite take_ge by done.
Qed.
Next Obligation.
  intros buf t Hok Hw. unfold Device.poll_write, WindowsTun_write, poll_write.
  destruct (outgoing t) as [l |] eqn:Ho; cbn [with_outgoing outgoing]; [| by rewrite Ho].
  split_and!; try done. simpl. rewrite filter_app. f_equal. rewrite filter_cons_True by done. done.
Qed.

(** ** Properties *)

(** C25. Reads lose, repeat and reorder nothing: whatever room each is
    offered, no read panics, and what they returned followed by what is
    still unread is exactly what was unread before. *)
Theorem wintun_reads_stream (rooms : list nat) (t : WindowsTun) :
  tun_ok t ->
  exists rs t', reads rooms t = Some (rs, t') /\ tun_ok t' /\
    concat (bytes_of <$> rs) ++ concat (unread t') = concat (unread t).
Proof.
  revert t. induction rooms as [| n rooms IH]; intros t Hok; [by do 2 eexists |]. simpl.
  destruct (poll_read_spec n t Hok) as (r & t1 & -> & Hok1 & Hu).
  destruct (IH t1 Hok1) as (rs & t2 & -> & Hok2 & E). do 2 eexists. split; [done |]. split; [done |].
  rewrite fmap_cons. simpl. rewrite <- app_assoc, E. destruct (unread t) as [| p l].
  - destruct Hu as [-> ->]. by destruct (closed (incoming t)).
  - destruct Hu as [-> ->]. simpl. case_decide.
    + by rewrite take_ge by lia.
    + simpl. by rewrite app_assoc, take_drop.
Qed.

(** Packets stay packets: when every read is offered room for the packet
    it meets, the reads return the queued packets one by one. The bridge
    offers as much room as the MTU, which is set for IPv4 only
    ([configure_interface]): a longer IPv6 packet is read in pieces. *)
Theorem wintun_packet_per_read (rooms : list nat) (t : WindowsTun) :
  tun_ok t -> length rooms = length (unread t) ->
  (forall i n p, rooms !! i = Some n -> unread t !! i = Some p -> (length p <= n)%nat) ->
  exists t', reads rooms t = Some (Ready <$> unread t, t') /\ unread t' = [].
Proof. apply packet_per_read. Qed.

(** ** Witnesses *)

Definition sample : WindowsTun :=
  mkWindowsTun "cortado0" 1500 (mkIncoming [[byte_of_Z 69; byte_of_Z 1]; [byte_of_Z 96]] false) (Some []) None.

Lemma wintun_reads_stream_witness :
  exists rs t', reads [1; 1; 9]%nat sample = Some (rs, t') /\ rs = [Ready [byte_of_Z 69]; Ready [byte_of_Z 1]; Ready [byte_of_Z 96]] /\
    concat (bytes_of <$> rs) ++ concat (unread t') = concat (unread sample).
Proof.
  destruct (wintun_reads_stream [1; 1; 9]%nat sample I) as (rs & t' & H1 & _ & H2).
  exists rs, t'. split; [exact H1 |]. split; [| exact H2].
  assert (E : fst <$> reads [1; 1; 9]%nat sample =
    Some [Ready [byte_of_Z 69]; Ready [byte_of_Z 1]; Ready [byte_of_Z 96]]) by (vm_compute; reflexivity).
  rewrite H1 in E. by injection E.
Defined.

Lemma wintun_packet_per_read_witness :
  exists t', reads [2; 2]%nat sample = Some (Ready <$> unread sample, t') /\ unread t' = [].
Proof.
  apply (wintun_packet_per_read [2; 2]%nat sample I eq_refl).
  intros [| [| i]] n p Hn Hp; simpl in Hn, Hp; simplify_eq; simpl; lia.
Defined.
