(* ===== verification/Bridge.v ===== *)
(** * The packet bridge ([bridge_tun_to_stack] of [src/lib.rs])

    Two tasks share one device: one writes what the network stack yields to
    it, the other reads from it what the stack is given. Each moves at its
    own pace, one poll at a time; [tokio::io::split] serialises the polls. *)

From Stdlib Require Import ZArith Lia.
From Stdlib Require Import Strings.Byte Strings.Ascii Strings.String.
From stdpp Require Import base decidable list strings.
From S2P Require Import Prelude StdNet Config Command MacTun WinRoute WinTun LinuxTun Device.
#[local] Open Scope Z_scope.

(** ** Definitions *)

(** The downlink task waits for the stack's next packet, is in [write_all]
    with this much left to write, or has ended. The uplink task is in
    [read], in [send] with this packet, or has ended. *)
Inductive Down : Type := AwaitItem | Writing (rest : list byte) | DownEnded.
Inductive Up : Type := Reading | Sending (pkt : list byte) | UpEnded.

Record Bridge (D : Type) : Type := mkBridge { device : D; down : Down; uplink : Up }.
Arguments mkBridge {D}.
Arguments device {D}.
Arguments down {D}.
Arguments uplink {D}.

(** The stack yields an item or ends; the downlink task polls its write, the
    uplink task its read; the stack takes the packet it is sent, or fails. *)
Inductive BridgeEvent : Type :=
| StackYields (item : option (Result string (list byte)))
| PollWrite
| PollRead
| SinkTook
| SinkFailed.

(** An event can be out of place, the task can panic, or the bridge moves;
    [out] is what the stack has been sent. *)
Inductive Move (A : Type) : Type := Blocked | Panicked | Moved (a : A).
Arguments Blocked {A}.
Arguments Panicked {A}.
Arguments Moved {A}.

Section Tasks.
Context {D : Type} `{!AsyncRead D, !AsyncWrite D}.

(** [write_all] returns at once when nothing is left, and fails when the
    device takes nothing. *)
Definition writing (rest : list byte) : Down := match rest with [] => AwaitItem | _ => Writing rest end.

Definition bridge_event (mtu : nat) (e : BridgeEvent) (s : Bridge D * list (list byte))
    : Move (Bridge D * list (list byte)) :=
  let '(b, out) := s in
  match e with
  | StackYields item =>
      match down b with
      | AwaitItem =>
          Moved (mkBridge (device b) (match item with Some (Ok pkt) => writing pkt | _ => DownEnded end) (uplink b), out)
      | _ => Blocked
      end
  | PollWrite =>
      match down b with
      | Writing rest =>
          let '(r, d) := poll_write rest (device b) in
          Moved (mkBridge d match r with
                            | Pending => Writing rest
                            | Ready (Err _) => DownEnded
                            | Ready (Ok O) => DownEnded
                            | Ready (Ok n) => writing (drop n rest)
                            end (uplink b), out)
      | _ => Blocked
      end
  | PollRead =>
      match uplink b with
      | Reading =>
          match poll_read mtu (device b) with
          | None => Panicked
          | Some (r, d) =>
              Moved (mkBridge d (down b) match r with
                                         | Pending => Reading
                                         | Ready (Err _) => UpEnded
                                         | Ready (Ok []) => UpEnded
                                         | Ready (Ok data) => Sending data
                                         end, out)
          end
      | _ => Blocked
      end
  | SinkTook =>
      match uplink b with
      | Sending pkt => Moved (mkBridge (device b) (down b) Reading, out ++ [pkt])
      | _ => Blocked
      end
  | SinkFailed =>
      match uplink b with
      | Sending _ => Moved (mkBridge (device b) (down b) UpEnded, out)
      | _ => Blocked
      end
  end.

(** A run of the bridge from its start on a device. *)
Fixpoint bridge_run (mtu : nat) (es : list BridgeEvent) (s : Bridge D * list (list byte))
    : Move (Bridge D * list (list byte)) :=
  match es with
  | [] => Moved s
  | e :: es =>
      match bridge_event mtu e s with
      | Moved s => bridge_run mtu es s
      | m => m
      end
  end.

Definition bridge_start (d : D) : Bridge D * list (list byte) := (mkBridge d AwaitItem Reading, []).

(** ** Specification *)

(** The packets the stack yielded. *)
Definition yielded (es : list BridgeEvent) : list (list byte) :=
  omap (fun e => match e with StackYields (Some (Ok p)) => Some p | _ => None end) es.

Definition to_write (b : Bridge D) : list (list byte) := match down b with Writing r => [r] | _ => [] end.
Definition to_send (b : Bridge D) : list (list byte) := match uplink b with Sending p => [p] | _ => [] end.

Definition is_uplink (e : BridgeEvent) : bool := match e with PollRead | SinkTook => true | _ => false end.

(** The moves of the uplink task in a run. *)
Definition uplink_moves (es : list BridgeEvent) : nat := length (filter (fun e => is_uplink e = true) es).

(** ** Lemmas *)

Context `{!PacketIo D}.

(** Packets the downlink has dealt with, and packets the uplink has: two
    queues between the ends, in which only the end of a task loses its
    packet. *)
Definition conserved (mtu : nat) (d0 : D) (seen : list (list byte)) (b : Bridge D) (out : list (list byte)) : Prop :=
  device_ok (device b) /\
  Forall (fun p => p <> [] /\ (length p <= mtu)%nat) (arriving (device b)) /\
  match down b with
  | DownEnded => exists l, (length l <= 1)%nat /\ sent d0 ++ seen = sent (device b) ++ l
  | Writing r => wire r /\ sent d0 ++ seen = sent (device b) ++ [r]
  | AwaitItem => sent d0 ++ seen = sent (device b)
  end /\
  match uplink b with
  | UpEnded => exists l, (length l <= 1)%nat /\ arriving d0 = out ++ l ++ arriving (device b)
  | _ => arriving d0 = out ++ to_send b ++ arriving (device b)
  end.

Lemma conserved_event mtu d0 seen e b out :
  Forall wire (yielded [e]) -> conserved mtu d0 seen b out ->
  match bridge_event mtu e (b, out) with
  | Blocked => True
  | Panicked => False
  | Moved (b', out') => conserved mtu d0 (seen ++ yielded [e]) b' out'
  end.
Proof.
  intros Hw (Hok & Hq & Hd & Hu). unfold conserved, to_send in *. destruct e as [item | | | |]; cbn [bridge_event].
  - destruct (down b) eqn:Ed; [| exact I ..]. cbn [device down uplink]. split_and!; [done .. | | done].
    destruct item as [[pkt | e] |]; cbn [yielded omap list_omap] in *; rewrite ?app_nil_r; [| exists []; rewrite app_nil_r; split; [simpl; lia | done] ..].
    apply Forall_cons in Hw as [Hw _]. destruct pkt as [| c pkt]; [by destruct Hw |]. simpl writing.
    split; [done |]. by rewrite app_assoc, Hd.
  - destruct (down b) as [| r |] eqn:Ed; [exact I | | exact I]. destruct Hd as [Hr Hd].
    pose proof (packet_write r (device b) Hok Hr) as Hp. destruct (poll_write r (device b)) as [res d].
    destruct Hp as (Hok' & Ha & _ & Hs). cbn [device down uplink yielded omap list_omap]. rewrite app_nil_r, Ha.
    split_and!; [done .. | | done].
    destruct res as [[n | e] |]; [| rewrite Hs; by exists [r] | by rewrite Hs].
    destruct Hs as [-> Hs]. destruct (length r) eqn:El; [apply nil_length_inv in El; by destruct Hr |].
    rewrite <- El, drop_all. cbn [writing]. by rewrite Hs.
  - destruct (uplink b) eqn:Eu; [| exact I ..]. destruct (packet_read mtu (device b) Hok) as (r & d & -> & Hok' & Hs & _ & Hr).
    cbn [device down uplink yielded omap list_omap]. rewrite app_nil_r, Hs.
    destruct r as [[data | e] |].
    + destruct (arriving (device b)) as [| p l] eqn:Ea.
      * destruct Hr as [-> Hr]. rewrite Hr. split_and!; [done .. |]. rewrite Hu. exists []. split; [simpl; lia | done].
      * apply Forall_cons in Hq as [[Hne Hlen] Hq]. destruct (Hr Hlen) as [-> ->].
        split_and!; [done .. |]. destruct p; [done |]. exact Hu.
    + rewrite Hr. split_and!; [done .. |]. rewrite Hu. exists []. split; [simpl; lia | done].
    + destruct Hr as [-> _]. by split_and!.
  - destruct (uplink b) as [| p |] eqn:Eu; [exact I | | exact I]. cbn [device down uplink yielded omap list_omap].
    rewrite app_nil_r. split_and!; [done .. |]. by rewrite <- app_assoc.
  - destruct (uplink b) as [| p |] eqn:Eu; [exact I | | exact I]. cbn [device down uplink yielded omap list_omap].
    rewrite app_nil_r. split_and!; [done .. |]. by exists [p].
Qed.

Lemma yielded_cons e es : yielded (e :: es) = yielded [e] ++ yielded es.
Proof.
  unfold yielded. cbn [omap list_omap].
  by destruct (match e with StackYields (Some (Ok p)) => Some p | _ => None end).
Qed.

Lemma conserved_run mtu d0 es : forall seen b out,
  Forall wire (yielded es) -> conserved mtu d0 seen b out ->
  match bridge_run mtu es (b, out) with
  | Blocked => True
  | Panicked => False
  | Moved (b', out') => conserved mtu d0 (seen ++ yielded es) b' out'
  end.
Proof.
  induction es as [| e es IH]; intros seen b out Hw Hc; cbn [bridge_run]; [by rewrite app_nil_r |].
  rewrite yielded_cons in Hw |- *. apply Forall_app in Hw as [H1 H2]. rewrite app_assoc.
  pose proof (conserved_event mtu d0 seen e b out H1 Hc) as He.
  destruct (bridge_event mtu e (b, out)) as [| | [b1 out1]]; [done .. |]. by apply IH.
Qed.

(** What is left for the uplink task: two moves for each packet and the
    waits in between. *)
Definition idle (b : Bridge D) : Prop := to_send b = [] /\ arriving (device b) = [].
Definition work (b : Bridge D) : nat := 2 * length (arriving (device b)) + length (to_send b) + delay (device b).

Lemma work_event mtu d0 seen e b out b' out' :
  conserved mtu d0 seen b out -> Forall wire (yielded [e]) -> e <> SinkFailed ->
  bridge_event mtu e (b, out) = Moved (b', out') -> uplink b' <> UpEnded ->
  uplink b <> UpEnded /\ (idle b -> idle b') /\
  (idle b' \/ (work b' + (if is_uplink e then 1 else 0) <= work b)%nat).
Proof.
  intros (Hok & Hq & Hd & _) _ Hf. unfold idle, work, to_send in *. destruct e as [item | | | |]; cbn [bridge_event is_uplink].
  - destruct (down b); [intros [= <- <-]; cbn [device uplink]; intros Hne; split_and!; auto with lia | done ..].
  - destruct (down b) as [| r |]; [done | | done]. destruct Hd as [Hr _].
    pose proof (packet_write r (device b) Hok Hr) as Hp. destruct (poll_write r (device b)) as [res d].
    destruct Hp as (_ & Ha & Hl & _). intros [= <- <-]. cbn [device uplink]. rewrite Ha, Hl. intros Hne. split_and!; auto with lia.
  - destruct (uplink b); [| done ..]. destruct (packet_read mtu (device b) Hok) as (r & d & -> & _ & _ & Hl & Hr).
    intros [= <- <-]. cbn [device uplink]. intros Hne. split; [done |].
    destruct r as [[data | e] |]; [| by destruct Hne |].
    + destruct (arriving (device b)) as [| p l]; [destruct Hr as [-> _]; by destruct Hne |].
      apply Forall_cons in Hq as [[Hp Hlen] _]. destruct (Hr Hlen) as [-> ->]. destruct p as [| c p]; [done |].
      split; [by intros [_ ?] |]. right. cbn [length]. lia.
    + destruct Hr as [-> Hr]. split; [done |]. destruct (arriving (device b)) as [| p l]; [by left |].
      right. specialize (Hr ltac:(done)). cbn [length]. lia.
  - destruct (uplink b) as [| p |]; [done | | done]. intros [= <- <-] _. cbn [device uplink length].
    split_and!; [done | by intros [? _] | right; lia].
  - done.
Qed.

Lemma work_run mtu d0 es : forall seen b out b' out',
  conserved mtu d0 seen b out -> Forall wire (yielded es) -> SinkFailed ∉ es ->
  bridge_run mtu es (b, out) = Moved (b', out') -> uplink b' <> UpEnded ->
  uplink b <> UpEnded /\ (idle b -> idle b') /\ (idle b' \/ (work b' + uplink_moves es <= work b)%nat).
Proof.
  induction es as [| e es IH]; intros seen b out b' out' Hc Hw Hf H Hne; cbn [bridge_run] in H.
  - injection H as -> ->. split_and!; auto. right. cbn. lia.
  - rewrite yielded_cons in Hw. apply Forall_app in Hw as [H1 H2]. rewrite not_elem_of_cons in Hf. destruct Hf as [Hf1 Hf2].
    pose proof (conserved_event mtu d0 seen e b out H1 Hc) as Hce.
    destruct (bridge_event mtu e (b, out)) as [| | [b1 out1]] eqn:E; [done .. |].
    destruct (IH _ _ _ _ _ Hce H2 Hf2 H Hne) as (N1 & I1 & W1).
    destruct (work_event _ _ _ _ _ _ _ _ Hc H1 (not_eq_sym Hf1) E N1) as (N0 & I0 & W0).
    split_and!; [done | auto |]. destruct W0 as [W0 | W0]; [auto |]. destruct W1 as [W1 | W1]; [auto |]. right.
    unfold uplink_moves in *. destruct (is_uplink e) eqn:Eu.
    + rewrite filter_cons_True by done. cbn [length]. lia.
    + rewrite filter_cons_False by by rewrite Eu. lia.
Qed.

Lemma conserved_start mtu d :
  device_ok d -> Forall (fun p => p <> [] /\ (length p <= mtu)%nat) (arriving d) ->
  conserved mtu d [] (mkBridge d AwaitItem Reading) [].
Proof. intros Hok Hq. unfold conserved. cbn [device down uplink]. by rewrite app_nil_r. Qed.

Lemma bridge_queues (mtu : nat) (d : D) (es : list BridgeEvent) :
  device_ok d -> Forall (fun p => p <> [] /\ (length p <= mtu)%nat) (arriving d) -> Forall wire (yielded es) ->
  match bridge_run mtu es (bridge_start d) with
  | Blocked => True
  | Panicked => False
  | Moved (b, out) =>
      (exists l, sent d ++ yielded es = sent (device b) ++ to_write b ++ l /\
         (length l <= 1)%nat /\ (down b <> DownEnded -> l = [])) /\
      (exists l, arriving d = out ++ to_send b ++ l ++ arriving (device b) /\
         (length l <= 1)%nat /\ (uplink b <> UpEnded -> l = []))
  end.
Proof.
  intros Hok Hq Hw. pose proof (conserved_run mtu d es [] _ [] Hw (conserved_start mtu d Hok Hq)) as H.
  unfold bridge_start. destruct (bridge_run mtu es _) as [| | [b out]]; [done .. |].
  destruct H as (_ & _ & Hd & Hu). unfold to_write, to_send in *. cbn [app] in Hd. split.
  - destruct (down b); [exists [] | exists [] | destruct Hd as (l & ? & ?); by exists l].
    + by rewrite app_nil_r; auto with lia.
    + destruct Hd as [_ Hd]. auto with lia.
  - destruct (uplink b); [exists [] .. | destruct Hu as (l & ? & ?); by exists l]; auto with lia.
Qed.

(** ** Properties *)

(** C8. The bridge is two lossless queues: on any device that meets the
    contract and delivers packets that fit the MTU, however the polls of its
    two tasks interleave, neither task panics; what the device has sent is
    what the stack yielded, in order and whole, less the packet being written;
    what the stack was given is what arrived at the device, in order and
    whole, less the packet being handed over and those not read yet. Only a
    task that ended has lost a packet, and at most one. *)
Theorem bridge_conserves (mtu : nat) (d : D) (es : list BridgeEvent) :
  device_ok d -> Forall (fun p => p <> [] /\ (length p <= mtu)%nat) (arriving d) -> Forall wire (yielded es) ->
  match bridge_run mtu es (bridge_start d) with
  | Blocked => True
  | Panicked => False
  | Moved (b, out) =>
      (exists l, sent d ++ yielded es = sent (device b) ++ to_write b ++ l /\
         (length l <= 1)%nat /\ (down b <> DownEnded -> l = [])) /\
      (exists l, arriving d = out ++ to_send b ++ l ++ arriving (device b) /\
         (length l <= 1)%nat /\ (uplink b <> UpEnded -> l = []))
  end.
Proof. apply bridge_queues. Qed.

(** What arrives is delivered: on any device that meets the contract and
    however the downlink's polls are interleaved, once the uplink task has
    had two moves for each waiting packet and one for each time the device
    made it wait, the stack has been given every one of them, unless the
    task has ended on an error. *)
Theorem uplink_delivers (mtu : nat) (d : D) (es : list BridgeEvent) (b : Bridge D) (out : list (list byte)) :
  device_ok d -> Forall (fun p => p <> [] /\ (length p <= mtu)%nat) (arriving d) -> Forall wire (yielded es) ->
  SinkFailed ∉ es ->
  bridge_run mtu es (bridge_start d) = Moved (b, out) -> uplink b <> UpEnded ->
  (2 * length (arriving d) + delay d <= uplink_moves es)%nat ->
  out = arriving d.
Proof.
  intros Hok Hq Hw Hf Hr Hne Hm. pose proof (conserved_start mtu d Hok Hq) as Hs.
  destruct (work_run _ _ _ _ _ _ _ _ Hs Hw Hf Hr Hne) as (_ & _ & Hi).
  pose proof (conserved_run mtu d es [] _ [] Hw Hs) as H. unfold bridge_start in Hr. rewrite Hr in H.
  destruct H as (_ & _ & _ & Hu). assert (Hid : idle b).
  { destruct Hi as [Hi | Hi]; [done |]. unfold work, to_send in Hi. cbn [device uplink] in Hi. unfold idle, to_send.
    destruct (uplink b), (arriving (device b)); cbn [length] in *; try lia; done. }
  destruct Hid as [E1 E2]. rewrite E1, E2 in Hu. destruct (uplink b); [by rewrite Hu, !app_nil_r .. | done].
Qed.
End Tasks.

(** The bridge on the Windows adapter, with the thread that sends what it
    queues: once the task waits for the stack again, the session has been
    given exactly what the stack yielded. *)
Lemma windows_downlink (mtu : nat) (t : WindowsTun) (es : list BridgeEvent) b out :
  tun_ok t -> Forall (fun p => p <> [] /\ (length p <= mtu)%nat) (unread t) -> Forall wire (yielded es) ->
  outgoing t = Some [] -> bridge_run mtu es (bridge_start t) = Moved (b, out) -> down b = AwaitItem ->
  forall allocated, Forall (fun a => a = true) allocated ->
  (length (default [] (outgoing (device b))) <= length allocated)%nat ->
  writer_thread (default [] (outgoing (device b))) allocated = yielded es.
Proof.
  intros Hok Hq Hw Ho Hr Hd al Hal Hlen.
  pose proof (bridge_queues mtu t es Hok Hq Hw) as H. rewrite Hr in H. destruct H as [(l & Hs & _ & Hl) _].
  rewrite writer_thread_exact by done. rewrite Hl in Hs by by rewrite Hd. unfold to_write in Hs. rewrite Hd in Hs.
  cbn [sent WindowsTun_packets] in Hs. rewrite Ho, !app_nil_r in Hs. etransitivity; [| symmetry; exact Hs]. apply list_filter_iff. intros x. unfold wire.
  destruct x; cbn [length]; [split; [lia | by intros []] |]. split; [intros []; by split | intros []; split; [lia | done]].
Qed.

(** ** Witnesses *)

Module BridgeExample.
Definition ping : list byte := byte_of_Z <$> [69; 0; 0; 20].
Definition six : list byte := byte_of_Z <$> [96; 0].

(** A utun socket that makes the reader wait twice before a packet. *)
Definition utun : MacosTun :=
  mkMacosTun 3 "utun4" 1500 [] [NotReady; WouldBlock; Done (be_bytes 4 2 ++ ping); NotReady; Done (be_bytes 4 30 ++ six)]
    [WouldBlock; Done tt] [].

Definition schedule : list BridgeEvent :=
  [PollRead; StackYields (Some (Ok ping)); PollRead; PollWrite; SinkTook; PollRead; PollRead; SinkTook] ++
  replicate 3 PollRead.

(** The address families of macOS. *)
#[export] Instance utun_read : AsyncRead MacosTun := MacosTun_read.
#[export] Instance utun_write : AsyncWrite MacosTun := MacosTun_write 2 30.
#[export] Instance utun_packets : PacketIo MacosTun := MacosTun_packets 2 30.

Definition still_reading {D A} (m : Move (Bridge D * A)) : bool :=
  match m with Moved (b, _) => match uplink b with Reading => true | _ => false end | _ => false end.

Lemma schedule_moves : still_reading (bridge_run 1500 schedule (bridge_start utun)) = true.
Proof. vm_compute. reflexivity. Qed.

Lemma utun_ok : device_ok utun.
Proof. change (Forall framed (rx utun)). apply (bool_decide_unpack _). vm_compute. exact I. Qed.

Lemma utun_arriving :
  Forall (fun p => p <> [] /\ (length p <= 1500)%nat) (arriving utun) /\ Forall wire (yielded schedule).
Proof. split; apply (bool_decide_unpack _); vm_compute; exact I. Qed.
End BridgeExample.

Section Witnesses.
Import BridgeExample.

Lemma bridge_conserves_witness :
  exists b out, bridge_run 1500 schedule (bridge_start utun) = Moved (b, out) /\
    (exists l, sent utun ++ [ping] = sent (device b) ++ to_write b ++ l) /\
    exists l, arriving utun = out ++ to_send b ++ l ++ arriving (device b).
Proof.
  destruct utun_arriving as [Ha Hw].
  pose proof (bridge_conserves 1500 utun schedule utun_ok Ha Hw) as H. pose proof schedule_moves as Hm.
  destruct (bridge_run 1500 schedule (bridge_start utun)) as [| | [b out]] eqn:E; [discriminate Hm | contradiction |].
  destruct H as [(l & H1 & _) (l' & H2 & _)]. eauto 10.
Defined.

Lemma uplink_delivers_witness :
  exists b, bridge_run 1500 schedule (bridge_start utun) = Moved (b, [ping; six]).
Proof.
  destruct utun_arriving as [Ha Hw].
  pose proof schedule_moves as Hm.
  destruct (bridge_run 1500 schedule (bridge_start utun)) as [| | [b out]] eqn:E; [discriminate Hm .. |].
  exists b. rewrite (uplink_delivers 1500 utun schedule b out utun_ok Ha Hw); [| | exact E | | vm_compute; lia].
  - by vm_compute.
  - unfold schedule. cbn [app replicate]. intros H. repeat (apply elem_of_cons in H as [H | H]; [discriminate H |]).
    by apply not_elem_of_nil in H.
  - intros Hu. cbn [still_reading] in Hm. by rewrite Hu in Hm.
Defined.
End Witnesses.
