(* ===== verification/Accept.v ===== *)
(** * The TCP accept loop ([run] of [src/lib.rs])

    The loop that starts a relay for each TCP connection under a semaphore,
    and the two cells that a reload replaces meanwhile. The loop runs on a
    runtime of several threads: it reads the cells one after the other, and a
    reload writes them one after the other, so each read and each write is a
    move of its own. *)

From Stdlib Require Import ZArith Lia.
From Stdlib Require Import Strings.Ascii Strings.String.
From stdpp Require Import base decidable list strings gmap fin_maps.
From S2P Require Import Prelude StdNet Net Config Reload.
#[local] Open Scope Z_scope.

(** ** Definitions *)

(** A relay has what [relay_tcp_connection] was given. *)
Record Relay : Type := mkRelay { r_src : SocketAddr; r_dst : SocketAddr; r_proxy : ProxyConfig; r_routes : RouteTable }.

(** Where the loop is: at [tcp_listener.next()]; with a connection, waiting
    for a permit; with the permit; with the proxy too; past its end. *)
Inductive Stage : Type :=
| Listening
| Waiting (src dst : SocketAddr)
| Permitted (src dst : SocketAddr)
| Loaded (src dst : SocketAddr) (proxy : ProxyConfig)
| Closed.

Record TcpState : Type := mkTcp {
  permits : nat;
  stage : Stage;
  relays : gmap nat Relay;
  cells : Shared.t;
}.

(** The moves of the loop: the listener yields a connection; the semaphore
    grants a permit; [shared_for_tcp.proxy()]; [shared_for_tcp.routes()] and
    the start of the relay; the end of the listener. Those of others: a relay
    ends and drops its permit; a reload stores the proxy, and the routes. *)
Inductive TcpEvent : Type :=
| Arrives (src dst : SocketAddr)
| Granted
| LoadsProxy
| Starts (id : nat)
| ListenerClosed
| Ends (id : nat)
| StoresProxy (p : ProxyConfig)
| StoresRoutes (r : RouteTable).

Definition tcp_event (e : TcpEvent) (s : TcpState) : option TcpState :=
  match e, stage s with
  | Arrives src dst, Listening => Some (mkTcp (permits s) (Waiting src dst) (relays s) (cells s))
  | Granted, Waiting src dst =>
      match permits s with
      | S p => Some (mkTcp p (Permitted src dst) (relays s) (cells s))
      | O => None
      end
  | LoadsProxy, Permitted src dst =>
      Some (mkTcp (permits s) (Loaded src dst (Shared.proxy (cells s))) (relays s) (cells s))
  | Starts id, Loaded src dst proxy =>
      match relays s !! id with
      | None => Some (mkTcp (permits s) Listening
                        (<[id := mkRelay src dst proxy (Shared.routes (cells s))]> (relays s)) (cells s))
      | Some _ => None
      end
  | ListenerClosed, Listening => Some (mkTcp (permits s) Closed (relays s) (cells s))
  | Ends id, _ =>
      match relays s !! id with
      | Some _ => Some (mkTcp (S (permits s)) (stage s) (delete id (relays s)) (cells s))
      | None => None
      end
  | StoresProxy p, _ => Some (mkTcp (permits s) (stage s) (relays s) (Shared.store_proxy p (cells s)))
  | StoresRoutes r, _ => Some (mkTcp (permits s) (stage s) (relays s) (Shared.store_routes r (cells s)))
  | _, _ => None
  end.

Definition tcp_init (max : nat) (c : Shared.t) : TcpState := mkTcp max Listening ∅ c.

Fixpoint tcp_run (es : list TcpEvent) (s : TcpState) : option TcpState :=
  match es with
  | [] => Some s
  | e :: es => match tcp_event e s with Some s => tcp_run es s | None => None end
  end.

(** ** Specification *)

Inductive tcp_reach (max : nat) (c : Shared.t) : list TcpEvent -> TcpState -> Prop :=
| reach_init : tcp_reach max c [] (tcp_init max c)
| reach_step es e s s' : tcp_reach max c es s -> tcp_event e s = Some s' -> tcp_reach max c (es ++ [e]) s'.

(** The cells in force after a sequence of events. *)
Definition cells_after (c : Shared.t) (es : list TcpEvent) : Shared.t :=
  fold_left (fun c e => match e with
                        | StoresProxy p => Shared.store_proxy p c
                        | StoresRoutes r => Shared.store_routes r c
                        | _ => c
                        end) es c.

(** The permit that the loop itself holds, and the connection it has. *)
Definition held (st : Stage) : nat := match st with Permitted _ _ | Loaded _ _ _ => 1 | _ => 0 end.

Definition in_hand (st : Stage) : option (SocketAddr * SocketAddr) :=
  match st with Waiting src dst | Permitted src dst | Loaded src dst _ => Some (src, dst) | _ => None end.

(** What the loop has still to do before the relay [id] of its connection
    runs. *)
Definition to_start (st : Stage) (id : nat) : list TcpEvent :=
  match st with
  | Waiting _ _ => [Granted; LoadsProxy; Starts id]
  | Permitted _ _ => [LoadsProxy; Starts id]
  | Loaded _ _ _ => [Starts id]
  | _ => []
  end.

(** Moves that are not the loop's. *)
Definition of_others (e : TcpEvent) : bool :=
  match e with Ends _ | StoresProxy _ | StoresRoutes _ => true | _ => false end.
Definition others (es : list TcpEvent) : Prop := Forall (fun e => of_others e = true) es.

(** How the loop got where it is: its own last moves, with those of others
    in between. [loaded_at] is the moment of the load of the proxy. *)
Definition waiting_at (es : list TcpEvent) (src dst : SocketAddr) : Prop :=
  exists es0 es1, es = es0 ++ Arrives src dst :: es1 /\ others es1.
Definition permitted_at (es : list TcpEvent) (src dst : SocketAddr) : Prop :=
  exists es0 es1, es = es0 ++ Granted :: es1 /\ others es1 /\ waiting_at es0 src dst.
Definition loaded_at (es es0 : list TcpEvent) (src dst : SocketAddr) : Prop :=
  exists es1, es = es0 ++ LoadsProxy :: es1 /\ others es1 /\ permitted_at es0 src dst.

Definition history (c : Shared.t) (es : list TcpEvent) (st : Stage) : Prop :=
  match st with
  | Waiting src dst => waiting_at es src dst
  | Permitted src dst => permitted_at es src dst
  | Loaded src dst proxy => exists es0, loaded_at es es0 src dst /\ proxy = Shared.proxy (cells_after c es0)
  | _ => True
  end.

(** ** Lemmas *)

Lemma cells_snoc c es e : cells_after c (es ++ [e]) = cells_after (cells_after c es) [e].
Proof. unfold cells_after. by rewrite fold_left_app. Qed.

Lemma reach_cells max c es s : tcp_reach max c es s -> cells s = cells_after c es.
Proof.
  induction 1 as [| es e s s' Hr IH He]; [done |]. rewrite cells_snoc, <- IH.
  destruct e; simpl in He; repeat case_match; simplify_eq; done.
Qed.

(** Relays, free permits and the loop's own permit add up to the limit. *)
Lemma permits_balance max c es s : tcp_reach max c es s -> (size (relays s) + permits s + held (stage s) = max)%nat.
Proof.
  induction 1 as [| es e s s' Hr IH He]; [simpl; rewrite map_size_empty; lia |].
  destruct e; simpl in He; repeat case_match; simplify_eq; cbn [relays permits stage held] in *; try lia.
  - rewrite map_size_insert_None by done. lia.
  - rewrite map_size_delete_Some by by eexists.
    match goal with H : relays s !! _ = Some _ |- _ => apply mk_is_Some, map_size_ne_0_lookup_2 in H end. lia.
Qed.

Lemma others_snoc es e : others es -> of_others e = true -> others (es ++ [e]).
Proof. intros H He. apply Forall_app. split; [done |]. by apply Forall_singleton. Qed.

Lemma history_other c es st e : history c es st -> of_others e = true -> history c (es ++ [e]) st.
Proof.
  intros H He. destruct st as [| src dst | src dst | src dst proxy |]; [done | | | | done].
  - destruct H as (es0 & es1 & -> & H). exists es0, (es1 ++ [e]). rewrite <- app_assoc. eauto using others_snoc.
  - destruct H as (es0 & es1 & -> & H & ?). exists es0, (es1 ++ [e]). rewrite <- app_assoc. eauto using others_snoc.
  - destruct H as (es0 & (es1 & -> & H & ?) & ->). exists es0. split; [| done]. exists (es1 ++ [e]). rewrite <- app_assoc.
    eauto using others_snoc.
Qed.

Lemma reach_history max c es s : tcp_reach max c es s -> history c es (stage s).
Proof.
  induction 1 as [| es e s s' Hr IH He]; [done |].
  destruct (of_others e) eqn:Ho.
  { assert (Hst : stage s' = stage s) by (destruct e; try done; simpl in He; repeat case_match; by simplify_eq).
    rewrite Hst. by apply history_other. }
  pose proof (reach_cells _ _ _ _ Hr) as Hc. assert (Hnil : others []) by apply Forall_nil_2.
  destruct e as [src dst | | | id | | | |]; try done; simpl in He; destruct (stage s) as [| src' dst' | src' dst' | src' dst' p |] eqn:Hs;
    try done; repeat case_match; simplify_eq; cbn [stage history] in *; try done.
  - exists es, []. done.
  - exists es, []. done.
  - exists es. rewrite Hc. split; [| done]. exists []. done.
Qed.

(** What a relay is given when it starts. *)
Lemma started_with max c es s id s' :
  tcp_reach max c es s -> tcp_event (Starts id) s = Some s' ->
  exists src dst es0, loaded_at es es0 src dst /\ in_hand (stage s) = Some (src, dst) /\
    relays s' !! id = Some (mkRelay src dst (Shared.proxy (cells_after c es0)) (Shared.routes (cells_after c es))).
Proof.
  intros Hr H. pose proof (reach_history _ _ _ _ Hr) as Hh. rewrite <- (reach_cells _ _ _ _ Hr).
  simpl in H. destruct (stage s) as [| | | src dst p |]; try done. destruct (relays s !! id); [done |]. injection H as <-.
  destruct Hh as (es0 & Hl & ->). exists src, dst, es0. split_and!; [done | done |]. apply lookup_insert_eq.
Qed.

(** The load of the proxy is the loop's last move before the start. *)
Lemma loaded_at_unique es es0 es1 es2 src dst :
  loaded_at es es0 src dst -> es = es1 ++ LoadsProxy :: es2 -> LoadsProxy ∉ es2 -> es0 = es1.
Proof.
  intros (es3 & -> & Ho & _) E Hn. apply app_eq_inv in E as [(k & E1 & E2) | (k & E1 & E2)].
  - destruct k as [| e k]; [by rewrite app_nil_r in E1 |]. injection E2 as <- ->. set_solver.
  - destruct k as [| e k]; [by rewrite app_nil_r in E1 |]. injection E2 as <- ->. apply Forall_app in Ho as [_ Ho].
    by apply Forall_cons in Ho as [? _].
Qed.

(** The loop goes on with its connection once it can have a permit. *)
Lemma start_enabled s src dst id :
  in_hand (stage s) = Some (src, dst) -> (0 < permits s + held (stage s))%nat -> relays s !! id = None ->
  exists s', tcp_run (to_start (stage s) id) s = Some s' /\ stage s' = Listening /\
    (fun r => (r_src r, r_dst r)) <$> (relays s' !! id) = Some (src, dst).
Proof.
  intros Hw Hp Hi. destruct s as [n st m c]. cbn [stage permits relays] in *.
  destruct st as [| src' dst' | src' dst' | src' dst' p |]; try done; injection Hw as -> ->.
  - destruct n as [| n]; [cbn in Hp; lia |]. cbn. rewrite Hi. eexists. split_and!; [done | done |]. cbn. by rewrite lookup_insert_eq.
  - cbn. rewrite Hi. eexists. split_and!; [done | done |]. cbn. by rewrite lookup_insert_eq.
  - cbn. rewrite Hi. eexists. split_and!; [done | done |]. cbn. by rewrite lookup_insert_eq.
Qed.

(** ** Properties *)

(** C23. TCP relays are bounded and up to date: in every interleaving of the
    loop's moves with the ends of relays and the two writes of each reload,
    relays, free permits and the permit in the loop's hand add up to the
    limit, so no more than the tuned number run at once; and a relay that
    starts is given the connection that arrived, the proxy in force when the
    loop loaded it, which was after the permit had been granted, and the
    routes in force at the start. *)
Theorem tcp_relays_bounded (max : nat) (c : Shared.t) (es : list TcpEvent) (s : TcpState) :
  tcp_reach max c es s ->
  (size (relays s) + permits s + held (stage s) = max)%nat /\
  forall id s', tcp_event (Starts id) s = Some s' ->
    exists src dst es0, loaded_at es es0 src dst /\
      relays s' !! id = Some (mkRelay src dst (Shared.proxy (cells_after c es0)) (Shared.routes (cells_after c es))).
Proof.
  intros Hr. split; [by eapply permits_balance |].
  intros id s' H. destruct (started_with _ _ _ _ _ _ Hr H) as (src & dst & es0 & ? & _ & ?). eauto.
Qed.

(** C22. A connection in the loop's hand is always served in the end: in
    every reachable state with one, when fewer relays run than the limit, the
    next moves of the loop, each of which is possible, start its relay; and
    when the limit is reached, a relay is running and the end of any of them
    lets it start. The loop cannot be stuck with a connection in hand. *)
Theorem tcp_waiting_served (max : nat) (c : Shared.t) (es : list TcpEvent) (s : TcpState) src dst :
  tcp_reach max c es s -> (0 < max)%nat -> in_hand (stage s) = Some (src, dst) ->
  let served s' id := exists s'', tcp_run (to_start (stage s') id) s' = Some s'' /\ stage s'' = Listening /\
    (fun r => (r_src r, r_dst r)) <$> (relays s'' !! id) = Some (src, dst) in
  ((size (relays s) < max)%nat /\ forall id, relays s !! id = None -> served s id) \/
  (size (relays s) = max /\ (exists old, is_Some (relays s !! old)) /\
   forall old, is_Some (relays s !! old) -> exists s', tcp_event (Ends old) s = Some s' /\ served s' old).
Proof.
  intros Hr Hmax Hw served. pose proof (permits_balance _ _ _ _ Hr) as Hb.
  destruct (decide (size (relays s) = max)) as [Hf | Hf].
  - right. split; [done |]. split.
    + destruct (decide (relays s = ∅)) as [E | E]; [rewrite E, map_size_empty in Hf; lia |].
      apply map_choose in E as (i & x & Hi). exists i. by eexists.
    + intros old [x Hx]. pose (s1 := mkTcp (S (permits s)) (stage s) (delete old (relays s)) (cells s)).
      exists s1. split; [by cbn [tcp_event]; rewrite Hx |].
      apply start_enabled; [exact Hw | cbn; lia | apply lookup_delete_eq].
  - left. split; [lia |]. intros id Hi. apply start_enabled; [done | lia | done].
Qed.

(** ** Witness *)

Module TcpExample.
Definition a : SocketAddr := SocketAddr_new (V4 167772161) 4000.
Definition b : SocketAddr := SocketAddr_new (V4 134744072) 443.
Definition p : ProxyConfig := mkProxyConfig (SocketAddr_new (V4 3405803785) 1080) None None DEFAULT_CONNECT_TIMEOUT true.
Definition p' : ProxyConfig := mkProxyConfig (SocketAddr_new (V4 3405803786) 1080) None None DEFAULT_CONNECT_TIMEOUT true.
Definition old : Shared.t := Shared.new p' RouteTable.empty.
Definition table : RouteTable := RouteTable.new [(V4 134744072, 32)].

(** A reload while a connection waits for its permit. *)
Definition before : list TcpEvent := [Arrives a b; StoresProxy p; StoresRoutes table; Granted].
Definition acts : list TcpEvent := before ++ [LoadsProxy].
Definition state : TcpState := mkTcp 0 (Loaded a b p) ∅ (Shared.new p table).

Lemma run_reach max c es es' s s' : tcp_reach max c es s -> tcp_run es' s = Some s' -> tcp_reach max c (es ++ es') s'.
Proof.
  revert es s. induction es' as [| e es' IH]; intros es s Hr H; cbn [tcp_run] in H.
  { injection H as <-. by rewrite app_nil_r. }
  destruct (tcp_event e s) as [s1 |] eqn:E; [| done]. rewrite cons_middle, app_assoc. eapply IH; [| done]. by eapply reach_step.
Qed.

Lemma reached : tcp_reach 1 old acts state.
Proof. apply (run_reach 1 old [] acts (tcp_init 1 old)); [apply reach_init | reflexivity]. Qed.

(** The two loads are not one: with a reload between them the relay has the
    old proxy and the new routes, which were never in force together. *)
Definition mixed : list TcpEvent := [Arrives a b; Granted; LoadsProxy; StoresProxy p; StoresRoutes table; Starts 0].

Example mixed_pair :
  match tcp_run mixed (tcp_init 1 old) with
  | Some s => (fun r => (r_proxy r, r_routes r)) <$> (relays s !! 0%nat) = Some (p', table)
  | None => False
  end /\
  forall k, cells_after old (take k mixed) <> Shared.new p' table.
Proof.
  split; [reflexivity |]. intros k. do 7 (destruct k as [| k]; [vm_compute; discriminate |]). vm_compute. discriminate.
Qed.
End TcpExample.

Lemma tcp_relays_bounded_witness :
  (size (relays TcpExample.state) + permits TcpExample.state + held (stage TcpExample.state) = 1)%nat /\
  forall s', tcp_event (Starts 0) TcpExample.state = Some s' ->
    exists es0 src dst, loaded_at TcpExample.acts es0 src dst /\
      r_proxy <$> (relays s' !! 0%nat) = Some (Shared.proxy (cells_after TcpExample.old es0)).
Proof.
  destruct (tcp_relays_bounded 1 TcpExample.old _ _ TcpExample.reached) as [H1 H2]. split; [exact H1 |].
  intros s' H. destruct (H2 0%nat s' H) as (src & dst & es0 & Hl & ->). exists es0, src, dst. split; [exact Hl | reflexivity].
Defined.

Lemma tcp_waiting_served_witness :
  (size (relays TcpExample.state) < 1)%nat /\
  exists s', tcp_run [Starts 7] TcpExample.state = Some s' /\ stage s' = Listening.
Proof.
  destruct (tcp_waiting_served 1 TcpExample.old _ _ TcpExample.a TcpExample.b TcpExample.reached) as [[H1 H2] | [H1 _]];
    [lia | reflexivity | | discriminate H1].
  split; [exact H1 |]. destruct (H2 7%nat eq_refl) as (s' & E & Hn & _). exists s'. by split.
Defined.
