(* ===== verification/TcpRelay.v ===== *)
(** * Relaying a TCP connection ([relay_tcp_connection] of [src/lib.rs])

    What becomes of one connection the accept loop starts a relay for: it is
    classified, connected through the proxy, copied and counted. *)

From Stdlib Require Import ZArith Lia.
From Stdlib Require Import Strings.Ascii Strings.String.
From stdpp Require Import base decidable list strings gmap.
From S2P Require Import Prelude StdNet StdText Net Config Logging Stats Reload Socks Accept.
#[local] Open Scope Z_scope.

(** ** Definitions *)

Definition is_handshake_failure (err : Error) : bool :=
  let text := to_lowercase (error_chain err) in
  contains_str text "socks" || contains_str text "authentication" || contains_str text "handshake".

Section Relaying.
(** The CONNECT handshake of [tokio_socks] and [set_nodelay], as in
    [Socks.tcp_connect], and the copying of [tokio] in both directions. *)
Context (socks5 : SocketAddr -> SocketAddr -> option (string * string) -> connect_result)
  (set_nodelay : Stream -> Result string unit) (copy : Stream -> result (Z * Z)).

(** The guard of the gauge is dropped when the function returns. *)
Definition relay_tcp_connection (logger : Logger.t) (src dst : SocketAddr) (proxy : ProxyConfig)
    (routes : RouteTable) (s : Counters) (log : Log) : Counters * Log :=
  let tag := "tcp " +:+ show_sockaddr src +:+ " -> " +:+ show_sockaddr dst in
  let s := inc TCP_OPENED s in
  let s := GaugeGuard.new TCP_ACTIVE s in
  let s := match RouteTable.decide routes (sa_ip dst) with
           | Direct => inc ROUTE_DIRECT s
           | Proxy => inc ROUTE_PROXY s
           end in
  let log := Logger.debug logger (fun _ => tag) log in
  match tcp_connect socks5 set_nodelay proxy dst with
  | Err e =>
      let s := inc TCP_CLOSED s in
      let s := inc TCP_ERRORS s in
      let s := inc CONN_FAILURES s in
      let s := if is_handshake_failure e then inc SOCKS_HANDSHAKE_FAILURES s else s in
      let log := Logger.debug logger (fun _ => tag +:+ " connect failed: " +:+ hd "" e) log in
      (GaugeGuard.drop TCP_ACTIVE s, log)
  | Ok outbound =>
      let result := context "relay I/O error" (copy outbound) in
      let s := inc TCP_CLOSED s in
      match result with
      | Ok (tx, rx) =>
          let s := add BYTES_TX tx s in
          let s := add BYTES_RX rx s in
          let s := record_traffic (sa_ip dst) (tx + rx) s in
          (GaugeGuard.drop TCP_ACTIVE s, log)
      | Err e =>
          let s := inc TCP_ERRORS s in
          let log := Logger.debug logger (fun _ => tag +:+ " ended: " +:+ hd "" e) log in
          (GaugeGuard.drop TCP_ACTIVE s, log)
      end
  end.


(** ** Accounting *)

(** One connection, fully accounted: whatever happens to it, it is
    counted as opened once and closed once, under exactly one of the two
    routing counters, and no longer active at the end; bytes are counted
    only for a relay that ended well, in both directions and for the family
    of its destination, and every other end is counted as an error. *)
Theorem relay_accounts (logger : Logger.t) (src dst : SocketAddr) (proxy : ProxyConfig) (routes : RouteTable)
    (s : Counters) (log : Log) :
  uint 64 (get TCP_ACTIVE s) ->
  let s' := fst (relay_tcp_connection logger src dst proxy routes s log) in
  get TCP_OPENED s' = (get TCP_OPENED s + 1) mod 2 ^ 64 /\
  get TCP_CLOSED s' = (get TCP_CLOSED s + 1) mod 2 ^ 64 /\
  get TCP_ACTIVE s' = get TCP_ACTIVE s /\
  (match RouteTable.decide routes (sa_ip dst) with
   | Direct => get ROUTE_DIRECT s' = (get ROUTE_DIRECT s + 1) mod 2 ^ 64 /\ get ROUTE_PROXY s' = get ROUTE_PROXY s
   | Proxy => get ROUTE_PROXY s' = (get ROUTE_PROXY s + 1) mod 2 ^ 64 /\ get ROUTE_DIRECT s' = get ROUTE_DIRECT s
   end) /\
  match rbind (tcp_connect socks5 set_nodelay proxy dst) copy with
  | Ok (tx, rx) =>
      get TCP_ERRORS s' = get TCP_ERRORS s /\
      get BYTES_TX s' = (get BYTES_TX s + tx) mod 2 ^ 64 /\ get BYTES_RX s' = (get BYTES_RX s + rx) mod 2 ^ 64 /\
      get (match sa_ip dst with V4 _ => BYTES_V4 | V6 _ => BYTES_V6 end) s' =
        (get (match sa_ip dst with V4 _ => BYTES_V4 | V6 _ => BYTES_V6 end) s + (tx + rx)) mod 2 ^ 64
  | Err _ =>
      get TCP_ERRORS s' = (get TCP_ERRORS s + 1) mod 2 ^ 64 /\
      get BYTES_TX s' = get BYTES_TX s /\ get BYTES_RX s' = get BYTES_RX s
  end.
Proof.
  intros Ha.
  assert (Hback : forall z, uint 64 z -> ((z + 1) mod 2 ^ 64 - 1) mod 2 ^ 64 = z).
  { intros z Hz. rewrite Zminus_mod_idemp_l. replace (z + 1 - 1) with z by lia. by apply Z.mod_small. }
  unfold relay_tcp_connection. destruct (RouteTable.decide routes (sa_ip dst)),
    (tcp_connect socks5 set_nodelay proxy dst) as [x | e];
    [destruct (copy x) as [[tx rx] | e'] eqn:Ec | destruct (is_handshake_failure e) |
     destruct (copy x) as [[tx rx] | e'] eqn:Ec | destruct (is_handshake_failure e)];
    destruct (sa_ip dst); cbn [context rbind fst record_traffic]; rewrite ?Ec;
    read_counters; rewrite ?Hback by done; done.
Qed.
End Relaying.




(** ** Properties *)




(** The handshake counter counts more than handshakes: every failure of
    [tcp_connect] to reach its target is worded with the name of the
    protocol, so it is classified as a SOCKS5 handshake failure, a proxy
    that refuses the TCP connection or never answers included. *)
Theorem every_connect_failure_is_handshake socks5 set_nodelay (proxy : ProxyConfig) (target : SocketAddr) :
  (forall creds s, socks5 (pc_addr proxy) target creds <> Connected s) ->
  exists e, tcp_connect socks5 set_nodelay proxy target = Err e /\ is_handshake_failure e = true.
Proof.
  intros Hno. unfold tcp_connect.
  assert (Hsocks : forall m e, strip_prefix "SOCKS5" m <> None -> is_handshake_failure (m :: e) = true).
  { intros m e Hm. unfold is_handshake_failure. destruct (strip_prefix "SOCKS5" m) as [r |] eqn:E; [| done].
    apply strip_prefix_Some in E as ->. apply orb_true_iff. left. apply orb_true_iff. left.
    assert (Hc : exists t, error_chain (("SOCKS5" +:+ r) :: e) = "SOCKS5" +:+ t).
    { destruct e as [| m' e]; [by eexists |]. eexists (r +:+ ": " +:+ error_chain (m' :: e)).
      cbn [error_chain]. by rewrite <- string_app_assoc. }
    destruct Hc as [t ->]. reflexivity. }
  destruct (pc_username proxy) as [u |], (pc_password proxy) as [w |];
    match goal with |- context [socks5 ?a ?b ?c] => pose proof (Hno c) as Hc; destruct (socks5 a b c) as [s | e |] end;
    try (exfalso; by eapply Hc); eexists; (split; [reflexivity |]); by apply Hsocks.
Qed.

Lemma every_connect_failure_is_handshake_witness :
  exists e, tcp_connect (fun _ _ _ => Refused "Connection refused (os error 111)") (fun _ => Ok tt)
              Socks.example_proxy (SocketAddr_new (V4 134744072) 443) = Err e /\ is_handshake_failure e = true.
Proof. apply every_connect_failure_is_handshake. intros creds s. discriminate. Defined.
