(* ===== verification/LinuxDns.v ===== *)
(** * Linux DNS override ([src/platform/linux/dns.rs])

    [ResolvConf] rewrites [/etc/resolv.conf] and puts it back. The files are
    a map from paths to contents; every operation on them consults a list of
    faults first (one list for reads, one for writes and removals), so that
    each call of the program can be made to fail, and a failing write may
    leave the file as it was or with other contents. *)

From Stdlib Require Import ZArith Lia.
From Stdlib Require Import Strings.Ascii Strings.String.
From stdpp Require Import base decidable list strings gmap.
From S2P Require Import Prelude StdNet StdText Logging Reload Platform.
#[local] Open Scope Z_scope.

(** ** The file system *)

Inductive Fault : Type :=
| NoFault
| Clean (e : string)
| Dirty (e : string) (left : list byte).

Record FS : Type := mkFS {
  files : gmap string (list byte);
  read_faults : list (option string);
  faults : list Fault;
}.

Definition with_files (m : gmap string (list byte)) (w : FS) : FS := mkFS m (read_faults w) (faults w).

(** The fault of the next operation; none when the list is used up. *)
Definition next_fault (w : FS) : Fault * FS :=
  match faults w with
  | [] => (NoFault, w)
  | f :: l => (f, mkFS (files w) (read_faults w) l)
  end.

Definition next_read_fault (w : FS) : option string * FS :=
  match read_faults w with
  | [] => (None, w)
  | f :: l => (f, mkFS (files w) l (faults w))
  end.

Definition ENOENT : string := "No such file or directory (os error 2)".

Definition fs_read (p : string) (w : FS) : Result string (list byte) * FS :=
  let '(f, w) := next_read_fault w in
  match f with
  | None => (match files w !! p with Some c => Ok c | None => Err ENOENT end, w)
  | Some e => (Err e, w)
  end.

Definition fs_write (p : string) (c : list byte) (w : FS) : Result string unit * FS :=
  let '(f, w) := next_fault w in
  match f with
  | NoFault => (Ok tt, with_files (<[p := c]> (files w)) w)
  | Clean e => (Err e, w)
  | Dirty e l => (Err e, with_files (<[p := l]> (files w)) w)
  end.

Definition fs_remove (p : string) (w : FS) : Result string unit * FS :=
  let '(f, w) := next_fault w in
  match f with
  | NoFault =>
      match files w !! p with
      | Some _ => (Ok tt, with_files (delete p (files w)) w)
      | None => (Err ENOENT, w)
      end
  | Clean e | Dirty e _ => (Err e, w)
  end.

Definition fs_exists (p : string) (w : FS) : bool := bool_decide (is_Some (files w !! p)).

(** ** Definitions *)

Definition RESOLV_CONF_PATH : string := "/etc/resolv.conf".
Definition RESOLV_CONF_BACKUP_PATH : string := "/etc/resolv.conf.cortado.bak".

Record ResolvConf : Type := mkResolvConf {
  path : string;
  backup_path : string;
  current : option IpAddr;
  original : option (list byte);
}.

Record DnsState : Type := mkDns { ds_fs : FS; ds_rc : ResolvConf; ds_log : Log }.

Definition set_fs (w : FS) (s : DnsState) : DnsState := mkDns w (ds_rc s) (ds_log s).
Definition set_current (c : option IpAddr) (s : DnsState) : DnsState :=
  mkDns (ds_fs s) (mkResolvConf (path (ds_rc s)) (backup_path (ds_rc s)) c (original (ds_rc s))) (ds_log s).
Definition set_original (o : option (list byte)) (s : DnsState) : DnsState :=
  mkDns (ds_fs s) (mkResolvConf (path (ds_rc s)) (backup_path (ds_rc s)) (current (ds_rc s)) o) (ds_log s).
Definition add_log (f : Log -> Log) (s : DnsState) : DnsState := mkDns (ds_fs s) (ds_rc s) (f (ds_log s)).

(** A file operation as a statement: its error becomes an [anyhow] one. *)
Definition fs_op {A} (op : FS -> Result string A * FS) : SE DnsState A := fun s =>
  let '(r, w) := op (ds_fs s) in
  (match r with Ok a => Ok a | Err e => Err [e] end, set_fs w s).

Module ResolvConf.
Definition new (p b : string) : ResolvConf := mkResolvConf p b None None.

Definition system : ResolvConf := new RESOLV_CONF_PATH RESOLV_CONF_BACKUP_PATH.

Definition nameserver_line (server : IpAddr) : list byte :=
  as_bytes ("nameserver " +:+ show_ip server +:+ String LF "").

Definition write_nameserver (server : IpAddr) : SE DnsState unit := fun s =>
  se_context "failed to write resolv.conf" (fs_op (fs_write (path (ds_rc s)) (nameserver_line server))) s.

Definition ensure_backup : SE DnsState unit := fun s =>
  match original (ds_rc s) with
  | Some _ => (Ok tt, s)
  | None =>
      let '(r, w) := fs_read (path (ds_rc s)) (ds_fs s) in
      let s := set_fs w s in
      let orig := ok r in
      (do! (match orig with
            | Some o => se_context "failed to backup resolv.conf" (fs_op (fs_write (backup_path (ds_rc s)) o))
            | None => se_ret tt
            end) in
       se_do (set_original orig)) s
  end.

Definition apply (server : option IpAddr) : SE DnsState unit :=
  match server with
  | None => se_ret tt
  | Some dns =>
      do! ensure_backup in
      do! write_nameserver dns in
      do! se_do (set_current (Some dns)) in
      se_do (add_log (Logger.info ("DNS redirected to " +:+ show_ip dns)))
  end.

Definition reload (server : option IpAddr) : SE DnsState unit := fun s =>
  if decide (server = current (ds_rc s)) then (Ok tt, s)
  else
    (do! (match server with
          | Some dns =>
              do! ensure_backup in
              do! write_nameserver dns in
              se_do (add_log (Logger.info ("DNS redirected to " +:+ show_ip dns +:+ " (reload)")))
          | None => fun s =>
              match original (ds_rc s) with
              | Some orig =>
                  (do! se_context "failed to restore resolv.conf" (fs_op (fs_write (path (ds_rc s)) orig)) in
                   do! se_do (fun s => set_fs (snd (fs_remove (backup_path (ds_rc s)) (ds_fs s))) s) in
                   se_do (add_log (Logger.info "DNS override disabled (reload)"))) s
              | None => (Ok tt, s)
              end
          end) in
     se_do (set_current server)) s.

Definition restore (s : DnsState) : DnsState :=
  match current (ds_rc s) with
  | None => s
  | Some _ =>
      let s :=
        match original (ds_rc s) with
        | Some orig =>
            let '(r, w) := fs_write (path (ds_rc s)) orig (ds_fs s) in
            let s := set_fs w s in
            match r with
            | Err e => add_log (Logger.warn ("failed to restore resolv.conf: " +:+ e)) s
            | Ok _ =>
                let s := set_fs (snd (fs_remove (backup_path (ds_rc s)) (ds_fs s))) s in
                add_log (Logger.info "resolv.conf restored") s
            end
        | None =>
            if fs_exists (path (ds_rc s)) (ds_fs s)
            then add_log (Logger.warn "no resolv.conf backup, leaving as-is") s
            else s
        end in
      set_current None s
  end.
End ResolvConf.

#[global] Instance ResolvConf_configurator : DnsConfigurator DnsState := {|
  dns_apply := ResolvConf.apply;
  dns_reload := ResolvConf.reload;
  dns_restore := ResolvConf.restore;
|}.

(** ** Specification

    A session of calls on the configurator: any applies and reloads. *)

Inductive DnsCall : Type := CallApply (server : option IpAddr) | CallReload (server : option IpAddr).

Definition call (c : DnsCall) (s : DnsState) : DnsState :=
  match c with
  | CallApply server => snd (dns_apply server s)
  | CallReload server => snd (dns_reload server s)
  end.

Definition calls (l : list DnsCall) (s : DnsState) : DnsState := fold_left (fun s c => call c s) l s.

(** A failing write leaves the file as it was. *)
Definition clean_fault (f : Fault) : Prop :=
  match f with Dirty _ _ => False | _ => True end.

(** What the object knows while the file held [c0] at the start: it has kept
    [c0] whenever the file is overridden, and the file holds what [current]
    says. *)
Record dns_inv (p b : string) (c0 : list byte) (s : DnsState) : Prop := {
  inv_path : path (ds_rc s) = p;
  inv_backup : backup_path (ds_rc s) = b;
  inv_original : forall o, original (ds_rc s) = Some o -> o = c0;
  inv_current : match current (ds_rc s) with
                | None => files (ds_fs s) !! p = Some c0
                | Some d => original (ds_rc s) = Some c0 /\
                            files (ds_fs s) !! p = Some (ResolvConf.nameserver_line d)
                end;
  inv_faults : read_faults (ds_fs s) = [] /\ Forall clean_fault (faults (ds_fs s));
}.

(** The same state, from here on without faults. *)
Definition calm (s : DnsState) : DnsState := set_fs (mkFS (files (ds_fs s)) [] []) s.

(** ** Lemmas *)

Definition fs_good (w : FS) : Prop := read_faults w = [] /\ Forall clean_fault (faults w).

Lemma fs_write_good p c w :
  fs_good w ->
  exists r w', fs_write p c w = (r, w') /\ fs_good w' /\
    ((r = Ok tt /\ files w' = <[p := c]> (files w)) \/ ((exists e, r = Err e) /\ files w' = files w)).
Proof.
  intros [Hr Hf]. unfold fs_write, next_fault, fs_good, with_files.
  destruct (faults w) as [| f l] eqn:E.
  - do 2 eexists. split; [done |]. simpl. rewrite E. auto.
  - apply Forall_cons in Hf as [Hf Hl].
    destruct f; simpl in Hf; try done; do 2 eexists; (split; [done |]); simpl; eauto 10.
Qed.

Lemma fs_remove_good p w :
  fs_good w ->
  fs_good (snd (fs_remove p w)) /\ forall q, q <> p -> files (snd (fs_remove p w)) !! q = files w !! q.
Proof.
  intros [Hr Hf]. unfold fs_remove, next_fault, fs_good, with_files.
  destruct (faults w) as [| f l] eqn:E.
  - simpl. destruct (files w !! p); simpl; (split; [by rewrite E |]);
      intros q Hq; [by rewrite lookup_delete_ne | done].
  - apply Forall_cons in Hf as [Hf Hl]. destruct f; simpl; try done.
    destruct (files w !! p); simpl; (split; [done |]); intros q Hq; [by rewrite lookup_delete_ne | done].
Qed.

Lemma fs_read_good p w : fs_good w -> fs_read p w = (match files w !! p with Some c => Ok c | None => Err ENOENT end, w).
Proof. intros [Hr _]. unfold fs_read, next_read_fault. by rewrite Hr. Qed.

Section Invariant.
Context (p b : string) (c0 : list byte) (Hpb : p <> b).

Lemma ensure_backup_inv s :
  dns_inv p b c0 s ->
  exists r s', ResolvConf.ensure_backup s = (r, s') /\ dns_inv p b c0 s' /\
    current (ds_rc s') = current (ds_rc s) /\ (r = Ok tt -> original (ds_rc s') = Some c0).
Proof.
  intros [Hp Hb Ho Hc Hf]. unfold ResolvConf.ensure_backup.
  destruct (original (ds_rc s)) as [o |] eqn:Eo.
  - do 2 eexists. split; [done |]. split; [by constructor; rewrite ?Eo |].
    rewrite Eo. split; [done |]. intros _. f_equal. by apply Ho.
  - destruct (current (ds_rc s)) as [d |] eqn:Ec; [by destruct Hc |].
    rewrite fs_read_good, Hp, Hc by exact Hf. simpl.
    unfold se_bind, se_context, fs_op, se_do, set_fs. simpl. rewrite Hb.
    destruct (fs_write_good b c0 (ds_fs s) Hf) as (r & w & Hw & Hg & Hr). rewrite Hw.
    destruct Hr as [[-> Hfs] | [[e ->] Hfs]]; simpl; do 2 eexists; (split; [done |]).
    + simpl. split; [| by rewrite Ec]. constructor; simpl; try done.
      * by intros o [= <-].
      * rewrite Ec, Hfs. by rewrite lookup_insert_ne.
    + simpl. split; [| by rewrite Ec]. constructor; simpl; try done; [by rewrite Eo |].
      by rewrite Ec, Hfs.
Qed.

(** Writing the path when the original contents are kept. *)
Lemma write_inv s c cur :
  dns_inv p b c0 s -> original (ds_rc s) = Some c0 ->
  c = match cur with Some d => ResolvConf.nameserver_line d | None => c0 end ->
  exists r w, fs_write p c (ds_fs s) = (r, w) /\
    match r with
    | Ok _ => files w !! p = Some c /\ dns_inv p b c0 (set_current cur (set_fs w s))
    | Err _ => dns_inv p b c0 (set_fs w s)
    end.
Proof.
  intros [Hp Hb Ho Hc Hf] Heq Hcur.
  destruct (fs_write_good p c (ds_fs s) Hf) as (r & w & Hw & Hg & Hr).
  exists r, w. split; [done |]. destruct Hr as [[-> Hfs] | [[e ->] Hfs]].
  - rewrite Hfs, lookup_insert_eq. split; [done |].
    constructor; simpl; try done. rewrite Hfs, lookup_insert_eq. by destruct cur; subst.
  - constructor; simpl; try done. by rewrite Hfs.
Qed.

Lemma dns_inv_log f s : dns_inv p b c0 (add_log f s) <-> dns_inv p b c0 s.
Proof. split; intros [Hp Hb Ho Hc Hf]; by constructor. Qed.

Lemma apply_inv server s :
  dns_inv p b c0 s ->
  exists r s', ResolvConf.apply server s = (r, s') /\ dns_inv p b c0 s' /\
    (r = Ok tt -> forall d, server = Some d -> current (ds_rc s') = Some d).
Proof.
  intros Hi. destruct server as [d |]; [| by do 2 eexists]. simpl.
  destruct (ensure_backup_inv s Hi) as (r & s1 & H1 & Hi1 & _ & Ho1).
  unfold se_bind. rewrite H1. destruct r as [[] | e]; [| by do 2 eexists].
  specialize (Ho1 eq_refl).
  unfold ResolvConf.write_nameserver, se_context, fs_op. rewrite (inv_path _ _ _ _ Hi1).
  destruct (write_inv s1 _ (Some d) Hi1 Ho1 eq_refl) as (r & w & Hw & Hr). rewrite Hw.
  destruct r as [[] | e]; simpl.
  - destruct Hr as [_ Hr]. do 2 eexists. split; [done |]. split; [by apply dns_inv_log |].
    intros _ ? [= <-]. done.
  - do 2 eexists. split; [done |]. by split.
Qed.

Lemma reload_inv server s :
  dns_inv p b c0 s ->
  exists r s', ResolvConf.reload server s = (r, s') /\ dns_inv p b c0 s' /\
    (r = Ok tt -> current (ds_rc s') = server).
Proof.
  intros Hi. unfold ResolvConf.reload. case_decide as Hd; [by do 2 eexists |].
  destruct server as [d |]; unfold se_bind.
  - destruct (ensure_backup_inv s Hi) as (r & s1 & H1 & Hi1 & _ & Ho1).
    rewrite H1. destruct r as [[] | e]; [| by do 2 eexists].
    specialize (Ho1 eq_refl).
    unfold ResolvConf.write_nameserver, se_context, fs_op. rewrite (inv_path _ _ _ _ Hi1).
    destruct (write_inv s1 _ (Some d) Hi1 Ho1 eq_refl) as (r & w & Hw & Hr). rewrite Hw.
    destruct r as [[] | e]; simpl; do 2 eexists; (split; [done |]); [| by split].
    destruct Hr as [_ []]. by split; [constructor |].
  - destruct (current (ds_rc s)) as [d |] eqn:Ec; [| done].
    pose proof (inv_current _ _ _ _ Hi) as Hc. rewrite Ec in Hc. destruct Hc as [Ho _].
    rewrite Ho. unfold se_context, fs_op. rewrite (inv_path _ _ _ _ Hi).
    destruct (write_inv s c0 None Hi Ho eq_refl) as (r & w & Hw & Hr). rewrite Hw.
    destruct r as [[] | e]; simpl; do 2 eexists; (split; [done |]); [| by split].
    split; [| done]. destruct Hr as [_ [Hp Hb Ho' Hc Hf]]. simpl in *.
    destruct (fs_remove_good (backup_path (ds_rc s)) w Hf) as [Hg Hq].
    constructor; simpl; try done. rewrite Hq by (by rewrite Hb). done.
Qed.

Lemma calls_inv l s : dns_inv p b c0 s -> dns_inv p b c0 (calls l s).
Proof.
  revert s. induction l as [| [server | server] l IH]; intros s Hi; [done | ..]; simpl; apply IH.
  - by destruct (apply_inv server s Hi) as (r & s' & -> & H & _).
  - by destruct (reload_inv server s Hi) as (r & s' & -> & H & _).
Qed.

Lemma restore_inv s :
  dns_inv p b c0 s ->
  let s' := ResolvConf.restore (calm s) in
  files (ds_fs s') !! p = Some c0 /\ current (ds_rc s') = None /\
  (current (ds_rc s) <> None -> files (ds_fs s') !! b = None) /\
  (forall q, q <> p -> q <> b -> files (ds_fs s') !! q = files (ds_fs s) !! q).
Proof.
  intros [Hp Hb Ho Hc Hf]. unfold ResolvConf.restore, calm. simpl.
  destruct (current (ds_rc s)) as [d |] eqn:Ec; simpl; [| by rewrite Ec].
  destruct Hc as [-> Hc]. simpl. unfold fs_remove, next_fault. simpl. rewrite Hp, Hb.
  destruct (<[p := c0]> (files (ds_fs s)) !! b) eqn:Eb; simpl.
  - rewrite lookup_delete_ne, lookup_insert_eq by done. split_and!; try done.
    + intros _. apply lookup_delete_eq.
    + intros q H1 H2. by rewrite lookup_delete_ne, lookup_insert_ne.
  - rewrite lookup_insert_eq. split_and!; try done. intros q H1 H2. by rewrite lookup_insert_ne.
Qed.
End Invariant.

Lemma new_inv p b c0 w log :
  files w !! p = Some c0 -> fs_good w -> dns_inv p b c0 (mkDns w (ResolvConf.new p b) log).
Proof. intros. by constructor. Qed.

(** The calls without faults, as equations. *)
Section Calm.
Context (p b : string) (m : gmap string (list byte)).

Definition at_rest (m : gmap string (list byte)) (cur : option IpAddr) (o : option (list byte)) (log : Log) : DnsState :=
  mkDns (mkFS m [] []) (mkResolvConf p b cur o) log.

Lemma apply_calm d o log :
  snd (ResolvConf.apply (Some d) (at_rest m None o log)) =
  at_rest (<[p := ResolvConf.nameserver_line d]> (match o, m !! p with None, Some c => <[b := c]> m | _, _ => m end))
    (Some d) (match o with Some o => Some o | None => m !! p end)
    (Logger.info ("DNS redirected to " +:+ show_ip d) log).
Proof.
  unfold ResolvConf.apply, ResolvConf.ensure_backup, at_rest, se_bind. simpl.
  destruct o as [o |]; [done |]. unfold fs_read. simpl. by destruct (m !! p).
Qed.

Lemma reload_on_calm d cur o log :
  cur <> Some d ->
  snd (ResolvConf.reload (Some d) (at_rest m cur o log)) =
  at_rest (<[p := ResolvConf.nameserver_line d]> (match o, m !! p with None, Some c => <[b := c]> m | _, _ => m end))
    (Some d) (match o with Some o => Some o | None => m !! p end)
    (Logger.info ("DNS redirected to " +:+ show_ip d +:+ " (reload)") log).
Proof.
  intros Hd. unfold ResolvConf.reload, ResolvConf.ensure_backup, at_rest, se_bind. simpl.
  rewrite decide_False by congruence.
  destruct o as [o |]; [done |]. unfold fs_read. simpl. by destruct (m !! p).
Qed.

Lemma reload_off_calm d o log :
  p <> b -> is_Some (m !! b) ->
  snd (ResolvConf.reload None (at_rest m (Some d) (Some o) log)) =
  at_rest (delete b (<[p := o]> m)) None (Some o) (Logger.info "DNS override disabled (reload)" log).
Proof.
  intros Hpb [c Hb]. unfold ResolvConf.reload, at_rest, se_bind. simpl.
  unfold fs_remove. simpl. by rewrite lookup_insert_ne, Hb by done.
Qed.
End Calm.

(** ** Properties *)

(** C27. The DNS override is transparent: if [resolv.conf] can be read at the
    start, then after any sequence of applies and reloads, in which any
    write or removal may fail as long as it leaves the file alone, a restore
    that is not itself interrupted puts the original contents back, removes
    the backup and has touched no other file. *)
Theorem dns_restore_original (p b : string) (c0 : list byte) (w : FS) (log : Log) (l : list DnsCall) :
  p <> b -> files w !! p = Some c0 -> fs_good w ->
  let s := calls l (mkDns w (ResolvConf.new p b) log) in
  let s' := dns_restore (calm s) in
  files (ds_fs s') !! p = Some c0 /\ current (ds_rc s') = None /\
  (current (ds_rc s) <> None -> files (ds_fs s') !! b = None) /\
  (forall q, q <> p -> q <> b -> files (ds_fs s') !! q = files (ds_fs s) !! q).
Proof. intros Hpb Hp Hw. apply restore_inv; [done |]. by apply calls_inv, new_inv. Qed.

Lemma dns_restore_original_witness :
  let s := calls [CallApply (Some (V4 16843009)); CallReload (Some (V4 151587081))]
             (mkDns (mkFS {["/etc/resolv.conf" := as_bytes "nameserver 8.8.8.8"]} [] [NoFault; NoFault; Clean "EIO"])
                ResolvConf.system []) in
  current (ds_rc s) = Some (V4 16843009) /\
  files (ds_fs (dns_restore (calm s))) !! "/etc/resolv.conf" = Some (as_bytes "nameserver 8.8.8.8").
Proof.
  split; [vm_compute; reflexivity |].
  apply (dns_restore_original RESOLV_CONF_PATH RESOLV_CONF_BACKUP_PATH (as_bytes "nameserver 8.8.8.8")
    (mkFS {["/etc/resolv.conf" := as_bytes "nameserver 8.8.8.8"]} [] [NoFault; NoFault; Clean "EIO"]) []
    [CallApply (Some (V4 16843009)); CallReload (Some (V4 151587081))]).
  - discriminate.
  - vm_compute. reflexivity.
  - split; [reflexivity | repeat constructor].
Defined.

(** While an override is reported as in force it is: after any sequence
    of calls with such faults, [current] says [Some d] only when the file
    names [d] and nothing else, and a reload that returns successfully has
    made [current] the server it was given. *)
Theorem dns_current_in_force (p b : string) (c0 : list byte) (w : FS) (log : Log) (l : list DnsCall) :
  p <> b -> files w !! p = Some c0 -> fs_good w ->
  let s := calls l (mkDns w (ResolvConf.new p b) log) in
  (forall d, current (ds_rc s) = Some d -> files (ds_fs s) !! p = Some (ResolvConf.nameserver_line d)) /\
  (current (ds_rc s) = None -> files (ds_fs s) !! p = Some c0) /\
  (forall server s', dns_reload server s = (Ok tt, s') -> current (ds_rc s') = server).
Proof.
  intros Hpb Hp Hw s. assert (Hi : dns_inv p b c0 s) by by apply calls_inv, new_inv.
  pose proof (inv_current _ _ _ _ Hi) as Hc. split_and!.
  - intros d Hd. rewrite Hd in Hc. apply Hc.
  - intros Hn. by rewrite Hn in Hc.
  - intros server s' H. destruct (reload_inv p b c0 Hpb server s Hi) as (r & s1 & H1 & _ & Hr).
    simpl in H. rewrite H1 in H. simplify_eq. by apply Hr.
Qed.

Lemma dns_current_in_force_witness :
  let s := calls [CallApply (Some (V4 16843009))]
             (mkDns (mkFS {["/etc/resolv.conf" := []]} [] []) ResolvConf.system []) in
  files (ds_fs s) !! "/etc/resolv.conf" = Some (as_bytes ("nameserver 1.1.1.1" +:+ String LF "")).
Proof.
  assert (E : ResolvConf.nameserver_line (V4 16843009) = as_bytes ("nameserver 1.1.1.1" +:+ String LF ""))
    by (vm_compute; reflexivity).
  rewrite <- E.
  apply (dns_current_in_force RESOLV_CONF_PATH RESOLV_CONF_BACKUP_PATH []
    (mkFS {["/etc/resolv.conf" := []]} [] []) [] [CallApply (Some (V4 16843009))]);
    [discriminate | vm_compute; reflexivity | split; [reflexivity | constructor] | vm_compute; reflexivity].
Defined.

(** Switching the override off and on again leaves no backup on disk:
    the reload that disables it deletes the backup file and the one that
    enables it does not write it again, although the file is overridden. *)
Theorem dns_backup_lost (c0 : list byte) (d d' : IpAddr) :
  let w := mkFS {[RESOLV_CONF_PATH := c0]} [] [] in
  let s := calls [CallApply (Some d); CallReload None; CallReload (Some d')] (mkDns w ResolvConf.system []) in
  files (ds_fs s) = {[RESOLV_CONF_PATH := ResolvConf.nameserver_line d']}.
Proof.
  intros w s. subst s w. unfold calls. cbn [fold_left call dns_apply dns_reload ResolvConf_configurator].
  change (mkDns (mkFS ?m [] []) ResolvConf.system []) with (at_rest RESOLV_CONF_PATH RESOLV_CONF_BACKUP_PATH m None None []).
  rewrite apply_calm, lookup_singleton_eq. rewrite reload_off_calm; [| done |].
  - rewrite reload_on_calm by done. cbn [ds_fs at_rest files]. apply map_eq. intros q.
    destruct (decide (q = RESOLV_CONF_PATH)) as [-> | Hq]; [by rewrite lookup_insert_eq, lookup_singleton_eq |].
    rewrite lookup_insert_ne, lookup_singleton_ne by done.
    destruct (decide (q = RESOLV_CONF_BACKUP_PATH)) as [-> | Hb]; [by rewrite lookup_delete_eq |].
    by rewrite lookup_delete_ne, !lookup_insert_ne, lookup_singleton_ne by done.
  - rewrite lookup_insert_ne, lookup_insert_eq by done. done.
Qed.

(** Without a [resolv.conf] at the start the override is never undone:
    the restore leaves it in place, and after a reload to a second server
    it even writes the first override back as the original. *)
Theorem dns_missing_original (d d' : IpAddr) :
  let w := mkFS ∅ [] [] in
  let s1 := calls [CallApply (Some d)] (mkDns w ResolvConf.system []) in
  files (ds_fs (dns_restore s1)) !! RESOLV_CONF_PATH = Some (ResolvConf.nameserver_line d) /\
  (d' <> d ->
   let s2 := calls [CallReload (Some d')] s1 in
   files (ds_fs (dns_restore s2)) !! RESOLV_CONF_PATH = Some (ResolvConf.nameserver_line d)).
Proof.
  intros w s1.
  assert (Hs1 : s1 = at_rest RESOLV_CONF_PATH RESOLV_CONF_BACKUP_PATH
    (<[RESOLV_CONF_PATH := ResolvConf.nameserver_line d]> ∅) (Some d) None
    (Logger.info ("DNS redirected to " +:+ show_ip d) [])) 
    by (etransitivity; [apply (apply_calm RESOLV_CONF_PATH RESOLV_CONF_BACKUP_PATH ∅ d None []) |];
        by rewrite lookup_empty).
  rewrite Hs1. clear. split.
  - cbn [dns_restore ResolvConf_configurator]. unfold ResolvConf.restore. cbn [at_rest ds_rc current original].
    case_match; apply lookup_insert_eq.
  - intros Hd s2. subst s2. unfold calls. cbn [fold_left call dns_reload ResolvConf_configurator].
    rewrite reload_on_calm by congruence. rewrite lookup_insert_eq.
    cbn [dns_restore ResolvConf_configurator]. unfold ResolvConf.restore. simpl.
    unfold fs_remove. simpl. rewrite lookup_insert_ne by done. rewrite lookup_insert_ne by done.
    rewrite lookup_insert_eq. simpl. rewrite lookup_delete_ne by done. apply lookup_insert_eq.
Qed.
