(* ===== verification/UnitTests.v ===== *)
(** * The program's own tests on the model

    The [#[test]] functions of the modules of [src/], each as the conjunction
    of its assertions over the definitions that model the functions under
    test. A test that panics in an [unwrap] would not even be well typed
    here. The tests of the DNS pool are in [DnsTests]; two tests of
    [config.rs] are about the TOML codec, which is another crate's. *)

From Stdlib Require Import ZArith Lia.
From Stdlib Require Import Strings.Byte Strings.Ascii Strings.String.
From stdpp Require Import base decidable list strings gmap.
From S2P Require Import Prelude StdNet StdText Net Config Socks Tune Logging Stats Format Metrics Reload Platform LinuxDns.
#[local] Open Scope Z_scope.

(** [Option::unwrap], of the type of its contents when there are any. *)
Definition unwrapped {A : Type} (o : option A) : Type := match o with Some _ => A | None => unit end.

Definition unwrap {A : Type} (o : option A) : unwrapped o :=
  match o with Some a => a | None => tt end.

Definition assert_eq {A} `{!EqDecision A} (x y : A) : bool := bool_decide (x = y).
Definition is_ok {A} (r : result A) : bool := match r with Ok _ => true | Err _ => false end.

Definition ip (s : string) : unwrapped (parse_ip s) := unwrap (parse_ip s).
Definition sockaddr (s : string) : unwrapped (parse_sockaddr s) := unwrap (parse_sockaddr s).

(** ** [net.rs] *)
Module NetTests.
Definition v4_cidr_contains : bool :=
  let c := Cidr.new (ip "10.0.0.0") 8 in
  Cidr.contains c (ip "10.255.255.255") && Cidr.contains c (ip "10.0.0.1") && negb (Cidr.contains c (ip "11.0.0.1")).

Definition v4_host_route : bool :=
  let c := Cidr.new (ip "192.168.1.5") 32 in
  Cidr.contains c (ip "192.168.1.5") && negb (Cidr.contains c (ip "192.168.1.6")).

Definition v4_default_route_matches_everything : bool :=
  let c := Cidr.new (ip "0.0.0.0") 0 in
  Cidr.contains c (ip "8.8.8.8") && Cidr.contains c (ip "0.0.0.0").

Definition v6_cidr_contains : bool :=
  let c := Cidr.new (ip "2001:db8::") 32 in
  Cidr.contains c (ip "2001:db8:dead:beef::1") && negb (Cidr.contains c (ip "2001:db9::1")).

Definition v6_host_route : bool :=
  let c := Cidr.new (ip "fd00::1") 128 in
  Cidr.contains c (ip "fd00::1") && negb (Cidr.contains c (ip "fd00::2")).

Definition v6_default_route_matches_everything : bool :=
  let c := Cidr.new (ip "::") 0 in Cidr.contains c (ip "2606:4700:4700::1111").

Definition cidr_normalizes_base : bool :=
  let c := Cidr.new (ip "10.1.2.3") 8 in assert_eq (base c) (ip "10.0.0.0").

Definition family_mismatch_never_matches : bool :=
  let v4 := Cidr.new (ip "0.0.0.0") 0 in
  let v6 := Cidr.new (ip "::") 0 in
  negb (Cidr.contains v4 (ip "::1")) && negb (Cidr.contains v6 (ip "1.2.3.4")).

Definition route_table_direct_vs_proxy : bool :=
  let table := RouteTable.new [(ip "10.0.0.0" : IpAddr, 8); (ip "fd00::" : IpAddr, 8)] in
  assert_eq (RouteTable.decide table (ip "10.5.6.7")) Direct &&
  assert_eq (RouteTable.decide table (ip "fd00::abcd")) Direct &&
  assert_eq (RouteTable.decide table (ip "8.8.8.8")) Proxy &&
  assert_eq (RouteTable.decide table (ip "2606:4700::1")) Proxy.

Definition route_table_overlapping_prefixes : bool :=
  let table := RouteTable.new [(ip "10.0.0.0" : IpAddr, 8); (ip "10.1.0.0" : IpAddr, 16)] in
  assert_eq (RouteTable.decide table (ip "10.1.2.3")) Direct &&
  assert_eq (RouteTable.decide table (ip "10.9.2.3")) Direct &&
  assert_eq (RouteTable.decide table (ip "11.1.2.3")) Proxy.

Definition empty_table_is_all_proxy : bool :=
  let table := RouteTable.empty in
  RouteTable.is_empty table && assert_eq (RouteTable.decide table (ip "1.2.3.4")) Proxy &&
  assert_eq (RouteTable.decide table (ip "::1")) Proxy.

Definition diff_cidrs_adds_and_removes : bool :=
  let old := [(ip "10.0.0.0" : IpAddr, 8); (ip "192.168.0.0" : IpAddr, 16)] in
  let new := [(ip "10.0.0.0" : IpAddr, 8); (ip "fd00::" : IpAddr, 8)] in
  let '(add, remove) := diff_cidrs old new in
  assert_eq add [(ip "fd00::" : IpAddr, 8)] && assert_eq remove [(ip "192.168.0.0" : IpAddr, 16)].

Definition diff_cidrs_identical_is_empty : bool :=
  let same := [(ip "10.0.0.0" : IpAddr, 8)] in
  let '(add, remove) := diff_cidrs same same in assert_eq add [] && assert_eq remove [].

Definition mixed_stack_classification : bool :=
  let table := RouteTable.new [(ip "192.168.0.0" : IpAddr, 16)] in
  assert_eq (RouteTable.decide table (ip "192.168.50.1")) Direct &&
  assert_eq (RouteTable.decide table (ip "2001:db8::1")) Proxy && assert_eq (len table) 1.

Definition tests : list bool :=
  [v4_cidr_contains; v4_host_route; v4_default_route_matches_everything; v6_cidr_contains; v6_host_route;
   v6_default_route_matches_everything; cidr_normalizes_base; family_mismatch_never_matches;
   route_table_direct_vs_proxy; route_table_overlapping_prefixes; empty_table_is_all_proxy;
   diff_cidrs_adds_and_removes; diff_cidrs_identical_is_empty; mixed_stack_classification].

Example net_tests_hold : forallb id tests = true.
Proof. vm_compute. reflexivity. Qed.
End NetTests.

(** ** [config.rs] *)
Module ConfigTests.
Definition with_proxy_addr (s : string) (c : Config) : Config :=
  mkConfig s (username c) (password c) (tun_name c) (tun_ip c) (verbose c) (dns_server c) (override_dns c)
    (dns_over_tcp c) (bypass_cidrs c) (metrics_addr c).
Definition with_credentials (u p : option string) (c : Config) : Config :=
  mkConfig (proxy_addr c) u p (tun_name c) (tun_ip c) (verbose c) (dns_server c) (override_dns c)
    (dns_over_tcp c) (bypass_cidrs c) (metrics_addr c).
Definition with_tun (name addr : string) (c : Config) : Config :=
  mkConfig (proxy_addr c) (username c) (password c) name addr (verbose c) (dns_server c) (override_dns c)
    (dns_over_tcp c) (bypass_cidrs c) (metrics_addr c).
Definition with_dns_server (s : string) (c : Config) : Config :=
  mkConfig (proxy_addr c) (username c) (password c) (tun_name c) (tun_ip c) (verbose c) s (override_dns c)
    (dns_over_tcp c) (bypass_cidrs c) (metrics_addr c).
Definition with_override_dns (b : bool) (c : Config) : Config :=
  mkConfig (proxy_addr c) (username c) (password c) (tun_name c) (tun_ip c) (verbose c) (dns_server c) b
    (dns_over_tcp c) (bypass_cidrs c) (metrics_addr c).
Definition with_bypass_cidrs (l : list string) (c : Config) : Config :=
  mkConfig (proxy_addr c) (username c) (password c) (tun_name c) (tun_ip c) (verbose c) (dns_server c)
    (override_dns c) (dns_over_tcp c) l (metrics_addr c).
Definition with_metrics_addr (o : option string) (c : Config) : Config :=
  mkConfig (proxy_addr c) (username c) (password c) (tun_name c) (tun_ip c) (verbose c) (dns_server c)
    (override_dns c) (dns_over_tcp c) (bypass_cidrs c) o.

Definition default_config_is_valid : bool := is_ok (validate default_config).

Definition rejects_bad_proxy_addr : bool :=
  let cfg := with_proxy_addr "not-an-addr" default_config in negb (is_ok (validate cfg)).

Definition rejects_half_credentials : bool :=
  let cfg := with_credentials (Some "user") None default_config in negb (is_ok (validate cfg)).

Definition accepts_ipv6_proxy_and_dns : bool :=
  let cfg := with_dns_server "2606:4700:4700::1111" (with_proxy_addr "[::1]:1080" default_config) in
  is_ok (validate cfg) && is_ipv6 (sa_ip (unwrap (proxy_socket_addr cfg))) &&
  is_ipv6 (unwrap (unwrap (dns_addr cfg))).

Definition parses_bypass_cidrs : bool :=
  let cfg := with_bypass_cidrs ["10.0.0.0/8"; "fd00::/8"] default_config in
  let routes : CidrList := unwrap (bypass_routes cfg) in
  is_ok (validate cfg) && assert_eq (length routes) 2%nat && assert_eq (snd <$> routes !! 0%nat) (Some 8).

Definition rejects_bad_cidr : bool :=
  let cfg := with_bypass_cidrs ["10.0.0.0/40"] default_config in negb (is_ok (validate cfg)).

Definition cidr_requires_prefix : bool :=
  negb (is_ok (parse_cidr "10.0.0.0")) && is_ok (parse_cidr "10.0.0.0/8") && is_ok (parse_cidr "::/0").

Definition rejects_bad_metrics_addr : bool :=
  let cfg := with_metrics_addr (Some "bogus") default_config in negb (is_ok (validate cfg)).

Definition tests : list bool :=
  [default_config_is_valid; rejects_bad_proxy_addr; rejects_half_credentials; accepts_ipv6_proxy_and_dns;
   parses_bypass_cidrs; rejects_bad_cidr; cidr_requires_prefix; rejects_bad_metrics_addr].

Example config_tests_hold : forallb id tests = true.
Proof. vm_compute. reflexivity. Qed.
End ConfigTests.

(** ** [socks.rs] *)
Module SocksTests.
(** A literal of bytes, and [decode_udp] on a buffer that makes it not panic. *)
Definition bytes (l : list Z) : list byte := byte_of_Z <$> l.
Definition decode (buf : list byte) : unwrapped (decode_udp buf) := unwrap (decode_udp buf).

Definition encode_decode_v4_roundtrip : bool :=
  let target : SocketAddr := sockaddr "8.8.8.8:53" in
  let payload := as_bytes "hello world" in
  let buf := encode_udp target payload [] in
  assert_eq (take 3 buf) (bytes [0; 0; 0]) && assert_eq (buf !! 3%nat) (Some x01) &&
  let '(addr, data) := unwrap (decode buf) in
  assert_eq addr target && assert_eq data payload.

Definition encode_decode_v6_roundtrip : bool :=
  let target : SocketAddr := sockaddr "[2606:4700:4700::1111]:53" in
  let payload := as_bytes "dual stack" in
  let buf := encode_udp target payload [] in
  assert_eq (buf !! 3%nat) (Some x04) &&
  let '(addr, data) := unwrap (decode buf) in
  assert_eq addr target && assert_eq data payload.

Definition encode_reuses_buffer : bool :=
  let buf := encode_udp (sockaddr "1.1.1.1:53") (as_bytes "aaaa") [] in
  let first_len := length buf in
  let buf := encode_udp (sockaddr "1.1.1.1:53") (as_bytes "bb") buf in
  bool_decide (length buf < first_len)%nat.

Definition decode_rejects_truncated : bool :=
  assert_eq (decode []) None && assert_eq (decode (bytes [0; 0; 0])) None &&
  assert_eq (decode (bytes [0; 0; 0; 1; 1; 2; 3])) None && assert_eq (decode (bytes [0; 0; 0; 4; 0; 0])) None.

Definition decode_rejects_fragmented : bool := assert_eq (decode (bytes [0; 0; 1; 1; 8; 8; 8; 8; 0; 53])) None.

Definition decode_rejects_unknown_atyp : bool := assert_eq (decode (bytes [0; 0; 0; 9; 1; 2; 3; 4; 0; 53])) None.

Definition normalize_relay_substitutes_unspecified : bool :=
  let proxy : SocketAddr := sockaddr "203.0.113.5:1080" in
  let reply : SocketAddr := sockaddr "0.0.0.0:40000" in
  let relay := normalize_relay reply proxy in assert_eq relay (sockaddr "203.0.113.5:40000").

Definition normalize_relay_keeps_concrete : bool :=
  let proxy : SocketAddr := sockaddr "203.0.113.5:1080" in
  let reply : SocketAddr := sockaddr "198.51.100.7:40000" in
  assert_eq (normalize_relay reply proxy) reply.

Definition tests : list bool :=
  [encode_decode_v4_roundtrip; encode_decode_v6_roundtrip; encode_reuses_buffer; decode_rejects_truncated;
   decode_rejects_fragmented; decode_rejects_unknown_atyp; normalize_relay_substitutes_unspecified;
   normalize_relay_keeps_concrete].

Example socks_tests_hold : forallb id tests = true.
Proof. vm_compute. reflexivity. Qed.
End SocksTests.

(** ** [reload.rs] *)
Module ReloadTests.
Import ConfigTests.

Definition shared_swaps_atomically : bool :=
  let p1 : ProxyConfig := unwrap (ProxyConfig.from_config default_config) in
  let shared := Shared.new p1 RouteTable.empty in
  let cfg2 := with_proxy_addr "10.0.0.9:9050" default_config in
  let p2 : ProxyConfig := unwrap (ProxyConfig.from_config cfg2) in
  assert_eq (pc_addr (Shared.proxy shared)) (pc_addr p1) &&
  let shared := Shared.store_proxy p2 shared in
  assert_eq (pc_addr (Shared.proxy shared)) (pc_addr p2).

Definition noop_plan_when_unchanged : bool :=
  let plan : ReloadPlan := unwrap (ReloadPlan.compute default_config default_config) in ReloadPlan.is_noop plan.

Definition detects_proxy_address_change : bool :=
  let new := with_proxy_addr "203.0.113.9:1080" default_config in
  let plan : ReloadPlan := unwrap (ReloadPlan.compute default_config new) in
  rp_proxy_changed plan &&
  assert_eq (rp_proxy_route_change plan) (Some (ip "127.0.0.1" : IpAddr, ip "203.0.113.9" : IpAddr)) &&
  negb (ReloadPlan.is_noop plan).

Definition detects_bypass_changes : bool :=
  let old := with_bypass_cidrs ["10.0.0.0/8"] default_config in
  let new := with_bypass_cidrs ["192.168.0.0/16"] default_config in
  let plan : ReloadPlan := unwrap (ReloadPlan.compute old new) in
  assert_eq (rp_bypass_add plan) [(ip "192.168.0.0" : IpAddr, 16)] &&
  assert_eq (rp_bypass_remove plan) [(ip "10.0.0.0" : IpAddr, 8)].

Definition detects_dns_change : bool :=
  let new := with_dns_server "9.9.9.9" default_config in
  let plan : ReloadPlan := unwrap (ReloadPlan.compute default_config new) in
  rp_dns_changed plan && assert_eq (rp_dns plan) (Some (ip "9.9.9.9" : IpAddr)).

Definition dns_unchanged_when_override_off : bool :=
  let old := with_override_dns false default_config in
  let new := with_dns_server "9.9.9.9" (with_override_dns false default_config) in
  let plan : ReloadPlan := unwrap (ReloadPlan.compute old new) in
  negb (rp_dns_changed plan) && assert_eq (rp_dns plan) None.

Definition flags_immutable_field_changes : bool :=
  let new := with_tun "tun9" "10.9.0.1" default_config in
  let changed := immutable_changes default_config new in
  bool_decide ("tun_ip" ∈ changed) && bool_decide ("tun_name" ∈ changed).

Definition no_immutable_changes_for_proxy_only_edit : bool :=
  let new := with_proxy_addr "203.0.113.9:1080" default_config in
  assert_eq (immutable_changes default_config new) [].

Definition tests : list bool :=
  [shared_swaps_atomically; noop_plan_when_unchanged; detects_proxy_address_change; detects_bypass_changes;
   detects_dns_change; dns_unchanged_when_override_off; flags_immutable_field_changes;
   no_immutable_changes_for_proxy_only_edit].

Example reload_tests_hold : forallb id tests = true.
Proof. vm_compute. reflexivity. Qed.
End ReloadTests.

(** ** [stats.rs] *)
Module StatsTests.
(** The static of a test is any one counter. *)
Definition gauge_guard_balances (G : Counter) : bool :=
  let s := zero_counters in
  let inside := GaugeGuard.new G (GaugeGuard.new G s) in
  let after := GaugeGuard.drop G (GaugeGuard.drop G inside) in
  assert_eq (get G s) 0 && assert_eq (get G inside) 2 && assert_eq (get G after) 0.

Definition record_traffic_splits_by_family : bool :=
  let s := zero_counters in
  let s' := record_traffic (ip "::1") 200 (record_traffic (ip "1.2.3.4") 100 s) in
  assert_eq (get BYTES_V4 s') (get BYTES_V4 s + 100) && assert_eq (get BYTES_V6 s') (get BYTES_V6 s + 200).

Definition format_bytes_scales_units : bool :=
  assert_eq (format_bytes 0) "0 B" && assert_eq (format_bytes 512) "512 B" && assert_eq (format_bytes 999) "999 B" &&
  assert_eq (format_bytes 1000) "1.00 KB" && assert_eq (format_bytes 1500) "1.50 KB" &&
  assert_eq (format_bytes 2340000) "2.34 MB" && assert_eq (format_bytes 1100000000) "1.10 GB" &&
  assert_eq (format_bytes 3000000000000) "3.00 TB" && assert_eq (format_bytes 5000000000000000) "5000.00 TB".

Definition counters_increment (C : Counter) : bool :=
  let s := add C 5 (inc C zero_counters) in
  assert_eq (get C s) 6 && assert_eq (get C (dec C s)) 5.

Definition tests : list bool :=
  [gauge_guard_balances TCP_ACTIVE; record_traffic_splits_by_family; format_bytes_scales_units;
   counters_increment TCP_OPENED].

Example stats_tests_hold : forallb id tests = true.
Proof. vm_compute. reflexivity. Qed.
End StatsTests.

(** ** [tune.rs] *)
Module TuneTests.
Definition uses_detected_mtu_and_v6_gateway : bool :=
  let t := Tuning.compute (mkProbe (Some 9000) true (Some (Z.shiftl 8 30)) (Some (Z.shiftl 1 20))) in
  assert_eq (mtu t) 9000 && capture_ipv6 t && (relay_buf_size t <=? RELAY_BUF_MAX) && (RELAY_BUF_MIN <=? relay_buf_size t).

Definition clamps_extreme_mtu : bool :=
  assert_eq (mtu (Tuning.compute (mkProbe (Some 50) false None None))) MIN_MTU &&
  assert_eq (mtu (Tuning.compute (mkProbe (Some 100000) false None None))) MAX_MTU.

Definition connection_cap_is_fd_limited_when_fds_are_scarce : bool :=
  let t := Tuning.compute (mkProbe (Some 1500) false (Some (Z.shiftl 8 30)) (Some 1024)) in
  assert_eq (max_tcp_connections t) ((1024 - 64) / 2) &&
  assert_eq (max_udp_sessions t) (max_tcp_connections t / UDP_PER_TCP).

Definition falls_back_without_system_state : bool :=
  let t := Tuning.compute (mkProbe None false None None) in
  assert_eq (mtu t) FALLBACK_MTU && negb (capture_ipv6 t) && (TCP_CONN_MIN <=? max_tcp_connections t) &&
  (UDP_SESSION_MIN <=? max_udp_sessions t) && assert_eq (udp_idle_timeout t) UDP_IDLE_TIMEOUT.

Definition jumbo_mtu_grows_buffers_versus_small_mtu : bool :=
  let small := Tuning.compute (mkProbe (Some 1500) false (Some (Z.shiftl 8 30)) (Some (Z.shiftl 1 20))) in
  let jumbo := Tuning.compute (mkProbe (Some 9000) false (Some (Z.shiftl 8 30)) (Some (Z.shiftl 1 20))) in
  (relay_buf_size small <? relay_buf_size jumbo) && (relay_copy_buf_size small <? relay_copy_buf_size jumbo).

Definition tests : list bool :=
  [uses_detected_mtu_and_v6_gateway; clamps_extreme_mtu; connection_cap_is_fd_limited_when_fds_are_scarce;
   falls_back_without_system_state; jumbo_mtu_grows_buffers_versus_small_mtu].

Example tune_tests_hold : forallb id tests = true.
Proof. vm_compute. reflexivity. Qed.
End TuneTests.

(** ** [metrics.rs] *)
Module MetricsTests.
Definition NAMES : list string :=
  ["cortado_tcp_opened_total"; "cortado_tcp_closed_total"; "cortado_tcp_errors_total"; "cortado_udp_packets_total";
   "cortado_udp_errors_total"; "cortado_bytes_tx_total"; "cortado_bytes_rx_total"; "cortado_bytes_ipv4_total";
   "cortado_bytes_ipv6_total"; "cortado_dns_requests_total"; "cortado_dns_failures_total";
   "cortado_route_direct_total"; "cortado_route_proxy_total"; "cortado_conn_failures_total";
   "cortado_socks_handshake_failures_total"; "cortado_tcp_sessions_active"; "cortado_udp_sessions_active";
   "cortado_config_reloads_total"].

Definition render_contains_all_metrics (s : Counters) : bool :=
  let text := render s in
  forallb (contains_str text) NAMES && contains_str text "# TYPE cortado_tcp_opened_total counter" &&
  contains_str text "# TYPE cortado_tcp_sessions_active gauge".

Definition gauges_reflect_active_sessions (s : Counters) : bool :=
  contains_str (render s) "cortado_tcp_sessions_active" &&
  let during := render (GaugeGuard.new TCP_ACTIVE s) in
  match filter (fun l => starts_with l "cortado_tcp_sessions_active " = true) (lines during) with
  | line :: _ =>
      match last (split_at_char " " line) ≫= (fun v => ok (parse_uint 64 v)) with
      | Some value => 1 <=? value
      | None => false
      end
  | [] => false
  end.

Definition tests : list bool :=
  [render_contains_all_metrics zero_counters; gauges_reflect_active_sessions zero_counters].

Example metrics_tests_hold : forallb id tests = true.
Proof. vm_compute. reflexivity. Qed.
End MetricsTests.

(** ** [platform/linux/dns.rs] *)
Module LinuxDnsTests.
Definition path : string := "/tmp/cortado-resolv".
Definition backup : string := "/tmp/cortado-resolv.bak".

(** [fs::write(&path, text)] and [ResolvConf::new(&path, &backup)]; files
    work. *)
Definition with_file (text : string) : DnsState :=
  mkDns (mkFS {[path := as_bytes text]} [] []) (ResolvConf.new path backup) [].
Definition no_file : DnsState := mkDns (mkFS ∅ [] []) (ResolvConf.new path backup) [].

Definition line (text : string) : string := text +:+ String LF "".
Definition holds (p text : string) (s : DnsState) : bool := assert_eq (files (ds_fs s) !! p) (Some (as_bytes text)).

(** The state after a call whose result is unwrapped. *)
Definition after {A} (m : SE DnsState A) (s : DnsState) : match (m s).1 with Ok _ => DnsState | Err _ => unit end :=
  match (m s).1 as r return match r with Ok _ => DnsState | Err _ => unit end with Ok _ => (m s).2 | Err _ => tt end.

Definition apply_writes_nameserver_and_backs_up : bool :=
  let s : DnsState := after (dns_apply (Some (ip "1.1.1.1" : IpAddr))) (with_file (line "nameserver 192.168.1.1")) in
  holds path (line "nameserver 1.1.1.1") s && holds backup (line "nameserver 192.168.1.1") s.

Definition restore_returns_original : bool :=
  let s : DnsState := after (dns_apply (Some (ip "1.1.1.1" : IpAddr))) (with_file (line "nameserver 8.8.8.8")) in
  let s := dns_restore s in
  holds path (line "nameserver 8.8.8.8") s && negb (fs_exists backup (ds_fs s)).

Definition reload_switches_nameserver : bool :=
  let s : DnsState := after (dns_apply (Some (ip "1.1.1.1" : IpAddr))) (with_file (line "nameserver 8.8.8.8")) in
  let s : DnsState := after (dns_reload (Some (ip "9.9.9.9" : IpAddr))) s in
  holds path (line "nameserver 9.9.9.9") s && assert_eq (LinuxDns.current (ds_rc s)) (Some (ip "9.9.9.9" : IpAddr)) &&
  let s : DnsState := after (dns_reload None) s in
  holds path (line "nameserver 8.8.8.8") s && assert_eq (LinuxDns.current (ds_rc s)) None.

Definition apply_none_is_noop : bool :=
  let s : DnsState := after (dns_apply None) no_file in
  negb (fs_exists path (ds_fs s)) && assert_eq (LinuxDns.current (ds_rc s)) None.

Definition tests : list bool :=
  [apply_writes_nameserver_and_backs_up; restore_returns_original; reload_switches_nameserver; apply_none_is_noop].

Example linux_dns_tests_hold : forallb id tests = true.
Proof. vm_compute. reflexivity. Qed.
End LinuxDnsTests.
