(* ===== verification/Netlink.v ===== *)
(** * The kernel's routing table over netlink

    The [rtnetlink] and [netlink-packet-route] crates and the Linux kernel
    are not part of the program: the requests it makes of them are the
    operations of a class, and what it relies on, the documented effect of
    adding, replacing and deleting a route, is a second class of laws. A
    simulated kernel is an instance of both. *)

From Stdlib Require Import ZArith Lia.
From Stdlib Require Import Strings.Ascii Strings.String.
From stdpp Require Import base decidable list strings gmap.
From S2P Require Import Prelude StdNet Net.
#[local] Open Scope Z_scope.

(** ** Messages *)

Inductive IpVersion : Type := Ipv4 | Ipv6.

(** The attributes the program looks at; [OtherAttribute] is any other. *)
Inductive RouteAttribute : Type :=
| Destination (a : IpAddr)
| Gateway (a : IpAddr)
| Oif (index : Z)
| OtherAttribute.

Record RouteMessage : Type := mkRouteMessage {
  address_family : IpVersion;
  destination_prefix_length : Z;
  attributes : list RouteAttribute;
}.

Inductive LinkAttribute : Type := Mtu (mtu : Z) | OtherLinkAttribute.

Record LinkMessage : Type := mkLinkMessage { link_index : Z; link_attributes : list LinkAttribute }.

(** The request that [handle.route().add().replace()] builds. *)
Record RouteAdd : Type := mkRouteAdd {
  ra_dst : IpAddr;
  ra_prefix : Z;
  ra_gateway : option IpAddr;
  ra_oif : Z;
}.

(** ** Requests *)

Class Netlink (K : Type) := {
  nl_routes : IpVersion -> K -> list (Result string RouteMessage);
  nl_link_by_name : string -> K -> list (Result string LinkMessage);
  nl_link_by_index : Z -> K -> list (Result string LinkMessage);
  nl_replace : RouteAdd -> K -> Result string unit * K;
  nl_del : RouteMessage -> K -> Result string unit * K;
}.

(** ** Laws *)

Abbreviation RouteKey := (IpAddr * Z)%type.
Abbreviation NextHop := (option IpAddr * Z)%type.

(** The network the kernel keeps for a destination and a prefix length. It
    clears the host bits of an IPv6 destination; an IPv4 destination with
    host bits it refuses. *)
Definition kernel_key (net : RouteKey) : RouteKey :=
  match net with
  | (V4 a, p) => (V4 a, p)
  | (V6 a, p) => (V6 (Z.shiftl (Z.shiftr a (128 - p)) (128 - p)), p)
  end.

(** The network a message names and what it asks of the next hop. *)
Fixpoint msg_destination (l : list RouteAttribute) : option IpAddr :=
  match l with
  | [] => None
  | Destination a :: _ => Some a
  | _ :: l => msg_destination l
  end.

Fixpoint msg_gateway (l : list RouteAttribute) : option IpAddr :=
  match l with
  | [] => None
  | Gateway a :: _ => Some a
  | _ :: l => msg_gateway l
  end.

Fixpoint msg_oif (l : list RouteAttribute) : option Z :=
  match l with
  | [] => None
  | Oif i :: _ => Some i
  | _ :: l => msg_oif l
  end.

(** A deletion removes a route only when the gateway and the interface it
    gives are those of the route. *)
Definition hop_matches (m : RouteMessage) (h : NextHop) : Prop :=
  match msg_gateway (attributes m) with Some g => h.1 = Some g | None => True end /\
  match msg_oif (attributes m) with Some i => h.2 = i | None => True end.

#[global] Instance hop_matches_dec m h : Decision (hop_matches m h).
Proof. unfold hop_matches. apply and_dec; case_match; apply _. Defined.

Class RouteLaws (K : Type) `{!Netlink K} := {
  (** the main table: one next hop for each network *)
  nl_table : K -> gmap RouteKey NextHop;
  replace_ok : forall a k k', nl_replace a k = (Ok tt, k') ->
    nl_table k' = <[kernel_key (ra_dst a, ra_prefix a) := (ra_gateway a, ra_oif a)]> (nl_table k);
  replace_err : forall a k k' e, nl_replace a k = (Err e, k') -> nl_table k' = nl_table k;
  del_err : forall m k k' e, nl_del m k = (Err e, k') -> nl_table k' = nl_table k;
  del_ok : forall m k k', nl_del m k = (Ok tt, k') ->
    exists d h, msg_destination (attributes m) = Some d /\
      nl_table k !! kernel_key (d, destination_prefix_length m) = Some h /\ hop_matches m h /\
      nl_table k' = delete (kernel_key (d, destination_prefix_length m)) (nl_table k);
  del_present : forall m k d h, msg_destination (attributes m) = Some d ->
    nl_table k !! kernel_key (d, destination_prefix_length m) = Some h -> hop_matches m h ->
    exists k', nl_del m k = (Ok tt, k');
}.

(** ** A simulated kernel *)

Record SimKernel : Type := mkSim {
  sim_table : gmap RouteKey NextHop;
  sim_routes : IpVersion -> list (Result string RouteMessage);
  sim_links : list (string * LinkMessage);
}.

Definition sim_replace (a : RouteAdd) (k : SimKernel) : Result string unit * SimKernel :=
  (Ok tt, mkSim (<[kernel_key (ra_dst a, ra_prefix a) := (ra_gateway a, ra_oif a)]> (sim_table k))
                (sim_routes k) (sim_links k)).

Definition sim_del (m : RouteMessage) (k : SimKernel) : Result string unit * SimKernel :=
  match msg_destination (attributes m) with
  | None => (Err "Invalid argument", k)
  | Some d =>
      match sim_table k !! kernel_key (d, destination_prefix_length m) with
      | Some h => if decide (hop_matches m h)
                  then (Ok tt, mkSim (delete (kernel_key (d, destination_prefix_length m)) (sim_table k))
                                     (sim_routes k) (sim_links k))
                  else (Err "No such process", k)
      | None => (Err "No such process", k)
      end
  end.

#[global] Instance Sim_netlink : Netlink SimKernel := {|
  nl_routes v k := sim_routes k v;
  nl_link_by_name n k := (fun p => Ok p.2) <$> filter (fun p => p.1 = n) (sim_links k);
  nl_link_by_index i k := (fun p => Ok p.2) <$> filter (fun p => link_index p.2 = i) (sim_links k);
  nl_replace := sim_replace;
  nl_del := sim_del;
|}.

#[global] Program Instance Sim_laws : RouteLaws SimKernel := {| nl_table := sim_table |}.
Next Obligation. intros a k k' H. by injection H as <-. Qed.
Next Obligation. done. Qed.
Next Obligation. intros m k k' e H. simpl in H. unfold sim_del in H. split_cases. Qed.
Next Obligation.
  intros m k k' H. simpl in H. unfold sim_del in H. repeat case_match; simplify_eq. by eexists _, _.
Qed.
Next Obligation.
  intros m k d h Hd Ht Hm. simpl. unfold sim_del. rewrite Hd. rewrite Ht.
  rewrite decide_True by done. by eexists.
Qed.
