(* ===== verification/LinuxRoute.v ===== *)
(** * Linux routing ([src/platform/linux/route.rs], [linux/mod.rs], [linux/detect.rs])

    The route manager over an abstract kernel: gateway discovery, the routes
    it installs and removes, its DNS override, and the link detection that
    feeds the tuning. *)

From Stdlib Require Import ZArith Lia.
From Stdlib Require Import Strings.Ascii Strings.String.
From stdpp Require Import base decidable list strings gmap.
From S2P Require Import Prelude StdNet StdText Net Config NetText Logging Reload Platform LinuxDns Netlink Tune.
#[local] Open Scope Z_scope.

(** ** Definitions *)

Definition V4_SPLIT : list (Ipv4Addr * Z) := [(0, 1); (2147483648, 1)].
Definition V6_SPLIT : list (Ipv6Addr * Z) := [(0, 1); (170141183460469231731687303715884105728, 1)].

Definition host_prefix (addr : IpAddr) : Z := if is_ipv4 addr then 32 else 128.

Record RouteManager : Type := mkRM {
  proxy_ip : IpAddr;
  tun_index : Z;
  rm_dns : LinuxDns.ResolvConf;
  rm_dns_server : option IpAddr;
  bypass : CidrList;
  capture_ipv6 : bool;
  v4_gateway : option (Ipv4Addr * Z);
  v6_gateway : option (Ipv6Addr * Z);
  applied : bool;
}.

(** [stream.try_next().await.context(msg)?] in a [while let] loop: the first
    error ends the function. *)
Fixpoint first_some {M A : Type} (msg : string) (f : M -> option A) (l : list (Result string M)) : result (option A) :=
  match l with
  | [] => Ok None
  | Err e :: _ => Err [msg; e]
  | Ok m :: l => match f m with Some a => Ok (Some a) | None => first_some msg f l end
  end.

(** The inner loop over a route's attributes: the last gateway of the wanted
    family and the last interface win. *)
Fixpoint scan_v4 (l : list RouteAttribute) (gw : option Ipv4Addr) (oif : option Z) : option Ipv4Addr * option Z :=
  match l with
  | [] => (gw, oif)
  | Gateway (V4 addr) :: l => scan_v4 l (Some addr) oif
  | Oif idx :: l => scan_v4 l gw (Some idx)
  | _ :: l => scan_v4 l gw oif
  end.

Fixpoint scan_v6 (l : list RouteAttribute) (gw : option Ipv6Addr) (oif : option Z) : option Ipv6Addr * option Z :=
  match l with
  | [] => (gw, oif)
  | Gateway (V6 addr) :: l => scan_v6 l (Some addr) oif
  | Oif idx :: l => scan_v6 l gw (Some idx)
  | _ :: l => scan_v6 l gw oif
  end.

Definition default_v4_gateway (route : RouteMessage) : option (Ipv4Addr * Z) :=
  if negb (destination_prefix_length route =? 0) then None
  else match scan_v4 (attributes route) None None with
       | (Some g, Some i) => Some (g, i)
       | _ => None
       end.

Definition default_v6_gateway (route : RouteMessage) : option (Ipv6Addr * Z) :=
  if negb (destination_prefix_length route =? 0) then None
  else match scan_v6 (attributes route) None None with
       | (Some g, Some i) => Some (g, i)
       | _ => None
       end.

Definition build_del_message (dst : IpAddr) (prefix : Z) (oif : Z) (gw : option IpAddr) : RouteMessage :=
  mkRouteMessage (if is_ipv4 dst then Ipv4 else Ipv6) prefix
    ([Destination dst] ++ match gw with Some g => [Gateway g] | None => [] end ++ [Oif oif]).

Definition gateway_for (rm : RouteManager) (family : IpAddr) : option (IpAddr * Z) :=
  match family with
  | V4 _ => (fun '(g, o) => (V4 g, o)) <$> v4_gateway rm
  | V6 _ => (fun '(g, o) => (V6 g, o)) <$> v6_gateway rm
  end.


Section Manager.
Context {K : Type} `{!Netlink K}.

(** What a call can change: the manager, the kernel, the files and the log. *)
Record RS : Type := mkRS { rs_rm : RouteManager; rs_k : K; rs_fs : FS; rs_log : Log }.

Definition set_rm (f : RouteManager -> RouteManager) (s : RS) : RS := mkRS (f (rs_rm s)) (rs_k s) (rs_fs s) (rs_log s).
Definition set_k (k : K) (s : RS) : RS := mkRS (rs_rm s) k (rs_fs s) (rs_log s).
Definition rs_info (m : string) (s : RS) : RS := mkRS (rs_rm s) (rs_k s) (rs_fs s) (Logger.info m (rs_log s)).
Definition rs_warn (m : string) (s : RS) : RS := mkRS (rs_rm s) (rs_k s) (rs_fs s) (Logger.warn m (rs_log s)).

Definition with_gateways (v4 : option (Ipv4Addr * Z)) (v6 : option (Ipv6Addr * Z)) (rm : RouteManager) : RouteManager :=
  mkRM (proxy_ip rm) (tun_index rm) (rm_dns rm) (rm_dns_server rm) (bypass rm) (capture_ipv6 rm) v4 v6 (applied rm).
Definition with_applied (b : bool) (rm : RouteManager) : RouteManager :=
  mkRM (proxy_ip rm) (tun_index rm) (rm_dns rm) (rm_dns_server rm) (bypass rm) (capture_ipv6 rm) (v4_gateway rm) (v6_gateway rm) b.
Definition with_proxy_ip (ip : IpAddr) (rm : RouteManager) : RouteManager :=
  mkRM ip (tun_index rm) (rm_dns rm) (rm_dns_server rm) (bypass rm) (capture_ipv6 rm) (v4_gateway rm) (v6_gateway rm) (applied rm).
Definition with_bypass (l : CidrList) (rm : RouteManager) : RouteManager :=
  mkRM (proxy_ip rm) (tun_index rm) (rm_dns rm) (rm_dns_server rm) l (capture_ipv6 rm) (v4_gateway rm) (v6_gateway rm) (applied rm).
Definition with_dns (d : LinuxDns.ResolvConf) (rm : RouteManager) : RouteManager :=
  mkRM (proxy_ip rm) (tun_index rm) d (rm_dns_server rm) (bypass rm) (capture_ipv6 rm) (v4_gateway rm) (v6_gateway rm) (applied rm).
Definition with_dns_server (d : option IpAddr) (rm : RouteManager) : RouteManager :=
  mkRM (proxy_ip rm) (tun_index rm) (rm_dns rm) d (bypass rm) (capture_ipv6 rm) (v4_gateway rm) (v6_gateway rm) (applied rm).

(** The manager's [dns] field with the files and the log it works on. *)
Definition dns_view (s : RS) : DnsState := mkDns (rs_fs s) (rm_dns (rs_rm s)) (rs_log s).
Definition dns_put (d : DnsState) (s : RS) : RS :=
  mkRS (with_dns (ds_rc d) (rs_rm s)) (rs_k s) (ds_fs d) (ds_log d).
Definition on_dns {A} (m : SE DnsState A) : SE RS A := fun s =>
  let '(r, d) := m (dns_view s) in (r, dns_put d s).

Definition resolve_link_index (k : K) (name : string) : result Z :=
  let? msg := context "netlink error querying link index"
    (match nl_link_by_name name k with
     | [] => Ok None
     | Ok m :: _ => Ok (Some m)
     | Err e :: _ => Err [e]
     end) in
  let? m := opt_context ("interface " +:+ name +:+ " not found") msg in
  Ok (link_index m).

Definition RouteManager_new (k : K) (proxy_ip : IpAddr) (tun_name : string) (dns_server : option IpAddr)
    (bypass : CidrList) (capture_ipv6 : bool) : result RouteManager :=
  let? tun_index := resolve_link_index k tun_name in
  Ok {| proxy_ip := proxy_ip; tun_index := tun_index; rm_dns := ResolvConf.system;
        rm_dns_server := dns_server; bypass := bypass; capture_ipv6 := capture_ipv6;
        v4_gateway := None; v6_gateway := None; applied := false |}.

(** [None] is the panic of an accessor of [cfg]; [conn] is the outcome of
    opening the netlink socket. *)
Definition new_route_controller (conn : result K) (cfg : Config) (proxy_ip : IpAddr) (tun_name : string)
    (capture_ipv6 : bool) : option (result RouteManager) :=
  match context "failed to open netlink socket" conn with
  | Err e => Some (Err e)
  | Ok k =>
      match dns_addr cfg, bypass_routes cfg with
      | Some d, Some b => Some (RouteManager_new k proxy_ip tun_name d b capture_ipv6)
      | _, _ => None
      end
  end.

Definition read_v4_gateway : SE RS (option (Ipv4Addr * Z)) := fun s =>
  (first_some "netlink error reading IPv4 routes" default_v4_gateway (nl_routes Ipv4 (rs_k s)), s).

Definition read_v6_gateway : SE RS (option (Ipv6Addr * Z)) := fun s =>
  (first_some "netlink error reading IPv6 routes" default_v6_gateway (nl_routes Ipv6 (rs_k s)), s).

(** A request to the kernel as a statement. *)
Definition nl_op (op : K -> Result string unit * K) : SE RS unit := fun s =>
  let '(r, k) := op (rs_k s) in
  (match r with Ok _ => Ok tt | Err e => Err [e] end, set_k k s).

Definition add_via_gateway (dst : IpAddr) (prefix : Z) (gw : IpAddr) (oif : Z) : SE RS unit :=
  match dst, gw with
  | V4 _, V4 _ | V6 _, V6 _ =>
      se_context ("failed to add route " +:+ show_net dst prefix +:+ " via " +:+ show_ip gw)
        (nl_op (nl_replace (mkRouteAdd dst prefix (Some gw) oif)))
  | _, _ => fun s => (bail ("address family mismatch for route " +:+ show_net dst prefix), s)
  end.

Definition add_via_tun (dst : IpAddr) (prefix : Z) : SE RS unit := fun s =>
  se_context ("failed to add split route " +:+ show_net dst prefix +:+ " via tun")
    (nl_op (nl_replace (mkRouteAdd dst prefix None (tun_index (rs_rm s))))) s.

Definition del_route (dst : IpAddr) (prefix : Z) (oif : Z) (gw : option IpAddr) : SE RS unit :=
  se_context ("failed to delete route " +:+ show_net dst prefix)
    (nl_op (nl_del (build_del_message dst prefix oif gw))).

(** A deletion whose failure is only logged; [{e}] prints the outermost
    message of the chain. *)
Definition del_or_warn (dst : IpAddr) (prefix : Z) (oif : Z) (gw : option IpAddr) (what : string) (s : RS) : RS :=
  match del_route dst prefix oif gw s with
  | (Ok _, s') => s'
  | (Err e, s') => rs_warn (what +:+ hd "" e) s'
  end.

(** [if let Some((gw, oif)) = self.gateway_for(dst) && let Err(e) = ...] *)
Definition del_gateway_or_warn (dst : IpAddr) (prefix : Z) (what : string) (s : RS) : RS :=
  match gateway_for (rs_rm s) dst with
  | Some (gw, oif) => del_or_warn dst prefix oif (Some gw) what s
  | None => s
  end.

(** The loops over bypass networks of [apply] and [reload]. *)
Definition add_bypass (suffix skipping : string) (net : IpAddr * Z) : SE RS unit := fun s =>
  let '(dst, prefix) := net in
  match gateway_for (rs_rm s) dst with
  | Some (gw, oif) =>
      (do! se_context ("failed to add bypass route " +:+ show_net dst prefix)
             (add_via_gateway dst prefix gw oif) in
       se_do (rs_info ("bypass route " +:+ show_net dst prefix +:+ " via " +:+ show_ip gw +:+ " added" +:+ suffix))) s
  | None => (Ok tt, rs_warn (skipping +:+ show_net dst prefix +:+ ": no gateway for its family") s)
  end.

Definition apply : SE RS unit :=
  let! v4 := read_v4_gateway in
  do! se_do (set_rm (fun rm => with_gateways v4 (v6_gateway rm) rm)) in
  let! v6 := read_v6_gateway in
  do! se_do (set_rm (fun rm => with_gateways (v4_gateway rm) v6 rm)) in
  do! se_do (fun s => match v4 with
                      | Some (g, o) => rs_info ("IPv4 gateway: " +:+ show_v4 g +:+ " on ifindex " +:+ show_dec o) s
                      | None => s
                      end) in
  do! se_do (fun s => match v6 with
                      | Some (g, o) => rs_info ("IPv6 gateway: " +:+ show_v6 g +:+ " on ifindex " +:+ show_dec o) s
                      | None => s
                      end) in
  fun s =>
  let proxy := proxy_ip (rs_rm s) in
  match gateway_for (rs_rm s) proxy with
  | None => (Err ["no default gateway for proxy address family (" +:+ show_ip proxy +:+ ")"], s)
  | Some (proxy_gw, proxy_oif) =>
      (do! se_context "failed to protect proxy route"
             (add_via_gateway proxy (host_prefix proxy) proxy_gw proxy_oif) in
       do! se_do (rs_info ("host route for proxy " +:+ show_ip proxy +:+ " via " +:+ show_ip proxy_gw +:+ " added")) in
       do! se_for (bypass (rs_rm s)) (add_bypass "" "skipping bypass route ") in
       do! se_for V4_SPLIT (fun '(dst, prefix) => add_via_tun (V4 dst) prefix) in
       do! se_do (rs_info "IPv4 split-default routes into tun added") in
       do! (if capture_ipv6 (rs_rm s)
            then if bool_decide (is_Some (v6_gateway (rs_rm s))) || is_ipv6 proxy
                 then do! se_for V6_SPLIT (fun '(dst, prefix) => add_via_tun (V6 dst) prefix) in
                      se_do (rs_info "IPv6 split-default routes into tun added")
                 else se_do (rs_warn "capture_ipv6 enabled but no IPv6 gateway present, skipping IPv6 capture")
            else se_ret tt) in
       do! on_dns (dns_apply (rm_dns_server (rs_rm s))) in
       se_do (set_rm (with_applied true))) s
  end.

(** The first part of [reload]: moving the proxy's host route. *)
Definition move_proxy_route (change : option (IpAddr * IpAddr)) : SE RS unit :=
  match change with
  | None => se_ret tt
  | Some (old_ip, new_ip) =>
      do! se_do (del_gateway_or_warn old_ip (host_prefix old_ip) "reload: removing old proxy route: ") in
      fun s =>
      match gateway_for (rs_rm s) new_ip with
      | None => (Err ["no default gateway for new proxy address family (" +:+ show_ip new_ip +:+ ")"], s)
      | Some (gw, oif) =>
          (do! se_context "failed to install new proxy host route"
                 (add_via_gateway new_ip (host_prefix new_ip) gw oif) in
           do! se_do (set_rm (with_proxy_ip new_ip)) in
           se_do (rs_info ("proxy host route moved to " +:+ show_ip new_ip +:+ " via " +:+ show_ip gw))) s
      end
  end.

Definition remove_bypass (what : string -> string) (l : CidrList) (s : RS) : RS :=
  fold_left (fun s '(dst, prefix) => del_gateway_or_warn dst prefix (what (show_net dst prefix)) s) l s.

Definition reload (plan : ReloadPlan) : SE RS unit := fun s =>
  if negb (applied (rs_rm s)) then (Ok tt, s)
  else
    (do! move_proxy_route (rp_proxy_route_change plan) in
     do! se_do (remove_bypass (fun n => "reload: removing bypass " +:+ n +:+ ": ") (rp_bypass_remove plan)) in
     do! se_for (rp_bypass_add plan) (add_bypass " (reload)" "reload: skipping bypass route ") in
     do! se_do (set_rm (with_bypass (rp_new_bypass plan))) in
     if rp_dns_changed plan
     then do! on_dns (dns_reload (rp_dns plan)) in
          se_do (set_rm (with_dns_server (rp_dns plan)))
     else se_ret tt) s.

Definition teardown (s : RS) : RS :=
  if negb (applied (rs_rm s)) then s
  else
    let s := set_rm (with_applied false) s in
    let s := del_gateway_or_warn (proxy_ip (rs_rm s)) (host_prefix (proxy_ip (rs_rm s))) "teardown: " s in
    let s := remove_bypass (fun _ => "teardown: ") (bypass (rs_rm s)) s in
    let s := fold_left (fun s '(dst, prefix) =>
               del_or_warn (V4 dst) prefix (tun_index (rs_rm s)) None "teardown: " s) V4_SPLIT s in
    let s := if capture_ipv6 (rs_rm s)
             then fold_left (fun s '(dst, prefix) =>
                    del_or_warn (V6 dst) prefix (tun_index (rs_rm s)) None "teardown: " s) V6_SPLIT s
             else s in
    let s := rs_info "routes removed" s in
    dns_put (dns_restore (dns_view s)) s.

#[global] Instance RouteManager_controller : RouteController RS := {|
  rc_apply := apply;
  rc_reload := reload;
  rc_teardown := teardown;
|}.

(** *** Link detection *)

Fixpoint first_oif (l : list RouteAttribute) : option Z :=
  match l with
  | [] => None
  | Oif index :: _ => Some index
  | _ :: l => first_oif l
  end.

Definition default_v4_oif (k : K) : result (option Z) :=
  first_some "netlink error reading IPv4 routes"
    (fun route => if negb (destination_prefix_length route =? 0) then None else first_oif (attributes route))
    (nl_routes Ipv4 k).

Definition has_v6_gateway_attr (l : list RouteAttribute) : bool :=
  existsb (fun a => match a with Gateway (V6 _) => true | _ => false end) l.

Definition default_v6_present (k : K) : result bool :=
  let? found := first_some "netlink error reading IPv6 routes"
    (fun route => if negb (destination_prefix_length route =? 0) then None
                  else if has_v6_gateway_attr (attributes route) then Some tt else None)
    (nl_routes Ipv6 k) in
  Ok (match found with Some _ => true | None => false end).

Fixpoint first_mtu (l : list LinkAttribute) : option Z :=
  match l with
  | [] => None
  | Mtu mtu :: _ => Some mtu
  | _ :: l => first_mtu l
  end.

Definition link_mtu (k : K) (index : Z) : result (option Z) :=
  match nl_link_by_index index k with
  | [] => Ok None
  | Ok msg :: _ => Ok (first_mtu (link_attributes msg))
  | Err e :: _ => Err ["netlink error reading link attributes"; e]
  end.

Definition gather (k : K) : result LinkInfo :=
  let? oif := default_v4_oif k in
  let? mtu := (match oif with Some index => link_mtu k index | None => Ok None end) in
  let? has_ipv6_gateway := default_v6_present k in
  Ok (mkLinkInfo mtu has_ipv6_gateway).

Definition detect_link (conn : result K) : LinkInfo :=
  match (let? k := context "failed to open netlink socket" conn in gather k) with
  | Ok info => info
  | Err _ => mkLinkInfo None false
  end.
End Manager.
Arguments RS : clear implicits.

(** ** Specification *)

(** The next hop of networks that bypass the tunnel: the default gateway of
    their family. *)
Definition gw_hop (rm : RouteManager) (d : IpAddr) : option NextHop :=
  (fun '(g, o) => (Some g, o)) <$> gateway_for rm d.

Definition v4_nets : list RouteKey := (fun '(d, p) => (V4 d, p)) <$> V4_SPLIT.
Definition v6_nets : list RouteKey := (fun '(d, p) => (V6 d, p)) <$> V6_SPLIT.

(** The networks routed into the tunnel. *)
Definition tun_nets (rm : RouteManager) : list RouteKey :=
  v4_nets ++ (if capture_ipv6 rm && (bool_decide (is_Some (v6_gateway rm)) || is_ipv6 (proxy_ip rm))
              then v6_nets else []).

Definition proxy_net (rm : RouteManager) : RouteKey := (proxy_ip rm, host_prefix (proxy_ip rm)).

(** The bypass networks, as the kernel keeps them. *)
Definition bypass_nets (rm : RouteManager) : list RouteKey := kernel_key <$> bypass rm.

(** The routes of an applied manager. *)
Definition installed (rm : RouteManager) (k : RouteKey) : option NextHop :=
  if decide (k ∈ tun_nets rm) then Some (None, tun_index rm)
  else if decide (k ∈ proxy_net rm :: bypass_nets rm) then gw_hop rm k.1
  else None.

(** The routes it removes at teardown. *)
Definition own (rm : RouteManager) (k : RouteKey) (h : NextHop) : Prop :=
  (k ∈ proxy_net rm :: bypass_nets rm /\ gw_hop rm k.1 = Some h) \/
  (h.2 = tun_index rm /\ (k ∈ v4_nets \/ (capture_ipv6 rm = true /\ k ∈ v6_nets))).

(** No route of the manager was there before. *)
Definition fresh (base : gmap RouteKey NextHop) (rm : RouteManager) : Prop :=
  forall k h, own rm k h -> base !! k = None.

(** Every route is the host's own or one the manager knows to remove. *)
Definition managed (base t : gmap RouteKey NextHop) (rm : RouteManager) : Prop :=
  forall k, t !! k = base !! k \/ exists h, t !! k = Some h /\ own rm k h.

Section Laws.
Context {K : Type} `{!Netlink K} `{!RouteLaws K}.

Abbreviation table s := (nl_table (rs_k s)).

(** A run of the tunnel on a host whose table was [base] and whose
    [resolv.conf] held [c0]: an apply and any number of reloads, all
    successful. *)
Inductive session (base : gmap RouteKey NextHop) (c0 : list byte) : RS K -> Prop :=
| session_apply s s' :
    table s = base -> rm_dns (rs_rm s) = ResolvConf.system ->
    files (rs_fs s) !! RESOLV_CONF_PATH = Some c0 -> fs_good (rs_fs s) ->
    rc_apply s = (Ok tt, s') -> fresh base (rs_rm s') ->
    session base c0 s'
| session_reload s s' plan :
    session base c0 s -> plan_fits (proxy_ip (rs_rm s)) (bypass (rs_rm s)) plan ->
    rc_reload plan s = (Ok tt, s') -> fresh base (rs_rm s') ->
    session base c0 s'.

(** ** Lemmas: one operation at a time *)

Lemma gateway_family rm d gw oif :
  gateway_for rm d = Some (gw, oif) -> is_ipv4 gw = is_ipv4 d.
Proof.
  destruct d; simpl; [destruct (v4_gateway rm) as [[]|] | destruct (v6_gateway rm) as [[]|]];
    simpl; intros; by simplify_eq.
Qed.

(** Host routes and the split networks have no host bits; a network's family
    is that of what the kernel keeps. *)
Lemma host_key ip : kernel_key (ip, host_prefix ip) = (ip, host_prefix ip).
Proof. by destruct ip. Qed.

Lemma gw_hop_key rm d p : gw_hop rm (kernel_key (d, p)).1 = gw_hop rm d.
Proof. by destruct d. Qed.

Lemma nl_op_replace a (s : RS K) s' :
  nl_op (nl_replace a) s = (Ok tt, s') ->
  table s' = <[kernel_key (ra_dst a, ra_prefix a) := (ra_gateway a, ra_oif a)]> (table s) /\
  rs_rm s' = rs_rm s /\ rs_fs s' = rs_fs s.
Proof.
  unfold nl_op. destruct (nl_replace a (rs_k s)) as [[[] |] k] eqn:E; intros [= <-].
  simpl. split; [by apply replace_ok | done].
Qed.

Lemma add_via_gateway_ok d p gw oif (s : RS K) s' :
  add_via_gateway d p gw oif s = (Ok tt, s') ->
  table s' = <[kernel_key (d, p) := (Some gw, oif)]> (table s) /\ rs_rm s' = rs_rm s /\ rs_fs s' = rs_fs s.
Proof. unfold add_via_gateway. intros H. repeat case_match; try done; apply se_context_ok in H; by apply nl_op_replace in H. Qed.

Lemma add_via_tun_ok d p (s : RS K) s' :
  add_via_tun d p s = (Ok tt, s') ->
  table s' = <[kernel_key (d, p) := (None, tun_index (rs_rm s))]> (table s) /\ rs_rm s' = rs_rm s /\ rs_fs s' = rs_fs s.
Proof. unfold add_via_tun. intros H%se_context_ok. by apply nl_op_replace in H. Qed.

Lemma add_bypass_ok sf sk d p (s : RS K) s' :
  add_bypass sf sk (d, p) s = (Ok tt, s') ->
  table s' = match gw_hop (rs_rm s) d with Some h => <[kernel_key (d, p) := h]> (table s) | None => table s end /\
  rs_rm s' = rs_rm s /\ rs_fs s' = rs_fs s.
Proof.
  unfold add_bypass, gw_hop. destruct (gateway_for _ d) as [[gw oif] |]; [| by intros [= <-]].
  intros ([] & s1 & H1%se_context_ok & H2)%se_bind_ok. injection H2 as <-.
  by apply add_via_gateway_ok in H1.
Qed.

Lemma for_bypass_ok sf sk l (s : RS K) s' :
  se_for l (add_bypass sf sk) s = (Ok tt, s') ->
  rs_rm s' = rs_rm s /\ rs_fs s' = rs_fs s /\
  forall k, table s' !! k = if decide (k ∈ kernel_key <$> l)
                            then match gw_hop (rs_rm s) k.1 with Some h => Some h | None => table s !! k end
                            else table s !! k.
Proof.
  revert s. induction l as [| [d p] l IH]; intros s H; [by injection H as <- |].
  apply se_bind_ok in H as ([] & s1 & H1 & H2). apply add_bypass_ok in H1 as (Ht & Hrm & Hfs).
  apply IH in H2 as (Hrm' & Hfs' & H2). split_and!; [congruence .. |]. intros k. rewrite H2, Hrm, Ht.
  rewrite fmap_cons. destruct (decide (k = kernel_key (d, p))) as [-> | Hk].
  - rewrite (decide_True (P := kernel_key (d, p) ∈ kernel_key (d, p) :: _)) by left. rewrite gw_hop_key.
    destruct (gw_hop (rs_rm s) d); [rewrite lookup_insert_eq |]; by case_decide.
  - rewrite (decide_ext (k ∈ kernel_key (d, p) :: (kernel_key <$> l)) (k ∈ kernel_key <$> l))
      by (rewrite elem_of_cons; naive_solver).
    destruct (gw_hop (rs_rm s) d); [| done]. by rewrite lookup_insert_ne.
Qed.

(** The two split loops. *)
Lemma for_tun_ok {A} (f : A -> IpAddr * Z) l (s : RS K) s' :
  (forall x, x ∈ l -> kernel_key (f x) = f x) ->
  se_for l (fun x => add_via_tun (f x).1 (f x).2) s = (Ok tt, s') ->
  rs_rm s' = rs_rm s /\ rs_fs s' = rs_fs s /\
  forall k, table s' !! k = if decide (k ∈ f <$> l) then Some (None, tun_index (rs_rm s)) else table s !! k.
Proof.
  intros Hkey. revert s. induction l as [| x l IH]; intros s H; [by injection H as <- |].
  apply se_bind_ok in H as ([] & s1 & H1 & H2). apply add_via_tun_ok in H1 as (Ht & Hrm & Hfs).
  apply IH in H2 as (Hrm' & Hfs' & H2); [| by intros y Hy; apply Hkey; right].
  split_and!; [congruence .. |]. intros k. rewrite H2, Hrm, Ht.
  rewrite <- (surjective_pairing (f x)), Hkey by left.
  rewrite fmap_cons. destruct (decide (k = f x)) as [-> | Hk].
  - rewrite (decide_True (P := f x ∈ f x :: _)) by left. case_decide; [done |].
    apply lookup_insert_eq.
  - rewrite (decide_ext (k ∈ f x :: (f <$> l)) (k ∈ f <$> l)) by (rewrite elem_of_cons; naive_solver).
    by rewrite lookup_insert_ne.
Qed.

Lemma split6_key x : x ∈ V6_SPLIT -> kernel_key ((fun '(d, p) => (V6 d, p)) x) = (fun '(d, p) => (V6 d, p)) x.
Proof. intros [-> | [-> | ?%not_elem_of_nil]%elem_of_cons]%elem_of_cons; done. Qed.

Lemma for_v4_split (s : RS K) s' :
  se_for V4_SPLIT (fun '(dst, prefix) => add_via_tun (V4 dst) prefix) s = (Ok tt, s') ->
  rs_rm s' = rs_rm s /\ rs_fs s' = rs_fs s /\
  forall k, table s' !! k = if decide (k ∈ v4_nets) then Some (None, tun_index (rs_rm s)) else table s !! k.
Proof. apply (for_tun_ok (fun '(d, p) => (V4 d, p)) V4_SPLIT). by intros [d p]. Qed.

Lemma for_v6_split (s : RS K) s' :
  se_for V6_SPLIT (fun '(dst, prefix) => add_via_tun (V6 dst) prefix) s = (Ok tt, s') ->
  rs_rm s' = rs_rm s /\ rs_fs s' = rs_fs s /\
  forall k, table s' !! k = if decide (k ∈ v6_nets) then Some (None, tun_index (rs_rm s)) else table s !! k.
Proof. apply (for_tun_ok (fun '(d, p) => (V6 d, p)) V6_SPLIT). apply split6_key. Qed.

(** ** Lemmas: applying *)

Definition over (o : option NextHop) (t : option NextHop) : option NextHop :=
  match o with Some h => Some h | None => t end.

Lemma on_dns_ok (m : SE DnsState unit) (s : RS K) s' :
  on_dns m s = (Ok tt, s') ->
  exists d, m (dns_view s) = (Ok tt, d) /\ s' = dns_put d s.
Proof. unfold on_dns. destruct (m (dns_view s)) as [r d] eqn:E. intros [= -> <-]. by exists d. Qed.

(** The networks of IPv6 that an [apply] sends into the device. *)
Lemma for_v6_capture (b : bool) (m : string) (c : bool) (w : string) (s s' : RS K) :
  (if c then if b then do! se_for V6_SPLIT (fun '(dst, prefix) => add_via_tun (V6 dst) prefix) in se_do (rs_info m)
             else se_do (rs_warn w)
   else se_ret tt) s = (Ok tt, s') ->
  rs_rm s' = rs_rm s /\ rs_fs s' = rs_fs s /\
  forall k, table s' !! k = if decide (k ∈ if c && b then v6_nets else [])
                            then Some (None, tun_index (rs_rm s)) else table s !! k.
Proof.
  intros H. destruct c; simpl; [| by injection H as <-]. destruct b; [| by injection H as <-].
  apply se_bind_ok in H as ([] & s1 & H1 & H). injection H as <-. by apply for_v6_split in H1.
Qed.

(** The three layers [apply] writes, the host route first, then the bypass
    routes, then the split routes, amount to [installed]. *)
Lemma installed_layers (rm : RouteManager) (gw : IpAddr) (oif : Z) (t : gmap RouteKey NextHop) (k : RouteKey) :
  gateway_for rm (proxy_ip rm) = Some (gw, oif) ->
  let l6 := if capture_ipv6 rm && (bool_decide (is_Some (v6_gateway rm)) || is_ipv6 (proxy_ip rm))
            then v6_nets else [] in
  let t1 := <[proxy_net rm := (Some gw, oif)]> t in
  (if decide (k ∈ l6) then Some (None, tun_index rm)
   else if decide (k ∈ v4_nets) then Some (None, tun_index rm)
   else if decide (k ∈ bypass_nets rm) then over (gw_hop rm k.1) (t1 !! k)
   else t1 !! k) = over (installed rm k) (t !! k).
Proof.
  intros Hgw. cbv zeta. unfold installed, tun_nets. set (l6 := if _ && _ then v6_nets else []).
  destruct (decide (k ∈ l6)); [by rewrite decide_True by (apply elem_of_app; by right) |].
  destruct (decide (k ∈ v4_nets)); [by rewrite decide_True by (apply elem_of_app; by left) |].
  rewrite (decide_False (P := k ∈ v4_nets ++ l6)) by (rewrite elem_of_app; tauto).
  destruct (decide (k = proxy_net rm)) as [-> | Hk].
  - rewrite (decide_True (P := proxy_net rm ∈ proxy_net rm :: _)) by left.
    change ((proxy_net rm).1) with (proxy_ip rm).
    assert (gw_hop rm (proxy_ip rm) = Some (Some gw, oif)) as -> by (unfold gw_hop; by rewrite Hgw).
    case_decide; [done |]. apply lookup_insert_eq.
  - rewrite (decide_ext (k ∈ proxy_net rm :: bypass_nets rm) (k ∈ bypass_nets rm)) by (rewrite elem_of_cons; tauto).
    rewrite lookup_insert_ne by congruence. by case_decide.
Qed.

Lemma apply_ok (s s' : RS K) :
  apply s = (Ok tt, s') ->
  exists v4 v6 d log,
    let rm := with_gateways v4 v6 (rs_rm s) in
    rs_rm s' = with_applied true (with_dns (ds_rc d) rm) /\
    rs_fs s' = ds_fs d /\
    dns_apply (rm_dns_server (rs_rm s)) (mkDns (rs_fs s) (rm_dns (rs_rm s)) log) = (Ok tt, d) /\
    is_Some (gw_hop rm (proxy_ip rm)) /\
    forall k, table s' !! k = over (installed rm k) (table s !! k).
Proof.
  unfold apply. intros H.
  apply se_bind_ok in H as (v4 & s1 & H1 & H). injection H1 as _ <-.
  apply se_bind_ok in H as ([] & s1 & H1 & H). injection H1 as <-.
  apply se_bind_ok in H as (v6 & s1 & H1 & H). injection H1 as _ <-.
  apply se_bind_ok in H as ([] & s1 & H1 & H). injection H1 as <-.
  apply se_bind_ok in H as ([] & s1 & H1 & H). injection H1 as H1.
  apply se_bind_ok in H as ([] & s2 & H2 & H). injection H2 as H2.
  set (rm := with_gateways v4 v6 (rs_rm s)).
  assert (Hs2 : rs_rm s2 = rm /\ rs_fs s2 = rs_fs s /\ rs_k s2 = rs_k s).
  { subst s1 s2. by destruct v4 as [[] |], v6 as [[] |]. }
  clear H1 H2 s1. destruct Hs2 as (Hrm2 & Hfs2 & Hk2). rewrite Hrm2 in H. cbv zeta in H.
  destruct (gateway_for rm (proxy_ip rm)) as [[gw oif] |] eqn:Hgw; [| done].
  apply se_bind_ok in H as ([] & s3 & H3%se_context_ok & H).
  apply add_via_gateway_ok in H3 as (Ht3 & Hrm3 & Hfs3). rewrite host_key in Ht3.
  apply se_bind_ok in H as ([] & s4 & H4 & H). injection H4 as H4.
  apply se_bind_ok in H as ([] & s5 & H5 & H). apply for_bypass_ok in H5 as (Hrm5 & Hfs5 & Ht5).
  apply se_bind_ok in H as ([] & s6 & H6 & H). apply for_v4_split in H6 as (Hrm6 & Hfs6 & Ht6).
  apply se_bind_ok in H as ([] & s7 & H7 & H). injection H7 as H7.
  apply se_bind_ok in H as ([] & s8 & H8 & H).
  apply for_v6_capture in H8 as (Hrm8 & Hfs8 & Ht8).
  apply se_bind_ok in H as ([] & s9 & H9 & H). injection H as H.
  apply on_dns_ok in H9 as (d & Hd & Hs9).
  exists v4, v6, d, (rs_log s8). cbv zeta.
  assert (Hrm : rs_rm s4 = rm) by (subst s4; simpl; congruence).
  assert (Hrm7 : rs_rm s7 = rm) by (subst s7; simpl; congruence).
  split_and!.
  - subst s' s9. simpl. by rewrite Hrm8, Hrm7.
  - by subst s' s9.
  - rewrite <- Hd. unfold dns_view. do 2 f_equal; [| rewrite Hrm8, Hrm7; done].
    rewrite Hfs8. subst s7. simpl. rewrite Hfs6, Hfs5. subst s4. simpl. congruence.
  - unfold gw_hop. fold rm. rewrite Hgw. by eexists.
  - intros k. subst s' s9. simpl. rewrite Ht8, Hrm7. subst s7. simpl.
    rewrite Ht6, Hrm5, Ht5, Hrm. subst s4. simpl. rewrite Ht3, Hk2.
    by apply (installed_layers rm gw oif (table s) k).
Qed.

Lemma installed_own rm k h : installed rm k = Some h -> own rm k h.
Proof.
  unfold installed, own, tun_nets. case_decide as H.
  - intros [= <-]. right. split; [done |]. apply elem_of_app in H as [H | H]; [by left | right].
    destruct (capture_ipv6 rm); simpl in H; [| by apply not_elem_of_nil in H].
    case_match; [done | by apply not_elem_of_nil in H].
  - case_decide; [| done]. intros. by left.
Qed.

(** ** Lemmas: removing

    [prune P t t']: exactly the routes of [t] that satisfy [P] are gone. *)

Definition prune (P : RouteKey -> NextHop -> Prop) (t t' : gmap RouteKey NextHop) : Prop :=
  forall k, (t' !! k = None /\ exists h, t !! k = Some h /\ P k h) \/
            (t' !! k = t !! k /\ forall h, t !! k = Some h -> ~ P k h).

Lemma prune_refl (P : RouteKey -> NextHop -> Prop) t : (forall k h, ~ P k h) -> prune P t t.
Proof. intros HP k. right. naive_solver. Qed.

Lemma prune_trans P Q t t' t'' :
  prune P t t' -> prune Q t' t'' -> prune (fun k h => P k h \/ Q k h) t t''.
Proof.
  intros HP HQ k. destruct (HP k) as [[H1 (h & Hh & Hp)] | [H1 Hn]], (HQ k) as [[H2 (h' & Hh' & Hq)] | [H2 Hn']].
  - congruence.
  - left. split; [congruence | eauto].
  - left. split; [done |]. exists h'. rewrite H1 in Hh'. eauto.
  - right. split; [congruence |]. intros h Hh [Hp | Hq]; [by eapply Hn |]. eapply Hn'; [by rewrite H1 | done].
Qed.

Lemma prune_ext (P Q : RouteKey -> NextHop -> Prop) t t' :
  (forall k h, P k h <-> Q k h) -> prune P t t' -> prune Q t t'.
Proof. intros H HP k. destruct (HP k) as [[? (h & ? & ?)] | [? ?]]; [left | right]; naive_solver. Qed.

Definition kills (d : IpAddr) (p oif : Z) (gw : option IpAddr) (k : RouteKey) (h : NextHop) : Prop :=
  k = kernel_key (d, p) /\ h.2 = oif /\ match gw with Some g => h.1 = Some g | None => True end.

Lemma del_message_matches d p oif gw h :
  hop_matches (build_del_message d p oif gw) h <->
  h.2 = oif /\ match gw with Some g => h.1 = Some g | None => True end.
Proof. unfold hop_matches, build_del_message. destruct gw; simpl; tauto. Qed.

Lemma del_or_warn_prune d p oif gw w (s : RS K) :
  rs_rm (del_or_warn d p oif gw w s) = rs_rm s /\ rs_fs (del_or_warn d p oif gw w s) = rs_fs s /\
  prune (kills d p oif gw) (table s) (table (del_or_warn d p oif gw w s)).
Proof.
  unfold del_or_warn, del_route, se_context, nl_op.
  destruct (nl_del (build_del_message d p oif gw) (rs_k s)) as [[[] | e] k] eqn:E; simpl;
    (split; [done |]; split; [done |]); intros k'.
  - apply del_ok in E as (d' & h & Hd & Hh & Hm & ->). simpl in Hd. simplify_eq. simpl in *.
    apply del_message_matches in Hm. destruct (decide (k' = kernel_key (d', p))) as [-> | Hk].
    + left. rewrite lookup_delete_eq. split; [done |]. exists h. done.
    + right. rewrite lookup_delete_ne by done. split; [done |]. by intros h' _ [? _].
  - pose proof (del_err _ _ _ _ E) as Ht. right. rewrite Ht. split; [done |].
    intros h Hh (-> & Hm). destruct (del_present (build_del_message d p oif gw) (rs_k s) d h) as [k'' E'];
      [done | done | by apply del_message_matches | congruence].
Qed.

(** Removing a network that goes through its family's gateway. *)
Definition gw_kill (rm : RouteManager) (x : RouteKey) (k : RouteKey) (h : NextHop) : Prop :=
  k = x /\ gw_hop rm k.1 = Some h.

Lemma del_gateway_prune d p w (s : RS K) :
  rs_rm (del_gateway_or_warn d p w s) = rs_rm s /\ rs_fs (del_gateway_or_warn d p w s) = rs_fs s /\
  prune (gw_kill (rs_rm s) (kernel_key (d, p))) (table s) (table (del_gateway_or_warn d p w s)).
Proof.
  unfold del_gateway_or_warn. destruct (gateway_for (rs_rm s) d) as [[gw oif] |] eqn:E.
  - destruct (del_or_warn_prune d p oif (Some gw) w s) as (H1 & H2 & H3). split_and!; [done .. |].
    eapply prune_ext; [| exact H3]. intros k [g o]. unfold kills, gw_kill. cbn [fst snd].
    split.
    + intros (-> & -> & ->). rewrite gw_hop_key. unfold gw_hop. by rewrite E.
    + intros (-> & H). rewrite gw_hop_key in H. unfold gw_hop in H. rewrite E in H. cbn in H. naive_solver.
  - split_and!; [done .. |]. apply prune_refl. intros k h [-> H]. rewrite gw_hop_key in H. unfold gw_hop in H.
    by rewrite E in H.
Qed.

Lemma remove_bypass_prune w l (s : RS K) :
  rs_rm (remove_bypass w l s) = rs_rm s /\ rs_fs (remove_bypass w l s) = rs_fs s /\
  prune (fun k h => k ∈ kernel_key <$> l /\ gw_hop (rs_rm s) k.1 = Some h) (table s) (table (remove_bypass w l s)).
Proof.
  unfold remove_bypass. revert s. induction l as [| [d p] l IH]; intros s.
  - split_and!; [done .. |]. apply prune_refl. intros k h [H _]. by apply not_elem_of_nil in H.
  - cbn [fold_left]. destruct (del_gateway_prune d p (w (show_net d p)) s) as (Hr & Hf & Hp).
    set (s1 := del_gateway_or_warn _ _ _ _) in *. destruct (IH s1) as (Hr' & Hf' & Hp').
    split_and!; [congruence .. |]. rewrite Hr in Hp'.
    eapply prune_ext; [| eapply prune_trans; [exact Hp | exact Hp']].
    intros k h. unfold gw_kill. rewrite fmap_cons, elem_of_cons. tauto.
Qed.

Lemma del_splits_prune {A} (f : A -> IpAddr * Z) w l (s : RS K) :
  (forall x, x ∈ l -> kernel_key (f x) = f x) ->
  let s' := fold_left (fun s x => del_or_warn (f x).1 (f x).2 (tun_index (rs_rm s)) None w s) l s in
  rs_rm s' = rs_rm s /\ rs_fs s' = rs_fs s /\
  prune (fun k h => k ∈ f <$> l /\ h.2 = tun_index (rs_rm s)) (table s) (table s').
Proof.
  intros Hkey. revert s. induction l as [| x l IH]; intros s.
  - split_and!; [done .. |]. apply prune_refl. intros k h [H _]. by apply not_elem_of_nil in H.
  - cbn [fold_left]. destruct (del_or_warn_prune (f x).1 (f x).2 (tun_index (rs_rm s)) None w s) as (Hr & Hf & Hp).
    set (s1 := del_or_warn _ _ _ _ _ _) in *. destruct (IH (fun y Hy => Hkey y (list_elem_of_further _ _ _ Hy)) s1) as (Hr' & Hf' & Hp').
    cbv zeta. split_and!; [congruence .. |]. rewrite Hr in Hp'.
    eapply prune_ext; [| eapply prune_trans; [exact Hp | exact Hp']].
    intros k h. unfold kills. rewrite <- (surjective_pairing (f x)), (Hkey x) by left.
    rewrite fmap_cons, elem_of_cons. naive_solver.
Qed.

Lemma teardown_prune (s : RS K) :
  applied (rs_rm s) = true ->
  prune (own (rs_rm s)) (table s) (table (teardown s)) /\
  applied (rs_rm (teardown s)) = false /\
  exists log, dns_view (teardown s) = dns_restore (mkDns (rs_fs s) (rm_dns (rs_rm s)) log).
Proof.
  intros Ha. unfold teardown. rewrite Ha. cbn [negb].
  set (s1 := set_rm (with_applied false) s).
  destruct (del_gateway_prune (proxy_ip (rs_rm s1)) (host_prefix (proxy_ip (rs_rm s1))) "teardown: " s1) as (Hr2 & Hf2 & Hp2).
  set (s2 := del_gateway_or_warn _ _ _ s1) in *. rewrite host_key in Hp2.
  destruct (remove_bypass_prune (fun _ => "teardown: ") (bypass (rs_rm s2)) s2) as (Hr3 & Hf3 & Hp3).
  set (s3 := remove_bypass _ _ s2) in *.
  destruct (del_splits_prune (fun '(d, p) => (V4 d, p)) "teardown: " V4_SPLIT s3 ltac:(by intros [d p])) as (Hr4 & Hf4 & Hp4).
  change (fold_left _ V4_SPLIT s3) with (fold_left (fun s '(dst, prefix) =>
    del_or_warn (V4 dst) prefix (tun_index (rs_rm s)) None "teardown: " s) V4_SPLIT s3) in Hr4, Hf4, Hp4.
  set (s4 := fold_left _ V4_SPLIT s3) in *.
  destruct (del_splits_prune (fun '(d, p) => (V6 d, p)) "teardown: " V6_SPLIT s4 split6_key) as (Hr5 & Hf5 & Hp5).
  change (fold_left _ V6_SPLIT s4) with (fold_left (fun s '(dst, prefix) =>
    del_or_warn (V6 dst) prefix (tun_index (rs_rm s)) None "teardown: " s) V6_SPLIT s4) in Hr5, Hf5, Hp5.
  set (s5 := fold_left _ V6_SPLIT s4) in *.
  assert (Hrm : rs_rm s2 = with_applied false (rs_rm s)) by done.
  pose proof (prune_trans _ _ _ _ _ (prune_trans _ _ _ _ _ Hp2 Hp3) Hp4) as Hp.
  rewrite Hr3, Hrm in Hp. rewrite Hr4, Hr3, Hrm in Hp5. rewrite Hr4, Hr3, Hrm. cbn [capture_ipv6 with_applied].
  destruct (capture_ipv6 (rs_rm s)) eqn:Hc.
  - split; [| split].
    + eapply prune_ext; [| eapply prune_trans; [exact Hp | exact Hp5]].
      intros k h. unfold own, gw_kill, v4_nets, v6_nets. rewrite Hc, elem_of_cons. simpl.
      unfold proxy_net, gw_hop. naive_solver.
    + simpl. by rewrite Hr5, Hr4, Hr3, Hrm.
    + exists (rs_log (rs_info "routes removed" s5)). unfold dns_view, dns_put. simpl.
      rewrite Hr5, Hr4, Hr3, Hrm, Hf5, Hf4, Hf3, Hf2. by destruct (ResolvConf.restore _).
  - split; [| split].
    + eapply prune_ext; [| exact Hp].
      intros k h. unfold own, gw_kill, v4_nets. rewrite Hc, elem_of_cons. simpl.
      unfold proxy_net, gw_hop. naive_solver.
    + simpl. by rewrite Hr4, Hr3, Hrm.
    + exists (rs_log (rs_info "routes removed" s4)). unfold dns_view, dns_put. simpl.
      rewrite Hr4, Hr3, Hrm, Hf4, Hf3, Hf2. by destruct (ResolvConf.restore _).
Qed.

(** ** Lemmas: reloading *)

Lemma managed_prune base t t' rm (P : RouteKey -> NextHop -> Prop) :
  managed base t rm -> prune P t t' -> (forall k h, P k h -> base !! k = None) -> managed base t' rm.
Proof.
  intros Hm Hp Hb k. destruct (Hp k) as [[H1 (h & Hh & HP)] | [H1 _]].
  - left. rewrite H1. symmetry. by eapply Hb.
  - rewrite H1. apply Hm.
Qed.

Lemma managed_insert base t rm k h : managed base t rm -> own rm k h -> managed base (<[k := h]> t) rm.
Proof.
  intros Hm Ho k'. destruct (decide (k' = k)) as [-> | Hk].
  - right. exists h. by rewrite lookup_insert_eq.
  - rewrite lookup_insert_ne by done. apply Hm.
Qed.

Lemma host_net_not_split ip : (ip, host_prefix ip) ∉ v4_nets /\ (ip, host_prefix ip) ∉ v6_nets.
Proof. destruct ip; unfold v4_nets, v6_nets; simpl; split; intros H; set_solver. Qed.

(** The table after the proxy's route has moved. *)
Lemma move_proxy_table ch (s s' : RS K) :
  move_proxy_route ch s = (Ok tt, s') ->
  match ch with
  | None => s' = s
  | Some (o, n) =>
      exists h t, gw_hop (rs_rm s) n = Some h /\ prune (gw_kill (rs_rm s) (o, host_prefix o)) (table s) t /\
        table s' = <[(n, host_prefix n) := h]> t /\
        rs_rm s' = with_proxy_ip n (rs_rm s) /\ rs_fs s' = rs_fs s
  end.
Proof.
  destruct ch as [[o n] |]; [| by intros [= <-]]. intros H.
  apply se_bind_ok in H as ([] & s1 & H1 & H). injection H1 as H1.
  destruct (del_gateway_prune o (host_prefix o) "reload: removing old proxy route: " s) as (Hr & Hf & Hp).
  rewrite H1, host_key in Hp. rewrite H1 in Hr, Hf. clear H1.
  rewrite Hr in H. destruct (gateway_for (rs_rm s) n) as [[gw oif] |] eqn:Hgw; [| done].
  apply se_bind_ok in H as ([] & s2 & H2%se_context_ok & H).
  apply add_via_gateway_ok in H2 as (Ht2 & Hr2 & Hf2). rewrite host_key in Ht2.
  apply se_bind_ok in H as ([] & s3 & H3 & H). injection H3 as <-. injection H as <-.
  exists (Some gw, oif), (table s1). cbn [rs_info set_rm rs_rm rs_fs rs_k]. unfold gw_hop. rewrite Hgw, Hr2, Hr, Hf2, Hf.
  by split_and!.
Qed.

Lemma move_proxy_ok base ch (s s' : RS K) :
  move_proxy_route ch s = (Ok tt, s') ->
  (forall o n, ch = Some (o, n) -> o = proxy_ip (rs_rm s)) ->
  managed base (table s) (rs_rm s) -> fresh base (rs_rm s) ->
  exists ip, rs_rm s' = with_proxy_ip ip (rs_rm s) /\ rs_fs s' = rs_fs s /\
    managed base (table s') (rs_rm s').
Proof.
  intros H%move_proxy_table Hch Hm Hfr. destruct ch as [[o n] |].
  2: { subst s'. exists (proxy_ip (rs_rm s)). split; [by destruct (rs_rm s) |]. done. }
  rewrite (Hch o n eq_refl) in *. clear Hch o. destruct H as (h0 & t & Hgw & Hp & Ht & Hr & Hf).
  exists n. rewrite Ht, Hr. split_and!; [done .. |].
  apply managed_insert; [| left; split; [left | exact Hgw]].
  intros k. destruct (Hp k) as [[H1 (h & Hh & -> & Hg)] | [H1 Hn]].
  - left. rewrite H1. symmetry. eapply (Hfr _ h). left. split; [left | done].
  - rewrite H1. destruct (Hm k) as [Hk | (h & Hh & Ho)]; [by left |]. right. exists h. split; [done |].
    destruct Ho as [[Hk Hg] | Ho]; [| by right]. apply elem_of_cons in Hk as [-> | Hk].
    + exfalso. eapply Hn; [done |]. by split.
    + left. split; [by right | done].
Qed.

(** Networks as the kernel keeps them. *)
Lemma keys_sub (l l' : CidrList) : (forall x, x ∈ l -> x ∈ l') -> forall k, k ∈ kernel_key <$> l -> k ∈ kernel_key <$> l'.
Proof. intros H k (x & -> & Hx)%list_elem_of_fmap. apply list_elem_of_fmap. eauto. Qed.

Lemma keys_split (l l1 l2 : CidrList) :
  (forall x, x ∈ l -> x ∈ l1 \/ x ∈ l2) -> forall k, k ∈ kernel_key <$> l -> k ∈ kernel_key <$> l1 \/ k ∈ kernel_key <$> l2.
Proof. intros H k (x & -> & Hx)%list_elem_of_fmap. destruct (H x Hx); [left | right]; apply list_elem_of_fmap; eauto. Qed.

Lemma managed_remove base t t' rm (rem new : CidrList) :
  managed base t rm ->
  (forall k h, k ∈ bypass_nets rm -> gw_hop rm k.1 = Some h -> base !! k = None) ->
  (forall x, x ∈ bypass rm -> x ∈ new \/ x ∈ rem) ->
  (forall x, x ∈ rem -> x ∈ bypass rm) ->
  prune (fun k h => k ∈ kernel_key <$> rem /\ gw_hop rm k.1 = Some h) t t' ->
  managed base t' (with_bypass new rm).
Proof.
  intros Hm Hb Hnew Hrem Hp k. destruct (Hp k) as [[E (h & Hh & Hk & Hg)] | [E Hn]].
  - left. rewrite E. symmetry. eapply Hb; [by eapply keys_sub | done].
  - rewrite E. destruct (Hm k) as [E' | (h & Hh & Ho)]; [by left |]. right. exists h. split; [done |].
    destruct Ho as [[Hk Hg] | Ho]; [| by right]. left. split; [| done].
    apply elem_of_cons in Hk as [-> | Hk]; [left | right].
    destruct (keys_split _ _ _ Hnew k Hk) as [? | Hr]; [done |]. exfalso. by eapply Hn.
Qed.

Lemma managed_add base t t' rm (l : CidrList) :
  managed base t rm -> (forall x, x ∈ l -> x ∈ bypass rm) ->
  (forall k, t' !! k = if decide (k ∈ kernel_key <$> l)
     then match gw_hop rm k.1 with Some h => Some h | None => t !! k end else t !! k) ->
  managed base t' rm.
Proof.
  intros Hm Hl Ht k. rewrite Ht. case_decide as Hk; [| apply Hm].
  destruct (gw_hop rm k.1) as [h |] eqn:Hg; [| apply Hm].
  right. exists h. split; [done |]. left. split; [right; by eapply keys_sub | done].
Qed.

Lemma paths_differ : RESOLV_CONF_PATH <> RESOLV_CONF_BACKUP_PATH.
Proof. done. Qed.

(** The stages of a reload that ends well. *)
Lemma reload_stages plan (s s' : RS K) :
  reload plan s = (Ok tt, s') -> applied (rs_rm s) = true ->
  exists s1 t2 s4,
    move_proxy_route (rp_proxy_route_change plan) s = (Ok tt, s1) /\
    prune (fun k h => k ∈ kernel_key <$> rp_bypass_remove plan /\ gw_hop (rs_rm s1) k.1 = Some h) (table s1) t2 /\
    (forall k, table s4 !! k = if decide (k ∈ kernel_key <$> rp_bypass_add plan)
       then match gw_hop (rs_rm s1) k.1 with Some h => Some h | None => t2 !! k end else t2 !! k) /\
    rs_rm s4 = with_bypass (rp_new_bypass plan) (rs_rm s1) /\ rs_fs s4 = rs_fs s1 /\
    (if rp_dns_changed plan
     then exists d, dns_reload (rp_dns plan) (dns_view s4) = (Ok tt, d) /\
            s' = set_rm (with_dns_server (rp_dns plan)) (dns_put d s4)
     else s' = s4).
Proof.
  unfold reload. intros H Ha. rewrite Ha in H. cbn [negb] in H.
  apply se_bind_ok in H as ([] & s1 & H1 & H).
  apply se_bind_ok in H as ([] & s2 & H2 & H). injection H2 as H2.
  destruct (remove_bypass_prune (fun n => "reload: removing bypass " +:+ n +:+ ": ") (rp_bypass_remove plan) s1)
    as (Hr2 & Hf2 & Hp2). rewrite H2 in Hr2, Hf2, Hp2. clear H2.
  apply se_bind_ok in H as ([] & s3 & H3 & H). apply for_bypass_ok in H3 as (Hr3 & Hf3 & Ht3).
  apply se_bind_ok in H as ([] & s4 & H4 & H). injection H4 as <-.
  eexists s1, (table s2), _. split_and!; [exact H1 | exact Hp2 | | | | ].
  4: { destruct (rp_dns_changed plan); [| injection H as <-; reflexivity].
       apply se_bind_ok in H as ([] & s5 & H5 & H). injection H as <-. apply on_dns_ok in H5 as (d & Hd & ->). eauto. }
  - intros k. cbn [set_rm rs_k]. by rewrite Ht3, Hr2.
  - cbn [set_rm rs_rm]. by rewrite Hr3, Hr2.
  - cbn [set_rm rs_fs]. by rewrite Hf3, Hf2.
Qed.

Lemma reload_ok base plan (s s' : RS K) :
  reload plan s = (Ok tt, s') -> applied (rs_rm s) = true -> plan_fits (proxy_ip (rs_rm s)) (bypass (rs_rm s)) plan ->
  managed base (table s) (rs_rm s) -> fresh base (rs_rm s) ->
  managed base (table s') (rs_rm s') /\ applied (rs_rm s') = true /\
  (forall c0, dns_inv RESOLV_CONF_PATH RESOLV_CONF_BACKUP_PATH c0 (dns_view s) ->
              dns_inv RESOLV_CONF_PATH RESOLV_CONF_BACKUP_PATH c0 (dns_view s')).
Proof.
  intros H Ha (Hpc & Hnew & Hrem & Hadd) Hm Hfr.
  apply reload_stages in H as (s1 & t2 & s4 & H1 & Hp2 & Ht4 & Hr4 & Hf4 & H); [| done].
  apply (move_proxy_ok base) in H1 as (ip & Hr1 & Hf1 & Hm1); [| done ..].
  assert (Hm4 : managed base (table s4) (rs_rm s4)).
  { rewrite Hr4. apply (managed_add base t2 _ _ (rp_bypass_add plan)); [| exact Hadd | exact Ht4].
    apply (managed_remove base (table s1) _ _ (rp_bypass_remove plan)); rewrite ?Hr1; try done.
    - by rewrite <- Hr1.
    - intros k h Hk Hg. apply (Hfr k h). left. split; [by right | done].
    - by rewrite <- Hr1. }
  assert (Ha4 : applied (rs_rm s4) = true) by (rewrite Hr4; by rewrite Hr1).
  assert (Hv : forall c0, dns_inv RESOLV_CONF_PATH RESOLV_CONF_BACKUP_PATH c0 (dns_view s) ->
                          dns_inv RESOLV_CONF_PATH RESOLV_CONF_BACKUP_PATH c0 (dns_view s4)).
  { intros c0 Hi. unfold dns_view in *. rewrite Hf4, Hf1, Hr4, Hr1. by destruct Hi. }
  destruct (rp_dns_changed plan); [| by subst s'].
  destruct H as (d & Hd & ->). split_and!; [exact Hm4 | exact Ha4 |]. intros c0 Hi%Hv.
  destruct (reload_inv _ _ _ paths_differ (rp_dns plan) (dns_view s4) Hi) as (r & d' & E & Hid & _).
  simpl in Hd. rewrite E in Hd. simplify_eq. unfold dns_view. simpl. by destruct Hid.
Qed.

(** The invariant of a session. *)
Lemma session_inv base c0 (s : RS K) :
  session base c0 s ->
  managed base (table s) (rs_rm s) /\ applied (rs_rm s) = true /\ fresh base (rs_rm s) /\
  dns_inv RESOLV_CONF_PATH RESOLV_CONF_BACKUP_PATH c0 (dns_view s).
Proof.
  induction 1 as [s s' Ht Hd Hp Hg Hok Hfr | s s' plan Hs (Hm & Ha & Hf & Hi) Hpl Hok Hfr].
  - apply apply_ok in Hok as (v4 & v6 & d & log & Hrm & Hfs & Hdns & _ & Htab). split_and!.
    + intros k. rewrite Htab. destruct (installed _ k) as [h |] eqn:E; simpl; [right | left; by rewrite Ht].
      exists h. split; [done |]. apply installed_own in E. by rewrite Hrm.
    + by rewrite Hrm.
    + done.
    + rewrite Hd in Hdns.
      destruct (apply_inv _ _ _ paths_differ (rm_dns_server (rs_rm s))
        (mkDns (rs_fs s) ResolvConf.system log) (new_inv _ _ _ _ _ Hp Hg)) as (r & d' & E & Hid & _).
      simpl in Hdns. rewrite E in Hdns. simplify_eq. unfold dns_view. rewrite Hrm, Hfs. by destruct Hid.
  - apply (reload_ok base) in Hok as (H1 & H2 & H3); [| done ..]. split_and!; [done .. |]. by apply H3.
Qed.

(** ** Lemmas: addresses *)

Lemma v4_nets_cover a : uint 32 a -> exists d p, (d, p) ∈ v4_nets /\ covers d p (V4 a).
Proof.
  unfold uint. intros Ha. destruct (decide (a < 2147483648)).
  - exists (V4 0), 1. split; [left |]. change (0 / 2147483648 = a / 2147483648).
    by rewrite !Z.div_small by lia.
  - exists (V4 2147483648), 1. split; [right; left |].
    change (1 = a / 2147483648).
    apply Z.div_unique with (a - 2147483648); lia.
Qed.

Lemma installed_proxy rm : installed rm (proxy_net rm) = gw_hop rm (proxy_ip rm).
Proof.
  unfold installed, tun_nets. destruct (host_net_not_split (proxy_ip rm)) as [H4 H6].
  rewrite decide_False.
  - by rewrite decide_True by left.
  - rewrite elem_of_app. intros [? | H]; [done |]. case_match; [done | by apply not_elem_of_nil in H].
Qed.

(** A teardown of a managed table leaves the host's own routes. *)
Lemma teardown_table base (s : RS K) :
  managed base (table s) (rs_rm s) -> fresh base (rs_rm s) -> applied (rs_rm s) = true -> table (teardown s) = base.
Proof.
  intros Hm Hfr Ha. destruct (teardown_prune s Ha) as (Hp & _). apply map_eq. intros k.
  destruct (Hp k) as [[E (h & Hh & Ho)] | [E Hn]].
  - rewrite E. symmetry. by eapply Hfr.
  - rewrite E. destruct (Hm k) as [E' | (h & Hh & Ho)]; [done |]. exfalso. by eapply Hn.
Qed.

(** The teardown after a session. *)
Lemma session_teardown (base : gmap RouteKey NextHop) (c0 : list byte) (s : RS K) :
  session base c0 s -> faults (rs_fs s) = [] ->
  table (rc_teardown s) = base /\
  files (rs_fs (rc_teardown s)) !! RESOLV_CONF_PATH = Some c0 /\
  applied (rs_rm (rc_teardown s)) = false.
Proof.
  intros Hs Hf. cbn [rc_teardown RouteManager_controller].
  destruct (session_inv base c0 s Hs) as (Hm & Ha & Hfr & Hi).
  destruct (teardown_prune s Ha) as (Hp & Ha' & log & Hd).
  split; [by apply teardown_table | split; [| done]].
  - assert (Hi' : dns_inv RESOLV_CONF_PATH RESOLV_CONF_BACKUP_PATH c0 (mkDns (rs_fs s) (rm_dns (rs_rm s)) log))
      by by destruct Hi.
    apply (restore_inv _ _ _ paths_differ) in Hi' as (Hr & _).
    change (rs_fs (teardown s)) with (ds_fs (dns_view (teardown s))). rewrite Hd.
    assert (E : mkFS (files (rs_fs s)) [] [] = rs_fs s).
    { destruct Hi as [_ _ _ _ [Hrf _]]. simpl in Hrf. destruct (rs_fs s). simpl in *. congruence. }
    unfold calm, set_fs in Hr. simpl in Hr. by rewrite E in Hr.
Qed.

(** ** Properties *)

(** C10. A successful [apply] sets the routing up and nothing else: the table
    is the one before with, on top, both halves of the IPv4 space (and of
    the IPv6 space when it is captured) into the tunnel, and the proxy's
    host route and the bypass networks, as the kernel keeps them
    ([kernel_key]), through the gateway of their family; the proxy always has
    such a route, so the tunnel's own traffic does not loop into it, and no
    IPv4 address escapes the split. *)
Theorem apply_installs (s s' : RS K) :
  rc_apply s = (Ok tt, s') ->
  applied (rs_rm s') = true /\
  (forall k, table s' !! k = over (installed (rs_rm s') k) (table s !! k)) /\
  (exists gw oif, gateway_for (rs_rm s') (proxy_ip (rs_rm s')) = Some (gw, oif) /\
     table s' !! proxy_net (rs_rm s') = Some (Some gw, oif)) /\
  (forall a, uint 32 a -> exists d p, covers d p (V4 a) /\
     table s' !! (d, p) = Some (None, tun_index (rs_rm s'))).
Proof.
  intros H. apply apply_ok in H as (v4 & v6 & d & log & Hrm & _ & _ & [hop Hhop] & Ht).
  assert (Ht' : forall k, table s' !! k = over (installed (rs_rm s') k) (table s !! k)).
  { intros k. rewrite Ht, Hrm. done. }
  split; [by rewrite Hrm |]. split; [exact Ht' |]. split.
  - unfold gw_hop in Hhop. apply fmap_Some in Hhop as ([gw oif] & Hg & ->).
    exists gw, oif. assert (E : gateway_for (rs_rm s') (proxy_ip (rs_rm s')) = Some (gw, oif)) by by rewrite Hrm.
    split; [done |]. rewrite Ht', installed_proxy. unfold gw_hop. by rewrite E.
  - intros a (d' & p & Hin & Hc)%v4_nets_cover. exists d', p. split; [done |].
    rewrite Ht'. unfold installed. rewrite decide_True; [done |]. apply elem_of_app. by left.
Qed.

(** Teardown leaves no trace: after an apply and any reloads that
    succeeded, with plans computed for the manager's routes and none of its
    networks routed before, it leaves exactly the routing table the host
    had, and [resolv.conf] with its original contents. *)
Theorem teardown_restores (base : gmap RouteKey NextHop) (c0 : list byte) (s : RS K) :
  session base c0 s -> faults (rs_fs s) = [] ->
  table (rc_teardown s) = base /\
  files (rs_fs (rc_teardown s)) !! RESOLV_CONF_PATH = Some c0 /\
  applied (rs_rm (rc_teardown s)) = false.
Proof. apply session_teardown. Qed.

(** What a reload removes and does not add again is gone. *)
Lemma reload_removes (plan : ReloadPlan) (s s' : RS K) (k : RouteKey) :
  applied (rs_rm s) = true -> rp_proxy_route_change plan = None -> gw_hop (rs_rm s) k.1 = table s !! k ->
  k ∈ kernel_key <$> rp_bypass_remove plan -> k ∉ kernel_key <$> rp_bypass_add plan ->
  rc_reload plan s = (Ok tt, s') ->
  proxy_ip (rs_rm s') = proxy_ip (rs_rm s) /\ bypass (rs_rm s') = rp_new_bypass plan /\ table s' !! k = None.
Proof.
  intros Ha Hch Hhop Hrem Hadd H. apply reload_stages in H as (s1 & t2 & s4 & H1 & Hp2 & Ht4 & Hr4 & _ & H); [| done].
  rewrite Hch in H1. injection H1 as <-.
  assert (Hlast : rs_rm s' = with_bypass (rp_new_bypass plan) (rs_rm s) \/ exists d srv,
    rs_rm s' = with_dns_server srv (with_dns d (with_bypass (rp_new_bypass plan) (rs_rm s)))).
  { destruct (rp_dns_changed plan); [destruct H as (d & _ & ->) | subst s'; by left].
    right. exists (ds_rc d), (rp_dns plan). cbn [set_rm dns_put rs_rm]. by rewrite Hr4. }
  assert (Ht : table s' = table s4) by (destruct (rp_dns_changed plan); [by destruct H as (d & _ & ->) | by subst s']).
  split_and!; [by destruct Hlast as [-> | (? & ? & ->)] .. |].
  rewrite Ht, Ht4, decide_False by done. destruct (Hp2 k) as [[E _] | [E Hn]]; [done |].
  rewrite E. destruct (table s !! k) as [h |] eqn:Eh; [| done]. exfalso. by eapply (Hn h).
Qed.

(** A reload can unprotect the proxy: when a bypass network that is
    dropped is the proxy's own host route, a successful reload that does not
    move the proxy deletes that route, and the traffic to the proxy falls
    back to the tunnel's split routes. *)
Theorem reload_drops_proxy_route (plan : ReloadPlan) (s s' : RS K) :
  applied (rs_rm s) = true ->
  rp_proxy_route_change plan = None ->
  gw_hop (rs_rm s) (proxy_ip (rs_rm s)) = table s !! proxy_net (rs_rm s) ->
  proxy_net (rs_rm s) ∈ kernel_key <$> rp_bypass_remove plan ->
  proxy_net (rs_rm s) ∉ kernel_key <$> rp_bypass_add plan ->
  rc_reload plan s = (Ok tt, s') ->
  proxy_ip (rs_rm s') = proxy_ip (rs_rm s) /\ table s' !! proxy_net (rs_rm s') = None.
Proof.
  intros Ha Hch Hhop Hrem Hadd H.
  destruct (reload_removes plan s s' (proxy_net (rs_rm s)) Ha Hch Hhop Hrem Hadd H) as (Hp & _ & Ht).
  split; [done |]. unfold proxy_net in *. by rewrite Hp.
Qed.

(** A reload can drop a network it keeps: two bypass networks that the kernel
    keeps as one, as IPv6 networks that differ in their host bits are, share
    a route, and the removal of one deletes it. *)
Theorem reload_drops_alias (plan : ReloadPlan) (s s' : RS K) (x y : IpAddr * Z) :
  applied (rs_rm s) = true -> rp_proxy_route_change plan = None ->
  x ∈ rp_bypass_remove plan -> y ∈ rp_new_bypass plan -> kernel_key x = kernel_key y ->
  kernel_key y ∉ kernel_key <$> rp_bypass_add plan ->
  gw_hop (rs_rm s) (kernel_key y).1 = table s !! kernel_key y ->
  rc_reload plan s = (Ok tt, s') ->
  y ∈ bypass (rs_rm s') /\ table s' !! kernel_key y = None.
Proof.
  intros Ha Hch Hx Hy E Hadd Hhop H.
  destruct (reload_removes plan s s' (kernel_key y) Ha Hch Hhop) as (_ & Hb & Ht); [| done .. |].
  - rewrite <- E. apply list_elem_of_fmap. eauto.
  - by rewrite Hb.
Qed.

(** A route that was there for a bypass network is lost: [apply] replaces it
    by one through the default gateway, and the teardown deletes that. *)
Theorem apply_takes_over (s s' : RS K) (k : RouteKey) (h : NextHop) :
  rc_apply s = (Ok tt, s') -> table s !! k = Some h ->
  k ∈ proxy_net (rs_rm s') :: bypass_nets (rs_rm s') -> k ∉ tun_nets (rs_rm s') -> is_Some (gw_hop (rs_rm s') k.1) ->
  table s' !! k = gw_hop (rs_rm s') k.1 /\ table (rc_teardown s') !! k = None.
Proof.
  intros H _ Hk Hn [h' Hh]. apply apply_ok in H as (v4 & v6 & d & log & Hrm & _ & _ & _ & Ht).
  assert (Htab : table s' !! k = gw_hop (rs_rm s') k.1).
  { rewrite Ht. rewrite Hrm in Hk, Hn, Hh |- *. unfold installed. rewrite decide_False, decide_True by done.
    unfold gw_hop, gateway_for in Hh |- *. cbn in Hh |- *. by rewrite Hh. }
  split; [done |]. assert (Ha : applied (rs_rm s') = true) by by rewrite Hrm.
  destruct (teardown_prune s' Ha) as (Hp & _). destruct (Hp k) as [[E _] | [_ Hno]]; [done |].
  exfalso. apply (Hno h'); [congruence |]. left. done.
Qed.
End Laws.

(** ** Witnesses on the simulated kernel *)

Module Example.
(** A host behind 192.168.1.1 on interface 2, with the tunnel as 7. *)
Definition dump (v : IpVersion) : list (Result string RouteMessage) :=
  match v with
  | Ipv4 => [Ok (mkRouteMessage Ipv4 0 [Gateway (V4 3232235777); Oif 2])]
  | Ipv6 => []
  end.

Definition host : gmap RouteKey NextHop := {[(V4 0, 0) := (Some (V4 3232235777), 2)]}.

Definition kernel : SimKernel := mkSim host dump [].

Definition manager (l : CidrList) : RouteManager :=
  mkRM (V4 3405803785) 7 ResolvConf.system (Some (V4 16843009)) l true None None false.

Definition start (l : CidrList) (f : list Fault) : RS SimKernel :=
  mkRS (manager l) kernel (mkFS {[RESOLV_CONF_PATH := as_bytes "nameserver 8.8.8.8"]} [] f) [].

Definition running (l : CidrList) : RS SimKernel := snd (apply (start l [])).

Definition drop_proxy : ReloadPlan :=
  mkPlan (mkProxyConfig (SocketAddr_new (V4 3405803785) 1080) None None DEFAULT_CONNECT_TIMEOUT true)
    RouteTable.empty [] [] [(V4 3405803785, 32)] None false None false.

Lemma fresh_host rm : (V4 0, 0) ∉ proxy_net rm :: bypass_nets rm -> fresh host rm.
Proof.
  intros Hn k h Ho. destruct (decide (k = (V4 0, 0))) as [-> | Hk]; [| by apply lookup_singleton_ne].
  exfalso. destruct Ho as [[Hk _] | [_ [Hk | [_ Hk]]]]; [done | ..];
    unfold v4_nets, v6_nets in Hk; simpl in Hk; set_solver.
Qed.

Lemma running_session : session host (as_bytes "nameserver 8.8.8.8") (running [(V4 167772160, 8)]).
Proof.
  apply (session_apply _ _ (start [(V4 167772160, 8)] [])); try (vm_compute; reflexivity).
  - split; [reflexivity | constructor].
  - apply fresh_host. refine (proj1 (bool_decide_eq_true _) _). vm_compute. reflexivity.
Qed.
End Example.

Lemma apply_installs_witness :
  nl_table (rs_k (Example.running [])) !! (V4 3405803785, 32) = Some (Some (V4 3232235777), 2) /\
  exists d p, covers d p (V4 134744072) /\ nl_table (rs_k (Example.running [])) !! (d, p) = Some (None, 7).
Proof.
  split; [vm_compute; reflexivity |].
  assert (E : rc_apply (Example.start [] []) = (Ok tt, Example.running [])) by (vm_compute; reflexivity).
  destruct (apply_installs (Example.start [] []) (Example.running []) E) as (_ & _ & _ & H).
  assert (Ht : tun_index (rs_rm (Example.running [])) = 7) by (vm_compute; reflexivity).
  rewrite Ht in H. apply (H 134744072). vm_compute. split; congruence.
Defined.

Lemma teardown_restores_witness :
  nl_table (rs_k (rc_teardown (Example.running [(V4 167772160, 8)]))) = Example.host.
Proof.
  apply (teardown_restores Example.host (as_bytes "nameserver 8.8.8.8") (Example.running [(V4 167772160, 8)])).
  - apply Example.running_session.
  - vm_compute. reflexivity.
Defined.

Lemma reload_drops_proxy_route_witness :
  let s := Example.running [(V4 3405803785, 32)] in
  let s' := snd (rc_reload Example.drop_proxy s) in
  proxy_ip (rs_rm s') = proxy_ip (rs_rm s) /\ nl_table (rs_k s') !! proxy_net (rs_rm s') = None.
Proof.
  cbv zeta.
  apply (reload_drops_proxy_route Example.drop_proxy (Example.running [(V4 3405803785, 32)])
    (snd (rc_reload Example.drop_proxy (Example.running [(V4 3405803785, 32)]))));
    try (vm_compute; reflexivity).
  - vm_compute. left.
  - vm_compute. intros H. inversion H.
Defined.

Module Office.
(** A host that reached 10.0.0.0/8 through another router, with that network
    as a bypass. *)
Definition start : RS SimKernel :=
  mkRS (Example.manager [(V4 167772160, 8)])
    (mkSim (<[(V4 167772160, 8) := (Some (V4 3232235778), 2)]> Example.host) Example.dump [])
    (mkFS {[RESOLV_CONF_PATH := as_bytes "nameserver 8.8.8.8"]} [] []) [].
Definition running : RS SimKernel := snd (rc_apply start).

(** Two IPv6 networks that are one route, and a reload that keeps one. *)
Definition fd00 : Ipv6Addr := 336294682933583715844663186250927177728.

Example alias_plan :
  let x := (V6 (fd00 + 1), 64) in let y := (V6 (fd00 + 2), 64) in
  kernel_key x = kernel_key y /\ diff_cidrs [x; y] [y] = ([], [x]).
Proof. split; vm_compute; reflexivity. Qed.
End Office.

Lemma apply_takes_over_witness :
  nl_table (rs_k Office.start) !! (V4 167772160, 8) = Some (Some (V4 3232235778), 2) /\
  nl_table (rs_k (rc_teardown Office.running)) !! (V4 167772160, 8) = None.
Proof.
  split; [vm_compute; reflexivity |].
  apply (apply_takes_over Office.start Office.running (V4 167772160, 8) (Some (V4 3232235778), 2)).
  - vm_compute. reflexivity.
  - vm_compute. reflexivity.
  - vm_compute. right. left.
  - apply (bool_decide_unpack _). vm_compute. exact I.
  - apply (bool_decide_unpack _). vm_compute. exact I.
Defined.

(** An apply that fails is not undone: [applied] is set last, so when
    the DNS override cannot be written the routes are already in the table
    and the teardown, which looks at [applied], removes none of them. *)
Theorem failed_apply_leaves_routes :
  exists e s', rc_apply (Example.start [] [NoFault; Clean "Read-only file system (os error 30)"]) = (Err e, s') /\
    rc_teardown s' = s' /\
    nl_table (rs_k s') !! (V4 0, 1) = Some (None, 7) /\
    nl_table (rs_k s') !! (V4 3405803785, 32) = Some (Some (V4 3232235777), 2).
Proof. eexists _, _. split; [vm_compute; reflexivity |]. vm_compute. done. Qed.
