(* ===== verification/LinuxError.v ===== *)
(** * Linux routing when operations fail ([src/platform/linux/route.rs])

    Every request to the kernel can fail and leave a call half done. These
    are the statements that hold all the same: which routes a call can touch
    at all, and that a reload that failed can be tried again. *)

From Stdlib Require Import ZArith Lia.
From Stdlib Require Import Strings.Ascii Strings.String.
From stdpp Require Import base decidable list strings gmap.
From S2P Require Import Prelude StdNet StdText Net Config Logging Reload Platform LinuxDns Netlink Tune LinuxRoute.
#[local] Open Scope Z_scope.

(** ** Specification *)

Section Errors.
Context {K : Type} `{!Netlink K} `{!RouteLaws K}.

Abbreviation table s := (nl_table (rs_k s)).

(** The networks a call may add or remove, as the kernel keeps them. *)
Definition touched (c : Call) (rm : RouteManager) : list RouteKey :=
  match c with
  | Apply | Teardown => proxy_net rm :: bypass_nets rm ++ v4_nets ++ v6_nets
  | Reload plan =>
      match rp_proxy_route_change plan with
      | Some (o, n) => [(o, host_prefix o); (n, host_prefix n)]
      | None => []
      end ++ (kernel_key <$> rp_bypass_remove plan) ++ (kernel_key <$> rp_bypass_add plan)
  end.

Fixpoint all_touched (cs : list Call) (s : RS K) : list RouteKey :=
  match cs with [] => [] | c :: cs => touched c (rs_rm s) ++ all_touched cs (rc_call c s) end.

(** ** Lemmas: what a call may touch *)

(** The routes off a list are those of [t], and the manager still has this
    proxy and these networks. *)
Definition frame (l : list RouteKey) (t : gmap RouteKey NextHop) (s : RS K) : Prop :=
  forall k, k ∉ l -> table s !! k = t !! k.

Definition about (p : IpAddr) (b : CidrList) (s : RS K) : Prop := proxy_ip (rs_rm s) = p /\ bypass (rs_rm s) = b.

Definition framed_about l t p b (s : RS K) : Prop := frame l t s /\ about p b s.

(** A property of the table and of the manager's routing fields: what the
    DNS override and the log do does not change it. *)
Class Stable (I : RS K -> Prop) := {
  stable : forall s s', rs_rm s' = rs_rm s -> table s' = table s -> I s -> I s';
  stable_dns : forall s s' d, rs_rm s' = with_dns d (rs_rm s) -> table s' = table s -> I s -> I s';
}.

#[local] Instance frame_stable l t : Stable (frame l t).
Proof. split; [intros s s' _ Ht Hf k Hk | intros s s' d _ Ht Hf k Hk]; rewrite Ht; by apply Hf. Qed.

#[local] Instance framed_about_stable l t p b : Stable (framed_about l t p b).
Proof.
  split; [intros s s' Hr Ht [Hf Ha] | intros s s' d Hr Ht [Hf Ha]];
    (split; [intros k Hk; rewrite Ht; by apply Hf | unfold about; by rewrite Hr]).
Qed.

Section Rules.
Context (I : RS K -> Prop) `{!Stable I}.

(** The invariant allows a route, or the removal of one. *)
Definition may_add (x : RouteKey) (h : NextHop) : Prop :=
  forall s s', I s -> rs_rm s' = rs_rm s -> table s' = <[x := h]> (table s) -> I s'.
Definition may_remove (x : RouteKey) (h : NextHop) : Prop :=
  forall s s', I s -> rs_rm s' = rs_rm s -> table s !! x = Some h -> table s' = delete x (table s) -> I s'.

Lemma preserves_replace a :
  may_add (kernel_key (ra_dst a, ra_prefix a)) (ra_gateway a, ra_oif a) -> preserves I (nl_op (nl_replace a)).
Proof.
  intros Ha s Hs. unfold nl_op. destruct (nl_replace a (rs_k s)) as [[[] | e] k] eqn:E; cbn [snd].
  - apply (Ha s); [done .. |]. by apply replace_ok.
  - apply (stable s); [done | by apply replace_err in E | done].
Qed.

Lemma preserves_add_via_gateway d p gw oif : may_add (kernel_key (d, p)) (Some gw, oif) -> preserves I (add_via_gateway d p gw oif).
Proof.
  intros Ha. unfold add_via_gateway. destruct d, gw; try (by intros s Hs); by apply preserves_context, preserves_replace.
Qed.

Lemma preserves_log f : (forall s : RS K, rs_rm (f s) = rs_rm s /\ rs_k (f s) = rs_k s) -> forall s, I s -> I (f s).
Proof. intros Hf s. destruct (Hf s) as [H1 H2]. apply stable; [done | by rewrite H2]. Qed.

Lemma preserves_del d p oif gw w (s : RS K) :
  (forall h, h.2 = oif -> (forall g, gw = Some g -> h.1 = Some g) -> may_remove (kernel_key (d, p)) h) ->
  I s -> I (del_or_warn d p oif gw w s).
Proof.
  intros Hr Hs. unfold del_or_warn, del_route, se_context, nl_op.
  destruct (nl_del (build_del_message d p oif gw) (rs_k s)) as [[[] | e] k] eqn:E; cbn.
  - apply del_ok in E as (d' & h & Hd & Hh & Hm & Ht). simpl in Hd. injection Hd as <-.
    apply del_message_matches in Hm as [Ho Hg]. apply (Hr h Ho) with s; [| done ..].
    intros g ->. exact Hg.
  - apply (stable s); [done | by apply del_err in E | done].
Qed.

(** Removal and addition of networks through the gateway of their family. *)
Lemma preserves_del_gateway d p w (s : RS K) :
  (forall h, gw_hop (rs_rm s) d = Some h -> may_remove (kernel_key (d, p)) h) -> I s -> I (del_gateway_or_warn d p w s).
Proof.
  intros Hr Hs. unfold del_gateway_or_warn, gw_hop in *.
  destruct (gateway_for (rs_rm s) d) as [[gw oif] |]; [| done].
  apply preserves_del; [| done]. intros [g o] Ho Hg. simpl in Ho, Hg. subst. rewrite (Hg gw eq_refl). by apply Hr.
Qed.

Lemma preserves_remove_bypass w l (s : RS K) :
  (forall s x h, x ∈ kernel_key <$> l -> I s -> gw_hop (rs_rm s) x.1 = Some h -> may_remove x h) -> I s ->
  I (remove_bypass w l s).
Proof.
  unfold remove_bypass. revert s. induction l as [| [d p] l IH]; intros s Hr Hs; [done |]. cbn [fold_left].
  apply IH.
  - intros s1 x h Hx. apply Hr. by right.
  - apply preserves_del_gateway; [| done]. intros h Hh. apply (Hr s); [left | done |]. by rewrite gw_hop_key.
Qed.

Lemma preserves_add_bypass sf sk x :
  (forall s h, I s -> gw_hop (rs_rm s) (kernel_key x).1 = Some h -> may_add (kernel_key x) h) ->
  preserves I (add_bypass sf sk x).
Proof.
  intros Ha s Hs. destruct x as [d p]. unfold add_bypass. setoid_rewrite gw_hop_key in Ha.
  destruct (gateway_for (rs_rm s) d) as [[gw oif] |] eqn:E; [| by apply (stable s)].
  pose proof (Ha s (Some gw, oif) Hs ltac:(unfold gw_hop; by rewrite E)) as Hx.
  revert s Hs E. intros s Hs _. revert s Hs. apply preserves_bind; [by apply preserves_context, preserves_add_via_gateway |].
  intros _. apply preserves_do. intros s. by apply stable.
Qed.

Lemma preserves_on_dns (m : SE DnsState unit) : preserves I (on_dns m).
Proof. intros s Hs. unfold on_dns. destruct (m (dns_view s)) as [r d]. by apply (stable_dns s _ (ds_rc d)). Qed.

(** A reload: its plan says what it removes and adds. *)
Lemma preserves_reload plan :
  (forall o n, rp_proxy_route_change plan = Some (o, n) ->
     (forall s h, I s -> gw_hop (rs_rm s) o = Some h -> may_remove (o, host_prefix o) h) /\
     (forall s h, I s -> gw_hop (rs_rm s) n = Some h -> may_add (n, host_prefix n) h) /\
     forall s, I s -> I (set_rm (with_proxy_ip n) s)) ->
  (forall s x h, x ∈ kernel_key <$> rp_bypass_remove plan -> I s -> gw_hop (rs_rm s) x.1 = Some h -> may_remove x h) ->
  (forall s x h, x ∈ kernel_key <$> rp_bypass_add plan -> I s -> gw_hop (rs_rm s) x.1 = Some h -> may_add x h) ->
  (forall s, I s -> I (set_rm (with_bypass (rp_new_bypass plan)) s)) ->
  (forall s, I s -> I (set_rm (with_dns_server (rp_dns plan)) s)) ->
  preserves I (reload plan).
Proof.
  intros Hch Hrem Hadd Hb Hd s Hs. unfold reload. destruct (negb (applied (rs_rm s))); [done |].
  revert s Hs. apply preserves_bind; [| intros _; apply preserves_bind; [| intros _; apply preserves_bind; [|
    intros _; apply preserves_bind; [by apply preserves_do |]; intros _]]].
  - unfold move_proxy_route. destruct (rp_proxy_route_change plan) as [[o n] |]; [| apply preserves_ret].
    destruct (Hch o n eq_refl) as (Ho & Hn & Hp). apply preserves_bind; [apply preserves_do |].
    { intros s Hs. apply preserves_del_gateway; [| done]. intros h. rewrite host_key. by apply Ho. }
    intros _ s Hs. destruct (gateway_for (rs_rm s) n) as [[gw oif] |] eqn:E; [| done].
    pose proof (Hn s (Some gw, oif) Hs ltac:(unfold gw_hop; by rewrite E)) as Hx. clear E. revert s Hs.
    apply preserves_bind; [apply preserves_context, preserves_add_via_gateway; by rewrite host_key |].
    intros _. apply preserves_bind; [by apply preserves_do |]. intros _. apply preserves_do. intros s. by apply stable.
  - apply preserves_do. intros s. apply preserves_remove_bypass. intros s1 x h Hx. by apply Hrem.
  - apply preserves_for. intros x Hx. apply preserves_add_bypass. intros s h Hs. apply Hadd; [| done].
    apply list_elem_of_fmap. eauto.
  - destruct (rp_dns_changed plan); [| apply preserves_ret].
    apply preserves_bind; [apply preserves_on_dns |]. intros _. by apply preserves_do.
Qed.
End Rules.

Lemma frame_insert l t x h : x ∈ l -> may_add (frame l t) x h.
Proof. intros Hx s s' Hf _ Ht k Hk. rewrite Ht, lookup_insert_ne by congruence. by apply Hf. Qed.

Lemma frame_delete l t x h : x ∈ l -> may_remove (frame l t) x h.
Proof. intros Hx s s' Hf _ _ Ht k Hk. rewrite Ht, lookup_delete_ne by congruence. by apply Hf. Qed.

Lemma frame_add l t p b x h : x ∈ l -> may_add (framed_about l t p b) x h.
Proof.
  intros Hx s s' [Hf Ha] Hr Ht. split; [by eapply frame_insert | unfold about; by rewrite Hr].
Qed.

Lemma frame_remove l t p b x h : x ∈ l -> may_remove (framed_about l t p b) x h.
Proof.
  intros Hx s s' [Hf Ha] Hr Hh Ht. split; [by eapply frame_delete | unfold about; by rewrite Hr].
Qed.

(** Statements that leave table, proxy and networks alone. *)
Lemma framed_do l t p b (f : RS K -> RS K) :
  (forall s, table (f s) = table s /\ proxy_ip (rs_rm (f s)) = proxy_ip (rs_rm s) /\ bypass (rs_rm (f s)) = bypass (rs_rm s)) ->
  preserves (framed_about l t p b) (se_do f).
Proof.
  intros Hf. apply preserves_do. intros s [H [H1 H2]]. destruct (Hf s) as (Ht & Hp & Hb).
  split; [intros k Hk; rewrite Ht; by apply H |]. split; congruence.
Qed.

Lemma framed_tun l t p b d q : kernel_key (d, q) ∈ l -> preserves (framed_about l t p b) (add_via_tun d q).
Proof. intros Hx s. unfold add_via_tun. apply preserves_context, preserves_replace; [apply _ |]. by apply frame_add. Qed.

Lemma framed_splits l t p b :
  (forall x, x ∈ v4_nets ++ v6_nets -> x ∈ l) ->
  preserves (framed_about l t p b) (se_for V4_SPLIT (fun '(d, q) => add_via_tun (V4 d) q)) /\
  preserves (framed_about l t p b) (se_for V6_SPLIT (fun '(d, q) => add_via_tun (V6 d) q)).
Proof.
  intros Hl. split; apply preserves_for; intros [d q] Hx; apply framed_tun, Hl, elem_of_app; [left | right];
    [| rewrite (split6_key (d, q) Hx)]; apply list_elem_of_fmap; by exists (d, q).
Qed.

Lemma framed_apply t p b :
  preserves (framed_about ((p, host_prefix p) :: (kernel_key <$> b) ++ v4_nets ++ v6_nets) t p b) apply.
Proof.
  set (l := _ :: _). destruct (framed_splits l t p b) as [H4 H6].
  { intros x Hx. right. apply elem_of_app. by right. }
  unfold apply. apply preserves_bind; [by intros s Hs |]. intros v4.
  apply preserves_bind; [by apply framed_do |]. intros _. apply preserves_bind; [by intros s Hs |]. intros v6.
  apply preserves_bind; [by apply framed_do |]. intros _.
  apply preserves_bind; [apply framed_do; intros s; by destruct v4 as [[] |] |]. intros _.
  apply preserves_bind; [apply framed_do; intros s; by destruct v6 as [[] |] |]. intros _ s Hs.
  destruct Hs as [Hf [Hp Hb]]. cbv zeta. rewrite Hp, Hb.
  destruct (gateway_for (rs_rm s) p) as [[gw oif] |]; [| by split].
  assert (Hs : framed_about l t p b s) by by split. revert Hs. generalize (capture_ipv6 (rs_rm s)) (v6_gateway (rs_rm s)) (rm_dns_server (rs_rm s)).
  intros c6 g6 srv. clear Hf Hp Hb. revert s. apply preserves_bind.
  { apply preserves_context, preserves_add_via_gateway; [apply _ |]. rewrite host_key. apply frame_add. left. }
  intros _. apply preserves_bind; [by apply framed_do |]. intros _. apply preserves_bind.
  { apply preserves_for. intros x Hx. apply preserves_add_bypass; [apply _ |]. intros s h _ _. apply frame_add.
    right. apply elem_of_app. left. apply list_elem_of_fmap. eauto. }
  intros _. apply preserves_bind; [done |]. intros _. apply preserves_bind; [by apply framed_do |]. intros _.
  apply preserves_bind.
  { destruct c6; [| apply preserves_ret]. destruct (_ || _); [| by apply framed_do].
    apply preserves_bind; [done |]. intros _. by apply framed_do. }
  intros _. apply preserves_bind; [apply preserves_on_dns, _ |]. intros _. by apply framed_do.
Qed.

Lemma framed_teardown t p b s :
  framed_about ((p, host_prefix p) :: (kernel_key <$> b) ++ v4_nets ++ v6_nets) t p b s ->
  framed_about ((p, host_prefix p) :: (kernel_key <$> b) ++ v4_nets ++ v6_nets) t p b (teardown s).
Proof.
  set (l := _ :: _). set (I := framed_about l t p b). intros Hs. unfold teardown.
  destruct (negb (applied (rs_rm s))); [done |].
  assert (Hsplit : forall {A} (f : A -> IpAddr * Z) xs s, (forall x, x ∈ xs -> kernel_key (f x) ∈ l) -> I s ->
    I (fold_left (fun s x => del_or_warn (f x).1 (f x).2 (tun_index (rs_rm s)) None "teardown: " s) xs s)).
  { intros A f xs. induction xs as [| x xs IH]; intros s1 Hx H1; [done |]. cbn [fold_left]. apply IH.
    - intros y Hy. apply Hx. by right.
    - apply (preserves_del I); [| done]. intros h _ _. rewrite <- (surjective_pairing (f x)). apply frame_remove, Hx. left. }
  set (s1 := set_rm (with_applied false) s). assert (H1 : I s1) by (destruct Hs as [Hf [Hp Hb]]; by split).
  destruct H1 as [Hf1 [Hp1 Hb1]]. rewrite Hp1. assert (H1 : I s1) by by split.
  set (s2 := del_gateway_or_warn _ _ _ s1).
  assert (H2 : I s2) by (apply (preserves_del_gateway I); [intros h _; rewrite host_key; apply frame_remove; left | done]).
  pose proof H2 as [_ [_ Hb2]]. rewrite Hb2. set (s3 := remove_bypass _ b s2).
  assert (H3 : I s3).
  { apply (preserves_remove_bypass I); [| done]. intros s' x h Hx _ _. apply frame_remove. right. apply elem_of_app. by left. }
  assert (Hin : forall x, x ∈ v4_nets ++ v6_nets -> x ∈ l) by (intros x Hx; right; apply elem_of_app; by right).
  set (s4 := fold_left _ V4_SPLIT s3). assert (H4 : I s4).
  { apply (Hsplit _ (fun '(d, q) => (V4 d, q)) V4_SPLIT); [| done]. intros [d q] Hx. apply Hin, elem_of_app. left.
    apply list_elem_of_fmap. by exists (d, q). }
  set (s5 := fold_left _ V6_SPLIT s4). assert (H5 : I s5).
  { apply (Hsplit _ (fun '(d, q) => (V6 d, q)) V6_SPLIT); [| done]. intros x Hx. apply Hin, elem_of_app. right.
    rewrite (split6_key x Hx). apply list_elem_of_fmap. eauto. }
  set (s6 := if capture_ipv6 (rs_rm s4) then s5 else s4). assert (H6 : I s6) by (unfold s6; by destruct (capture_ipv6 _)).
  by apply (stable_dns s6 _ (ds_rc (dns_restore (dns_view (rs_info "routes removed" s6))))).
Qed.

Lemma framed_call c (s : RS K) : frame (touched c (rs_rm s)) (table s) (rc_call c s).
Proof.
  destruct c as [| plan |]; cbn [rc_call touched].
  - apply (framed_apply (table s) (proxy_ip (rs_rm s)) (bypass (rs_rm s)) s). by split.
  - set (l := _ ++ _).
    assert (Hin : forall x, x ∈ (kernel_key <$> rp_bypass_remove plan) ++ (kernel_key <$> rp_bypass_add plan) -> x ∈ l)
      by (intros x Hx; apply elem_of_app; by right).
    apply (preserves_reload (frame l (table s))); [| | | done ..].
    + intros o n E. unfold l. rewrite E. split_and!; [| | done]; intros s1 h _ _;
        [apply frame_delete; left | apply frame_insert; right; left].
    + intros s1 x h Hx _ _. apply frame_delete, Hin, elem_of_app. by left.
    + intros s1 x h Hx _ _. apply frame_insert, Hin, elem_of_app. by right.
  - by apply framed_teardown.
Qed.

(** ** Lemmas: trying a reload again *)

(** The manager a plan leads to. *)
Definition planned (rm : RouteManager) (plan : ReloadPlan) : RouteManager :=
  with_bypass (rp_new_bypass plan)
    (match rp_proxy_route_change plan with Some (_, n) => with_proxy_ip n rm | None => rm end).

(** The fields that say where routes go. *)
Definition same_host (rm rm' : RouteManager) : Prop :=
  tun_index rm' = tun_index rm /\ capture_ipv6 rm' = capture_ipv6 rm /\ applied rm' = applied rm /\
  v4_gateway rm' = v4_gateway rm /\ v6_gateway rm' = v6_gateway rm.

Lemma same_host_hop rm rm' d : same_host rm rm' -> gw_hop rm' d = gw_hop rm d.
Proof. intros (_ & _ & _ & H4 & H6). unfold gw_hop, gateway_for. by rewrite H4, H6. Qed.

Lemma own_same rm rm' k h :
  same_host rm rm' -> proxy_ip rm' = proxy_ip rm -> bypass rm' = bypass rm -> own rm k h -> own rm' k h.
Proof.
  intros Hs Hp Hb. pose proof Hs as (Ht & Hc & _). unfold own, proxy_net.
  unfold bypass_nets. by rewrite Hp, Hb, Ht, Hc, (same_host_hop rm rm').
Qed.

Section Retry.
Context (base : gmap RouteKey NextHop) (rm0 : RouteManager) (plan : ReloadPlan).
Context (Hfit : plan_fits (proxy_ip rm0) (bypass rm0) plan).
Context (Hfresh0 : fresh base rm0) (Hfresh1 : fresh base (planned rm0 plan)).

(** Between the attempts every route is the host's, or one the old manager or
    the new one owns. *)
Definition allowed (k : RouteKey) (h : NextHop) : Prop := own rm0 k h \/ own (planned rm0 plan) k h.

Record halfway (s : RS K) : Prop := {
  hw_same : same_host rm0 (rs_rm s);
  hw_proxy : rp_proxy_route_change plan = None -> proxy_ip (rs_rm s) = proxy_ip rm0;
  hw_table : forall k, table s !! k = base !! k \/ exists h, table s !! k = Some h /\ allowed k h;
}.

#[local] Instance halfway_stable : Stable halfway.
Proof.
  split; [intros s s' Hr Ht [H1 H2 H3] | intros s s' d Hr Ht [H1 H2 H3]]; split; rewrite ?Hr, ?Ht; done.
Qed.

Lemma halfway_add x h : allowed x h -> may_add halfway x h.
Proof.
  intros Ha s s' [H1 H2 H3] Hr Ht. split; rewrite ?Hr; [done .. |]. intros k. rewrite Ht.
  destruct (decide (k = x)) as [-> | Hk]; [right; exists h; by rewrite lookup_insert_eq | by rewrite lookup_insert_ne].
Qed.

Lemma halfway_remove x h : allowed x h -> may_remove halfway x h.
Proof.
  intros Ha s s' [H1 H2 H3] Hr _ Ht. split; rewrite ?Hr; [done .. |]. intros k. rewrite Ht.
  destruct (decide (k = x)) as [-> | Hk]; [left | by rewrite lookup_delete_ne].
  rewrite lookup_delete_eq. symmetry. destruct Ha; [by eapply Hfresh0 | by eapply Hfresh1].
Qed.

Lemma planned_hop d : gw_hop (planned rm0 plan) d = gw_hop rm0 d.
Proof. apply same_host_hop. unfold planned. by destruct (rp_proxy_route_change plan) as [[] |]. Qed.

Lemma halfway_reload : preserves halfway (reload plan).
Proof.
  destruct Hfit as (Hpc & Hnew & Hrem & Hadd). apply preserves_reload; [apply _ | ..].
  - intros o n E. split_and!.
    + intros s h [Hs _ _] Hh. apply halfway_remove. left. left. rewrite (same_host_hop rm0) in Hh by done.
      rewrite (Hpc o n E) in Hh |- *. split; [left | done].
    + intros s h [Hs _ _] Hh. apply halfway_add. right. left. rewrite (same_host_hop rm0) in Hh by done.
      rewrite planned_hop. split; [| done]. unfold planned, proxy_net. rewrite E. left.
    + intros s [H1 H2 H3]. split; [done | by rewrite E | done].
  - intros s x h Hx [Hs _ _] Hh. apply halfway_remove. left. left. rewrite (same_host_hop rm0) in Hh by done.
    split; [right; by eapply keys_sub | done].
  - intros s x h Hx [Hs _ _] Hh. apply halfway_add. right. left. rewrite (same_host_hop rm0) in Hh by done.
    rewrite planned_hop. split; [right | done]. unfold planned, bypass_nets.
    destruct (rp_proxy_route_change plan) as [[] |]; by eapply keys_sub.
  - intros s [H1 H2 H3]. by split.
  - intros s [H1 H2 H3]. by split.
Qed.

Lemma halfway_attempts s s' : attempts plan s s' -> halfway s -> halfway s'.
Proof. apply attempts_keep, halfway_reload. Qed.

(** Once an attempt ends well, what is not the host's is the new manager's. *)
Lemma halfway_moved s s1 k :
  halfway s -> move_proxy_route (rp_proxy_route_change plan) s = (Ok tt, s1) ->
  same_host rm0 (rs_rm s1) /\ proxy_ip (rs_rm s1) = proxy_ip (planned rm0 plan) /\
  (table s1 !! k = base !! k \/
   exists h, table s1 !! k = Some h /\
     (own (planned rm0 plan) k h \/ (k ∈ bypass_nets rm0 /\ gw_hop rm0 k.1 = Some h))).
Proof.
  destruct Hfit as (Hpc & _). intros [Hs Hn Ht] Hmv%move_proxy_table.
  assert (Hold : forall h, table s !! k = Some h -> allowed k h ->
    own (planned rm0 plan) k h \/ (k ∈ bypass_nets rm0 /\ gw_hop rm0 k.1 = Some h) \/ (k = proxy_net rm0 /\ gw_hop rm0 k.1 = Some h)).
  { intros h _ [[[Hk Hg] | Ho] | Ho]; [| left; right | by left].
    - apply elem_of_cons in Hk as [-> | Hk]; auto.
    - unfold planned. by destruct (rp_proxy_route_change plan) as [[] |]. }
  unfold planned in *. destruct (rp_proxy_route_change plan) as [[o n] |] eqn:E.
  - destruct Hmv as (hn & t & Hgn & Hp & Ht1 & Hr1 & _). rewrite Hr1, Ht1. split_and!; [done .. |].
    rewrite (same_host_hop rm0) in Hgn by done. destruct (decide (k = (n, host_prefix n))) as [-> | Hk].
    { right. exists hn. rewrite lookup_insert_eq. split; [done |]. left. left. split; [left | exact Hgn]. }
    rewrite lookup_insert_ne by done. destruct (Hp k) as [[-> (h & _ & -> & Hg)] | [-> Hno]].
    + left. symmetry. rewrite (same_host_hop rm0) in Hg by done. apply (Hfresh0 _ h). left.
      rewrite (Hpc o n eq_refl) in Hg |- *. split; [left | done].
    + destruct (Ht k) as [? | (h & Hh & Ha)]; [by left | right]. exists h. split; [done |].
      destruct (Hold h Hh Ha) as [? | [? | [-> Hg]]]; [by left | by right |]. exfalso. apply (Hno h Hh).
      rewrite (Hpc o n eq_refl). split; [done |]. by rewrite (same_host_hop rm0).
  - subst s1. split_and!; [done | by apply Hn |]. destruct (Ht k) as [? | (h & Hh & Ha)]; [by left | right].
    exists h. split; [done |]. destruct (Hold h Hh Ha) as [? | [? | [-> Hg]]]; [by left | by right |].
    left. left. split; [left | done].
Qed.

Lemma halfway_success s s' :
  halfway s -> applied rm0 = true -> reload plan s = (Ok tt, s') ->
  managed base (table s') (rs_rm s') /\ same_host rm0 (rs_rm s') /\
  proxy_ip (rs_rm s') = proxy_ip (planned rm0 plan) /\ bypass (rs_rm s') = rp_new_bypass plan.
Proof.
  intros Hh Ha H. pose proof Hfit as (_ & Hnew & Hrem & Hadd). pose proof (hw_same _ Hh) as (_ & _ & Hap & _).
  apply reload_stages in H as (s1 & t2 & s4 & H1 & Hp2 & Ht4 & Hr4 & _ & H); [| congruence].
  pose proof (fun k => halfway_moved s s1 k Hh H1) as Hmv. destruct (Hmv (proxy_net rm0)) as (Hs1 & Hpx & _).
  assert (Hhost : same_host rm0 (rs_rm s4)) by (by rewrite Hr4).
  assert (Hpr : proxy_ip (rs_rm s4) = proxy_ip (planned rm0 plan)) by (by rewrite Hr4).
  assert (Hb : bypass (rs_rm s4) = rp_new_bypass plan) by (by rewrite Hr4).
  assert (Hown : forall k h, own (planned rm0 plan) k h -> own (rs_rm s4) k h).
  { intros k h. apply own_same; [| done | rewrite Hb; unfold planned; by destruct (rp_proxy_route_change plan) as [[] |]].
    unfold planned. by destruct (rp_proxy_route_change plan) as [[] |]. }
  assert (Hgw : forall k h, k ∈ kernel_key <$> rp_new_bypass plan -> gw_hop rm0 k.1 = Some h -> own (rs_rm s4) k h).
  { intros k h Hk Hg. apply Hown. left. rewrite planned_hop. split; [| done]. right.
    unfold planned, bypass_nets. by destruct (rp_proxy_route_change plan) as [[] |]. }
  assert (Hm : managed base (table s4) (rs_rm s4)).
  { intros k. rewrite Ht4, (same_host_hop rm0) by done.
    assert (Hk2 : t2 !! k = base !! k \/ exists h, t2 !! k = Some h /\ own (rs_rm s4) k h).
    { destruct (Hp2 k) as [[-> (h & _ & Hk & Hg)] | [-> Hno]].
      - left. symmetry. rewrite (same_host_hop rm0) in Hg by done. apply (Hfresh0 _ h). left.
        split; [right; by eapply keys_sub | done].
      - destruct (Hmv k) as (_ & _ & [? | (h & Hh1 & [Ho | [Hk Hg]])]); [by left | right; eauto |].
        right. exists h. split; [done |]. destruct (keys_split _ _ _ Hnew k Hk) as [? | Hr]; [by apply Hgw |].
        exfalso. apply (Hno h Hh1). by rewrite (same_host_hop rm0). }
    case_decide as Hk; [| done]. destruct (gw_hop rm0 k.1) as [h |] eqn:Hg; [| done]. right. exists h. split; [done |].
    apply Hgw; [by eapply keys_sub | done]. }
  destruct (rp_dns_changed plan); [| subst s'; by split_and!]. destruct H as (d & _ & ->). by split_and!.
Qed.
End Retry.

(** ** Properties *)

(** C13. Routes that are not the program's are never touched: through any
    sequence of applies, reloads and teardowns, each ending well or failing
    anywhere on the way, a network that is none of the proxy's, the bypass
    networks', the reload plans' and the two halves of each address space
    keeps the route it had. *)
Theorem foreign_routes_kept (cs : list Call) (s : RS K) (k : RouteKey) :
  k ∉ all_touched cs s -> table (rc_calls cs s) !! k = table s !! k.
Proof.
  revert s. induction cs as [| c cs IH]; intros s Hk; [done |]. cbn [all_touched rc_calls] in *.
  apply not_elem_of_app in Hk as [H1 H2]. rewrite (IH _ H2). by apply framed_call.
Qed.

(** C11. A reload that failed can be tried again: from an applied manager whose
    table holds the host's routes and its own ([managed]), with a plan
    computed for its proxy and networks ([plan_fits]) and on a host that had
    no route for the networks of the old or the new configuration ([fresh]),
    after any number of failed attempts, each stopped anywhere by the kernel
    or by the file system, an attempt with the same plan that ends well leaves
    the host's routes and the routes of the new configuration, all known to
    the manager, so that the teardown after it restores the table as it was
    before the run. *)
Theorem reload_retry_recovers (base : gmap RouteKey NextHop) (plan : ReloadPlan) (s s1 s2 : RS K) :
  applied (rs_rm s) = true -> plan_fits (proxy_ip (rs_rm s)) (bypass (rs_rm s)) plan ->
  managed base (table s) (rs_rm s) -> fresh base (rs_rm s) -> fresh base (planned (rs_rm s) plan) ->
  attempts plan s s1 -> rc_reload plan s1 = (Ok tt, s2) ->
  managed base (table s2) (rs_rm s2) /\ proxy_net (rs_rm s2) = proxy_net (planned (rs_rm s) plan) /\
  bypass (rs_rm s2) = rp_new_bypass plan /\ table (rc_teardown s2) = base.
Proof.
  intros Ha Hfit Hm Hf0 Hf1 Hat Hok. assert (Hh : halfway base (rs_rm s) plan s).
  { split; [done .. |]. intros k. destruct (Hm k) as [? | (h & Hh & Ho)]; [by left | right]. exists h. split; [done | by left]. }
  apply (halfway_attempts base (rs_rm s) plan Hfit Hf0 Hf1 _ _ Hat) in Hh.
  destruct (halfway_success base (rs_rm s) plan Hfit Hf0 Hf1 s1 s2 Hh Ha Hok) as (Hm2 & Hs2 & Hp2 & Hb2).
  split_and!; [done | unfold proxy_net; by rewrite Hp2 | done |]. apply teardown_table; [done | | by destruct Hs2 as (_ & _ & -> & _)].
  intros k h Ho. apply (Hf1 k h). revert Ho. apply own_same; [| done |].
  - destruct Hs2 as (H1 & H2 & H3 & H4 & H5). unfold planned.
    destruct (rp_proxy_route_change plan) as [[] |]; by split_and!.
  - rewrite Hb2. unfold planned. by destruct (rp_proxy_route_change plan) as [[] |].
Qed.
End Errors.

(** ** Witnesses *)

Lemma foreign_routes_kept_witness :
  let s := Example.start [(V4 167772160, 8)] [NoFault; Clean "EIO"] in
  nl_table (rs_k (rc_calls [Apply; Reload Example.drop_proxy; Teardown] s)) !! (V4 0, 0) = Some (Some (V4 3232235777), 2).
Proof.
  cbv zeta. rewrite (foreign_routes_kept [Apply; Reload Example.drop_proxy; Teardown]); [vm_compute; reflexivity |].
  refine (proj1 (bool_decide_eq_true _) _). vm_compute. reflexivity.
Defined.

Module RetryExample.
(** The proxy moves, one network is replaced, and so is the DNS server. *)
Definition plan : ReloadPlan :=
  mkPlan (mkProxyConfig (SocketAddr_new (V4 3405803786) 1080) None None DEFAULT_CONNECT_TIMEOUT true)
    RouteTable.empty [(V4 3221225984, 24)] [(V4 3221225984, 24)] [(V4 167772160, 8)]
    (Some (V4 134744072)) true (Some (V4 3405803785, V4 3405803786)) true.

Definition r : RS SimKernel := Example.running [(V4 167772160, 8)].

(** The first write of [resolv.conf] fails. *)
Definition s : RS SimKernel :=
  mkRS (rs_rm r) (rs_k r) (mkFS (files (rs_fs r)) [] [Clean "EIO"]) (rs_log r).
Definition s1 : RS SimKernel := (rc_reload plan s).2.
Definition s2 : RS SimKernel := (rc_reload plan s1).2.

Lemma r_session : session Example.host (as_bytes "nameserver 8.8.8.8") r.
Proof. unfold r. exact Example.running_session. Qed.

(** It differs from [r] in its files only. *)
Lemma s_fields : rs_rm s = rs_rm r /\ rs_k s = rs_k r.
Proof. unfold s. generalize r. by intros []. Qed.

Lemma first_fails : exists e, rc_reload plan s = (Err e, s1).
Proof. eexists. vm_compute. reflexivity. Qed.

Lemma second_succeeds : rc_reload plan s1 = (Ok tt, s2).
Proof. vm_compute. reflexivity. Qed.

Lemma fits : plan_fits (proxy_ip (rs_rm s)) (bypass (rs_rm s)) plan.
Proof.
  split_and!; [by intros o n [= <- <-] | | |]; intros x Hx; apply list_elem_of_singleton in Hx as ->;
    [right | ..]; by apply list_elem_of_singleton.
Qed.
End RetryExample.

Lemma reload_retry_recovers_witness :
  nl_table (rs_k (rc_teardown RetryExample.s2)) = Example.host /\
  bypass (rs_rm RetryExample.s2) = [(V4 3221225984, 24)].
Proof.
  destruct (session_inv _ _ _ RetryExample.r_session) as (Hm & Ha & Hf & _).
  destruct RetryExample.s_fields as [Hr Hk]. rewrite <- Hr in Hm, Ha, Hf. rewrite <- Hk in Hm.
  destruct RetryExample.first_fails as [e He].
  destruct (reload_retry_recovers Example.host RetryExample.plan RetryExample.s RetryExample.s1 RetryExample.s2 Ha
    RetryExample.fits Hm Hf) as (_ & _ & Hb & Ht); [| | exact RetryExample.second_succeeds | by split].
  - apply Example.fresh_host. refine (proj1 (bool_decide_eq_true _) _). vm_compute. reflexivity.
  - eapply attempts_fail; [exact He | apply attempts_none].
Defined.
