(* ===== verification/LinuxRestart.v ===== *)
(** * A reload is a restart ([src/platform/linux/route.rs] with [src/reload.rs])

    A reload changes the running tunnel step by step, from the difference
    between two configurations. What it leaves in the routing table is what
    a start with the new configuration would have put there. *)

From Stdlib Require Import ZArith Lia.
From Stdlib Require Import Strings.Ascii Strings.String.
From stdpp Require Import base decidable list strings gmap.
From S2P Require Import Prelude StdNet StdText Net Config Logging Reload Platform LinuxDns Netlink Tune LinuxRoute LinuxError.
#[local] Open Scope Z_scope.

(** ** Specification *)

(** The host's table with the manager's routes on top. *)
Definition exact (base : gmap RouteKey NextHop) (rm : RouteManager) (t : gmap RouteKey NextHop) : Prop :=
  forall k, t !! k = over (installed rm k) (base !! k).

(** Two managers whose networks do not get in each other's way: no bypass
    network of the second is one of the halves that go to the tunnel, none is
    the host route of the other's proxy, and none that the kernel keeps as
    another is a different network. Each is needed: see
    [LinuxRoute.reload_drops_proxy_route] and [LinuxRoute.reload_drops_alias]. *)
Definition apart (rm rm' : RouteManager) : Prop :=
  (forall k, k ∈ bypass_nets rm' -> k ∉ v4_nets ++ v6_nets) /\
  proxy_net rm ∉ bypass_nets rm' /\ proxy_net rm' ∉ bypass_nets rm /\
  (forall x y, x ∈ bypass rm -> y ∈ bypass rm' -> kernel_key x = kernel_key y -> x = y).

Section Restart.
Context {K : Type} `{!Netlink K} `{!RouteLaws K}.

Abbreviation table s := (nl_table (rs_k s)).

(** The manager works for a configuration. *)
Definition serves (cfg : Config) (rm : RouteManager) : Prop :=
  (exists p, proxy_socket_addr cfg = Some p /\ proxy_ip rm = sa_ip p) /\ bypass_routes cfg = Some (bypass rm).

(** The tunnel runs with a configuration on a host whose table was [base]:
    it was started with it, or came to it by a reload. *)
Inductive followed (base : gmap RouteKey NextHop) : Config -> RS K -> Prop :=
| followed_start cfg s s' :
    validate cfg = Ok tt -> serves cfg (rs_rm s) -> table s = base ->
    rc_apply s = (Ok tt, s') -> fresh base (rs_rm s') -> followed base cfg s'
| followed_reload cfg cfg' plan s s' :
    followed base cfg s -> validate cfg' = Ok tt -> ReloadPlan.compute cfg cfg' = Some plan ->
    rc_reload plan s = (Ok tt, s') -> fresh base (rs_rm s') -> apart (rs_rm s) (rs_rm s') ->
    followed base cfg' s'.

(** ** Lemmas *)

Lemma gw_hop_gateway rm d h : gw_hop rm d = Some h -> exists g, h.1 = Some g.
Proof. unfold gw_hop. intros ([g o] & _ & ->)%fmap_Some. by exists g. Qed.

(** What a pruned table holds under one key. *)
Lemma prune_lookup P t t' k :
  prune P t t' -> t' !! k = t !! k \/ (t' !! k = None /\ exists h, t !! k = Some h /\ P k h).
Proof. intros Hp. destruct (Hp k) as [[? ?] | [? _]]; auto. Qed.

Lemma prune_gone (P : RouteKey -> NextHop -> Prop) t t' k h :
  prune P t t' -> t !! k = Some h -> P k h -> t' !! k = None.
Proof. intros Hp Hh HP. destruct (Hp k) as [[? _] | [_ Hn]]; [done |]. by apply Hn in Hh. Qed.

Lemma prune_kept (P : RouteKey -> NextHop -> Prop) t t' k :
  prune P t t' -> (forall h, t !! k = Some h -> ~ P k h) -> t' !! k = t !! k.
Proof. intros Hp Hn. destruct (Hp k) as [[_ (h & Hh & HP)] | [? _]]; [by apply Hn in Hh | done]. Qed.

(** Pruning respects equivalent predicates. *)
#[local] Instance prune_proper :
  Proper (pointwise_relation _ (pointwise_relation _ iff) ==> eq ==> eq ==> iff) prune.
Proof. intros P Q HPQ t ? <- t' ? <-. split; apply prune_ext; intros k h; [apply HPQ | symmetry; apply HPQ]. Qed.

(** A manager that could protect its proxy captures IPv6 whatever the
    proxy's family is. *)
Lemma tun_nets_gateway rm :
  is_Some (gw_hop rm (proxy_ip rm)) ->
  tun_nets rm = v4_nets ++ (if capture_ipv6 rm && bool_decide (is_Some (v6_gateway rm)) then v6_nets else []).
Proof.
  intros [h Hh]. unfold tun_nets, gw_hop, gateway_for in *. do 2 f_equal. destruct (proxy_ip rm); cbn [is_ipv6].
  - by rewrite orb_false_r.
  - destruct (v6_gateway rm); [done | discriminate Hh].
Qed.

Lemma tun_nets_split rm x : x ∈ tun_nets rm -> x ∈ v4_nets ++ v6_nets.
Proof.
  unfold tun_nets. rewrite !elem_of_app. intros [? | H]; [by left |]. case_match; [by right | by apply not_elem_of_nil in H].
Qed.

Lemma proxy_not_tun rm rm' : proxy_net rm ∉ tun_nets rm'.
Proof.
  intros H%tun_nets_split. destruct (host_net_not_split (proxy_ip rm)) as [H4 H6].
  apply elem_of_app in H as [H | H]; [by apply H4 | by apply H6].
Qed.

(** The differences a plan lists. *)
Lemma diff_spec old new x :
  (x ∈ (diff_cidrs old new).1 <-> x ∈ new /\ x ∉ old) /\ (x ∈ (diff_cidrs old new).2 <-> x ∈ old /\ x ∉ new).
Proof. unfold diff_cidrs. cbn [fst snd]. rewrite !list_elem_of_filter. tauto. Qed.

(** They are differences of the networks as the kernel keeps them, if it keeps
    none as another. *)
Lemma diff_keys old new :
  (forall x y, x ∈ old -> y ∈ new -> kernel_key x = kernel_key y -> x = y) -> forall k,
  (k ∈ kernel_key <$> (diff_cidrs old new).1 <-> k ∈ kernel_key <$> new /\ k ∉ kernel_key <$> old) /\
  (k ∈ kernel_key <$> (diff_cidrs old new).2 <-> k ∈ kernel_key <$> old /\ k ∉ kernel_key <$> new).
Proof.
  intros Hal k. rewrite !list_elem_of_fmap. setoid_rewrite (fun x => proj1 (diff_spec old new x)).
  setoid_rewrite (fun x => proj2 (diff_spec old new x)). split; split.
  - intros (x & -> & Hx & Hn). split; [eauto |]. intros (y & E & Hy). apply Hn. by rewrite <- (Hal y x Hy Hx).
  - intros ((x & -> & Hx) & Hn). exists x. split_and!; [done .. |]. intros Ho. apply Hn. eauto.
  - intros (x & -> & Hx & Hn). split; [eauto |]. intros (y & E & Hy). apply Hn. by rewrite (Hal x y Hx Hy).
  - intros ((x & -> & Hx) & Hn). exists x. split_and!; [done .. |]. intros Ho. apply Hn. eauto.
Qed.

(** The routes of a set of networks [T] into the tunnel and of [l] through
    the gateways of a manager, on top of the host's. *)
Section Layers.
Context (base : gmap RouteKey NextHop) (rm : RouteManager) (T : list RouteKey).

Definition layer (l : list RouteKey) (k : RouteKey) : option NextHop :=
  if decide (k ∈ T) then Some (None, tun_index rm) else if decide (k ∈ l) then gw_hop rm k.1 else None.

Definition layered (l : list RouteKey) (t : gmap RouteKey NextHop) : Prop :=
  forall k, t !! k = over (layer l k) (base !! k).

Lemma layered_ext l l' t : (forall k, k ∈ l <-> k ∈ l') -> layered l t -> layered l' t.
Proof.
  intros H Ht k. rewrite Ht. unfold layer. by rewrite (decide_ext (k ∈ l) (k ∈ l')) by apply H.
Qed.

Lemma layered_prune (Q : RouteKey -> Prop) `{!forall k, Decision (Q k)} l t t' :
  layered l t -> (forall k h, Q k -> gw_hop rm k.1 = Some h -> base !! k = None) ->
  prune (fun k h => Q k /\ gw_hop rm k.1 = Some h) t t' -> layered (filter (fun k => ~ Q k) l) t'.
Proof.
  intros Ht Hb Hp k. unfold layer. rewrite (decide_ext (k ∈ filter (fun k => ~ Q k) l) (k ∈ l /\ ~ Q k))
    by (rewrite list_elem_of_filter; tauto).
  specialize (Ht k). unfold layer in Ht. destruct (decide (k ∈ T)) as [HT | HT].
  { rewrite (prune_kept _ _ _ _ Hp); [done |]. intros h Hh [_ (g & Hg)%gw_hop_gateway]. rewrite Ht in Hh.
    injection Hh as <-. discriminate Hg. }
  destruct (decide (Q k)) as [HQ | HQ].
  - rewrite (decide_False (P := k ∈ l /\ ~ Q k)) by tauto. cbn [over].
    destruct (prune_lookup _ _ _ k Hp) as [E | [E (h & _ & _ & Hg)]]; [| rewrite E; symmetry; eauto].
    destruct (gw_hop rm k.1) as [h |] eqn:Hg; [| rewrite E, Ht; by destruct (decide (k ∈ l))].
    destruct (decide (k ∈ l)) as [Hl | Hl]; cbn [over] in Ht; [| by rewrite E].
    rewrite (prune_gone _ _ _ _ h Hp) by (rewrite ?Ht; done). symmetry. eauto.
  - rewrite (prune_kept _ _ _ _ Hp) by (by intros h _ [? _]). rewrite Ht.
    by rewrite (decide_ext (k ∈ l /\ ~ Q k) (k ∈ l)) by tauto.
Qed.

Lemma layered_insert l t x h :
  layered l t -> x ∉ T -> gw_hop rm x.1 = Some h -> layered (x :: l) (<[x := h]> t).
Proof.
  intros Ht HT Hh k. unfold layer. destruct (decide (k = x)) as [-> | Hk].
  - rewrite lookup_insert_eq, decide_False by done. rewrite decide_True by left. by rewrite Hh.
  - rewrite lookup_insert_ne by done. rewrite Ht. unfold layer.
    by rewrite (decide_ext (k ∈ x :: l) (k ∈ l)) by (rewrite elem_of_cons; tauto).
Qed.

Lemma layered_add l t t' add :
  layered l t -> (forall x, x ∈ add -> x ∉ T) ->
  (forall k, t' !! k = if decide (k ∈ add)
     then match gw_hop rm k.1 with Some h => Some h | None => t !! k end else t !! k) ->
  layered (add ++ l) t'.
Proof.
  intros Ht HT Ht' k. rewrite Ht', Ht. unfold layer. destruct (decide (k ∈ add)) as [Ha | Ha].
  - rewrite !(decide_False (P := k ∈ T)) by auto. rewrite (decide_True (P := k ∈ add ++ l)) by (apply elem_of_app; by left).
    destruct (gw_hop rm k.1); [done |]. by destruct (decide (k ∈ l)).
  - by rewrite (decide_ext (k ∈ add ++ l) (k ∈ l)) by (rewrite elem_of_app; tauto).
Qed.
End Layers.

Lemma exact_layered base rm t : exact base rm t <-> layered base rm (tun_nets rm) (proxy_net rm :: bypass_nets rm) t.
Proof. done. Qed.

Lemma layered_same base rm rm' T l t : same_host rm rm' -> layered base rm T l t -> layered base rm' T l t.
Proof.
  intros Hs Ht k. rewrite Ht. unfold layer. pose proof Hs as (-> & _). by rewrite (same_host_hop rm rm').
Qed.

(** The proxy's route moves; its old one goes, unless it is the same. *)
Lemma move_layered base (s s1 : RS K) ip :
  exact base (rs_rm s) (table s) -> fresh base (rs_rm s) -> is_Some (gw_hop (rs_rm s) (proxy_ip (rs_rm s))) ->
  move_proxy_route (if decide (proxy_ip (rs_rm s) <> ip) then Some (proxy_ip (rs_rm s), ip) else None) s = (Ok tt, s1) ->
  same_host (rs_rm s) (rs_rm s1) /\ proxy_ip (rs_rm s1) = ip /\ is_Some (gw_hop (rs_rm s) ip) /\
  exists l, layered base (rs_rm s) (tun_nets (rs_rm s)) l (table s1) /\
    forall k, k ∈ l <-> k = (ip, host_prefix ip) \/ (k ∈ bypass_nets (rs_rm s) /\ (proxy_ip (rs_rm s) <> ip -> k <> proxy_net (rs_rm s))).
Proof.
  intros He Hf Hg H%move_proxy_table. case_decide as Hne; cbn beta iota in H.
  - destruct H as (h & t1 & Hh & Hp & Ht & Hr & _). rewrite Hr. split_and!; [done | done | by eexists |].
    eexists. split; [rewrite Ht; eapply layered_insert; [| apply (proxy_not_tun (with_proxy_ip ip (rs_rm s))) | exact Hh] |].
    + eapply (layered_prune _ _ _ (fun k => k = (proxy_ip (rs_rm s), host_prefix (proxy_ip (rs_rm s)))));
        [by apply exact_layered | | exact Hp].
      intros k h' -> Hk. apply (Hf _ h'). left. split; [left | done].
    + intros k. rewrite elem_of_cons, list_elem_of_filter, elem_of_cons. change (proxy_ip (rs_rm s), host_prefix _) with (proxy_net (rs_rm s)).
      tauto.
  - subst s1 ip. split_and!; [done .. |]. eexists. split; [by apply exact_layered |].
    intros k. rewrite elem_of_cons. tauto.
Qed.

Lemma reload_exact base plan ip nb (s s' : RS K) :
  applied (rs_rm s) = true -> exact base (rs_rm s) (table s) -> fresh base (rs_rm s) ->
  is_Some (gw_hop (rs_rm s) (proxy_ip (rs_rm s))) ->
  rp_proxy_route_change plan = (if decide (proxy_ip (rs_rm s) <> ip) then Some (proxy_ip (rs_rm s), ip) else None) ->
  rp_new_bypass plan = nb -> rp_bypass_add plan = (diff_cidrs (bypass (rs_rm s)) nb).1 ->
  rp_bypass_remove plan = (diff_cidrs (bypass (rs_rm s)) nb).2 ->
  reload plan s = (Ok tt, s') -> apart (rs_rm s) (rs_rm s') ->
  same_host (rs_rm s) (rs_rm s') /\ proxy_ip (rs_rm s') = ip /\ bypass (rs_rm s') = nb /\
  is_Some (gw_hop (rs_rm s') ip) /\ exact base (rs_rm s') (table s').
Proof.
  intros Ha He Hf Hg Hch Hnb Hadd Hrem H Hap.
  apply reload_stages in H as (s1 & t2 & s4 & H1 & Hp2 & Ht4 & Hr4 & _ & H); [| done]. rewrite Hch in H1.
  apply (move_layered base) in H1 as (Hs1 & Hip & Hgip & l & Hl & Hin); [| done ..].
  assert (Hf4 : same_host (rs_rm s) (rs_rm s') /\ proxy_ip (rs_rm s') = ip /\ bypass (rs_rm s') = nb /\ table s' = table s4).
  { destruct (rp_dns_changed plan); [destruct H as (d & _ & ->) | subst s'];
      cbn [set_rm dns_put rs_rm rs_k with_dns_server with_dns proxy_ip bypass]; rewrite Hr4, <- Hnb; by split_and!. }
  destruct Hf4 as (Hs' & Hip' & Hb' & Ht'). destruct Hap as (Hsplit & Hold & Hnew & Hal).
  unfold bypass_nets in Hsplit, Hold. rewrite Hb' in Hsplit, Hold, Hal.
  assert (Hgip' : is_Some (gw_hop (rs_rm s') ip)) by (by rewrite (same_host_hop (rs_rm s) (rs_rm s'))).
  split_and!; [done .. |]. apply exact_layered. rewrite Ht'.
  assert (ET : tun_nets (rs_rm s') = tun_nets (rs_rm s)).
  { rewrite !tun_nets_gateway by (rewrite ?Hip'; done). destruct Hs' as (_ & -> & _ & _ & ->). done. }
  rewrite ET. apply (layered_same base (rs_rm s)); [done |].
  rewrite Hrem in Hp2. setoid_rewrite (same_host_hop (rs_rm s) (rs_rm s1)) in Hp2; [| done].
  rewrite Hadd in Ht4.
  eapply layered_ext; [| eapply layered_add; [eapply (layered_prune _ _ _ (fun k => k ∈ kernel_key <$> (diff_cidrs (bypass (rs_rm s)) nb).2));
    [exact Hl | | exact Hp2] | | intros k; by rewrite Ht4, (same_host_hop (rs_rm s) (rs_rm s1))]].
  - intros k. rewrite elem_of_app, list_elem_of_filter, Hin, elem_of_cons. unfold bypass_nets. rewrite Hb'.
    destruct (diff_keys (bypass (rs_rm s)) nb Hal k) as [-> ->]. unfold proxy_net at 2. rewrite Hip'.
    assert (Hk1 : k = (ip, host_prefix ip) -> k ∉ kernel_key <$> bypass (rs_rm s)) by (intros ->; by rewrite <- Hip').
    assert (Hk2 : k = proxy_net (rs_rm s) -> k ∉ kernel_key <$> nb) by (by intros ->).
    destruct (decide (k ∈ kernel_key <$> nb)), (decide (k ∈ kernel_key <$> bypass (rs_rm s))); tauto.
  - intros k h Hk Hh. apply (diff_keys _ _ Hal k) in Hk as [Hk _]. apply (Hf k h). left. split; [by right | done].
  - intros x Hx HT. apply (diff_keys _ _ Hal x) in Hx as [Hx _]. by eapply Hsplit, tun_nets_split.
Qed.

(** The table of a tunnel that runs with a configuration. *)
Lemma followed_exact base cfg (s : RS K) :
  followed base cfg s ->
  validate cfg = Ok tt /\ serves cfg (rs_rm s) /\ applied (rs_rm s) = true /\ fresh base (rs_rm s) /\
  is_Some (gw_hop (rs_rm s) (proxy_ip (rs_rm s))) /\ exact base (rs_rm s) (table s).
Proof.
  induction 1 as [cfg s s' Hv [(p & Hp & Hip) Hb] Ht Hok Hf
    | cfg cfg' plan s s' _ (Hv & [(p & Hp & Hip) Hb] & Ha & Hf & Hg & He) Hv' Hpl Hok Hf' Hap].
  - apply apply_ok in Hok as (v4 & v6 & d & log & Hrm & _ & _ & Hg & Htab).
    split_and!; [done | | by rewrite Hrm | done | by rewrite Hrm |].
    + rewrite Hrm. split; [by exists p | done].
    + intros k. rewrite Htab, Hrm, Ht. done.
  - destruct (compute_valid cfg cfg') as (ob & nb & op & np & od & nd & Hob & Hnb & Hop & Hnp & _ & _ & E);
      [by apply validate_valid .. |]. rewrite Hpl in E. injection E as ->.
    rewrite Hp in Hop. injection Hop as <-. rewrite Hb in Hob. injection Hob as <-. rewrite <- Hip in Hok.
    eapply (reload_exact base _ (sa_ip np) nb s s' Ha He Hf Hg) in Hok as (Hs' & Hi & Hn & Hg' & He'); [| done ..].
    split_and!; [done | | by destruct Hs' as (_ & _ & -> & _) | done | by rewrite Hi | done].
    split; [by exists np | by rewrite Hn].
Qed.

(** ** Properties *)

(** C5. A reload is a restart: the routing table of a tunnel that runs with a
    configuration does not depend on how it came to it. Started with it or
    brought to it by any sequence of successful reloads from other
    configurations, on the same host the table is the same, so long as the
    host had no route for a network of these configurations ([fresh]), and
    each configuration on the way and the next are [apart]: the next lists no
    half of the address space, and neither lists the other's proxy, nor a
    network that the kernel takes for one of the other's, as a bypass
    network. *)
Theorem reload_is_restart (base : gmap RouteKey NextHop) (cfg : Config) (s r : RS K) :
  followed base cfg s -> followed base cfg r -> same_host (rs_rm s) (rs_rm r) ->
  table s = table r.
Proof.
  intros (_ & [(p & Hp & Hip) Hb] & _ & _ & Hg & Hs)%followed_exact (_ & [(p' & Hp' & Hip') Hb'] & _ & _ & Hg' & Hr)%followed_exact Hh.
  rewrite Hp in Hp'. injection Hp' as <-. rewrite Hb in Hb'. injection Hb' as Hb'. apply map_eq. intros k. rewrite Hs, Hr. f_equal. unfold installed.
  rewrite !tun_nets_gateway by done. pose proof Hh as (-> & -> & _ & _ & ->).
  unfold proxy_net, bypass_nets. by rewrite Hip, Hip', <- Hb', (same_host_hop (rs_rm s) (rs_rm r)).
Qed.
End Restart.

(** ** Witness *)

Module RestartExample.
(** Two configurations with different proxies and bypass networks. *)
Definition cfg (proxy : string) (nets : list string) : Config :=
  mkConfig proxy None None "cortado0" "10.0.0.1" false "1.1.1.1" true true nets None.
Definition old : Config := cfg "203.0.113.9:1080" ["10.0.0.0/8"].
Definition new : Config := cfg "203.0.113.10:1080" ["192.0.2.0/24"].

Definition start (ip : Z) (nets : CidrList) : RS SimKernel :=
  mkRS (mkRM (V4 ip) 7 ResolvConf.system (Some (V4 16843009)) nets true None None false) Example.kernel
    (mkFS {[RESOLV_CONF_PATH := as_bytes "nameserver 8.8.8.8"]} [] []) [].

Definition plan : option ReloadPlan := Eval vm_compute in ReloadPlan.compute old new.
Definition the_plan : ReloadPlan :=
  match plan with Some p => p | None => Example.drop_proxy end.

Definition started : RS SimKernel := (rc_apply (start 3405803785 [(V4 167772160, 8)])).2.
Definition reloaded : RS SimKernel := (rc_reload the_plan started).2.
Definition restarted : RS SimKernel := (rc_apply (start 3405803786 [(V4 3221225984, 24)])).2.

Lemma fresh_at rm : bool_decide ((V4 0, 0) ∉ proxy_net rm :: bypass_nets rm) = true -> fresh Example.host rm.
Proof. intros H%bool_decide_eq_true. by apply Example.fresh_host. Qed.

Lemma started_follows : followed Example.host old started.
Proof.
  apply (followed_start _ _ (start 3405803785 [(V4 167772160, 8)])); [vm_compute; reflexivity | | reflexivity | vm_compute; reflexivity |].
  - split; [eexists; split; [vm_compute; reflexivity | reflexivity] | vm_compute; reflexivity].
  - apply fresh_at. vm_compute. reflexivity.
Qed.

Lemma restarted_follows : followed Example.host new restarted.
Proof.
  apply (followed_start _ _ (start 3405803786 [(V4 3221225984, 24)])); [vm_compute; reflexivity | | reflexivity | vm_compute; reflexivity |].
  - split; [eexists; split; [vm_compute; reflexivity | reflexivity] | vm_compute; reflexivity].
  - apply fresh_at. vm_compute. reflexivity.
Qed.

Lemma reloaded_follows : followed Example.host new reloaded.
Proof.
  apply (followed_reload _ old new the_plan started); [apply started_follows | vm_compute; reflexivity .. | |].
  - apply fresh_at. vm_compute. reflexivity.
  - assert (Hb : bypass (rs_rm reloaded) = [(V4 3221225984, 24)]) by (vm_compute; reflexivity).
    assert (Ho : bypass (rs_rm started) = [(V4 167772160, 8)]) by (vm_compute; reflexivity).
    split_and!; [| apply (bool_decide_unpack _); vm_compute; exact I .. |].
    + intros x. unfold bypass_nets. rewrite Hb. intros ->%list_elem_of_singleton. apply (bool_decide_unpack _). vm_compute. exact I.
    + rewrite Hb, Ho. intros x y ->%list_elem_of_singleton ->%list_elem_of_singleton. discriminate.
Qed.
End RestartExample.

Lemma reload_is_restart_witness :
  nl_table (rs_k RestartExample.reloaded) = nl_table (rs_k RestartExample.restarted).
Proof.
  apply (reload_is_restart Example.host RestartExample.new);
    [exact RestartExample.reloaded_follows | exact RestartExample.restarted_follows |].
  vm_compute. by split_and!.
Defined.

(** A reload that fails between its routes and the end leaves the manager with
    the new networks while the program keeps the old configuration: the plan
    of a reload to a third configuration does not mention them, and no
    teardown removes their routes. *)
Module Interrupted.
Definition cfg (dns : string) (nets : list string) : Config :=
  mkConfig "203.0.113.9:1080" None None "cortado0" "10.0.0.1" false dns true true nets None.
Definition first : Config := cfg "1.1.1.1" [].
Definition second : Config := cfg "9.9.9.9" ["10.0.0.0/8"].
Definition third : Config := cfg "1.1.1.1" ["192.0.2.0/24"].

Definition started : RS SimKernel := (rc_apply (RestartExample.start 3405803785 [])).2.

(** The second configuration's DNS server cannot be written. *)
Definition full_disk : RS SimKernel :=
  mkRS (rs_rm started) (rs_k started) (mkFS (files (rs_fs started)) [] [Clean "ENOSPC"]) [].

Definition reloaded_to (old new : Config) (s : RS SimKernel) : option (result unit * RS SimKernel) :=
  (fun plan => rc_reload plan s) <$> ReloadPlan.compute old new.

Example interrupted_reload_leaks :
  match reloaded_to first second full_disk with
  | Some (Err _, s1) =>
      match reloaded_to first third s1 with
      | Some (Ok _, s2) => nl_table (rs_k (rc_teardown s2)) !! (V4 167772160, 8) = Some (Some (V4 3232235777), 2)
      | _ => False
      end
  | _ => False
  end /\ Example.host !! (V4 167772160, 8) = None.
Proof. split; vm_compute; reflexivity. Qed.
End Interrupted.
