(* ===== verification/DnsPool.v ===== *)
(** * Pooled DNS over TCP ([src/dns.rs])

    Connections to DNS servers through the proxy, shared by many queries at
    once: each query borrows an identifier that is unique on its connection,
    and the connection's reader task hands every reply to the query whose
    identifier it bears.

    The pool holds [Arc<Conn>]s: connections live in a heap and are named by
    references, so that a connection removed from the pool is still the one
    its queries use. *)

From Stdlib Require Import ZArith Lia.
From Stdlib Require Import Strings.Ascii Strings.String.
From stdpp Require Import base decidable list list_numbers strings gmap fin_sets fin_map_dom.
From S2P Require Import Prelude StdNet Config Stats.
#[local] Open Scope Z_scope.

(** ** Connections *)

Definition MAX_INFLIGHT_PER_CONN : Z := 256.
Definition MAX_CONNS_PER_TARGET : Z := 8.
Definition MAX_DNS_MESSAGE : Z := 65535.

(** The sending half of a one-shot channel: [allocate_id] stores one whose
    receiver is already gone, a query then replaces it with its own. *)
Inductive Sender : Type :=
| Placeholder
| Tx (query : nat).

#[global] Instance Sender_eq_dec : EqDecision Sender.
Proof. solve_decision. Defined.

Record Conn : Type := mkConn {
  inflight : gmap Z Sender;
  next_id : Z;
  alive : bool;
  last_used : Z;
  written : list byte;
}.

Definition with_inflight (m : gmap Z Sender) (c : Conn) : Conn :=
  mkConn m (next_id c) (alive c) (last_used c) (written c).
Definition with_alive (b : bool) (c : Conn) : Conn :=
  mkConn (inflight c) (next_id c) b (last_used c) (written c).
Definition with_last_used (t : Z) (c : Conn) : Conn :=
  mkConn (inflight c) (next_id c) (alive c) t (written c).
Definition with_written (l : list byte) (c : Conn) : Conn :=
  mkConn (inflight c) (next_id c) (alive c) (last_used c) l.

(** [for _ in 0..=u16::MAX]: one candidate per iteration. *)
Fixpoint alloc_loop (fuel : nat) (m : gmap Z Sender) (next : Z) : option Z * Z :=
  match fuel with
  | O => (None, next)
  | S fuel =>
      let candidate := Z.land next 65535 in
      let next := wrapping_add 64 next 1 in
      match m !! candidate with
      | None => (Some candidate, next)
      | Some _ => alloc_loop fuel m next
      end
  end.

Definition ID_SPACE : nat := Z.to_nat 65536.

Definition allocate_id (c : Conn) : option Z * Conn :=
  if MAX_INFLIGHT_PER_CONN <=? Z.of_nat (size (inflight c)) then (None, c)
  else
    match alloc_loop ID_SPACE (inflight c) (next_id c) with
    | (Some id, next) =>
        (Some id, mkConn (<[id := Placeholder]> (inflight c)) next (alive c) (last_used c) (written c))
    | (None, next) => (None, mkConn (inflight c) next (alive c) (last_used c) (written c))
    end.

(** [Conn] as [open_conn] makes it, at the time [now]. *)
Definition new_conn (now : Z) : Conn := mkConn ∅ 0 true now [].

(** ** The reader task

    What the socket gives the reader: bytes, nothing for the idle timeout,
    the end of the stream or an error. *)

Inductive ReadEvent : Type :=
| Chunk (l : list byte)
| Idle
| Closed.

(** Where the reader is: inside [read_exact] of the two length bytes, with
    those it already has, or of a body. *)
Inductive ReaderPos : Type :=
| InLen (got : list byte)
| InBody (len : nat) (got : list byte)
| Stopped.

(** A complete body: its entry is removed, and its sender, when it is still
    a query's, receives it. *)
Definition deliver (body : list byte) (c : Conn) : Conn * option (nat * list byte) :=
  let id := of_be_bytes (take 2 body) in
  (with_inflight (delete id (inflight c)) c,
   match inflight c !! id with Some (Tx q) => Some (q, body) | _ => None end).

(** Leaving the loop: the connection is dead and its queries lose their
    senders. *)
Definition reader_exit (c : Conn) : Conn := with_inflight ∅ (with_alive false c).

(** One more byte: [read_exact] returns when its buffer is full. *)
Definition reader_byte (b : byte) (p : ReaderPos) (c : Conn) : ReaderPos * Conn * list (nat * list byte) :=
  match p with
  | Stopped => (Stopped, c, [])
  | InLen got =>
      let got := got ++ [b] in
      if decide (length got = 2%nat)
      then
        let len := of_be_bytes got in
        if len <? 2 then (Stopped, reader_exit c, []) else (InBody (Z.to_nat len) [], c, [])
      else (InLen got, c, [])
  | InBody len got =>
      let got := got ++ [b] in
      if decide (length got = len)
      then let '(c, d) := deliver got c in (InLen [], c, match d with Some x => [x] | None => [] end)
      else (InBody len got, c, [])
  end.

Fixpoint reader_bytes (l : list byte) (p : ReaderPos) (c : Conn) : ReaderPos * Conn * list (nat * list byte) :=
  match l with
  | [] => (p, c, [])
  | b :: l =>
      let '(p, c, d) := reader_byte b p c in
      let '(p, c, d') := reader_bytes l p c in
      (p, c, d ++ d')
  end.

(** One event. The timeout covers the length only: it ends the task when no
    query waits, and otherwise starts [read_exact] again with a fresh
    buffer position; the bytes already read are not kept. *)
Definition reader_event (e : ReadEvent) (p : ReaderPos) (c : Conn) : ReaderPos * Conn * list (nat * list byte) :=
  match p, e with
  | Stopped, _ => (Stopped, c, [])
  | _, Chunk l => reader_bytes l p c
  | _, Closed => (Stopped, reader_exit c, [])
  | InLen _, Idle =>
      if decide (inflight c = ∅) then (Stopped, reader_exit c, []) else (InLen [], c, [])
  | InBody _ _, Idle => (p, c, [])
  end.

Fixpoint reader_events (l : list ReadEvent) (p : ReaderPos) (c : Conn) : ReaderPos * Conn * list (nat * list byte) :=
  match l with
  | [] => (p, c, [])
  | e :: l =>
      let '(p, c, d) := reader_event e p c in
      let '(p, c, d') := reader_events l p c in
      (p, c, d ++ d')
  end.

(** ** Framing *)

(** [framed]: the length, then the query with its identifier replaced. The
    two assignments [framed[2]] and [framed[3]] need at least two bytes of
    query; [resolve] lets none under twelve through. *)
Definition frame (query : list byte) (id : Z) : list byte :=
  be_bytes 2 (Z.of_nat (length query) mod 2 ^ 16) ++ be_bytes 2 id ++ drop 2 query.

(** [resp[0] = original_id[0]; resp[1] = original_id[1]] *)
Definition patch_id (original_id resp : list byte) : list byte := original_id ++ drop 2 resp.

(** ** The pool *)

Record Pool : Type := mkPool {
  pool_proxy : ProxyConfig;
  query_timeout : Z;
  idle_timeout : Z;
  conns : gmap SocketAddr (list nat);
  heap : gmap nat Conn;
  via : gmap nat ProxyConfig;   (** the proxy each connection was opened through *)
  pool_stats : Counters;
}.

Definition with_conns (m : gmap SocketAddr (list nat)) (p : Pool) : Pool :=
  mkPool (pool_proxy p) (query_timeout p) (idle_timeout p) m (heap p) (via p) (pool_stats p).
Definition with_heap (h : gmap nat Conn) (p : Pool) : Pool :=
  mkPool (pool_proxy p) (query_timeout p) (idle_timeout p) (conns p) h (via p) (pool_stats p).
Definition with_stats (s : Counters) (p : Pool) : Pool :=
  mkPool (pool_proxy p) (query_timeout p) (idle_timeout p) (conns p) (heap p) (via p) s.

Definition update (r : nat) (f : Conn -> Conn) (p : Pool) : Pool := with_heap (alter f r (heap p)) p.

Definition is_alive (p : Pool) (r : nat) : bool :=
  match heap p !! r with Some c => alive c | None => false end.

Module DnsPool.
Definition new (proxy : ProxyConfig) (query_timeout idle_timeout : Z) (s : Counters) : Pool :=
  mkPool proxy query_timeout idle_timeout ∅ ∅ ∅ s.

(** Every connection of every bucket is marked dead, then the map cleared. *)
Definition set_proxy (proxy : ProxyConfig) (p : Pool) : Pool :=
  let p := mkPool proxy (query_timeout p) (idle_timeout p) (conns p) (heap p) (via p) (pool_stats p) in
  let all := concat ((map_to_list (conns p)).*2) in
  let p := fold_left (fun p r => update r (with_alive false) p) all p in
  with_conns ∅ p.

(** [connect] is the outcome of [socks::tcp_connect] to the server through
    the proxy read at the start; the result is a new reference. *)
Definition open_conn (now : Z) (connect : result unit) (p : Pool) : result nat * Pool :=
  let proxy := pool_proxy p in
  match context "failed to open pooled DNS connection" connect with
  | Err e => (Err e, p)
  | Ok _ =>
      let r := fresh (dom (heap p)) in
      (Ok r, mkPool (pool_proxy p) (query_timeout p) (idle_timeout p) (conns p)
               (<[r := new_conn now]> (heap p)) (<[r := proxy]> (via p)) (pool_stats p))
  end.

(** [map.entry(server).or_default()] *)
Definition bucket (server : SocketAddr) (p : Pool) : list nat := default [] (conns p !! server).

Definition retain_alive (server : SocketAddr) (p : Pool) : Pool :=
  with_conns (<[server := filter (fun r => is_alive p r = true) (bucket server p)]> (conns p)) p.

Definition allocate_on (r : nat) (p : Pool) : option Z * Pool :=
  match heap p !! r with
  | None => (None, p)
  | Some c => let '(o, c) := allocate_id c in (o, with_heap (<[r := c]> (heap p)) p)
  end.

Fixpoint first_free (l : list nat) (p : Pool) : option (nat * Z) * Pool :=
  match l with
  | [] => (None, p)
  | r :: l =>
      match allocate_on r p with
      | (Some id, p) => (Some (r, id), with_stats (inc DNS_POOL_HITS (pool_stats p)) p)
      | (None, p) => first_free l p
      end
  end.

Definition try_reuse (server : SocketAddr) (p : Pool) : option (nat * Z) * Pool :=
  let p := retain_alive server p in
  first_free (bucket server p) p.

(** The end of [acquire] and of [open_and_register]. *)
Definition register (server : SocketAddr) (r : nat) (p : Pool) : result (nat * Z * bool) * Pool :=
  match allocate_on r p with
  | (None, p) => (Err ["freshly opened DNS connection rejected allocation"], p)
  | (Some id, p) =>
      let p := with_conns (<[server := bucket server p ++ [r]]> (conns p)) p in
      (Ok (r, id, false), with_stats (inc DNS_POOL_MISSES (pool_stats p)) p)
  end.

(** [lock], [check] and [dial] are what other tasks do to the pool while
    this one waits for [open_lock], for [conns], and for the connection. *)
Definition acquire (now : Z) (connect : result unit) (lock check dial : Pool -> Pool)
    (server : SocketAddr) (p : Pool) : result (nat * Z * bool) * Pool :=
  match try_reuse server p with
  | (Some (r, id), p) => (Ok (r, id, true), p)
  | (None, p) =>
      match try_reuse server (lock p) with
      | (Some (r, id), p) => (Ok (r, id, true), p)
      | (None, p) =>
          let p := retain_alive server (check p) in
          if MAX_CONNS_PER_TARGET <=? Z.of_nat (length (bucket server p))
          then (Err ["DNS connection pool exhausted for " +:+ show_sockaddr server], p)
          else
            match open_conn now connect p with
            | (Err e, p) => (Err e, dial p)
            | (Ok r, p) => register server r (dial p)
            end
      end
  end.

Definition open_and_register (now : Z) (connect : result unit) (lock dial : Pool -> Pool)
    (server : SocketAddr) (p : Pool) : result (nat * Z * bool) * Pool :=
  match open_conn now connect (lock p) with
  | (Err e, p) => (Err e, dial p)
  | (Ok r, p) => register server r (dial p)
  end.

(** What the surroundings do during one attempt. *)
Inductive Reply : Type := Replied (body : list byte) | SenderDropped | TimedOut.

Record Env : Type := mkEnv {
  e_now : Z;
  e_connect : result unit;
  e_lock : Pool -> Pool;
  e_check : Pool -> Pool;
  e_dial : Pool -> Pool;
  e_write : Result string unit;
  e_wait : Pool -> Pool;
  e_reply : Reply;
}.

Inductive Outcome : Type :=
| OOk (resp : list byte)
| ORetry (e : Error)
| OFatal (e : Error).

(** [q] names the query's one-shot channel. [None] is the panic of indexing
    a reply of fewer than two bytes. *)
Definition attempt (env : Env) (q : nat) (server : SocketAddr) (query original_id : list byte)
    (force_new : bool) (p : Pool) : option Outcome * Pool :=
  let '(acquired, p) :=
    if force_new then open_and_register (e_now env) (e_connect env) (e_lock env) (e_dial env) server p
    else acquire (e_now env) (e_connect env) (e_lock env) (e_check env) (e_dial env) server p in
  match acquired with
  | Err e => (Some (ORetry e), p)
  | Ok (r, id, _) =>
      let p := update r (fun c => with_inflight (<[id := Tx q]> (inflight c)) c) p in
      let framed := frame query id in
      match e_write env with
      | Err e =>
          let p := update r (with_alive false) p in
          let p := update r (fun c => with_inflight (delete id (inflight c)) c) p in
          (Some (ORetry ["failed to write DNS query"; e]), p)
      | Ok _ =>
          let p := update r (fun c => with_written (written c ++ framed) c) p in
          let p := update r (with_last_used (e_now env)) p in
          let p := e_wait env p in
          match e_reply env with
          | Replied resp =>
              (if decide (2 <= length resp)%nat then Some (OOk (patch_id original_id resp)) else None, p)
          | SenderDropped =>
              let p := update r (fun c => with_inflight (delete id (inflight c)) c) p in
              (Some (ORetry ["pooled DNS connection closed before reply"]), p)
          | TimedOut =>
              let p := update r (fun c => with_inflight (delete id (inflight c)) c) p in
              (Some (OFatal ["pooled DNS query timed out"]), p)
          end
      end
  end.

(** The [for attempt in 0..2] loop, on the surroundings of each attempt. *)
Fixpoint attempts (envs : list (Env * nat)) (first : bool) (server : SocketAddr) (query original_id : list byte)
    (last_err : option Error) (p : Pool) : option (result (list byte)) * Pool :=
  match envs with
  | [] => (Some (Err (default ["DNS resolution failed"] last_err)), p)
  | (env, q) :: envs =>
      match attempt env q server query original_id (negb first) p with
      | (None, p) => (None, p)
      | (Some (OOk resp), p) => (Some (Ok resp), p)
      | (Some (ORetry e), p) => attempts envs false server query original_id (Some e) p
      | (Some (OFatal e), p) => (Some (Err e), p)
      end
  end.

Definition resolve (env1 env2 : Env) (q1 q2 : nat) (server : SocketAddr) (query : list byte) (p : Pool)
    : option (result (list byte)) * Pool :=
  if Z.of_nat (length query) <? 12 then (Some (Err ["DNS query too short"]), p)
  else if MAX_DNS_MESSAGE <? Z.of_nat (length query) then (Some (Err ["DNS query too large"]), p)
  else attempts [(env1, q1); (env2, q2)] true server query (take 2 query) None p.

(** The test of [prune]'s loop: a connection is kept, or dropped and, when it
    was alive, marked dead. Marking it does not change the test of any
    other, so the buckets can be taken all at once. *)
Definition keep_conn (now idle : Z) (c : Conn) : bool :=
  alive c && negb (bool_decide (inflight c = ∅) && (idle <? saturating_sub now (last_used c))).

Definition keep_ref (now : Z) (p : Pool) (r : nat) : bool :=
  match heap p !! r with Some c => keep_conn now (idle_timeout p) c | None => false end.

Definition prune (now : Z) (p : Pool) : Pool :=
  let all := concat ((map_to_list (conns p)).*2) in
  let dropped := filter (fun r => keep_ref now p r = false) all in
  let p' := fold_left (fun p r => update r (with_alive false) p) dropped p in
  let kept := filter (fun r => keep_ref now p r = true) <$> conns p in
  with_conns (filter (fun kv => kv.2 <> []) kept) p'.

Definition conn_count (p : Pool) : nat := sum_list (length <$> (map_to_list (conns p)).*2).
End DnsPool.

(** ** Lemmas: identifiers *)

Lemma land_id z : Z.land z 65535 = z mod 65536.
Proof. change 65535 with (Z.ones 16). by rewrite Z.land_ones by lia. Qed.

Lemma mod_id z : (z mod 2 ^ 64) mod 65536 = z mod 65536.
Proof. rewrite <- Znumtheory.Zmod_div_mod; [done | lia | lia |]. by exists (2 ^ 48). Qed.

Lemma alloc_loop_some fuel m next id next' :
  alloc_loop fuel m next = (Some id, next') -> m !! id = None /\ uint 16 id.
Proof.
  revert next. induction fuel as [| fuel IH]; intros next H; [done |]. simpl in H.
  destruct (m !! Z.land next 65535) eqn:E; [by eapply IH |]. simplify_eq. split; [done |].
  rewrite land_id. unfold uint. apply Z.mod_pos_bound. lia.
Qed.

(** A loop that finds nothing has seen every candidate taken. *)
Lemma alloc_loop_none fuel m next next' :
  alloc_loop fuel m next = (None, next') ->
  forall i, 0 <= i < Z.of_nat fuel -> is_Some (m !! ((next + i) mod 65536)).
Proof.
  revert next. induction fuel as [| fuel IH]; intros next H i Hi; [lia |]. simpl in H.
  rewrite land_id in H. destruct (m !! (next mod 65536)) eqn:E; [| done].
  destruct (decide (i = 0)) as [-> | Hi0]; [rewrite Z.add_0_r; by eexists |].
  specialize (IH _ H (i - 1) ltac:(lia)). unfold wrapping_add in IH.
  rewrite <- (Z.add_mod_idemp_l _ _ 65536), mod_id, Z.add_mod_idemp_l in IH by lia.
  by replace (next + 1 + (i - 1)) with (next + i) in IH by lia.
Qed.

Lemma all_ids_taken (m : gmap Z Sender) :
  (forall id, uint 16 id -> is_Some (m !! id)) -> (ID_SPACE <= size m)%nat.
Proof.
  intros H. rewrite <- (size_dom (D := gset Z)).
  assert (Hs : list_to_set (seqZ 0 65536) ⊆@{gset Z} dom m).
  { intros id Hid. apply elem_of_list_to_set, elem_of_seqZ in Hid. apply elem_of_dom, H. unfold uint. lia. }
  apply subseteq_size in Hs. rewrite size_list_to_set in Hs by apply NoDup_seqZ.
  by rewrite length_seqZ in Hs.
Qed.

Lemma alloc_loop_total (m : gmap Z Sender) next :
  (size m < ID_SPACE)%nat -> exists id next', alloc_loop ID_SPACE m next = (Some id, next').
Proof.
  intros Hm. destruct (alloc_loop ID_SPACE m next) as [[id |] next'] eqn:E; [by eauto |].
  exfalso. pose proof (all_ids_taken m) as H. apply Nat.lt_nge in Hm. apply Hm, H. intros id Hid.
  pose proof (alloc_loop_none _ _ _ _ E ((id - next) mod 65536)) as Hi.
  rewrite Z.add_mod_idemp_r in Hi by lia. replace (next + (id - next)) with id in Hi by lia.
  unfold uint in Hid. rewrite (Z.mod_small id) in Hi by lia. apply Hi.
  unfold ID_SPACE. rewrite Z2Nat.id by lia. apply Z.mod_pos_bound. lia.
Qed.

Lemma allocate_id_some c id c' :
  allocate_id c = (Some id, c') ->
  inflight c !! id = None /\ uint 16 id /\ inflight c' = <[id := Placeholder]> (inflight c) /\
  alive c' = alive c /\ last_used c' = last_used c /\ written c' = written c /\
  Z.of_nat (size (inflight c')) <= MAX_INFLIGHT_PER_CONN.
Proof.
  unfold allocate_id. case_match eqn:Hlt; [done |]. bool_to_prop.
  destruct (alloc_loop _ _ _) as [[i |] next] eqn:E; [| done]. intros [= <- <-]. simpl.
  apply alloc_loop_some in E as [H1 H2]. split_and!; try done.
  rewrite map_size_insert_None by done. lia.
Qed.

Lemma allocate_id_none c c' :
  allocate_id c = (None, c') -> MAX_INFLIGHT_PER_CONN <= Z.of_nat (size (inflight c)) /\ c' = c.
Proof.
  unfold allocate_id. case_match eqn:Hlt; bool_to_prop; [intros [= <-]; done |].
  destruct (alloc_loop_total (inflight c) (next_id c)) as (id & n & E).
  { unfold MAX_INFLIGHT_PER_CONN in Hlt. unfold ID_SPACE. lia. }
  by rewrite E.
Qed.

(** ** Lemmas: framing and the reader *)

Definition wire (m : list byte) : list byte := be_bytes 2 (Z.of_nat (length m)) ++ m.

Definition message_ok (m : list byte) : Prop := (2 <= length m)%nat /\ Z.of_nat (length m) <= MAX_DNS_MESSAGE.

Lemma frame_wire query id :
  message_ok query ->
  frame query id = wire (be_bytes 2 id ++ drop 2 query) /\ length (be_bytes 2 id ++ drop 2 query) = length query.
Proof.
  intros [H1 H2]. unfold frame, wire, MAX_DNS_MESSAGE in *.
  assert (L : length (be_bytes 2 id ++ drop 2 query) = length query).
  { rewrite length_app, length_be_bytes, length_drop. lia. }
  rewrite L. split; [| done]. rewrite Z.mod_small by lia. done.
Qed.

Lemma reader_bytes_app l l' p c :
  reader_bytes (l ++ l') p c =
  let '(p, c, d) := reader_bytes l p c in
  let '(p, c, d') := reader_bytes l' p c in (p, c, d ++ d').
Proof.
  revert p c. induction l as [| b l IH]; intros p c; simpl.
  - by destruct (reader_bytes l' p c) as [[? ?] ?].
  - destruct (reader_byte b p c) as [[p1 c1] d1]. rewrite IH.
    destruct (reader_bytes l p1 c1) as [[p2 c2] d2]. destruct (reader_bytes l' p2 c2) as [[p3 c3] d3].
    by rewrite app_assoc.
Qed.

Lemma reader_stopped l c : reader_bytes l Stopped c = (Stopped, c, []).
Proof. induction l as [| b l IH]; [done |]. simpl. by rewrite IH. Qed.

Lemma reader_events_chunks ls p c :
  reader_events (Chunk <$> ls) p c = reader_bytes (concat ls) p c.
Proof.
  revert p c. induction ls as [| l ls IH]; intros p c; [done |]. simpl. rewrite reader_bytes_app.
  assert (E : reader_event (Chunk l) p c = reader_bytes l p c).
  { destruct p; try done. simpl. by rewrite reader_stopped. }
  rewrite E. destruct (reader_bytes l p c) as [[p1 c1] d1]. by rewrite IH.
Qed.

(** What the reader does with a whole body. *)
Definition hand_over (body : list byte) (c : Conn) : Conn * list (nat * list byte) :=
  let '(c, d) := deliver body c in (c, match d with Some x => [x] | None => [] end).

Lemma reader_body rest got len c :
  rest <> [] -> (length got + length rest = len)%nat ->
  reader_bytes rest (InBody len got) c =
  let '(c, d) := hand_over (got ++ rest) c in (InLen [], c, d).
Proof.
  revert got. induction rest as [| b rest IH]; intros got Hne Hlen; [done |]. simpl in Hlen.
  cbn [reader_bytes reader_byte]. rewrite length_app. simpl. destruct rest as [| b' rest].
  - rewrite decide_True by (simpl in Hlen; lia). unfold hand_over.
    destruct (deliver (got ++ [b]) c) as [c1 d]. simpl. by rewrite app_nil_r.
  - rewrite decide_False by (simpl in Hlen; lia).
    rewrite IH; [| done | rewrite length_app; simpl in *; lia].
    rewrite <- app_assoc. reflexivity.
Qed.

Lemma reader_wire m c :
  message_ok m ->
  reader_bytes (wire m) (InLen []) c = let '(c, d) := hand_over m c in (InLen [], c, d).
Proof.
  intros [H1 H2]. unfold MAX_DNS_MESSAGE in H2. unfold wire. rewrite reader_bytes_app.
  assert (E : reader_bytes (be_bytes 2 (Z.of_nat (length m))) (InLen []) c = (InBody (length m) [], c, [])).
  { pose proof (of_be_bytes_be_bytes 2 (Z.of_nat (length m))) as Hb.
    rewrite Z.mod_small in Hb by (change (256 ^ Z.of_nat 2) with 65536; lia).
    cbn [be_bytes reader_bytes reader_byte app length] in *. rewrite decide_False by done.
    cbn [reader_byte app length]. rewrite decide_True by done. rewrite Hb.
    destruct (Z.of_nat (length m) <? 2) eqn:E; bool_to_prop; [lia |]. by rewrite Nat2Z.id. }
  rewrite E. rewrite reader_body; [| by destruct m; simpl in * | done].
  simpl. by destruct (hand_over m c).
Qed.

Fixpoint hand_over_all (ms : list (list byte)) (c : Conn) : Conn * list (nat * list byte) :=
  match ms with
  | [] => (c, [])
  | m :: ms => let '(c, d) := hand_over m c in let '(c, d') := hand_over_all ms c in (c, d ++ d')
  end.

Lemma reader_wires ms c :
  Forall message_ok ms ->
  reader_bytes (concat (wire <$> ms)) (InLen []) c = let '(c, d) := hand_over_all ms c in (InLen [], c, d).
Proof.
  intros H. revert c. induction H as [| m ms Hm Hms IH]; intros c; [done |].
  change (concat (wire <$> m :: ms)) with (wire m ++ concat (wire <$> ms)). cbn [hand_over_all].
  rewrite reader_bytes_app, reader_wire by done. destruct (hand_over m c) as [c1 d1].
  rewrite IH. by destruct (hand_over_all ms c1).
Qed.

(** ** Queries sharing a connection

    The steps of [attempt] after a connection is found, one per critical
    section, interleaved in any order with those of the other queries and
    of the reader task. *)

Inductive Phase : Type :=
| Allocated
| Registered
| Waiting
| Answered (resp : list byte)
| Failed.

Record Query : Type := mkQuery {
  q_id : Z;
  q_bytes : list byte;
  q_phase : Phase;
  q_rx : option (list byte);
}.

Record CS : Type := mkCS { cs_conn : Conn; cs_pos : ReaderPos; cs_queries : gmap nat Query }.

Definition with_phase (ph : Phase) (q : Query) : Query := mkQuery (q_id q) (q_bytes q) ph (q_rx q).
Definition with_rx (body : list byte) (q : Query) : Query := mkQuery (q_id q) (q_bytes q) (q_phase q) (Some body).

(** [tx.send(body)] for each delivery. *)
Definition send_all (d : list (nat * list byte)) (m : gmap nat Query) : gmap nat Query :=
  fold_left (fun m '(q, body) => alter (with_rx body) q m) d m.

Inductive cstep : CS -> CS -> Prop :=
| step_alloc n query id c' s :
    cs_queries s !! n = None -> message_ok query ->
    allocate_id (cs_conn s) = (Some id, c') ->
    cstep s (mkCS c' (cs_pos s) (<[n := mkQuery id query Allocated None]> (cs_queries s)))
| step_register n q s :
    cs_queries s !! n = Some q -> q_phase q = Allocated ->
    cstep s (mkCS (with_inflight (<[q_id q := Tx n]> (inflight (cs_conn s))) (cs_conn s)) (cs_pos s)
                  (<[n := with_phase Registered q]> (cs_queries s)))
| step_write n q now s :
    cs_queries s !! n = Some q -> q_phase q = Registered ->
    cstep s (mkCS (with_last_used now (with_written (written (cs_conn s) ++ frame (q_bytes q) (q_id q)) (cs_conn s)))
                  (cs_pos s) (<[n := with_phase Waiting q]> (cs_queries s)))
| step_write_error n q s :
    cs_queries s !! n = Some q -> q_phase q = Registered ->
    cstep s (mkCS (with_inflight (delete (q_id q) (inflight (cs_conn s))) (with_alive false (cs_conn s)))
                  (cs_pos s) (<[n := with_phase Failed q]> (cs_queries s)))
| step_read e p' c' d s :
    reader_event e (cs_pos s) (cs_conn s) = (p', c', d) ->
    cstep s (mkCS c' p' (send_all d (cs_queries s)))
| step_answer n q body s :
    cs_queries s !! n = Some q -> q_phase q = Waiting -> q_rx q = Some body ->
    cstep s (mkCS (cs_conn s) (cs_pos s)
                  (<[n := with_phase (Answered (patch_id (take 2 (q_bytes q)) body)) q]> (cs_queries s)))
| step_give_up n q s :
    cs_queries s !! n = Some q -> q_phase q = Waiting -> q_rx q = None ->
    cstep s (mkCS (with_inflight (delete (q_id q) (inflight (cs_conn s))) (cs_conn s)) (cs_pos s)
                  (<[n := with_phase Failed q]> (cs_queries s))).

Definition cstart (now : Z) : CS := mkCS (new_conn now) (InLen []) ∅.

(** *** Invariant *)

Definition body_for (id : Z) (body : list byte) : Prop :=
  (2 <= length body)%nat /\ of_be_bytes (take 2 body) = id.

Definition sent (c : Conn) (q : Query) : Prop :=
  exists pre post, written c = pre ++ frame (q_bytes q) (q_id q) ++ post.

Definition query_ok (c : Conn) (q : Query) : Prop :=
  (forall body, q_rx q = Some body -> body_for (q_id q) body) /\
  match q_phase q with
  | Waiting => sent c q
  | Answered resp => sent c q /\ exists body, body_for (q_id q) body /\ resp = patch_id (take 2 (q_bytes q)) body
  | _ => True
  end.

Definition pos_ok (p : ReaderPos) : Prop :=
  match p with
  | InLen got => (length got < 2)%nat
  | InBody len got => (2 <= len)%nat /\ (length got < len)%nat
  | Stopped => True
  end.

Record conn_inv (s : CS) : Prop := {
  ci_senders : forall id n, inflight (cs_conn s) !! id = Some (Tx n) ->
                 exists q, cs_queries s !! n = Some q /\ q_id q = id;
  ci_queries : forall n q, cs_queries s !! n = Some q -> query_ok (cs_conn s) q;
  ci_pos : pos_ok (cs_pos s);
}.

(** What the reader delivers was in the map under the identifier it bears,
    and it adds no sender. *)
Definition delivered_from (m : gmap Z Sender) (d : list (nat * list byte)) : Prop :=
  Forall (fun '(n, body) => exists id, m !! id = Some (Tx n) /\ body_for id body) d.

Lemma delivered_mono m m' d :
  (forall id n, m' !! id = Some (Tx n) -> m !! id = Some (Tx n)) -> delivered_from m' d -> delivered_from m d.
Proof. intros H Hd. eapply Forall_impl; [exact Hd |]. intros [n body] (id & Hid & Hb). exists id. auto. Qed.

(** The reader only takes senders away, and leaves what was written alone. *)
Definition reader_rel (c c' : Conn) : Prop :=
  (forall id n, inflight c' !! id = Some (Tx n) -> inflight c !! id = Some (Tx n)) /\ written c' = written c.

Lemma reader_byte_ok b p c p' c' d :
  reader_byte b p c = (p', c', d) -> pos_ok p ->
  pos_ok p' /\ reader_rel c c' /\ delivered_from (inflight c) d.
Proof.
  unfold reader_byte, reader_rel. intros H Hp. destruct p as [got | len got |].
  - case_decide as Hl; [| simplify_eq; split_and!; [| done .. | constructor]].
    + case_match eqn:E; simplify_eq; bool_to_prop; (split; [| split; [| constructor]]).
      * done.
      * split; [| done]. intros id n. simpl. by rewrite lookup_empty.
      * simpl. split; [| lia]. lia.
      * done.
    + simpl in *. rewrite length_app in *. simpl in *. lia.
  - case_decide as Hl; [| simplify_eq; split_and!; [| done .. | constructor]].
    + destruct Hp as [H1 H2]. simpl in H. injection H as <- <- <-. split; [simpl; lia |]. split.
      * split; [| done]. intros id n. simpl. rewrite lookup_delete_Some. tauto.
      * destruct (inflight c !! of_be_bytes (take 2 (got ++ [b]))) as [[| n] |] eqn:E; repeat constructor.
        eexists. split; [exact E |]. by split; [lia |].
    + simpl in *. rewrite length_app in *. simpl in *. lia.
  - simplify_eq. split_and!; try done. constructor.
Qed.

Lemma reader_rel_trans c c' c'' : reader_rel c c' -> reader_rel c' c'' -> reader_rel c c''.
Proof. unfold reader_rel. intros [H1 H2] [H3 H4]. split; [auto | congruence]. Qed.

Lemma reader_bytes_ok l p c p' c' d :
  reader_bytes l p c = (p', c', d) -> pos_ok p ->
  pos_ok p' /\ reader_rel c c' /\ delivered_from (inflight c) d.
Proof.
  revert p c d. induction l as [| b l IH]; intros p c d H Hp; simpl in H.
  - simplify_eq. split_and!; try done. constructor.
  - destruct (reader_byte b p c) as [[p1 c1] d1] eqn:E1.
    destruct (reader_bytes l p1 c1) as [[p2 c2] d2] eqn:E2. simplify_eq.
    apply reader_byte_ok in E1 as (Hp1 & Hr1 & Hd1); [| done].
    apply IH in E2 as (Hp2 & Hr2 & Hd2); [| done]. split_and!; [done | by eapply reader_rel_trans |].
    apply Forall_app. split; [done |]. eapply delivered_mono; [apply Hr1 | done].
Qed.

Lemma reader_event_ok e p c p' c' d :
  reader_event e p c = (p', c', d) -> pos_ok p ->
  pos_ok p' /\ reader_rel c c' /\ delivered_from (inflight c) d.
Proof.
  assert (Hexit : reader_rel c (reader_exit c)).
  { split; [| done]. intros id n. simpl. by rewrite lookup_empty. }
  unfold reader_event. intros H Hp. destruct p as [got | len got |], e as [l | |];
    try (by apply reader_bytes_ok in H); try case_decide; simplify_eq; split_and!; try done;
    try constructor; simpl; lia.
Qed.

Lemma send_all_lookup d (m : gmap nat Query) n q :
  send_all d m !! n = Some q ->
  exists q0, m !! n = Some q0 /\ q_id q = q_id q0 /\ q_bytes q = q_bytes q0 /\ q_phase q = q_phase q0 /\
    (q_rx q = q_rx q0 \/ exists body, q_rx q = Some body /\ (n, body) ∈ d).
Proof.
  unfold send_all. revert m. induction d as [| [n' body] d IH]; intros m H; simpl in H.
  - exists q. split_and!; try done. by left.
  - apply IH in H as (q1 & H1 & Hid & Hb & Hph & Hrx).
    apply lookup_alter_Some in H1 as [(<- & q0 & H0 & ->) | [Hne H0]].
    + exists q0. split_and!; try done. simpl in Hrx. right.
      destruct Hrx as [-> | (b & -> & Hin)]; eexists; (split; [done |]); [left | by right].
    + exists q1. split_and!; try done. destruct Hrx as [? | (b & ? & ?)]; [by left | right].
      exists b. split; [done | by right].
Qed.

Lemma send_all_some d (m : gmap nat Query) n q0 :
  m !! n = Some q0 -> exists q, send_all d m !! n = Some q /\ q_id q = q_id q0.
Proof.
  unfold send_all. revert m q0. induction d as [| [n' body] d IH]; intros m q0 H; simpl; [by exists q0 |].
  destruct (decide (n' = n)) as [-> | Hne].
  - destruct (IH (alter (with_rx body) n m) (with_rx body q0)) as (q & Hq & Hid).
    { by rewrite lookup_alter_eq, H. }
    by exists q.
  - apply IH. by rewrite lookup_alter_ne.
Qed.

Lemma query_ok_written c c' q :
  (exists post, written c' = written c ++ post) -> query_ok c q -> query_ok c' q.
Proof.
  intros [post Hw] [H1 H2]. split; [done |].
  assert (Hs : sent c q -> sent c' q).
  { intros (l & r & E). exists l, (r ++ post). by rewrite Hw, E, <- !app_assoc. }
  destruct (q_phase q); try done; [auto | naive_solver].
Qed.

(** A query changes its phase and its connection. *)
Lemma inv_update_query s c' n q q' :
  conn_inv s -> cs_queries s !! n = Some q -> q_id q' = q_id q ->
  (exists post, written c' = written (cs_conn s) ++ post) ->
  (forall id m, inflight c' !! id = Some (Tx m) ->
     inflight (cs_conn s) !! id = Some (Tx m) \/ (m = n /\ id = q_id q)) ->
  query_ok c' q' ->
  conn_inv (mkCS c' (cs_pos s) (<[n := q']> (cs_queries s))).
Proof.
  intros [Hs Hq Hp] Hn Hid Hw Hm Hok. constructor; simpl; [| | done].
  - intros id m H. destruct (decide (m = n)) as [-> | Hne].
    + exists q'. rewrite lookup_insert_eq. split; [done |].
      destruct (Hm _ _ H) as [H' | [_ ->]]; [| done]. apply Hs in H' as (q0 & H0 & <-). congruence.
    + destruct (Hm _ _ H) as [H' | [-> _]]; [| done]. apply Hs in H' as (q0 & H0 & <-).
      exists q0. by rewrite lookup_insert_ne.
  - intros m q0. rewrite lookup_insert_Some. intros [[<- <-] | [_ H0]]; [done |].
    eapply query_ok_written; [done | by eapply Hq].
Qed.

Lemma cstep_inv s s' : cstep s s' -> conn_inv s -> conn_inv s'.
Proof.
  intros Hstep Hi. destruct Hstep as [n query id c' s Hn Hmsg Ha | n q s Hn Hph | n q now s Hn Hph
    | n q s Hn Hph | e p' c' d s He | n q body s Hn Hph Hrx | n q s Hn Hph Hrx].
  - apply allocate_id_some in Ha as (Hf & _ & Hin & _ & _ & Hw & _).
    destruct Hi as [Hs Hq Hp]. constructor; simpl; [| | done].
    + intros i m. rewrite Hin, lookup_insert_Some. intros [[_ ?] | [_ H]]; [done |].
      apply Hs in H as (q & Hq' & <-). exists q. rewrite lookup_insert_ne by congruence. done.
    + intros m q. rewrite lookup_insert_Some. intros [[<- <-] | [_ H]]; [by split |].
      eapply query_ok_written; [| by eapply Hq]. exists []. by rewrite app_nil_r.
  - pose proof (ci_queries _ Hi _ _ Hn) as [Hrx _]. eapply inv_update_query; try done.
    + exists []. by rewrite app_nil_r.
    + intros id m. simpl. rewrite lookup_insert_Some. intros [[<- [= <-]] | [_ ?]]; auto.
  - pose proof (ci_queries _ Hi _ _ Hn) as [Hrx _]. eapply inv_update_query; try done.
    + by eexists.
    + by left.
    + split; [done |]. simpl. exists (written (cs_conn s)), []. simpl. by rewrite app_nil_r.
  - pose proof (ci_queries _ Hi _ _ Hn) as [Hrx _]. eapply inv_update_query; try done.
    + exists []. by rewrite app_nil_r.
    + intros id m. simpl. rewrite lookup_delete_Some. tauto.
  - destruct Hi as [Hs Hq Hp]. apply reader_event_ok in He as (Hp' & [Hin Hw] & Hd); [| done].
    constructor; simpl; [| | done].
    + intros id m H%Hin%Hs. destruct H as (q & Hq' & <-). by apply (send_all_some d).
    + intros n q H. apply send_all_lookup in H as (q0 & H0 & Hid & Hb & Hph & Hrx).
      destruct (Hq _ _ H0) as [Hrx0 Hph0]. split.
      * intros body Hbody. destruct Hrx as [E | (b & E & Hin')]; [rewrite Hid; apply Hrx0; congruence |].
        rewrite E in Hbody. simplify_eq. unfold delivered_from in Hd. rewrite Forall_forall in Hd.
        apply Hd in Hin' as (id & Hid' & Hbf). apply Hs in Hid' as (q1 & H1 & <-). by simplify_eq; rewrite Hid.
      * unfold sent. rewrite Hph, Hid, Hb, Hw. destruct (q_phase q0); try done.
  - destruct (ci_queries _ Hi _ _ Hn) as [Hrx' Hph']. rewrite Hph in Hph'. eapply inv_update_query; try done.
    + exists []. by rewrite app_nil_r.
    + by left.
    + split; [done |]. simpl. split; [done |]. exists body. split; [by apply Hrx' | done].
  - pose proof (ci_queries _ Hi _ _ Hn) as [Hrx' _]. eapply inv_update_query; try done.
    + exists []. by rewrite app_nil_r.
    + intros id m. simpl. rewrite lookup_delete_Some. tauto.
Qed.

Lemma cstart_inv now : conn_inv (cstart now).
Proof. constructor; simpl; [by intros ? ?; rewrite lookup_empty .. | lia]. Qed.

(** ** Properties *)

(** No query ever receives another's answer: however the queries of a
    connection, the reader and the server are interleaved, and whatever
    bytes the server sends, a query that is answered had sent its frame on
    this connection under its identifier, and its answer is a message the
    server sent with that identifier, with only the first two bytes changed
    back to those of the original query. *)
Theorem answers_match_queries (now : Z) (s : CS) (n : nat) (q : Query) (resp : list byte) :
  rtc cstep (cstart now) s ->
  cs_queries s !! n = Some q -> q_phase q = Answered resp ->
  sent (cs_conn s) q /\
  exists body, of_be_bytes (take 2 body) = q_id q /\ (2 <= length body)%nat /\
    resp = take 2 (q_bytes q) ++ drop 2 body.
Proof.
  intros Hs Hn Hph.
  assert (Hi : conn_inv s).
  { pattern s. eapply rtc_ind_r; [apply (cstart_inv now) | | exact Hs]. intros y z _ Hyz Hy. by eapply cstep_inv. }
  destruct (ci_queries _ Hi _ _ Hn) as [_ H]. rewrite Hph in H.
  destruct H as [Hsent (body & [Hl Hb] & ->)]. split; [done |]. by exists body.
Qed.

Lemma answers_match_queries_witness :
  exists s q, rtc cstep (cstart 0) s /\ cs_queries s !! 0%nat = Some q /\
    q_phase q = Answered (as_bytes "ab-answer") /\ sent (cs_conn s) q.
Proof.
  set (body := be_bytes 2 0 ++ as_bytes "-answer").
  set (q := mkQuery 0 (as_bytes "ab-question?") (Answered (as_bytes "ab-answer")) (Some body)).
  set (c := mkConn ∅ 1 true 5 (frame (as_bytes "ab-question?") 0)).
  assert (H : rtc cstep (cstart 0) (mkCS c (InLen []) {[0%nat := q]})).
  { eapply rtc_l; [eapply (step_alloc 0 (as_bytes "ab-question?")); [reflexivity | split; vm_compute; lia || congruence | vm_compute; reflexivity] |].
    eapply rtc_l; [eapply (step_register 0); [vm_compute; reflexivity | reflexivity] |].
    eapply rtc_l; [eapply (step_write 0 _ 5); [vm_compute; reflexivity | reflexivity] |].
    eapply rtc_l; [eapply (step_read (Chunk (wire body))); vm_compute; reflexivity |].
    eapply rtc_l; [eapply (step_answer 0 _ body); [vm_compute; reflexivity | reflexivity | reflexivity] |].
    match goal with |- rtc _ ?x ?y => assert (E : x = y) by (vm_compute; reflexivity); rewrite E end.
    apply rtc_refl. }
  exists (mkCS c (InLen []) {[0%nat := q]}), q. split; [exact H |]. split; [reflexivity |]. split; [reflexivity |].
  apply (answers_match_queries 0 _ 0%nat q (as_bytes "ab-answer") H); reflexivity.
Defined.

(** C33. Identifiers: below the limit of 256 queries in flight the search
    always ends with an identifier that fits in 16 bits and is not in use on
    the connection, which it reserves; at the limit it refuses and changes
    nothing. The limit is never exceeded by it. *)
Theorem allocate_id_spec (c : Conn) :
  (Z.of_nat (size (inflight c)) < MAX_INFLIGHT_PER_CONN /\
   exists id c', allocate_id c = (Some id, c') /\ uint 16 id /\ inflight c !! id = None /\
     inflight c' = <[id := Placeholder]> (inflight c) /\
     Z.of_nat (size (inflight c')) <= MAX_INFLIGHT_PER_CONN /\
     alive c' = alive c /\ last_used c' = last_used c /\ written c' = written c) \/
  (MAX_INFLIGHT_PER_CONN <= Z.of_nat (size (inflight c)) /\ allocate_id c = (None, c)).
Proof.
  destruct (allocate_id c) as [[id |] c'] eqn:E.
  - left. pose proof (allocate_id_some _ _ _ E) as (H1 & H2 & H3 & H4 & H5 & H6 & H7). split.
    + rewrite H3, map_size_insert_None in H7 by done. lia.
    + by exists id, c'.
  - right. by apply allocate_id_none in E as [H ->].
Qed.

(** The reader cuts the byte stream into messages exactly: whatever the
    pieces in which the bytes of a sequence of framed messages arrive, it
    hands over these messages, in order, each to the query waiting under its
    identifier, and is ready for the next one. *)
Theorem reader_exact (ms : list (list byte)) (chunks : list (list byte)) (c : Conn) :
  Forall message_ok ms -> concat chunks = concat (wire <$> ms) ->
  reader_events (Chunk <$> chunks) (InLen []) c =
  let '(c', d) := hand_over_all ms c in (InLen [], c', d).
Proof. intros Hm Hc. by rewrite reader_events_chunks, Hc, reader_wires. Qed.

Lemma reader_exact_witness :
  let c := mkConn {[7 := Tx 3]} 8 true 0 [] in
  let m := be_bytes 2 7 ++ as_bytes "answer" in
  reader_events [Chunk (take 1 (wire m)); Chunk (drop 1 (wire m))] (InLen []) c =
  (InLen [], with_inflight (delete 7 {[7 := Tx 3]}) c, [(3%nat, m)]).
Proof.
  cbv zeta.
  etransitivity; [apply (reader_exact [be_bytes 2 7 ++ as_bytes "answer"]
    [take 1 (wire (be_bytes 2 7 ++ as_bytes "answer")); drop 1 (wire (be_bytes 2 7 ++ as_bytes "answer"))])
    | vm_compute; reflexivity].
  - repeat constructor; vm_compute; lia || congruence.
  - vm_compute. reflexivity.
Defined.

(** The idle timeout can break the framing: when it fires between the
    two bytes of a length while a query waits, the first byte is forgotten,
    the stream is read one byte out of step, and the reply is lost: here a
    whole reply of eight bytes arrives for the waiting query and the reader
    ends up in the middle of a message of 2048 bytes. *)
Theorem reader_desync :
  let c := mkConn {[7 := Tx 3]} 8 true 0 [] in
  let m := be_bytes 2 7 ++ as_bytes "answer" in
  reader_events [Chunk (wire m)] (InLen []) c = (InLen [], with_inflight (delete 7 {[7 := Tx 3]}) c, [(3%nat, m)]) /\
  reader_events [Chunk (take 1 (wire m)); Idle; Chunk (drop 1 (wire m))] (InLen []) c =
  (InBody 2048 (drop 3 (wire m)), c, []).
Proof. vm_compute. done. Qed.

(** ** Lemmas: the pool *)

Section Resolve.
Context (server : SocketAddr) (query : list byte).

Lemma attempt_answer env n oid force p resp p' :
  DnsPool.attempt env n server query oid force p = (Some (DnsPool.OOk resp), p') ->
  exists body, DnsPool.e_reply env = DnsPool.Replied body /\ (2 <= length body)%nat /\ resp = oid ++ drop 2 body.
Proof.
  unfold DnsPool.attempt. intros H.
  destruct (if force then _ else _) as [[[[r id] b] | e] p1]; [| done].
  destruct (DnsPool.e_write env); [| done].
  destruct (DnsPool.e_reply env) as [body | |]; try done. case_decide; [| done].
  simplify_eq. by exists body.
Qed.

Lemma attempt_no_panic env n oid force p :
  (forall body, DnsPool.e_reply env = DnsPool.Replied body -> (2 <= length body)%nat) ->
  exists o p', DnsPool.attempt env n server query oid force p = (Some o, p').
Proof.
  intros Hr. unfold DnsPool.attempt.
  destruct (if force then _ else _) as [[[[r id] b] | e] p1]; [| eauto].
  destruct (DnsPool.e_write env); [| eauto].
  destruct (DnsPool.e_reply env) as [body | |]; [| eauto ..].
  rewrite decide_True by by apply Hr. eauto.
Qed.
End Resolve.

(** [resolve] answers under the caller's identifier and never panics:
    given replies as the reader makes them (at least two bytes), it returns
    after at most two attempts; an answer is a reply received in one of
    them with its first two bytes replaced by those of the query, so a
    query of twelve to 65535 bytes gets its own identifier back; any other
    query is refused without touching the pool. *)
Theorem resolve_answers (env1 env2 : DnsPool.Env) (n1 n2 : nat) (server : SocketAddr) (query : list byte) (p : Pool) :
  (forall body, DnsPool.e_reply env1 = DnsPool.Replied body -> (2 <= length body)%nat) ->
  (forall body, DnsPool.e_reply env2 = DnsPool.Replied body -> (2 <= length body)%nat) ->
  exists r p', DnsPool.resolve env1 env2 n1 n2 server query p = (Some r, p') /\
    (forall resp, r = Ok resp ->
       12 <= Z.of_nat (length query) <= MAX_DNS_MESSAGE /\
       take 2 resp = take 2 query /\
       exists body, (DnsPool.e_reply env1 = DnsPool.Replied body \/ DnsPool.e_reply env2 = DnsPool.Replied body) /\
         drop 2 resp = drop 2 body /\ length resp = length body) /\
    (~ 12 <= Z.of_nat (length query) <= MAX_DNS_MESSAGE -> p' = p /\ exists e, r = Err e).
Proof.
  intros H1 H2. unfold DnsPool.resolve.
  destruct (Z.of_nat (length query) <? 12) eqn:E1; bool_to_prop; [do 2 eexists; split; [done |]; split; [done | eauto] |].
  destruct (MAX_DNS_MESSAGE <? Z.of_nat (length query)) eqn:E2; bool_to_prop; [do 2 eexists; split; [done |]; split; [done | eauto] |].
  assert (Hans : forall body, (2 <= length body)%nat ->
    take 2 (take 2 query ++ drop 2 body) = take 2 query /\
    drop 2 (take 2 query ++ drop 2 body) = drop 2 body /\
    length (take 2 query ++ drop 2 body) = length body).
  { intros body Hb. assert (Hq : length (take 2 query) = 2%nat) by (rewrite length_take; lia).
    rewrite take_app_length', drop_app_length', length_app, Hq, length_drop by done. split_and!; [done .. | lia]. }
  cbn [DnsPool.attempts].
  destruct (attempt_no_panic server query env1 n1 (take 2 query) (negb true) p H1) as (o1 & p1 & Ho1).
  rewrite Ho1. destruct o1 as [resp | e | e].
  - apply attempt_answer in Ho1 as (body & Hb & Hl & ->). do 2 eexists. split; [done |]. split; [| lia].
    intros resp [= <-]. destruct (Hans body Hl) as (? & ? & ?). split_and!; try done. exists body. auto.
  - destruct (attempt_no_panic server query env2 n2 (take 2 query) (negb false) p1 H2) as (o2 & p2 & Ho2).
    rewrite Ho2. destruct o2 as [resp | e' | e'].
    + apply attempt_answer in Ho2 as (body & Hb & Hl & ->). do 2 eexists. split; [done |]. split; [| lia].
      intros resp [= <-]. destruct (Hans body Hl) as (? & ? & ?). split_and!; try done. exists body. auto.
    + do 2 eexists. split; [done |]. split; [done | lia].
    + do 2 eexists. split; [done |]. split; [done | lia].
  - do 2 eexists. split; [done |]. split; [done | lia].
Qed.

(** Surroundings in which the connection opens at once and the server
    answers with [body]. *)
Definition calm_env (now : Z) (body : list byte) : DnsPool.Env :=
  DnsPool.mkEnv now (Ok tt) id id id (Ok tt) id (DnsPool.Replied body).

Definition example_proxy : ProxyConfig :=
  mkProxyConfig (SocketAddr_new (V4 2130706433) 1080) None None DEFAULT_CONNECT_TIMEOUT true.

Lemma resolve_answers_witness :
  let env := calm_env 0 (be_bytes 2 0 ++ as_bytes "answer") in
  let p := DnsPool.new example_proxy 10 60 zero_counters in
  exists r p', DnsPool.resolve env env 0 1 (SocketAddr_new (V4 16843009) 53) (as_bytes "ab-question?") p = (Some r, p') /\
    r = Ok (as_bytes "abanswer") /\ take 2 (as_bytes "abanswer") = take 2 (as_bytes "ab-question?").
Proof.
  cbv zeta.
  destruct (resolve_answers (calm_env 0 (be_bytes 2 0 ++ as_bytes "answer")) (calm_env 0 (be_bytes 2 0 ++ as_bytes "answer"))
    0 1 (SocketAddr_new (V4 16843009) 53) (as_bytes "ab-question?") (DnsPool.new example_proxy 10 60 zero_counters))
    as (r & p' & H & Hr & _).
  - intros body [= <-]. vm_compute. lia.
  - intros body [= <-]. vm_compute. lia.
  - exists r, p'. split; [exact H |].
    assert (E : r = Ok (as_bytes "abanswer")) by (apply (f_equal fst) in H; vm_compute in H; injection H as <-; reflexivity).
    split; [exact E |]. exact (proj1 (proj2 (Hr _ E))).
Defined.

Lemma kill_all_spec l p :
  let p' := fold_left (fun p r => update r (with_alive false) p) l p in
  conns p' = conns p /\ pool_proxy p' = pool_proxy p /\ idle_timeout p' = idle_timeout p /\ via p' = via p /\
  forall r, heap p' !! r = (if decide (r ∈ l) then with_alive false else id) <$> heap p !! r.
Proof.
  revert p. induction l as [| r0 l IH]; intros p; cbv zeta.
  - split_and!; try done. intros r. rewrite decide_False by apply not_elem_of_nil. by rewrite option_fmap_id.
  - cbn [fold_left]. destruct (IH (update r0 (with_alive false) p)) as (H1 & H2 & H3 & H4 & H5).
    split_and!; try done. intros r. rewrite H5. unfold update, with_heap. simpl.
    destruct (decide (r = r0)) as [-> | Hne].
    + rewrite lookup_alter_eq, (decide_True (P := r0 ∈ r0 :: l)) by left.
      destruct (heap p !! r0); [| done]. simpl. by case_decide.
    + rewrite lookup_alter_ne by done.
      by rewrite (decide_ext (r ∈ r0 :: l) (r ∈ l)) by (rewrite elem_of_cons; naive_solver).
Qed.

Lemma pooled_refs p server l r :
  conns p !! server = Some l -> r ∈ l -> r ∈ concat ((map_to_list (conns p)).*2).
Proof.
  intros Hl Hr. apply list_elem_of_In, in_concat. exists l. split; [| by apply list_elem_of_In].
  apply list_elem_of_In, list_elem_of_fmap. exists (server, l). split; [done |]. by apply elem_of_map_to_list.
Qed.

Lemma allocate_on_frame r p o p' :
  DnsPool.allocate_on r p = (o, p') -> conns p' = conns p /\ via p' = via p /\ pool_proxy p' = pool_proxy p.
Proof.
  unfold DnsPool.allocate_on. destruct (heap p !! r) as [c |]; [destruct (allocate_id c) |]; by intros [= <- <-].
Qed.

Lemma first_free_some l p r id p' :
  DnsPool.first_free l p = (Some (r, id), p') ->
  r ∈ l /\ conns p' = conns p /\ exists c, heap p' !! r = Some c /\ inflight c !! id = Some Placeholder.
Proof.
  revert p. induction l as [| r0 l IH]; intros p H; simpl in H; [done |].
  destruct (DnsPool.allocate_on r0 p) as [[i |] p1] eqn:E.
  - simplify_eq. pose proof (allocate_on_frame _ _ _ _ E) as (Hc & _). split; [left |]. split; [done |].
    unfold DnsPool.allocate_on in E. destruct (heap p !! r) as [c |]; [| done].
    destruct (allocate_id c) as [o c'] eqn:Ea. simplify_eq. simpl. exists c'. rewrite lookup_insert_eq.
    split; [done |]. apply allocate_id_some in Ea as (_ & _ & -> & _). apply lookup_insert_eq.
  - apply IH in H as (H1 & H2 & H3). apply allocate_on_frame in E as (Hc & _).
    split; [by right |]. split; [congruence | done].
Qed.

Lemma first_free_conns l p o p' : DnsPool.first_free l p = (o, p') -> conns p' = conns p.
Proof.
  revert p. induction l as [| r0 l IH]; intros p H; simpl in H; [by simplify_eq |].
  destruct (DnsPool.allocate_on r0 p) as [[i |] p1] eqn:E; apply allocate_on_frame in E as (Hc & _).
  - by simplify_eq.
  - apply IH in H. congruence.
Qed.

Lemma bucket_retain server p :
  DnsPool.bucket server (DnsPool.retain_alive server p) =
  filter (fun r => is_alive p r = true) (DnsPool.bucket server p).
Proof. unfold DnsPool.bucket, DnsPool.retain_alive. simpl. by rewrite lookup_insert_eq. Qed.

Lemma try_reuse_some server p r id p' :
  DnsPool.try_reuse server p = (Some (r, id), p') ->
  r ∈ DnsPool.bucket server p /\ is_alive p r = true /\
  (length (DnsPool.bucket server p') <= length (DnsPool.bucket server p))%nat /\
  exists c, heap p' !! r = Some c /\ inflight c !! id = Some Placeholder.
Proof.
  unfold DnsPool.try_reuse. intros H. pose proof (first_free_some _ _ _ _ _ H) as (Hin & Hc & Hr).
  rewrite bucket_retain in Hin. apply list_elem_of_filter in Hin as [Ha Hin]. split_and!; try done.
  unfold DnsPool.bucket at 1. rewrite Hc. fold (DnsPool.bucket server (DnsPool.retain_alive server p)).
  rewrite bucket_retain. apply length_filter.
Qed.

Lemma register_ok server r p x p' :
  DnsPool.register server r p = (Ok x, p') ->
  exists id c, x = (r, id, false) /\ DnsPool.bucket server p' = DnsPool.bucket server p ++ [r] /\
    heap p' !! r = Some c /\ inflight c !! id = Some Placeholder.
Proof.
  unfold DnsPool.register. destruct (DnsPool.allocate_on r p) as [[id |] p1] eqn:E; [| done].
  intros [= <- <-]. pose proof (allocate_on_frame _ _ _ _ E) as (Hc & _).
  unfold DnsPool.allocate_on in E. destruct (heap p !! r) as [c |]; [| done].
  destruct (allocate_id c) as [o c'] eqn:Ea. simplify_eq. exists id, c'. split; [done |]. split.
  - unfold DnsPool.bucket. simpl. by rewrite lookup_insert_eq.
  - simpl. rewrite lookup_insert_eq. split; [done |]. apply allocate_id_some in Ea as (_ & _ & -> & _).
    apply lookup_insert_eq.
Qed.

(** [acquire] keeps to its limit and hands out reserved identifiers:
    while it holds the lock for opening, others can only take connections
    away from the bucket; then whatever else they do, a successful acquire
    returns a connection with the identifier reserved on it, a reused one
    was in the pool and alive, and a newly opened one leaves at most eight
    connections to the server in the pool. *)
Theorem acquire_bounded (now : Z) (connect : result unit) (lock check dial : Pool -> Pool)
    (server : SocketAddr) (p p' : Pool) (r : nat) (id : Z) (reused : bool) :
  (forall p, length (DnsPool.bucket server (dial p)) <= length (DnsPool.bucket server p))%nat ->
  DnsPool.acquire now connect lock check dial server p = (Ok (r, id, reused), p') ->
  (exists c, heap p' !! r = Some c /\ inflight c !! id = Some Placeholder) /\
  r ∈ DnsPool.bucket server p' ++ DnsPool.bucket server p ++
      DnsPool.bucket server (lock (snd (DnsPool.try_reuse server p))) /\
  (reused = false -> Z.of_nat (length (DnsPool.bucket server p')) <= MAX_CONNS_PER_TARGET).
Proof.
  intros Hdial H. unfold DnsPool.acquire in H.
  destruct (DnsPool.try_reuse server p) as [[[r1 i1] |] p1] eqn:E1.
  { simplify_eq. apply try_reuse_some in E1 as (Hin & _ & _ & Hc). split_and!; [done | set_solver | done]. }
  destruct (DnsPool.try_reuse server (lock p1)) as [[[r2 i2] |] p2] eqn:E2.
  { simplify_eq. apply try_reuse_some in E2 as (Hin & _ & _ & Hc). split_and!; [done | set_solver | done]. }
  case_match eqn:Elen; [done |]. bool_to_prop.
  set (p3 := DnsPool.retain_alive server (check p2)) in *.
  unfold DnsPool.open_conn in H. destruct connect as [[] | e]; simpl in H; [| done].
  apply register_ok in H as (id' & c & [= -> -> ->] & Hb & Hc). split_and!; [by exists c | |].
  - rewrite Hb. set_solver.
  - intros _. rewrite Hb, length_app. simpl. unfold MAX_CONNS_PER_TARGET in *.
    match goal with |- context [DnsPool.bucket server (dial ?q)] => pose proof (Hdial q) as Hd;
      change (DnsPool.bucket server q) with (DnsPool.bucket server p3) in Hd end. lia.
Qed.

Lemma acquire_bounded_witness :
  let server := SocketAddr_new (V4 16843009) 53 in
  exists p', DnsPool.acquire 0 (Ok tt) id id id server (DnsPool.new example_proxy 10 60 zero_counters) =
    (Ok (0%nat, 0, false), p') /\ Z.of_nat (length (DnsPool.bucket server p')) <= MAX_CONNS_PER_TARGET.
Proof.
  cbv zeta.
  destruct (DnsPool.acquire 0 (Ok tt) id id id (SocketAddr_new (V4 16843009) 53)
    (DnsPool.new example_proxy 10 60 zero_counters)) as [x p'] eqn:E.
  assert (Hx : x = Ok (0%nat, 0, false)) by (apply (f_equal fst) in E; vm_compute in E; symmetry; exact E).
  exists p'. rewrite Hx in E |- *. split; [reflexivity |].
  apply (acquire_bounded 0 (Ok tt) id id id (SocketAddr_new (V4 16843009) 53)
    (DnsPool.new example_proxy 10 60 zero_counters) p' 0 0 false (fun p => Nat.le_refl _) E).
  reflexivity.
Defined.

Lemma open_and_register_grows server p :
  length (DnsPool.bucket server (snd (DnsPool.open_and_register 0 (Ok tt) id id server p))) =
  S (length (DnsPool.bucket server p)).
Proof.
  destruct (DnsPool.open_and_register 0 (Ok tt) id id server p) as [x p'] eqn:E.
  unfold DnsPool.open_and_register, DnsPool.open_conn in E. simpl in E.
  unfold DnsPool.register, DnsPool.allocate_on in E. simpl in E. rewrite lookup_insert_eq in E.
  destruct (allocate_id (new_conn 0)) as [[i |] c] eqn:Ea.
  2: { apply allocate_id_none in Ea as [Hfull _]. simpl in Hfull. rewrite map_size_empty in Hfull. done. }
  simplify_eq. unfold DnsPool.bucket. simpl. rewrite lookup_insert_eq. simpl. rewrite length_app. simpl.
  unfold DnsPool.bucket, id. simpl. lia.
Qed.

(** The retry path has no such limit: the second attempt of a query
    opens and registers a connection without looking at the bucket, so
    failures of the first attempts (an exhausted pool is one of them) can
    put any number of connections to one server in the pool. *)
Theorem retry_unbounded (n : nat) :
  let server := SocketAddr_new (V4 16843009) 53 in
  let retry p := snd (DnsPool.open_and_register 0 (Ok tt) id id server p) in
  length (DnsPool.bucket server (Nat.iter n retry (DnsPool.new example_proxy 10 60 zero_counters))) = n.
Proof.
  cbv zeta. induction n as [| n IH]; [done |].
  change (Nat.iter (S n) ?f ?x) with (f (Nat.iter n f x)). cbv beta.
  by rewrite open_and_register_grows, IH.
Qed.

(** After [set_proxy] nothing goes through the old proxy: the pool is
    empty, every connection it held is marked dead, and each connection
    opened from then on is opened through the new proxy. *)
Theorem set_proxy_switches (proxy : ProxyConfig) (p : Pool) :
  let p' := DnsPool.set_proxy proxy p in
  conns p' = ∅ /\ DnsPool.conn_count p' = 0%nat /\ pool_proxy p' = proxy /\
  (forall server r, r ∈ DnsPool.bucket server p -> is_alive p' r = false) /\
  (forall now connect r p'', DnsPool.open_conn now connect p' = (Ok r, p'') -> via p'' !! r = Some proxy).
Proof.
  cbv zeta. unfold DnsPool.set_proxy.
  set (p0 := mkPool proxy _ _ _ _ _ _). set (all := concat _).
  destruct (kill_all_spec all p0) as (H1 & H2 & H3 & H4 & H5).
  set (p1 := fold_left _ all p0) in *. split_and!; try done.
  - intros server r Hr. unfold is_alive, with_conns. simpl. rewrite H5.
    unfold DnsPool.bucket in Hr. destruct (conns p !! server) as [l |] eqn:El; [| by apply not_elem_of_nil in Hr].
    rewrite decide_True by (by eapply (pooled_refs p0)). by destruct (heap p0 !! r).
  - intros now connect r p'' H. unfold DnsPool.open_conn in H. destruct connect as [[] | e]; simpl in H; [| done].
    simplify_eq. simpl. rewrite lookup_insert_eq. by rewrite H2.
Qed.

(** A connection that is being opened during the switch escapes it: it was
    not yet in the pool, so it is not marked dead, and it is registered
    afterwards, alive, with the old proxy behind it. *)
Theorem stale_dial_kept :
  let new := mkProxyConfig (SocketAddr_new (V4 3405803786) 1080) None None DEFAULT_CONNECT_TIMEOUT true in
  let server := SocketAddr_new (V4 16843009) 53 in
  match DnsPool.acquire 0 (Ok tt) id id (DnsPool.set_proxy new) server (DnsPool.new example_proxy 10 60 zero_counters) with
  | (Ok (r, _, _), p) =>
      pool_proxy p = new /\ DnsPool.bucket server p = [r] /\ is_alive p r = true /\
      via p !! r = Some example_proxy /\ example_proxy <> new
  | (Err _, _) => False
  end.
Proof. vm_compute. split_and!; done. Qed.

(** [prune] removes exactly what is dead or idle: a connection stays in
    its bucket if and only if it is alive and is either in use or was used
    within the idle timeout; those removed are dead afterwards, so no task
    reuses them, and no empty bucket is left. *)
Theorem prune_exact (now : Z) (p : Pool) :
  let p' := DnsPool.prune now p in
  (forall server r, r ∈ DnsPool.bucket server p' <->
     r ∈ DnsPool.bucket server p /\
     exists c, heap p !! r = Some c /\ alive c = true /\
       (inflight c <> ∅ \/ saturating_sub now (last_used c) <= idle_timeout p)) /\
  (forall server r, r ∈ DnsPool.bucket server p -> r ∉ DnsPool.bucket server p' -> is_alive p' r = false) /\
  (forall server l, conns p' !! server = Some l -> l <> []).
Proof.
  cbv zeta.
  assert (Hb : forall server, DnsPool.bucket server (DnsPool.prune now p) =
    filter (fun r => DnsPool.keep_ref now p r = true) (DnsPool.bucket server p)).
  { intros server. unfold DnsPool.bucket, DnsPool.prune, with_conns. simpl.
    destruct (conns p !! server) as [l |] eqn:El; simpl.
    - destruct (decide (filter (fun r => DnsPool.keep_ref now p r = true) l = [])) as [E | E].
      + rewrite E. rewrite (proj2 (map_lookup_filter_None _ _ _)); [done |]. right.
        intros l' Hl'. rewrite lookup_fmap, El in Hl'. simpl in Hl'. injection Hl' as <-. intros H. by apply H.
      + erewrite (proj2 (map_lookup_filter_Some _ _ _ _)); [done |]. split; [| exact E].
        by rewrite lookup_fmap, El.
    - rewrite (proj2 (map_lookup_filter_None _ _ _)); [done |]. left. by rewrite lookup_fmap, El. }
  assert (Hk : forall r, DnsPool.keep_ref now p r = true <->
    exists c, heap p !! r = Some c /\ alive c = true /\
      (inflight c <> ∅ \/ saturating_sub now (last_used c) <= idle_timeout p)).
  { intros r. unfold DnsPool.keep_ref, DnsPool.keep_conn. destruct (heap p !! r) as [c |]; [| naive_solver].
    rewrite andb_true_iff, negb_true_iff, andb_false_iff, bool_decide_eq_false, Z.ltb_ge. naive_solver. }
  split_and!.
  - intros server r. rewrite Hb, list_elem_of_filter, Hk. tauto.
  - intros server r Hr Hn. rewrite Hb, list_elem_of_filter in Hn.
    unfold is_alive, DnsPool.prune, with_conns. simpl. set (dropped := filter _ (concat _)).
    destruct (kill_all_spec dropped p) as (_ & _ & _ & _ & H5). rewrite H5.
    unfold DnsPool.bucket in Hr. destruct (conns p !! server) as [l |] eqn:El; [| by apply not_elem_of_nil in Hr].
    rewrite decide_True; [by destruct (heap p !! r) |]. apply list_elem_of_filter.
    split; [| by eapply pooled_refs]. destruct (DnsPool.keep_ref now p r); [| done]. exfalso. apply Hn.
    split; [done |]. unfold DnsPool.bucket. by rewrite El.
  - intros server l Hl. unfold DnsPool.prune, with_conns in Hl. simpl in Hl.
    by apply map_lookup_filter_Some in Hl as [_ ?].
Qed.
