(* ===== verification/DnsLive.v ===== *)
(** * Progress of pooled DNS queries ([src/dns.rs])

    What becomes of a query that waits on a connection: a reply that arrives
    for it completes it, and a query that comes after the reader has left is
    never told. *)

From Stdlib Require Import ZArith Lia.
From Stdlib Require Import Strings.Byte Strings.Ascii Strings.String.
From stdpp Require Import base decidable list strings gmap fin_maps relations.
From S2P Require Import Prelude StdNet StdText Net Config Stats Socks DnsPool.
#[local] Open Scope Z_scope.

(** ** Lemmas *)

Lemma dns_reachable_inv now s : rtc cstep (cstart now) s -> conn_inv s.
Proof.
  intros Hs. pattern s. eapply rtc_ind_r; [apply (cstart_inv now) | | exact Hs]. intros y z _ Hyz Hy. by eapply cstep_inv.
Qed.

Definition id_of (m : list byte) : Z := of_be_bytes (take 2 m).

(** What a list of deliveries gives to one query. *)
Definition given (n : nat) (d : list (nat * list byte)) : list (list byte) :=
  omap (fun '(n', body) => if decide (n' = n) then Some body else None) d.

Lemma given_app n d d' : given n (d ++ d') = given n d ++ given n d'.
Proof. apply omap_app. Qed.

Lemma send_all_given d (m : gmap nat Query) n :
  send_all d m !! n = fold_left (fun o body => with_rx body <$> o) (given n d) (m !! n).
Proof.
  unfold send_all. revert m. induction d as [| [n' body] d IH]; intros m; [done |]. cbn [fold_left]. rewrite IH.
  unfold given. cbn [omap list_omap]. case_decide as E; [subst; by rewrite lookup_alter_eq |].
  by rewrite lookup_alter_ne.
Qed.

Lemma send_all_app d d' m : send_all (d ++ d') m = send_all d' (send_all d m).
Proof. apply fold_left_app. Qed.

(** A query without a sender in the map gets nothing. *)
Lemma hand_over_none ms c n :
  (forall id, inflight c !! id <> Some (Tx n)) -> given n (hand_over_all ms c).2 = [].
Proof.
  revert c. induction ms as [| m ms IH]; intros c H; [done |]. cbn [hand_over_all].
  unfold hand_over, deliver. cbn [fst snd]. set (c1 := with_inflight _ c).
  assert (H1 : forall id, inflight c1 !! id <> Some (Tx n)).
  { intros id E. cbn [c1 inflight with_inflight] in E. apply lookup_delete_Some in E as [_ E]. by apply (H id). }
  specialize (IH c1 H1). destruct (hand_over_all ms c1) as [c2 d]. cbn [snd] in *. rewrite given_app, IH, app_nil_r.
  destruct (inflight c !! _) as [[| n'] |] eqn:E; [done | | done]. unfold given. cbn [omap list_omap].
  rewrite decide_False; [done |]. intros ->. by apply H in E.
Qed.

(** The first message with its identifier is what a waiting query gets. *)
Lemma hand_over_reply pre m post c n :
  Forall (fun x => id_of x <> id_of m) pre -> inflight c !! id_of m = Some (Tx n) ->
  (forall id, inflight c !! id = Some (Tx n) -> id = id_of m) ->
  given n (hand_over_all (pre ++ m :: post) c).2 = [m].
Proof.
  revert c. induction pre as [| x pre IH]; intros c Hpre Hm Huniq; cbn [app hand_over_all]; unfold hand_over, deliver;
    cbn [fst snd]; fold (id_of m); [| fold (id_of x)].
  - set (c1 := with_inflight _ c). rewrite Hm. pose proof (hand_over_none post c1 n) as Hn.
    destruct (hand_over_all post c1) as [c2 d]. cbn [snd] in *. rewrite given_app, Hn.
    + unfold given. cbn [omap list_omap]. by rewrite decide_True.
    + intros id E. cbn [c1 inflight with_inflight] in E. apply lookup_delete_Some in E as [Hne E]. by apply Hne, eq_sym, Huniq.
  - apply Forall_cons in Hpre as [Hx Hpre]. set (c1 := with_inflight _ c).
    assert (H1 : given n (hand_over_all (pre ++ m :: post) c1).2 = [m]).
    { apply IH; [done | |].
      - cbn [c1 inflight with_inflight]. by rewrite lookup_delete_ne.
      - intros id E. cbn [c1 inflight with_inflight] in E. apply lookup_delete_Some in E as [_ E]. by apply Huniq. }
    destruct (hand_over_all _ c1) as [c2 d]. cbn [snd] in *. rewrite given_app, H1.
    destruct (inflight c !! id_of x) as [[| n'] |] eqn:E; [done | | done]. unfold given. cbn [omap list_omap].
    rewrite decide_False; [done |]. intros ->. by apply Hx, Huniq.
Qed.

(** Reads of the reader are steps of the connection. *)
Lemma reads_are_steps es : forall s p c d,
  reader_events es (cs_pos s) (cs_conn s) = (p, c, d) -> rtc cstep s (mkCS c p (send_all d (cs_queries s))).
Proof.
  induction es as [| e es IH]; intros s p c d H; cbn [reader_events] in H.
  - injection H as <- <- <-. destruct s. apply rtc_refl.
  - destruct (reader_event e (cs_pos s) (cs_conn s)) as [[p1 c1] d1] eqn:E.
    destruct (reader_events es p1 c1) as [[p2 c2] d2] eqn:E2. injection H as <- <- <-.
    eapply rtc_l; [by eapply step_read |]. rewrite send_all_app. by apply (IH (mkCS c1 p1 (send_all d1 (cs_queries s)))).
Qed.

(** After the reader has left, what was not delivered never is. *)
Lemma stopped_silent s s' n q :
  rtc cstep s s' -> cs_pos s = Stopped -> cs_queries s !! n = Some q -> q_rx q = None ->
  (forall r, q_phase q <> Answered r) ->
  cs_pos s' = Stopped /\
  exists q', cs_queries s' !! n = Some q' /\ q_rx q' = None /\ forall r, q_phase q' <> Answered r.
Proof.
  intros H. revert q. induction H as [s | s s1 s2 Hst _ IH]; intros q Hp Hn Hrx Hph; [eauto |].
  enough (cs_pos s1 = Stopped /\ exists q', cs_queries s1 !! n = Some q' /\ q_rx q' = None /\ forall r, q_phase q' <> Answered r)
    as [H1 (q' & H2 & H3 & H4)] by by eapply IH.
  assert (Hins : forall m (x : Query), (m = n -> q_rx x = None /\ forall r, q_phase x <> Answered r) ->
    exists q', <[m := x]> (cs_queries s) !! n = Some q' /\ q_rx q' = None /\ forall r, q_phase q' <> Answered r).
  { intros m x Hx. destruct (decide (m = n)) as [-> | Hne]; [exists x; rewrite lookup_insert_eq; split; [done | by apply Hx] |].
    exists q. by rewrite lookup_insert_ne. }
  destruct Hst; cbn [cs_pos cs_queries cs_conn]; try (split; [done |]; apply Hins; intros ->; simplify_eq; done).
  - rewrite Hp in H. cbn [reader_event] in H. injection H as <- <- <-. split; [done |]. by exists q.
Qed.

(** Whatever follows, the query has no answer. *)
Definition never_answered (n : nat) (s : CS) : Prop :=
  forall s', rtc cstep s s' -> exists q', cs_queries s' !! n = Some q' /\ forall r, q_phase q' <> Answered r.

(** ** Properties *)

(** C20. A reply that arrives completes its query: in every reachable state,
    when a query waits with its sender registered and the reader is running
    and between messages, then, whatever other messages come before and after
    it and in whatever pieces the bytes arrive, as long as no idle timeout
    falls among the pieces, the first message that bears the query's
    identifier is handed to it and the query ends answered with that
    message under its original identifier. *)
Theorem reply_completes_query (now : Z) (s : CS) (n : nat) (q : Query) (pre post : list (list byte)) (m : list byte)
    (chunks : list (list byte)) :
  rtc cstep (cstart now) s ->
  cs_queries s !! n = Some q -> q_phase q = Waiting -> inflight (cs_conn s) !! q_id q = Some (Tx n) ->
  cs_pos s = InLen [] ->
  Forall message_ok (pre ++ m :: post) -> Forall (fun x => id_of x <> q_id q) pre -> id_of m = q_id q ->
  concat chunks = concat (wire <$> pre ++ m :: post) ->
  exists p c d s' q',
    reader_events (Chunk <$> chunks) (cs_pos s) (cs_conn s) = (p, c, d) /\ p = InLen [] /\ given n d = [m] /\
    rtc cstep s (mkCS c p (send_all d (cs_queries s))) /\
    cstep (mkCS c p (send_all d (cs_queries s))) s' /\
    cs_queries s' !! n = Some q' /\ q_phase q' = Answered (take 2 (q_bytes q) ++ drop 2 m).
Proof.
  intros Hs Hn Hph Hin Hpos Hok Hpre Hid Hch.
  assert (He : reader_events (Chunk <$> chunks) (cs_pos s) (cs_conn s) =
    let '(c, d) := hand_over_all (pre ++ m :: post) (cs_conn s) in (InLen [], c, d)).
  { rewrite Hpos, reader_events_chunks, Hch. by apply reader_wires. }
  pose proof (hand_over_reply pre m post (cs_conn s) n) as Hg. rewrite Hid in Hg.
  specialize (Hg Hpre Hin). destruct (hand_over_all _ (cs_conn s)) as [c d]. cbn [snd] in Hg.
  assert (Hd : given n d = [m]).
  { apply Hg. intros id E. destruct (ci_senders _ (dns_reachable_inv _ _ Hs) _ _ E) as (q1 & H1 & <-). by simplify_eq. }
  do 4 eexists. exists (with_phase (Answered (patch_id (take 2 (q_bytes q)) m)) (with_rx m q)).
  split; [exact He |]. split; [done |]. split; [exact Hd |]. split; [by eapply reads_are_steps |]. split.
  - apply (step_answer n (with_rx m q) m); [| done ..]. cbn [cs_queries]. by rewrite send_all_given, Hd, Hn.
  - cbn [cs_queries]. by rewrite lookup_insert_eq.
Qed.

(** A query can come too late and not be told: the reader leaves its
    loop, which marks the connection dead and drops the senders it knows,
    between a query's reservation of an identifier and its registration.
    The query's sender then stays in a map nobody reads, its write
    succeeds, and it never gets an answer nor the error that would make it
    try a fresh connection: only its timeout ends it, which is not retried. *)
Theorem late_query_stranded :
  exists s n q, rtc cstep (cstart 0) s /\ cs_pos s = Stopped /\ alive (cs_conn s) = false /\
    cs_queries s !! n = Some q /\ q_phase q = Waiting /\ inflight (cs_conn s) !! q_id q = Some (Tx n) /\
    never_answered n s.
Proof.
  set (q := mkQuery 0 (as_bytes "ab-question?") Waiting None).
  set (c := mkConn {[0 := Tx 0]} 1 false 5 (frame (as_bytes "ab-question?") 0)).
  exists (mkCS c Stopped {[0%nat := q]}), 0%nat, q. split_and!; try reflexivity.
  - eapply rtc_l; [eapply (step_alloc 0 (as_bytes "ab-question?")); [reflexivity | split; vm_compute; lia || congruence | vm_compute; reflexivity] |].
    eapply rtc_l; [eapply (step_read Closed); vm_compute; reflexivity |].
    eapply rtc_l; [eapply (step_register 0); [vm_compute; reflexivity | reflexivity] |].
    eapply rtc_l; [eapply (step_write 0 _ 5); [vm_compute; reflexivity | reflexivity] |].
    match goal with |- rtc _ ?x ?y => assert (E : x = y) by (vm_compute; reflexivity); rewrite E end.
    apply rtc_refl.
  - intros s' Hs. destruct (stopped_silent _ s' 0 q Hs) as (_ & q' & H1 & _ & H2); [done .. |]. eauto.
Qed.

(** ** Witness *)

Module ReplyExample.
Definition query : list byte := as_bytes "ab-question?".
Definition reply : list byte := be_bytes 2 0 ++ as_bytes "-answer".
Definition other : list byte := be_bytes 2 9 ++ as_bytes "-stale".
Definition q : Query := mkQuery 0 query Waiting None.
Definition s : CS := mkCS (mkConn {[0 := Tx 0]} 1 true 5 (frame query 0)) (InLen []) {[0%nat := q]}.

Lemma waiting_reached : rtc cstep (cstart 0) s.
Proof.
  eapply rtc_l; [eapply (step_alloc 0 query); [reflexivity | split; vm_compute; lia || congruence | vm_compute; reflexivity] |].
  eapply rtc_l; [eapply (step_register 0); [vm_compute; reflexivity | reflexivity] |].
  eapply rtc_l; [eapply (step_write 0 _ 5); [vm_compute; reflexivity | reflexivity] |].
  match goal with |- rtc _ ?x ?y => assert (E : x = y) by (vm_compute; reflexivity); rewrite E end.
  apply rtc_refl.
Qed.
End ReplyExample.

Lemma reply_completes_query_witness :
  let l := wire ReplyExample.other ++ wire ReplyExample.reply in
  exists s' q', rtc cstep ReplyExample.s s' /\ cs_queries s' !! 0%nat = Some q' /\
    q_phase q' = Answered (as_bytes "ab-answer").
Proof.
  cbv zeta.
  destruct (reply_completes_query 0 ReplyExample.s 0 ReplyExample.q [ReplyExample.other] [] ReplyExample.reply
    [take 5 (wire ReplyExample.other ++ wire ReplyExample.reply); drop 5 (wire ReplyExample.other ++ wire ReplyExample.reply)])
    as (p & c & d & s' & q' & _ & _ & _ & H1 & H2 & H3 & H4); try reflexivity.
  - exact ReplyExample.waiting_reached.
  - repeat constructor; vm_compute; lia || congruence.
  - repeat constructor. vm_compute. congruence.
  - exists s', q'. split; [eapply rtc_r; [exact H1 | exact H2] |]. by split.
Defined.
