(* ===== verification/DnsSystem.v ===== *)
(** * The DNS pool at work ([src/dns.rs])

    Every query, every reader task, a change of the proxy and the pruner as
    one executable machine over the shared pool, and that no query waits for
    ever in it.

    A step of a task is what it does between two points where it can be
    suspended, as long as another task could tell: what runs under the mutex
    of [conns] is one step, and so are the accesses to a connection's map of
    senders. Other tasks move in between. The two locks that are held across
    a suspension are state: [open_lock] while a connection is opened, and the
    [writer] of a connection while a frame is written on it, which takes as
    long as the other end likes. *)

From Stdlib Require Import ZArith Lia.
From Stdlib Require Import Strings.Byte Strings.Ascii Strings.String.
From stdpp Require Import base decidable list strings gmap fin_maps.
From S2P Require Import Prelude StdNet StdText Net Config Stats Socks DnsPool.
#[local] Open Scope Z_scope.

(** ** State *)

(** Where [resolve] is. The steps of [acquire] and [open_and_register] come
    first: reuse, the lock for opening, reuse again, the room in the bucket,
    the proxy, the connection, its registration. Then those of [attempt], for
    an identifier that was granted: the sender is stored, the writer of the
    connection locked, the frame written ([AtSend]), the time noted, the reply
    awaited; [AtRemove] is the way out of a failed attempt. *)
Inductive Pc : Type :=
| AtReuse
| AtLock
| AtReuse2
| AtCheck
| AtLoad
| AtDial (proxy : ProxyConfig)
| AtRegister (r : nat)
| AtInsert (a : nat)
| AtWrite (a : nat)
| AtSend (a : nat)
| AtTouch (a : nat)
| AtWait (a : nat)
| AtRemove (a : nat) (fatal : bool) (e : Error)
| Ended (res : result (list byte))
| Panicked.

(** [t_err] is [last_err]: set in the second attempt, which forces a new
    connection. *)
Record Task : Type := mkTask {
  t_server : SocketAddr;
  t_query : list byte;
  t_err : option Error;
  t_pc : Pc;
}.

Definition at_pc (pc : Pc) (t : Task) : Task := mkTask (t_server t) (t_query t) (t_err t) pc.

(** An identifier granted to a query on a connection. *)
Record Slot : Type := mkSlot { sl_conn : nat; sl_id : Z; sl_query : list byte }.

(** [ps_lock] is the task that holds [open_lock], [ps_writer] the one that
    holds the [writer] of each connection; [ps_rx] holds what was sent on the
    one-shot channel of each attempt. The last three are not kept by the
    program: which server each connection is to, what has arrived on it, and
    whether a write on it has failed. *)
Record PS : Type := mkPS {
  ps_pool : Pool;
  ps_lock : option nat;
  ps_writer : gmap nat nat;
  ps_tasks : gmap nat Task;
  ps_slots : gmap nat Slot;
  ps_rx : gmap nat (list byte);
  ps_pos : gmap nat ReaderPos;
  ps_peer : gmap nat SocketAddr;
  ps_arrived : gmap nat (list byte);
  ps_torn : gset nat;
}.

Definition with_pool (p : Pool) (s : PS) : PS :=
  mkPS p (ps_lock s) (ps_writer s) (ps_tasks s) (ps_slots s) (ps_rx s) (ps_pos s) (ps_peer s) (ps_arrived s) (ps_torn s).
Definition with_lock (o : option nat) (s : PS) : PS :=
  mkPS (ps_pool s) o (ps_writer s) (ps_tasks s) (ps_slots s) (ps_rx s) (ps_pos s) (ps_peer s) (ps_arrived s) (ps_torn s).
Definition with_writer (w : gmap nat nat) (s : PS) : PS :=
  mkPS (ps_pool s) (ps_lock s) w (ps_tasks s) (ps_slots s) (ps_rx s) (ps_pos s) (ps_peer s) (ps_arrived s) (ps_torn s).
Definition with_task (n : nat) (t : Task) (s : PS) : PS :=
  mkPS (ps_pool s) (ps_lock s) (ps_writer s) (<[n := t]> (ps_tasks s)) (ps_slots s) (ps_rx s) (ps_pos s) (ps_peer s)
    (ps_arrived s) (ps_torn s).
Definition with_slot (a : nat) (sl : Slot) (s : PS) : PS :=
  mkPS (ps_pool s) (ps_lock s) (ps_writer s) (ps_tasks s) (<[a := sl]> (ps_slots s)) (ps_rx s) (ps_pos s) (ps_peer s)
    (ps_arrived s) (ps_torn s).
Definition with_torn (r : nat) (s : PS) : PS :=
  mkPS (ps_pool s) (ps_lock s) (ps_writer s) (ps_tasks s) (ps_slots s) (ps_rx s) (ps_pos s) (ps_peer s) (ps_arrived s)
    ({[r]} ∪ ps_torn s).
Definition with_conn (r : nat) (server : SocketAddr) (s : PS) : PS :=
  mkPS (ps_pool s) (ps_lock s) (ps_writer s) (ps_tasks s) (ps_slots s) (ps_rx s) (<[r := InLen []]> (ps_pos s))
    (<[r := server]> (ps_peer s)) (<[r := []]> (ps_arrived s)) (ps_torn s).

Definition with_proxy (proxy : ProxyConfig) (p : Pool) : Pool :=
  mkPool proxy (query_timeout p) (idle_timeout p) (conns p) (heap p) (via p) (pool_stats p).

(** ** One task *)

(** What a task finds when it moves: the time, the outcome of the connection
    through the proxy, which has a timeout of its own, and of the write, with
    how much of the frame had left when it failed, and whether the timeout is
    over. A write has no timeout: [i_write] is [None] as long as the other end
    does not take all of the frame. *)
Record Input : Type := mkInput {
  i_now : Z;
  i_connect : result unit;
  i_write : option (Result string unit);
  i_wrote : nat;
  i_expired : bool;
}.

(** [Outcome::Retry]: the second attempt, or the end of the loop with the
    last error. *)
Definition retry (e : Error) (t : Task) : Task :=
  match t_err t with
  | None => mkTask (t_server t) (t_query t) (Some e) AtLock
  | Some _ => at_pc (Ended (Err e)) t
  end.

Definition grant (n : nat) (t : Task) (r : nat) (id : Z) (s : PS) : PS :=
  let a := fresh (dom (ps_slots s)) in
  with_task n (at_pc (AtInsert a) t) (with_slot a (mkSlot r id (t_query t)) s).

Definition on_conn (r : nat) (f : Conn -> Conn) (s : PS) : PS := with_pool (update r f (ps_pool s)) s.

Definition sender_gone (a : nat) (sl : Slot) (s : PS) : bool :=
  match heap (ps_pool s) !! sl_conn sl with
  | Some c => negb (bool_decide (inflight c !! sl_id sl = Some (Tx a)))
  | None => true
  end.

(** The part of [attempt] after a connection was acquired. The bytes of a
    frame that the other end takes while the write is pending are counted when
    the write is over: nobody else writes on the connection in between, and
    the message is not whole before. *)
Definition attempt_step (i : Input) (n : nat) (t : Task) (a : nat) (sl : Slot) (s : PS) : option PS :=
  let r := sl_conn sl in
  let id := sl_id sl in
  match t_pc t with
  | AtInsert _ =>
      Some (with_task n (at_pc (AtWrite a) t)
              (on_conn r (fun c => with_inflight (<[id := Tx a]> (inflight c)) c) s))
  | AtWrite _ =>
      match ps_writer s !! r with
      | Some _ => None
      | None => Some (with_task n (at_pc (AtSend a) t) (with_writer (<[r := n]> (ps_writer s)) s))
      end
  | AtSend _ =>
      let framed := frame (t_query t) id in
      let s := with_writer (delete r (ps_writer s)) s in
      match i_write i with
      | None => None
      | Some (Ok _) => Some (with_task n (at_pc (AtTouch a) t)
                               (on_conn r (fun c => with_written (written c ++ framed) c) s))
      | Some (Err e) =>
          Some (with_task n (at_pc (AtRemove a false ["failed to write DNS query"; e]) t)
                  (with_torn r (on_conn r (fun c =>
                     with_alive false (with_written (written c ++ take (i_wrote i) framed) c)) s)))
      end
  | AtTouch _ => Some (with_task n (at_pc (AtWait a) t) (on_conn r (with_last_used (i_now i)) s))
  | AtWait _ =>
      match ps_rx s !! a with
      | Some body =>
          Some (with_task n (at_pc (if decide (2 <= length body)%nat
                                    then Ended (Ok (patch_id (take 2 (t_query t)) body)) else Panicked) t) s)
      | None =>
          if sender_gone a sl s
          then Some (with_task n (at_pc (AtRemove a false ["pooled DNS connection closed before reply"]) t) s)
          else if i_expired i
          then Some (with_task n (at_pc (AtRemove a true ["pooled DNS query timed out"]) t) s)
          else None
      end
  | AtRemove _ fatal e =>
      Some (with_task n (if fatal then at_pc (Ended (Err e)) t else retry e t)
              (on_conn r (fun c => with_inflight (delete id (inflight c)) c) s))
  | _ => None
  end.

(** One move of the task [n]; [None] where it has to wait or has ended. *)
Definition task_step (i : Input) (n : nat) (t : Task) (s : PS) : option PS :=
  let p := ps_pool s in
  match t_pc t with
  | AtReuse =>
      match DnsPool.try_reuse (t_server t) p with
      | (Some (r, id), p) => Some (grant n t r id (with_pool p s))
      | (None, p) => Some (with_task n (at_pc AtLock t) (with_pool p s))
      end
  | AtLock =>
      match ps_lock s with
      | Some _ => None
      | None => Some (with_lock (Some n)
                        (with_task n (at_pc (match t_err t with None => AtReuse2 | Some _ => AtLoad end) t) s))
      end
  | AtReuse2 =>
      match DnsPool.try_reuse (t_server t) p with
      | (Some (r, id), p) => Some (with_lock None (grant n t r id (with_pool p s)))
      | (None, p) => Some (with_task n (at_pc AtCheck t) (with_pool p s))
      end
  | AtCheck =>
      let p := DnsPool.retain_alive (t_server t) p in
      if MAX_CONNS_PER_TARGET <=? Z.of_nat (length (DnsPool.bucket (t_server t) p))
      then Some (with_lock None (with_task n
             (retry ["DNS connection pool exhausted for " +:+ show_sockaddr (t_server t)] t) (with_pool p s)))
      else Some (with_task n (at_pc AtLoad t) (with_pool p s))
  | AtLoad => Some (with_task n (at_pc (AtDial (pool_proxy p)) t) s)
  | AtDial proxy =>
      match DnsPool.open_conn (i_now i) (i_connect i) (with_proxy proxy p) with
      | (Err e, _) => Some (with_lock None (with_task n (retry e t) s))
      | (Ok r, p') =>
          Some (with_task n (at_pc (AtRegister r) t)
                  (with_conn r (t_server t) (with_pool (with_proxy (pool_proxy p) p') s)))
      end
  | AtRegister r =>
      match DnsPool.register (t_server t) r p with
      | (Err e, p) => Some (with_lock None (with_task n (retry e t) (with_pool p s)))
      | (Ok (r, id, _), p) => Some (with_lock None (grant n t r id (with_pool p s)))
      end
  | AtInsert a | AtWrite a | AtSend a | AtTouch a | AtWait a | AtRemove a _ _ =>
      match ps_slots s !! a with Some sl => attempt_step i n t a sl s | None => None end
  | Ended _ | Panicked => None
  end.

(** ** The machine *)

Inductive PoolAct : Type :=
| Ask (n : nat) (server : SocketAddr) (query : list byte)
| Move (n : nat) (i : Input)
| Read (r : nat) (e : ReadEvent)
| StoreProxy (proxy : ProxyConfig)
| ClearConns
| Prune (now : Z).

(** [tx.send(body)] for each delivery. *)
Definition give (d : list (nat * list byte)) (m : gmap nat (list byte)) : gmap nat (list byte) :=
  fold_left (fun m '(a, body) => <[a := body]> m) d m.

Definition bytes_of (e : ReadEvent) : list byte := match e with Chunk l => l | _ => [] end.

#[global] Instance ReaderPos_eq_dec : EqDecision ReaderPos.
Proof. solve_decision. Defined.

Definition read_step (r : nat) (e : ReadEvent) (s : PS) : option PS :=
  match ps_pos s !! r, heap (ps_pool s) !! r with
  | Some pos, Some c =>
      if decide (pos = Stopped) then None
      else
        let '(pos, c, d) := reader_event e pos c in
        Some (mkPS (with_heap (<[r := c]> (heap (ps_pool s))) (ps_pool s)) (ps_lock s) (ps_writer s) (ps_tasks s)
                (ps_slots s) (give d (ps_rx s)) (<[r := pos]> (ps_pos s)) (ps_peer s)
                (<[r := default [] (ps_arrived s !! r) ++ bytes_of e]> (ps_arrived s)) (ps_torn s))
  | _, _ => None
  end.

(** The two checks of [resolve]. *)
Definition start_query (server : SocketAddr) (query : list byte) : Task :=
  mkTask server query None
    (if Z.of_nat (length query) <? 12 then Ended (Err ["DNS query too short"])
     else if MAX_DNS_MESSAGE <? Z.of_nat (length query) then Ended (Err ["DNS query too large"])
     else AtReuse).

(** [set_proxy] stores the proxy and then waits for the mutex of [conns]. *)
Definition pool_act (a : PoolAct) (s : PS) : option PS :=
  match a with
  | Ask n server query =>
      match ps_tasks s !! n with
      | Some _ => None
      | None => Some (with_task n (start_query server query) s)
      end
  | Move n i => match ps_tasks s !! n with Some t => task_step i n t s | None => None end
  | Read r e => read_step r e s
  | StoreProxy proxy => Some (with_pool (with_proxy proxy (ps_pool s)) s)
  | ClearConns => Some (with_pool (DnsPool.set_proxy (pool_proxy (ps_pool s)) (ps_pool s)) s)
  | Prune now => Some (with_pool (DnsPool.prune now (ps_pool s)) s)
  end.

Fixpoint pool_run (l : list PoolAct) (s : PS) : option PS :=
  match l with
  | [] => Some s
  | a :: l => match pool_act a s with Some s => pool_run l s | None => None end
  end.

Definition pstart (proxy : ProxyConfig) (query_timeout idle_timeout : Z) (st : Counters) : PS :=
  mkPS (DnsPool.new proxy query_timeout idle_timeout st) None ∅ ∅ ∅ ∅ ∅ ∅ ∅ ∅.

(** ** Invariant *)

(** Tasks that hold [open_lock], and tasks that have an attempt. *)
Definition holds_lock (t : Task) : bool :=
  match t_pc t with AtReuse2 | AtCheck | AtLoad | AtDial _ | AtRegister _ => true | _ => false end.

Definition attempt_of (pc : Pc) : option nat :=
  match pc with AtInsert a | AtWrite a | AtSend a | AtTouch a | AtWait a | AtRemove a _ _ => Some a | _ => None end.

Definition sending (t : Task) : bool := match t_pc t with AtSend _ => true | _ => false end.

(** The connection on which the task is writing, whose [writer] it holds. *)
Definition sends_on (slots : gmap nat Slot) (t : Task) : option nat :=
  match t_pc t with AtSend a => sl_conn <$> slots !! a | _ => None end.

(** The attempt [a] is one of the task: its query, on a connection to its
    server. *)
Definition owns (s : PS) (t : Task) (a : nat) (sl : Slot) : Prop :=
  ps_slots s !! a = Some sl /\ sl_query sl = t_query t /\ ps_peer s !! sl_conn sl = Some (t_server t).

Definition task_ok (s : PS) (t : Task) : Prop :=
  (forall e, t_pc t <> Ended (Err e)) -> 12 <= Z.of_nat (length (t_query t)) <= MAX_DNS_MESSAGE /\
  (forall a, attempt_of (t_pc t) = Some a -> exists sl, owns s t a sl) /\
  match t_pc t with
  | AtRegister r => ps_peer s !! r = Some (t_server t)
  | Ended (Ok resp) => exists a sl body, owns s t a sl /\ body_for (sl_id sl) body /\
      resp = patch_id (take 2 (t_query t)) body
  | Panicked => False
  | _ => True
  end.

Record sys_inv (s : PS) : Prop := {
  si_bucket : forall server l r, conns (ps_pool s) !! server = Some l -> r ∈ l -> ps_peer s !! r = Some server;
  si_peer : forall r server, ps_peer s !! r = Some server -> is_Some (heap (ps_pool s) !! r);
  si_slot : forall a sl, ps_slots s !! a = Some sl -> is_Some (heap (ps_pool s) !! sl_conn sl) /\ message_ok (sl_query sl);
  si_sender : forall r c id a, heap (ps_pool s) !! r = Some c -> inflight c !! id = Some (Tx a) ->
    exists sl, ps_slots s !! a = Some sl /\ sl_conn sl = r /\ sl_id sl = id;
  si_pos : forall r pos, ps_pos s !! r = Some pos -> pos_ok pos;
  si_rx : forall a body, ps_rx s !! a = Some body -> exists sl, ps_slots s !! a = Some sl /\ body_for (sl_id sl) body;
  si_task : forall n t, ps_tasks s !! n = Some t -> task_ok s t;
  si_lock : forall n, ps_lock s = Some n <-> exists t, ps_tasks s !! n = Some t /\ holds_lock t = true;
  si_writer : forall r n, ps_writer s !! r = Some n <->
    exists t, ps_tasks s !! n = Some t /\ sends_on (ps_slots s) t = Some r;
}.

(** *** What the operations of the pool do *)

(** An identifier was allocated on the connection [r]. *)
Definition allocated (p p' : Pool) (r : nat) (id : Z) : Prop :=
  exists c c', heap p !! r = Some c /\ allocate_id c = (Some id, c') /\ heap p' = <[r := c']> (heap p).

Lemma allocate_on_spec r p o p' :
  DnsPool.allocate_on r p = (o, p') ->
  conns p' = conns p /\ match o with Some id => allocated p p' r id | None => heap p' = heap p end.
Proof.
  unfold DnsPool.allocate_on, allocated. destruct (heap p !! r) as [c |] eqn:Hr; [| by intros [= <- <-]].
  destruct (allocate_id c) as [[id |] c'] eqn:E; intros [= <- <-]; (split; [done |]); [eauto |].
  apply allocate_id_none in E as [_ ->]. by apply insert_id.
Qed.

Lemma first_free_spec l p o p' :
  DnsPool.first_free l p = (o, p') ->
  conns p' = conns p /\ match o with Some (r, id) => r ∈ l /\ allocated p p' r id | None => heap p' = heap p end.
Proof.
  revert p. induction l as [| r l IH]; intros p H; cbn [DnsPool.first_free] in H; [by simplify_eq |].
  destruct (DnsPool.allocate_on r p) as [[id |] p1] eqn:E; apply allocate_on_spec in E as [Hc Hh].
  - injection H as <- <-. split; [done |]. split; [left | done].
  - apply IH in H as [Hc' H]. split; [congruence |]. destruct o as [[r' id] |]; [| congruence].
    destruct H as [Hin H]. split; [by right |]. unfold allocated in *. by rewrite Hh in H.
Qed.

Definition bucket_sub (p p' : Pool) : Prop :=
  forall server l r, conns p' !! server = Some l -> r ∈ l -> exists l', conns p !! server = Some l' /\ r ∈ l'.

Lemma bucket_elem server p r :
  r ∈ DnsPool.bucket server p -> exists l, conns p !! server = Some l /\ r ∈ l.
Proof. unfold DnsPool.bucket. destruct (conns p !! server) as [l |]; [eauto | by intros ?%not_elem_of_nil]. Qed.

Lemma retain_sub server p : bucket_sub p (DnsPool.retain_alive server p).
Proof.
  intros srv l r. cbn. rewrite lookup_insert_Some. intros [[<- <-] | [_ H]] Hr; [| eauto].
  apply list_elem_of_filter in Hr as [_ Hr]. by apply bucket_elem.
Qed.

Lemma try_reuse_spec server p o p' :
  DnsPool.try_reuse server p = (o, p') ->
  bucket_sub p p' /\
  match o with Some (r, id) => r ∈ DnsPool.bucket server p /\ allocated p p' r id | None => heap p' = heap p end.
Proof.
  unfold DnsPool.try_reuse. intros H. apply first_free_spec in H as [Hc H]. split.
  { unfold bucket_sub. rewrite Hc. apply retain_sub. }
  destruct o as [[r id] |]; [| done]. destruct H as [Hr H]. split; [| done].
  rewrite bucket_retain in Hr. by apply list_elem_of_filter in Hr as [_ ?].
Qed.

Lemma register_spec server r p x p' :
  DnsPool.register server r p = (x, p') ->
  match x with
  | Ok (r', id, _) => r' = r /\ allocated p p' r id /\ conns p' = <[server := DnsPool.bucket server p ++ [r]]> (conns p)
  | Err _ => heap p' = heap p /\ conns p' = conns p
  end.
Proof.
  unfold DnsPool.register. destruct (DnsPool.allocate_on r p) as [[id |] p1] eqn:E; apply allocate_on_spec in E as [Hc Hh];
    intros [= <- <-]; [| done].
  split_and!; [done | exact Hh |]. cbn. unfold DnsPool.bucket. by rewrite Hc.
Qed.

(** Connections are only marked dead. *)
Definition only_marked (p p' : Pool) : Prop :=
  forall r, exists f, heap p' !! r = f <$> heap p !! r /\ (f = id \/ f = with_alive false).

Lemma kill_all_marked l p : only_marked p (fold_left (fun p r => update r (with_alive false) p) l p).
Proof.
  intros r. destruct (kill_all_spec l p) as (_ & _ & _ & _ & H). eexists. split; [apply H |]. case_decide; auto.
Qed.

Lemma set_proxy_marked proxy p : only_marked p (DnsPool.set_proxy proxy p).
Proof. apply (kill_all_marked _ (mkPool proxy _ _ _ _ _ _)). Qed.

Lemma prune_marked now p : only_marked p (DnsPool.prune now p).
Proof. unfold DnsPool.prune. apply kill_all_marked. Qed.

Lemma prune_sub now p : bucket_sub p (DnsPool.prune now p).
Proof.
  intros server l r. unfold DnsPool.prune, with_conns. cbn [conns]. rewrite map_lookup_filter_Some, lookup_fmap_Some.
  intros [(l' & <- & Hl) _] Hr. apply list_elem_of_filter in Hr as [_ Hr]. eauto.
Qed.

(** *** Preservation *)

Lemma task_ok_mono s s' t :
  ps_slots s ⊆ ps_slots s' -> ps_peer s ⊆ ps_peer s' -> task_ok s t -> task_ok s' t.
Proof.
  intros Hs Hp Ht He. destruct (Ht He) as (Hq & Ha & Hpc).
  assert (Ho : forall a sl, owns s t a sl -> owns s' t a sl).
  { intros a sl (H1 & H2 & H3). split_and!; [by eapply lookup_weaken | done | by eapply lookup_weaken]. }
  split_and!; [lia .. | |].
  - intros a Hat. destruct (Ha a Hat) as [sl Hsl]. eauto.
  - destruct (t_pc t) as [| | | | | | | | | | | | | [resp | e] |]; try done; [by eapply lookup_weaken |].
    destruct Hpc as (a & sl & body & H & ?). eauto 10.
Qed.

Lemma inv_pool p' s :
  sys_inv s ->
  (forall r, is_Some (heap (ps_pool s) !! r) -> is_Some (heap p' !! r)) ->
  (forall r c' id a, heap p' !! r = Some c' -> inflight c' !! id = Some (Tx a) ->
     (exists c, heap (ps_pool s) !! r = Some c /\ inflight c !! id = Some (Tx a)) \/
     (exists sl, ps_slots s !! a = Some sl /\ sl_conn sl = r /\ sl_id sl = id)) ->
  (forall server l r, conns p' !! server = Some l -> r ∈ l -> ps_peer s !! r = Some server) ->
  sys_inv (with_pool p' s).
Proof.
  intros [] Hh Hin Hb. constructor; cbn; try done.
  - eauto.
  - intros a sl H. destruct (si_slot0 a sl H). eauto.
  - intros r c id a Hc Hi. destruct (Hin r c id a Hc Hi) as [(c0 & ? & ?) |]; eauto.
Qed.

Lemma sub_peers p' s :
  sys_inv s -> bucket_sub (ps_pool s) p' ->
  forall server l r, conns p' !! server = Some l -> r ∈ l -> ps_peer s !! r = Some server.
Proof. intros Hi Hb server l r H1 H2. destruct (Hb _ _ _ H1 H2) as (l' & ? & ?). by eapply si_bucket. Qed.

(** A change of one connection that adds at most the sender of an attempt. *)
Lemma inv_on_conn r f s :
  sys_inv s ->
  (forall c id a, heap (ps_pool s) !! r = Some c -> inflight (f c) !! id = Some (Tx a) -> inflight c !! id = Some (Tx a) \/
     (exists sl, ps_slots s !! a = Some sl /\ sl_conn sl = r /\ sl_id sl = id)) ->
  sys_inv (on_conn r f s).
Proof.
  intros Hi Hf. apply inv_pool; [done | | | exact (si_bucket _ Hi)]; cbn.
  - intros r' ?. by rewrite lookup_alter_is_Some.
  - intros r' c' id a [(<- & c & Hc & ->) | [_ Hc]]%lookup_alter_Some Ha; [| eauto].
    destruct (Hf c id a Hc Ha); eauto.
Qed.

Lemma inv_marked p' s :
  sys_inv s -> only_marked (ps_pool s) p' -> bucket_sub (ps_pool s) p' -> sys_inv (with_pool p' s).
Proof.
  intros Hi Hm Hb. apply inv_pool; [done | | | by apply sub_peers].
  - intros r [c Hc]. destruct (Hm r) as (f & -> & _). rewrite Hc. eauto.
  - intros r c' id a. destruct (Hm r) as (f & -> & Hf). intros (c & Hc & ->)%fmap_Some Ha. left. exists c.
    split; [done |]. by destruct Hf as [-> | ->].
Qed.

Lemma inv_allocated p' r id s :
  sys_inv s -> allocated (ps_pool s) p' r id ->
  (forall server l r, conns p' !! server = Some l -> r ∈ l -> ps_peer s !! r = Some server) ->
  sys_inv (with_pool p' s).
Proof.
  intros Hi (c & c' & Hc & Ha & Hh) Hb. apply inv_pool; [done | | | done]; rewrite Hh.
  - intros r' ?. by rewrite lookup_insert_is_Some'; auto.
  - intros r' c1 id' a [[<- <-] | [_ H]]%lookup_insert_Some Hx; [| eauto]. left. exists c. split; [done |].
    apply allocate_id_some in Ha as (_ & _ & E & _). rewrite E in Hx.
    by apply lookup_insert_Some in Hx as [[_ ?] | [_ ?]].
Qed.

Lemma inv_slot a sl s :
  sys_inv s -> ps_slots s !! a = None -> is_Some (heap (ps_pool s) !! sl_conn sl) -> message_ok (sl_query sl) ->
  sys_inv (with_slot a sl s).
Proof.
  intros Hi Ha Hr Hq.
  assert (Hsub : ps_slots s ⊆ <[a := sl]> (ps_slots s)) by by apply insert_subseteq.
  destruct Hi. constructor; cbn; try done.
  - intros a' sl' [[_ <-] | [_ H]]%lookup_insert_Some; eauto.
  - intros r c id a' Hc Hin. destruct (si_sender0 r c id a' Hc Hin) as (sl' & H & ?). exists sl'.
    split; [by eapply lookup_weaken | done].
  - intros a' body H. destruct (si_rx0 a' body H) as (sl' & H' & ?). exists sl'.
    split; [by eapply lookup_weaken | done].
  - intros n t H. eapply (task_ok_mono s); [done | done | eauto].
  - intros r n. rewrite si_writer0. split; intros (t & Ht & Hs); exists t; (split; [done |]).
    + unfold sends_on in *. destruct (t_pc t) as [| | | | | | | | | b | | | | |]; try done. apply fmap_Some in Hs as (sl' & Hb & ->).
      by rewrite lookup_insert_ne, Hb by congruence.
    + unfold sends_on in *. destruct (t_pc t) as [| | | | | | | | | b | | | | |] eqn:Hpc; try done.
      destruct (si_task0 n t Ht) as (_ & Ho & _); [by rewrite Hpc |]. destruct (Ho b) as (sl' & Hb & _); [by rewrite Hpc |].
      by rewrite lookup_insert_ne in Hs by congruence.
Qed.

Lemma inv_task n (o : option Task) t' lock w s :
  sys_inv s -> ps_tasks s !! n = o -> task_ok s t' ->
  (holds_lock t' = true -> lock = Some n /\ (ps_lock s = None \/ ps_lock s = Some n)) ->
  (holds_lock t' = false -> lock = if (match o with Some t => holds_lock t | None => false end) then None else ps_lock s) ->
  (forall r m, w !! r = Some m <->
     (m = n /\ sends_on (ps_slots s) t' = Some r) \/ (m <> n /\ ps_writer s !! r = Some m)) ->
  sys_inv (with_writer w (with_lock lock (with_task n t' s))).
Proof.
  intros Hi Hn Ht Hl1 Hl2 Hw. pose proof (si_lock _ Hi) as Hlk. destruct Hi. constructor; cbn; try done.
  - intros m t [[_ <-] | [_ H]]%lookup_insert_Some; [done |]. by eapply si_task0.
  - intros m. assert (Hm : (exists t, <[n := t']> (ps_tasks s) !! m = Some t /\ holds_lock t = true) <->
      (m = n /\ holds_lock t' = true) \/ (m <> n /\ ps_lock s = Some m)).
    { destruct (decide (m = n)) as [-> | Hne].
      - rewrite lookup_insert_eq. naive_solver.
      - rewrite lookup_insert_ne by done. rewrite Hlk. naive_solver. }
    rewrite Hm. destruct (holds_lock t').
    + destruct (Hl1 eq_refl) as [-> Hs]. split; [intros [= ->]; by left |]. intros [[-> _] | [Hne H]]; [done |].
      destruct Hs; congruence.
    + rewrite (Hl2 eq_refl). destruct o as [t |].
      * destruct (holds_lock t) eqn:Ht'.
        -- assert (Hs : ps_lock s = Some n) by (apply Hlk; eauto). rewrite Hs. naive_solver.
        -- split; [| naive_solver]. intros H. right. split; [| done]. intros ->.
           apply Hlk in H as (t0 & H1 & H2). congruence.
      * split; [| naive_solver]. intros H. right. split; [| done]. intros ->.
        apply Hlk in H as (t0 & H1 & H2). congruence.
  - intros r m. rewrite Hw. destruct (decide (m = n)) as [-> | Hne].
    + rewrite lookup_insert_eq. naive_solver.
    + rewrite lookup_insert_ne, <- si_writer0 by done. naive_solver.
Qed.

(** The writers, when a task moves that does not write. *)
Lemma not_sending slots t : sending t = false -> sends_on slots t = None.
Proof. unfold sending, sends_on. by destruct (t_pc t). Qed.

Lemma writer_kept n (o : option Task) t' s :
  sys_inv s -> ps_tasks s !! n = o -> match o with Some t => sending t = false | None => True end -> sending t' = false ->
  forall r m, ps_writer s !! r = Some m <->
    (m = n /\ sends_on (ps_slots s) t' = Some r) \/ (m <> n /\ ps_writer s !! r = Some m).
Proof.
  intros Hi Hn Ho Ht' r m. rewrite (not_sending _ t' Ht'). split; [| naive_solver]. intros H. right. split; [| done].
  intros ->. apply (si_writer _ Hi) in H as (t & H1 & H2). subst o. rewrite H1 in Ho. by rewrite (not_sending _ t Ho) in H2.
Qed.

(** A task moves and does not touch the locks. *)
Lemma inv_same_lock n t t' s :
  sys_inv s -> ps_tasks s !! n = Some t -> task_ok s t' ->
  holds_lock t' = holds_lock t /\ sending t = false /\ sending t' = false -> sys_inv (with_task n t' s).
Proof.
  intros Hi Hn Ht (Hl & Hs1 & Hs2). apply (inv_task n (Some t) t' (ps_lock s) (ps_writer s) s Hi Hn Ht).
  - intros H. assert (Hs : ps_lock s = Some n) by (apply (si_lock _ Hi); exists t; split; [done | congruence]). auto.
  - rewrite <- Hl. by intros ->.
  - by eapply writer_kept.
Qed.

(** A task moves and lets go of the lock. *)
Lemma inv_release n t t' s :
  sys_inv s -> ps_tasks s !! n = Some t -> task_ok s t' -> holds_lock t' = false /\ sending t' = false -> holds_lock t = true ->
  sys_inv (with_lock None (with_task n t' s)).
Proof.
  intros Hi Hn Ht [Hl Hs] Hl'. apply (inv_task n (Some t) t' None (ps_writer s) s Hi Hn Ht); [congruence | by rewrite Hl' |].
  eapply writer_kept; [done | done | | done]. unfold holds_lock, sending in *. by destruct (t_pc t).
Qed.

(** A task locks the writer of a connection, or lets go of it. *)
Lemma inv_take_writer n t t' r s :
  sys_inv s -> ps_tasks s !! n = Some t -> task_ok s t' -> holds_lock t = false -> holds_lock t' = false ->
  sending t = false -> ps_writer s !! r = None -> sends_on (ps_slots s) t' = Some r ->
  sys_inv (with_task n t' (with_writer (<[r := n]> (ps_writer s)) s)).
Proof.
  intros Hi Hn Ht Hl Hl' Hs Hr Ht'.
  apply (inv_task n (Some t) t' (ps_lock s) (<[r := n]> (ps_writer s)) s Hi Hn Ht); [congruence | by rewrite Hl |].
  intros r' m. rewrite lookup_insert_Some, Ht'.
  assert (Hm : ps_writer s !! r' = Some m -> m <> n).
  { intros H ->. apply (si_writer _ Hi) in H as (t0 & H1 & H2). rewrite Hn in H1. injection H1 as <-.
    by rewrite (not_sending _ _ Hs) in H2. }
  split.
  - intros [[<- <-] | [_ H]]; [by left | right; auto].
  - intros [[-> [= <-]] | [_ H]]; [by left |]. right. split; [| done]. intros <-. congruence.
Qed.

Lemma inv_drop_writer n t t' r s :
  sys_inv s -> ps_tasks s !! n = Some t -> task_ok s t' -> holds_lock t = false -> holds_lock t' = false ->
  sending t' = false -> sends_on (ps_slots s) t = Some r ->
  sys_inv (with_task n t' (with_writer (delete r (ps_writer s)) s)).
Proof.
  intros Hi Hn Ht Hl Hl' Hs Hr.
  apply (inv_task n (Some t) t' (ps_lock s) (delete r (ps_writer s)) s Hi Hn Ht); [congruence | by rewrite Hl |].
  intros r' m. rewrite lookup_delete_Some, (not_sending _ _ Hs).
  assert (Hm : ps_writer s !! r = Some n) by (apply (si_writer _ Hi); by exists t).
  split.
  - intros [Hne H]. right. split; [| done]. intros ->. apply (si_writer _ Hi) in H as (t0 & H1 & H2).
    rewrite Hn in H1. injection H1 as <-. congruence.
  - intros [[_ H] | [Hne H]]; [done |]. split; [| done]. intros <-. congruence.
Qed.

Lemma resolvable_message query : 12 <= Z.of_nat (length query) <= MAX_DNS_MESSAGE -> message_ok query.
Proof. intros H. split; lia. Qed.

Lemma owns_mono s s' t a sl :
  ps_slots s ⊆ ps_slots s' -> ps_peer s ⊆ ps_peer s' -> owns s t a sl -> owns s' t a sl.
Proof. intros Hs Hp (H1 & H2 & H3). split_and!; [by eapply lookup_weaken | done | by eapply lookup_weaken]. Qed.

(** A task that has a pool to look at and no attempt. *)
Lemma task_ok_plain s t pc :
  12 <= Z.of_nat (length (t_query t)) <= MAX_DNS_MESSAGE ->
  match pc with AtReuse | AtLock | AtReuse2 | AtCheck | AtLoad | AtDial _ => True | _ => False end ->
  forall e, task_ok s (mkTask (t_server t) (t_query t) e pc).
Proof. intros Hq Hpc e _. cbn. split_and!; [lia .. | |]; by destruct pc. Qed.

Lemma retry_ok s e t :
  12 <= Z.of_nat (length (t_query t)) <= MAX_DNS_MESSAGE -> task_ok s (retry e t).
Proof. intros Hq. unfold retry. destruct (t_err t); [intros H; by destruct (H e) | by apply task_ok_plain]. Qed.

Lemma retry_holds e t : holds_lock (retry e t) = false /\ sending (retry e t) = false.
Proof. unfold retry. by destruct (t_err t). Qed.

(** Its next position in an attempt it owns. *)
Lemma task_ok_attempt s t a sl pc :
  12 <= Z.of_nat (length (t_query t)) <= MAX_DNS_MESSAGE -> owns s t a sl -> attempt_of pc = Some a ->
  task_ok s (at_pc pc t).
Proof.
  intros Hq Ho Ha _. cbn. split_and!; [lia .. | |].
  - rewrite Ha. intros a' [= <-]. by exists sl.
  - by destruct pc.
Qed.

Lemma grant_inv n t r id s (release : bool) :
  sys_inv s -> ps_tasks s !! n = Some t -> holds_lock t = release /\ sending t = false ->
  12 <= Z.of_nat (length (t_query t)) <= MAX_DNS_MESSAGE -> ps_peer s !! r = Some (t_server t) ->
  sys_inv (if release then with_lock None (grant n t r id s) else grant n t r id s).
Proof.
  intros Hi Hn [Hl Hs'] Hq Hr. set (a := fresh (dom (ps_slots s))).
  assert (Ha : ps_slots s !! a = None) by apply not_elem_of_dom, is_fresh.
  assert (Hs : sys_inv (with_slot a (mkSlot r id (t_query t)) s)).
  { apply inv_slot; [done | done | by eapply si_peer | by apply resolvable_message]. }
  assert (Ht : task_ok (with_slot a (mkSlot r id (t_query t)) s) (at_pc (AtInsert a) t)).
  { eapply task_ok_attempt; [done | | done]. split_and!; [apply lookup_insert_eq | done | done]. }
  destruct release; [by eapply inv_release |]. by eapply inv_same_lock.
Qed.

Lemma open_inv n t proxy now s r p' :
  sys_inv s -> ps_tasks s !! n = Some t -> 12 <= Z.of_nat (length (t_query t)) <= MAX_DNS_MESSAGE ->
  holds_lock t = true /\ sending t = false ->
  DnsPool.open_conn now (Ok tt) (with_proxy proxy (ps_pool s)) = (Ok r, p') ->
  sys_inv (with_task n (at_pc (AtRegister r) t)
    (with_conn r (t_server t) (with_pool (with_proxy (pool_proxy (ps_pool s)) p') s))).
Proof.
  intros Hi Hn Hq Hl H. injection H as Hr <-. cbn [with_proxy heap conns via query_timeout idle_timeout pool_stats pool_proxy] in Hr |- *.
  assert (Hf : heap (ps_pool s) !! r = None) by (subst r; apply not_elem_of_dom, is_fresh). rewrite Hr. clear Hr.
  assert (Hp : ps_peer s !! r = None).
  { destruct (ps_peer s !! r) as [srv |] eqn:E; [| done]. apply (si_peer _ Hi) in E as [c Hc]. congruence. }
  assert (Hsub : ps_peer s ⊆ <[r := t_server t]> (ps_peer s)) by by apply insert_subseteq.
  assert (Hi' : sys_inv (with_conn r (t_server t) (with_pool (with_proxy (pool_proxy (ps_pool s))
    (mkPool proxy (query_timeout (ps_pool s)) (idle_timeout (ps_pool s)) (conns (ps_pool s))
       (<[r := new_conn now]> (heap (ps_pool s))) (<[r := proxy]> (via (ps_pool s))) (pool_stats (ps_pool s)))) s))).
  { destruct Hi. constructor; cbn; try done.
    - intros server l r' H1 H2. eapply lookup_weaken; [by eapply si_bucket0 | done].
    - intros r' srv. rewrite lookup_insert_is_Some'. intros [[<- _] | [_ H]]%lookup_insert_Some; eauto.
    - intros a sl H. rewrite lookup_insert_is_Some'. destruct (si_slot0 a sl H). eauto.
    - intros r' c id a [[<- <-] | [_ H]]%lookup_insert_Some Ha; [by apply (lookup_empty_Some (M:=gmap Z) id (Tx a)) in Ha |]. eauto.
    - intros r' pos [[_ <-] | [_ H]]%lookup_insert_Some; [cbn; lia | eauto].
    - intros m t' H. eapply (task_ok_mono s); [done | done | eauto]. }
  destruct Hl. eapply inv_same_lock; [exact Hi' | done | | done].
  intros _. cbn. split_and!; [lia .. | done |]. apply lookup_insert_eq.
Qed.

(** The end of a write: the writer is free again. *)
Lemma send_inv i n t a sl s s' :
  sys_inv s -> ps_tasks s !! n = Some t -> 12 <= Z.of_nat (length (t_query t)) <= MAX_DNS_MESSAGE -> owns s t a sl ->
  t_pc t = AtSend a -> attempt_step i n t a sl s = Some s' -> sys_inv s'.
Proof.
  intros Hi Hn Hq Ho Hpc H. pose proof Ho as (Hsl & _ & _).
  assert (Hend : forall f pc, attempt_of pc = Some a -> sending (at_pc pc t) = false ->
    (forall c, inflight (f c) = inflight c) ->
    sys_inv (with_task n (at_pc pc t) (on_conn (sl_conn sl) f (with_writer (delete (sl_conn sl) (ps_writer s)) s)))).
  { intros f pc Ha Hs Hf. apply (inv_drop_writer n t (at_pc pc t) (sl_conn sl) (on_conn (sl_conn sl) f s)).
    - apply inv_on_conn; [done |]. intros c id b _. rewrite Hf. by left.
    - done.
    - by eapply task_ok_attempt.
    - unfold holds_lock. by rewrite Hpc.
    - unfold holds_lock. by destruct pc.
    - done.
    - unfold sends_on. rewrite Hpc. cbn. by rewrite Hsl. }
  unfold attempt_step in H. rewrite Hpc in H. destruct (i_write i) as [[[] | e] |]; [| | done]; injection H as <-.
  - by apply Hend.
  - match goal with |- sys_inv (with_task _ ?t' (with_torn _ ?s1)) => assert (Hx : sys_inv (with_task n t' s1)) by by apply Hend end.
    destruct Hx. by constructor.
Qed.

Lemma attempt_step_inv i n t a sl s s' :
  sys_inv s -> ps_tasks s !! n = Some t -> attempt_of (t_pc t) = Some a -> ps_slots s !! a = Some sl ->
  attempt_step i n t a sl s = Some s' -> sys_inv s'.
Proof.
  intros Hi Hn Ha Hsl H.
  destruct (si_task _ Hi n t Hn) as (Hq & Ho & _); [intros e E; by rewrite E in Ha |].
  destruct (Ho a Ha) as (sl0 & Ho'). pose proof Ho' as (Hsl' & Hquery & Hpeer).
  rewrite Hsl in Hsl'. injection Hsl' as <-.
  assert (Hl : holds_lock t = false) by (unfold holds_lock; by destruct (t_pc t)).
  (* a change of the connection, then the next position *)
  assert (Hnext : forall f pc, attempt_of pc = Some a ->
    (forall c id a, inflight (f c) !! id = Some (Tx a) -> inflight c !! id = Some (Tx a) \/
       (exists sl', ps_slots s !! a = Some sl' /\ sl_conn sl' = sl_conn sl /\ sl_id sl' = id)) ->
    sending t = false -> sending (at_pc pc t) = false -> sys_inv (with_task n (at_pc pc t) (on_conn (sl_conn sl) f s))).
  { intros f pc Hpc Hf Hs Hs'. eapply inv_same_lock; [by apply inv_on_conn; eauto | done | by eapply task_ok_attempt |].
    split; [| done]. rewrite Hl. unfold holds_lock. by destruct pc. }
  assert (Hstay : forall t', task_ok s t' -> holds_lock t' = false /\ sending t = false /\ sending t' = false ->
    sys_inv (with_task n t' s)).
  { intros t' Ht' [Hl' ?]. eapply inv_same_lock; [done | done | done |]. split; [congruence | done]. }
  assert (Hns : match t_pc t with AtSend _ => True | _ => sending t = false end) by (unfold sending; by destruct (t_pc t)).
  pose proof H as H0. unfold attempt_step in H. destruct (t_pc t) eqn:Hpc; try done; injection Ha as ->.
  - injection H as <-. apply Hnext; [done | | done | done]. intros c id b. cbn.
    intros [[<- [= <-]] | [_ ?]]%lookup_insert_Some; eauto.
  - destruct (ps_writer s !! sl_conn sl) eqn:Hw; [done |]. injection H as <-.
    eapply inv_take_writer; [done | done | by eapply task_ok_attempt | done .. |]. cbn. by rewrite Hsl.
  - by eapply send_inv.
  - injection H as <-. apply Hnext; auto.
  - destruct (ps_rx s !! a) as [body |] eqn:Hrx.
    + injection H as <-. destruct (si_rx _ Hi _ _ Hrx) as (sl0 & Hsl0 & Hb). rewrite Hsl in Hsl0. injection Hsl0 as <-.
      rewrite decide_True by apply Hb. apply Hstay; [| done]. intros _. cbn. split_and!; [lia .. | done |].
      by exists a, sl, body.
    + destruct (sender_gone a sl s); [injection H as <-; apply Hstay; [by eapply task_ok_attempt | done] |].
      destruct (i_expired i); [| done]. injection H as <-. apply Hstay; [by eapply task_ok_attempt | done].
  - injection H as <-. eapply inv_same_lock; [| done | |].
    + apply inv_on_conn; [done |]. intros c id b _. cbn. intros [_ ?]%lookup_delete_Some. by left.
    + destruct fatal; [intros E; by destruct (E e) | by apply retry_ok].
    + rewrite Hl. destruct fatal; [done |]. destruct (retry_holds e t). done.
Qed.

Lemma try_reuse_inv server s o p' :
  sys_inv s -> DnsPool.try_reuse server (ps_pool s) = (o, p') ->
  sys_inv (with_pool p' s) /\ (forall r id, o = Some (r, id) -> ps_peer s !! r = Some server).
Proof.
  intros Hi H. apply try_reuse_spec in H as [Hb H]. pose proof (sub_peers _ _ Hi Hb) as Hp.
  destruct o as [[r id] |].
  - destruct H as [Hr Hal]. split; [by eapply inv_allocated |]. intros r' id' [= <- <-].
    apply bucket_elem in Hr as (l & Hl & Hr). by eapply si_bucket.
  - split; [| done]. apply inv_pool; [done | | | done]; rewrite H; eauto.
Qed.

Lemma task_step_inv i n t s s' :
  sys_inv s -> ps_tasks s !! n = Some t -> task_step i n t s = Some s' -> sys_inv s'.
Proof.
  intros Hi Hn H. assert (Hne : forall e, t_pc t <> Ended (Err e)).
  { intros e E. unfold task_step in H. by rewrite E in H. }
  pose proof (si_task _ Hi n t Hn Hne) as (Hq & _ & Hpc). clear Hne.
  assert (Hl : forall b, (match t_pc t with AtReuse2 | AtCheck | AtLoad | AtDial _ | AtRegister _ => true | _ => false end) = b ->
    holds_lock t = b) by done.
  assert (Hplain : forall pc, match pc with AtReuse | AtLock | AtReuse2 | AtCheck | AtLoad | AtDial _ => True | _ => False end ->
    forall s, task_ok s (at_pc pc t)) by (intros pc ? s0; by apply task_ok_plain).
  assert (Hs : match t_pc t with AtSend _ => True | _ => sending t = false end) by (unfold sending; by destruct (t_pc t)).
  unfold task_step in H. destruct (t_pc t) as [| | | | | proxy | r | a | a | a | a | a | a fatal e | res |] eqn:E; try done;
    specialize (Hl _ eq_refl);
    try (destruct (ps_slots s !! a) as [sl |] eqn:Ea; [| done]; eapply attempt_step_inv; [done .. | | done | done]; by rewrite E).
  - destruct (DnsPool.try_reuse _ _) as [[[r id] |] p'] eqn:Er; apply try_reuse_inv in Er as [Hi' Hr]; try done;
      injection H as <-; [by eapply (grant_inv _ _ _ _ _ false); [| | | | eapply Hr] |].
    by eapply inv_same_lock; [| | apply Hplain |].
  - destruct (ps_lock s) eqn:Hlk; [done |]. injection H as <-.
    apply (inv_task n (Some t) _ (Some n) (ps_writer s) s); [done .. | by destruct (t_err t); apply Hplain | by auto | |].
    + cbn. by destruct (t_err t).
    + eapply writer_kept; [done | done | done |]. cbn. by destruct (t_err t).
  - destruct (DnsPool.try_reuse _ _) as [[[r id] |] p'] eqn:Er; apply try_reuse_inv in Er as [Hi' Hr]; try done;
      injection H as <-; [by eapply (grant_inv _ _ _ _ _ true); [| | | | eapply Hr] |].
    by eapply inv_same_lock; [| | apply Hplain |].
  - assert (Hi' : sys_inv (with_pool (DnsPool.retain_alive (t_server t) (ps_pool s)) s)).
    { apply inv_pool; [done | done | by eauto | by apply sub_peers, retain_sub]. }
    case_match; injection H as <-; [| by eapply inv_same_lock; [| | apply Hplain |]].
    by eapply inv_release; [| | apply retry_ok | apply retry_holds |].
  - injection H as <-. by eapply inv_same_lock; [| | apply Hplain |].
  - destruct (DnsPool.open_conn _ _ _) as [[r | e] p'] eqn:Eo; injection H as <-.
    + unfold DnsPool.open_conn in Eo. destruct (i_connect i) as [[] |]; [| done]. by eapply open_inv.
    + by eapply inv_release; [| | apply retry_ok | apply retry_holds |].
  - destruct (DnsPool.register _ _ _) as [[[[r' id] b] | e] p'] eqn:Er; apply register_spec in Er; injection H as <-.
    + destruct Er as (-> & Hal & Hc). eapply (grant_inv _ _ _ _ _ true); [| done .. |done].
      eapply inv_allocated; [done | done |]. rewrite Hc. intros server l r' [[<- <-] | [_ Hl']]%lookup_insert_Some Hr.
      * apply elem_of_app in Hr as [Hr | ->%list_elem_of_singleton]; [| done].
        apply bucket_elem in Hr as (l & Hl1 & Hr). by eapply si_bucket.
      * by eapply si_bucket.
    + destruct Er as [Eh Ec]. eapply inv_release; [| done | by apply retry_ok | apply retry_holds | done].
      apply inv_pool; [done | | |]; rewrite ?Eh, ?Ec; [by eauto .. | exact (si_bucket _ Hi)].
Qed.

Lemma give_lookup d (m : gmap nat (list byte)) a body :
  give d m !! a = Some body -> m !! a = Some body \/ (a, body) ∈ d.
Proof.
  unfold give. revert m. induction d as [| [a' b'] d IH]; intros m H; [by left |]. apply IH in H as [H | H]; [| right; by right].
  apply lookup_insert_Some in H as [[-> ->] | [_ H]]; [right; left | by left].
Qed.

Lemma read_step_inv r e s s' : sys_inv s -> read_step r e s = Some s' -> sys_inv s'.
Proof.
  unfold read_step. intros Hi H. destruct (ps_pos s !! r) as [pos |] eqn:Hp; [| done].
  destruct (heap (ps_pool s) !! r) as [c |] eqn:Hc; [| done]. case_decide; [done |].
  destruct (reader_event e pos c) as [[pos' c'] d] eqn:E. injection H as <-.
  apply reader_event_ok in E as (Hp' & [Hin _] & Hd); [| by eapply si_pos].
  pose proof (si_sender _ Hi) as Hsend. destruct Hi. constructor; cbn; try done.
  - intros r' srv H'. rewrite lookup_insert_is_Some'. eauto.
  - intros a sl H'. rewrite lookup_insert_is_Some'. destruct (si_slot0 a sl H'). eauto.
  - intros r' c0 id a [[<- <-] | [_ H']]%lookup_insert_Some Ha; eauto.
  - intros r' pos0 [[_ <-] | [_ H']]%lookup_insert_Some; eauto.
  - intros a body [H' | H']%give_lookup; [by apply si_rx0 |]. unfold delivered_from in Hd. rewrite Forall_forall in Hd.
    destruct (Hd _ H') as (id & Hid & Hb). destruct (Hsend r c id a Hc Hid) as (sl & ? & _ & <-). eauto.
Qed.

Lemma act_inv a s s' : sys_inv s -> pool_act a s = Some s' -> sys_inv s'.
Proof.
  intros Hi H. destruct a as [n server query | n i | r e | proxy | | now]; cbn [pool_act] in H.
  - destruct (ps_tasks s !! n) eqn:Hn; [done |]. injection H as <-.
    assert (Hh : holds_lock (start_query server query) = false).
    { unfold start_query, holds_lock. cbn. by repeat case_match. }
    assert (Hs : sending (start_query server query) = false).
    { unfold start_query, sending. cbn. by repeat case_match. }
    apply (inv_task n None (start_query server query) (ps_lock s) (ps_writer s));
      [done | done | | congruence | done | by eapply writer_kept].
    unfold start_query. destruct (_ <? 12) eqn:E1; [intros E; by destruct (E ["DNS query too short"]) |].
    destruct (MAX_DNS_MESSAGE <? _) eqn:E2; [intros E; by destruct (E ["DNS query too large"]) |]. bool_to_prop.
    intros _. cbn. split_and!; [lia .. | done | done].
  - destruct (ps_tasks s !! n) as [t |] eqn:Hn; [| done]. by eapply task_step_inv.
  - by eapply read_step_inv.
  - injection H as <-. destruct Hi. by constructor.
  - injection H as <-. apply inv_marked; [done | apply set_proxy_marked |]. intros server l r H.
    by apply (lookup_empty_Some (M := gmap SocketAddr) server l) in H.
  - injection H as <-. apply inv_marked; [done | apply prune_marked | apply prune_sub].
Qed.

Lemma start_inv proxy qt it st : sys_inv (pstart proxy qt it st).
Proof.
  constructor; cbn; try (intros *; by rewrite lookup_empty).
  - intros n. split; [done |]. intros (t & H & _). by rewrite lookup_empty in H.
  - intros r n. rewrite lookup_empty. split; [done |]. intros (t & H & _). by rewrite lookup_empty in H.
Qed.

Lemma run_inv l s s' : sys_inv s -> pool_run l s = Some s' -> sys_inv s'.
Proof.
  revert s. induction l as [| a l IH]; intros s Hi H; cbn [pool_run] in H; [by simplify_eq |].
  destruct (pool_act a s) as [s1 |] eqn:E; [| done]. eapply IH; [| done]. by eapply act_inv.
Qed.

(** ** Work left *)

(** Moves until the end of the attempt, at most, and those of the second
    attempt, which starts at the lock. *)
Definition steps_left (pc : Pc) : nat :=
  match pc with
  | AtReuse => 13 | AtLock => 12 | AtReuse2 => 11 | AtCheck => 10 | AtLoad => 9 | AtDial _ => 8 | AtRegister _ => 7
  | AtInsert _ => 6 | AtWrite _ => 5 | AtSend _ => 4 | AtTouch _ => 3 | AtWait _ => 2 | AtRemove _ _ _ => 1
  | Ended _ | Panicked => 0
  end.

Definition second_attempt (t : Task) : nat := match t_err t with None => 12 | Some _ => 0 end.

Definition rank (t : Task) : nat :=
  match t_pc t with Ended _ | Panicked => 0 | pc => steps_left pc + second_attempt t end.

Definition work (m : gmap nat Task) : nat := sum_list (rank <$> (map_to_list m).*2).

Lemma work_insert m n t : m !! n = None -> (work (<[n := t]> m) = rank t + work m)%nat.
Proof. intros H. unfold work. by rewrite (map_to_list_insert m n t H). Qed.

Lemma work_update m n t t' : m !! n = Some t -> (work (<[n := t']> m) + rank t = work m + rank t')%nat.
Proof.
  intros H. rewrite <- (insert_delete_id m n t H) at 2. rewrite <- insert_delete_eq.
  rewrite !work_insert by apply lookup_delete_eq. lia.
Qed.

Lemma rank_at pc t : (rank (at_pc pc t) <= steps_left pc + second_attempt t)%nat.
Proof. unfold rank, second_attempt. destruct pc; cbn; lia. Qed.

Lemma rank_bound t : (rank t <= 25)%nat.
Proof. unfold rank, second_attempt. destruct (t_pc t), (t_err t); cbn; lia. Qed.

Lemma retry_rank e t : (rank (retry e t) <= second_attempt t)%nat.
Proof. unfold retry, rank, second_attempt. destruct (t_err t); cbn; lia. Qed.

(** Every move lowers the rank of its task and leaves the others alone. *)
Definition lowers (n : nat) (t : Task) (s s' : PS) : Prop :=
  exists t', ps_tasks s' = <[n := t']> (ps_tasks s) /\ (rank t' < rank t)%nat.

Lemma lowers_at n t pc s s' :
  ps_tasks s' = <[n := at_pc pc t]> (ps_tasks s) -> (steps_left pc + second_attempt t < rank t)%nat -> lowers n t s s'.
Proof. intros H Hr. eexists. split; [exact H |]. pose proof (rank_at pc t). lia. Qed.

Lemma lowers_retry n t e s s' :
  ps_tasks s' = <[n := retry e t]> (ps_tasks s) -> (second_attempt t < rank t)%nat -> lowers n t s s'.
Proof. intros H Hr. eexists. split; [exact H |]. pose proof (retry_rank e t). lia. Qed.

Lemma attempt_step_lowers i n t a sl s s' : attempt_step i n t a sl s = Some s' -> lowers n t s s'.
Proof.
  unfold attempt_step. intros H. destruct (t_pc t) as [| | | | | | | a' | a' | a' | a' | a' | a' fatal e | |] eqn:E; try done;
    assert (Hr : rank t = (steps_left (t_pc t) + second_attempt t)%nat) by (unfold rank; by rewrite E);
    rewrite E in Hr; cbn in Hr; clear E.
  - injection H as <-. eapply lowers_at; [done | cbn; lia].
  - destruct (ps_writer s !! sl_conn sl); [done |]. injection H as <-. eapply lowers_at; [done | cbn; lia].
  - destruct (i_write i) as [[[] | e] |]; [| | done]; injection H as <-; (eapply lowers_at; [done | cbn; lia]).
  - injection H as <-. eapply lowers_at; [done | cbn; lia].
  - destruct (ps_rx s !! a) as [body |]; [| destruct (sender_gone a sl s); [| destruct (i_expired i)]]; simplify_eq;
      (eapply lowers_at; [done | try case_decide; cbn; lia]).
  - injection H as <-. destruct fatal; [eapply lowers_at; [done | cbn; lia] | eapply lowers_retry; [done | lia]].
Qed.

Lemma task_step_lowers i n t s s' : task_step i n t s = Some s' -> lowers n t s s'.
Proof.
  unfold task_step. intros H. destruct (t_pc t) as [| | | | | proxy | r | a | a | a | a | a | a fatal e | res |] eqn:E; try done;
    assert (Hr : rank t = (steps_left (t_pc t) + second_attempt t)%nat) by (unfold rank; by rewrite E);
    rewrite E in Hr; cbn in Hr; clear E;
    try (destruct (ps_slots s !! a); [by eapply attempt_step_lowers | done]).
  - destruct (DnsPool.try_reuse _ _) as [[[r id] |] p']; injection H as <-; (eapply lowers_at; [done | cbn; lia]).
  - destruct (ps_lock s); [done |]. injection H as <-. eapply lowers_at; [done | destruct (t_err t); cbn; lia].
  - destruct (DnsPool.try_reuse _ _) as [[[r id] |] p']; injection H as <-; (eapply lowers_at; [done | cbn; lia]).
  - case_match; injection H as <-; [eapply lowers_retry; [done | lia] | eapply lowers_at; [done | cbn; lia]].
  - injection H as <-. eapply lowers_at; [done | cbn; lia].
  - destruct (DnsPool.open_conn _ _ _) as [[r | e] p']; injection H as <-;
      [eapply lowers_at; [done | cbn; lia] | eapply lowers_retry; [done | lia]].
  - destruct (DnsPool.register _ _ _) as [[[[r' id] b] | e] p']; injection H as <-;
      [eapply lowers_at; [done | cbn; lia] | eapply lowers_retry; [done | lia]].
Qed.

(** *** Progress *)

Definition is_move (a : PoolAct) : bool := match a with Move _ _ => true | _ => false end.
Definition is_ask (a : PoolAct) : bool := match a with Ask _ _ _ => true | _ => false end.

(** Everything but moves and new queries leaves the tasks alone. *)
Lemma act_other a s s' :
  pool_act a s = Some s' -> is_move a = false -> is_ask a = false ->
  ps_tasks s' = ps_tasks s /\ ps_slots s' = ps_slots s.
Proof.
  intros H Ha Hm. destruct a as [n server query | n i | r e | proxy | | now]; cbn [pool_act is_move is_ask] in *; try done;
    try by injection H as <-.
  unfold read_step in H. destruct (ps_pos s !! r), (heap (ps_pool s) !! r); try done. case_decide; [done |].
  destruct (reader_event _ _ _) as [[? ?] ?]. by injection H as <-.
Qed.

Lemma act_work a s s' :
  pool_act a s = Some s' -> is_ask a = false ->
  (work (ps_tasks s') + (if is_move a then 1 else 0) <= work (ps_tasks s))%nat.
Proof.
  intros H Ha. destruct (is_move a) eqn:Hm; [| destruct (act_other _ _ _ H Hm Ha) as [-> _]; lia].
  destruct a as [| n i | | | |]; try done. cbn [pool_act] in H.
  destruct (ps_tasks s !! n) as [t |] eqn:Hn; [| done]. apply task_step_lowers in H as (t' & -> & Hr).
  pose proof (work_update _ _ _ t' Hn). lia.
Qed.

(** The moves of one query in a run, and how many it may still make. *)
Definition is_move_of (n : nat) (a : PoolAct) : bool := match a with Move m _ => (m =? n)%nat | _ => false end.

Definition moves_of (n : nat) (l : list PoolAct) : nat := length (filter (fun a => is_move_of n a = true) l).

Definition budget (m : gmap nat Task) (n : nat) : nat := match m !! n with Some t => rank t | None => 25 end.

Lemma act_budget a s s' n :
  pool_act a s = Some s' ->
  (budget (ps_tasks s') n + (if is_move_of n a then 1 else 0) <= budget (ps_tasks s) n)%nat.
Proof.
  intros H. destruct (is_ask a) eqn:Ha; [| destruct (is_move a) eqn:Hm].
  - destruct a as [k server query | | | | |]; try done. cbn [pool_act is_move_of] in *. destruct (ps_tasks s !! k) eqn:Hk; [done |].
    injection H as <-. unfold budget. cbn. destruct (decide (k = n)) as [-> | Hne].
    + rewrite lookup_insert_eq, Hk. pose proof (rank_bound (start_query server query)). lia.
    + rewrite lookup_insert_ne by done. lia.
  - destruct a as [| k i | | | |]; try done. cbn [pool_act is_move_of] in *.
    destruct (ps_tasks s !! k) as [t |] eqn:Hk; [| done]. apply task_step_lowers in H as (t' & -> & Hr). unfold budget.
    destruct (Nat.eqb_spec k n) as [-> | Hne]; [rewrite lookup_insert_eq, Hk; lia | rewrite lookup_insert_ne by done; lia].
  - destruct (act_other _ _ _ H Hm Ha) as [-> _]. destruct a; try done; cbn [is_move_of]; lia.
Qed.

Lemma run_budget l s s' n :
  pool_run l s = Some s' -> (budget (ps_tasks s') n + moves_of n l <= budget (ps_tasks s) n)%nat.
Proof.
  revert s. induction l as [| a l IH]; intros s H; cbn [pool_run] in H; [simplify_eq; cbn; lia |].
  destruct (pool_act a s) as [s1 |] eqn:E; [| done]. pose proof (act_budget _ _ _ n E). specialize (IH _ H).
  unfold moves_of in *. rewrite filter_cons.
  destruct (is_move_of n a); [rewrite decide_True by done | rewrite decide_False by done]; cbn [length] in *; lia.
Qed.

(** A query that waits for the end of a write on its connection: its own, or
    that of the query that holds the writer. *)
Definition waits_for_write (s : PS) (t : Task) : Prop :=
  exists a sl m t', (t_pc t = AtWrite a \/ t_pc t = AtSend a) /\ ps_slots s !! a = Some sl /\
    ps_tasks s !! m = Some t' /\ sends_on (ps_slots s) t' = Some (sl_conn sl).

(** Where the timeout is over and the other end takes nothing, every position
    can be left but the wait for a lock and a write. *)
Definition expired : Input := mkInput 0 (Ok tt) None 0 true.

Lemma task_moves s n t :
  sys_inv s -> ps_tasks s !! n = Some t -> (forall res, t_pc t <> Ended res) ->
  (t_pc t = AtLock -> ps_lock s = None) -> waits_for_write s t \/ exists s', task_step expired n t s = Some s'.
Proof.
  intros Hi Hn Hend Hlock. destruct (si_task _ Hi n t Hn) as (_ & Ha & Hpc); [by intros e |]. unfold task_step.
  destruct (t_pc t) as [| | | | | proxy | r | a | a | a | a | a | a fatal e | res |] eqn:E; try done;
    try (right; destruct (Ha a eq_refl) as (sl & -> & _); unfold attempt_step; rewrite E; by eauto).
  - destruct (DnsPool.try_reuse _ _) as [[[r id] |] p']; eauto.
  - rewrite Hlock by done. eauto.
  - destruct (DnsPool.try_reuse _ _) as [[[r id] |] p']; eauto.
  - case_match; eauto.
  - eauto.
  - destruct (DnsPool.open_conn _ _ _) as [[r | e] p']; eauto.
  - destruct (DnsPool.register _ _ _) as [[[[r' id] b] | e] p']; eauto.
  - destruct (Ha a eq_refl) as (sl & Hsl & _). rewrite Hsl. unfold attempt_step. rewrite E.
    destruct (ps_writer s !! sl_conn sl) as [m |] eqn:Hw; [left | by eauto].
    apply (si_writer _ Hi) in Hw as (t' & ? & ?). exists a, sl, m, t'. auto.
  - left. destruct (Ha a eq_refl) as (sl & Hsl & _). exists a, sl, n, t. split_and!; auto. unfold sends_on. by rewrite E, Hsl.
  - right. destruct (Ha a eq_refl) as (sl & -> & _). unfold attempt_step. rewrite E. destruct (ps_rx s !! a); [eauto |].
    destruct (sender_gone a sl s); cbn; eauto.
  - by destruct (Hend res).
Qed.

Lemma some_task_moves s n t :
  sys_inv s -> ps_tasks s !! n = Some t -> (forall res, t_pc t <> Ended res) ->
  waits_for_write s t \/ exists m s', pool_act (Move m expired) s = Some s'.
Proof.
  intros Hi Hn Hend. destruct (ps_lock s) as [m |] eqn:Hl.
  - destruct (proj1 (si_lock _ Hi m) Hl) as (t' & Ht' & Hh). right. exists m. cbn. rewrite Ht'. unfold holds_lock in Hh.
    destruct (task_moves s m t' Hi Ht') as [(a & sl & k & t0 & [E | E] & _) | H]; [| | by rewrite E in Hh .. | done];
      [intros res E | intros E]; by rewrite E in Hh.
  - destruct (task_moves s n t Hi Hn Hend) as [H | [s' H]]; [done | by left |]. right. exists n, s'. cbn. by rewrite Hn.
Qed.

(** The write that is waited for can end, when the other end takes it. *)
Definition taken : Input := mkInput 0 (Ok tt) (Some (Ok tt)) 0 true.

Lemma write_ends s t : sys_inv s -> waits_for_write s t -> exists m s', pool_act (Move m taken) s = Some s'.
Proof.
  intros Hi (a & sl & m & t' & _ & _ & Hm & Hs). exists m. cbn. rewrite Hm. unfold sends_on in Hs. unfold task_step.
  destruct (t_pc t') as [| | | | | | | | | b | | | | |] eqn:E; try done. destruct (ps_slots s !! b) as [sl' |]; [| done].
  unfold attempt_step. rewrite E. cbn. by eauto.
Qed.

(** *** A write that is not taken *)

Lemma task_slots i n t s s' : task_step i n t s = Some s' -> ps_slots s ⊆ ps_slots s'.
Proof.
  assert (Hg : forall n t r id s, ps_slots s ⊆ ps_slots (grant n t r id s)).
  { intros. apply insert_subseteq, not_elem_of_dom, is_fresh. }
  unfold task_step, attempt_step. intros H. repeat (case_match; simplify_eq; try done);
    exact (Hg n t _ _ (with_pool _ s)).
Qed.

(** No [Move] of the run finds a write taken. *)
Definition stalled (a : PoolAct) : bool :=
  match a with Move _ i => match i_write i with None => true | Some _ => false end | _ => true end.

Lemma stalled_act a s s' n t :
  sys_inv s -> pool_act a s = Some s' -> stalled a = true -> ps_tasks s !! n = Some t -> waits_for_write s t ->
  ps_tasks s' !! n = Some t /\ waits_for_write s' t.
Proof.
  intros Hi H Ha Hn Hw. destruct Hw as (b & sl & m & t' & Hpc & Hsl & Hm & Hs).
  assert (Hnext : ps_slots s ⊆ ps_slots s' -> ps_tasks s' !! n = Some t -> ps_tasks s' !! m = Some t' ->
    ps_tasks s' !! n = Some t /\ waits_for_write s' t).
  { intros Hsub Hn' Hm'. split; [done |]. exists b, sl, m, t'. split_and!; [done | by eapply lookup_weaken | done |].
    unfold sends_on in *. destruct (t_pc t') as [| | | | | | | | | k | | | | |]; try done.
    apply fmap_Some in Hs as (sl' & Hk & ->). by rewrite (lookup_weaken _ _ _ _ Hk Hsub). }
  destruct (is_ask a) eqn:Hask; [| destruct (is_move a) eqn:Hmv].
  - destruct a as [k server query | | | | |]; try done. cbn [pool_act] in H. destruct (ps_tasks s !! k) eqn:Hk; [done |].
    injection H as <-. apply Hnext; [done | |]; cbn; by rewrite lookup_insert_ne by congruence.
  - destruct a as [| k i | | | |]; try done. cbn [pool_act stalled] in *.
    destruct (ps_tasks s !! k) as [tk |] eqn:Hk; [| done]. destruct (i_write i) eqn:Ei; [done |].
    assert (Hwr : ps_writer s !! sl_conn sl = Some m) by (apply (si_writer _ Hi); eauto).
    assert (Hkn : k <> n).
    { intros ->. rewrite Hn in Hk. injection Hk as <-. unfold task_step, attempt_step in H.
      destruct Hpc as [E | E]; by rewrite E, Hsl, ?Hwr, ?Ei in H. }
    assert (Hkm : k <> m).
    { intros ->. rewrite Hm in Hk. injection Hk as <-. unfold sends_on in Hs. unfold task_step, attempt_step in H.
      destruct (t_pc t'); try done. case_match; [by rewrite Ei in H | done]. }
    pose proof (task_slots _ _ _ _ _ H) as Hsub. apply task_step_lowers in H as (tk' & Ht & _).
    apply Hnext; [done | |]; rewrite Ht; by rewrite lookup_insert_ne by done.
  - destruct (act_other _ _ _ H Hmv Hask) as [Ht Hs']. apply Hnext; by rewrite ?Hs', ?Ht.
Qed.

(** A write has no timeout, and it holds the writer of its connection: as
    long as the other end does not take it, the query that writes and every
    query that wants to write on the connection stay where they are, whatever
    else happens and however much time passes. *)
Lemma stalled_write_blocks l s s' n t :
  sys_inv s -> pool_run l s = Some s' -> Forall (fun a => stalled a = true) l ->
  ps_tasks s !! n = Some t -> waits_for_write s t -> ps_tasks s' !! n = Some t /\ waits_for_write s' t.
Proof.
  revert s. induction l as [| a l IH]; intros s Hi H Hl Hn Hw; cbn [pool_run] in H; [by simplify_eq |].
  destruct (pool_act a s) as [s1 |] eqn:E; [| done]. apply Forall_cons in Hl as [Ha Hl].
  destruct (stalled_act _ _ _ _ _ Hi E Ha Hn Hw) as [Hn1 Hw1]. by apply (IH s1); [eapply act_inv | ..].
Qed.

(** ** Properties *)

(** C18. Every query ends, or a write of its connection is not taken. In
    every run of the pool, with any number of queries, whatever the servers
    send, the proxy does and the reloads and the pruner change meanwhile, no
    query makes more than 25 moves. Where no query can move any more unless a
    pending write is taken, although timeouts may be over, each has returned
    a result, or waits for the end of a write on its connection, its own or
    another query's: none waits for the lock for opening or for a reply, and
    none has panicked. Where no query can move although writes are taken,
    each has returned a result. *)
Theorem dns_queries_end (proxy : ProxyConfig) (qt it : Z) (st : Counters) (l : list PoolAct) (s : PS) :
  pool_run l (pstart proxy qt it st) = Some s ->
  (forall n, (moves_of n l <= 25)%nat) /\
  ((forall n i, i_write i = None -> pool_act (Move n i) s = None) ->
   forall n t, ps_tasks s !! n = Some t -> (exists res, t_pc t = Ended res) \/ waits_for_write s t) /\
  ((forall n i, pool_act (Move n i) s = None) ->
   forall n t, ps_tasks s !! n = Some t -> exists res, t_pc t = Ended res).
Proof.
  intros H. assert (Hi : sys_inv s) by (eapply run_inv, H; apply start_inv).
  assert (Hstuck : (forall n i, i_write i = None -> pool_act (Move n i) s = None) ->
    forall n t, ps_tasks s !! n = Some t -> (exists res, t_pc t = Ended res) \/ waits_for_write s t).
  { intros Hs n t Hn. destruct (t_pc t) as [| | | | | | | | | | | | | res |] eqn:E; try (left; by exists res);
      (destruct (some_task_moves s n t Hi Hn) as [Hw | (m & s1 & Hm)];
         [by rewrite E | by right | by rewrite (Hs m expired eq_refl) in Hm]). }
  split_and!.
  - intros n. pose proof (run_budget _ _ _ n H) as Hb. change (budget (ps_tasks (pstart proxy qt it st)) n) with 25%nat in Hb. lia.
  - exact Hstuck.
  - intros Hs n t Hn. destruct (Hstuck (fun n i _ => Hs n i) n t Hn) as [? | Hw]; [done |].
    destruct (write_ends s t Hi Hw) as (m & s1 & Hm). by rewrite Hs in Hm.
Qed.

(** Two queries to one server: the first opens the connection and is
    answered, the second reuses it and times out. *)
Module TwoQueries.
Definition server : SocketAddr := SocketAddr_new (V4 16843009) 53.
Definition ready : Input := mkInput 0 (Ok tt) (Some (Ok tt)) 0 false.
Definition question : list byte := as_bytes "ab-question?".
Definition answer : list byte := be_bytes 2 0 ++ as_bytes "-answer".
Definition asks : list PoolAct := [Ask 0 server question; Ask 1 server question].
Definition acts : list PoolAct :=
  asks ++ replicate 11 (Move 0 ready) ++ replicate 5 (Move 1 ready) ++
  [Read 0 (Chunk (wire answer)); Move 0 ready] ++ replicate 2 (Move 1 expired).
Definition first_done : Task := mkTask server question None (Ended (Ok (as_bytes "ab-answer"))).
Definition second_done : Task := mkTask server question None (Ended (Err ["pooled DNS query timed out"])).
Definition start : PS := pstart example_proxy 5 30 zero_counters.

(** The same queries, when the proxy stops reading: the first holds the
    writer, the second wants it, and the time passes. *)
Definition until_write : list PoolAct := asks ++ replicate 9 (Move 0 ready) ++ replicate 2 (Move 1 ready).

Example blocked_for_ever :
  match pool_run until_write start with
  | Some s => pool_act (Move 0 expired) s = None /\ pool_act (Move 1 expired) s = None /\
      t_pc <$> ps_tasks s !! 0%nat = Some (AtSend 0) /\ t_pc <$> ps_tasks s !! 1%nat = Some (AtWrite 1)
  | None => False
  end.
Proof. vm_compute. auto. Qed.

Lemma acts_done : ps_tasks <$> pool_run acts start = Some {[0%nat := first_done; 1%nat := second_done]}.
Proof. vm_compute. reflexivity. Qed.
End TwoQueries.

Lemma dns_queries_end_witness :
  exists s, pool_run TwoQueries.acts TwoQueries.start = Some s /\
    (forall n, (moves_of n TwoQueries.acts <= 25)%nat) /\
    forall n t, ps_tasks s !! n = Some t -> exists res, t_pc t = Ended res.
Proof.
  pose proof TwoQueries.acts_done as V. destruct (pool_run TwoQueries.acts TwoQueries.start) as [s |] eqn:E; [| discriminate V].
  injection V as Ht. exists s. split; [reflexivity |].
  destruct (dns_queries_end example_proxy 5 30 zero_counters TwoQueries.acts s E) as (H1 & _ & H3).
  split; [exact H1 |]. apply H3. intros n i. cbn [pool_act]. rewrite Ht.
  destruct n as [| [| n]]; [reflexivity | reflexivity |].
  rewrite lookup_insert_ne, lookup_singleton_ne by lia. reflexivity.
Defined.
