(* ===== verification/DnsTests.v ===== *)
(** * The tests of the DNS pool on the model ([src/dns.rs])

    Each test runs the machine of the whole pool ([DnsSystem]) with the mock
    server of the source at the other end: the scheduler moves a query until
    it waits, then lets the server read what was written and reply. *)

From Stdlib Require Import ZArith Lia.
From Stdlib Require Import Strings.Byte Strings.Ascii Strings.String.
From stdpp Require Import base decidable list strings gmap fin_maps.
From S2P Require Import Prelude StdNet StdText Net Config Stats Socks Tune Reload DnsPool DnsSystem UnitTests.
#[local] Open Scope Z_scope.

(** ** The other end *)

Definition proxy_for (addr : SocketAddr) : ProxyConfig := mkProxyConfig addr None None (from_secs 5) true.

Definition from_millis (n : Z) : Z := n * 1000000.

Definition dns_message (id : Z) (marker : Z) : list byte :=
  be_bytes 2 id ++ replicate 10 x00 ++ [byte_of_Z marker].

(** What was written on a connection and not yet replied to. The handshake
    of the mock is the proxy's part of the connection, which succeeds. *)
Definition unread (r : nat) (s : PS) : list byte :=
  match heap (ps_pool s) !! r with
  | Some c => drop (length (default [] (ps_arrived s !! r))) (written c)
  | None => []
  end.

Definition event (a : PoolAct) (s : PS) : PS := default s (pool_act a s).

(** The reply to the first whole message of what was not yet replied to. *)
Definition reply_first (l : list byte) : option (list byte) :=
  let len := Z.to_nat (of_be_bytes (take 2 l)) in
  let body := take len (drop 2 l) in
  if (2 <=? length l)%nat && (length body =? len)%nat then Some (be_bytes 2 (Z.of_nat len) ++ body) else None.

(** The loop that sends every message back, and the variant that closes the
    connection after one. *)
Fixpoint reply_all (fuel : nat) (r : nat) (s : PS) : PS :=
  match fuel with
  | O => s
  | S fuel => match reply_first (unread r s) with Some m => reply_all fuel r (event (Read r (Chunk m)) s) | None => s end
  end.
Definition mock_socks_dns_server (r : nat) (s : PS) : PS := reply_all (length (unread r s)) r s.

Definition mock_socks_dns_oneshot (r : nat) (s : PS) : PS :=
  match reply_first (unread r s) with Some m => event (Read r Closed) (event (Read r (Chunk m)) s) | None => s end.

Definition serve (mock : nat -> PS -> PS) (s : PS) : PS :=
  fold_left (fun s r => mock r s) (elements (dom (heap (ps_pool s)))) s.

(** ** Running queries *)

Definition input (now : Z) : Input := mkInput now (Ok tt) (Some (Ok tt)) 0 false.

Fixpoint until_done (fuel : nat) (mock : nat -> PS -> PS) (now : Z) (n : nat) (s : PS) : option (result (list byte) * PS) :=
  match fuel with
  | O => None
  | S fuel =>
      match t_pc <$> ps_tasks s !! n with
      | Some (Ended r) => Some (r, s)
      | _ => match pool_act (Move n (input now)) s with
             | Some s => until_done fuel mock now n s
             | None => until_done fuel mock now n (serve mock s)
             end
      end
  end.

(** [pool.resolve(server, query).await] as the query [n]. *)
Definition resolve_with (mock : nat -> PS -> PS) (now : Z) (n : nat) (server : SocketAddr) (query : list byte) (s : PS)
    : option (result (list byte) * PS) :=
  match pool_act (Ask n server query) s with Some s => until_done 60 mock now n s | None => None end.

Definition conn_count (s : PS) : nat := DnsPool.conn_count (ps_pool s).

(** The answer of a query; a result that cannot be unwrapped fails the test. *)
Definition answer_of (x : option (result (list byte) * PS)) : option (list byte * PS) :=
  match x with Some (Ok resp, s) => Some (resp, s) | _ => None end.

Definition pool_at (addr : SocketAddr) (idle : Z) : PS := pstart (proxy_for addr) (from_secs 5) idle zero_counters.
Definition addr_a : SocketAddr := SocketAddr_new (V4 2130706433) 40001.
Definition addr_b : SocketAddr := SocketAddr_new (V4 2130706433) 40002.

(** ** The tests *)

Definition resolve_echoes_and_preserves_id : bool :=
  let pool := pool_at addr_a (from_secs 30) in
  match answer_of (resolve_with mock_socks_dns_server 0 0 (sockaddr "8.8.8.8:53") (dns_message 43981 17) pool) with
  | Some (resp, _) =>
      assert_eq (take 2 resp) (be_bytes 2 43981) && assert_eq (resp !! 12%nat) (Some (byte_of_Z 17))
  | None => false
  end.

(** The queries [i], [i + 1], ... one after the other. *)
Fixpoint sequential (todo : nat) (i : nat) (server : SocketAddr) (s : PS) : option PS :=
  match todo with
  | O => Some s
  | S todo =>
      match answer_of (resolve_with mock_socks_dns_server 0 i server (dns_message (Z.of_nat i) (Z.of_nat i)) s) with
      | Some (r, s) => if assert_eq (take 2 r) (be_bytes 2 (Z.of_nat i)) then sequential todo (S i) server s else None
      | None => None
      end
  end.

Definition reuses_single_connection_for_sequential_queries : bool :=
  let pool := pool_at addr_a (from_secs 30) in
  assert_eq (conn_count <$> sequential 10 0 (sockaddr "1.1.1.1:53") pool) (Some 1%nat).

(** Fifty tasks at once: in each round every task moves if it can, then the
    server replies. *)
Definition spawn_all (server : SocketAddr) (s : PS) : PS :=
  fold_left (fun s i => event (Ask i server (dns_message (Z.of_nat i) (Z.of_nat i))) s) (seq 0 50) s.
Definition round (s : PS) : PS :=
  serve mock_socks_dns_server (fold_left (fun s i => event (Move i (input 0)) s) (seq 0 50) s).

Definition concurrent_queries_multiplex : bool :=
  let s := Nat.iter 80 round (spawn_all (sockaddr "9.9.9.9:53") (pool_at addr_a (from_secs 30))) in
  forallb (fun i => match t_pc <$> ps_tasks s !! i with
                    | Some (Ended (Ok r)) => assert_eq (take 2 r) (be_bytes 2 (Z.of_nat i))
                    | _ => false
                    end) (seq 0 50) &&
  (Z.of_nat (conn_count s) <=? MAX_CONNS_PER_TARGET).

Definition rejects_short_query : bool :=
  match resolve_with mock_socks_dns_server 0 0 (sockaddr "8.8.8.8:53") (replicate 4 x00) (pool_at addr_a (from_secs 30)) with
  | Some (Err _, _) => true
  | _ => false
  end.

Definition recovers_after_connection_drop : bool :=
  let pool := pool_at addr_a (from_secs 30) in
  let server : SocketAddr := sockaddr "8.8.8.8:53" in
  match answer_of (resolve_with mock_socks_dns_oneshot 0 0 server (dns_message 1 170) pool) with
  | Some (r1, pool) =>
      assert_eq (take 2 r1) (be_bytes 2 1) &&
      match answer_of (resolve_with mock_socks_dns_oneshot (from_millis 50) 1 server (dns_message 2 187) pool) with
      | Some (r2, _) => assert_eq (take 2 r2) (be_bytes 2 2) && assert_eq (r2 !! 12%nat) (Some (byte_of_Z 187))
      | None => false
      end
  | None => false
  end.

Definition set_proxy_invalidates_and_reroutes : bool :=
  let pool := pool_at addr_a (from_secs 30) in
  let server : SocketAddr := sockaddr "8.8.8.8:53" in
  match answer_of (resolve_with mock_socks_dns_server 0 0 server (dns_message 1 1) pool) with
  | Some (_, pool) =>
      let moved := event ClearConns (event (StoreProxy (proxy_for addr_b)) pool) in
      assert_eq (conn_count pool) 1%nat && assert_eq (conn_count moved) 0%nat &&
      match answer_of (resolve_with mock_socks_dns_server 0 1 server (dns_message 2 2) moved) with
      | Some (r, pool) => assert_eq (take 2 r) (be_bytes 2 2) && assert_eq (conn_count pool) 1%nat
      | None => false
      end
  | None => false
  end.

Definition prune_drops_idle_connections : bool :=
  let pool := pool_at addr_a (from_millis 10) in
  match answer_of (resolve_with mock_socks_dns_server 0 0 (sockaddr "8.8.8.8:53") (dns_message 1 1) pool) with
  | Some (_, pool) =>
      assert_eq (conn_count pool) 1%nat && assert_eq (conn_count (event (Prune (from_millis 40)) pool)) 0%nat
  | None => false
  end.

Definition tests : list bool :=
  [resolve_echoes_and_preserves_id; reuses_single_connection_for_sequential_queries; concurrent_queries_multiplex;
   rejects_short_query; recovers_after_connection_drop; set_proxy_invalidates_and_reroutes; prune_drops_idle_connections].

Example dns_tests_hold : forallb id tests = true.
Proof. vm_compute. reflexivity. Qed.
