(* ===== verification/DnsAnswers.v ===== *)
(** * Answers of the DNS pool, end to end ([src/dns.rs])

    With a server that answers the messages it is sent, every result of
    [resolve] is that server's answer to the question that was asked,
    whichever connections were opened, shared, closed and replaced and in
    whatever pieces the bytes arrived. *)

From Stdlib Require Import ZArith Lia.
From Stdlib Require Import Strings.Byte Strings.Ascii Strings.String.
From stdpp Require Import base decidable list strings gmap fin_maps.
From S2P Require Import Prelude StdNet StdText Net Config Stats Socks DnsPool DnsSystem.
#[local] Open Scope Z_scope.

(** ** Specification *)

Section Spec.
(** What a server answers: a question and a reply, both without their
    identifiers. *)
Context (answers : SocketAddr -> list byte -> list byte -> Prop).

Definition is_reply (server : SocketAddr) (q m : list byte) : Prop :=
  take 2 m = take 2 q /\ answers server (drop 2 q) (drop 2 m).

(** On every connection the server reads messages from what was written, and
    what arrived is the beginning of its replies, each to a message it read
    and under its identifier. *)
Definition honest (s : PS) : Prop :=
  forall r server c, ps_peer s !! r = Some server -> heap (ps_pool s) !! r = Some c ->
  exists qs ms, Forall message_ok qs /\ Forall message_ok ms /\
    concat (wire <$> qs) `prefix_of` written c /\
    default [] (ps_arrived s !! r) `prefix_of` concat (wire <$> ms) /\
    forall m, m ∈ ms -> exists q, q ∈ qs /\ is_reply server q m.
End Spec.

(** The network in an orderly run: a connection on which a write failed takes
    no more bytes, and the idle timeout does not fire between the two bytes
    of a length (see [DnsPool.reader_desync]). *)
Definition write_orderly (i : Input) (r : nat) (s : PS) : bool :=
  bool_decide (r ∉ ps_torn s) || match i_write i with Some (Ok _) => false | Some (Err _) => (i_wrote i =? 0)%nat | None => true end.

Definition orderly_act (a : PoolAct) (s : PS) : bool :=
  match a with
  | Read r Idle => match ps_pos s !! r with Some (InLen (_ :: _)) => false | _ => true end
  | Move n i =>
      match ps_tasks s !! n with
      | Some t =>
          match t_pc t with
          | AtSend a => match ps_slots s !! a with Some sl => write_orderly i (sl_conn sl) s | None => true end
          | _ => true
          end
      | None => true
      end
  | _ => true
  end.

Fixpoint orderly (l : list PoolAct) (s : PS) : bool :=
  match l with
  | [] => true
  | a :: l => orderly_act a s && match pool_act a s with Some s => orderly l s | None => true end
  end.

(** How many queries a connection has carried. *)
Definition carried (slots : gmap nat Slot) (r : nat) : nat :=
  size (filter (fun kv => sl_conn kv.2 = r) slots).

(** ** Lemmas: messages on the wire *)

Lemma wire_inj m m' x x' :
  message_ok m -> message_ok m' -> wire m ++ x = wire m' ++ x' -> m = m' /\ x = x'.
Proof.
  unfold message_ok, MAX_DNS_MESSAGE, wire. intros [_ Hm] [_ Hm'] H. rewrite <- !app_assoc in H.
  apply app_inj_1 in H as [Hl H]; [| by rewrite !length_be_bytes].
  assert (E : Z.of_nat (length m) = Z.of_nat (length m')).
  { apply (f_equal of_be_bytes) in Hl. rewrite !of_be_bytes_be_bytes in Hl.
    change (256 ^ Z.of_nat 2) with 65536 in Hl. rewrite !Z.mod_small in Hl by lia. done. }
  apply app_inj_1 in H as [-> ->]; [done | lia].
Qed.

Lemma wire_cons m : exists b l, wire m = b :: l.
Proof. unfold wire. cbn [be_bytes app]. eauto. Qed.

Lemma wires_prefix qs ms :
  Forall message_ok qs -> Forall message_ok ms ->
  concat (wire <$> qs) `prefix_of` concat (wire <$> ms) -> qs `prefix_of` ms.
Proof.
  intros Hq. revert ms. induction Hq as [| q qs Hq _ IH]; intros ms Hm [k Hk]; [apply prefix_nil |].
  change (concat (wire <$> q :: qs)) with (wire q ++ concat (wire <$> qs)) in Hk.
  destruct Hm as [| m ms Hm Hms].
  - destruct (wire_cons q) as (b & l & E). by rewrite E in Hk.
  - change (concat (wire <$> m :: ms)) with (wire m ++ concat (wire <$> ms)) in Hk. rewrite <- app_assoc in Hk.
    apply wire_inj in Hk as [-> Hk]; [| done | done]. apply prefix_cons, IH; [done |]. by exists k.
Qed.

Lemma wires_app qs ms : concat (wire <$> qs ++ ms) = concat (wire <$> qs) ++ concat (wire <$> ms).
Proof. by rewrite fmap_app, concat_app. Qed.

Lemma wires_snoc qs m : concat (wire <$> qs ++ [m]) = concat (wire <$> qs) ++ wire m.
Proof. rewrite wires_app. cbn. by rewrite app_nil_r. Qed.

(** ** Invariant *)

Definition slot_frame (sl : Slot) : list byte := be_bytes 2 (sl_id sl) ++ drop 2 (sl_query sl).

Lemma slot_frame_wire sl : message_ok (sl_query sl) ->
  frame (sl_query sl) (sl_id sl) = wire (slot_frame sl) /\ message_ok (slot_frame sl).
Proof.
  intros H. destruct (frame_wire (sl_query sl) (sl_id sl) H) as [-> L]. split; [done |].
  unfold message_ok, slot_frame. by rewrite L.
Qed.

(** A complete message that arrived, and one that was written. *)
Definition has (bytes m : list byte) : Prop :=
  exists ms rest, Forall message_ok ms /\ bytes = concat (wire <$> ms) ++ rest /\ m ∈ ms.

Lemma has_prefix bytes bytes' m : bytes `prefix_of` bytes' -> has bytes m -> has bytes' m.
Proof. intros [k ->] (ms & rest & H1 & -> & H2). exists ms, (rest ++ k). by rewrite app_assoc. Qed.

Definition got (s : PS) (r : nat) (m : list byte) : Prop := has (default [] (ps_arrived s !! r)) m.
Definition wrote (s : PS) (r : nat) (m : list byte) : Prop :=
  exists c, heap (ps_pool s) !! r = Some c /\ has (written c) m.

(** Identifiers are handed out in order as long as they have not been used
    up, so no two queries had the same. *)
Definition ids_ok (slots : gmap nat Slot) (r : nat) (c : Conn) : Prop :=
  let k := Z.of_nat (carried slots r) in
  k <= 65536 ->
  next_id c = k /\ (forall id x, inflight c !! id = Some x -> 0 <= id < k) /\
  (forall a sl, slots !! a = Some sl -> sl_conn sl = r -> 0 <= sl_id sl < k) /\
  (forall a b sl sl', slots !! a = Some sl -> slots !! b = Some sl' -> sl_conn sl = r -> sl_conn sl' = r ->
     sl_id sl = sl_id sl' -> a = b).

(** What was written is frames of queries. *)
Definition frames_ok (slots : gmap nat Slot) (torn : gset nat) (r : nat) (c : Conn) : Prop :=
  exists qs, Forall message_ok qs /\
    Forall (fun m => exists a sl, slots !! a = Some sl /\ sl_conn sl = r /\ m = slot_frame sl) qs /\
    written c `prefix_of` concat (wire <$> qs) /\ (r ∉ torn -> written c = concat (wire <$> qs)).

(** What the reader has of the message it is in. *)
Definition pending (pos : ReaderPos) : list byte :=
  match pos with InLen got => got | InBody len got => be_bytes 2 (Z.of_nat len) ++ got | Stopped => [] end.

Definition stream_ok (bytes : list byte) (pos : ReaderPos) : Prop :=
  match pos with
  | Stopped => True
  | InLen _ => exists ms, Forall message_ok ms /\ bytes = concat (wire <$> ms) ++ pending pos
  | InBody len _ => Z.of_nat len <= MAX_DNS_MESSAGE /\
      exists ms, Forall message_ok ms /\ bytes = concat (wire <$> ms) ++ pending pos
  end.

Definition answer_ok (s : PS) (t : Task) : Prop :=
  match t_pc t with
  | AtTouch a | AtWait a => exists sl, ps_slots s !! a = Some sl /\ wrote s (sl_conn sl) (slot_frame sl)
  | Ended (Ok resp) => exists a sl body, owns s t a sl /\ wrote s (sl_conn sl) (slot_frame sl) /\
      got s (sl_conn sl) body /\ body_for (sl_id sl) body /\ resp = patch_id (take 2 (t_query t)) body
  | _ => True
  end.

Record ans_inv (s : PS) : Prop := {
  ai_ids : forall r c, heap (ps_pool s) !! r = Some c -> ids_ok (ps_slots s) r c;
  ai_frames : forall r c, heap (ps_pool s) !! r = Some c -> frames_ok (ps_slots s) (ps_torn s) r c;
  ai_stream : forall r pos, ps_pos s !! r = Some pos -> stream_ok (default [] (ps_arrived s !! r)) pos;
  ai_arrived : forall r, is_Some (ps_arrived s !! r) -> is_Some (heap (ps_pool s) !! r);
  ai_rx : forall a body, ps_rx s !! a = Some body -> exists sl, ps_slots s !! a = Some sl /\ got s (sl_conn sl) body;
  ai_task : forall n t, ps_tasks s !! n = Some t -> answer_ok s t;
}.

(** *** Growth *)

Record grows (s s' : PS) : Prop := {
  gr_slots : ps_slots s ⊆ ps_slots s';
  gr_peer : ps_peer s ⊆ ps_peer s';
  gr_arrived : forall r, default [] (ps_arrived s !! r) `prefix_of` default [] (ps_arrived s' !! r);
  gr_written : forall r c, heap (ps_pool s) !! r = Some c ->
    exists c', heap (ps_pool s') !! r = Some c' /\ written c `prefix_of` written c';
}.

Lemma got_mono s s' r m : grows s s' -> got s r m -> got s' r m.
Proof. intros H. apply has_prefix, H. Qed.

Lemma wrote_mono s s' r m : grows s s' -> wrote s r m -> wrote s' r m.
Proof. intros H (c & Hc & Hm). destruct (gr_written _ _ H _ _ Hc) as (c' & Hc' & Hp). exists c'. eauto using has_prefix. Qed.

Lemma answer_ok_mono s s' t : grows s s' -> answer_ok s t -> answer_ok s' t.
Proof.
  intros H. pose proof (gr_slots _ _ H) as Hs. pose proof (gr_peer _ _ H) as Hp. unfold answer_ok.
  assert (Hw : forall a, (exists sl, ps_slots s !! a = Some sl /\ wrote s (sl_conn sl) (slot_frame sl)) ->
    exists sl, ps_slots s' !! a = Some sl /\ wrote s' (sl_conn sl) (slot_frame sl)).
  { intros a (sl & H1 & H2). exists sl. split; [by eapply lookup_weaken | by eapply wrote_mono]. }
  destruct (t_pc t) as [| | | | | | | | | | | | | [resp | e] |]; auto.
  intros (a & sl & body & H1 & H2 & H3 & ?). exists a, sl, body. split_and!; try tauto.
  - by eapply owns_mono.
  - by eapply wrote_mono.
  - by eapply got_mono.
Qed.

(** *** Identifiers *)

Lemma carried_insert slots a sl r :
  slots !! a = None ->
  carried (<[a := sl]> slots) r = ((if decide (sl_conn sl = r) then 1 else 0) + carried slots r)%nat.
Proof.
  intros Ha. unfold carried. case_decide as Hr.
  - rewrite map_filter_insert_True by done. rewrite map_size_insert_None; [done |].
    apply map_lookup_filter_None. by left.
  - rewrite map_filter_insert_False by done. by rewrite delete_id.
Qed.

Lemma carried_none slots r : (forall a sl, slots !! a = Some sl -> sl_conn sl <> r) -> carried slots r = 0%nat.
Proof.
  intros H. apply map_size_empty_iff, map_empty. intros a. apply map_lookup_filter_None. right. intros sl Ha. by eapply H.
Qed.

Lemma alloc_loop_first fuel m next :
  m !! Z.land next 65535 = None -> alloc_loop (S fuel) m next = (Some (Z.land next 65535), wrapping_add 64 next 1).
Proof. intros H. cbn [alloc_loop]. by rewrite H. Qed.

Lemma allocate_next c k :
  next_id c = k -> 0 <= k < 65536 -> (forall id x, inflight c !! id = Some x -> 0 <= id < k) ->
  forall id c', allocate_id c = (Some id, c') ->
  id = k /\ next_id c' = k + 1 /\ inflight c' = <[k := Placeholder]> (inflight c).
Proof.
  intros Hn Hk Hin id c' H. unfold allocate_id in H. case_match; [done |].
  assert (Hl : Z.land k 65535 = k) by (change 65535 with (Z.ones 16); rewrite Z.land_ones, Z.mod_small; lia).
  assert (Hf : inflight c !! k = None).
  { destruct (inflight c !! k) as [x |] eqn:E; [| done]. apply Hin in E. lia. }
  destruct ID_SPACE as [| fuel] eqn:Ef; [done |]. rewrite Hn, alloc_loop_first in H by by rewrite Hl.
  rewrite Hl in H. injection H as <- <-. cbn. split_and!; [done | | done].
  unfold wrapping_add. rewrite Z.mod_small; lia.
Qed.

Definition quiet (slots : gmap nat Slot) (r : nat) (c c' : Conn) : Prop :=
  next_id c' = next_id c /\ written c' = written c /\
  forall id x, inflight c' !! id = Some x -> (exists y, inflight c !! id = Some y) \/
    (exists a sl, slots !! a = Some sl /\ sl_conn sl = r /\ sl_id sl = id).

Lemma quiet_refl slots r c : quiet slots r c c.
Proof. split_and!; eauto. Qed.

Lemma ids_quiet slots r c c' : ids_ok slots r c -> quiet slots r c c' -> ids_ok slots r c'.
Proof.
  unfold ids_ok. intros H (Hn & _ & Hin) Hk. destruct (H Hk) as (H1 & H2 & H3 & H4).
  split_and!; [congruence | | done | done].
  intros id x Hx. destruct (Hin id x Hx) as [[y Hy] | (a & sl & Ha & Hr & <-)]; eauto.
Qed.

Lemma ids_other slots r c a sl :
  ids_ok slots r c -> slots !! a = None -> sl_conn sl <> r -> ids_ok (<[a := sl]> slots) r c.
Proof.
  unfold ids_ok. intros H Ha Hr. rewrite carried_insert, decide_False by done. cbn [Nat.add]. intros Hk.
  destruct (H Hk) as (H1 & H2 & H3 & H4). split_and!; [done | done | |].
  - intros b sl' [[<- <-] | [_ ?]]%lookup_insert_Some ?; [done | eauto].
  - intros b b' sl1 sl2 [[<- <-] | [_ ?]]%lookup_insert_Some [[<- <-] | [_ ?]]%lookup_insert_Some; try done; eauto.
Qed.

Lemma ids_grant slots r c id c' a q :
  ids_ok slots r c -> slots !! a = None -> allocate_id c = (Some id, c') ->
  ids_ok (<[a := mkSlot r id q]> slots) r c'.
Proof.
  unfold ids_ok. intros H Ha Hal. rewrite carried_insert by done. cbn [sl_conn]. rewrite decide_True by done.
  set (k := carried slots r) in *. intros Hk. destruct H as (H1 & H2 & H3 & H4); [lia |].
  destruct (allocate_next c (Z.of_nat k) H1 ltac:(lia) H2 id c' Hal) as (-> & Hn & Hin).
  split_and!; [lia | | |].
  - intros id x. rewrite Hin. intros [[<- _] | [_ Hx%H2]]%lookup_insert_Some; lia.
  - intros b sl [[<- <-] | [_ Hb]]%lookup_insert_Some Hr; [cbn; lia |]. specialize (H3 b sl Hb Hr). lia.
  - intros b b' sl1 sl2 [[<- <-] | [_ Hb]]%lookup_insert_Some [[<- <-] | [_ Hb']]%lookup_insert_Some Hr Hr' E; try done.
    + specialize (H3 _ _ Hb' Hr'). cbn in E. lia.
    + specialize (H3 _ _ Hb Hr). cbn in E. lia.
    + by eapply H4.
Qed.

(** *** Frames *)

Lemma frames_mono slots slots' torn torn' r c c' :
  frames_ok slots torn r c -> slots ⊆ slots' -> torn ⊆ torn' -> written c' = written c -> frames_ok slots' torn' r c'.
Proof.
  intros (qs & H1 & H2 & H3 & H4) Hs Ht Hw. exists qs. rewrite Hw. split_and!; [done | | done | set_solver].
  eapply Forall_impl; [exact H2 |]. intros m (a & sl & Ha & ?). exists a, sl. split; [by eapply lookup_weaken | done].
Qed.

(** A frame, or the part of it that left before the write failed. *)
Lemma frames_write slots torn r c a sl n :
  frames_ok slots torn r c -> slots !! a = Some sl -> sl_conn sl = r -> message_ok (sl_query sl) -> r ∉ torn ->
  let c' := with_written (written c ++ take n (frame (sl_query sl) (sl_id sl))) c in
  frames_ok slots ({[r]} ∪ torn) r c' /\ (take n (frame (sl_query sl) (sl_id sl)) = frame (sl_query sl) (sl_id sl) ->
    frames_ok slots torn r c' /\ has (written c') (slot_frame sl)).
Proof.
  intros (qs & H1 & H2 & H3 & H4) Ha Hr Hq Ht. cbv zeta. rewrite H4 by done. destruct (slot_frame_wire sl Hq) as [-> Hm].
  assert (F1 : Forall message_ok (qs ++ [slot_frame sl])) by (apply Forall_app; split; [done | by apply Forall_singleton]).
  assert (F2 : Forall (fun m => exists a sl, slots !! a = Some sl /\ sl_conn sl = r /\ m = slot_frame sl) (qs ++ [slot_frame sl])).
  { apply Forall_app. split; [done |]. apply Forall_singleton. by exists a, sl. }
  split.
  - exists (qs ++ [slot_frame sl]). split_and!; [done | done | | set_solver]. cbn. rewrite wires_snoc.
    apply prefix_app. exists (drop n (wire (slot_frame sl))). symmetry. apply take_drop.
  - intros ->. split.
    + exists (qs ++ [slot_frame sl]). cbn. rewrite wires_snoc. by split_and!.
    + exists (qs ++ [slot_frame sl]), []. cbn. rewrite wires_snoc, app_nil_r. split_and!; [done | done |]. set_solver.
Qed.

(** *** The reader *)

Lemma reader_byte_stream b pos c pos' c' d bytes :
  reader_byte b pos c = (pos', c', d) -> pos_ok pos -> stream_ok bytes pos ->
  stream_ok (bytes ++ [b]) pos' /\ Forall (fun x => has (bytes ++ [b]) x.2) d.
Proof.
  intros H Hp Hs. destruct pos as [got | len got |]; cbn [reader_byte] in H; [| | by simplify_eq].
  - destruct Hs as (ms & Hm & ->). rewrite <- app_assoc. cbn [pending].
    case_decide as Hl; [| simplify_eq; split; [| done]; by exists ms].
    case_match; simplify_eq; (split; [| done]); [done |]. bool_to_prop.
    pose proof (of_be_bytes_bound (got ++ [b])) as Hb. rewrite Hl in Hb. change (256 ^ Z.of_nat 2) with 65536 in Hb.
    split; [unfold MAX_DNS_MESSAGE; lia |]. exists ms. split; [done |]. f_equal. cbn [pending]. rewrite app_nil_r, Z2Nat.id by lia.
    symmetry. rewrite <- Hl. apply be_bytes_of_be_bytes.
  - destruct Hs as (Hl & ms & Hm & ->). destruct Hp as [Hp1 Hp2]. rewrite <- app_assoc. cbn [pending]. rewrite <- app_assoc.
    case_decide as El; [| simplify_eq; split; [| done]; split; [done |]; by exists ms].
    assert (Hok : message_ok (got ++ [b])) by (split; lia).
    assert (E : concat (wire <$> ms) ++ be_bytes 2 (Z.of_nat len) ++ got ++ [b] = concat (wire <$> ms ++ [got ++ [b]])).
    { rewrite wires_snoc. unfold wire at 3. by rewrite El. }
    assert (F : Forall message_ok (ms ++ [got ++ [b]])) by (apply Forall_app; split; [done | by apply Forall_singleton]).
    rewrite E. unfold deliver in H. simplify_eq. split.
    + exists (ms ++ [got ++ [b]]). cbn. by rewrite app_nil_r.
    + assert (Hh : has (concat (wire <$> ms ++ [got ++ [b]])) (got ++ [b])).
      { exists (ms ++ [got ++ [b]]), []. rewrite app_nil_r. split_and!; [done | done |]. set_solver. }
      repeat case_match; simplify_eq; repeat constructor; done.
Qed.

Lemma reader_bytes_stream l pos c pos' c' d bytes :
  reader_bytes l pos c = (pos', c', d) -> pos_ok pos -> stream_ok bytes pos ->
  stream_ok (bytes ++ l) pos' /\ Forall (fun x => has (bytes ++ l) x.2) d.
Proof.
  revert pos c d bytes. induction l as [| b l IH]; intros pos c d bytes H Hp Hs; cbn [reader_bytes] in H.
  { simplify_eq. by rewrite app_nil_r. }
  destruct (reader_byte b pos c) as [[p1 c1] d1] eqn:E1. destruct (reader_bytes l p1 c1) as [[p2 c2] d2] eqn:E2. simplify_eq.
  pose proof (reader_byte_ok _ _ _ _ _ _ E1 Hp) as (Hp1 & _ & _).
  destruct (reader_byte_stream _ _ _ _ _ _ _ E1 Hp Hs) as [Hs1 Hd1].
  destruct (IH _ _ _ _ E2 Hp1 Hs1) as [Hs2 Hd2]. rewrite <- app_assoc in Hs2, Hd2. split; [done |]. apply Forall_app.
  split; [| done]. eapply Forall_impl; [exact Hd1 |]. intros x. apply has_prefix.
  exists l. by rewrite <- app_assoc.
Qed.

Lemma reader_event_stream e pos c pos' c' d bytes :
  reader_event e pos c = (pos', c', d) -> pos_ok pos -> stream_ok bytes pos ->
  (e = Idle -> forall b l, pos <> InLen (b :: l)) ->
  stream_ok (bytes ++ bytes_of e) pos' /\ Forall (fun x => has (bytes ++ bytes_of e) x.2) d.
Proof.
  intros H Hp Hs Hidle. destruct e as [l | |]; cbn [bytes_of].
  - eapply reader_bytes_stream; [| done | done]. destruct pos; try done. cbn [reader_event] in H. by rewrite reader_stopped.
  - rewrite app_nil_r. destruct pos as [[| b got] | len got |]; cbn [reader_event] in H.
    + case_decide; by simplify_eq.
    + by destruct (Hidle eq_refl b got).
    + by simplify_eq.
    + by simplify_eq.
  - rewrite app_nil_r. destruct pos; cbn [reader_event] in H; by simplify_eq.
Qed.

(** The reader takes no identifier and frees some. *)
Definition frees (c c' : Conn) : Prop :=
  next_id c' = next_id c /\ forall id x, inflight c' !! id = Some x -> exists y, inflight c !! id = Some y.

Lemma frees_trans c c' c'' : frees c c' -> frees c' c'' -> frees c c''.
Proof. intros [H1 H2] [H3 H4]. split; [congruence |]. intros id x [y Hy]%H4. eauto. Qed.

Lemma frees_exit c : frees c (reader_exit c).
Proof. split; [done |]. intros id x Hx. by apply (lookup_empty_Some (M := gmap Z) id x) in Hx. Qed.

Lemma reader_byte_frees b pos c pos' c' d : reader_byte b pos c = (pos', c', d) -> frees c c'.
Proof.
  assert (Hr : frees c c) by (split; eauto). unfold reader_byte. intros H.
  destruct pos as [got | len got |]; [| | by simplify_eq]; case_decide; [| by simplify_eq | | by simplify_eq].
  - case_match; simplify_eq; [apply frees_exit | done].
  - unfold deliver in H. simplify_eq. split; [done |]. cbn. intros id x [_ ?]%lookup_delete_Some. eauto.
Qed.

Lemma reader_event_quiet e pos c pos' c' d : reader_event e pos c = (pos', c', d) -> frees c c'.
Proof.
  assert (Hr : forall c, frees c c) by (split; eauto).
  assert (Hb : forall l pos c pos' c' d, reader_bytes l pos c = (pos', c', d) -> frees c c').
  { intros l. induction l as [| b l IH]; intros p c0 p' c0' d0 H; cbn [reader_bytes] in H; [by simplify_eq |].
    destruct (reader_byte b p c0) as [[p1 c1] d1] eqn:E1. destruct (reader_bytes l p1 c1) as [[p2 c2] d2] eqn:E2. simplify_eq.
    eapply frees_trans; [by eapply reader_byte_frees | by eapply IH]. }
  destruct pos, e; cbn [reader_event]; intros H; try case_decide; try (by eapply Hb); simplify_eq; auto using frees_exit.
Qed.

(** *** Preservation *)

Lemma ans_change s s' :
  ans_inv s -> grows s s' ->
  (forall r c', heap (ps_pool s') !! r = Some c' ->
     ids_ok (ps_slots s') r c' /\ frames_ok (ps_slots s') (ps_torn s') r c') ->
  (forall r pos, ps_pos s' !! r = Some pos -> stream_ok (default [] (ps_arrived s' !! r)) pos) ->
  (forall r, is_Some (ps_arrived s' !! r) -> is_Some (ps_arrived s !! r) \/ is_Some (heap (ps_pool s') !! r)) ->
  (forall a body, ps_rx s' !! a = Some body -> ps_rx s !! a = Some body \/
     exists sl, ps_slots s' !! a = Some sl /\ got s' (sl_conn sl) body) ->
  (forall n t, ps_tasks s' !! n = Some t -> ps_tasks s !! n = Some t \/ answer_ok s' t) ->
  ans_inv s'.
Proof.
  intros Hi Hg Hh Hp Hd Hr Ht. constructor.
  - intros r c H. by apply Hh.
  - intros r c H. by apply Hh.
  - done.
  - intros r H. destruct (Hd r H) as [[c Hc]%(ai_arrived _ Hi) | H']; [| done].
    apply (gr_written _ _ Hg) in Hc as (c' & -> & _). eauto.
  - intros a body H. destruct (Hr a body H) as [H' | H']; [| done]. destruct (ai_rx _ Hi a body H') as (sl & H1 & H2).
    exists sl. split; [by eapply lookup_weaken, Hg | by eapply got_mono].
  - intros n t H. destruct (Ht n t H) as [H' | H']; [| done]. eapply answer_ok_mono; [done |]. by eapply ai_task.
Qed.

(** Steps that write nothing, read nothing and grant nothing. *)
Definition heap_quiet (s s' : PS) : Prop :=
  forall r, option_Forall2 (quiet (ps_slots s) r) (heap (ps_pool s) !! r) (heap (ps_pool s') !! r).

Definition same_traffic (s s' : PS) : Prop :=
  ps_rx s' = ps_rx s /\ ps_pos s' = ps_pos s /\ ps_arrived s' = ps_arrived s /\ ps_peer s' = ps_peer s.

(** The tasks are those of [s], but for [t] in the place of [n]. *)
Lemma tasks_insert (P : Task -> Prop) s s' n t :
  ps_tasks s' = <[n := t]> (ps_tasks s) -> P t ->
  forall m t', ps_tasks s' !! m = Some t' -> ps_tasks s !! m = Some t' \/ P t'.
Proof. intros -> Ht m t' [[_ <-] | [_ H]]%lookup_insert_Some; auto. Qed.

Lemma ans_quiet s s' :
  ans_inv s -> heap_quiet s s' -> same_traffic s s' -> ps_slots s' = ps_slots s -> ps_torn s' = ps_torn s ->
  (forall n t, ps_tasks s' !! n = Some t -> ps_tasks s !! n = Some t \/ answer_ok s t) -> ans_inv s'.
Proof.
  intros Hi Hq (E1 & E2 & E3 & E4) Es Et Ht.
  assert (Hg : grows s s').
  { constructor; rewrite ?Es, ?E3, ?E4; try done. intros r c Hc. specialize (Hq r). rewrite Hc in Hq. inversion Hq as [? c' (_ & Hw & _) |].
    exists c'. by rewrite Hw. }
  apply (ans_change s); rewrite ?Es, ?Et, ?E1, ?E2, ?E3; [done | done | | apply Hi | auto | auto |].
  - intros r c' Hc'. specialize (Hq r). rewrite Hc' in Hq. inversion Hq as [c ? Hcq Hc |]. subst.
    split; [eapply ids_quiet; [by eapply (ai_ids _ Hi) | done] |].
    eapply frames_mono; [by eapply (ai_frames _ Hi) | done | done | apply Hcq].
  - intros n t H. destruct (Ht n t H); [by left | right]. by eapply answer_ok_mono.
Qed.

Lemma heap_quiet_eq s s' : heap (ps_pool s') = heap (ps_pool s) -> heap_quiet s s'.
Proof. intros E r. rewrite E. destruct (heap (ps_pool s) !! r); constructor. apply quiet_refl. Qed.

Lemma heap_quiet_marked s p' : only_marked (ps_pool s) p' -> heap_quiet s (with_pool p' s).
Proof.
  intros H r. cbn. destruct (H r) as (f & -> & Hf). destruct (heap (ps_pool s) !! r) as [c |]; constructor.
  destruct Hf as [-> | ->]; [apply quiet_refl |]. split_and!; cbn; eauto.
Qed.

Lemma heap_quiet_on r f s :
  (forall c, heap (ps_pool s) !! r = Some c -> quiet (ps_slots s) r c (f c)) -> heap_quiet s (on_conn r f s).
Proof.
  intros H r'. cbn. destruct (decide (r = r')) as [<- | Hne].
  - rewrite lookup_alter_eq. destruct (heap (ps_pool s) !! r) as [c |] eqn:E; constructor. by apply H.
  - rewrite lookup_alter_ne by done. destruct (heap (ps_pool s) !! r'); constructor. apply quiet_refl.
Qed.

Lemma ans_grant n t r id p' s :
  ans_inv s -> allocated (ps_pool s) p' r id -> ans_inv (grant n t r id (with_pool p' s)).
Proof.
  intros Hi (c & c' & Hc & Hal & Hh). unfold grant. cbn [ps_slots with_pool]. set (a := fresh (dom (ps_slots s))).
  assert (Ha : ps_slots s !! a = None) by apply not_elem_of_dom, is_fresh.
  assert (Hw : written c' = written c) by (apply allocate_id_some in Hal as (_ & _ & _ & _ & _ & Hw & _); exact Hw).
  assert (Hsub : ps_slots s ⊆ <[a := mkSlot r id (t_query t)]> (ps_slots s)) by by apply insert_subseteq.
  apply (ans_change s); [done | | | apply Hi | by auto | by auto | by eapply (tasks_insert (answer_ok _))]; cbn.
  - constructor; cbn; [done | done | done |]. intros r0 c0 H0. rewrite Hh. destruct (decide (r0 = r)) as [-> | Hne].
    + exists c'. rewrite lookup_insert_eq, Hw. by simplify_eq.
    + exists c0. by rewrite lookup_insert_ne.
  - intros r0 c0. rewrite Hh. intros [[<- <-] | [Hne H0]]%lookup_insert_Some; split.
    + eapply ids_grant; [by eapply (ai_ids _ Hi) | done | done].
    + eapply frames_mono; [by eapply (ai_frames _ Hi) | done | done | done].
    + apply ids_other; [by eapply (ai_ids _ Hi) | done | done].
    + eapply frames_mono; [by eapply (ai_frames _ Hi) | done | done | done].
Qed.

Lemma ans_lock o s : ans_inv s -> ans_inv (with_lock o s).
Proof. intros []. by constructor. Qed.

Lemma ans_writer w s : ans_inv s -> ans_inv (with_writer w s).
Proof. intros []. by constructor. Qed.

(** A write on one connection. *)
Lemma ans_conn n t' r f c s s' :
  ans_inv s -> heap (ps_pool s) !! r = Some c -> heap (ps_pool s') = alter f r (heap (ps_pool s)) ->
  ps_slots s' = ps_slots s -> same_traffic s s' -> ps_tasks s' = <[n := t']> (ps_tasks s) -> ps_torn s ⊆ ps_torn s' ->
  next_id (f c) = next_id c -> inflight (f c) = inflight c -> written c `prefix_of` written (f c) ->
  frames_ok (ps_slots s) (ps_torn s') r (f c) -> answer_ok s' t' -> ans_inv s'.
Proof.
  intros Hi Hc Hh Es (E1 & E2 & E3 & E4) Etask Et Hn Hin Hw Hf Ha.
  apply (ans_change s); [done | | | | | |]; rewrite ?Es, ?E1, ?E2, ?E3; [| | apply Hi | auto | auto | by eapply (tasks_insert (answer_ok _))].
  - constructor; rewrite ?Es, ?E3, ?E4, ?Hh; try done. intros r0 c0 H0. destruct (decide (r0 = r)) as [-> | Hne].
    + exists (f c0). rewrite lookup_alter_eq, H0. by simplify_eq.
    + exists c0. by rewrite lookup_alter_ne.
  - intros r0 c0. rewrite Hh. intros [(<- & c1 & H1 & ->) | [Hne H0]]%lookup_alter_Some.
    + simplify_eq. split; [| done]. intros Hk. rewrite Hn, Hin. by apply (ai_ids _ Hi _ _ Hc).
    + split; [by eapply (ai_ids _ Hi) |]. eapply frames_mono; [by eapply (ai_frames _ Hi) | done | done | done].
Qed.

Lemma frames_torn slots torn r c a sl k :
  frames_ok slots torn r c -> slots !! a = Some sl -> sl_conn sl = r -> message_ok (sl_query sl) ->
  (r ∉ torn \/ k = 0%nat) ->
  frames_ok slots ({[r]} ∪ torn) r (with_alive false (with_written (written c ++ take k (frame (sl_query sl) (sl_id sl))) c)).
Proof.
  intros F Ha Hr Hq [Ht | ->].
  - destruct (frames_write _ _ _ _ _ _ k F Ha Hr Hq Ht) as [F1 _]. by eapply frames_mono.
  - eapply frames_mono; [exact F | done | set_solver |]. cbn. by rewrite app_nil_r.
Qed.

Lemma ans_open n t server proxy now s r p' :
  ans_inv s -> sys_inv s ->
  DnsPool.open_conn now (Ok tt) (with_proxy proxy (ps_pool s)) = (Ok r, p') -> answer_ok s t ->
  ans_inv (with_task n t (with_conn r server (with_pool (with_proxy (pool_proxy (ps_pool s)) p') s))).
Proof.
  intros Hi Hs H Ht. injection H as Hr <-. cbn [with_proxy heap conns via query_timeout idle_timeout pool_stats pool_proxy] in Hr |- *.
  assert (Hf : heap (ps_pool s) !! r = None) by (subst r; apply not_elem_of_dom, is_fresh). rewrite Hr. clear Hr.
  assert (Hp : ps_peer s !! r = None).
  { destruct (ps_peer s !! r) as [srv |] eqn:E; [| done]. apply (si_peer _ Hs) in E as [c Hc]. congruence. }
  assert (Hk : carried (ps_slots s) r = 0%nat).
  { apply carried_none. intros a sl Ha <-. apply (si_slot _ Hs) in Ha as [[c Hc] _]. congruence. }
  match goal with |- ans_inv ?x => set (s' := x) end.
  assert (Hg : grows s s').
  { constructor; cbn; [done | by apply insert_subseteq | |].
    - intros r0. destruct (decide (r0 = r)) as [-> | Hne].
      + rewrite lookup_insert_eq. destruct (ps_arrived s !! r) as [l |] eqn:E; [| done].
        destruct (ai_arrived _ Hi r) as [c Hc]; [by rewrite E | congruence].
      + by rewrite lookup_insert_ne.
    - intros r0 c0 H0. exists c0. by rewrite lookup_insert_ne by congruence. }
  apply (ans_change s); [done | done | | | | by auto | eapply (tasks_insert (answer_ok _)); [done | by eapply answer_ok_mono]]; cbn.
  - intros r0 c0 [[<- <-] | [Hne H0]]%lookup_insert_Some.
    + split.
      * intros _. rewrite Hk. split_and!; [done | | |].
        -- intros id x Hx. by apply (lookup_empty_Some (M := gmap Z) id x) in Hx.
        -- intros a sl Ha <-. apply (si_slot _ Hs) in Ha as [[c Hc] _]. congruence.
        -- intros a b sl sl' Ha _ <- _ _. apply (si_slot _ Hs) in Ha as [[c Hc] _]. congruence.
      * exists []. by split_and!.
    + split; [by eapply (ai_ids _ Hi) | by eapply (ai_frames _ Hi)].
  - intros r0 pos [[<- <-] | [Hne H0]]%lookup_insert_Some.
    + rewrite lookup_insert_eq. by exists [].
    + rewrite lookup_insert_ne by done. by eapply (ai_stream _ Hi).
  - intros r0. rewrite !lookup_insert_is_Some'. tauto.
Qed.

Lemma ans_read r e s s' :
  ans_inv s -> sys_inv s -> orderly_act (Read r e) s = true -> read_step r e s = Some s' -> ans_inv s'.
Proof.
  unfold read_step. intros Hi Hs Ho H. destruct (ps_pos s !! r) as [pos |] eqn:Hp; [| done].
  destruct (heap (ps_pool s) !! r) as [c |] eqn:Hc; [| done]. case_decide as Hstop; [done |].
  destruct (reader_event e pos c) as [[pos' c'] d] eqn:E. injection H as H. pose proof (si_pos _ Hs _ _ Hp) as Hpos.
  destruct (reader_event_ok _ _ _ _ _ _ E Hpos) as (_ & [Hin Hw] & Hd).
  destruct (reader_event_stream _ _ _ _ _ _ (default [] (ps_arrived s !! r)) E Hpos (ai_stream _ Hi _ _ Hp)) as [Hst Hhas].
  { intros -> b l ->. cbn in Ho. by rewrite Hp in Ho. }
  destruct (reader_event_quiet _ _ _ _ _ _ E) as [Hn Hkeys].
  assert (Hg : grows s s').
  { subst s'. constructor; cbn; [done | done | |].
    - intros r0. destruct (decide (r0 = r)) as [-> | Hne]; [rewrite lookup_insert_eq; by apply prefix_app_r |].
      by rewrite lookup_insert_ne.
    - intros r0 c0 H0. destruct (decide (r0 = r)) as [-> | Hne].
      + exists c'. rewrite lookup_insert_eq, Hw. by simplify_eq.
      + exists c0. by rewrite lookup_insert_ne. }
  apply (ans_change s); [done | done | | | | |]; subst s'; cbn.
  - intros r0 c0 [[<- <-] | [_ H0]]%lookup_insert_Some; [| split; [by eapply (ai_ids _ Hi) | by eapply (ai_frames _ Hi)]].
    split; [eapply ids_quiet; [by eapply (ai_ids _ Hi) | split_and!; eauto] |].
    eapply frames_mono; [by eapply (ai_frames _ Hi) | done | done | done].
  - intros r0 pos0 [[<- <-] | [Hne H0]]%lookup_insert_Some; [by rewrite lookup_insert_eq |].
    rewrite lookup_insert_ne by done. by eapply (ai_stream _ Hi).
  - intros r0. rewrite !lookup_insert_is_Some'. tauto.
  - intros a body [H' | H']%give_lookup; [by left | right]. unfold delivered_from in Hd. rewrite Forall_forall in Hd, Hhas.
    destruct (Hd _ H') as (id & Hid & _). destruct (si_sender _ Hs _ _ _ _ Hc Hid) as (sl & Hsl & Hr & _).
    exists sl. split; [done |]. unfold got. cbn. rewrite Hr, lookup_insert_eq. apply (Hhas _ H').
  - by left.
Qed.

Lemma ans_attempt i n t a sl s s' :
  ans_inv s -> sys_inv s -> ps_tasks s !! n = Some t -> attempt_of (t_pc t) = Some a -> ps_slots s !! a = Some sl ->
  orderly_act (Move n i) s = true -> attempt_step i n t a sl s = Some s' -> ans_inv s'.
Proof.
  intros Hi Hs Hn Ha Hsl Hor H.
  destruct (si_task _ Hs n t Hn) as (_ & Ho & _); [intros e E; by rewrite E in Ha |].
  destruct (Ho a Ha) as (sl0 & Hown). pose proof Hown as (Hsl' & Hquery & Hpeer).
  rewrite Hsl in Hsl'. injection Hsl' as <-. destruct (si_slot _ Hs _ _ Hsl) as [[c Hc] Hmsg].
  pose proof (ai_task _ Hi n t Hn) as Hat. unfold answer_ok in Hat. cbn [orderly_act] in Hor. rewrite Hn in Hor.
  assert (Hquiet : forall f t', (forall c, quiet (ps_slots s) (sl_conn sl) c (f c)) -> answer_ok s t' ->
    ans_inv (with_task n t' (on_conn (sl_conn sl) f s))).
  { intros f t' Hf Ht'. apply (ans_quiet s); [done | by apply heap_quiet_on | done | done | done |].
    by eapply (tasks_insert (answer_ok s)). }
  assert (Hstay : forall t', answer_ok s t' -> ans_inv (with_task n t' s)).
  { intros t' Ht'. apply (ans_quiet s); [done | by apply heap_quiet_eq | done | done | done |].
    by eapply (tasks_insert (answer_ok s)). }
  unfold attempt_step in H. destruct (t_pc t) eqn:Hpc; try done; injection Ha as ->; rewrite ?Hsl in Hor.
  - injection H as <-. apply Hquiet; [| done]. intros c0. split_and!; [done | done |]. cbn.
    intros id x [[<- _] | [_ ?]]%lookup_insert_Some; eauto 10.
  - destruct (ps_writer s !! sl_conn sl); [done |]. injection H as <-.
    apply (ans_writer (<[sl_conn sl := n]> (ps_writer s)) (with_task n (at_pc (AtSend a) t) s)). by apply Hstay.
  - rewrite <- Hquery in H. unfold write_orderly in Hor. destruct (i_write i) as [[[] | e] |] eqn:Ew; [| | done]; injection H as <-.
    + rewrite orb_false_r in Hor. apply bool_decide_eq_true in Hor. pose proof (ai_frames _ Hi _ _ Hc) as F.
      set (fr := frame (sl_query sl) (sl_id sl)).
      destruct (frames_write _ _ _ _ _ _ (length fr) F Hsl eq_refl Hmsg Hor) as [_ F2]. fold fr in F2. rewrite firstn_all in F2.
      destruct (F2 eq_refl) as [F3 F4].
      eapply (ans_conn n _ (sl_conn sl)); [done | exact Hc | done | done | done | done | done | done | done | | exact F3 |].
      * by apply prefix_app_r.
      * exists sl. split; [done |]. eexists. split; [| exact F4]. cbn. by rewrite lookup_alter_eq, Hc.
    + eapply (ans_conn n _ (sl_conn sl)); [done | exact Hc | done | done | done | done | cbn; set_solver | done | done | | | done].
      * by apply prefix_app_r.
      * eapply frames_torn; [by eapply (ai_frames _ Hi) | done | done | done |].
        apply orb_true_iff in Hor as [Hor%bool_decide_eq_true | Hor%Nat.eqb_eq]; auto.
  - injection H as <-. apply Hquiet; [intros c0; split_and!; cbn; eauto | done].
  - destruct (ps_rx s !! a) as [body |] eqn:Hrx.
    + injection H as <-. apply Hstay. destruct (si_rx _ Hs _ _ Hrx) as (sl1 & H1 & Hb). destruct (ai_rx _ Hi _ _ Hrx) as (sl2 & H2 & Hg).
      destruct Hat as (sl3 & H3 & Hwr). simplify_eq. rewrite decide_True by apply Hb. exists a, sl, body. by split_and!.
    + destruct (sender_gone a sl s); [| destruct (i_expired i)]; simplify_eq; by apply Hstay.
  - injection H as <-. apply Hquiet.
    + intros c0. split_and!; [done | done |]. cbn. intros id x [_ ?]%lookup_delete_Some. eauto.
    + destruct fatal; [done |]. unfold retry. by destruct (t_err t).
Qed.

Lemma ans_task i n t s s' :
  ans_inv s -> sys_inv s -> ps_tasks s !! n = Some t -> orderly_act (Move n i) s = true ->
  task_step i n t s = Some s' -> ans_inv s'.
Proof.
  intros Hi Hs Hn Hor H.
  assert (Hp : forall p' t', heap p' = heap (ps_pool s) -> answer_ok s t' -> ans_inv (with_task n t' (with_pool p' s))).
  { intros p' t' Hh Ht'. apply (ans_quiet s); [done | by apply heap_quiet_eq | done | done | done |].
    by eapply (tasks_insert (answer_ok s)). }
  assert (Hretry : forall e, answer_ok s (retry e t)) by (intros e; unfold retry; by destruct (t_err t)).
  assert (Hsame : forall t', answer_ok s t' -> ans_inv (with_task n t' s)).
  { intros t' Ht'. by apply (Hp (ps_pool s)). }
  unfold task_step in H. destruct (t_pc t) as [| | | | | proxy | r | a | a | a | a | a | a fatal e | res |] eqn:E; try done;
    try (destruct (ps_slots s !! a) as [sl |] eqn:Ea; [| done]; eapply ans_attempt; [done .. | | done | done | done]; by rewrite E).
  - destruct (DnsPool.try_reuse _ _) as [[[r id] |] p'] eqn:Er; apply try_reuse_spec in Er as [_ Hr]; injection H as <-;
      [apply ans_grant; [done | apply Hr] | by apply Hp].
  - destruct (ps_lock s); [done |]. injection H as <-. apply ans_lock, Hsame. by destruct (t_err t).
  - destruct (DnsPool.try_reuse _ _) as [[[r id] |] p'] eqn:Er; apply try_reuse_spec in Er as [_ Hr]; injection H as <-;
      [apply ans_lock, ans_grant; [done | apply Hr] | by apply Hp].
  - case_match; injection H as <-; [by apply ans_lock, Hp | by apply Hp].
  - injection H as <-. by apply Hsame.
  - destruct (DnsPool.open_conn _ _ _) as [[r | e] p'] eqn:Eo; injection H as <-; [| by apply ans_lock, Hsame].
    unfold DnsPool.open_conn in Eo. destruct (i_connect i) as [[] |]; [| done]. by eapply ans_open.
  - destruct (DnsPool.register _ _ _) as [[[[r' id] b] | e] p'] eqn:Er; apply register_spec in Er; injection H as <-.
    + destruct Er as (-> & Hal & _). by apply ans_lock, ans_grant.
    + destruct Er as [Eh _]. by apply ans_lock, Hp.
Qed.

Lemma ans_act a s s' : ans_inv s -> sys_inv s -> orderly_act a s = true -> pool_act a s = Some s' -> ans_inv s'.
Proof.
  intros Hi Hs Ho H.
  assert (Hm : forall p', only_marked (ps_pool s) p' -> ans_inv (with_pool p' s)).
  { intros p' Hp'. apply (ans_quiet s); [done | by apply heap_quiet_marked | done .. | by left]. }
  destruct a as [n server query | n i | r e | proxy | | now]; cbn [pool_act] in H.
  - destruct (ps_tasks s !! n); [done |]. injection H as <-.
    apply (ans_quiet s); [done | by apply heap_quiet_eq | done .. |]. eapply (tasks_insert (answer_ok s)); [done |].
    unfold start_query, answer_ok. cbn. by repeat case_match.
  - destruct (ps_tasks s !! n) as [t |] eqn:Hn; [| done]. by eapply ans_task.
  - by eapply ans_read.
  - injection H as <-. apply (ans_quiet s); [done | by apply heap_quiet_eq | done .. | by left].
  - injection H as <-. apply Hm, set_proxy_marked.
  - injection H as <-. apply Hm, prune_marked.
Qed.

Lemma ans_run l s s' : ans_inv s -> sys_inv s -> orderly l s = true -> pool_run l s = Some s' -> ans_inv s'.
Proof.
  revert s. induction l as [| a l IH]; intros s Hi Hs Ho H; cbn [pool_run orderly] in *; [by simplify_eq |].
  apply andb_true_iff in Ho as [Ho1 Ho2]. destruct (pool_act a s) as [s1 |] eqn:E; [| done].
  eapply IH; [| | done | done]; [by eapply ans_act | by eapply act_inv].
Qed.

Lemma ans_start proxy qt it st : ans_inv (pstart proxy qt it st).
Proof. constructor; cbn; intros *; by rewrite lookup_empty. Qed.

(** ** Properties *)

Lemma slot_frame_id sl : 0 <= sl_id sl < 65536 ->
  of_be_bytes (take 2 (slot_frame sl)) = sl_id sl /\ drop 2 (slot_frame sl) = drop 2 (sl_query sl).
Proof.
  intros H. unfold slot_frame.
  rewrite take_app_length', drop_app_length', of_be_bytes_be_bytes by by rewrite length_be_bytes.
  change (256 ^ Z.of_nat 2) with 65536. by rewrite Z.mod_small.
Qed.

(** What is kept is enough. *)
Lemma ended_right (answers : SocketAddr -> list byte -> list byte -> Prop) (s : PS) (n : nat) (t : Task) (resp : list byte) :
  sys_inv s -> ans_inv s -> honest answers s ->
  (forall r, ps_peer s !! r = Some (t_server t) -> Z.of_nat (carried (ps_slots s) r) <= 65536) ->
  ps_tasks s !! n = Some t -> t_pc t = Ended (Ok resp) ->
  take 2 resp = take 2 (t_query t) /\ answers (t_server t) (drop 2 (t_query t)) (drop 2 resp) /\
  exists r id, ps_peer s !! r = Some (t_server t) /\ wrote s r (be_bytes 2 id ++ drop 2 (t_query t)).
Proof.
  intros Hs Hi Hh Hk Hn Hpc.
  pose proof (ai_task _ Hi n t Hn) as Ha. unfold answer_ok in Ha. rewrite Hpc in Ha.
  destruct Ha as (a & sl & body & (Hsl & Hq & Hpeer) & Hwr & (ms0 & rest & Hm0 & E0 & Hin) & [Hlen Hid] & ->).
  destruct (si_slot _ Hs _ _ Hsl) as [[c Hc] [Hlq _]].
  destruct (Hh _ _ _ Hpeer Hc) as (qs & ms & Fq & Fm & Hwq & Har & Hrep).
  destruct (ai_frames _ Hi _ _ Hc) as (qs' & Fq' & Hslots & Hw & _).
  assert (Hbody : body ∈ ms).
  { assert (P : ms0 `prefix_of` ms) by (apply wires_prefix; [done .. |]; etrans; [| exact Har]; rewrite E0; by apply prefix_app_r).
    destruct P as [k ->]. apply elem_of_app. by left. }
  destruct (Hrep body Hbody) as (q & Hqin & Ht2 & Hans).
  assert (Hq' : q ∈ qs').
  { assert (P : qs `prefix_of` qs') by (apply wires_prefix; [done .. |]; by etrans).
    destruct P as [k ->]. apply elem_of_app. by left. }
  rewrite Forall_forall in Hslots. destruct (Hslots q Hq') as (a' & sl' & Hsl' & Hr' & ->).
  destruct (ai_ids _ Hi _ _ Hc (Hk _ Hpeer)) as (_ & _ & Hb & Huniq). pose proof (Hb a' sl' Hsl' Hr') as Hb'.
  destruct (slot_frame_id sl') as [Eid Edrop]; [specialize (Hk _ Hpeer); lia |].
  assert (a = a').
  { eapply Huniq; [done .. |]. rewrite <- Hid, Ht2. exact Eid. }
  subst a'. assert (sl' = sl) by congruence. subst sl'. rewrite Edrop, Hq in Hans.
  assert (L : length (take 2 (t_query t)) = 2%nat) by (rewrite length_take, <- Hq; lia).
  unfold patch_id. rewrite take_app_length', drop_app_length' by done. split_and!; [done | done |].
  exists (sl_conn sl), (sl_id sl). rewrite <- Hq. done.
Qed.

(** C4. Every answer is the asked server's answer to the asked question. In
    every orderly run, with any number of queries, connections, reloads and
    prunings interleaved, suppose that what arrived on each connection is the
    beginning of replies of its server to messages written to it, and that
    each connection to the server has carried at most 65536 queries: then
    what [resolve] returned bears the identifier of its query, and the rest
    of it is an answer of that server to the rest of that query, not of
    another server and not to another query that shared the connection; and
    that question was written on a connection to that server. *)
Theorem dns_answers_right (answers : SocketAddr -> list byte -> list byte -> Prop)
    (proxy : ProxyConfig) (qt it : Z) (st : Counters) (l : list PoolAct) (s : PS) (n : nat) (t : Task) (resp : list byte) :
  pool_run l (pstart proxy qt it st) = Some s -> orderly l (pstart proxy qt it st) = true ->
  honest answers s ->
  (forall r, ps_peer s !! r = Some (t_server t) -> Z.of_nat (carried (ps_slots s) r) <= 65536) ->
  ps_tasks s !! n = Some t -> t_pc t = Ended (Ok resp) ->
  take 2 resp = take 2 (t_query t) /\ answers (t_server t) (drop 2 (t_query t)) (drop 2 resp) /\
  exists r id, ps_peer s !! r = Some (t_server t) /\ wrote s r (be_bytes 2 id ++ drop 2 (t_query t)).
Proof.
  intros H Ho. apply ended_right; [exact (run_inv _ _ _ (start_inv _ _ _ _) H) |].
  exact (ans_run _ _ _ (ans_start _ _ _ _) (start_inv _ _ _ _) Ho H).
Qed.

(** Two questions on one connection, answered in the other order and in
    pieces. *)
Module OutOfOrder.
Definition server : SocketAddr := SocketAddr_new (V4 16843009) 53.
Definition ready : Input := mkInput 0 (Ok tt) (Some (Ok tt)) 0 false.
Definition answers (_ : SocketAddr) (q m : list byte) : Prop := m = as_bytes "re " ++ q.
Definition q0 : list byte := as_bytes "ab-question-a".
Definition q1 : list byte := as_bytes "cd-question-b".
Definition m0 : list byte := be_bytes 2 0 ++ as_bytes "re -question-a".
Definition m1 : list byte := be_bytes 2 1 ++ as_bytes "re -question-b".
Definition stream : list byte := wire m1 ++ wire m0.
Definition acts : list PoolAct :=
  [Ask 0 server q0; Ask 1 server q1] ++ replicate 11 (Move 0 ready) ++ replicate 5 (Move 1 ready) ++
  [Read 0 (Chunk (take 20 stream)); Read 0 (Chunk (drop 20 stream)); Move 0 ready; Move 1 ready].
Definition start : PS := pstart example_proxy 5 30 zero_counters.
Definition t0 : Task := mkTask server q0 None (Ended (Ok (as_bytes "abre -question-a"))).
Definition t1 : Task := mkTask server q1 None (Ended (Ok (as_bytes "cdre -question-b"))).

(** The parts of a state that the hypotheses are about. *)
Definition view (s : PS) :=
  (ps_tasks s !! 0%nat, ps_tasks s !! 1%nat, ps_peer s, written <$> heap (ps_pool s) !! 0%nat, ps_arrived s !! 0%nat,
   carried (ps_slots s) 0).

Lemma run_view : view <$> pool_run acts start =
  Some (Some t0, Some t1, {[0%nat := server]}, Some (wire (be_bytes 2 0 ++ drop 2 q0) ++ wire (be_bytes 2 1 ++ drop 2 q1)),
        Some stream, 2%nat).
Proof. vm_compute. reflexivity. Qed.

Lemma all_messages ms : forallb (fun m => (2 <=? length m)%nat && (Z.of_nat (length m) <=? MAX_DNS_MESSAGE)) ms = true ->
  Forall message_ok ms.
Proof.
  intros H. apply Forall_forall. intros m Hm. apply forallb_forall with (x := m) in H; [| by apply list_elem_of_In].
  apply andb_true_iff in H as [H1%Nat.leb_le H2%Z.leb_le]. by split.
Qed.

Lemma honest_view s :
  ps_peer s = {[0%nat := server]} ->
  written <$> heap (ps_pool s) !! 0%nat = Some (wire (be_bytes 2 0 ++ drop 2 q0) ++ wire (be_bytes 2 1 ++ drop 2 q1)) ->
  ps_arrived s !! 0%nat = Some stream -> honest answers s.
Proof.
  intros Vp Vw Va r srv c H Hc. rewrite Vp in H. apply lookup_singleton_Some in H as [<- <-].
  rewrite Hc in Vw. injection Vw as Vw. rewrite Vw, Va.
  exists [be_bytes 2 0 ++ drop 2 q0; be_bytes 2 1 ++ drop 2 q1], [m1; m0].
  split; [by apply all_messages |]. split; [by apply all_messages |].
  split; [exists []; vm_compute; reflexivity |]. split; [exists []; vm_compute; reflexivity |].
  intros m [-> | [-> | Hm%not_elem_of_nil]%elem_of_cons]%elem_of_cons; [| | done].
  - eexists. split; [right; left |]. split; vm_compute; reflexivity.
  - eexists. split; [left |]. split; vm_compute; reflexivity.
Qed.
End OutOfOrder.

Lemma dns_answers_right_witness :
  exists s, pool_run OutOfOrder.acts OutOfOrder.start = Some s /\
    ps_tasks s !! 0%nat = Some OutOfOrder.t0 /\ ps_tasks s !! 1%nat = Some OutOfOrder.t1 /\
    OutOfOrder.answers OutOfOrder.server (drop 2 OutOfOrder.q0) (drop 2 (as_bytes "abre -question-a")) /\
    OutOfOrder.answers OutOfOrder.server (drop 2 OutOfOrder.q1) (drop 2 (as_bytes "cdre -question-b")).
Proof.
  pose proof OutOfOrder.run_view as V. destruct (pool_run OutOfOrder.acts OutOfOrder.start) as [s |] eqn:E; [| discriminate].
  cbn [fmap option_fmap option_map] in V. unfold OutOfOrder.view in V. injection V as V0 V1 Vp Vw Va Vk.
  assert (Ho : orderly OutOfOrder.acts OutOfOrder.start = true) by (vm_compute; reflexivity).
  assert (Hr : forall r srv, ps_peer s !! r = Some srv -> r = 0%nat /\ srv = OutOfOrder.server).
  { intros r srv. rewrite Vp, lookup_singleton_Some. intros [<- <-]. split; reflexivity. }
  pose proof (OutOfOrder.honest_view s Vp Vw Va) as Hh.
  assert (Hk : forall r, ps_peer s !! r = Some OutOfOrder.server -> Z.of_nat (carried (ps_slots s) r) <= 65536).
  { intros r H. destruct (Hr _ _ H) as [-> _]. rewrite Vk. lia. }
  exists s. split; [reflexivity |]. split; [exact V0 |]. split; [exact V1 |]. split.
  - exact (proj1 (proj2 (dns_answers_right OutOfOrder.answers example_proxy 5 30 zero_counters OutOfOrder.acts s 0 OutOfOrder.t0
      (as_bytes "abre -question-a") E Ho Hh Hk V0 eq_refl))).
  - exact (proj1 (proj2 (dns_answers_right OutOfOrder.answers example_proxy 5 30 zero_counters OutOfOrder.acts s 1 OutOfOrder.t1
      (as_bytes "cdre -question-b") E Ho Hh Hk V1 eq_refl))).
Defined.
