(* ===== verification/Udp.v ===== *)
(** * UDP relay ([src/udp.rs])

    The main loop with its table of sessions, the session tasks it spawns,
    the task that writes replies and the DNS tasks, as a machine with
    outputs: an action is one iteration of the loop or one move of a task,
    with what the environment answered, and actions come in any order that
    the channels allow. Channels live in a store and are named by
    references, so that a session replaced in the table is still the one its
    task reads from. *)

From Stdlib Require Import ZArith Lia.
From Stdlib Require Import Strings.Ascii Strings.String.
From stdpp Require Import base decidable list strings gmap fin_maps fin_map_dom.
From S2P Require Import Prelude StdNet Config Logging Stats Socks.
#[local] Open Scope Z_scope.

(** ** Definitions *)

Definition MAX_DATAGRAM : Z := 65535.
Definition REPLY_CHANNEL_DEPTH : Z := 2048.
Definition SESSION_CHANNEL_DEPTH : Z := 256.
Definition DONE_CHANNEL_DEPTH : Z := 256.
Definition DNS_PORT : Z := 53.
Definition DNS_PRUNE_INTERVAL_SECS : Z := 30.

Record UdpOptions : Type := mkOpts { opt_idle_timeout : Z; max_sessions : Z; dns_over_tcp : bool }.

(** [(payload, source, destination)] as the network stack gives it. *)
Abbreviation UdpMsg := (list byte * SocketAddr * SocketAddr)%type.

(** What a session's task has done: not run yet, opening the association,
    in its loop, returned (its receiver is dropped, the channel closed),
    reported on [done_tx]. *)
Inductive TaskPhase : Type := Spawned | Opening | Relaying | Returned | Reported.

#[global] Instance TaskPhase_eq_dec : EqDecision TaskPhase.
Proof. solve_decision. Defined.

(** A session's channel and task; [ch_enc] is its [enc_buf]. *)
Record Chan : Type := mkChan {
  ch_src : SocketAddr;
  ch_proxy : ProxyConfig;
  ch_queue : list (SocketAddr * list byte);
  ch_enc : list byte;
  ch_phase : TaskPhase;
}.

Definition with_queue (q : list (SocketAddr * list byte)) (c : Chan) : Chan :=
  mkChan (ch_src c) (ch_proxy c) q (ch_enc c) (ch_phase c).
Definition with_enc (b : list byte) (c : Chan) : Chan := mkChan (ch_src c) (ch_proxy c) (ch_queue c) b (ch_phase c).
Definition with_task (ph : TaskPhase) (c : Chan) : Chan := mkChan (ch_src c) (ch_proxy c) (ch_queue c) (ch_enc c) ph.

(** [outbound.is_closed()]: the receiver is gone. *)
Definition is_closed (c : Chan) : bool :=
  match ch_phase c with Spawned | Opening | Relaying => false | Returned | Reported => true end.

(** [reply_q] is the channel of replies and [writing] says that the task
    which reads it is still there. *)
Record Udp : Type := mkUdp {
  sessions : gmap SocketAddr nat;
  chans : gmap nat Chan;
  done_q : list SocketAddr;
  dns_permits : Z;
  dns_tasks : gmap nat (SocketAddr * SocketAddr * list byte);
  reply_q : list UdpMsg;
  writing : bool;
  u_stats : Counters;
  u_log : Log;
}.

Definition with_sessions (m : gmap SocketAddr nat) (u : Udp) : Udp :=
  mkUdp m (chans u) (done_q u) (dns_permits u) (dns_tasks u) (reply_q u) (writing u) (u_stats u) (u_log u).
Definition with_chans (m : gmap nat Chan) (u : Udp) : Udp :=
  mkUdp (sessions u) m (done_q u) (dns_permits u) (dns_tasks u) (reply_q u) (writing u) (u_stats u) (u_log u).
Definition with_done (l : list SocketAddr) (u : Udp) : Udp :=
  mkUdp (sessions u) (chans u) l (dns_permits u) (dns_tasks u) (reply_q u) (writing u) (u_stats u) (u_log u).
Definition with_dns (n : Z) (m : gmap nat (SocketAddr * SocketAddr * list byte)) (u : Udp) : Udp :=
  mkUdp (sessions u) (chans u) (done_q u) n m (reply_q u) (writing u) (u_stats u) (u_log u).
Definition with_replies (l : list UdpMsg) (up : bool) (u : Udp) : Udp :=
  mkUdp (sessions u) (chans u) (done_q u) (dns_permits u) (dns_tasks u) l up (u_stats u) (u_log u).
Definition count (f : Counters -> Counters) (u : Udp) : Udp :=
  mkUdp (sessions u) (chans u) (done_q u) (dns_permits u) (dns_tasks u) (reply_q u) (writing u) (f (u_stats u)) (u_log u).
Definition note (f : Log -> Log) (u : Udp) : Udp :=
  mkUdp (sessions u) (chans u) (done_q u) (dns_permits u) (dns_tasks u) (reply_q u) (writing u) (u_stats u) (f (u_log u)).

Definition with_chan (r : nat) (c : Chan) (u : Udp) : Udp := with_chans (<[r := c]> (chans u)) u.

Definition closed_at (u : Udp) (r : nat) : bool :=
  match chans u !! r with Some c => is_closed c | None => true end.

Section Loop.
Context (opts : UdpOptions) (logger : Logger.t).

(** The branch [Some(dead) = done_rx.recv()]. *)
Definition handle_done (dead : SocketAddr) (u : Udp) : Udp :=
  match sessions u !! dead with
  | Some r => if closed_at u r then with_sessions (delete dead (sessions u)) u else u
  | None => u
  end.

(** [spawn_session]: a fresh channel and a task on it. *)
Definition spawn_session (src : SocketAddr) (proxy : ProxyConfig) (u : Udp) : nat * Udp :=
  let r := fresh (dom (chans u)) in
  (r, with_chan r (mkChan src proxy [] [] Spawned) u).

(** [session.outbound.try_send(...)]: fails when the channel is full or
    closed. *)
Definition try_send (r : nat) (msg : SocketAddr * list byte) (u : Udp) : bool * Udp :=
  match chans u !! r with
  | None => (false, u)
  | Some c =>
      if is_closed c || (SESSION_CHANNEL_DEPTH <=? Z.of_nat (length (ch_queue c))) then (false, u)
      else (true, with_chan r (with_queue (ch_queue c ++ [msg]) c) u)
  end.

(** The branch [item = udp_rx.next()], for a packet; [proxy] is what
    [shared.proxy()] returns. *)
Definition handle_packet (proxy : ProxyConfig) (payload : list byte) (src dst : SocketAddr) (u : Udp) : Udp :=
  let len := Z.of_nat (length payload) in
  let u := count (inc UDP_PACKETS) u in
  let u := count (add BYTES_TX len) u in
  let u := count (record_traffic (sa_ip dst) len) u in
  if dns_over_tcp opts && (sa_port dst =? DNS_PORT) then
    if 0 <? dns_permits u then
      with_dns (dns_permits u - 1) (<[fresh (dom (dns_tasks u)) := (dst, src, payload)]> (dns_tasks u)) u
    else
      let u := count (inc UDP_ERRORS) u in
      let u := count (inc DNS_FAILURES) u in
      note (Logger.debug logger (fun _ => "dns concurrency limit reached, dropping " +:+ show_sockaddr src)) u
  else
    let live := match sessions u !! src with Some r => negb (closed_at u r) | None => false end in
    let offer (u : Udp) : Udp :=
      match sessions u !! src with
      | Some r => let '(sent, u) := try_send r (dst, payload) u in
                  if sent then u else count (inc UDP_ERRORS) u
      | None => u
      end in
    if live then offer u
    else if max_sessions opts <=? Z.of_nat (size (sessions u)) then
      let u := count (inc UDP_ERRORS) u in
      note (Logger.debug logger (fun _ => "udp session limit reached, dropping " +:+ show_sockaddr src)) u
    else
      let '(r, u) := spawn_session src proxy u in
      offer (with_sessions (<[src := r]> (sessions u)) u).

(** *** The session task *)

(** What [tokio::select!] finds ready, one event per iteration. *)
Inductive SessionEvent : Type :=
| Outbound (dst : SocketAddr) (payload : list byte) (send : Result string unit)
| OutboundClosed
| Datagram (received : Result string (list byte)) (reply_ok : bool)
| Control (read : Result string Z)
| IdleTimeout.

(** [None] while the loop goes on; datagrams sent to the relay and replies
    sent to the writer so far. [None] of the outer option is a panic of
    [decode_udp]. *)
Definition session_event (src : SocketAddr) (e : SessionEvent) (enc_buf : list byte)
    : option (option (result unit) * list byte * list (list byte) * list UdpMsg) :=
  match e with
  | Outbound dst payload send =>
      let enc_buf := encode_udp dst payload enc_buf in
      match send with
      | Ok _ => Some (None, enc_buf, [enc_buf], [])
      | Err e => Some (Some (Err ["failed to send datagram to relay"; e]), enc_buf, [], [])
      end
  | OutboundClosed => Some (Some (Ok tt), enc_buf, [], [])
  | Datagram (Err e) _ => Some (Some (Err ["failed to receive datagram from relay"; e]), enc_buf, [], [])
  | Datagram (Ok buf) reply_ok =>
      match decode_udp buf with
      | None => None
      | Some None => Some (None, enc_buf, [], [])
      | Some (Some (remote, data)) =>
          if reply_ok then Some (None, enc_buf, [], [(data, remote, src)])
          else Some (Some (Ok tt), enc_buf, [], [])
      end
  | Control (Ok n) => Some (if n =? 0 then Some (Ok tt) else None, enc_buf, [], [])
  | Control (Err e) => Some (Some (Err ["SOCKS5 control connection error"; e]), enc_buf, [], [])
  | IdleTimeout => Some (Some (Ok tt), enc_buf, [], [])
  end.

Fixpoint session_loop (src : SocketAddr) (es : list SessionEvent) (enc_buf : list byte)
    : option (option (result unit) * list (list byte) * list UdpMsg) :=
  match es with
  | [] => Some (None, [], [])
  | e :: es =>
      match session_event src e enc_buf with
      | None => None
      | Some (Some r, _, sent, replies) => Some (Some r, sent, replies)
      | Some (None, enc_buf, sent, replies) =>
          match session_loop src es enc_buf with
          | None => None
          | Some (r, sent', replies') => Some (r, sent ++ sent', replies ++ replies')
          end
      end
  end.

(** The part of [session_task] before its loop: the association and a local
    socket of the relay's family. *)
Definition bind_addr (relay : SocketAddr) : SocketAddr :=
  match sa_ip relay with V4 _ => SocketAddr_new (V4 0) 0 | V6 _ => SocketAddr_new (V6 0) 0 end.

Definition session_open (assoc : result SocketAddr) (bind connect : SocketAddr -> Result string unit)
    : result SocketAddr :=
  match assoc with
  | Err e => Err e
  | Ok relay =>
      match bind (bind_addr relay) with
      | Err e => Err ["failed to bind local UDP socket"; e]
      | Ok _ =>
          match connect relay with
          | Err e => Err ["failed to connect local UDP socket to relay"; e]
          | Ok _ => Ok relay
          end
      end
  end.

Definition session_task (src : SocketAddr) (assoc : result SocketAddr)
    (bind connect : SocketAddr -> Result string unit) (es : list SessionEvent)
    : option (option (result unit) * list (list byte) * list UdpMsg) :=
  match session_open assoc bind connect with
  | Err e => Some (Some (Err e), [], [])
  | Ok _ => session_loop src es []
  end.

(** The task around [session_task] that [spawn_session] spawns, once that
    has returned: an error is counted and logged. *)
Definition session_ended (src : SocketAddr) (r : result unit) (u : Udp) : Udp :=
  match r with
  | Ok _ => u
  | Err e =>
      note (Logger.debug logger (fun _ => "udp session " +:+ show_sockaddr src +:+ " ended: " +:+ hd "" e))
        (count (inc UDP_ERRORS) u)
  end.

(** *** The writer and the DNS tasks *)

(** One reply, with whether the network stack took it; if not, the task ends
    and its receiver is dropped. *)
Definition write_reply (msg : UdpMsg) (taken : bool) (u : Udp) : Udp :=
  if taken then
    let bytes := Z.of_nat (length msg.1.1) in
    count (record_traffic (sa_ip msg.1.2) bytes) (count (add BYTES_RX bytes) u)
  else with_replies [] false u.

(** [reply_tx.send(..).await]: [None] while it waits for room. *)
Definition send_reply (msg : UdpMsg) (u : Udp) : option (bool * Udp) :=
  if negb (writing u) then Some (false, u)
  else if Z.of_nat (length (reply_q u)) <? REPLY_CHANNEL_DEPTH
       then Some (true, with_replies (reply_q u ++ [msg]) true u)
       else None.

(** [dns_query_pooled] with what [resolve] returned; its permit is dropped at
    the end. *)
Definition dns_query_pooled (n : nat) (resolved : result (list byte)) (dst src : SocketAddr) (u : Udp)
    : option Udp :=
  let u := count (inc DNS_REQUESTS) u in
  let drop_permit (u : Udp) : Udp := with_dns (dns_permits u + 1) (delete n (dns_tasks u)) u in
  match resolved with
  | Ok resp =>
      match send_reply (resp, dst, src) u with
      | Some (_, u) => Some (drop_permit u)
      | None => None
      end
  | Err e =>
      let u := count (inc UDP_ERRORS) u in
      let u := count (inc DNS_FAILURES) u in
      Some (drop_permit (note (Logger.debug logger (fun _ =>
         "dns " +:+ show_sockaddr src +:+ " -> " +:+ show_sockaddr dst +:+ " failed: " +:+ hd "" e)) u))
  end.

(** ** The machine *)

Inductive UdpAct : Type :=
| TakeReport
| TakePacket (proxy : ProxyConfig) (msg : UdpMsg)
| StartSession (r : nat)
| OpenSession (r : nat) (assoc : result SocketAddr) (bind connect : SocketAddr -> Result string unit)
| SessionMoves (src : SocketAddr) (r : nat) (e : SessionEvent)
| ReportEnd (r : nat)
| WriteReply (msg : UdpMsg) (taken : bool)
| DnsEnds (n : nat) (dst src : SocketAddr) (query : list byte) (resolved : result (list byte)).

(** What leaves the relay: datagrams on a session's socket, and packets given
    to the network stack. *)
Inductive UdpOut : Type :=
| ToRelay (src : SocketAddr) (bytes : list byte)
| ToStack (msg : UdpMsg).

(** Which branches of the session's [select!] can be taken: a message is at
    the head of the channel; the channel is empty and the table has let go
    of its sender; the reply to a datagram has room, or the writer is gone. *)
Definition event_ready (u : Udp) (r : nat) (c : Chan) (e : SessionEvent) : bool :=
  match e with
  | Outbound dst payload _ => bool_decide (head (ch_queue c) = Some (dst, payload))
  | OutboundClosed => bool_decide (ch_queue c = []) && negb (bool_decide (sessions u !! ch_src c = Some r))
  | Datagram (Ok buf) reply_ok =>
      (Z.of_nat (length buf) <=? MAX_DATAGRAM) &&
      match decode_udp buf with
      | Some (Some _) => if reply_ok then writing u && (Z.of_nat (length (reply_q u)) <? REPLY_CHANNEL_DEPTH)
                         else negb (writing u)
      | _ => true
      end
  | _ => true
  end.

(** The channel after the event: [orx.recv()] has taken the message. *)
Definition after_event (e : SessionEvent) (enc : list byte) (c : Chan) : Chan :=
  with_enc enc (match e with Outbound _ _ _ => with_queue (tail (ch_queue c)) c | _ => c end).

Definition session_moves (src : SocketAddr) (r : nat) (c : Chan) (e : SessionEvent) (u : Udp)
    : option (Udp * list UdpOut) :=
  if event_ready u r c e then
    match session_event src e (ch_enc c) with
    | None => None
    | Some (res, enc, sent, replies) =>
        let c := after_event e enc c in
        let u := with_replies (reply_q u ++ replies) (writing u) u in
        Some (match res with
              | None => with_chan r c u
              | Some res => session_ended src res (with_chan r (with_task Returned c) u)
              end, ToRelay src <$> sent)
    end
  else None.

(** The session whose task is in the given phase. *)
Definition in_phase (ph : TaskPhase) (r : nat) (u : Udp) : option Chan :=
  match chans u !! r with
  | Some c => if decide (ch_phase c = ph) then Some c else None
  | None => None
  end.

(** The moves of the tasks; [None] where the task cannot make that move. *)
Definition task_act (a : UdpAct) (u : Udp) : option (Udp * list UdpOut) :=
  match a with
  | TakeReport | TakePacket _ _ => None
  | StartSession r =>
      match in_phase Spawned r u with
      | Some c => Some (count (GaugeGuard.new UDP_ACTIVE) (with_chan r (with_task Opening c) u), [])
      | None => None
      end
  | OpenSession r assoc bind connect =>
      match in_phase Opening r u with
      | Some c => Some (match session_open assoc bind connect with
                        | Ok _ => with_chan r (with_task Relaying c) u
                        | Err e => session_ended (ch_src c) (Err e) (with_chan r (with_task Returned c) u)
                        end, [])
      | None => None
      end
  | SessionMoves src r e =>
      match in_phase Relaying r u with
      | Some c => if decide (ch_src c = src) then session_moves src r c e u else None
      | None => None
      end
  | ReportEnd r =>
      match in_phase Returned r u with
      | Some c => if Z.of_nat (length (done_q u)) <? DONE_CHANNEL_DEPTH
                  then Some (count (GaugeGuard.drop UDP_ACTIVE)
                               (with_done (done_q u ++ [ch_src c]) (with_chan r (with_task Reported c) u)), [])
                  else None
      | None => None
      end
  | WriteReply msg taken =>
      match reply_q u with
      | msg' :: l => if bool_decide (msg' = msg) && writing u
                     then Some (write_reply msg taken (with_replies l true u), if taken then [ToStack msg] else [])
                     else None
      | [] => None
      end
  | DnsEnds n dst src query resolved =>
      if decide (dns_tasks u !! n = Some (dst, src, query))
      then match dns_query_pooled n resolved dst src u with Some u => Some (u, []) | None => None end
      else None
  end.

(** The loop's own iterations, and the tasks'. A report can arrive after
    [done_rx] was polled, so a packet may be taken before it although the
    [select!] is biased. *)
Definition udp_act (a : UdpAct) (u : Udp) : option (Udp * list UdpOut) :=
  match a with
  | TakeReport =>
      match done_q u with
      | dead :: l => Some (handle_done dead (with_done l u), [])
      | [] => None
      end
  | TakePacket proxy (payload, src, dst) => Some (handle_packet proxy payload src dst u, [])
  | _ => task_act a u
  end.

Fixpoint udp_run (l : list UdpAct) (u : Udp) : option (Udp * list UdpOut) :=
  match l with
  | [] => Some (u, [])
  | a :: l =>
      match udp_act a u with
      | None => None
      | Some (u, out) => match udp_run l u with Some (u, out') => Some (u, out ++ out') | None => None end
      end
  end.

Definition ustart (s : Counters) (log : Log) : Udp := mkUdp ∅ ∅ [] (max_sessions opts) ∅ [] true s log.
End Loop.

(** ** Invariant *)

Section Invariant.
Context (opts : UdpOptions) (logger : Logger.t).

Record udp_inv (u : Udp) : Prop := {
  ui_size : Z.of_nat (size (sessions u)) <= Z.max 0 (max_sessions opts);
  ui_open : forall r c, chans u !! r = Some c -> is_closed c = false -> sessions u !! ch_src c = Some r;
  ui_chan : forall src r, sessions u !! src = Some r -> exists c, chans u !! r = Some c /\ ch_src c = src;
  ui_dns : dns_permits u + Z.of_nat (size (dns_tasks u)) = max_sessions opts;
  ui_permits : 0 <= max_sessions opts -> 0 <= dns_permits u;
}.

(** Steps that leave the tables alone. *)
Lemma inv_count f u : udp_inv (count f u) <-> udp_inv u.
Proof. split; intros []; by constructor. Qed.
Lemma inv_note f u : udp_inv (note f u) <-> udp_inv u.
Proof. split; intros []; by constructor. Qed.
Lemma inv_replies l b u : udp_inv (with_replies l b u) <-> udp_inv u.
Proof. split; intros []; by constructor. Qed.
Lemma inv_done l u : udp_inv (with_done l u) <-> udp_inv u.
Proof. split; intros []; by constructor. Qed.

(** A channel changes, its source does not, and it is not opened again. *)
Lemma inv_chan r c c' u :
  udp_inv u -> chans u !! r = Some c -> ch_src c' = ch_src c ->
  (is_closed c' = false -> is_closed c = false) ->
  udp_inv (with_chan r c' u).
Proof.
  intros [H1 H2 H3 H4 H5] Hr Hs Hc. constructor; simpl; try done.
  - intros r' c0. rewrite lookup_insert_Some. intros [[<- <-] | [_ H]] Ho; [| by apply H2].
    rewrite Hs. apply H2; auto.
  - intros src r' H. destruct (H3 _ _ H) as (c0 & Hc0 & Hs0). destruct (decide (r' = r)) as [-> | Hne].
    + exists c'. rewrite lookup_insert_eq. split; [done | congruence].
    + exists c0. by rewrite lookup_insert_ne.
Qed.

Lemma handle_done_inv dead u : udp_inv u -> udp_inv (handle_done dead u).
Proof.
  intros Hi. unfold handle_done. destruct (sessions u !! dead) as [r |] eqn:Hd; [| done].
  destruct (closed_at u r) eqn:Hc; [| done]. destruct Hi as [H1 H2 H3 H4 H5]. constructor; simpl; try done.
  - rewrite map_size_delete, Hd. lia.
  - intros r' c Hr Ho. destruct (decide (ch_src c = dead)) as [<- | Hne].
    + pose proof (H2 _ _ Hr Ho) as Hs. rewrite Hd in Hs. simplify_eq. unfold closed_at in Hc. rewrite Hr in Hc. congruence.
    + rewrite lookup_delete_ne by done. by apply H2.
  - intros src r'. rewrite lookup_delete_Some. intros [_ H]. by apply H3.
Qed.

Lemma try_send_inv r msg u : udp_inv u -> udp_inv (snd (try_send r msg u)).
Proof.
  intros Hi. unfold try_send. destruct (chans u !! r) as [c |] eqn:Hr; [| done].
  case_match; [done |]. by eapply inv_chan.
Qed.

Lemma spawn_inv src proxy u :
  udp_inv u -> (forall r, sessions u !! src = Some r -> closed_at u r = true) ->
  Z.of_nat (size (sessions u)) < max_sessions opts ->
  let '(r, u') := spawn_session src proxy u in
  udp_inv (with_sessions (<[src := r]> (sessions u')) u').
Proof.
  intros [H1 H2 H3 H4 H5] Hdead Hlt. unfold spawn_session. set (r := fresh _).
  assert (Hr : chans u !! r = None) by (apply not_elem_of_dom, is_fresh).
  constructor; simpl; try done.
  - rewrite map_size_insert. destruct (sessions u !! src); simpl; lia.
  - intros r' c. rewrite lookup_insert_Some. intros [[<- <-] | [Hne H]] Ho; [apply lookup_insert_eq |].
    destruct (decide (ch_src c = src)) as [<- | Hs]; [| rewrite lookup_insert_ne by done; by apply H2].
    pose proof (H2 _ _ H Ho) as Hs. apply Hdead in Hs. unfold closed_at in Hs. rewrite H in Hs. congruence.
  - intros src' r'. rewrite lookup_insert_Some. intros [[<- <-] | [Hne H]].
    + eexists. by rewrite lookup_insert_eq.
    + destruct (H3 _ _ H) as (c & Hc & Hs). exists c. rewrite lookup_insert_ne by congruence. done.
Qed.

Lemma offer_inv src msg u :
  udp_inv u ->
  udp_inv (match sessions u !! src with
           | Some r => let '(sent, u) := try_send r msg u in if sent then u else count (inc UDP_ERRORS) u
           | None => u
           end).
Proof.
  intros Hi. destruct (sessions u !! src) as [r |]; [| done].
  pose proof (try_send_inv r msg u Hi) as H. destruct (try_send r msg u) as [[] u']; [done | by apply inv_count].
Qed.

Lemma handle_packet_inv proxy payload src dst u :
  udp_inv u -> udp_inv (handle_packet opts logger proxy payload src dst u).
Proof.
  intros Hi. unfold handle_packet. set (u0 := count (record_traffic _ _) _).
  assert (Hi0 : udp_inv u0) by (by repeat apply inv_count). clearbody u0. clear u Hi.
  case_match; [case_match |]; bool_to_prop.
  - destruct Hi0 as [Ia Ib Ic Id Ie]. constructor; simpl; try done; [| lia].
    rewrite map_size_insert_None by apply not_elem_of_dom, is_fresh. lia.
  - by apply inv_note, inv_count, inv_count.
  - set (live := match sessions u0 !! src with Some r => negb (closed_at u0 r) | None => false end).
    destruct live eqn:Hlive; [by apply (offer_inv src (dst, payload)) |].
    case_match eqn:Hmax; bool_to_prop; [by apply inv_note, inv_count |].
    assert (Hdead : forall r, sessions u0 !! src = Some r -> closed_at u0 r = true).
    { intros r Hr. unfold live in Hlive. rewrite Hr in Hlive. by apply negb_false_iff. }
    pose proof (spawn_inv src proxy u0 Hi0 Hdead Hmax) as Hs.
    destruct (spawn_session src proxy u0) as [r u1]. by apply (offer_inv src (dst, payload)).
Qed.

Lemma inv_ended src res u : udp_inv (session_ended logger src res u) <-> udp_inv u.
Proof. destruct res; [done |]. cbn [session_ended]. by rewrite inv_note, inv_count. Qed.

Lemma in_phase_Some ph r u c : in_phase ph r u = Some c <-> chans u !! r = Some c /\ ch_phase c = ph.
Proof. unfold in_phase. destruct (chans u !! r) as [c' |]; [case_decide |]; naive_solver. Qed.

Lemma after_event_src e enc c : ch_src (after_event e enc c) = ch_src c.
Proof. by destruct e. Qed.

Lemma after_event_phase e enc c : ch_phase (after_event e enc c) = ch_phase c.
Proof. by destruct e. Qed.

Lemma session_moves_inv src r c e u u' out :
  session_moves logger src r c e u = Some (u', out) -> chans u !! r = Some c -> ch_phase c = Relaying ->
  udp_inv u -> udp_inv u'.
Proof.
  unfold session_moves. intros H Hr Hp Hi. case_match; [| done].
  destruct (session_event src e (ch_enc c)) as [[[[res enc] sent] replies] |]; [| done]. simplify_eq.
  assert (Ho : is_closed c = false) by (unfold is_closed; by rewrite Hp).
  set (v := with_replies _ _ _).
  assert (Hv : udp_inv v) by by apply inv_replies.
  destruct res as [res |]; [apply inv_ended |];
    (eapply inv_chan; [exact Hv | exact Hr | exact (after_event_src e enc c) | done]).
Qed.

Lemma send_reply_fields msg u b u' :
  send_reply msg u = Some (b, u') ->
  u' = if b then with_replies (reply_q u ++ [msg]) true u else u.
Proof. unfold send_reply. repeat case_match; naive_solver. Qed.

Lemma dns_ended_inv n t u :
  dns_tasks u !! n = Some t -> udp_inv u -> udp_inv (with_dns (dns_permits u + 1) (delete n (dns_tasks u)) u).
Proof.
  intros Hn [H1 H2 H3 H4 H5]. constructor; simpl; try done; [| lia].
  rewrite map_size_delete, Hn. pose proof (map_size_ne_0_lookup_2 _ _ (mk_is_Some _ _ Hn)). lia.
Qed.

(** A DNS task that ends changes the replies, the counters and the log, and
    gives its permit back. *)
Lemma dns_query_pooled_shape n resolved dst src u u' :
  dns_query_pooled logger n resolved dst src u = Some u' ->
  exists l up f g,
    u' = with_dns (dns_permits u + 1) (delete n (dns_tasks u)) (note g (count f (with_replies l up u))) /\
    (l = reply_q u /\ up = writing u /\ (writing u = true -> exists e, resolved = Err e) \/
     exists resp, resolved = Ok resp /\ writing u = true /\ up = true /\ l = reply_q u ++ [(resp, dst, src)]).
Proof.
  unfold dns_query_pooled. destruct resolved as [resp | e].
  - destruct (send_reply _ _) as [[b v] |] eqn:E; [| done]. intros [= <-].
    pose proof (send_reply_fields _ _ _ _ E) as ->. destruct b.
    + exists (reply_q u ++ [(resp, dst, src)]), true, (inc DNS_REQUESTS), id. split; [done |]. right.
      exists resp. split_and!; try done. unfold send_reply in E. cbn in E. by destruct (writing u).
    + exists (reply_q u), (writing u), (inc DNS_REQUESTS), id. split; [by destruct u |]. left.
      split_and!; try done. intros Hw. unfold send_reply in E. cbn in E. rewrite Hw in E. cbn in E.
      by destruct (Z.of_nat (length (reply_q u)) <? REPLY_CHANNEL_DEPTH).
  - intros [= <-]. eexists (reply_q u), (writing u), (fun s => inc DNS_FAILURES (inc UDP_ERRORS (inc DNS_REQUESTS s))), _.
    split; [by destruct u | left]. eauto.
Qed.

Lemma task_act_inv a u u' out : task_act logger a u = Some (u', out) -> udp_inv u -> udp_inv u'.
Proof.
  intros H Hi. destruct a as [| proxy msg | r | r assoc bind connect | src r e | r | msg taken | n dst src query resolved];
    cbn [task_act] in H; [done | done | | | | | |].
  - destruct (in_phase Spawned r u) as [c |] eqn:E; [| done]. apply in_phase_Some in E as [Hr Hp]. simplify_eq.
    apply inv_count. eapply inv_chan; try done. intros _. unfold is_closed. by rewrite Hp.
  - destruct (in_phase Opening r u) as [c |] eqn:E; [| done]. apply in_phase_Some in E as [Hr Hp]. simplify_eq.
    destruct (session_open assoc bind connect); [| apply inv_ended]; eapply inv_chan; try done.
    intros _. unfold is_closed. by rewrite Hp.
  - destruct (in_phase Relaying r u) as [c |] eqn:E; [| done]. apply in_phase_Some in E as [Hr Hp].
    case_decide; [| done]. by eapply session_moves_inv.
  - destruct (in_phase Returned r u) as [c |] eqn:E; [| done]. apply in_phase_Some in E as [Hr Hp].
    case_match; [| done]. simplify_eq. apply inv_count, inv_done. by eapply inv_chan.
  - repeat case_match; simplify_eq; unfold write_reply; by rewrite ?inv_count, ?inv_replies.
  - case_decide as Hn; [| done]. destruct (dns_query_pooled _ _ _ _ _ _) as [v |] eqn:E; [| done]. simplify_eq.
    apply dns_query_pooled_shape in E as (l & up & f & g & -> & _).
    change (udp_inv (with_dns (dns_permits (note g (count f (with_replies l up u))) + 1)
      (delete n (dns_tasks (note g (count f (with_replies l up u))))) (note g (count f (with_replies l up u))))).
    eapply dns_ended_inv; [done |]. by apply inv_note, inv_count, inv_replies.
Qed.

Lemma udp_act_inv a u u' out : udp_act opts logger a u = Some (u', out) -> udp_inv u -> udp_inv u'.
Proof.
  intros H Hi. destruct a as [| proxy [[payload src] dst] | | | | | |]; cbn [udp_act] in H;
    [| | exact (task_act_inv _ _ _ _ H Hi) ..].
  - destruct (done_q u); simplify_eq. by apply handle_done_inv, inv_done.
  - simplify_eq. by apply handle_packet_inv.
Qed.

Lemma ustart_inv s log : udp_inv (ustart opts s log).
Proof.
  constructor; simpl; [rewrite map_size_empty; lia | intros r c; by rewrite lookup_empty
    | intros src r; by rewrite lookup_empty | rewrite map_size_empty; lia | done].
Qed.

Lemma udp_run_app l l' u :
  udp_run opts logger (l ++ l') u =
  match udp_run opts logger l u with
  | Some (v, out) => match udp_run opts logger l' v with Some (w, out') => Some (w, out ++ out') | None => None end
  | None => None
  end.
Proof.
  revert u. induction l as [| a l IH]; intros u; simpl.
  - by destruct (udp_run opts logger l' u) as [[] |].
  - destruct (udp_act opts logger a u) as [[v out] |]; [| done]. rewrite IH.
    destruct (udp_run opts logger l v) as [[w out'] |]; [| done].
    destruct (udp_run opts logger l' w) as [[x out''] |]; [| done]. by rewrite app_assoc.
Qed.

(** Induction on a run, by its last action. *)
Lemma udp_run_ind (P : list UdpAct -> Udp -> list UdpOut -> Prop) u0 :
  P [] u0 [] ->
  (forall l u out a u' out', udp_run opts logger l u0 = Some (u, out) -> P l u out ->
     udp_act opts logger a u = Some (u', out') -> P (l ++ [a]) u' (out ++ out')) ->
  forall l u out, udp_run opts logger l u0 = Some (u, out) -> P l u out.
Proof.
  intros H0 HS l. induction l as [| a l IH] using rev_ind; intros u out H; [by injection H as <- <- |].
  rewrite udp_run_app in H. destruct (udp_run opts logger l u0) as [[v o] |] eqn:E; [| done]. cbn [udp_run] in H.
  destruct (udp_act opts logger a v) as [[w o'] |] eqn:E'; [| done]. injection H as <- <-.
  rewrite app_nil_r. eapply HS; eauto.
Qed.

Lemma reachable_inv l s log u out : udp_run opts logger l (ustart opts s log) = Some (u, out) -> udp_inv u.
Proof. apply (udp_run_ind (fun _ u _ => udp_inv u)); [apply ustart_inv |]. eauto using udp_act_inv. Qed.
End Invariant.

(** ** Lemmas *)

Definition open_chans (u : Udp) : gmap nat Chan := filter (fun p => is_closed p.2 = false) (chans u).

Lemma open_chans_le opts u : udp_inv opts u -> (size (open_chans u) <= size (sessions u))%nat.
Proof.
  intros Hi. rewrite <- !length_map_to_list.
  rewrite <- (length_fmap fst (map_to_list (open_chans u))), <- (length_fmap snd (map_to_list (sessions u))).
  apply submseteq_length, NoDup_submseteq; [apply NoDup_fst_map_to_list |].
  intros r Hr. apply list_elem_of_fmap in Hr as ([r' c] & -> & Hr). apply elem_of_map_to_list in Hr.
  apply map_lookup_filter_Some in Hr as [Hr Ho]. simpl in *.
  apply list_elem_of_fmap. exists (ch_src c, r'). split; [done |]. apply elem_of_map_to_list.
  by eapply ui_open.
Qed.

(** What became of a packet that is not a DNS query. *)
Definition queued (src dst : SocketAddr) (payload : list byte) (u u' : Udp) : Prop :=
  exists r c q, sessions u' !! src = Some r /\ chans u' !! r = Some c /\ ch_src c = src /\
    is_closed c = false /\ ch_queue c = q ++ [(dst, payload)] /\
    Z.of_nat (length (ch_queue c)) <= SESSION_CHANNEL_DEPTH /\
    (forall c0, chans u !! r = Some c0 -> ch_queue c0 = q) /\
    get UDP_ERRORS (u_stats u') = get UDP_ERRORS (u_stats u).

Lemma try_send_cases r msg u :
  let '(sent, u') := try_send r msg u in
  u_stats u' = u_stats u /\ sessions u' = sessions u /\
  if sent
  then exists c, chans u !! r = Some c /\ is_closed c = false /\
         Z.of_nat (length (ch_queue c)) < SESSION_CHANNEL_DEPTH /\
         chans u' !! r = Some (with_queue (ch_queue c ++ [msg]) c)
  else u' = u.
Proof.
  unfold try_send. destruct (chans u !! r) as [c |] eqn:Hr; [| done].
  destruct (is_closed c || (SESSION_CHANNEL_DEPTH <=? Z.of_nat (length (ch_queue c)))) eqn:E; [done |].
  bool_to_prop. split_and!; try done. exists c. split_and!; try done. simpl. apply lookup_insert_eq.
Qed.

Lemma packet_counted dst len u :
  let u0 := count (record_traffic (sa_ip dst) len) (count (add BYTES_TX len) (count (inc UDP_PACKETS) u)) in
  get UDP_PACKETS (u_stats u0) = (get UDP_PACKETS (u_stats u) + 1) mod 2 ^ 64 /\
  get UDP_ERRORS (u_stats u0) = get UDP_ERRORS (u_stats u).
Proof.
  cbv zeta. simpl. unfold record_traffic. destruct (sa_ip dst); rewrite !get_add, !get_inc; done.
Qed.

(** Offering a packet to the session of its source. *)
Lemma offer_cases opts src msg u :
  udp_inv opts u ->
  forall r, sessions u !! src = Some r ->
  let u' := let '(sent, u) := try_send r msg u in if sent then u else count (inc UDP_ERRORS) u in
  get UDP_PACKETS (u_stats u') = get UDP_PACKETS (u_stats u) /\
  ((exists c, chans u !! r = Some c /\ ch_src c = src /\ is_closed c = false /\
      Z.of_nat (length (ch_queue c)) < SESSION_CHANNEL_DEPTH /\ sessions u' !! src = Some r /\
      chans u' !! r = Some (with_queue (ch_queue c ++ [msg]) c) /\
      get UDP_ERRORS (u_stats u') = get UDP_ERRORS (u_stats u)) \/
   get UDP_ERRORS (u_stats u') = (get UDP_ERRORS (u_stats u) + 1) mod 2 ^ 64).
Proof.
  intros Hi r Hr. pose proof (try_send_cases r msg u) as H. destruct (try_send r msg u) as [[] u'].
  - destruct H as (Hs & Hss & c & Hc & Ho & Hl & Hc'). cbv zeta. rewrite Hs. split; [done |]. left. exists c.
    destruct (ui_chan _ _ Hi _ _ Hr) as (c0 & Hc0 & Hsrc). split_and!; try done; [congruence | by rewrite Hss].
  - destruct H as (_ & _ & ->). cbv zeta. simpl. rewrite !get_inc. split; [done | by right].
Qed.

(** ** Properties *)

(** C6. The relay's load is bounded: at every moment of every execution
    (with a limit that is not negative) there are at most [max_sessions]
    sessions in the table, at most as many session tasks running, and at
    most as many DNS queries, whose permits are all given back; and there is
    never more than one running session for a source address, the one in
    the table, so a report of an old session cannot remove it. *)
Theorem udp_load_bounded (opts : UdpOptions) (logger : Logger.t) (s : Counters) (log : Log)
    (acts : list UdpAct) (u : Udp) (out : list UdpOut) :
  0 <= max_sessions opts ->
  udp_run opts logger acts (ustart opts s log) = Some (u, out) ->
  Z.of_nat (size (sessions u)) <= max_sessions opts /\
  Z.of_nat (size (open_chans u)) <= max_sessions opts /\
  Z.of_nat (size (dns_tasks u)) + dns_permits u = max_sessions opts /\ 0 <= dns_permits u /\
  (forall r r' c c', chans u !! r = Some c -> chans u !! r' = Some c' ->
     is_closed c = false -> is_closed c' = false -> ch_src c = ch_src c' -> r = r') /\
  (forall dead r c, chans u !! r = Some c -> is_closed c = false ->
     sessions (handle_done dead u) !! ch_src c = Some r).
Proof.
  intros Hmax Hu. apply reachable_inv in Hu as Hi.
  pose proof (open_chans_le opts u Hi) as Hle. pose proof (ui_size _ _ Hi) as Hsz.
  pose proof (ui_dns _ _ Hi). split_and!; try lia.
  - by apply (ui_permits _ _ Hi).
  - intros r r' c c' Hr Hr' Ho Ho' Hs.
    pose proof (ui_open _ _ Hi _ _ Hr Ho). pose proof (ui_open _ _ Hi _ _ Hr' Ho'). congruence.
  - intros dead r c Hr Ho. apply (ui_open opts); [by apply handle_done_inv | | done].
    unfold handle_done. repeat case_match; done.
Qed.

(** No packet is lost without being counted: every packet adds one to
    the packets, and a packet that is not for the DNS pool is afterwards at
    the end of the queue of a running session for its source (the queue as
    it was, or a new one), or else one more error has been counted. *)
Theorem packet_accounted (opts : UdpOptions) (logger : Logger.t) (s : Counters) (log : Log)
    (acts : list UdpAct) (u : Udp) (out : list UdpOut)
    (proxy : ProxyConfig) (payload : list byte) (src dst : SocketAddr) :
  udp_run opts logger acts (ustart opts s log) = Some (u, out) ->
  let u' := handle_packet opts logger proxy payload src dst u in
  get UDP_PACKETS (u_stats u') = (get UDP_PACKETS (u_stats u) + 1) mod 2 ^ 64 /\
  (dns_over_tcp opts && (sa_port dst =? DNS_PORT) = false ->
   queued src dst payload u u' \/
   get UDP_ERRORS (u_stats u') = (get UDP_ERRORS (u_stats u) + 1) mod 2 ^ 64).
Proof.
  intros Hu. apply reachable_inv in Hu as Hi. cbv zeta. unfold handle_packet.
  destruct (packet_counted dst (Z.of_nat (length payload)) u) as [Hp He].
  set (u0 := count (record_traffic _ _) _) in *.
  assert (Hi0 : udp_inv opts u0) by (by repeat apply inv_count).
  assert (Hch : chans u = chans u0) by done. unfold queued. rewrite Hch, <- Hp, <- He.
  clearbody u0. clear Hp He Hch Hi Hu u.
  destruct (dns_over_tcp opts && (sa_port dst =? DNS_PORT)).
  { split; [| done]. case_match; [done |]. simpl. by rewrite !get_inc. }
  destruct (sessions u0 !! src) as [r |] eqn:Hr; [destruct (closed_at u0 r) eqn:Hc |]; cbn [negb].
  2: { destruct (offer_cases opts src (dst, payload) u0 Hi0 r Hr) as [H1 H2]. split; [done |].
       intros _. destruct H2 as [(c & ? & ? & ? & ? & ? & ? & ?) | ?]; [left | by right].
       exists r, (with_queue (ch_queue c ++ [(dst, payload)]) c), (ch_queue c). split_and!; try done.
       - simpl. rewrite length_app. simpl. lia.
       - intros. by simplify_eq. }
  all: case_match eqn:Hmax; bool_to_prop;
    [split; [simpl; by rewrite get_inc | intros _; right; simpl; by rewrite get_inc] |].
  all: pose proof (spawn_inv opts src proxy u0 Hi0) as Hsp; unfold spawn_session in *;
    set (n := fresh (dom (chans u0))) in *;
    assert (Hn : chans u0 !! n = None) by (apply not_elem_of_dom, is_fresh).
  all: cbv zeta in Hsp; specialize (Hsp ltac:(intros; simplify_eq; done) Hmax);
    cbn [sessions with_chans with_sessions] in *; rewrite lookup_insert_eq;
    match type of Hsp with udp_inv _ ?v =>
      destruct (offer_cases opts src (dst, payload) v Hsp n ltac:(apply lookup_insert_eq)) as [H1 H2] end.
  all: split; [done |]; intros _;
    destruct H2 as [(c & Hcn & ? & ? & ? & ? & ? & ?) | ?]; [left | by right];
    exists n, (with_queue (ch_queue c ++ [(dst, payload)]) c), (ch_queue c); split_and!; try done;
    [simpl; rewrite length_app; simpl; lia | intros; by simplify_eq].
Qed.

Lemma udp_load_bounded_witness :
  let opts := mkOpts 60 1 true in
  let src := SocketAddr_new (V4 167772161) 4000 in
  let dst := SocketAddr_new (V4 134744072) 443 in
  let u := handle_packet opts (Logger.mk false) Socks.example_proxy [] src dst (ustart opts zero_counters []) in
  Z.of_nat (size (sessions u)) <= 1 /\ size (sessions u) = 1%nat.
Proof.
  cbv zeta. split; [| vm_compute; reflexivity].
  apply (udp_load_bounded (mkOpts 60 1 true) (Logger.mk false) zero_counters []
    [TakePacket Socks.example_proxy ([], SocketAddr_new (V4 167772161) 4000, SocketAddr_new (V4 134744072) 443)]
    (handle_packet (mkOpts 60 1 true) (Logger.mk false) Socks.example_proxy []
      (SocketAddr_new (V4 167772161) 4000) (SocketAddr_new (V4 134744072) 443)
      (ustart (mkOpts 60 1 true) zero_counters [])) []).
  - vm_compute. congruence.
  - reflexivity.
Defined.

Lemma packet_accounted_witness :
  let opts := mkOpts 60 0 true in
  let src := SocketAddr_new (V4 167772161) 4000 in
  let dst := SocketAddr_new (V4 134744072) 443 in
  let u := ustart opts zero_counters [] in
  let u' := handle_packet opts (Logger.mk false) Socks.example_proxy [] src dst u in
  get UDP_PACKETS (u_stats u') = 1 /\
  (queued src dst [] u u' \/ get UDP_ERRORS (u_stats u') = 1).
Proof.
  cbv zeta.
  destruct (packet_accounted (mkOpts 60 0 true) (Logger.mk false) zero_counters [] []
    (ustart (mkOpts 60 0 true) zero_counters []) [] Socks.example_proxy []
    (SocketAddr_new (V4 167772161) 4000) (SocketAddr_new (V4 134744072) 443) eq_refl) as [H1 H2].
  split; [exact H1 |]. apply H2. reflexivity.
Defined.

(** The datagrams a run of events sends, and the replies it passes on. *)
Definition outbound_of (e : SessionEvent) : list (SocketAddr * list byte) :=
  match e with Outbound dst payload (Ok _) => [(dst, payload)] | _ => [] end.

Definition inbound_of (src : SocketAddr) (e : SessionEvent) : list UdpMsg :=
  match e with
  | Datagram (Ok buf) true =>
      match decode_udp buf with Some (Some (remote, data)) => [(data, remote, src)] | _ => [] end
  | _ => []
  end.

Definition dst_wf (e : SessionEvent) : Prop :=
  match e with Outbound dst _ _ => sockaddr_wf dst | _ => True end.

Lemma session_event_spec src e buf :
  dst_wf e ->
  exists r buf' sent replies, session_event src e buf = Some (r, buf', sent, replies) /\
    decode_udp <$> sent = (fun '(d, p) => Some (Some (SocketAddr_new (sa_ip d) (sa_port d), p))) <$> outbound_of e /\
    replies = inbound_of src e.
Proof.
  intros Hw. destruct e as [dst payload [[] | e] | | [b | e] ok | [n | e] |]; simpl in *;
    try (by do 4 eexists).
  - do 4 eexists. split; [done |]. split; [| done]. simpl. rewrite encode_udp_frame. by rewrite decode_udp_frame.
  - destruct (decode_udp_total b) as [[[remote data] |] Hd]; rewrite Hd; destruct ok; by do 4 eexists.
Qed.

(** A session relays faithfully in both directions: once it is open, for any events with
    well-formed destinations it never panics; up to the event that ends it,
    the datagrams it sends to the relay decode to exactly the packets it was
    given, in order, and it passes on exactly the payloads of the relay's
    datagrams that decode, each addressed to the session's own source. *)
Theorem session_relays (src relay : SocketAddr) (assoc : result SocketAddr)
    (bind connect : SocketAddr -> Result string unit) (es : list SessionEvent) :
  session_open assoc bind connect = Ok relay -> Forall dst_wf es ->
  exists r sent replies handled rest,
    session_task src assoc bind connect es = Some (r, sent, replies) /\ es = handled ++ rest /\
    decode_udp <$> sent =
      (fun '(d, p) => Some (Some (SocketAddr_new (sa_ip d) (sa_port d), p))) <$> (handled ≫= outbound_of) /\
    replies = handled ≫= inbound_of src /\ (r = None -> rest = []).
Proof.
  intros Ho Hw. unfold session_task. rewrite Ho. generalize (@nil byte) as buf.
  induction Hw as [| e es He Hes IH]; intros buf.
  - by exists None, [], [], [], [].
  - destruct (session_event_spec src e buf He) as (r & buf' & sent & replies & E & Hs & Hr).
    cbn [session_loop]. rewrite E. destruct r as [r |].
    + exists (Some r), sent, replies, [e], es. split_and!; try done.
      * rewrite bind_cons, app_nil_r. done.
      * rewrite bind_cons, app_nil_r. done.
    + destruct (IH buf') as (r & sent' & replies' & handled & rest & E' & -> & Hs' & Hr' & Hn).
      rewrite E'. exists r, (sent ++ sent'), (replies ++ replies'), (e :: handled), rest. split_and!; try done.
      * by rewrite bind_cons, !fmap_app, Hs, Hs'.
      * by rewrite bind_cons, Hr, Hr'.
Qed.

Lemma session_relays_witness :
  let dst := SocketAddr_new (V4 134744072) 443 in
  exists r sent replies handled rest,
    session_task dst (Ok dst) (fun _ => Ok tt) (fun _ => Ok tt) [Outbound dst [Byte.x01] (Ok tt); IdleTimeout] =
      Some (r, sent, replies) /\
    [Outbound dst [Byte.x01] (Ok tt); IdleTimeout] = handled ++ rest /\ (r = None -> rest = []).
Proof.
  cbv zeta.
  destruct (session_relays (SocketAddr_new (V4 134744072) 443) (SocketAddr_new (V4 134744072) 443)
    (Ok (SocketAddr_new (V4 134744072) 443)) (fun _ => Ok tt) (fun _ => Ok tt)
    [Outbound (SocketAddr_new (V4 134744072) 443) [Byte.x01] (Ok tt); IdleTimeout]) as (r & s & p & h & t & H1 & H2 & _ & _ & H3).
  - reflexivity.
  - repeat constructor; vm_compute; intuition congruence.
  - exists r, s, p, h, t. auto.
Defined.
