(* ===== verification/UdpNat.v ===== *)
(** * The UDP relay as an address translator ([src/udp.rs])

    What the relay promises, whatever its table, channels and tasks do: the
    packets of a source go to the relay in the order they came, each at most
    once and from no other source; what the network stack is given is what
    came back for that source; a DNS query is answered at most once. *)

From Stdlib Require Import ZArith Lia.
From Stdlib Require Import Strings.Ascii Strings.String.
From stdpp Require Import base decidable list strings gmap fin_maps sorting.
From S2P Require Import Prelude StdNet Config Logging Stats Socks Udp.
#[local] Open Scope Z_scope.

(** ** Specification *)

Section Spec.
Context (opts : UdpOptions).

Definition for_dns (dst : SocketAddr) : bool := dns_over_tcp opts && (sa_port dst =? DNS_PORT).

(** The packets of [src] that are to be relayed, and the DNS queries. *)
Definition offered (src : SocketAddr) (a : UdpAct) : list (SocketAddr * list byte) :=
  match a with
  | TakePacket _ (payload, src', dst) =>
      if for_dns dst then [] else if decide (src' = src) then [(dst, payload)] else []
  | _ => []
  end.

Definition asked (a : UdpAct) : list (SocketAddr * SocketAddr * list byte) :=
  match a with
  | TakePacket _ (payload, src, dst) => if for_dns dst then [(dst, src, payload)] else []
  | _ => []
  end.

Definition answered (a : UdpAct) : list (SocketAddr * SocketAddr * list byte) :=
  match a with DnsEnds _ dst src query _ => [(dst, src, query)] | _ => [] end.

(** What came back: the payload of a relay's datagram, for the source of the
    session it came to, and the answer of a DNS query, for the source that
    asked and from the server it asked. *)
Definition came_back (a : UdpAct) : list UdpMsg :=
  match a with
  | SessionMoves src _ e => inbound_of src e
  | DnsEnds _ dst src _ (Ok resp) => [(resp, dst, src)]
  | _ => []
  end.

(** The outputs: the datagrams of a source's sessions, and the packets for the
    network stack. *)
Definition relayed (src : SocketAddr) (o : UdpOut) : list (list byte) :=
  match o with ToRelay src' bytes => if decide (src' = src) then [bytes] else [] | ToStack _ => [] end.

Definition stacked (o : UdpOut) : list UdpMsg :=
  match o with ToStack msg => [msg] | ToRelay _ _ => [] end.

(** A datagram that carries a packet. *)
Definition carries (bytes : list byte) (p : SocketAddr * list byte) : Prop :=
  decode_udp bytes = Some (Some (SocketAddr_new (sa_ip p.1) (sa_port p.1), p.2)).

Definition act_wf (a : UdpAct) : Prop :=
  match a with TakePacket _ (_, _, dst) => sockaddr_wf dst | _ => True end.
End Spec.

(** The packets a live session of [src] still has to send. *)
Definition waiting (u : Udp) (src : SocketAddr) : list (SocketAddr * list byte) :=
  match sessions u !! src with
  | Some r => match chans u !! r with Some c => if is_closed c then [] else ch_queue c | None => [] end
  | None => []
  end.

(** ** Lemmas: one action *)

Section Flow.
Context (opts : UdpOptions) (logger : Logger.t).

Lemma waiting_count f u src : waiting (count f u) src = waiting u src.
Proof. done. Qed.

(** A channel that was in the table changes. *)
Lemma waiting_chan r c c' u src :
  chans u !! r = Some c -> sessions u !! src = Some r ->
  waiting (with_chan r c' u) src = (if is_closed c' then [] else ch_queue c') /\
  waiting u src = (if is_closed c then [] else ch_queue c).
Proof. intros Hr Hs. unfold waiting. cbn. rewrite Hs, lookup_insert_eq, Hr. done. Qed.

Lemma waiting_other r c u src :
  sessions u !! src <> Some r -> waiting (with_chan r c u) src = waiting u src.
Proof.
  intros Hs. unfold waiting. cbn. destruct (sessions u !! src) as [r' |]; [| done].
  by rewrite lookup_insert_ne by congruence.
Qed.

(** A task that keeps its queue or ends leaves no more to send. *)
Lemma waiting_shrinks r c c' u src :
  chans u !! r = Some c -> sublist (if is_closed c' then [] else ch_queue c') (if is_closed c then [] else ch_queue c) ->
  sublist (waiting (with_chan r c' u) src) (waiting u src).
Proof.
  intros Hr Hc. destruct (decide (sessions u !! src = Some r)) as [Hs | Hs].
  - by destruct (waiting_chan r c c' u src Hr Hs) as [-> ->].
  - by rewrite waiting_other.
Qed.

Lemma waiting_done dead u src : waiting (handle_done dead u) src = waiting u src.
Proof.
  unfold handle_done. destruct (sessions u !! dead) as [r |] eqn:Hd; [| done].
  destruct (closed_at u r) eqn:Hc; [| done]. unfold waiting. cbn.
  destruct (decide (src = dead)) as [-> | Hne]; [| by rewrite lookup_delete_ne].
  rewrite lookup_delete_eq, Hd. unfold closed_at in Hc. destruct (chans u !! r); by rewrite ?Hc.
Qed.

Lemma waiting_try_send r msg u src :
  sublist (waiting (snd (try_send r msg u)) src)
    (waiting u src ++ if decide (sessions u !! src = Some r) then [msg] else []).
Proof.
  unfold try_send. destruct (chans u !! r) as [c |] eqn:Hr; [| by apply sublist_inserts_r].
  case_match eqn:E; [by apply sublist_inserts_r |]. apply orb_false_iff in E as [E _]. cbn [snd]. case_decide as Hs.
  - destruct (waiting_chan r c (with_queue (ch_queue c ++ [msg]) c) u src Hr Hs) as [-> ->].
    change (is_closed (with_queue (ch_queue c ++ [msg]) c)) with (is_closed c). by rewrite E.
  - rewrite waiting_other by done. by rewrite app_nil_r.
Qed.

Lemma waiting_spawn src proxy u src' :
  (match sessions u !! src with Some r => negb (closed_at u r) | None => false end) = false ->
  (forall src r, sessions u !! src = Some r -> exists c, chans u !! r = Some c) ->
  let '(r, v) := spawn_session src proxy u in
  waiting (with_sessions (<[src := r]> (sessions v)) v) src' = waiting u src'.
Proof.
  intros Hl Hc. unfold spawn_session, waiting. set (r := fresh _). cbn.
  assert (Hr : chans u !! r = None) by apply not_elem_of_dom, is_fresh.
  destruct (decide (src' = src)) as [-> | Hne].
  - rewrite lookup_insert_eq, lookup_insert_eq. cbn. destruct (sessions u !! src) as [r' |]; [| done].
    apply negb_false_iff in Hl. unfold closed_at in Hl. by destruct (chans u !! r'); rewrite ?Hl.
  - rewrite lookup_insert_ne by done. destruct (sessions u !! src') as [r' |] eqn:E; [| done].
    destruct (Hc _ _ E) as [c E']. by rewrite lookup_insert_ne by congruence.
Qed.

(** Offering a packet to the session that the table has for its source. *)
Lemma waiting_offer opts' src msg u src' :
  udp_inv opts' u ->
  sublist (waiting (match sessions u !! src with
                    | Some r => let '(sent, u) := try_send r msg u in if sent then u else count (inc UDP_ERRORS) u
                    | None => u
                    end) src')
    (waiting u src' ++ if decide (src = src') then [msg] else []).
Proof.
  intros Hi. destruct (sessions u !! src) as [r |] eqn:Hr; [| by apply sublist_inserts_r].
  pose proof (waiting_try_send r msg u src') as H.
  assert (E : (if decide (sessions u !! src' = Some r) then [msg] else []) = if decide (src = src') then [msg] else []).
  { case_decide as Hs; case_decide as Hd; try done.
    - destruct (ui_chan _ _ Hi _ _ Hr) as (c & Hc & <-), (ui_chan _ _ Hi _ _ Hs) as (c' & Hc' & <-). simplify_eq.
    - by subst. }
  rewrite E in H. by destruct (try_send r msg u) as [[] v].
Qed.

Lemma waiting_packet proxy payload src dst u src' :
  udp_inv opts u ->
  sublist (waiting (handle_packet opts logger proxy payload src dst u) src')
    (waiting u src' ++ offered opts src' (TakePacket proxy (payload, src, dst))).
Proof.
  intros Hi. unfold handle_packet. set (u0 := count (record_traffic _ _) _).
  assert (Hi0 : udp_inv opts u0) by by repeat apply inv_count.
  change (waiting u src') with (waiting u0 src'). clearbody u0. clear u Hi. cbn [offered]. unfold for_dns.
  destruct (dns_over_tcp opts && (sa_port dst =? DNS_PORT)).
  { rewrite app_nil_r. by case_match. }
  set (live := match sessions u0 !! src with Some r => negb (closed_at u0 r) | None => false end).
  destruct live eqn:Hlive; [by eapply waiting_offer |].
  case_match eqn:Hmax; bool_to_prop; [by apply sublist_inserts_r |].
  pose proof (waiting_spawn src proxy u0 src' Hlive) as Hw.
  pose proof (spawn_inv opts src proxy u0 Hi0) as Hs.
  destruct (spawn_session src proxy u0) as [r u1]. rewrite <- Hw.
  - eapply waiting_offer, Hs; [| lia]. intros r' Hr'. unfold live in Hlive. rewrite Hr' in Hlive. by apply negb_false_iff.
  - intros s r' Hr'. destruct (ui_chan _ _ Hi0 _ _ Hr') as (c & ? & _). eauto.
Qed.

Lemma waiting_ended src res u src' : waiting (session_ended logger src res u) src' = waiting u src'.
Proof. by destruct res. Qed.

Lemma waiting_replies l b u src : waiting (with_replies l b u) src = waiting u src.
Proof. done. Qed.

Lemma waiting_moved src r c c' (res : option (result unit)) v src' :
  chans v !! r = Some c -> sessions v !! src = Some r -> (forall s, sessions v !! s = Some r -> s = src) ->
  ch_phase c' = Relaying ->
  waiting (match res with
           | None => with_chan r c' v
           | Some res => session_ended logger src res (with_chan r (with_task Returned c') v)
           end) src' =
  if decide (src' = src) then (match res with Some _ => [] | None => ch_queue c' end) else waiting v src'.
Proof.
  intros Hr Hs Hu Hp. destruct res; rewrite ?waiting_ended; case_decide as Hd;
    try (by rewrite waiting_other by naive_solver); subst src'.
  - by destruct (waiting_chan r c (with_task Returned c') v src Hr Hs) as [-> _].
  - destruct (waiting_chan r c c' v src Hr Hs) as [-> _]. unfold is_closed. by rewrite Hp.
Qed.

(** What a session sends in an event was at the head of its queue. *)
Lemma event_sends u r c src e res enc sent replies :
  event_ready u r c e = true -> session_event src e (ch_enc c) = Some (res, enc, sent, replies) ->
  Forall (sockaddr_wf ∘ fst) (ch_queue c) ->
  exists new, Forall2 carries sent new /\
    sublist (new ++ match res with Some _ => [] | None => ch_queue (after_event e enc c) end) (ch_queue c).
Proof.
  intros Hready He Hwf. destruct e as [dst payload [[] | e] | | [buf | e] ok | [n | e] |]; cbn in *; simplify_eq.
  - apply bool_decide_eq_true in Hready. destruct (ch_queue c) as [| m q]; simplify_eq/=.
    exists [(dst, payload)]. split; [| done]. constructor; [| constructor].
    unfold carries. rewrite encode_udp_frame. apply Forall_cons in Hwf as [Hwf _]. by apply decode_udp_frame.
  - exists []. split; [constructor | apply sublist_nil_l].
  - exists []. split; [constructor | apply sublist_nil_l].
  - exists []. destruct (decode_udp buf) as [[[remote data] |] |]; [destruct ok | |]; simplify_eq;
      (split; [constructor | cbn; done || apply sublist_nil_l]).
  - exists []. split; [constructor | apply sublist_nil_l].
  - exists []. destruct (n =? 0); (split; [constructor | cbn; done || apply sublist_nil_l]).
  - exists []. split; [constructor | apply sublist_nil_l].
  - exists []. split; [constructor | apply sublist_nil_l].
Qed.

Lemma relayed_tag src src' (sent : list (list byte)) :
  (ToRelay src <$> sent) ≫= relayed src' = if decide (src' = src) then sent else [].
Proof.
  induction sent as [| b l IH]; [by case_decide |]. rewrite fmap_cons, bind_cons, IH. cbn [relayed].
  repeat case_decide; subst; done.
Qed.

Lemma moves_flow r c e u u' out src' :
  udp_inv opts u -> session_moves logger (ch_src c) r c e u = Some (u', out) -> chans u !! r = Some c ->
  ch_phase c = Relaying -> (forall s, Forall (sockaddr_wf ∘ fst) (waiting u s)) ->
  exists new, Forall2 carries (out ≫= relayed src') new /\ sublist (new ++ waiting u' src') (waiting u src').
Proof.
  unfold session_moves. intros Hi H Hr Hp Hwf. destruct (event_ready u r c e) eqn:Hready; [| done].
  destruct (session_event _ e (ch_enc c)) as [[[[res enc] sent] replies] |] eqn:He; [| done].
  injection H as <- <-. assert (Ho : is_closed c = false) by (unfold is_closed; by rewrite Hp).
  assert (Hs : sessions u !! ch_src c = Some r) by by eapply ui_open.
  assert (Hq : waiting u (ch_src c) = ch_queue c) by (unfold waiting; by rewrite Hs, Hr, Ho).
  set (v := with_replies _ _ u). rewrite (waiting_moved (ch_src c) r c (after_event e enc c) res v src');
    [| done | done | | by rewrite after_event_phase].
  2: { intros s Hs'. destruct (ui_chan _ _ Hi _ _ Hs') as (c' & Hc' & <-). by simplify_eq. }
  rewrite relayed_tag. case_decide as Hd.
  - subst src'. rewrite Hq. eapply event_sends; [exact Hready | exact He |]. rewrite <- Hq. apply Hwf.
  - exists []. split; [constructor | done].
Qed.

(** Every action sends on the packets of a source in order, and takes up at
    most what it is offered. *)
Lemma act_flow a u u' out src :
  udp_inv opts u -> udp_act opts logger a u = Some (u', out) ->
  (forall s, Forall (sockaddr_wf ∘ fst) (waiting u s)) ->
  exists new, Forall2 carries (out ≫= relayed src) new /\
    sublist (new ++ waiting u' src) (waiting u src ++ offered opts src a).
Proof.
  intros Hi H Hwf.
  assert (Hnone : out = [] -> sublist (waiting u' src) (waiting u src ++ offered opts src a) ->
    exists new, Forall2 carries (out ≫= relayed src) new /\ sublist (new ++ waiting u' src) (waiting u src ++ offered opts src a)).
  { intros ->. exists []. split; [constructor | done]. }
  destruct a as [| proxy [[payload src0] dst] | r | r assoc bind connect | src0 r e | r | msg taken | n dst src0 query resolved];
    cbn [udp_act task_act] in H.
  - destruct (done_q u) as [| dead l]; [done |]. injection H as <- <-. apply Hnone; [done |].
    rewrite waiting_done. cbn [offered]. by rewrite app_nil_r.
  - injection H as <- <-. apply Hnone; [done |]. by apply waiting_packet.
  - destruct (in_phase Spawned r u) as [c |] eqn:E; [| done]. apply in_phase_Some in E as [Hr Hp]. injection H as <- <-.
    apply Hnone; [done |]. cbn [offered]. rewrite app_nil_r, waiting_count. apply (waiting_shrinks r c); [done |].
    unfold is_closed. by rewrite Hp.
  - destruct (in_phase Opening r u) as [c |] eqn:E; [| done]. apply in_phase_Some in E as [Hr Hp]. injection H as <- <-.
    apply Hnone; [done |]. cbn [offered]. rewrite app_nil_r.
    destruct (session_open assoc bind connect).
    + apply (waiting_shrinks r c); [done |]. unfold is_closed. by rewrite Hp.
    + apply (waiting_shrinks r c (with_task Returned c) u src Hr), sublist_nil_l.
  - destruct (in_phase Relaying r u) as [c |] eqn:E; [| done]. apply in_phase_Some in E as [Hr Hp].
    case_decide; [| done]. subst src0. cbn [offered]. rewrite app_nil_r. by eapply moves_flow.
  - destruct (in_phase Returned r u) as [c |] eqn:E; [| done]. apply in_phase_Some in E as [Hr Hp].
    case_match; [| done]. injection H as <- <-. apply Hnone; [done |]. cbn [offered]. rewrite app_nil_r.
    apply (waiting_shrinks r c (with_task Reported c) u src Hr), sublist_nil_l.
  - destruct (reply_q u) as [| msg' l]; [done |]. case_match; [| done]. injection H as <- <-.
    exists []. split; [by destruct taken |]. cbn [offered]. rewrite app_nil_r. by destruct taken.
  - case_decide; [| done]. destruct (dns_query_pooled _ _ _ _ _ _) as [v |] eqn:E; [| done]. injection H as <- <-.
    apply dns_query_pooled_shape in E as (? & ? & ? & ? & -> & _).
    apply Hnone; [done |]. cbn [offered]. by rewrite app_nil_r.
Qed.

Lemma offered_wf l src : Forall act_wf l -> Forall (sockaddr_wf ∘ fst) (l ≫= offered opts src).
Proof.
  induction 1 as [| a l Ha _ IH]; [constructor |]. rewrite bind_cons. apply Forall_app. split; [| done].
  destruct a as [| proxy [[payload src'] dst] | | | | | |]; cbn; try constructor.
  case_match; [constructor |]. case_decide; [| constructor]. by constructor.
Qed.

(** *** Replies *)

(** What was given to the stack and what waits to be are what came back; once
    the writer is gone, the former is a prefix of it. *)
Definition replies_kept (l : list UdpAct) (u : Udp) (out : list UdpOut) : Prop :=
  if writing u then (out ≫= stacked) ++ reply_q u = l ≫= came_back
  else (out ≫= stacked) `prefix_of` (l ≫= came_back).

Lemma stacked_tag src (sent : list (list byte)) : (ToRelay src <$> sent) ≫= stacked = [].
Proof. by induction sent. Qed.

(** An action that leaves the replies alone, or adds what came back. *)
Lemma replies_added l u out a u' out' :
  replies_kept l u out -> out' ≫= stacked = [] -> writing u' = writing u ->
  (writing u = true -> reply_q u' = reply_q u ++ came_back a) ->
  replies_kept (l ++ [a]) u' (out ++ out').
Proof.
  unfold replies_kept. intros H Hs Hw Hq. rewrite Hw, !bind_app, Hs, app_nil_r, bind_cons. cbn [mbind list_bind].
  rewrite app_nil_r. destruct (writing u); [rewrite Hq by done; by rewrite app_assoc, H | by apply prefix_app_r].
Qed.

Lemma packet_replies proxy payload src dst u :
  let u' := handle_packet opts logger proxy payload src dst u in
  reply_q u' = reply_q u /\ writing u' = writing u.
Proof. unfold handle_packet, try_send, spawn_session. repeat (case_match; simplify_eq; try done). Qed.

Lemma done_replies dead u : reply_q (handle_done dead u) = reply_q u /\ writing (handle_done dead u) = writing u.
Proof. unfold handle_done. by repeat case_match. Qed.

Lemma event_replies u r c src e res enc sent replies :
  event_ready u r c e = true -> session_event src e (ch_enc c) = Some (res, enc, sent, replies) ->
  replies = inbound_of src e /\ (writing u = false -> replies = []).
Proof.
  intros Hready He. destruct e as [dst payload [[] | e] | | [buf | e] ok | [n | e] |]; cbn in *; simplify_eq; try done.
  destruct (decode_udp buf) as [[[remote data] |] |]; simplify_eq; [| by destruct ok].
  destruct ok; simplify_eq; [| done]. split; [done |]. intros Hw. rewrite Hw in Hready. by rewrite andb_false_r in Hready.
Qed.

Lemma moves_replies r c e u u' out :
  session_moves logger (ch_src c) r c e u = Some (u', out) ->
  out ≫= stacked = [] /\ writing u' = writing u /\ reply_q u' = reply_q u ++ inbound_of (ch_src c) e.
Proof.
  unfold session_moves. intros H. destruct (event_ready u r c e) eqn:Hready; [| done].
  destruct (session_event _ e (ch_enc c)) as [[[[res enc] sent] replies] |] eqn:He; [| done].
  destruct (event_replies _ _ _ _ _ _ _ _ _ Hready He) as [<- _]. injection H as <- <-.
  split; [apply stacked_tag |]. by destruct res as [[] |].
Qed.

Lemma act_replies l u out a u' out' :
  replies_kept l u out -> udp_act opts logger a u = Some (u', out') -> replies_kept (l ++ [a]) u' (out ++ out').
Proof.
  intros Hk H.
  destruct a as [| proxy [[payload src0] dst] | r | r assoc bind connect | src0 r e | r | msg taken | n dst src0 query resolved];
    cbn [udp_act task_act] in H.
  - destruct (done_q u) as [| dead q]; [done |]. injection H as <- <-.
    destruct (done_replies dead (with_done q u)) as [H1 H2]. eapply replies_added; [exact Hk | done | done |].
    intros _. rewrite H1. cbn. by rewrite app_nil_r.
  - injection H as <- <-. destruct (packet_replies proxy payload src0 dst u) as [H1 H2].
    eapply replies_added; [exact Hk | done | done |]. intros _. rewrite H1. cbn. by rewrite app_nil_r.
  - destruct (in_phase Spawned r u) as [c |]; [| done]. injection H as <- <-.
    eapply replies_added; [exact Hk | done | done |]. intros _. cbn. by rewrite app_nil_r.
  - destruct (in_phase Opening r u) as [c |]; [| done]. injection H as <- <-.
    eapply replies_added; [exact Hk | done | |]; destruct (session_open assoc bind connect); try done;
      intros _; cbn; by rewrite app_nil_r.
  - destruct (in_phase Relaying r u) as [c |] eqn:E; [| done]. case_decide; [| done]. subst src0.
    apply moves_replies in H as (H1 & H2 & H3). eapply replies_added; [exact Hk | done | done |]. done.
  - destruct (in_phase Returned r u) as [c |]; [| done]. case_match; [| done]. injection H as <- <-.
    eapply replies_added; [exact Hk | done | done |]. intros _. cbn. by rewrite app_nil_r.
  - destruct (reply_q u) as [| msg' q] eqn:Hq; [done |]. case_match eqn:E; [| done]. injection H as <- <-.
    apply andb_true_iff in E as [->%bool_decide_eq_true Hw]. unfold replies_kept in *. rewrite Hw, Hq in Hk.
    rewrite !bind_app, bind_cons, <- Hk. cbn [came_back mbind list_bind]. rewrite !app_nil_r. destruct taken; cbn.
    + by rewrite <- app_assoc.
    + rewrite app_nil_r. by apply prefix_app_r.
  - case_decide; [| done]. destruct (dns_query_pooled _ _ _ _ _ _) as [v |] eqn:E; [| done]. injection H as <- <-.
    apply dns_query_pooled_shape in E as (q & up & f & g & -> & Hcase). cbn.
    destruct Hcase as [(-> & -> & He) | (resp & -> & Hw & -> & ->)];
      (eapply replies_added; [exact Hk | done | cbn; congruence |]); intros Hw'; [| done].
    destruct (He Hw') as [e ->]. cbn. by rewrite app_nil_r.
Qed.

(** *** DNS queries *)

Definition dns_kept (l : list UdpAct) (u : Udp) : Prop :=
  (l ≫= answered) ++ (map_to_list (dns_tasks u)).*2 ⊆+ l ≫= asked opts.

Lemma task_dns a u u' out :
  task_act logger a u = Some (u', out) -> answered a = [] -> dns_tasks u' = dns_tasks u.
Proof.
  intros H Ha. destruct a; cbn [task_act] in H; try done.
  - by case_match; simplify_eq.
  - case_match; simplify_eq. by destruct (session_open assoc bind connect).
  - case_match; [| done]. case_decide; [| done]. unfold session_moves in H. case_match; [| done].
    destruct (session_event _ _ _) as [[[[res enc] sent] replies] |]; [| done]. simplify_eq. by destruct res as [[] |].
  - by repeat case_match; simplify_eq.
  - repeat case_match; simplify_eq; done.
Qed.

Lemma packet_dns proxy payload src dst u :
  exists new, asked opts (TakePacket proxy (payload, src, dst)) = new ++ drop (length new) (asked opts (TakePacket proxy (payload, src, dst))) /\
  (map_to_list (dns_tasks (handle_packet opts logger proxy payload src dst u))).*2 ≡ₚ new ++ (map_to_list (dns_tasks u)).*2.
Proof.
  cbn [asked]. unfold handle_packet. set (u0 := count (record_traffic _ _) _).
  change (dns_tasks u) with (dns_tasks u0). clearbody u0. unfold for_dns.
  destruct (dns_over_tcp opts && (sa_port dst =? DNS_PORT)).
  - case_match; [exists [(dst, src, payload)] | by exists []]. split; [done |]. cbn [dns_tasks with_dns].
    rewrite map_to_list_insert by apply not_elem_of_dom, is_fresh. done.
  - exists []. split; [done |]. unfold try_send, spawn_session. repeat (case_match; simplify_eq; try done).
Qed.

Lemma act_dns l u a u' out' :
  dns_kept l u -> udp_act opts logger a u = Some (u', out') -> dns_kept (l ++ [a]) u'.
Proof.
  unfold dns_kept. intros Hk H. rewrite !bind_app, !bind_cons. cbn [mbind list_bind]. rewrite !app_nil_r.
  assert (Hsame : answered a = [] -> dns_tasks u' = dns_tasks u -> ((l ≫= answered) ++ answered a) ++
    (map_to_list (dns_tasks u')).*2 ⊆+ (l ≫= asked opts) ++ asked opts a).
  { intros -> ->. rewrite app_nil_r. by apply submseteq_inserts_r. }
  destruct a as [| proxy [[payload src] dst] | r | r assoc bind connect | src r e | r | msg taken | n dst src query resolved];
    cbn [udp_act] in H; try (apply Hsame; [done | by eapply task_dns]).
  - destruct (done_q u) as [| dead q]; [done |]. injection H as <- <-. apply Hsame; [done |].
    unfold handle_done. by repeat case_match.
  - injection H as <- <-. destruct (packet_dns proxy payload src dst u) as (new & Hn & ->). cbn [answered].
    rewrite app_nil_r, Hn, (Permutation_app_swap_app (l ≫= answered)), (app_assoc (l ≫= asked opts)).
    apply submseteq_inserts_r. rewrite (Permutation_app_comm (l ≫= asked opts)). by apply submseteq_app.
  - cbn [task_act] in H. case_decide as Hn; [| done]. destruct (dns_query_pooled _ _ _ _ _ _) as [v |] eqn:E; [| done].
    injection H as <- <-. apply dns_query_pooled_shape in E as (? & ? & ? & ? & -> & _). cbn [answered asked].
    rewrite app_nil_r, <- app_assoc. cbn [dns_tasks with_dns app].
    rewrite <- (map_to_list_delete (dns_tasks u) n _ Hn) in Hk. exact Hk.
Qed.

(** ** Runs *)

Lemma run_flow l s log u out src :
  udp_run opts logger l (ustart opts s log) = Some (u, out) -> Forall act_wf l ->
  exists sent, Forall2 carries (out ≫= relayed src) sent /\ sublist (sent ++ waiting u src) (l ≫= offered opts src).
Proof.
  revert u out src. induction l as [| a l IH] using rev_ind; intros u out src H Hwf.
  { injection H as <- <-. exists []. split; [constructor | done]. }
  rewrite udp_run_app in H. destruct (udp_run opts logger l _) as [[v o] |] eqn:E; [| done]. cbn [udp_run] in H.
  destruct (udp_act opts logger a v) as [[w o'] |] eqn:E'; [| done]. injection H as <- <-.
  apply Forall_app in Hwf as [Hwf _].
  assert (Hw : forall s, Forall (sockaddr_wf ∘ fst) (waiting v s)).
  { intros s'. destruct (IH v o s' eq_refl Hwf) as (sent & _ & Hs).
    assert (Ho : Forall (sockaddr_wf ∘ fst) (l ≫= offered opts s')) by (by apply offered_wf).
    rewrite Forall_forall in *. intros x Hx. eapply Ho, elem_of_sublist, Hs. apply elem_of_app. by right. }
  destruct (IH v o src eq_refl Hwf) as (sent & Hc & Hs).
  destruct (act_flow a v w o' src (reachable_inv _ _ _ _ _ _ _ E) E' Hw) as (new & Hc' & Hs').
  exists (sent ++ new). rewrite !bind_app, bind_cons. cbn [mbind list_bind]. rewrite !app_nil_r. split; [by apply Forall2_app |].
  rewrite <- app_assoc. etrans; [by apply sublist_app, Hs' |]. rewrite app_assoc. by apply sublist_app.
Qed.
Lemma run_replies l s log u out :
  udp_run opts logger l (ustart opts s log) = Some (u, out) -> replies_kept l u out.
Proof. apply (udp_run_ind opts logger replies_kept); [by unfold replies_kept |]. eauto using act_replies. Qed.

Lemma run_dns l s log u out : udp_run opts logger l (ustart opts s log) = Some (u, out) -> dns_kept l u.
Proof.
  apply (udp_run_ind opts logger (fun l u _ => dns_kept l u)); [| eauto using act_dns].
  unfold dns_kept. cbn. by rewrite map_to_list_empty.
Qed.

Lemma stacked_prefix l u out : replies_kept l u out -> (out ≫= stacked) `prefix_of` (l ≫= came_back).
Proof. unfold replies_kept. destruct (writing u); [intros <-; by apply prefix_app_r | done]. Qed.

(** A session in its loop can always send the packet at the head of its
    queue. *)
Lemma head_sent l s log u out r c dst payload q :
  udp_run opts logger l (ustart opts s log) = Some (u, out) -> Forall act_wf l ->
  chans u !! r = Some c -> ch_phase c = Relaying -> ch_queue c = (dst, payload) :: q ->
  exists u' bytes, udp_act opts logger (SessionMoves (ch_src c) r (Outbound dst payload (Ok tt))) u =
    Some (u', [ToRelay (ch_src c) bytes]) /\ carries bytes (dst, payload).
Proof.
  intros H Hwf Hr Hp Hq. pose proof (reachable_inv _ _ _ _ _ _ _ H) as Hi.
  assert (Ho : is_closed c = false) by (unfold is_closed; by rewrite Hp).
  assert (Hw : waiting u (ch_src c) = (dst, payload) :: q).
  { unfold waiting. by rewrite (ui_open _ _ Hi _ _ Hr Ho), Hr, Ho. }
  assert (Hd : sockaddr_wf dst).
  { destruct (run_flow _ _ _ _ _ (ch_src c) H Hwf) as (sent & _ & Hs). rewrite Hw in Hs.
    pose proof (offered_wf l (ch_src c) Hwf) as Hf. rewrite Forall_forall in Hf. apply (Hf (dst, payload)).
    eapply elem_of_sublist, Hs. apply elem_of_app. right. left. }
  do 2 eexists. cbn [udp_act task_act].
  rewrite (proj2 (in_phase_Some Relaying r u c) (conj Hr Hp)), decide_True by done.
  unfold session_moves. cbn [event_ready session_event]. rewrite bool_decide_true by by rewrite Hq. split; [done |].
  unfold carries. rewrite encode_udp_frame. by apply decode_udp_frame.
Qed.
End Flow.

(** ** Properties *)

(** C3. The relay is an address translator, in every run with well-formed
    destinations. For each source, the datagrams sent on the sockets of its
    sessions carry packets that this source sent, in the order it sent them
    and each at most once, whatever sessions ended and were opened in
    between; a packet waiting in a session can be sent. What the network
    stack is given is, in order, the payloads of the relays' datagrams,
    addressed to the source of the session each came to, and the answers of
    DNS queries, addressed to who asked; and no query is answered that was
    not asked, or more than once. *)
Theorem udp_translates (opts : UdpOptions) (logger : Logger.t) (s : Counters) (log : Log)
    (acts : list UdpAct) (u : Udp) (out : list UdpOut) :
  udp_run opts logger acts (ustart opts s log) = Some (u, out) -> Forall act_wf acts ->
  (forall src, exists sent, Forall2 carries (out ≫= relayed src) sent /\
     sublist sent (acts ≫= offered opts src)) /\
  (forall r c dst payload q, chans u !! r = Some c -> ch_phase c = Relaying -> ch_queue c = (dst, payload) :: q ->
     exists u' bytes, udp_act opts logger (SessionMoves (ch_src c) r (Outbound dst payload (Ok tt))) u =
       Some (u', [ToRelay (ch_src c) bytes]) /\ carries bytes (dst, payload)) /\
  (out ≫= stacked) `prefix_of` (acts ≫= came_back) /\
  (acts ≫= answered) ⊆+ (acts ≫= asked opts).
Proof.
  intros H Hwf. split_and!.
  - intros src. destruct (run_flow opts logger _ _ _ _ _ src H Hwf) as (sent & Hc & Hs). exists sent.
    split; [done |]. etrans; [| exact Hs]. by apply sublist_inserts_r.
  - eauto using head_sent.
  - eapply stacked_prefix, run_replies, H.
  - etrans; [| eapply run_dns, H]. by apply submseteq_inserts_r.
Qed.

(** ** Witness *)

Module NatExample.
Definition opts : UdpOptions := mkOpts 60 8 true.
Definition logger : Logger.t := Logger.mk false.
Definition host : SocketAddr := SocketAddr_new (V4 167772161) 4000.
Definition web : SocketAddr := SocketAddr_new (V4 134744072) 443.
Definition dns : SocketAddr := SocketAddr_new (V4 134744072) 53.
Definition good (_ : SocketAddr) : Result string unit := Ok tt.

(** A packet is relayed and answered, and a DNS query too. *)
Definition acts : list UdpAct :=
  [TakePacket Socks.example_proxy ([Byte.x07], host, web); StartSession 0; OpenSession 0 (Ok web) good good;
   TakePacket Socks.example_proxy ([Byte.x08], host, dns);
   SessionMoves host 0 (Outbound web [Byte.x07] (Ok tt));
   SessionMoves host 0 (Datagram (Ok (encode_udp web [Byte.x09] [])) true);
   DnsEnds 0 dns host [Byte.x08] (Ok [Byte.x0a]);
   WriteReply ([Byte.x09], web, host) true; WriteReply ([Byte.x0a], dns, host) true].

Definition outputs : list UdpOut :=
  [ToRelay host (encode_udp web [Byte.x07] []); ToStack ([Byte.x09], web, host); ToStack ([Byte.x0a], dns, host)].

Lemma runs : snd <$> udp_run opts logger acts (ustart opts zero_counters []) = Some outputs.
Proof. vm_compute. reflexivity. Qed.

Lemma wf : Forall act_wf acts.
Proof. repeat constructor; vm_compute; intuition congruence. Qed.
End NatExample.

Lemma udp_translates_witness :
  NatExample.outputs ≫= stacked = [([Byte.x09], NatExample.web, NatExample.host); ([Byte.x0a], NatExample.dns, NatExample.host)] /\
  (NatExample.outputs ≫= stacked) `prefix_of` (NatExample.acts ≫= came_back) /\
  exists sent, Forall2 carries (NatExample.outputs ≫= relayed NatExample.host) sent /\
    sublist sent [(NatExample.web, [Byte.x07])].
Proof.
  split; [reflexivity |]. pose proof NatExample.runs as H.
  destruct (udp_run NatExample.opts NatExample.logger NatExample.acts _) as [[u out] |] eqn:E; [| discriminate H].
  injection H as ->.
  destruct (udp_translates _ _ _ _ _ _ _ E NatExample.wf) as (H1 & _ & H2 & _). split; [exact H2 |].
  exact (H1 NatExample.host).
Defined.
