(* ===== verification/DnsRelay.v ===== *)
(** * DNS over the relay, end to end ([src/udp.rs], [src/dns.rs])

    The UDP relay and the DNS pool as one machine: a packet for port 53
    becomes a task of the relay, the task a query of the pool, the result of
    the query a packet for the network stack. What a host is given as a DNS
    answer is the answer of the server it asked to the question it asked, and
    the permits that bound the queries come back. *)

From Stdlib Require Import ZArith Lia.
From Stdlib Require Import Strings.Byte Strings.Ascii Strings.String.
From stdpp Require Import base decidable list strings gmap fin_maps.
From S2P Require Import Prelude StdNet StdText Net Config Logging Stats Socks DnsPool DnsSystem DnsAnswers Udp UdpNat.
#[local] Open Scope Z_scope.

(** ** The machine *)

(** [rl_query] names the query of the pool that a DNS task of the relay
    awaits; [rl_trace] is the relay's part of the run. *)
Record Relay : Type := mkRelay {
  rl_udp : Udp;
  rl_pool : PS;
  rl_query : gmap nat nat;
  rl_trace : list UdpAct;
}.

Inductive RelayAct : Type :=
| UdpMove (a : UdpAct)
| PoolMove (a : PoolAct)
| StartQuery (n : nat)
| EndQuery (n : nat).

(** Ends of DNS tasks and new queries are the machine's own. *)
Definition own_end (a : UdpAct) : bool := match a with DnsEnds _ _ _ _ _ => true | _ => false end.

Section Machine.
Context (opts : UdpOptions) (logger : Logger.t).

(** One action of the relay, kept in the trace. *)
Definition udp_move (a : UdpAct) (s : Relay) : option (Relay * list UdpOut) :=
  match udp_act opts logger a (rl_udp s) with
  | Some (u, out) => Some (mkRelay u (rl_pool s) (rl_query s) (rl_trace s ++ [a]), out)
  | None => None
  end.

(** [dns_query_pooled] calls [pool.resolve(dst, &query)]. *)
Definition start_dns (n : nat) (s : Relay) : option Relay :=
  match dns_tasks (rl_udp s) !! n, rl_query s !! n with
  | Some (dst, _, query), None =>
      let m := fresh (dom (ps_tasks (rl_pool s))) in
      match pool_act (Ask m dst query) (rl_pool s) with
      | Some p => Some (mkRelay (rl_udp s) p (<[n := m]> (rl_query s)) (rl_trace s))
      | None => None
      end
  | _, _ => None
  end.

(** The result of the query the task awaits, if it has one. *)
Definition result_of (n : nat) (s : Relay) : option (result (list byte)) :=
  match rl_query s !! n with
  | Some m => match t_pc <$> ps_tasks (rl_pool s) !! m with Some (Ended res) => Some res | _ => None end
  | None => None
  end.

(** The rest of [dns_query_pooled], with that result. *)
Definition end_dns (n : nat) (s : Relay) : option (Relay * list UdpOut) :=
  match dns_tasks (rl_udp s) !! n, result_of n s with
  | Some (dst, src, query), Some res =>
      match udp_move (DnsEnds n dst src query res) s with
      | Some (s, out) => Some (mkRelay (rl_udp s) (rl_pool s) (delete n (rl_query s)) (rl_trace s), out)
      | None => None
      end
  | _, _ => None
  end.

Definition relay_act (a : RelayAct) (s : Relay) : option (Relay * list UdpOut) :=
  match a with
  | UdpMove a => if own_end a then None else udp_move a s
  | PoolMove a =>
      if is_ask a then None
      else match pool_act a (rl_pool s) with
           | Some p => Some (mkRelay (rl_udp s) p (rl_query s) (rl_trace s), [])
           | None => None
           end
  | StartQuery n => match start_dns n s with Some s => Some (s, []) | None => None end
  | EndQuery n => end_dns n s
  end.

Fixpoint relay_run (l : list RelayAct) (s : Relay) : option (Relay * list UdpOut) :=
  match l with
  | [] => Some (s, [])
  | a :: l =>
      match relay_act a s with
      | Some (s, out) => match relay_run l s with Some (s, out') => Some (s, out ++ out') | None => None end
      | None => None
      end
  end.

(** The network behaves as in [DnsAnswers]. *)
Definition relay_orderly_act (a : RelayAct) (s : Relay) : bool :=
  match a with PoolMove a => orderly_act a (rl_pool s) | _ => true end.

Fixpoint relay_orderly (l : list RelayAct) (s : Relay) : bool :=
  match l with
  | [] => true
  | a :: l => relay_orderly_act a s && match relay_act a s with Some (s, _) => relay_orderly l s | None => true end
  end.

Definition relay_start (proxy : ProxyConfig) (qt it : Z) (st : Counters) (log : Log) : Relay :=
  mkRelay (ustart opts st log) (pstart proxy qt it st) ∅ [].
End Machine.

(** ** Lemmas: what persists *)

(** A task keeps its server and its question, and its result once it has one. *)
Definition continues (t t' : Task) : Prop :=
  t_server t' = t_server t /\ t_query t' = t_query t /\ forall res, t_pc t = Ended res -> t' = t.

Lemma continues_refl t : continues t t.
Proof. done. Qed.

Lemma retry_continues e t : (forall res, t_pc t <> Ended res) -> continues t (retry e t).
Proof. intros H. unfold retry. destruct (t_err t); split_and!; try done; intros res E; by destruct (H res). Qed.

Lemma at_continues pc t : (forall res, t_pc t <> Ended res) -> continues t (at_pc pc t).
Proof. intros H. split_and!; try done. intros res E. by destruct (H res). Qed.

Lemma attempt_step_continues i n t a sl s s' :
  attempt_step i n t a sl s = Some s' ->
  exists t', ps_tasks s' = <[n := t']> (ps_tasks s) /\ continues t t'.
Proof.
  unfold attempt_step. intros H. destruct (t_pc t) eqn:E; try done;
    assert (Hn : forall res, t_pc t <> Ended res) by (intros res; by rewrite E).
  - injection H as <-. eexists. split; [done | by apply at_continues].
  - destruct (ps_writer s !! sl_conn sl); [done |]. injection H as <-. eexists. split; [done | by apply at_continues].
  - destruct (i_write i) as [[[] | e'] |]; [| | done]; injection H as <-; (eexists; split; [done | by apply at_continues]).
  - injection H as <-. eexists. split; [done | by apply at_continues].
  - destruct (ps_rx s !! a); [| destruct (sender_gone a sl s); [| destruct (i_expired i)]]; simplify_eq;
      (eexists; split; [done | by apply at_continues]).
  - injection H as <-. eexists. split; [done |]. destruct fatal; [by apply at_continues | by apply retry_continues].
Qed.

Lemma task_step_continues i n t s s' :
  task_step i n t s = Some s' -> exists t', ps_tasks s' = <[n := t']> (ps_tasks s) /\ continues t t'.
Proof.
  unfold task_step. intros H. destruct (t_pc t) as [| | | | | proxy | r | a | a | a | a | a | a fatal e | res |] eqn:E; try done;
    assert (Hn : forall res, t_pc t <> Ended res) by (intros res'; by rewrite E);
    try (destruct (ps_slots s !! a); [by eapply attempt_step_continues | done]).
  - destruct (DnsPool.try_reuse _ _) as [[[r id] |] p']; injection H as <-; (eexists; split; [done | by apply at_continues]).
  - destruct (ps_lock s); [done |]. injection H as <-. eexists. split; [done | by apply at_continues].
  - destruct (DnsPool.try_reuse _ _) as [[[r id] |] p']; injection H as <-; (eexists; split; [done | by apply at_continues]).
  - case_match; injection H as <-; (eexists; split; [done |]); [by apply retry_continues | by apply at_continues].
  - injection H as <-. eexists. split; [done | by apply at_continues].
  - destruct (DnsPool.open_conn _ _ _) as [[r | e] p']; injection H as <-; (eexists; split; [done |]);
      [by apply at_continues | by apply retry_continues].
  - destruct (DnsPool.register _ _ _) as [[[[r' id] b] | e] p']; injection H as <-; (eexists; split; [done |]);
      [by apply at_continues | by apply retry_continues].
Qed.

Lemma pool_continues a s s' m t :
  pool_act a s = Some s' -> ps_tasks s !! m = Some t ->
  exists t', ps_tasks s' !! m = Some t' /\ continues t t'.
Proof.
  intros H Hm. assert (Hsame : ps_tasks s' = ps_tasks s -> exists t', ps_tasks s' !! m = Some t' /\ continues t t').
  { intros ->. eauto using continues_refl. }
  destruct a as [n server query | n i | r e | proxy | | now]; cbn [pool_act] in H;
    [ | | unfold read_step in H | | |]; try (injection H as <-; by apply Hsame).
  - destruct (ps_tasks s !! n) eqn:Hn; [done |]. injection H as <-. exists t. cbn.
    rewrite lookup_insert_ne by congruence. by split; [| apply continues_refl].
  - destruct (ps_tasks s !! n) as [t0 |] eqn:Hn; [| done]. apply task_step_continues in H as (t' & -> & Hc).
    destruct (decide (m = n)) as [-> | Hne].
    + exists t'. rewrite lookup_insert_eq. simplify_eq. done.
    + exists t. rewrite lookup_insert_ne by done. by split; [| apply continues_refl].
  - destruct (ps_pos s !! r), (heap (ps_pool s) !! r); try done. case_decide; [done |].
    destruct (reader_event _ _ _) as [[? ?] ?]. injection H as <-. by apply Hsame.
Qed.

(** A DNS task of the relay stays until it ends. *)
Lemma dns_task_stays opts logger a u u' out n x :
  udp_act opts logger a u = Some (u', out) -> own_end a = false -> dns_tasks u !! n = Some x -> dns_tasks u' !! n = Some x.
Proof.
  intros H Ha Hn. destruct a as [| proxy [[payload src] dst] | | | | | |]; try done; cbn [udp_act] in H;
    try (by erewrite task_dns).
  - destruct (done_q u) as [| dead q]; [done |]. injection H as <- <-. unfold handle_done. by repeat case_match.
  - injection H as <- <-. unfold handle_packet. set (u0 := count (record_traffic _ _) _).
    change (dns_tasks u) with (dns_tasks u0) in Hn. clearbody u0.
    case_match; [case_match; [| done] | unfold try_send, spawn_session; repeat (case_match; simplify_eq; try done)].
    cbn. rewrite lookup_insert_ne; [done |]. intros E. apply elem_of_dom_2 in Hn. rewrite <- E in Hn. by apply is_fresh in Hn.
Qed.

(** ** Invariant *)

Section Invariant.
Context (opts : UdpOptions) (logger : Logger.t) (st : Counters) (log : Log).

(** A query of the pool with this server and question. *)
Definition asks_for (p : PS) (m : nat) (dst : SocketAddr) (query : list byte) (t : Task) : Prop :=
  ps_tasks p !! m = Some t /\ t_server t = dst /\ t_query t = query.

Record relay_inv (s : Relay) (out : list UdpOut) : Prop := {
  ri_run : udp_run opts logger (rl_trace s) (ustart opts st log) = Some (rl_udp s, out);
  ri_sys : sys_inv (rl_pool s);
  ri_link : forall n m, rl_query s !! n = Some m -> exists dst src query t,
    dns_tasks (rl_udp s) !! n = Some (dst, src, query) /\ asks_for (rl_pool s) m dst query t;
  ri_ends : forall n dst src query res, DnsEnds n dst src query res ∈ rl_trace s ->
    exists m t, asks_for (rl_pool s) m dst query t /\ t_pc t = Ended res;
}.

Lemma asks_continues p p' a m dst query t :
  pool_act a p = Some p' -> asks_for p m dst query t ->
  exists t', asks_for p' m dst query t' /\ (forall res, t_pc t = Ended res -> t_pc t' = Ended res).
Proof.
  intros H (Ht & Hs & Hq). destruct (pool_continues _ _ _ _ _ H Ht) as (t' & Ht' & H1 & H2 & H3).
  exists t'. split; [split_and!; [done | congruence ..] |]. intros res E. by rewrite (H3 res E).
Qed.

(** The pool moves. *)
Lemma inv_pool_move a s p' out q :
  relay_inv s out -> pool_act a (rl_pool s) = Some p' ->
  (forall n m, q !! n = Some m -> rl_query s !! n = Some m \/ exists dst src query t,
     dns_tasks (rl_udp s) !! n = Some (dst, src, query) /\ asks_for p' m dst query t) ->
  relay_inv (mkRelay (rl_udp s) p' q (rl_trace s)) out.
Proof.
  intros [Hr Hs Hl He] H Hq. constructor; cbn; [done | by eapply act_inv | |].
  - intros n m Hn. destruct (Hq n m Hn) as [Hn' | Hn']; [| done].
    destruct (Hl n m Hn') as (dst & src & query & t & Hd & Ht). destruct (asks_continues _ _ _ _ _ _ _ H Ht) as (t' & ? & _).
    by exists dst, src, query, t'.
  - intros n dst src query res Hin. destruct (He _ _ _ _ _ Hin) as (m & t & Ht & Hpc).
    destruct (asks_continues _ _ _ _ _ _ _ H Ht) as (t' & ? & Hk). exists m, t'. auto.
Qed.

(** The relay moves; the links that are kept are of tasks that stay. *)
Lemma inv_udp_move a s s' out out' q :
  relay_inv s out -> udp_move opts logger a s = Some (s', out') ->
  (forall n m, q !! n = Some m -> rl_query s !! n = Some m /\ dns_tasks (rl_udp s') !! n = dns_tasks (rl_udp s) !! n) ->
  (forall n dst src query res, a = DnsEnds n dst src query res ->
     exists m t, asks_for (rl_pool s) m dst query t /\ t_pc t = Ended res) ->
  relay_inv (mkRelay (rl_udp s') (rl_pool s') q (rl_trace s')) (out ++ out').
Proof.
  intros [Hr Hs Hl He] H Hq Ha. unfold udp_move in H. destruct (udp_act opts logger a (rl_udp s)) as [[u o] |] eqn:E; [| done].
  injection H as <- <-. constructor; cbn; [| done | |].
  - rewrite udp_run_app, Hr. cbn [udp_run]. rewrite E. by rewrite app_nil_r.
  - intros n m Hn. destruct (Hq n m Hn) as [Hn' Hd]. cbn in Hd. rewrite Hd. by apply Hl.
  - intros n dst src query res [Hin | Hin%list_elem_of_singleton]%elem_of_app; [by eapply He | by eapply Ha].
Qed.

Lemma relay_act_inv a s s' out out' :
  relay_inv s out -> relay_act opts logger a s = Some (s', out') -> relay_inv s' (out ++ out').
Proof.
  intros Hi H. destruct a as [a | a | n | n]; cbn [relay_act] in H.
  - destruct (own_end a) eqn:Ha; [done |]. pose proof H as H'. unfold udp_move in H'.
    destruct (udp_act opts logger a (rl_udp s)) as [[u o] |] eqn:E; [| done].
    assert (Hq : rl_query s' = rl_query s /\ rl_udp s' = u) by by simplify_eq. destruct Hq as [Hq Hu].
    pose proof (inv_udp_move a s s' out out' (rl_query s) Hi H) as Hm. destruct s' as [u' p' q' t']. cbn in *. subst.
    apply Hm; [| by intros ? ? ? ? ? ->]. intros n m Hn. split; [done |].
    destruct (ri_link _ _ Hi n m Hn) as (dst & src & query & t & Hd & _). rewrite Hd. by eapply dns_task_stays.
  - destruct (is_ask a) eqn:Ha; [done |]. destruct (pool_act a (rl_pool s)) as [p |] eqn:E; [| done].
    injection H as <- <-. rewrite app_nil_r. eapply inv_pool_move; [done | done |]. by left.
  - unfold start_dns in H. destruct (dns_tasks (rl_udp s) !! n) as [[[dst src] query] |] eqn:Hd; [| done].
    destruct (rl_query s !! n); [done |]. set (m := fresh (dom (ps_tasks (rl_pool s)))) in *.
    destruct (pool_act (Ask m dst query) (rl_pool s)) as [p |] eqn:E; [| done]. injection H as <- <-. rewrite app_nil_r.
    eapply inv_pool_move; [done | exact E |]. intros n' m' [[<- <-] | [_ ?]]%lookup_insert_Some; [right | by left].
    exists dst, src, query, (start_query dst query). split; [done |]. cbn [pool_act] in E.
    destruct (ps_tasks (rl_pool s) !! m); [done |]. injection E as <-. split_and!; [apply lookup_insert_eq | done | done].
  - unfold end_dns in H. destruct (dns_tasks (rl_udp s) !! n) as [[[dst src] query] |] eqn:Hd; [| done].
    destruct (result_of n s) as [res |] eqn:Hres; [| done].
    destruct (udp_move opts logger (DnsEnds n dst src query res) s) as [[s1 o] |] eqn:E; [| done]. injection H as <- <-.
    unfold result_of in Hres. destruct (rl_query s !! n) as [m |] eqn:Hm; [| done].
    destruct (ri_link _ _ Hi n m Hm) as (dst' & src' & query' & t & Hd' & Ht). rewrite Hd in Hd'. injection Hd' as <- <- <-.
    pose proof Ht as (Htm & _ & _). rewrite Htm in Hres. cbn in Hres.
    assert (Hq1 : rl_query s1 = rl_query s).
    { unfold udp_move in E. destruct (udp_act _ _ _ _) as [[u o'] |]; by simplify_eq. }
    rewrite Hq1. eapply inv_udp_move; [done | exact E | |].
    + intros n' m' [Hne Hn']%lookup_delete_Some. split; [done |]. unfold udp_move in E.
      destruct (udp_act opts logger (DnsEnds n dst src query res) (rl_udp s)) as [[u o'] |] eqn:E'; [| done]. injection E as <- <-.
      cbn [udp_act task_act] in E'. case_decide; [| done].
      destruct (dns_query_pooled logger n res dst src (rl_udp s)) as [u' |] eqn:E''; [| done]. injection E' as <- <-.
      apply dns_query_pooled_shape in E'' as (? & ? & ? & ? & -> & _). cbn. by rewrite lookup_delete_ne.
    + intros n' dst' src' query' res' [= <- <- <- <- <-]. exists m, t. split; [done |].
      destruct (t_pc t); try done. congruence.
Qed.

Lemma relay_run_inv l s s' out out' :
  relay_inv s out -> relay_run opts logger l s = Some (s', out') -> relay_inv s' (out ++ out').
Proof.
  revert s out out'. induction l as [| a l IH]; intros s out out' Hi H; cbn [relay_run] in H.
  { injection H as <- <-. by rewrite app_nil_r. }
  destruct (relay_act opts logger a s) as [[s1 o1] |] eqn:E; [| done].
  destruct (relay_run opts logger l s1) as [[s2 o2] |] eqn:E'; [| done]. injection H as <- <-.
  rewrite app_assoc. eapply IH; [| done]. by eapply relay_act_inv.
Qed.

(** Started from nothing. *)
Lemma relay_reachable l proxy qt it s out :
  relay_run opts logger l (relay_start opts proxy qt it st log) = Some (s, out) -> relay_inv s out.
Proof.
  intros H. apply (relay_run_inv l (relay_start opts proxy qt it st log) s [] out); [| done].
  constructor; cbn; [done | apply start_inv | by intros n m ?%lookup_empty_Some | by intros * ?%not_elem_of_nil].
Qed.

Lemma relay_ans_act a s s' out out' :
  relay_inv s out -> ans_inv (rl_pool s) -> relay_orderly_act a s = true ->
  relay_act opts logger a s = Some (s', out') -> ans_inv (rl_pool s').
Proof.
  intros Hi Ha Ho H. pose proof (ri_sys _ _ Hi) as Hs.
  assert (Hu : forall a s' o, udp_move opts logger a s = Some (s', o) -> rl_pool s' = rl_pool s).
  { intros b s1 o Hb. unfold udp_move in Hb. destruct (udp_act opts logger b (rl_udp s)) as [[u o'] |]; by simplify_eq. }
  destruct a as [a | a | n | n]; cbn [relay_act relay_orderly_act] in *.
  - destruct (own_end a); [done |]. by rewrite (Hu _ _ _ H).
  - destruct (is_ask a); [done |]. destruct (pool_act a (rl_pool s)) as [p |] eqn:E; [| done]. injection H as <- <-.
    by eapply ans_act.
  - unfold start_dns in H. destruct (dns_tasks (rl_udp s) !! n) as [[[dst src] query] |]; [| done].
    destruct (rl_query s !! n); [done |]. destruct (pool_act (Ask _ dst query) (rl_pool s)) as [p |] eqn:E; [| done].
    injection H as <- <-. by apply (ans_act _ _ _ Ha Hs) in E.
  - unfold end_dns in H. destruct (dns_tasks (rl_udp s) !! n) as [[[dst src] query] |]; [| done].
    destruct (result_of n s); [| done]. destruct (udp_move _ _ _ s) as [[s1 o] |] eqn:E; [| done]. injection H as <- <-.
    cbn. by rewrite (Hu _ _ _ E).
Qed.

Lemma relay_ans_run l s s' out out' :
  relay_inv s out -> ans_inv (rl_pool s) -> relay_orderly opts logger l s = true ->
  relay_run opts logger l s = Some (s', out') -> ans_inv (rl_pool s').
Proof.
  revert s out out'. induction l as [| a l IH]; intros s out out' Hi Ha Ho H; cbn [relay_run relay_orderly] in *.
  { by injection H as <- <-. }
  apply andb_true_iff in Ho as [Ho1 Ho2]. destruct (relay_act opts logger a s) as [[s1 o1] |] eqn:E; [| done].
  destruct (relay_run opts logger l s1) as [[s2 o2] |] eqn:E'; [| done]. injection H as <- <-.
  eapply IH; [by eapply relay_act_inv | by eapply relay_ans_act | done | done].
Qed.
End Invariant.

(** ** Work left *)

(** The moves of the DNS tasks themselves: they start and end their queries,
    and the queries move in the pool. Everything else, socket reads, replies,
    reloads and the moves of sessions among it, is the others'. *)
Definition dns_step (a : RelayAct) : bool :=
  match a with StartQuery _ | EndQuery _ | PoolMove (Move _ _) => true | _ => false end.

Definition new_packet (a : RelayAct) : bool := match a with UdpMove (TakePacket _ _) => true | _ => false end.

(** A move for which the proxy has to take a query that is being written. *)
Definition needs_write (a : RelayAct) : bool := match a with PoolMove a => negb (stalled a) | _ => false end.

Definition dns_steps (l : list RelayAct) : nat := length (filter (fun a => dns_step a = true) l).

Definition dns_work (s : Relay) : Z :=
  Z.of_nat (work (ps_tasks (rl_pool s))) +
  26 * (Z.of_nat (size (dns_tasks (rl_udp s))) - Z.of_nat (size (rl_query s))) +
  Z.of_nat (size (dns_tasks (rl_udp s))).

(** What can hold up a DNS task for as long as others like: the proxy, when
    it does not take what is written on the connection of its query; the
    network stack, when the task has an answer and the queue of replies is
    full. *)
Definition held_up (s : Relay) (n : nat) : Prop :=
  (exists m t, rl_query s !! n = Some m /\ ps_tasks (rl_pool s) !! m = Some t /\ waits_for_write (rl_pool s) t) \/
  (exists resp, result_of n s = Some (Ok resp) /\ writing (rl_udp s) = true /\
     REPLY_CHANNEL_DEPTH <= Z.of_nat (length (reply_q (rl_udp s)))).

Section Progress.
Context (opts : UdpOptions) (logger : Logger.t) (st : Counters) (log : Log).

Abbreviation relay_inv := (relay_inv opts logger st log).

Lemma dns_work_pos s out : relay_inv s out -> 0 <= dns_work s.
Proof.
  intros Hi. assert (Hsub : (size (rl_query s) <= size (dns_tasks (rl_udp s)))%nat).
  { rewrite <- !size_dom. apply subseteq_size. intros n [m Hm]%elem_of_dom.
    destruct (ri_link _ _ _ _ _ _ Hi n m Hm) as (dst & src & query & t & Hd & _). apply elem_of_dom. by rewrite Hd. }
  unfold dns_work. lia.
Qed.

Lemma dns_work_own a s s' out out' :
  relay_inv s out -> relay_act opts logger a s = Some (s', out') -> dns_step a = true -> dns_work s' + 1 <= dns_work s.
Proof.
  intros Hi H Ha. unfold dns_work. destruct a as [a | a | n | n]; cbn [relay_act dns_step] in *; [done | | |].
  - destruct a as [| m i | | | |]; try done. cbn [is_ask] in H. destruct (pool_act (Move m i) (rl_pool s)) as [p |] eqn:E; [| done].
    injection H as <- <-. pose proof (act_work _ _ _ E eq_refl) as Hw. cbn [is_move] in Hw. cbn [rl_pool rl_udp rl_query]. lia.
  - unfold start_dns in H. destruct (dns_tasks (rl_udp s) !! n) as [[[dst src] query] |]; [| done].
    destruct (rl_query s !! n) eqn:Hn; [done |]. cbn [pool_act] in H. set (m := fresh _) in *.
    destruct (ps_tasks (rl_pool s) !! m) eqn:Hm; [done |]. injection H as <- <-.
    cbn [rl_pool rl_udp rl_query ps_tasks DnsSystem.with_task]. rewrite map_size_insert_None, work_insert by done.
    pose proof (rank_bound (start_query dst query)). lia.
  - unfold end_dns in H. destruct (dns_tasks (rl_udp s) !! n) as [[[dst src] query] |] eqn:Hd; [| done].
    destruct (result_of n s) as [res |] eqn:Hres; [| done]. unfold result_of in Hres.
    destruct (rl_query s !! n) as [m |] eqn:Hm; [| done]. unfold udp_move in H. cbn [udp_act task_act] in H.
    rewrite decide_True in H by done. destruct (dns_query_pooled logger n res dst src (rl_udp s)) as [u |] eqn:E; [| done].
    injection H as <- <-. apply dns_query_pooled_shape in E as (q & up & f & g & -> & _). cbn.
    rewrite !map_size_delete_Some by eauto.
    assert (Hs1 : (0 < size (dns_tasks (rl_udp s)))%nat) by (apply Nat.neq_0_lt_0; intros E%map_size_empty_inv; by rewrite E in Hd).
    assert (Hs2 : (0 < size (rl_query s))%nat) by (apply Nat.neq_0_lt_0; intros E%map_size_empty_inv; by rewrite E in Hm).
    lia.
Qed.

(** The others' moves add no work. *)
Lemma dns_work_other a s s' out' :
  relay_act opts logger a s = Some (s', out') -> dns_step a = false -> new_packet a = false -> dns_work s' <= dns_work s.
Proof.
  intros H Ha Hp. unfold dns_work. destruct a as [a | a | n | n]; cbn [relay_act dns_step] in *; [| | done | done].
  - destruct (own_end a) eqn:Ho; [done |]. unfold udp_move in H.
    destruct (udp_act opts logger a (rl_udp s)) as [[u o] |] eqn:E; [| done]. injection H as <- <-. cbn [rl_pool rl_udp rl_query].
    assert (Hd : dns_tasks u = dns_tasks (rl_udp s)); [| by rewrite Hd].
    destruct a; try done; cbn [udp_act] in E; try (by eapply task_dns).
    destruct (done_q (rl_udp s)) as [| dead q]; [done |]. injection E as <- <-. unfold handle_done. by repeat case_match.
  - destruct (is_ask a) eqn:Hask; [done |]. destruct (pool_act a (rl_pool s)) as [p |] eqn:E; [| done].
    injection H as <- <-. pose proof (act_work _ _ _ E Hask). cbn [rl_pool rl_udp rl_query]. lia.
Qed.

Lemma dns_work_run l s s' out out' :
  relay_inv s out -> relay_run opts logger l s = Some (s', out') -> Forall (fun a => new_packet a = false) l ->
  dns_work s' + Z.of_nat (dns_steps l) <= dns_work s.
Proof.
  revert s out out'. induction l as [| a l IH]; intros s out out' Hi H Hl; cbn [relay_run] in H.
  { injection H as <- <-. cbn. lia. }
  destruct (relay_act opts logger a s) as [[s1 o1] |] eqn:E; [| done].
  destruct (relay_run opts logger l s1) as [[s2 o2] |] eqn:E'; [| done]. injection H as <- <-.
  apply Forall_cons in Hl as [Ha Hl]. pose proof (IH s1 _ _ (relay_act_inv _ _ _ _ _ _ _ _ _ Hi E) E' Hl).
  unfold dns_steps in *. rewrite filter_cons. destruct (dns_step a) eqn:Hd.
  - rewrite decide_True by done. pose proof (dns_work_own _ _ _ _ _ Hi E Hd). cbn [length] in *. lia.
  - rewrite decide_False by done. pose proof (dns_work_other _ _ _ _ E Hd Ha). lia.
Qed.

(** A task that is left is held up, or one can move. *)
Lemma dns_task_moves s out n x :
  relay_inv s out -> dns_tasks (rl_udp s) !! n = Some x ->
  held_up s n \/ exists a r, dns_step a = true /\ needs_write a = false /\ relay_act opts logger a s = Some r.
Proof.
  intros Hi Hd. destruct x as [[dst src] query]. destruct (rl_query s !! n) as [m |] eqn:Hm.
  - destruct (ri_link _ _ _ _ _ _ Hi n m Hm) as (dst' & src' & query' & t & Hd' & Ht & _).
    rewrite Hd in Hd'. injection Hd' as <- <- <-.
    destruct (t_pc t) as [| | | | | | | | | | | | | res |] eqn:E;
      try (destruct (some_task_moves (rl_pool s) m t (ri_sys _ _ _ _ _ _ Hi) Ht) as [Hw | (m' & p & Hp)]; [by rewrite E | |];
           [left; left; by exists m, t | right];
           exists (PoolMove (Move m' expired)); cbn [relay_act is_ask]; rewrite Hp; by eexists).
    (* the result is there; there is room for the reply, or the queue is full *)
    assert (Hres : result_of n s = Some res) by (unfold result_of; rewrite Hm, Ht; cbn; by rewrite E).
    destruct (dns_query_pooled logger n res dst src (rl_udp s)) as [u |] eqn:Eq.
    + right. exists (EndQuery n). cbn [relay_act]. unfold end_dns. rewrite Hd, Hres. unfold udp_move. cbn [udp_act task_act].
      rewrite decide_True, Eq by done. by eexists.
    + left. right. unfold dns_query_pooled in Eq. destruct res as [resp | e]; [| done]. exists resp. split; [done |].
      unfold send_reply in Eq. cbn in Eq. destruct (writing (rl_udp s)) eqn:Ew; [| done]. cbn in Eq.
      destruct (_ <? REPLY_CHANNEL_DEPTH) eqn:El; [done |]. apply Z.ltb_ge in El. done.
  - right. exists (StartQuery n). cbn [relay_act]. unfold start_dns. rewrite Hd, Hm. cbn [pool_act].
    assert (Hf : ps_tasks (rl_pool s) !! fresh (dom (ps_tasks (rl_pool s))) = None) by apply not_elem_of_dom, is_fresh.
    rewrite Hf. by eexists.
Qed.
End Progress.

(** ** Properties *)

(** C2. DNS end to end: in every run of the relay and the pool together, with
    servers that reply only to what they were sent ([honest]), a network that
    takes nothing after a failed write and no idle timeout inside the length
    of a message ([relay_orderly]), and at most 65536 queries on each
    connection of the pool, each packet the network stack is given is the
    payload of a relay's datagram to the session of its addressee, or a DNS
    answer: the addressee had sent the server that the packet is from a query
    with the packet's identifier, and the packet is that server's answer to
    it; no query is answered twice. (Without the second condition the reader
    can lose its place in the stream: [DnsPool.reader_desync].) *)
Theorem dns_end_to_end (answers : SocketAddr -> list byte -> list byte -> Prop) (opts : UdpOptions) (logger : Logger.t)
    (proxy : ProxyConfig) (qt it : Z) (st : Counters) (log : Log) (l : list RelayAct) (s : Relay) (out : list UdpOut) :
  let s0 := relay_start opts proxy qt it st log in
  relay_run opts logger l s0 = Some (s, out) -> relay_orderly opts logger l s0 = true ->
  honest answers (rl_pool s) ->
  (forall r server, ps_peer (rl_pool s) !! r = Some server -> Z.of_nat (carried (ps_slots (rl_pool s)) r) <= 65536) ->
  (forall resp server client, (resp, server, client) ∈ out ≫= stacked ->
     (exists r e, SessionMoves client r e ∈ rl_trace s /\ (resp, server, client) ∈ inbound_of client e) \/
     (exists query, (server, client, query) ∈ rl_trace s ≫= asked opts /\
        take 2 resp = take 2 query /\ answers server (drop 2 query) (drop 2 resp))) /\
  (rl_trace s ≫= answered) ⊆+ (rl_trace s ≫= asked opts).
Proof.
  cbv zeta. intros H Ho Hh Hk. pose proof (relay_reachable _ _ _ _ _ _ _ _ _ _ H) as Hi.
  assert (Ha : ans_inv (rl_pool s)).
  { apply (relay_ans_run opts logger st log l (relay_start opts proxy qt it st log) s [] out);
      [by apply (relay_reachable opts logger st log [] proxy qt it) | apply ans_start | exact Ho | exact H]. }
  pose proof (run_dns opts logger _ _ _ _ _ (ri_run _ _ _ _ _ _ Hi)) as Hd.
  assert (Hsub : (rl_trace s ≫= answered) ⊆+ (rl_trace s ≫= asked opts)).
  { etrans; [| exact Hd]. by apply submseteq_inserts_r. }
  split; [| done]. intros resp server client Hin.
  destruct (stacked_prefix _ _ _ (run_replies opts logger _ _ _ _ _ (ri_run _ _ _ _ _ _ Hi))) as [k Hk'].
  assert (Hc : (resp, server, client) ∈ rl_trace s ≫= came_back) by (rewrite Hk'; apply elem_of_app; by left).
  apply list_elem_of_bind in Hc as (a & Hc & Hat). destruct a as [| | | | src r e | | | n dst src query [resp' | e]]; try by apply not_elem_of_nil in Hc.
  - left. assert (Hsrc : src = client).
    { cbn [came_back] in Hc. destruct e as [| | [buf | e] [] | |]; cbn in Hc; try by apply not_elem_of_nil in Hc.
      repeat case_match; try (by apply not_elem_of_nil in Hc). by apply list_elem_of_singleton in Hc as [= -> -> ->]. }
    subst src. eauto.
  - right. apply list_elem_of_singleton in Hc as [= -> -> ->]. exists query. split.
    + eapply elem_of_submseteq; [| exact Hsub]. apply list_elem_of_bind. exists (DnsEnds n dst src query (Ok resp')).
      split; [by apply list_elem_of_singleton | done].
    + destruct (ri_ends _ _ _ _ _ _ Hi _ _ _ _ _ Hat) as (m & t & (Ht & <- & <-) & Hpc).
      destruct (ended_right answers _ m t resp' (ri_sys _ _ _ _ _ _ Hi) Ha Hh ltac:(eauto) Ht Hpc) as (? & ? & _). done.
Qed.

(** C19. DNS permits come back: from every state the relay and the pool can
    be in together, and in every run without new packets, in which sockets are
    read, replies written, sessions served and the proxy changed at will, the
    DNS tasks and their queries make at most [dns_work] moves. Once none of
    them can move unless the proxy takes a query that is being written, each
    DNS task that is left waits for such a write on the connection of its
    query, or has its answer while the queue of replies to the network stack
    is full; where there is none of these, every DNS task has ended and all
    the permits that bound them are back. No lock, reply that does not come
    or lost connection holds one up. *)
Theorem dns_permits_return (opts : UdpOptions) (logger : Logger.t) (proxy : ProxyConfig) (qt it : Z) (st : Counters)
    (log : Log) (l l' : list RelayAct) (s s' : Relay) (out out' : list UdpOut) :
  relay_run opts logger l (relay_start opts proxy qt it st log) = Some (s, out) ->
  relay_run opts logger l' s = Some (s', out') -> Forall (fun a => new_packet a = false) l' ->
  Z.of_nat (dns_steps l') <= dns_work s /\
  ((forall a, dns_step a = true -> needs_write a = false -> relay_act opts logger a s' = None) ->
   (forall n x, dns_tasks (rl_udp s') !! n = Some x -> held_up s' n) /\
   ((forall n, ~ held_up s' n) -> dns_tasks (rl_udp s') = ∅ /\ dns_permits (rl_udp s') = max_sessions opts)).
Proof.
  intros H H' Hl. pose proof (relay_reachable _ _ _ _ _ _ _ _ _ _ H) as Hi. pose proof (relay_run_inv _ _ _ _ _ _ _ _ _ Hi H') as Hi'.
  split.
  { pose proof (dns_work_run _ _ _ _ _ _ _ _ _ Hi H' Hl). pose proof (dns_work_pos _ _ _ _ _ _ Hi'). lia. }
  intros Hstuck. assert (Hheld : forall n x, dns_tasks (rl_udp s') !! n = Some x -> held_up s' n).
  { intros n x Hn. destruct (dns_task_moves _ _ _ _ _ _ _ _ Hi' Hn) as [? | (a & r & Ha & Hw & Hr)]; [done |].
    by rewrite (Hstuck a Ha Hw) in Hr. }
  split; [done |]. intros Hnone. assert (He : dns_tasks (rl_udp s') = ∅).
  { apply map_empty. intros n. destruct (dns_tasks (rl_udp s') !! n) as [x |] eqn:Hn; [| done]. by destruct (Hnone n (Hheld n x Hn)). }
  split; [done |]. pose proof (ui_dns _ _ (reachable_inv _ _ _ _ _ _ _ (ri_run _ _ _ _ _ _ Hi'))) as Hp.
  rewrite He, map_size_empty in Hp. lia.
Qed.

(** ** Witnesses *)

Definition run_twice (opts : UdpOptions) (logger : Logger.t) (l l' : list RelayAct) (s : Relay) : option (Relay * Relay) :=
  match relay_run opts logger l s with
  | Some (s, _) => match relay_run opts logger l' s with Some (s', _) => Some (s, s') | None => None end
  | None => None
  end.

Lemma run_twice_view {A} (f : Relay -> A) opts logger l l' s0 x :
  f ∘ snd <$> run_twice opts logger l l' s0 = Some x ->
  exists s out s' out', relay_run opts logger l s0 = Some (s, out) /\ relay_run opts logger l' s = Some (s', out') /\ f s' = x.
Proof.
  unfold run_twice. destruct (relay_run opts logger l s0) as [[s out] |]; [| done].
  destruct (relay_run opts logger l' s) as [[s' out'] |] eqn:E; [| done]. intros [= <-]. by exists s, out, s', out'.
Qed.

(** Two hosts ask the same server; its answers come back in the other order. *)
Module TwoHosts.
Import OutOfOrder.
Definition opts : UdpOptions := mkOpts 60 8 true.
Definition logger : Logger.t := Logger.mk false.
Definition h0 : SocketAddr := SocketAddr_new (V4 167772161) 4000.
Definition h1 : SocketAddr := SocketAddr_new (V4 167772162) 4000.
Definition r0 : list byte := as_bytes "abre -question-a".
Definition r1 : list byte := as_bytes "cdre -question-b".

Definition asking : list RelayAct :=
  [UdpMove (TakePacket example_proxy (q0, h0, server)); UdpMove (TakePacket example_proxy (q1, h1, server));
   StartQuery 0; StartQuery 1] ++
  replicate 11 (PoolMove (Move 0 ready)) ++ replicate 5 (PoolMove (Move 1 ready)) ++
  [PoolMove (Read 0 (Chunk (take 20 stream))); PoolMove (Read 0 (Chunk (drop 20 stream)))].
Definition ending : list RelayAct :=
  [PoolMove (Move 0 ready); PoolMove (Move 1 ready); EndQuery 1; EndQuery 0;
   UdpMove (WriteReply (r1, server, h1) true); UdpMove (WriteReply (r0, server, h0) true)].
Definition start : Relay := relay_start opts example_proxy 5 30 zero_counters [].
(** The parts of a state that the hypotheses are about. *)
Definition view (s : Relay) :=
  (ps_peer (rl_pool s), written <$> heap (ps_pool (rl_pool s)) !! 0%nat, ps_arrived (rl_pool s) !! 0%nat,
   carried (ps_slots (rl_pool s)) 0).
Definition rest (s : Relay) := (dns_tasks (rl_udp s), ps_tasks (rl_pool s), reply_q (rl_udp s), rl_trace s).

Definition trace : list UdpAct :=
  [TakePacket example_proxy (q0, h0, server); TakePacket example_proxy (q1, h1, server);
   DnsEnds 1 server h1 q1 (Ok r1); DnsEnds 0 server h0 q0 (Ok r0);
   WriteReply (r1, server, h1) true; WriteReply (r0, server, h0) true].

Lemma two_hosts_run : (fun r => (view (fst r), snd r)) <$> relay_run opts logger (asking ++ ending) start =
  Some ({[0%nat := server]}, Some (wire (be_bytes 2 0 ++ drop 2 q0) ++ wire (be_bytes 2 1 ++ drop 2 q1)), Some stream, 2%nat,
        [ToStack (r1, server, h1); ToStack (r0, server, h0)]).
Proof. vm_compute. reflexivity. Qed.

Lemma rest_view : rest ∘ snd <$> run_twice opts logger asking ending start =
  Some (∅, {[0%nat := OutOfOrder.t0; 1%nat := OutOfOrder.t1]}, [], trace).
Proof. vm_compute. reflexivity. Qed.

(** Nothing is left to do. *)
Lemma ended_all s a : rest s = (∅, {[0%nat := OutOfOrder.t0; 1%nat := OutOfOrder.t1]}, [], trace) ->
  dns_step a = true -> relay_act opts logger a s = None.
Proof.
  unfold rest. intros [= Hd Ht Hr _] Ha. destruct a as [a | a | n | n]; cbn [relay_act dns_step] in *; [discriminate | | |].
  - destruct a as [| m i | | | |]; try discriminate. cbn [is_ask pool_act]. rewrite Ht.
    destruct m as [| [| m]]; [reflexivity .. |]. by rewrite lookup_insert_ne, lookup_singleton_ne by discriminate.
  - unfold start_dns. by rewrite Hd.
  - unfold end_dns. by rewrite Hd.
Qed.

Lemma none_held s : rest s = (∅, {[0%nat := OutOfOrder.t0; 1%nat := OutOfOrder.t1]}, [], trace) ->
  forall n, ~ held_up s n.
Proof.
  unfold rest. intros [= _ Ht Hr _] n [(m & t & _ & Hm & (a & sl & k & t' & Hpc & _)) | (resp & _ & _ & Hl)].
  - rewrite Ht in Hm. apply lookup_insert_Some in Hm as [[_ <-] | [_ Hm]]; [by destruct Hpc |].
    apply lookup_singleton_Some in Hm as [_ <-]. by destruct Hpc.
  - rewrite Hr in Hl. unfold REPLY_CHANNEL_DEPTH in Hl. cbn in Hl. lia.
Qed.
End TwoHosts.

Lemma dns_end_to_end_witness :
  exists s, relay_run TwoHosts.opts TwoHosts.logger (TwoHosts.asking ++ TwoHosts.ending) TwoHosts.start =
    Some (s, [ToStack (TwoHosts.r1, OutOfOrder.server, TwoHosts.h1); ToStack (TwoHosts.r0, OutOfOrder.server, TwoHosts.h0)]) /\
  (rl_trace s ≫= answered) ⊆+ (rl_trace s ≫= asked TwoHosts.opts).
Proof.
  pose proof TwoHosts.two_hosts_run as V. destruct (relay_run _ _ (_ ++ _) _) as [[s out] |] eqn:E; [| discriminate V].
  cbn [fmap option_fmap option_map fst snd] in V. unfold TwoHosts.view in V. injection V as Vp Vw Va Vk ->.
  exists s. split; [reflexivity |].
  refine (proj2 (dns_end_to_end OutOfOrder.answers TwoHosts.opts TwoHosts.logger example_proxy 5 30 zero_counters []
    (TwoHosts.asking ++ TwoHosts.ending) s _ E _ (OutOfOrder.honest_view _ Vp Vw Va) _)).
  - vm_compute. reflexivity.
  - intros r srv H. rewrite Vp in H. apply lookup_singleton_Some in H as [<- <-]. rewrite Vk. lia.
Defined.

Lemma dns_permits_return_witness :
  exists s s' out out', relay_run TwoHosts.opts TwoHosts.logger TwoHosts.asking TwoHosts.start = Some (s, out) /\
    relay_run TwoHosts.opts TwoHosts.logger TwoHosts.ending s = Some (s', out') /\ 4 <= dns_work s /\
    dns_permits (rl_udp s') = 8.
Proof.
  destruct (run_twice_view _ _ _ _ _ _ _ TwoHosts.rest_view) as (s & out & s' & out' & E & E' & V).
  destruct (dns_permits_return TwoHosts.opts TwoHosts.logger example_proxy 5 30 zero_counters [] TwoHosts.asking TwoHosts.ending
    s s' out out' E E') as [H1 H2].
  { repeat (apply Forall_cons; split; [reflexivity |]). apply Forall_nil. exact I. }
  exists s, s', out, out'. split; [exact E |]. split; [exact E' |]. split; [exact H1 |].
  exact (proj2 (proj2 (H2 (fun a Ha _ => TwoHosts.ended_all s' a V Ha)) (TwoHosts.none_held s' V))).
Defined.
