(* ===== verification/UdpEnd.v ===== *)
(** * The end of the UDP relay ([run_udp] of [src/udp.rs], after its loop)

    When the network stack closes, the loop ends, the sessions are dropped
    and [run_udp] waits for the task that writes replies. That task ends
    when every sender of its channel is gone, and each session holds one
    until it has reported its end on a channel that nobody reads any more. *)

From Stdlib Require Import ZArith Lia.
From Stdlib Require Import Strings.Ascii Strings.String.
From stdpp Require Import base decidable list strings gmap fin_maps relations.
From S2P Require Import Prelude StdNet Config Logging Stats Socks DnsPool Udp.
#[local] Open Scope Z_scope.

(** ** Definitions *)

(** The pruner: the first tick of the interval comes at once and is skipped;
    each later one prunes, at the time it comes. *)
Definition run_pruner (ticks : list Z) (p : Pool) : Pool :=
  match ticks with
  | [] => p
  | _ :: ticks => fold_left (fun p now => DnsPool.prune now p) ticks p
  end.

(** [sessions.clear()], with the loop's own senders dropped. *)
Definition finish (u : Udp) : Udp := with_sessions ∅ u.

(** The tasks after the loop: the same moves as in [Udp.task_act], with
    nobody left to read the reports. *)
Fixpoint tasks_run (logger : Logger.t) (l : list UdpAct) (u : Udp) : option Udp :=
  match l with
  | [] => Some u
  | a :: l => match task_act logger a u with Some (u, _) => tasks_run logger l u | None => None end
  end.

(** ** Specification *)

(** A sum over the values of a map. *)
Definition msum {A} (f : A -> nat) (m : gmap nat A) : nat := sum_list_with (fun p => f p.2) (map_to_list m).

Definition unreported (c : Chan) : nat := match ch_phase c with Reported => 0 | _ => 1 end.

(** The session tasks and DNS tasks that still hold a sender of replies. *)
Definition pending_sessions (u : Udp) : nat := msum unreported (chans u).
Definition reply_senders (u : Udp) : nat := (pending_sessions u + size (dns_tasks u))%nat.

(** What a task still has to do. *)
Definition left_to_do (c : Chan) : nat :=
  match ch_phase c with
  | Spawned => 4 + length (ch_queue c)
  | Opening => 3 + length (ch_queue c)
  | Relaying => 2 + length (ch_queue c)
  | Returned => 1
  | Reported => 0
  end.
Definition remaining (u : Udp) : nat := (msum left_to_do (chans u) + size (dns_tasks u))%nat.

(** The moves that do none of that: a session reads its socket or its control
    connection, and the writer writes a reply. *)
Definition idle_move (a : UdpAct) : bool :=
  match a with
  | SessionMoves _ _ (Datagram _ _) | SessionMoves _ _ (Control _) | WriteReply _ _ => true
  | _ => false
  end.

(** The network stack refuses a reply. *)
Definition refused (a : UdpAct) : bool := match a with WriteReply _ false => true | _ => false end.

(** [writer.await] returns: the replies are written and no sender is left, or
    the writer ended before. *)
Definition writer_returns (u : Udp) : Prop :=
  writing u = false \/ reply_q u = [] /\ reply_senders u = 0%nat.

(** ** Lemmas *)

Lemma msum_insert_new {A} (f : A -> nat) m i x : m !! i = None -> msum f (<[i := x]> m) = (f x + msum f m)%nat.
Proof. intros Hi. unfold msum. rewrite map_to_list_insert by done. done. Qed.

Lemma msum_insert {A} (f : A -> nat) m i x y :
  m !! i = Some x -> (msum f (<[i := y]> m) + f x = msum f m + f y)%nat.
Proof.
  intros Hi. rewrite <- insert_delete_eq. rewrite <- (insert_delete_id m i x) at 2 by done.
  rewrite !msum_insert_new by apply lookup_delete_eq. lia.
Qed.

Lemma msum_zero {A} (f : A -> nat) m : msum f m = 0%nat -> forall i x, m !! i = Some x -> f x = 0%nat.
Proof.
  intros H i x Hi. pose proof (msum_insert_new f (delete i m) i x (lookup_delete_eq _ _)) as E.
  rewrite insert_delete_id in E by done. lia.
Qed.

Lemma msum_nonzero {A} (f : A -> nat) m : msum f m <> 0%nat -> exists i x, m !! i = Some x /\ f x <> 0%nat.
Proof.
  induction m as [| i x m Hi IH] using map_ind; [done |]. rewrite msum_insert_new by done. intros H.
  destruct (decide (f x = 0%nat)) as [E | E]; [| exists i, x; by rewrite lookup_insert_eq].
  destruct IH as (j & y & Hj & Hy); [lia |]. exists j, y. rewrite lookup_insert_ne by congruence. done.
Qed.

Section End.
Context (logger : Logger.t).

(** A channel changes: what is left to do, and the sessions yet to report. *)
Lemma chan_measure r c c' u :
  chans u !! r = Some c ->
  (remaining (with_chan r c' u) + left_to_do c = remaining u + left_to_do c')%nat /\
  (pending_sessions (with_chan r c' u) + unreported c = pending_sessions u + unreported c')%nat.
Proof.
  intros Hr. unfold remaining, pending_sessions. cbn.
  pose proof (msum_insert left_to_do _ _ _ c' Hr). pose proof (msum_insert unreported _ _ _ c' Hr). lia.
Qed.

Definition measured (a : UdpAct) (u u' : Udp) : Prop :=
  (remaining u' + (if idle_move a then 0 else 1) <= remaining u)%nat /\
  (pending_sessions u' + length (done_q u') = pending_sessions u + length (done_q u))%nat /\
  (Z.of_nat (length (done_q u)) <= DONE_CHANNEL_DEPTH -> Z.of_nat (length (done_q u')) <= DONE_CHANNEL_DEPTH).

Lemma ended_same src res u :
  let u' := session_ended logger src res u in
  remaining u' = remaining u /\ pending_sessions u' = pending_sessions u /\ done_q u' = done_q u.
Proof. by destruct res. Qed.

(** An event of the loop: a message leaves the queue, or the loop ends, or
    the event is an idle one. *)
Lemma event_measure u r c src e res enc sent replies :
  event_ready u r c e = true -> session_event src e (ch_enc c) = Some (res, enc, sent, replies) ->
  (length (ch_queue (after_event e enc c)) <= length (ch_queue c))%nat /\
  (res = None -> idle_move (SessionMoves src r e) = false ->
   (length (ch_queue (after_event e enc c)) < length (ch_queue c))%nat).
Proof.
  intros Hready He. destruct e as [dst payload [[] | e] | | [buf | e] ok | [n | e] |]; cbn in *; simplify_eq; try (split; done || lia).
  all: destruct (ch_queue c); [by apply bool_decide_eq_true in Hready | cbn; lia].
Qed.

Lemma moves_measure r c e u u' out :
  session_moves logger (ch_src c) r c e u = Some (u', out) -> chans u !! r = Some c -> ch_phase c = Relaying ->
  measured (SessionMoves (ch_src c) r e) u u'.
Proof.
  unfold session_moves. intros H Hr Hp. destruct (event_ready u r c e) eqn:Hready; [| done].
  destruct (session_event _ e (ch_enc c)) as [[[[res enc] sent] replies] |] eqn:He; [| done].
  destruct (event_measure _ _ _ _ _ _ _ _ _ Hready He) as [Hle Hlt]. injection H as <- <-.
  set (v := with_replies _ _ u). assert (Hrem : remaining v = remaining u) by done.
  assert (Hpen : pending_sessions v = pending_sessions u) by done. assert (Hdq : done_q v = done_q u) by done.
  unfold measured. rewrite <- Hrem, <- Hpen, <- Hdq. assert (Hv : chans v !! r = Some c) by done. clearbody v.
  destruct res as [res |].
  - destruct (ended_same (ch_src c) res (with_chan r (with_task Returned (after_event e enc c)) v)) as (-> & -> & ->).
    destruct (chan_measure r c (with_task Returned (after_event e enc c)) v Hv) as [H1 H2].
    unfold left_to_do, unreported in H1, H2. rewrite Hp in H1, H2. cbn in H1, H2 |- *. case_match; lia.
  - destruct (chan_measure r c (after_event e enc c) v Hv) as [H1 H2].
    unfold left_to_do, unreported in H1, H2. rewrite !after_event_phase, Hp in H1, H2. cbn [done_q with_chan with_chans].
    destruct (idle_move _); [lia |]. specialize (Hlt eq_refl eq_refl). lia.
Qed.

(** Each move does some of the work or is idle, and a report takes the place
    of a session that holds a sender. *)
Lemma task_measure a u u' out : task_act logger a u = Some (u', out) -> measured a u u'.
Proof.
  intros H. destruct a as [| proxy msg | r | r assoc bind connect | src r e | r | msg taken | n dst src query resolved];
    cbn [task_act] in H; [done | done | | | | | |].
  - destruct (in_phase Spawned r u) as [c |] eqn:E; [| done]. apply in_phase_Some in E as [Hr Hp]. injection H as <- <-.
    destruct (chan_measure r c (with_task Opening c) u Hr) as [H1 H2].
    unfold left_to_do, unreported in H1, H2. rewrite Hp in H1, H2. unfold measured, remaining, pending_sessions in *. cbn in *. lia.
  - destruct (in_phase Opening r u) as [c |] eqn:E; [| done]. apply in_phase_Some in E as [Hr Hp]. injection H as <- <-.
    destruct (session_open assoc bind connect).
    + destruct (chan_measure r c (with_task Relaying c) u Hr) as [H1 H2].
      unfold left_to_do, unreported in H1, H2. rewrite Hp in H1, H2. unfold measured, remaining, pending_sessions in *. cbn in *. lia.
    + destruct (chan_measure r c (with_task Returned c) u Hr) as [H1 H2].
      unfold left_to_do, unreported in H1, H2. rewrite Hp in H1, H2. unfold measured, remaining, pending_sessions in *. cbn in *. lia.
  - destruct (in_phase Relaying r u) as [c |] eqn:E; [| done]. apply in_phase_Some in E as [Hr Hp].
    case_decide; [| done]. subst src. by eapply moves_measure.
  - destruct (in_phase Returned r u) as [c |] eqn:E; [| done]. apply in_phase_Some in E as [Hr Hp].
    case_match; [| done]. bool_to_prop. injection H as <- <-.
    destruct (chan_measure r c (with_task Reported c) u Hr) as [H1 H2].
    unfold left_to_do, unreported in H1, H2. rewrite Hp in H1, H2. unfold measured, remaining, pending_sessions in *. cbn in *.
    rewrite length_app. cbn. lia.
  - destruct (reply_q u) as [| msg' q]; [done |]. case_match; [| done]. injection H as <- <-.
    unfold measured, remaining, pending_sessions. destruct taken; cbn; lia.
  - case_decide as Hn; [| done]. destruct (dns_query_pooled _ _ _ _ _ _) as [v |] eqn:E; [| done]. injection H as <- <-.
    apply dns_query_pooled_shape in E as (? & ? & ? & ? & -> & _). unfold measured, remaining, pending_sessions. cbn.
    rewrite map_size_delete_Some by by eexists.
    pose proof (map_size_ne_0_lookup_2 (dns_tasks u) n ltac:(by eexists)). lia.
Qed.

Lemma tasks_measure l u u' :
  tasks_run logger l u = Some u' ->
  (length (filter (fun a => idle_move a = false) l) + remaining u' <= remaining u)%nat /\
  (pending_sessions u' + length (done_q u') = pending_sessions u + length (done_q u))%nat /\
  (Z.of_nat (length (done_q u)) <= DONE_CHANNEL_DEPTH -> Z.of_nat (length (done_q u')) <= DONE_CHANNEL_DEPTH).
Proof.
  revert u. induction l as [| a l IH]; intros u H; [injection H as <-; cbn; lia |]. cbn [tasks_run] in H.
  destruct (task_act logger a u) as [[v o] |] eqn:E; [| done]. apply task_measure in E as (H1 & H2 & H3).
  apply IH in H as (H4 & H5 & H6). rewrite filter_cons. destruct (idle_move a); cbn [length]; case_decide; try done; cbn [length]; lia.
Qed.

(** A DNS task can end, for instance with an error. *)
Lemma dns_progress u :
  pending_sessions u = 0%nat -> reply_senders u <> 0%nat ->
  exists a, is_Some (task_act logger a u) /\ idle_move a = false.
Proof.
  intros E Hs. unfold reply_senders in Hs. destruct (map_choose (dns_tasks u)) as (n & [[dst src] query] & Hn).
  { intros E'. rewrite E' in Hs. by rewrite E, map_size_empty in Hs. }
  exists (DnsEnds n dst src query (Err [])). cbn [task_act]. by rewrite decide_True.
Qed.

(** While a sender is left and the channel of reports has room, some task can
    move. *)
Lemma task_progress u :
  reply_senders u <> 0%nat -> Z.of_nat (length (done_q u)) < DONE_CHANNEL_DEPTH ->
  exists a, is_Some (task_act logger a u) /\ idle_move a = false.
Proof.
  intros Hs Hd. destruct (decide (pending_sessions u = 0%nat)) as [E | E].
  - by apply dns_progress.
  - apply msum_nonzero in E as (r & c & Hr & Hc). unfold unreported in Hc.
    assert (Hin : forall ph, ch_phase c = ph -> in_phase ph r u = Some c) by (intros; by apply in_phase_Some).
    destruct (ch_phase c) eqn:Hp; [..| done].
    + exists (StartSession r). cbn [task_act]. by rewrite Hin.
    + exists (OpenSession r (Err []) (fun _ => Ok tt) (fun _ => Ok tt)). cbn [task_act]. by rewrite Hin.
    + exists (SessionMoves (ch_src c) r IdleTimeout). cbn [task_act]. by rewrite Hin, decide_True.
    + exists (ReportEnd r). cbn [task_act]. rewrite Hin by done. by rewrite (proj2 (Z.ltb_lt _ _) Hd).
Qed.

(** The writer can move while there is a reply for it. *)
Lemma writer_progress u :
  writing u = true -> reply_q u <> [] -> exists a, is_Some (task_act logger a u).
Proof.
  intros Hw Hq. destruct (reply_q u) as [| msg q] eqn:E; [done |]. exists (WriteReply msg true).
  cbn [task_act]. rewrite E, bool_decide_true, Hw by done. done.
Qed.

(** The writer goes on as long as its replies are taken. *)
Lemma writer_stays a u u' out :
  task_act logger a u = Some (u', out) -> refused a = false -> writing u = true -> writing u' = true.
Proof.
  intros H Ha Hw. destruct a as [| proxy msg | r | r assoc bind connect | src r e | r | msg taken | n dst src query resolved];
    cbn [task_act] in H; [done | done | | | | | |].
  - destruct (in_phase Spawned r u); [| done]. by injection H as <- <-.
  - destruct (in_phase Opening r u); [| done]. injection H as <- <-. by destruct (session_open assoc bind connect).
  - destruct (in_phase Relaying r u) as [c |]; [| done]. case_decide; [| done]. unfold session_moves in H.
    destruct (event_ready u r c e); [| done].
    destruct (session_event src e (ch_enc c)) as [[[[res enc] sent] replies] |]; [| done]. injection H as <- <-.
    destruct res as [[] |]; done.
  - destruct (in_phase Returned r u); [| done]. case_match; [| done]. by injection H as <- <-.
  - destruct (reply_q u) as [| msg' q]; [done |]. case_match; [| done]. injection H as <- <-. by destruct taken.
  - case_decide; [| done]. unfold dns_query_pooled, send_reply in H. cbn in H. rewrite Hw in H. cbn in H.
    repeat (case_match; simplify_eq; try done).
Qed.

Lemma still_writing l u u' :
  tasks_run logger l u = Some u' -> writing u = true -> Forall (fun a => refused a = false) l -> writing u' = true.
Proof.
  revert u. induction l as [| a l IH]; intros u H Hw Hl; cbn [tasks_run] in H; [by simplify_eq |].
  destruct (task_act logger a u) as [[v o] |] eqn:E; [| done]. apply Forall_cons in Hl as [Ha Hl].
  by eapply IH; [| eapply writer_stays |].
Qed.

(** In the loop the channel of reports is never overfull. *)
Lemma reports_bounded opts l s log u out :
  udp_run opts logger l (ustart opts s log) = Some (u, out) -> Z.of_nat (length (done_q u)) <= DONE_CHANNEL_DEPTH.
Proof.
  apply (udp_run_ind opts logger (fun _ u _ => Z.of_nat (length (done_q u)) <= DONE_CHANNEL_DEPTH)).
  { unfold DONE_CHANNEL_DEPTH. cbn. lia. }
  intros l' v o a w o' _ Hv H. destruct a as [| proxy [[payload src] dst] | | | | | |]; cbn [udp_act] in H;
    [| | by apply task_measure in H as (_ & _ & ?); auto ..].
  - destruct (done_q v) as [| dead q]; [done |]. injection H as <- <-. cbn [length] in Hv.
    unfold handle_done. repeat case_match; cbn; lia.
  - injection H as <- <-.
    assert (E : done_q (handle_packet opts logger proxy payload src dst v) = done_q v).
    { unfold handle_packet, try_send, spawn_session. repeat (case_match; simplify_eq; try done). }
    by rewrite E.
Qed.
End End.

(** ** Properties *)

(** C21. When the relay can end. After its loop, [run_udp] returns in every
    run whose tasks go on, DNS queries included, if the sessions that have not
    reported and the reports not yet read are at most 256 together: a run of
    the tasks makes at most [remaining] moves besides reading what relays
    still send and writing replies, and where no task can move any more the
    writer it waits for has ended. With one session more the channel of
    reports fills, nobody reads it, and in every state of every run some
    session waits to report and keeps its sender of replies: as long as the
    network stack takes every reply it is given, [run_udp] has not returned.
    (Where it refuses one, the writer ends and [run_udp] returns, whatever
    the number of sessions.) *)
Theorem udp_end_returns_iff (opts : UdpOptions) (logger : Logger.t) (st : Counters) (log : Log)
    (acts : list UdpAct) (u : Udp) (out : list UdpOut) :
  udp_run opts logger acts (ustart opts st log) = Some (u, out) ->
  let total := Z.of_nat (pending_sessions u + length (done_q u)) in
  (forall l u', tasks_run logger l (finish u) = Some u' ->
     (length (filter (fun a => idle_move a = false) l) <= remaining u)%nat) /\
  (total <= DONE_CHANNEL_DEPTH -> forall l u', tasks_run logger l (finish u) = Some u' ->
     (forall a, task_act logger a u' = None) -> writer_returns u') /\
  (DONE_CHANNEL_DEPTH < total -> forall l u', tasks_run logger l (finish u) = Some u' ->
     reply_senders u' <> 0%nat /\
     (writing u = true -> Forall (fun a => refused a = false) l -> ~ writer_returns u')).
Proof.
  intros Hr%reports_bounded total.
  assert (Hm : forall l u', tasks_run logger l (finish u) = Some u' ->
    (length (filter (fun a => idle_move a = false) l) <= remaining u)%nat /\
    (pending_sessions u' + length (done_q u') = pending_sessions u + length (done_q u))%nat /\
    Z.of_nat (length (done_q u')) <= DONE_CHANNEL_DEPTH).
  { intros l u' (H1 & H2 & H3)%tasks_measure. split_and!; [| exact H2 | by apply H3].
    change (remaining (finish u)) with (remaining u) in H1. lia. }
  split_and!.
  - intros l u' H. by apply Hm in H as (H & _).
  - intros Ht l u' (_ & Hb & _)%Hm Hstuck. assert (Hno : forall a, ~ is_Some (task_act logger a u')).
    { intros a. rewrite Hstuck. by intros []. }
    unfold writer_returns. destruct (writing u') eqn:Hw; [right | by left].
    split; [apply dec_stable; intros Hq; by destruct (writer_progress logger u' Hw Hq) as [a ?%Hno] |].
    apply dec_stable. intros E. destruct (decide (Z.of_nat (length (done_q u')) < DONE_CHANNEL_DEPTH)) as [Hd | Hd].
    + by destruct (task_progress logger u' E Hd) as (a & ?%Hno & _).
    + assert (Hp : pending_sessions u' = 0%nat) by lia. by destruct (dns_progress logger u' Hp E) as (a & ?%Hno & _).
  - intros Ht l u' H. assert (Hs : reply_senders u' <> 0%nat) by (apply Hm in H as (_ & Hb & Hd); unfold reply_senders; lia).
    split; [done |]. intros Hw Hl. pose proof (still_writing logger _ _ _ H Hw Hl). intros [? | [_ ?]]; congruence.
Qed.

(** ** Witness *)

Module EndExample.
Definition opts : UdpOptions := mkOpts 60 1024 true.
Definition logger : Logger.t := Logger.mk false.
Definition proxy : ProxyConfig :=
  mkProxyConfig (SocketAddr_new (V4 3405803785) 1080) None None DEFAULT_CONNECT_TIMEOUT true.
Definition dst : SocketAddr := SocketAddr_new (V4 134744072) 443.

(** One packet from each of [n] sources. *)
Definition acts (n : nat) : list UdpAct :=
  (fun i => TakePacket proxy ([], SocketAddr_new (V4 (Z.of_nat i)) 1000, dst)) <$> seq 0 n.

Definition busy (n : nat) : Udp := default (ustart opts zero_counters []) (fst <$> udp_run opts logger (acts n) (ustart opts zero_counters [])).

Lemma busy_reachable n : exists out, udp_run opts logger (acts n) (ustart opts zero_counters []) = Some (busy n, out).
Proof.
  unfold busy. destruct (udp_run opts logger (acts n) _) as [[u out] |] eqn:E; [by exists out |]. exfalso. revert E.
  unfold acts. generalize (ustart opts zero_counters []), 0%nat.
  induction n as [| n IH]; intros u m; [done |]. cbn [seq fmap list_fmap udp_run udp_act].
  specialize (IH (handle_packet opts logger proxy [] (SocketAddr_new (V4 (Z.of_nat m)) 1000) dst u) (S m)).
  by destruct (udp_run _ _ _ _) as [[] |].
Qed.
End EndExample.

Lemma udp_end_returns_iff_witness :
  (forall l u', tasks_run EndExample.logger l (finish (EndExample.busy 256)) = Some u' ->
     (forall a, task_act EndExample.logger a u' = None) -> writer_returns u') /\
  (forall l u', tasks_run EndExample.logger l (finish (EndExample.busy 257)) = Some u' ->
     Forall (fun a => refused a = false) l -> ~ writer_returns u').
Proof.
  split.
  - destruct (EndExample.busy_reachable 256) as [out H].
    apply (udp_end_returns_iff EndExample.opts EndExample.logger zero_counters [] _ _ _ H).
    apply Z.leb_le. vm_compute. reflexivity.
  - destruct (EndExample.busy_reachable 257) as [out H].
    intros l u' Hl. apply (udp_end_returns_iff EndExample.opts EndExample.logger zero_counters [] _ _ _ H) with (l := l).
    + apply Z.ltb_lt. vm_compute. reflexivity.
    + exact Hl.
    + vm_compute. reflexivity.
Defined.
