(* ===== verification/App.v ===== *)
(** * The application ([src/lib.rs])

    Where the configuration is found, read and written; a reload of the
    configuration against any route controller; and the life of a run, from
    start to teardown. *)

From Stdlib Require Import ZArith Lia.
From Stdlib Require Import Strings.Ascii Strings.String.
From stdpp Require Import base decidable list strings gmap.
From S2P Require Import Prelude StdNet StdText Net Config Logging Stats Reload Platform Socks LinuxDns DnsPool.
#[local] Open Scope Z_scope.

(** ** Configuration files *)

Definition CONFIG_FILE_NAME : string := "cortado.conf".
Definition SYSTEM_CONFIG_DIR : string := "/etc/cortado".
Definition STATS_INTERVAL_SECS : Z := 30.

Definition is_absolute (p : string) : bool := starts_with p "/".

Fixpoint ends_with_slash (s : string) : bool :=
  match s with
  | "" => false
  | String c "" => Ascii.eqb c "/"
  | String _ s' => ends_with_slash s'
  end.

(** [Path::join] on Unix. *)
Definition join (base p : string) : string :=
  if is_absolute p then p
  else if decide (base = "") then p
  else if ends_with_slash base then base +:+ p
  else base +:+ "/" +:+ p.

(** The text before the last slash. *)
Fixpoint before_last_slash (s : string) : option string :=
  match s with
  | "" => None
  | String c s' =>
      match before_last_slash s' with
      | Some l => Some (String c l)
      | None => if Ascii.eqb c "/" then Some "" else None
      end
  end.

(** [Path::parent], for a path whose last component is a file name. *)
Definition parent (p : string) : option string :=
  match before_last_slash p with
  | None => Some ""
  | Some "" => Some "/"
  | Some l => Some l
  end.

(** The process environment and what [create_dir_all] says of a directory. *)
Record HostEnv : Type := mkHost {
  xdg_config_home : option string;
  home : option string;
  create_dir_all : string -> Result string unit;
}.

Definition system_config_path : string := join SYSTEM_CONFIG_DIR CONFIG_FILE_NAME.

Definition user_config_path (h : HostEnv) : option string :=
  let xdg := match xdg_config_home h with
             | Some p => if is_absolute p then Some p else None
             | None => None
             end in
  match (match xdg with Some p => Some p | None => (fun d => join d ".config") <$> home h end) with
  | Some base => Some (join (join base "cortado") CONFIG_FILE_NAME)
  | None => None
  end.

Definition is_file (p : string) (w : FS) : bool := fs_exists p w.

Definition existing_config_path (h : HostEnv) (w : FS) : option string :=
  let system := system_config_path in
  if is_file system w then Some system
  else match user_config_path h with
       | Some p => if is_file p w then Some p else None
       | None => None
       end.

Definition writable_config_path (h : HostEnv) : string :=
  if is_ok (create_dir_all h SYSTEM_CONFIG_DIR) then system_config_path
  else match user_config_path h with Some p => p | None => system_config_path end.

Definition io {A} (r : Result string A) : result A := match r with Ok a => Ok a | Err e => Err [e] end.

Section Toml.
(** The [toml] crate, and UTF-8 decoding of what a file holds. *)
Context (to_string_pretty : Config -> Result string string).
Context (from_str : string -> Result string Config).
Context (from_utf8 : list byte -> Result string string).

Definition init_config (h : HostEnv) (w : FS) : result string * FS :=
  let path := writable_config_path h in
  match (match parent path with
         | Some d => context ("failed to create config directory " +:+ d) (io (create_dir_all h d))
         | None => Ok tt
         end) with
  | Err e => (Err e, w)
  | Ok _ =>
      match context "failed to serialize default config" (io (to_string_pretty default_config)) with
      | Err e => (Err e, w)
      | Ok content =>
          let '(r, w) := fs_write path (as_bytes content) w in
          match context ("failed to write " +:+ path) (io r) with
          | Err e => (Err e, w)
          | Ok _ => (Ok path, w)
          end
      end
  end.

(** [fs::read_to_string] *)
Definition read_to_string (path : string) (w : FS) : Result string string * FS :=
  let '(r, w) := fs_read path w in
  (match r with Ok b => from_utf8 b | Err e => Err e end, w).

Definition read_config (path : string) (w : FS) : result Config * FS :=
  let '(content, w) := read_to_string path w in
  ((let? content := context ("failed to read " +:+ path) (io content) in
    let? cfg := context ("failed to parse " +:+ path) (io (from_str content)) in
    try? validate cfg in Ok cfg), w).

Definition load_config (h : HostEnv) (w : FS) : result Config * FS :=
  match opt_context ("no configuration found (looked in " +:+ system_config_path +:+
          " and the per-user config directory); run `cortado init` to create one")
          (existing_config_path h w) with
  | Err e => (Err e, w)
  | Ok path => read_config path w
  end.

Definition reload_config (h : HostEnv) (w : FS) : result Config * FS :=
  match opt_context "configuration file disappeared during reload" (existing_config_path h w) with
  | Err e => (Err e, w)
  | Ok path => read_config path w
  end.
End Toml.

(** ** Reloading *)

Section Reloading.
(** Any controller, and how the log reaches it. *)
Context {S : Type} `{!RouteController S}.

Record AppState : Type := mkApp {
  current_cfg : Config;
  route_manager : S;
  shared : Shared.t;
  dns_pool : Pool;
  app_stats : Counters;
  app_log : Log;
}.

Definition app_note (f : Log -> Log) (a : AppState) : AppState :=
  mkApp (current_cfg a) (route_manager a) (shared a) (dns_pool a) (app_stats a) (f (app_log a)).
Definition with_cfg (c : Config) (a : AppState) : AppState :=
  mkApp c (route_manager a) (shared a) (dns_pool a) (app_stats a) (app_log a).
Definition with_routes (r : S) (a : AppState) : AppState :=
  mkApp (current_cfg a) r (shared a) (dns_pool a) (app_stats a) (app_log a).
Definition with_shared (s : Shared.t) (a : AppState) : AppState :=
  mkApp (current_cfg a) (route_manager a) s (dns_pool a) (app_stats a) (app_log a).
Definition with_pool (p : Pool) (a : AppState) : AppState :=
  mkApp (current_cfg a) (route_manager a) (shared a) p (app_stats a) (app_log a).
Definition app_count (f : Counters -> Counters) (a : AppState) : AppState :=
  mkApp (current_cfg a) (route_manager a) (shared a) (dns_pool a) (f (app_stats a)) (app_log a).

(** [new_cfg] is what [reload_config] returned; [None] is a panic. *)
Definition apply_reload (new_cfg : result Config) (a : AppState) : option AppState :=
  match new_cfg with
  | Err e => Some (app_note (Logger.error ("reload: invalid config, keeping current: " +:+ error_chain e)) a)
  | Ok new_cfg =>
      let immutable := immutable_changes (current_cfg a) new_cfg in
      let a := match immutable with
               | [] => a
               | _ => app_note (Logger.warn ("reload: these fields require a restart and were not applied: " +:+
                                             String.concat ", " immutable)) a
               end in
      match ReloadPlan.compute (current_cfg a) new_cfg with
      | None => None
      | Some plan =>
          if ReloadPlan.is_noop plan
          then Some (with_cfg new_cfg (app_note (Logger.info "reload: no effective changes") a))
          else
            match rc_reload plan (route_manager a) with
            | (Err e, r) =>
                Some (app_note (Logger.error ("reload: route update failed, partial state: " +:+ error_chain e))
                        (with_routes r a))
            | (Ok _, r) =>
                let a := with_routes r a in
                let new_proxy := rp_proxy plan in
                let a := with_shared (Shared.store_proxy new_proxy (shared a)) a in
                let a := with_shared (Shared.store_routes (rp_route_table plan) (shared a)) a in
                let a := if rp_proxy_changed plan then with_pool (DnsPool.set_proxy new_proxy (dns_pool a)) a else a in
                let a := app_count (inc CONFIG_RELOADS) a in
                let a := with_cfg new_cfg a in
                Some (app_note (Logger.info "configuration reloaded") a)
            end
      end
  end.

(** ** A run

    [run] after the controller is made: what each fallible stage returns and
    the events of the main loop. *)

Inductive MainEvent : Type :=
| UdpTaskExited
| ShutdownReceived
| ReloadReceived (new_cfg : result Config).

(** The loop of [run]; it ends at the first event that breaks it, and is
    still waiting when the events are used up. *)
Fixpoint main_loop (es : list MainEvent) (a : AppState) : option (bool * AppState) :=
  match es with
  | [] => Some (false, a)
  | UdpTaskExited :: _ => Some (true, app_note (Logger.warn "UDP task exited unexpectedly") a)
  | ShutdownReceived :: _ => Some (true, app_note (Logger.info "shutting down") a)
  | ReloadReceived cfg :: es =>
      match apply_reload cfg a with None => None | Some a => main_loop es a end
  end.

(** The cells and the pool that the tasks share. *)
Definition shared_state (cfg : Config) (proxy : ProxyConfig) (query_timeout udp_idle : Z) (st : Counters)
    : option (Shared.t * Pool) :=
  match bypass_routes cfg with
  | None => None
  | Some b => Some (Shared.new proxy (RouteTable.new b), DnsPool.new proxy query_timeout udp_idle st)
  end.

(** From the signal handlers on: the loop, and the teardown at its end.
    [signals] is the outcome of installing the handlers. The outcome of the
    run is [None] while the loop is still waiting. *)
Definition serve_until (signals : result unit) (es : list MainEvent) (a : AppState)
    : option (option (result unit) * S) :=
  match signals with
  | Err e => Some (Some (Err e), route_manager a)
  | Ok _ =>
      match main_loop es a with
      | None => None
      | Some (true, a) => Some (Some (Ok tt), rc_teardown (route_manager a))
      | Some (false, a) => Some (None, route_manager a)
      end
  end.

(** [route_manager.apply(..)?] and what comes after it. [stack] is the outcome
    of building the network stack and taking its sockets. *)
Definition run_routes (cfg : Config) (routes : S) (proxy : ProxyConfig) (query_timeout udp_idle : Z)
    (stack signals : result unit) (es : list MainEvent) (st : Counters) (log : Log)
    : option (option (result unit) * S) :=
  match rc_apply routes with
  | (Err e, r) => Some (Some (Err e), r)
  | (Ok _, r) =>
      match stack with
      | Err e => Some (Some (Err e), r)
      | Ok _ =>
          match shared_state cfg proxy query_timeout udp_idle st with
          | None => None
          | Some (shared, pool) => serve_until signals es (mkApp cfg r shared pool st log)
          end
      end
  end.

(** [probe_proxy]: a connection to the proxy within the timeout. *)
Definition probe_proxy (connect : connect_result) : result unit :=
  match connect with
  | NoAnswer => Err ["timed out connecting to SOCKS5 proxy"; "deadline has elapsed"]
  | Refused e => Err ["cannot reach SOCKS5 proxy"; e]
  | Connected _ => Ok tt
  end.

(** [run]: the proxy is probed, the device and the controller are made, then
    the routes are applied. [controller] is what the platform's
    [new_route_controller] returns, [None] a panic. *)
Definition run (cfg : Config) (connect : connect_result) (tun : result unit) (controller : option (result S))
    (udp_idle : Z) (stack signals : result unit) (es : list MainEvent) (st : Counters) (log : Log)
    : option (option (result unit) * option S) :=
  match ProxyConfig.from_config cfg with
  | None => None
  | Some proxy =>
      match probe_proxy connect with
      | Err e => Some (Some (Err e), None)
      | Ok _ =>
          match tun with
          | Err e => Some (Some (Err e), None)
          | Ok _ =>
              match controller with
              | None => None
              | Some (Err e) => Some (Some (Err e), None)
              | Some (Ok routes) =>
                  match run_routes cfg routes proxy (pc_connect_timeout proxy) udp_idle stack signals es st log with
                  | None => None
                  | Some (r, routes) => Some (r, Some routes)
                  end
              end
          end
      end
  end.
End Reloading.
Arguments AppState : clear implicits.

(** ** Specification *)

Section Coherence.
Context {S : Type} `{!RouteController S}.

(** What the relay tasks and the DNS pool use is what the configuration in
    force says. *)
Record coherent (a : AppState S) : Prop := {
  co_valid : validate (current_cfg a) = Ok tt;
  co_proxy : ProxyConfig.from_config (current_cfg a) = Some (Shared.proxy (shared a));
  co_pool : pool_proxy (dns_pool a) = Shared.proxy (shared a);
  co_routes : forall b addr, bypass_routes (current_cfg a) = Some b ->
    RouteTable.decide (Shared.routes (shared a)) addr = RouteTable.decide (RouteTable.new b) addr;
}.

Definition loaded_ok (r : result Config) : Prop :=
  match r with Ok c => validate c = Ok tt | Err _ => True end.

Definition event_ok (e : MainEvent) : Prop :=
  match e with ReloadReceived r => loaded_ok r | _ => True end.

(** ** Lemmas *)

Lemma coherent_note f a : coherent (app_note f a) <-> coherent a.
Proof. split; intros []; by constructor. Qed.

Lemma coherent_routes r a : coherent (with_routes r a) <-> coherent a.
Proof. split; intros []; by constructor. Qed.

Lemma set_proxy_proxy proxy p : pool_proxy (DnsPool.set_proxy proxy p) = proxy.
Proof.
  unfold DnsPool.set_proxy. set (p0 := mkPool _ _ _ _ _ _ _). set (l := concat _).
  by destruct (kill_all_spec l p0) as (_ & H & _).
Qed.

(** A no-op plan leaves the old cells right for the new configuration. *)
Lemma coherent_noop (a : AppState S) c p :
  coherent a -> validate c = Ok tt -> ReloadPlan.compute (current_cfg a) c = Some p ->
  ReloadPlan.is_noop p = true -> coherent (with_cfg c a).
Proof.
  intros [Hv Hp Hpool Hr] Hc Hcomp Hno.
  pose proof (proj1 (validate_valid _) Hv) as Hv'. pose proof (proj1 (validate_valid _) Hc) as Hc'.
  destruct (compute_valid _ _ Hv' Hc') as (ob & nb & op & np & od & nd & Hob & Hnb & Hop & Hnp & Hod & Hnd & E).
  rewrite Hcomp in E. injection E as ->. unfold ReloadPlan.is_noop in Hno. simpl in Hno. bool_to_prop.
  constructor; simpl; try done.
  - rewrite <- Hp. unfold ProxyConfig.from_config. rewrite Hop, Hnp.
    do 2 f_equal; symmetry; by apply dec_stable.
  - intros b addr Hb. rewrite Hnb in Hb. injection Hb as <-. rewrite (Hr ob addr Hob).
    apply decide_same_set, diff_cidrs_nil. unfold diff_cidrs in *. by repeat case_match.
Qed.

(** A plan that was carried out. *)
Lemma coherent_reloaded (a : AppState S) c p :
  coherent a -> validate c = Ok tt -> ReloadPlan.compute (current_cfg a) c = Some p ->
  let a := with_shared (Shared.store_proxy (rp_proxy p) (shared a)) a in
  let a := with_shared (Shared.store_routes (rp_route_table p) (shared a)) a in
  let a := if rp_proxy_changed p then with_pool (DnsPool.set_proxy (rp_proxy p) (dns_pool a)) a else a in
  coherent (with_cfg c (app_count (inc CONFIG_RELOADS) a)).
Proof.
  intros [Hv Hp Hpool Hr] Hc Hcomp. cbv zeta.
  pose proof (proj1 (validate_valid _) Hv) as Hv'. pose proof (proj1 (validate_valid _) Hc) as Hc'.
  destruct (compute_valid _ _ Hv' Hc') as (ob & nb & op & np & od & nd & Hob & Hnb & Hop & Hnp & Hod & Hnd & E).
  rewrite Hcomp in E. injection E as ->. cbn [rp_proxy rp_route_table rp_proxy_changed].
  assert (Hnew : ProxyConfig.from_config c = Some (mkProxyConfig np (username c) (password c) DEFAULT_CONNECT_TIMEOUT true)).
  { unfold ProxyConfig.from_config. by rewrite Hnp. }
  destruct (_ || _) eqn:Hch.
  - constructor; simpl; try done; [apply set_proxy_proxy |]. intros b addr Hb. by simplify_eq.
  - constructor; simpl; try done; [| intros b addr Hb; by simplify_eq].
    rewrite Hpool. apply (inj Some). rewrite <- Hp. unfold ProxyConfig.from_config. rewrite Hop.
    bool_to_prop. do 2 f_equal; by apply dec_stable.
Qed.

Lemma coherent_step r (a : AppState S) :
  coherent a -> loaded_ok r -> exists a', apply_reload r a = Some a' /\ coherent a'.
Proof.
  intros Ha Hr. unfold apply_reload. destruct r as [c | e]; [| eexists; split; [done | by apply coherent_note]].
  set (a1 := match immutable_changes _ _ with [] => a | _ => _ end).
  assert (Ha1 : coherent a1) by (unfold a1; case_match; [done | by apply coherent_note]).
  clearbody a1. clear a Ha. simpl in Hr.
  pose proof (proj1 (validate_valid _) (co_valid _ Ha1)) as Hv'. pose proof (proj1 (validate_valid _) Hr) as Hc'.
  destruct (compute_valid _ _ Hv' Hc') as (ob & nb & op & np & od & nd & _ & _ & _ & _ & _ & _ & E).
  rewrite E. set (p := mkPlan _ _ _ _ _ _ _ _ _) in *.
  destruct (ReloadPlan.is_noop p) eqn:Hno.
  { eexists. split; [done |].
    change (with_cfg c (app_note ?f a1)) with (app_note f (with_cfg c a1)). apply coherent_note.
    by eapply coherent_noop. }
  destruct (rc_reload p (route_manager a1)) as [[[] | e] r1].
  - eexists. split; [done |]. apply coherent_note.
    apply (coherent_reloaded (with_routes r1 a1)); [by apply coherent_routes | done | done].
  - eexists. split; [done |]. by apply coherent_note, coherent_routes.
Qed.
End Coherence.

(** ** Properties *)

(** C7. The relay always uses the configuration in force: over any sequence
    of reload requests, with configurations that [reload_config] accepted or
    errors, one after the other, and whatever the route controller does, no
    reload panics, and after it the cells that new TCP connections and UDP
    sessions read, the proxy with which the DNS pool opens new connections
    and every routing decision are those of the configuration kept as
    current. (A DNS connection that is being opened while a reload changes
    the proxy still goes through the old one: [DnsPool.stale_dial_kept].) *)
Theorem reload_coherent {S : Type} `{!RouteController S} (es : list MainEvent) (a : AppState S) :
  coherent a -> Forall event_ok es ->
  exists stop a', main_loop es a = Some (stop, a') /\ coherent a'.
Proof.
  intros Ha Hes. revert a Ha. induction Hes as [| e es He Hes IH]; intros a Ha; [by exists false, a |].
  destruct e as [| | r]; simpl.
  - eexists _, _. split; [done | by apply coherent_note].
  - eexists _, _. split; [done | by apply coherent_note].
  - destruct (coherent_step r a Ha He) as (a' & -> & Ha'). by apply IH.
Qed.

(** A controller that only records the plans it is given. *)
#[local] Instance recorder : RouteController (list ReloadPlan) := {|
  rc_apply s := (Ok tt, s);
  rc_reload p s := (Ok tt, s ++ [p]);
  rc_teardown s := [];
|}.

Definition default_proxy : ProxyConfig :=
  mkProxyConfig (SocketAddr_new (V4 2130706433) 1080) None None DEFAULT_CONNECT_TIMEOUT true.

Definition example_app : AppState (list ReloadPlan) :=
  mkApp default_config [] (Shared.new default_proxy RouteTable.empty)
    (DnsPool.new default_proxy 10 60 zero_counters) zero_counters [].

Definition example_cfg : Config :=
  mkConfig "203.0.113.9:1080" None None "cortado0" "10.0.0.1" false "1.1.1.1" true true ["10.0.0.0/8"] None.

Lemma example_app_coherent : coherent example_app.
Proof.
  constructor; [vm_compute; reflexivity | vm_compute; reflexivity | reflexivity |].
  intros b addr Hb. by injection Hb as <-.
Qed.

Lemma reload_coherent_witness :
  exists stop a', main_loop [ReloadReceived (Ok example_cfg); ShutdownReceived] example_app = Some (stop, a') /\
    coherent a'.
Proof.
  apply (reload_coherent [ReloadReceived (Ok example_cfg); ShutdownReceived] example_app).
  - apply example_app_coherent.
  - repeat constructor; vm_compute; reflexivity.
Defined.

(** C34. A reload that fails changes nothing the relay uses: when the new
    configuration is rejected, or the route controller reports an error for
    a plan that is not a no-op, the current configuration, the shared cells,
    the DNS pool and the counters are as before. *)
Theorem failed_reload_keeps_state {S : Type} `{!RouteController S} (r : result Config) (a a' : AppState S) :
  apply_reload r a = Some a' ->
  match r with
  | Err _ => True
  | Ok c => exists p e s', ReloadPlan.compute (current_cfg a) c = Some p /\ ReloadPlan.is_noop p = false /\
              rc_reload p (route_manager a) = (Err e, s')
  end ->
  current_cfg a' = current_cfg a /\ shared a' = shared a /\ dns_pool a' = dns_pool a /\ app_stats a' = app_stats a.
Proof.
  unfold apply_reload. destruct r as [c | e]; [| by intros [= <-]].
  set (a1 := match immutable_changes _ _ with [] => a | _ => _ end). intros H (p & e & s' & Hp & Hn & Hr).
  assert (Ha1 : current_cfg a1 = current_cfg a /\ shared a1 = shared a /\ dns_pool a1 = dns_pool a /\
    app_stats a1 = app_stats a /\ route_manager a1 = route_manager a) by (unfold a1; by destruct (immutable_changes (current_cfg a) c)).
  destruct Ha1 as (E1 & E2 & E3 & E4 & E5). rewrite E1, Hp, Hn, E5, Hr in H. injection H as <-. simpl. done.
Qed.

Lemma failed_reload_keeps_state_witness :
  exists a', apply_reload (Err ["failed to parse"]) example_app = Some a' /\ shared a' = shared example_app.
Proof.
  destruct (apply_reload (Err ["failed to parse"]) example_app) as [a' |] eqn:E; [| discriminate].
  exists a'. split; [reflexivity |].
  apply (failed_reload_keeps_state (Err ["failed to parse"]) example_app a' E I).
Defined.

Section InitLoad.
Context (to_string_pretty : Config -> Result string string).
Context (from_str : string -> Result string Config).
Context (from_utf8 : list byte -> Result string string).

(** The crates read back what they wrote. *)
Context (toml_roundtrip : forall c t, to_string_pretty c = Ok t -> from_str t = Ok c).
Context (utf8_roundtrip : forall t, from_utf8 (as_bytes t) = Ok t).

Lemma fs_write_ok p c w w' : fs_write p c w = (Ok tt, w') -> files w' = <[p := c]> (files w) /\ read_faults w' = read_faults w.
Proof.
  unfold fs_write, next_fault, with_files. destruct (faults w) as [| [] l]; simpl; intros [= <-]; done.
Qed.

(** [init] then [run] works: when [init_config] succeeds and the file it
    wrote is the one found first (it is the system one, or there is no
    system file), [load_config] reads back the default configuration, which
    passes validation. *)
Theorem init_then_load (h : HostEnv) (w w' : FS) (path : string) :
  read_faults w = [] ->
  init_config to_string_pretty h w = (Ok path, w') ->
  path = system_config_path \/ files w !! system_config_path = None ->
  load_config from_str from_utf8 h w' = (Ok default_config, w').
Proof.
  intros Hrf H Hsys. unfold init_config in H.
  destruct (match parent (writable_config_path h) with Some _ => _ | None => _ end) as [[] |]; [| done].
  destruct (to_string_pretty default_config) as [t |] eqn:Ht; [| done]. simpl in H.
  destruct (fs_write (writable_config_path h) (as_bytes t) w) as [r w1] eqn:Hw.
  destruct r as [[] |]; [| done]. simpl in H. injection H as <- <-.
  apply fs_write_ok in Hw as [Hf Hr]. set (path := writable_config_path h) in *.
  assert (Hex : existing_config_path h w1 = Some path).
  { unfold existing_config_path, is_file, fs_exists. rewrite Hf.
    destruct (decide (path = system_config_path)) as [E | E].
    - rewrite E. by rewrite lookup_insert_eq.
    - destruct Hsys as [? | Hsys]; [done |]. rewrite lookup_insert_ne, Hsys by done. simpl.
      assert (Hu : user_config_path h = Some path).
      { unfold path, writable_config_path in E |- *. destruct (is_ok (create_dir_all h SYSTEM_CONFIG_DIR)); [done |].
        by destruct (user_config_path h). }
      rewrite Hu. by rewrite lookup_insert_eq. }
  unfold load_config. rewrite Hex. simpl. unfold read_config, read_to_string, fs_read, next_read_fault.
  rewrite Hr, Hrf, Hf, lookup_insert_eq. rewrite utf8_roundtrip. simpl. rewrite (toml_roundtrip _ _ Ht). simpl.
  done.
Qed.
End InitLoad.

(** A serializer that knows the default configuration only, and the decoding
    of ASCII text. *)
Definition example_to_string (c : Config) : Result string string :=
  if decide (c = default_config) then Ok "default" else Err "unsupported".
Definition example_from_str (t : string) : Result string Config :=
  if decide (t = "default") then Ok default_config else Err "unsupported".
Fixpoint string_of_bytes (l : list byte) : string :=
  match l with [] => "" | b :: l => String (ascii_of_byte b) (string_of_bytes l) end.

Lemma string_of_as_bytes t : string_of_bytes (as_bytes t) = t.
Proof. induction t as [| c t IH]; [done |]. simpl. by rewrite ascii_of_byte_of_ascii, IH. Qed.

Lemma init_then_load_witness :
  let h := mkHost None (Some "/home/u") (fun d => if decide (d = SYSTEM_CONFIG_DIR) then Err "EACCES" else Ok tt) in
  let w := mkFS ∅ [] [] in
  let '(r, w') := init_config example_to_string h w in
  r = Ok "/home/u/.config/cortado/cortado.conf" /\
  load_config example_from_str (fun b => Ok (string_of_bytes b)) h w' = (Ok default_config, w').
Proof.
  cbv zeta. destruct (init_config _ _ _) as [r w'] eqn:E.
  assert (Hr : r = Ok "/home/u/.config/cortado/cortado.conf")
    by (apply (f_equal fst) in E; vm_compute in E; symmetry; exact E).
  split; [exact Hr |]. rewrite Hr in E.
  apply (init_then_load example_to_string example_from_str (fun b => Ok (string_of_bytes b))) with (2 := fun t => f_equal Ok (string_of_as_bytes t)) (4 := E).
  - unfold example_to_string, example_from_str. intros c t. case_decide; [| discriminate]. intros [= <-].
    rewrite decide_True by reflexivity. by subst.
  - reflexivity.
  - right. reflexivity.
Defined.

(** A run that ends normally tears its routes down, but one that fails
    after they are applied does not: an error from building the network
    stack or from installing a signal handler is returned at once, with the
    controller as the apply left it. *)
Theorem run_teardown {S : Type} `{!RouteController S} (cfg : Config) connect tun (routes : S) udp_idle
    stack signals es st log out final :
  run cfg connect tun (Some (Ok routes)) udp_idle stack signals es st log = Some (out, Some final) ->
  (out = Some (Ok tt) -> exists s, final = rc_teardown s) /\
  (forall e r, out = Some (Err e) -> rc_apply routes = (Ok tt, r) -> final = r).
Proof.
  unfold run, run_routes, shared_state, serve_until. intros H.
  destruct (ProxyConfig.from_config cfg) as [proxy |]; [| done].
  destruct (probe_proxy connect) as [[] | e]; [| done]. destruct tun as [[] | e]; [| done].
  destruct (rc_apply routes) as [[[] | e] r] eqn:Ea; [| by simplify_eq; split; intros; simplify_eq].
  destruct stack as [[] | e]; [| by simplify_eq; split; intros; simplify_eq].
  destruct (bypass_routes cfg) as [b |]; [| done].
  destruct signals as [[] | e]; [| by simplify_eq; split; intros; simplify_eq].
  destruct (main_loop es _) as [[[] a] |]; simplify_eq; split; intros; simplify_eq; eauto.
Qed.

Lemma run_teardown_witness :
  exists out final,
    run default_config (Connected (mkStream [] Eof [] [])) (Ok tt) (Some (Ok [])) 60 (Ok tt) (Ok tt)
      [ReloadReceived (Ok example_cfg); ShutdownReceived] zero_counters [] = Some (out, Some final) /\
    out = Some (Ok tt) /\ exists s, final = rc_teardown s.
Proof.
  destruct (run default_config (Connected (mkStream [] Eof [] [])) (Ok tt) (Some (Ok [])) 60 (Ok tt) (Ok tt)
      [ReloadReceived (Ok example_cfg); ShutdownReceived] zero_counters []) as [[out [final |]] |] eqn:E;
    [| vm_compute in E; discriminate E | vm_compute in E; discriminate E].
  assert (Ho : out = Some (Ok tt)) by (vm_compute in E; congruence).
  exists out, final. split; [reflexivity |]. split; [exact Ho |].
  exact (proj1 (run_teardown _ _ _ _ _ _ _ _ _ _ _ _ E) Ho).
Defined.
