(* ===== verification/Signals.v ===== *)
(** * Signals ([ShutdownSignal], [ReloadSignal] and the loop of [run] in [src/lib.rs])

    A signal stream of tokio remembers that its signal arrived, not how often:
    signals that come while the loop is busy are seen as one. The loop waits
    on the end of the UDP task and on both streams and takes any that is
    ready. *)

From Stdlib Require Import ZArith Lia.
From Stdlib Require Import Strings.Ascii Strings.String.
From stdpp Require Import base decidable list strings.
From S2P Require Import Prelude StdNet StdText Config App.
#[local] Open Scope Z_scope.

(** ** Definitions *)

Inductive Signal : Type := SIGINT | SIGTERM | SIGHUP.

#[global] Instance Signal_eq_dec : EqDecision Signal.
Proof. solve_decision. Defined.

(** A stream: whether its signal arrived since it was last received. *)
Record ShutdownSignal : Type := mkShutdown { interrupt : bool; terminate : bool }.
Record ReloadSignal : Type := mkReload { hangup : bool }.

Module ShutdownSignal.
(** The outcomes are those of installing the two handlers. *)
Definition new (sigint sigterm : Result string unit) : result ShutdownSignal :=
  try? context "failed to install SIGINT handler" (io sigint) in
  try? context "failed to install SIGTERM handler" (io sigterm) in
  Ok (mkShutdown false false).

(** [recv]: either stream; [None] while neither is ready. When both are,
    [select!] takes one of them, [first] says which. *)
Definition recv (first : bool) (s : ShutdownSignal) : option ShutdownSignal :=
  match interrupt s, terminate s with
  | true, true => Some (if first then mkShutdown false true else mkShutdown true false)
  | true, false => Some (mkShutdown false false)
  | false, true => Some (mkShutdown false false)
  | false, false => None
  end.
End ShutdownSignal.

Module ReloadSignal.
Definition new (sighup : Result string unit) : result ReloadSignal :=
  try? context "failed to install SIGHUP handler" (io sighup) in Ok (mkReload false).

Definition recv (s : ReloadSignal) : option ReloadSignal := if hangup s then Some (mkReload false) else None.
End ReloadSignal.

(** Both are made before the loop; any failure ends the run. *)
Definition install (sigint sigterm sighup : Result string unit) : result (ShutdownSignal * ReloadSignal) :=
  let? s := ShutdownSignal.new sigint sigterm in
  let? r := ReloadSignal.new sighup in
  Ok (s, r).

(** Where the signals are not those of Unix, [ctrl_c] ends the loop and
    nothing reloads. *)
Module NotUnix.
Definition shutdown_recv (ctrl_c : bool) : option unit := if ctrl_c then Some tt else None.
Definition reload_recv : option unit := None.
End NotUnix.

(** The streams and the UDP task as the loop sees them. *)
Record Waiting : Type := mkWaiting { shutdown : ShutdownSignal; reload : ReloadSignal; udp_done : bool }.

(** What happens: a signal arrives, the UDP task ends, or the loop takes a
    branch that is ready; a reload reads the configuration then. *)
Inductive SigEvent : Type :=
| Raised (s : Signal)
| UdpEnds
| TakeUdp
| TakeShutdown (first : bool)
| TakeReload (read : result Config).

Definition raise (s : Signal) (w : Waiting) : Waiting :=
  match s with
  | SIGINT => mkWaiting (mkShutdown true (terminate (shutdown w))) (reload w) (udp_done w)
  | SIGTERM => mkWaiting (mkShutdown (interrupt (shutdown w)) true) (reload w) (udp_done w)
  | SIGHUP => mkWaiting (shutdown w) (mkReload true) (udp_done w)
  end.

(** The next state with what the loop does, [None] when the branch is not
    ready. *)
Definition sig_event (e : SigEvent) (w : Waiting) : option (Waiting * option MainEvent) :=
  match e with
  | Raised s => Some (raise s w, None)
  | UdpEnds => Some (mkWaiting (shutdown w) (reload w) true, None)
  | TakeUdp => if udp_done w then Some (w, Some UdpTaskExited) else None
  | TakeShutdown first =>
      match ShutdownSignal.recv first (shutdown w) with
      | Some s => Some (mkWaiting s (reload w) (udp_done w), Some ShutdownReceived)
      | None => None
      end
  | TakeReload read =>
      match ReloadSignal.recv (reload w) with
      | Some r => Some (mkWaiting (shutdown w) r (udp_done w), Some (ReloadReceived read))
      | None => None
      end
  end.

(** The loop stops at its first end event: nothing is taken after it. *)
Definition ends (m : MainEvent) : bool := match m with ReloadReceived _ => false | _ => true end.

Fixpoint sig_run (es : list SigEvent) (w : Waiting) : option (Waiting * list MainEvent) :=
  match es with
  | [] => Some (w, [])
  | e :: es =>
      match sig_event e w with
      | None => None
      | Some (w, None) => sig_run es w
      | Some (w, Some m) =>
          if ends m then match es with [] => Some (w, [m]) | _ => None end
          else match sig_run es w with None => None | Some (w, ms) => Some (w, m :: ms) end
      end
  end.

(** ** Specification *)

Definition reads (ms : list MainEvent) : list (result Config) :=
  omap (fun m => match m with ReloadReceived c => Some c | _ => None end) ms.

Definition is_hup (e : SigEvent) : bool := match e with Raised SIGHUP => true | _ => false end.
Definition hups (es : list SigEvent) : nat := length (filter (fun e => is_hup e = true) es).

(** The configurations read since the last SIGHUP. *)
Fixpoint reads_since_hup (es : list SigEvent) : list (result Config) :=
  match es with
  | [] => []
  | e :: es =>
      if decide (hups es = 0%nat)
      then match e with TakeReload c => [c] | _ => [] end ++ reads_since_hup es
      else reads_since_hup es
  end.

(** ** Lemmas *)

Lemma hups_cons e es : hups (e :: es) = ((if is_hup e then 1 else 0) + hups es)%nat.
Proof. unfold hups. rewrite filter_cons. destruct (is_hup e); by case_decide. Qed.

(** Each reload uses up the memory of at least one SIGHUP. *)
Lemma reads_bound es : forall w w' ms,
  sig_run es w = Some (w', ms) ->
  (length (reads ms) + (if hangup (reload w') then 1 else 0) <= hups es + (if hangup (reload w) then 1 else 0))%nat.
Proof.
  induction es as [| e es IH]; intros w w' ms H; cbn [sig_run] in H; [injection H as <- <-; cbn; lia |].
  rewrite hups_cons. destruct e as [s | | | first | c]; cbn [sig_event is_hup ends] in H |- *.
  - apply IH in H. destruct s; cbn [raise reload hangup] in H; destruct (hangup (reload w)); lia.
  - apply IH in H. cbn [reload] in H. lia.
  - destruct (udp_done w); [| done]. destruct es; [| done]. injection H as <- <-. change (reads _) with ([] : list (result Config)). simpl. lia.
  - destruct (ShutdownSignal.recv first (shutdown w)); [| done]. destruct es; [| done]. injection H as <- <-. change (reads _) with ([] : list (result Config)). simpl. lia.
  - unfold ReloadSignal.recv in H. destruct (hangup (reload w)) eqn:Eh; [| done]. cbn [ends] in H.
    destruct (sig_run es _) as [[w1 ms1] |] eqn:E; [| done]. injection H as <- <-. apply IH in E.
    cbn [reload hangup] in E. cbn [reads omap list_omap length]. change (omap _ ms1) with (reads ms1). lia.
Qed.

(** One event and the rest of a run. *)
Lemma sig_run_cons e es w w' ms :
  sig_run (e :: es) w = Some (w', ms) ->
  exists w1 m ms1, sig_event e w = Some (w1, m) /\ sig_run es w1 = Some (w', ms1) /\ ms = option_list m ++ ms1.
Proof.
  cbn [sig_run]. destruct (sig_event e w) as [[w1 [m |]] |]; [| by eauto 10 | done].
  destruct (ends m).
  - destruct es; [| done]. intros [= <- <-]. by exists w1, (Some m), [].
  - destruct (sig_run es w1) as [[w2 ms1] |] eqn:E; [| done]. intros [= <- <-]. by exists w1, (Some m), ms1.
Qed.

Lemma reads_app l k : reads (l ++ k) = reads l ++ reads k.
Proof. apply omap_app. Qed.

(** What an event reads. *)
Lemma sig_event_reads e w w1 m :
  sig_event e w = Some (w1, m) -> reads (option_list m) = match e with TakeReload c => [c] | _ => [] end.
Proof. destruct e; cbn [sig_event]; intros H; repeat case_match; by simplify_eq. Qed.

Lemma reads_without_hup es : forall w w' ms,
  sig_run es w = Some (w', ms) -> hups es = 0%nat -> reads ms = reads_since_hup es.
Proof.
  induction es as [| e es IH]; intros w w' ms H Hh; [by injection H as <- <- |].
  apply sig_run_cons in H as (w1 & m & ms1 & He & Hr & ->). rewrite hups_cons in Hh.
  cbn [reads_since_hup]. rewrite decide_True by lia.
  by rewrite reads_app, (sig_event_reads _ _ _ _ He), (IH _ _ _ Hr) by lia.
Qed.

(** A remembered SIGHUP is still remembered, or a reload followed. *)
Lemma hangup_kept es : forall w w' ms,
  sig_run es w = Some (w', ms) -> hangup (reload w) = true -> hangup (reload w') = true \/ reads ms <> [].
Proof.
  induction es as [| e es IH]; intros w w' ms H Hh; [injection H as <- <-; by left |].
  apply sig_run_cons in H as (w1 & m & ms1 & He & Hr & ->). rewrite reads_app, (sig_event_reads _ _ _ _ He).
  destruct e as [s | | | first | c]; [.. | by right]; cbn [app]; apply (IH _ _ _ Hr); cbn [sig_event] in He;
    repeat case_match; simplify_eq; try done. by destruct s.
Qed.

Lemma last_read es : forall w w' ms,
  sig_run es w = Some (w', ms) -> hups es <> 0%nat ->
  hangup (reload w') = true \/ exists c, last (reads_since_hup es) = Some c /\ last (reads ms) = Some c.
Proof.
  induction es as [| e es IH]; intros w w' ms H Hh; [by destruct Hh |].
  apply sig_run_cons in H as (w1 & m & ms1 & He & Hr & ->). rewrite reads_app. cbn [reads_since_hup].
  destruct (decide (hups es = 0%nat)) as [E | E].
  - rewrite hups_cons in Hh. destruct e as [[] | | | |]; cbn [is_hup] in Hh; try lia.
    injection He as <- <-. cbn [option_list reads omap list_omap app].
    destruct (hangup_kept _ _ _ _ Hr eq_refl) as [Hk | Hk]; [by left | right].
    rewrite <- (reads_without_hup _ _ _ _ Hr E). destruct (last (reads ms1)) as [c |] eqn:El; [by exists c |].
    by apply last_None in El.
  - destruct (IH _ _ _ Hr E) as [Hk | (c & H1 & H2)]; [by left | right]. exists c. split; [done |].
    by rewrite last_app, H2.
Qed.

(** ** Properties *)

(** C38. No hangup is lost: however signals, the UDP task and the loop
    interleave, the loop reloads at most once for each SIGHUP, and after the
    last one it either still has it to take or has read the configuration
    since, which is then the last configuration it read. *)
Theorem hangup_not_lost (es : list SigEvent) (w : Waiting) (ms : list MainEvent) (sigint sigterm sighup : Result string unit) s r :
  install sigint sigterm sighup = Ok (s, r) ->
  sig_run es (mkWaiting s r false) = Some (w, ms) ->
  (length (reads ms) <= hups es)%nat /\
  (hups es <> 0%nat ->
   hangup (reload w) = true \/
   exists c, last (reads_since_hup es) = Some c /\ last (reads ms) = Some c).
Proof.
  intros Hi Hr. assert (Hh : hangup r = false).
  { unfold install, ShutdownSignal.new, ReloadSignal.new in Hi.
    destruct sigint as [[] |], sigterm as [[] |], sighup as [[] |]; cbn in Hi; try discriminate Hi. by injection Hi as <- <-. }
  split; [| by eapply last_read]. apply reads_bound in Hr. cbn [reload] in Hr. rewrite Hh in Hr. lia.
Qed.

(** ** Witness *)

Lemma hangup_not_lost_witness :
  exists w ms,
    sig_run [Raised SIGHUP; Raised SIGHUP; TakeReload (Err ["old"]); Raised SIGHUP; Raised SIGTERM;
             TakeReload (Ok default_config); TakeShutdown true]
      (mkWaiting (mkShutdown false false) (mkReload false) false) = Some (w, ms) /\
    (length (reads ms) <= 3)%nat /\ last (reads ms) = Some (Ok default_config).
Proof.
  do 2 eexists. split; [reflexivity |].
  destruct (hangup_not_lost
    [Raised SIGHUP; Raised SIGHUP; TakeReload (Err ["old"]); Raised SIGHUP; Raised SIGTERM;
     TakeReload (Ok default_config); TakeShutdown true] _ _ (Ok tt) (Ok tt) (Ok tt)
    (mkShutdown false false) (mkReload false) eq_refl eq_refl) as [H1 H2].
  split; [exact H1 |]. destruct (H2 ltac:(vm_compute; discriminate)) as [H | (c & Hc & Hl)]; [discriminate H |].
  rewrite Hl, <- Hc. reflexivity.
Defined.

