(* ===== verification/Main.v ===== *)
(** * The command line ([src/main.rs])

    The two commands, what they print and the exit code. The parser of the
    arguments is [clap]'s; the run itself is a parameter here, any function
    that takes the configuration and the log and ends with a result. *)

From Stdlib Require Import ZArith Lia.
From Stdlib Require Import Strings.Ascii Strings.String.
From stdpp Require Import base decidable list strings gmap.
From S2P Require Import Prelude StdNet StdText Config Logging LinuxDns App.
#[local] Open Scope Z_scope.

(** ** Definitions *)

Inductive Command : Type := Init | Run.
Inductive ExitCode : Type := SUCCESS | FAILURE.

Definition require_root (is_root : bool) : result unit :=
  if is_root then Ok tt else bail "cortado run requires root privileges; run with sudo".

(** On Windows there is no check. *)
Definition require_root_not_unix : result unit := Ok tt.

(** [writeln!] *)
Definition line (s : string) : string := s +:+ String LF "".

Section Cli.
(** The styles of [clap], as in the log worker, and the crates the
    configuration is read with. *)
Context {Style : Type} (ERROR_STYLE LITERAL_STYLE INFO WARN ERR DEBUG : Style) (render render_reset : Style -> string).
Context (to_string_pretty : Config -> Result string string).
Context (from_str : string -> Result string Config).
Context (from_utf8 : list byte -> Result string string).
(** The version of the package, the user, the outcome of building the
    runtime, the run, and the time printed with each message. *)
Context (version : string) (root : result unit) (runtime : Result string unit).
Context (run : Config -> Logger.t -> Log -> result unit * Log) (stamp : nat -> string).

Definition styled (s : Style) (text : string) : string := render s +:+ text +:+ render_reset s.

(** Results, files, and the lines of standard output. *)
Definition cmd_init (h : HostEnv) (w : FS) : result unit * FS * list string :=
  match init_config to_string_pretty h w with
  | (Err e, w) => (Err e, w, [])
  | (Ok path, w) =>
      (Ok tt, w,
       [line ("wrote default configuration to " +:+ styled LITERAL_STYLE path);
        line ("edit it, then run " +:+ styled LITERAL_STYLE "cortado run" +:+ ".")])
  end.

Definition starting (cfg : Config) : string :=
  "cortado " +:+ version +:+ " starting, proxy=" +:+ proxy_addr cfg +:+ " tun=" +:+ tun_name cfg.

(** The lines of standard error: the worker writes every message before it is
    joined. *)
Definition cmd_run (h : HostEnv) (w : FS) : result unit * FS * list string :=
  match root with
  | Err e => (Err e, w, [])
  | Ok _ =>
      match load_config from_str from_utf8 h w with
      | (Err e, w) => (Err e, w, [])
      | (Ok cfg, w) =>
          match context "failed to build async runtime" (io runtime) with
          | Err e => (Err e, w, [])
          | Ok _ =>
              let '(logger, log) := Logger.new (verbose cfg) in
              let log := Logger.info (starting cfg) log in
              let '(result, log) := run cfg logger log in
              let log := match result with
                         | Err e => Logger.error ("fatal: " +:+ error_chain e) log
                         | Ok _ => log
                         end in
              (result, w, run_log_worker Style INFO WARN ERR DEBUG render render_reset (imap (fun i m => (stamp i, m)) log))
          end
      end
  end.

(** The exit code, the files, standard output and standard error. *)
Definition main (command : Command) (h : HostEnv) (w : FS) : ExitCode * FS * list string * list string :=
  let '(result, w, out, err) :=
    match command with
    | Init => let '(r, w, out) := cmd_init h w in (r, w, out, [])
    | Run => let '(r, w, err) := cmd_run h w in (r, w, [], err)
    end in
  match result with
  | Ok _ => (SUCCESS, w, out, err)
  | Err e => (FAILURE, w, out, err ++ [line (styled ERROR_STYLE "cortado:" +:+ " " +:+ error_chain e)])
  end.

(** ** Specification *)

(** The messages of a run, as the worker prints them. *)
Definition printed (log : Log) : list string :=
  run_log_worker Style INFO WARN ERR DEBUG render render_reset (imap (fun i m => (stamp i, m)) log).

(** ** Properties *)

(** What [cortado run] reports: without the rights it touches nothing and
    says so; a configuration that cannot be loaded ends it before anything
    runs; otherwise it succeeds exactly when the run does, with every
    message of the run on standard error, and when the run fails its error
    is the last message of the log and, after it, the last line printed. *)
Theorem main_run_reports (h : HostEnv) (w : FS) :
  runtime = Ok tt ->
  let failed w err e := (FAILURE, w, [], err ++ [line (styled ERROR_STYLE "cortado:" +:+ " " +:+ error_chain e)]) in
  main Run h w =
  match root, load_config from_str from_utf8 h w with
  | Err e, _ => failed w [] e
  | Ok _, (Err e, w') => failed w' [] e
  | Ok _, (Ok cfg, w') =>
      match run cfg (Logger.mk (verbose cfg)) [Info (starting cfg)] with
      | (Ok _, log) => (SUCCESS, w', [], printed log)
      | (Err e, log) => failed w' (printed log ++ [log_line Style INFO WARN ERR DEBUG render render_reset
                                      (stamp (length log)) (Error_ ("fatal: " +:+ error_chain e))]) e
      end
  end.
Proof.
  intros Hrt failed. unfold main, cmd_run. destruct root as [[] | e]; [| done].
  destruct (load_config from_str from_utf8 h w) as [[cfg | e] w']; [| done].
  rewrite Hrt. cbn [io context Logger.new Logger.info app].
  destruct (run cfg _ _) as [[[] | e] log]; [done |]. unfold failed. do 3 f_equal.
  unfold Logger.error, printed, run_log_worker. rewrite imap_app, fmap_app. cbn [imap fmap list_fmap].
  by rewrite Nat.add_0_r.
Qed.
End Cli.
