(* ===== verification/Controller.v ===== *)
(** * A run over any accounted controller ([src/lib.rs] with [src/platform])

    What the application's loop needs of a platform's route controller in
    order to promise that a run leaves the host as it found it, as a class;
    and that promise, proved once for every instance. *)

From Stdlib Require Import ZArith Lia.
From Stdlib Require Import Strings.Ascii Strings.String.
From stdpp Require Import base decidable list strings gmap.
From S2P Require Import Prelude StdNet StdText Net Config Logging Stats Reload Platform Socks LinuxDns DnsPool App.
#[local] Open Scope Z_scope.

(** A controller that can account for what it did: [ac_start] is one on a
    host it has not touched, [ac_running] one whose changes to the host it
    can all undo, [ac_clean] a host without any of them; [ac_admits] is what
    the host has to grant a state, and may be trivial. *)
Class Accounted (S : Type) `{!RouteController S} := {
  ac_proxy : S -> IpAddr;
  ac_bypass : S -> CidrList;
  ac_start : S -> Prop;
  ac_admits : S -> Prop;
  ac_running : S -> Prop;
  ac_clean : S -> Prop;
  ac_apply : forall s s', ac_start s -> rc_apply s = (Ok tt, s') -> ac_admits s' ->
    ac_running s' /\ ac_proxy s' = ac_proxy s /\ ac_bypass s' = ac_bypass s;
  ac_reload : forall plan s s', ac_running s -> plan_fits (ac_proxy s) (ac_bypass s) plan ->
    rc_reload plan s = (Ok tt, s') -> ac_admits s' ->
    ac_running s' /\ ac_bypass s' = rp_new_bypass plan /\
    ac_proxy s' = match rp_proxy_route_change plan with Some (_, n) => n | None => ac_proxy s end;
  ac_teardown : forall s, ac_running s -> ac_clean (rc_teardown s);
}.

Section Run.
Context {S : Type} `{!RouteController S} `{!Accounted S}.

(** ** The invariant of the loop *)

(** The controller's routes are those of the configuration in force. *)
Record in_step (a : AppState S) : Prop := {
  is_running : ac_running (route_manager a);
  is_valid : validate (current_cfg a) = Ok tt;
  is_bypass : forall b, bypass_routes (current_cfg a) = Some b ->
    forall x, x ∈ ac_bypass (route_manager a) <-> x ∈ b;
  is_proxy : forall p, proxy_socket_addr (current_cfg a) = Some p -> ac_proxy (route_manager a) = sa_ip p;
}.

(** The controller accepts a plan it is given, and the host grants the state
    it reaches. *)
Definition reload_smooth (r : result Config) (a : AppState S) : Prop :=
  match r with
  | Ok c => forall p, ReloadPlan.compute (current_cfg a) c = Some p -> ReloadPlan.is_noop p = false ->
      exists s, rc_reload p (route_manager a) = (Ok tt, s) /\ ac_admits s
  | Err _ => True
  end.

Fixpoint untroubled (es : list MainEvent) (a : AppState S) : Prop :=
  match es with
  | ReloadReceived r :: es =>
      reload_smooth r a /\ match apply_reload r a with Some a' => untroubled es a' | None => True end
  | _ => True
  end.

Lemma in_step_note f a : in_step (app_note f a) <-> in_step a.
Proof. split; intros []; by constructor. Qed.

(** The plan of two valid configurations fits a controller that is in step. *)
Lemma in_step_fits a c p :
  in_step a -> validate c = Ok tt -> ReloadPlan.compute (current_cfg a) c = Some p ->
  plan_fits (ac_proxy (route_manager a)) (ac_bypass (route_manager a)) p.
Proof.
  intros [Hs Hv Hb Hp] Hc Hcomp.
  pose proof (proj1 (validate_valid _) Hv) as Hv'. pose proof (proj1 (validate_valid _) Hc) as Hc'.
  destruct (compute_valid _ _ Hv' Hc') as (ob & nb & op & np & od & nd & Hob & Hnb & Hop & Hnp & Hod & Hnd & E).
  rewrite Hcomp in E. injection E as ->. specialize (Hb ob Hob). specialize (Hp op Hop).
  unfold plan_fits. simpl. split_and!.
  - intros o n. case_decide; [| done]. intros [= <- _]. done.
  - intros x Hx. apply Hb in Hx. rewrite list_elem_of_filter. destruct (decide (x ∈ nb)); tauto.
  - intros x. rewrite list_elem_of_filter. intros [_ Hx]. by apply Hb.
  - intros x. rewrite list_elem_of_filter. tauto.
Qed.

(** A no-op plan keeps the controller in step with the new configuration. *)
Lemma in_step_noop a c p :
  in_step a -> validate c = Ok tt -> ReloadPlan.compute (current_cfg a) c = Some p ->
  ReloadPlan.is_noop p = true -> in_step (with_cfg c a).
Proof.
  intros [Hs Hv Hb Hp] Hc Hcomp Hno.
  pose proof (proj1 (validate_valid _) Hv) as Hv'. pose proof (proj1 (validate_valid _) Hc) as Hc'.
  destruct (compute_valid _ _ Hv' Hc') as (ob & nb & op & np & od & nd & Hob & Hnb & Hop & Hnp & Hod & Hnd & E).
  rewrite Hcomp in E. injection E as ->. specialize (Hb ob Hob). specialize (Hp op Hop).
  unfold ReloadPlan.is_noop in Hno. simpl in Hno. bool_to_prop.
  assert (op = np) as -> by by apply dec_stable.
  assert (Hset : forall x, x ∈ ob <-> x ∈ nb) by (apply diff_cidrs_nil; unfold diff_cidrs in *; by repeat case_match).
  constructor; simpl; try done.
  - intros b Hb' x. rewrite Hnb in Hb'. injection Hb' as <-. by rewrite Hb, Hset.
  - intros p Hp'. rewrite Hnp in Hp'. by injection Hp' as <-.
Qed.

(** A plan that was carried out. *)
Lemma in_step_reloaded a c p s a' :
  in_step a -> validate c = Ok tt -> ReloadPlan.compute (current_cfg a) c = Some p ->
  rc_reload p (route_manager a) = (Ok tt, s) -> ac_admits s ->
  current_cfg a' = c -> route_manager a' = s -> in_step a'.
Proof.
  intros Ha Hc Hcomp Hre Had Ec Es. pose proof (in_step_fits _ _ _ Ha Hc Hcomp) as Hfit.
  destruct Ha as [Hs Hv Hb Hp]. destruct (ac_reload _ _ _ Hs Hfit Hre Had) as (Hrun & Hby & Hpr).
  pose proof (proj1 (validate_valid _) Hv) as Hv'. pose proof (proj1 (validate_valid _) Hc) as Hc'.
  destruct (compute_valid _ _ Hv' Hc') as (ob & nb & op & np & od & nd & Hob & Hnb & Hop & Hnp & Hod & Hnd & E).
  rewrite Hcomp in E. injection E as ->. specialize (Hp op Hop). simpl in Hby, Hpr.
  constructor; rewrite ?Ec, ?Es; try done.
  - intros b Hb' x. rewrite Hnb in Hb'. injection Hb' as <-. by rewrite Hby.
  - intros p Hp'. rewrite Hnp in Hp'. injection Hp' as <-. rewrite Hpr, Hp.
    by case_decide.
Qed.

Lemma in_step_reload r a :
  in_step a -> loaded_ok r -> reload_smooth r a -> exists a', apply_reload r a = Some a' /\ in_step a'.
Proof.
  intros Ha Hr Hok. unfold apply_reload. destruct r as [c | e]; [| eexists; split; [done | by apply in_step_note]].
  set (a1 := match immutable_changes _ _ with [] => a | _ => _ end).
  assert (Ha1 : in_step a1) by (unfold a1; case_match; [done | by apply in_step_note]).
  assert (E1 : current_cfg a1 = current_cfg a /\ route_manager a1 = route_manager a)
    by (unfold a1; by destruct (immutable_changes (current_cfg a) c)).
  destruct E1 as [E1 E2]. simpl in Hok. rewrite <- E1, <- E2 in Hok. clearbody a1. clear a Ha E1 E2. simpl in Hr.
  pose proof (proj1 (validate_valid _) (is_valid _ Ha1)) as Hv'. pose proof (proj1 (validate_valid _) Hr) as Hc'.
  destruct (compute_valid _ _ Hv' Hc') as (ob & nb & op & np & od & nd & _ & _ & _ & _ & _ & _ & E).
  rewrite E. specialize (Hok _ E). destruct (ReloadPlan.is_noop _) eqn:Hno.
  - eexists. split; [done |]. apply (in_step_note (Logger.info "reload: no effective changes")) in Ha1.
    by apply (in_step_noop _ c _ Ha1 Hr E).
  - destruct (Hok eq_refl) as (s & Hre & Had). rewrite Hre. eexists. split; [done |].
    eapply (in_step_reloaded a1 c _ s _ Ha1 Hr E Hre Had); by destruct (rp_proxy_changed _).
Qed.

Lemma in_step_loop es a :
  in_step a -> Forall event_ok es -> untroubled es a ->
  exists stop a', main_loop es a = Some (stop, a') /\ in_step a'.
Proof.
  intros Ha Hes. revert a Ha. induction Hes as [| e es He Hes IH]; intros a Ha Hun; [by exists false, a |].
  destruct e as [| | r]; simpl.
  - eexists _, _. split; [done | by apply in_step_note].
  - eexists _, _. split; [done | by apply in_step_note].
  - destruct Hun as [Hok Hun]. destruct (in_step_reload r a Ha He Hok) as (a' & Ha' & Hi).
    rewrite Ha' in *. by apply IH.
Qed.

(** A run that ends normally leaves the host clean: through any number of
    reloads (rejected files, no-ops and applied plans) that the platform
    carries out. *)
Lemma run_clean (cfg : Config) (proxy : ProxyConfig) (s0 : S) connect tun udp_idle stack signals es st log final :
  validate cfg = Ok tt -> ProxyConfig.from_config cfg = Some proxy ->
  ac_start s0 -> ac_proxy s0 = sa_ip (pc_addr proxy) -> bypass_routes cfg = Some (ac_bypass s0) ->
  Forall event_ok es ->
  (forall s, rc_apply s0 = (Ok tt, s) -> ac_admits s /\
     untroubled es (mkApp cfg s (Shared.new proxy (RouteTable.new (ac_bypass s0)))
       (DnsPool.new proxy (pc_connect_timeout proxy) udp_idle st) st log)) ->
  run cfg connect tun (Some (Ok s0)) udp_idle stack signals es st log = Some (Some (Ok tt), Some final) ->
  ac_clean final.
Proof.
  intros Hv Hp Hst Hpr Hb Hes Hun Hrun. unfold run, run_routes, shared_state, serve_until in Hrun. rewrite Hp in Hrun.
  destruct (probe_proxy connect) as [[] |]; [| done]. destruct tun as [[] |]; [| done].
  destruct (rc_apply s0) as [[[] | e] s] eqn:Ha; [| done]. destruct stack as [[] |]; [| done].
  rewrite Hb in Hrun. destruct signals as [[] |]; [| done]. destruct (Hun s eq_refl) as [Had Hunt].
  destruct (ac_apply _ _ Hst Ha Had) as (Hrn & Hpf & Hbf).
  match type of Hunt with untroubled _ ?a => set (a0 := a) in * end.
  assert (Hi : in_step a0).
  { constructor; simpl; try done.
    - intros b' Hb' x. rewrite Hb in Hb'. injection Hb' as <-. by rewrite Hbf.
    - intros p Hp'. unfold ProxyConfig.from_config in Hp. rewrite Hp' in Hp. injection Hp as <-. by rewrite Hpf. }
  destruct (in_step_loop _ _ Hi Hes Hunt) as (stop & a' & Hl & Hi'). rewrite Hl in Hrun.
  destruct stop; [| done]. injection Hrun as <-. apply ac_teardown, Hi'.
Qed.
End Run.
