(* ===== verification/LinuxRun.v ===== *)
(** * A whole run on Linux ([src/lib.rs] with [src/platform/linux])

    The Linux route manager as an accounted controller: what a run promises
    over any such controller becomes a statement about the host's routing
    table and its [resolv.conf]. *)

From Stdlib Require Import ZArith Lia.
From Stdlib Require Import Strings.Ascii Strings.String.
From stdpp Require Import base decidable list strings gmap.
From S2P Require Import Prelude StdNet StdText Net Config Logging Stats Reload Platform Socks LinuxDns DnsPool App Controller Netlink LinuxRoute.
#[local] Open Scope Z_scope.

(** ** Lemmas: files without faults stay without *)

Definition quiet (w : FS) : Prop := faults w = [] /\ read_faults w = [].

Lemma quiet_good w : quiet w -> fs_good w.
Proof. intros [H1 H2]. split; [done |]. by rewrite H1. Qed.

Lemma quiet_write p c w r w' : fs_write p c w = (r, w') -> quiet w -> quiet w'.
Proof. unfold fs_write, next_fault, quiet. intros H [E1 E2]. rewrite E1 in H. by injection H as <- <-. Qed.

Lemma quiet_remove p w : quiet w -> quiet (snd (fs_remove p w)).
Proof.
  unfold fs_remove, next_fault, quiet. intros [E1 E2]. rewrite E1. by destruct (files w !! p).
Qed.

Lemma quiet_read p w r w' : fs_read p w = (r, w') -> quiet w -> quiet w'.
Proof. unfold fs_read, next_read_fault, quiet. intros H [E1 E2]. rewrite E2 in H. by injection H as <- <-. Qed.

Lemma quiet_fs_op msg p c s r s' :
  se_context msg (fs_op (fs_write p c)) s = (r, s') -> quiet (ds_fs s) -> quiet (ds_fs s').
Proof.
  unfold se_context, fs_op. destruct (fs_write p c (ds_fs s)) as [r0 w] eqn:E. intros [= _ <-] H. simpl.
  by eapply quiet_write.
Qed.

Lemma quiet_backup s r s' : ResolvConf.ensure_backup s = (r, s') -> quiet (ds_fs s) -> quiet (ds_fs s').
Proof.
  unfold ResolvConf.ensure_backup. destruct (original (ds_rc s)); [by intros [= <- <-] |].
  destruct (fs_read (path (ds_rc s)) (ds_fs s)) as [o w] eqn:E. intros H Hq.
  apply quiet_read in E; [| done]. unfold se_bind in H.
  destruct (ok o) as [c |]; [| by injection H as <- <-].
  destruct (se_context _ _ _) as [[[] | e] s1] eqn:E1; apply quiet_fs_op in E1; try done; by injection H as <- <-.
Qed.

Lemma quiet_apply server s s' :
  ResolvConf.apply server s = (Ok tt, s') -> quiet (ds_fs s) -> quiet (ds_fs s').
Proof.
  destruct server as [d |]; [| by intros [= <-]]. intros H Hq.
  apply se_bind_ok in H as ([] & s1 & H1 & H). apply quiet_backup in H1; [| done].
  apply se_bind_ok in H as ([] & s2 & H2 & H). apply quiet_fs_op in H2; [| done].
  apply se_bind_ok in H as ([] & s3 & H3 & H). injection H3 as <-. by injection H as <-.
Qed.

Lemma quiet_reload server s s' :
  ResolvConf.reload server s = (Ok tt, s') -> quiet (ds_fs s) -> quiet (ds_fs s').
Proof.
  unfold ResolvConf.reload. intros H Hq. case_decide; [by injection H as <- |].
  apply se_bind_ok in H as ([] & s1 & H1 & H). injection H as <-. simpl.
  destruct server as [d |].
  - apply se_bind_ok in H1 as ([] & s2 & H2 & H1). apply quiet_backup in H2; [| done].
    apply se_bind_ok in H1 as ([] & s3 & H3 & H1). apply quiet_fs_op in H3; [| done]. by injection H1 as <-.
  - destruct (original (ds_rc s)); [| by injection H1 as <-].
    apply se_bind_ok in H1 as ([] & s2 & H2 & H1). apply quiet_fs_op in H2; [| done].
    apply se_bind_ok in H1 as ([] & s3 & H3 & H1). injection H3 as <-. injection H1 as <-. simpl. by apply quiet_remove.
Qed.

Section Run.
Context {K : Type} `{!Netlink K} `{!RouteLaws K}.

Abbreviation table s := (nl_table (rs_k s)).

(** ** Lemmas: what a successful call leaves in the manager *)

Lemma apply_fields (s s' : RS K) :
  rc_apply s = (Ok tt, s') ->
  bypass (rs_rm s') = bypass (rs_rm s) /\ proxy_ip (rs_rm s') = proxy_ip (rs_rm s) /\
  (quiet (rs_fs s) -> quiet (rs_fs s')).
Proof.
  intros H. apply apply_ok in H as (v4 & v6 & d & log & Hrm & Hfs & Hd & _). rewrite Hrm, Hfs.
  split_and!; [done .. |]. intros Hq. by apply quiet_apply in Hd.
Qed.

Lemma move_proxy_fields ch (s s' : RS K) :
  move_proxy_route ch s = (Ok tt, s') ->
  rs_rm s' = with_proxy_ip (match ch with Some (_, n) => n | None => proxy_ip (rs_rm s) end) (rs_rm s) /\
  rs_fs s' = rs_fs s.
Proof.
  destruct ch as [[o n] |]; [| intros [= <-]; by destruct (rs_rm s)]. intros H.
  apply se_bind_ok in H as ([] & s1 & H1 & H). injection H1 as H1.
  destruct (del_gateway_prune o (host_prefix o) "reload: removing old proxy route: " s) as (Hr & Hf & _).
  rewrite H1 in Hr, Hf. destruct (gateway_for (rs_rm s1) n) as [[gw oif] |]; [| done].
  apply se_bind_ok in H as ([] & s2 & H2%se_context_ok & H). apply add_via_gateway_ok in H2 as (_ & Hr2 & Hf2).
  apply se_bind_ok in H as ([] & s3 & H3 & H). injection H3 as <-. injection H as <-. simpl.
  by rewrite Hr2, Hr, Hf2, Hf.
Qed.

Lemma reload_fields plan (s s' : RS K) :
  rc_reload plan s = (Ok tt, s') -> applied (rs_rm s) = true ->
  bypass (rs_rm s') = rp_new_bypass plan /\
  proxy_ip (rs_rm s') = match rp_proxy_route_change plan with Some (_, n) => n | None => proxy_ip (rs_rm s) end /\
  (quiet (rs_fs s) -> quiet (rs_fs s')).
Proof.
  intros H Ha. simpl in H. unfold reload in H. rewrite Ha in H. cbn [negb] in H.
  apply se_bind_ok in H as ([] & s1 & H1 & H). apply move_proxy_fields in H1 as [Hr1 Hf1].
  apply se_bind_ok in H as ([] & s2 & H2 & H). injection H2 as H2.
  destruct (remove_bypass_prune (fun n => "reload: removing bypass " +:+ n +:+ ": ") (rp_bypass_remove plan) s1)
    as (Hr2 & Hf2 & _). rewrite H2 in Hr2, Hf2.
  apply se_bind_ok in H as ([] & s3 & H3 & H). apply for_bypass_ok in H3 as (Hr3 & Hf3 & _).
  apply se_bind_ok in H as ([] & s4 & H4 & H). injection H4 as H4.
  assert (H4' : bypass (rs_rm s4) = rp_new_bypass plan /\
    proxy_ip (rs_rm s4) = match rp_proxy_route_change plan with Some (_, n) => n | None => proxy_ip (rs_rm s) end /\
    rs_fs s4 = rs_fs s).
  { subst s4. simpl. rewrite Hr3, Hr2, Hr1. split_and!; [done .. | congruence]. }
  destruct H4' as (Hb & Hp & Hf). destruct (rp_dns_changed plan); [| injection H as <-; by rewrite Hf].
  apply se_bind_ok in H as ([] & s5 & H5 & H). injection H as <-. apply on_dns_ok in H5 as (d & Hd & ->). simpl.
  split_and!; [done .. |]. intros Hq. apply quiet_reload in Hd; [done |]. simpl. by rewrite Hf.
Qed.

(** ** The manager as an accounted controller *)

(** On a host with the table [base] and [c0] in [resolv.conf]. The host must
    not have routed the networks of a state before. *)
#[local] Program Instance linux_accounted (base : gmap RouteKey NextHop) (c0 : list byte) : Accounted (RS K) := {|
  ac_proxy s := proxy_ip (rs_rm s);
  ac_bypass s := bypass (rs_rm s);
  ac_start s := table s = base /\ rm_dns (rs_rm s) = ResolvConf.system /\
    files (rs_fs s) !! RESOLV_CONF_PATH = Some c0 /\ quiet (rs_fs s);
  ac_admits s := fresh base (rs_rm s);
  ac_running s := session base c0 s /\ quiet (rs_fs s);
  ac_clean s := table s = base /\ files (rs_fs s) !! RESOLV_CONF_PATH = Some c0;
|}.
Next Obligation.
  intros base c0 s s' (Ht & Hd & Hc & Hq) Ha Hf. pose proof (apply_fields _ _ Ha) as (Hb & Hp & Hq').
  split; [| done]. split; [| by apply Hq']. eapply session_apply; try done. by apply quiet_good.
Qed.
Next Obligation.
  intros base c0 plan s s' [Hs Hq] Hfit Hre Hf. destruct (session_inv _ _ _ Hs) as (_ & Hap & _).
  pose proof (reload_fields _ _ _ Hre Hap) as (Hb & Hp & Hq'). split; [| done].
  split; [by eapply session_reload | by apply Hq'].
Qed.
Next Obligation.
  intros base c0 s [Hs [Hq _]]. by destruct (session_teardown base c0 s Hs Hq) as (H1 & H2 & _).
Qed.

(** ** Properties *)

(** C1. A run leaves the host as it found it: started on a valid
    configuration with the manager that [new_route_controller] makes, through
    any number of reloads (rejected files, no-ops and applied plans) that
    the kernel carries out ([untroubled]), a run that ends normally leaves
    exactly the routing table there was before, and [resolv.conf] with its
    contents, provided that there was a [resolv.conf], that its file system
    makes no errors ([quiet]), and that none of the networks the tunnel
    routes on the way (the proxy's, the bypass networks and the halves of the
    address space) had a route before ([fresh]): one that had loses it
    ([LinuxRoute.apply_takes_over]). *)
Theorem linux_run_restores (k : K) (cfg : Config) (proxy : ProxyConfig) (tun_name : string) (capture : bool)
    (rm : RouteManager) (w : FS) (c0 : list byte) connect tun udp_idle stack signals es st log final :
  validate cfg = Ok tt ->
  ProxyConfig.from_config cfg = Some proxy ->
  new_route_controller (Ok k) cfg (sa_ip (pc_addr proxy)) tun_name capture = Some (Ok rm) ->
  files w !! RESOLV_CONF_PATH = Some c0 -> quiet w ->
  Forall event_ok es ->
  (forall s b, rc_apply (mkRS rm k w log) = (Ok tt, s) -> bypass_routes cfg = Some b ->
     fresh (nl_table k) (rs_rm s) /\
     untroubled (Accounted0 := linux_accounted (nl_table k) c0) es (mkApp cfg s (Shared.new proxy (RouteTable.new b))
       (DnsPool.new proxy (pc_connect_timeout proxy) udp_idle st) st log)) ->
  run cfg connect tun (Some (Ok (mkRS rm k w log))) udp_idle stack signals es st log =
    Some (Some (Ok tt), Some final) ->
  nl_table (rs_k final) = nl_table k /\ files (rs_fs final) !! RESOLV_CONF_PATH = Some c0.
Proof.
  intros Hv Hp Hnew Hc0 Hq Hes Hun Hrun.
  unfold new_route_controller in Hnew. simpl in Hnew.
  destruct (dns_addr cfg) as [d |]; [| done]. destruct (bypass_routes cfg) as [b |] eqn:Hb; [| done].
  injection Hnew as Hnew. unfold RouteManager_new in Hnew. apply rbind_ok in Hnew as (idx & _ & [= <-]).
  apply (run_clean (Accounted0 := linux_accounted (nl_table k) c0) cfg proxy _ _ _ _ _ _ _ _ _ _ Hv Hp) in Hrun; try done.
  intros s Ha. by apply (Hun s b Ha).
Qed.
End Run.

Definition sim_host : SimKernel := mkSim Example.host Example.dump [("cortado0", mkLinkMessage 7 [])].

Definition sim_files : FS := mkFS {[RESOLV_CONF_PATH := as_bytes "nameserver 8.8.8.8"]} [] [].

Definition sim_manager : RouteManager :=
  mkRM (V4 2130706433) 7 ResolvConf.system (Some (V4 16843009)) [] false None None false.

Lemma linux_run_restores_witness :
  exists final,
    run default_config (Connected (mkStream [] Eof [] [])) (Ok tt) (Some (Ok (mkRS sim_manager sim_host sim_files [])))
      60 (Ok tt) (Ok tt) [ReloadReceived (Ok example_cfg); ShutdownReceived] zero_counters [] =
    Some (Some (Ok tt), Some final) /\
    nl_table (rs_k final) = Example.host /\
    files (rs_fs final) !! RESOLV_CONF_PATH = Some (as_bytes "nameserver 8.8.8.8").
Proof.
  destruct (run default_config (Connected (mkStream [] Eof [] [])) (Ok tt) (Some (Ok (mkRS sim_manager sim_host sim_files [])))
      60 (Ok tt) (Ok tt) [ReloadReceived (Ok example_cfg); ShutdownReceived] zero_counters [])
    as [[out [final |]] |] eqn:E; [| vm_compute in E; discriminate E | vm_compute in E; discriminate E].
  assert (Ho : out = Some (Ok tt)).
  { apply (f_equal (fun x => match x with Some (o, _) => o | None => None end)) in E. vm_compute in E.
    symmetry. exact E. }
  rewrite Ho in E |- *. exists final. split; [reflexivity |].
  change (nl_table (rs_k final) = nl_table sim_host /\
    files (rs_fs final) !! RESOLV_CONF_PATH = Some (as_bytes "nameserver 8.8.8.8")).
  apply (linux_run_restores sim_host default_config default_proxy "cortado0" false sim_manager sim_files
    (as_bytes "nameserver 8.8.8.8") (Connected (mkStream [] Eof [] [])) (Ok tt) 60 (Ok tt) (Ok tt)
    [ReloadReceived (Ok example_cfg); ShutdownReceived] zero_counters [] final);
    [vm_compute; reflexivity .. | split; reflexivity | repeat constructor; vm_compute; reflexivity | | exact E].
  intros s b Hs Hb.
  assert (Hs' : s = snd (rc_apply (mkRS sim_manager sim_host sim_files []))) by (by rewrite Hs).
  assert (Hb' : b = []) by (vm_compute in Hb; congruence). subst s b. split.
  - apply Example.fresh_host. refine (proj1 (bool_decide_eq_true _) _). vm_compute. reflexivity.
  - cbn [untroubled]. split; [| vm_compute; exact I].
    intros p Hp _. vm_compute in Hp. injection Hp as <-.
    eexists. split; [vm_compute; reflexivity |].
    apply Example.fresh_host. refine (proj1 (bool_decide_eq_true _) _). vm_compute. reflexivity.
Defined.
