(* ===== verification/MacRun.v ===== *)
(** * A whole run on macOS ([src/lib.rs] with [src/platform/macos])

    [MacosRoutes] as an accounted controller, and what a run then leaves on
    the host. *)

From Stdlib Require Import ZArith Lia.
From Stdlib Require Import Strings.Ascii Strings.String.
From stdpp Require Import base decidable list strings gmap.
From S2P Require Import Prelude StdNet StdText Net Config Logging Stats Reload Platform Socks DnsPool App Controller Command MacDns MacRoute.
#[local] Open Scope Z_scope.

(** The DNS servers of the service are the first ones, or the log says that
    they could not be restored. *)
Definition dns_back (svc : string) (l0 : list string) (s : MS) : Prop :=
  setting svc (trace (ms_host s)) = None \/ setting svc (trace (ms_host s)) = Some (set_args l0) \/
  exists e, Warn ("failed to restore DNS: " +:+ e) ∈ ms_log s.

(** On a host whose primary service [svc] has the DNS servers [l0]. *)
#[local] Program Instance mac_accounted (svc : string) (l0 : list string) : Accounted MS := {|
  ac_proxy s := proxy_ip (ms_mr s);
  ac_bypass s := bypass (ms_mr s);
  ac_start s := live s = [] /\ mr_dns (ms_mr s) = mkNsd svc None None /\
    setting svc (trace (ms_host s)) = None /\ reports svc l0 (ms_host s);
  ac_admits _ := True;
  ac_running s := session svc l0 s;
  ac_clean s := live s = [] /\ applied (ms_mr s) = false /\ dns_back svc l0 s;
|}.
Next Obligation.
  intros svc l0 s s' (Hl & Hd & Ht & Hr) Ha _. split; [by eapply session_apply |].
  apply mac_apply_ok in Ha as (g4 & g6 & s1 & d & Hm & _ & _ & _ & -> & _). simpl. by rewrite Hm.
Qed.
Next Obligation.
  intros svc l0 plan s s' Hs Hfit Hre _. destruct (mac_session_inv _ _ _ Hs) as (Ha & Hc & _).
  split; [by eapply session_reload |]. by apply mac_reload_ok in Hre as (_ & _ & _ & H1 & H2).
Qed.
Next Obligation. intros svc l0 s Hs. apply mac_session_teardown, Hs. Qed.

(** Making the controller asks for the services and changes nothing. *)
Lemma new_controller_ok cfg ip tun_name capture h m h' :
  new_route_controller cfg ip tun_name capture h = Some (Ok m, h') ->
  bypass_routes cfg = Some (bypass m) /\ proxy_ip m = ip /\ mr_dns m = mkNsd (service (mr_dns m)) None None /\
  answer h' = answer h /\ outstanding mac_effect (trace h') = outstanding mac_effect (trace h) /\
  forall svc, setting svc (trace h') = setting svc (trace h).
Proof.
  unfold new_route_controller, MacosRoutes_new. destruct (bypass_routes cfg) as [b |]; [| done].
  unfold NetworkSetupDns.discover, primary_service. set (c := mkCmd _ _).
  pose proof (live_networksetup c h eq_refl) as Hl.
  assert (Hs : forall svc, setting svc (trace (spawn c h).2) = setting svc (trace h))
    by (intros svc; unfold spawn; simpl; by rewrite setting_snoc).
  assert (Ha : answer (spawn c h).2 = answer h) by done.
  destruct (spawn c h) as [r h1]. cbn [fst snd] in *. intros H.
  destruct r as [out | e]; [| done]. destruct (find_service (stdout out)); [| done].
  destruct (dns_addr cfg); [| done]. by injection H as <- <-.
Qed.

(** ** Properties *)

(** C14. A run on macOS leaves the host as it found it: started on a valid
    configuration with the controller that [new_route_controller] makes, on
    a host that answers commands in any way but reports the primary service's
    DNS servers at the start, through any number of reloads each of which
    succeeds ([untroubled]), a run that ends normally has asked for every
    route it added to be deleted, and has put those servers back, unless the
    log says that this failed. (A reload that fails can leave routes behind:
    [MacRoute.mac_failed_reload_leaks].) *)
Theorem mac_run_restores (h h' : Host) (cfg : Config) (proxy : ProxyConfig) (tun_name : string) (capture : bool)
    (m : MacosRoutes) (l0 : list string) connect tun udp_idle stack signals es st log final :
  validate cfg = Ok tt ->
  ProxyConfig.from_config cfg = Some proxy ->
  new_route_controller cfg (sa_ip (pc_addr proxy)) tun_name capture h = Some (Ok m, h') ->
  trace h = [] -> reports (service (mr_dns m)) l0 h ->
  Forall event_ok es ->
  (forall s, rc_apply (mkMS m h' log) = (Ok tt, s) ->
     untroubled (Accounted0 := mac_accounted (service (mr_dns m)) l0) es
       (mkApp cfg s (Shared.new proxy (RouteTable.new (bypass m)))
         (DnsPool.new proxy (pc_connect_timeout proxy) udp_idle st) st log)) ->
  run cfg connect tun (Some (Ok (mkMS m h' log))) udp_idle stack signals es st log =
    Some (Some (Ok tt), Some final) ->
  live final = [] /\ dns_back (service (mr_dns m)) l0 final.
Proof.
  intros Hv Hp Hnew Ht Hrep Hes Hun Hrun.
  apply new_controller_ok in Hnew as (Hb & Hpr & Hd & Ha & Hl & Hs). rewrite Ht in Hl, Hs.
  apply (run_clean (Accounted0 := mac_accounted (service (mr_dns m)) l0) cfg proxy _ _ _ _ _ _ _ _ _ _ Hv Hp) in Hrun;
    try done.
  - destruct Hrun as (H1 & _ & H2). done.
  - split_and!; [exact Hl | exact Hd | apply Hs |]. simpl. unfold reports. rewrite Ha. exact Hrep.
  - intros s Hs'. split; [exact I | by apply Hun].
Qed.

(** ** Witness *)

Module MacRunExample.
Definition order : string := ORDER_HEADER +:+ String LF (service_entry MacExample.wifi +:+ BLANK +:+ "").

(** The host of the routing example, with its list of services. *)
Definition reply (t : list (Cmd * Reply)) (c : Cmd) : Reply :=
  if decide (c = mkCmd NETWORKSETUP ["-listnetworkserviceorder"])
  then Ok (mkOutput MacExample.done_ order) else MacRouteExample.reply [] t c.

Definition host : Host := mkHost reply [].

Definition made : option (result MacosRoutes * Host) :=
  new_route_controller default_config (V4 2130706433) "utun4" false host.

Definition manager : MacosRoutes :=
  mkMR (V4 2130706433) "utun4" [] false None None (mkNsd "Wi-Fi" None None) (Some (V4 16843009)) false.
Definition host1 : Host := snd (primary_service host).

Lemma made_eq : made = Some (Ok manager, host1).
Proof.
  unfold made, new_route_controller, MacosRoutes_new, NetworkSetupDns.discover, host1.
  assert (Hb : bypass_routes default_config = Some []) by (vm_compute; reflexivity).
  assert (Hd : dns_addr default_config = Some (Some (V4 16843009))) by (vm_compute; reflexivity).
  assert (Hs : fst (primary_service host) = Ok "Wi-Fi") by (vm_compute; reflexivity).
  rewrite Hb, Hd. destruct (primary_service host) as [r h]. simpl in Hs. by rewrite Hs.
Qed.

Lemma mac_run_host_reports : reports "Wi-Fi" ["9.9.9.9"] host.
Proof.
  intros t Ht. change (servers_of (reply t (get_cmd "Wi-Fi")) = ["9.9.9.9"]). unfold reply.
  rewrite decide_False by done. by apply (MacRouteExample.mac_host_reports []).
Qed.

Lemma mac_run_ok_admits svc l0 (r : result unit * MS) :
  is_ok r.1 = true -> exists s, r = (Ok tt, s) /\ ac_admits (Accounted := mac_accounted svc l0) s.
Proof. destruct r as [[[] | e] s]; intros H; [by exists s | done]. Qed.

Definition events : list MainEvent := [ReloadReceived (Ok example_cfg); ShutdownReceived].

Definition ended_well (r : option (option (result unit) * option MS)) : bool :=
  match r with Some (Some (Ok _), Some _) => true | _ => false end.
End MacRunExample.

Lemma mac_run_restores_witness :
  exists final,
    run default_config (Connected (mkStream [] Eof [] [])) (Ok tt)
      (Some (Ok (mkMS MacRunExample.manager MacRunExample.host1 []))) 60 (Ok tt) (Ok tt)
      MacRunExample.events zero_counters [] = Some (Some (Ok tt), Some final) /\
    live final = [] /\ dns_back "Wi-Fi" ["9.9.9.9"] final.
Proof.
  assert (Ho : MacRunExample.ended_well (run default_config (Connected (mkStream [] Eof [] [])) (Ok tt)
      (Some (Ok (mkMS MacRunExample.manager MacRunExample.host1 []))) 60 (Ok tt) (Ok tt)
      MacRunExample.events zero_counters []) = true) by (vm_compute; reflexivity).
  destruct (run default_config _ _ _ _ _ _ _ _ _) as [[[[[] | e] |] [final |]] |] eqn:E; try discriminate Ho.
  exists final. split; [reflexivity |].
  apply (mac_run_restores MacRunExample.host MacRunExample.host1 default_config default_proxy "utun4" false
    MacRunExample.manager ["9.9.9.9"] (Connected (mkStream [] Eof [] [])) (Ok tt) 60 (Ok tt) (Ok tt)
    MacRunExample.events zero_counters [] final);
    [vm_compute; reflexivity | vm_compute; reflexivity | exact MacRunExample.made_eq | reflexivity |
     exact MacRunExample.mac_run_host_reports | repeat constructor; vm_compute; reflexivity | | exact E].
  clear E Ho. intros s Hs. apply (f_equal snd) in Hs. cbn [snd] in Hs.
  assert (Hb : match ReloadPlan.compute default_config example_cfg with
               | Some p => is_ok (rc_reload p (snd (rc_apply (mkMS MacRunExample.manager MacRunExample.host1 [])))).1
               | None => true
               end = true) by (vm_compute; reflexivity).
  rewrite Hs in Hb. clear Hs. split; [| by destruct (apply_reload _ _)].
  intros p Hp _. apply MacRunExample.mac_run_ok_admits. cbn [current_cfg route_manager] in Hp |- *. by rewrite Hp in Hb.
Defined.
