(* ===== verification/WinRun.v ===== *)
(** * A whole run on Windows ([src/lib.rs] with [src/platform/windows])

    [WindowsRoutes] as an accounted controller, and what a run then leaves on
    the host. *)

From Stdlib Require Import ZArith Lia.
From Stdlib Require Import Strings.Ascii Strings.String.
From stdpp Require Import base decidable list strings gmap.
From S2P Require Import Prelude StdNet StdText Net Config Logging Stats Reload Platform Socks DnsPool App Controller Command WinRoute.
#[local] Open Scope Z_scope.

(** Nothing the program put on the host is still there: no route it added
    is without its deletion, no static server list without its reset. *)
Definition nothing_left (s : WS) : Prop := routes_of (ws_host s) = [] /\ statics_of (ws_host s) = [].

#[global] Program Instance win_accounted : Accounted WS := {|
  ac_proxy s := proxy_ip (ws_wr s);
  ac_bypass s := bypass (ws_wr s);
  ac_start s := routes_of (ws_host s) = [] /\ statics_of (ws_host s) = [] /\
    wr_dns (ws_wr s) = NetshDns.new (wr_interface (ws_wr s));
  ac_admits _ := True;
  ac_running s := session s;
  ac_clean s := routes_of (ws_host s) = [] /\ statics_of (ws_host s) = [] /\ applied (ws_wr s) = false;
|}.
Next Obligation.
  intros s s' (Hr & Hs & Hd) Ha _. split; [by eapply session_apply |].
  apply win_apply_ok in Ha as (g & s1 & d & Hw & _ & _ & -> & _). simpl. by rewrite Hw.
Qed.
Next Obligation.
  intros plan s s' Hs Hfit Hre _. destruct (win_session_inv _ Hs) as (Ha & Hc & Hi).
  split; [by eapply session_reload |]. by apply reload_good in Hre as (_ & _ & _ & H1 & H2).
Qed.
Next Obligation. intros s Hs. apply win_session_teardown, Hs. Qed.

(** ** Properties *)

(** C15. A run on Windows leaves nothing of its own on the host: started on a
    valid configuration with the controller that [new_route_controller]
    makes, on a host that answers commands in any way, through any number of
    reloads each of which succeeds ([untroubled]), a run that ends normally
    has asked for every route it added to be deleted and for every static DNS
    server it set to be reset. *)
Theorem win_run_restores (h : Host) (cfg : Config) (proxy : ProxyConfig) (tun_name : string) (capture : bool)
    (w : WindowsRoutes) connect tun udp_idle stack signals es st log final :
  validate cfg = Ok tt ->
  ProxyConfig.from_config cfg = Some proxy ->
  new_route_controller cfg (sa_ip (pc_addr proxy)) tun_name capture = Some (Ok w) ->
  trace h = [] ->
  Forall event_ok es ->
  (forall s, rc_apply (mkWS w h log) = (Ok tt, s) ->
     untroubled es (mkApp cfg s (Shared.new proxy (RouteTable.new (bypass w)))
       (DnsPool.new proxy (pc_connect_timeout proxy) udp_idle st) st log)) ->
  run cfg connect tun (Some (Ok (mkWS w h log))) udp_idle stack signals es st log =
    Some (Some (Ok tt), Some final) ->
  nothing_left final.
Proof.
  intros Hv Hp Hnew Ht Hes Hun Hrun. unfold new_route_controller, WindowsRoutes_new in Hnew.
  destruct (bypass_routes cfg) as [b |] eqn:Hb; [| done]. destruct (dns_addr cfg) as [d |]; [| done].
  injection Hnew as <-.
  apply (run_clean cfg proxy _ _ _ _ _ _ _ _ _ _ Hv Hp) in Hrun; try done.
  - by destruct Hrun as (H1 & H2 & _).
  - simpl. unfold routes_of, statics_of. by rewrite Ht.
  - intros s Hs. split; [exact I | by apply Hun].
Qed.

(** ** Witness *)

Module WinRunExample.
Definition manager : WindowsRoutes :=
  mkWR (V4 2130706433) "cortado0" [] false None (NetshDns.new "cortado0") (Some (V4 16843009)) false.
Definition host : Host := mkHost WinExample.reply [].
Definition events : list MainEvent := [ReloadReceived (Ok example_cfg); ShutdownReceived].

Definition ended_well (r : option (option (result unit) * option WS)) : bool :=
  match r with Some (Some (Ok _), Some _) => true | _ => false end.

Lemma win_run_ok_admits (r : result unit * WS) : is_ok r.1 = true -> exists s, r = (Ok tt, s) /\ ac_admits s.
Proof. destruct r as [[[] | e] s]; intros H; [by exists s | done]. Qed.
End WinRunExample.

Lemma win_run_restores_witness :
  exists final,
    run default_config (Connected (mkStream [] Eof [] [])) (Ok tt)
      (Some (Ok (mkWS WinRunExample.manager WinRunExample.host []))) 60 (Ok tt) (Ok tt)
      WinRunExample.events zero_counters [] = Some (Some (Ok tt), Some final) /\
    nothing_left final.
Proof.
  assert (Ho : WinRunExample.ended_well (run default_config (Connected (mkStream [] Eof [] [])) (Ok tt)
      (Some (Ok (mkWS WinRunExample.manager WinRunExample.host []))) 60 (Ok tt) (Ok tt)
      WinRunExample.events zero_counters []) = true) by (vm_compute; reflexivity).
  destruct (run default_config _ _ _ _ _ _ _ _ _) as [[[[[] | e] |] [final |]] |] eqn:E; try discriminate Ho.
  exists final. split; [reflexivity |].
  apply (win_run_restores WinRunExample.host default_config default_proxy "cortado0" false
    WinRunExample.manager (Connected (mkStream [] Eof [] [])) (Ok tt) 60 (Ok tt) (Ok tt)
    WinRunExample.events zero_counters [] final);
    [vm_compute; reflexivity | vm_compute; reflexivity | vm_compute; reflexivity | reflexivity |
     repeat constructor; vm_compute; reflexivity | | exact E].
  clear E Ho. intros s Hs. apply (f_equal snd) in Hs. cbn [snd] in Hs.
  assert (Hb : match ReloadPlan.compute default_config example_cfg with
               | Some p => is_ok (rc_reload p (snd (rc_apply (mkWS WinRunExample.manager WinRunExample.host [])))).1
               | None => true
               end = true) by (vm_compute; reflexivity).
  rewrite Hs in Hb. clear Hs. split; [| by destruct (apply_reload _ _)].
  intros p Hp _. apply WinRunExample.win_run_ok_admits. cbn [current_cfg route_manager] in Hp |- *. by rewrite Hp in Hb.
Defined.
